(* ===== verification/_CoqProject ===== *)
-Q . S2P
Prelude.v
Mem.v
Layout.v
CString.v
Pmm.v
Vmm.v
PortIO.v
Format.v
Serial.v
Panic.v
Heap.v
HeapInit.v
Sched.v
Preempt.v
Context.v
Timer.v
Keyboard.v
Gdt.v
Link.v
BootEntry.v
Idt.v
Fb.v
Apic.v
ApicTables.v
Kmain.v
VirtualCpu.v
Boot.v
BootLog.v
Multitask.v
LimineHeader.v
Requests.v
LimineFormat.v
LimineDisk.v
LimineUndo.v
LimineInstall.v
LimineRollback.v
LimineMbr.v
LimineGpt.v
LimineProgress.v
LimineGptInstall.v
LimineImage.v
LimineEnroll.v
Structs.v
