(* ===== verification/Prelude.v ===== *)
(** * Suika kernel and its boot-loader installer: verification development

    The repository holds a 64-bit kernel (src/src) that Limine boots, and the host
    tool of Limine (src/limine/limine.c) that installs the boot loader on a disk.
    Both are modelled here as executable functions on explicit state, with the
    theorems that make them correct. Paths below are relative to src/.

    ** Layout

    Prelude.v (this file): widths of C integers ([u8] .. [u64], [i8], [i32]: values
    are [Z], every conversion that can lose bits is written out), masks and fields,
    the loop [for_range], and the state-and-failure monad [prog S A = S -> option
    (A * S)]; [None] is a fault or a loop that did not end within its fuel.

    The kernel.
    - Mem.v: byte-addressed memory behind the class [AddrSpace] (loads, stores, and
      which addresses are backed), little-endian accesses of any width; its flat
      instance is the memory seen through the higher-half direct map.
    - Layout.v: sizes, alignments and member offsets of C structures as the psABI
      fixes them, with loads and stores of members; [layout_sound] says that members
      are aligned, in order, apart and as low as can be.
    - CString.v: string.c ([memset], [memcpy], [strlen], [strcmp]) over any
      [AddrSpace].
    - Pmm.v: memory/pmm.c, a free list threaded through the free frames. [pmm_rep]
      ties the list in memory to a list of frames; the session theorem refines
      [pmm_alloc] and [pmm_free] to a stack.
    - Vmm.v: memory/vmm.c, four-level page tables in memory. [pt_wf] says the tables
      form a tree; mapping, unmapping and translation are related to the page walk of
      the processor ([walk]) and its address computation ([resolve]).
    - Heap.v, HeapInit.v: memory/heap.c. [kmalloc] and [kfree] are proved against
      [AddrSpace]; HeapInit.v builds the instance they run on, a window of virtual
      pages over distinct frames, and shows that [heap_init] establishes it.
    - Sched.v: sched/scheduler.c, the table of tasks, creation and round robin.
    - Preempt.v: [task_create] with timer ticks between its statements.
    - Context.v: interrupts.asm, what a stub pushes and [isr_return] pops.
    - Link.v: config/linker.ld, the addresses of sections and symbols.
    - BootEntry.v: boot/boot.asm, the entry point and [gdt_flush], as code of a small
      processor with the instructions the file uses.
    - Kmain.v: the handlers of kmain.c; [interrupt] composes stub, handler,
      scheduler and return, the place where these components meet.
    - VirtualCpu.v: the kernel as a step relation (a task computes, an interrupt comes,
      a task is created) and the abstract machine it refines, one processor state per
      task; [has_vcpus] is the refinement relation.
    - Boot.v: [kmain] itself, all initialisers in order on one state of the kernel.
    - BootLog.v: what it transmits meanwhile, for each of its steps ([emits]).
    - Multitask.v: both together, from the hand-over of the boot loader to the turns
      of [init] and the two threads.
    - LimineHeader.v: limine.h, every request and response of the boot protocol as a
      structure of Layout.v, the identifiers, and what kmain.c places in the image.
    - Requests.v: [kmain] again, reading the responses of the loader from memory at
      the offsets of LimineHeader.v instead of taking their values as an argument.
    - PortIO.v, Serial.v, Format.v, Panic.v, Timer.v, Keyboard.v, Idt.v, Gdt.v: the
      drivers. A driver acts on the trace of its port accesses; the hardware is a
      function from the trace to the byte read next, and a theorem names what it
      needs of it (a UART whose transmitter empties in bounded time, for instance).
    - Fb.v: fb.c, refined to a terminal of character cells.
    - Apic.v: apic.c, the mapping of the local APIC from a static pool of tables;
      ApicTables.v: what that does to the page tables of Vmm.v.

    The tool, all in limine/limine.c.
    - LimineFormat.v: byte order, CHS addresses, partition types, checked sums.
    - LimineDisk.v: the block cache over a C stream. The stream is unbuffered and of
      fixed size; each transfer may fail after any number of bytes, as the argument
      [fault] says. [view] is the disk the cache shows, [dev_ok] its invariant.
    - LimineUndo.v: [_device_write] with its undo log, [uninstall], and the file of
      uninstall data. [undoable orig d] is the invariant of the log.
    - LimineInstall.v: the whole of [bios_install]; [io] is the monad of operations
      that may end at the label [cleanup].
    - LimineRollback.v: the logic [safe] (the log stays sufficient), and what a
      failed installation and an uninstallation leave.
    - LimineMbr.v: the logic [yields] (the effect of successful runs), and what an
      installation on an MBR device writes.
    - LimineGpt.v: the layout of a GUID partition table on the disk ([gpt_count],
      [entry_pos], [mbr_part], ...), and [yields] for the rest of [install].
    - LimineProgress.v: the logic [works] (total correctness on a device that works,
      with a bound on the entries of the undo log), for all of [install].
    - LimineGptInstall.v: what an installation on a GPT device leaves, with the table
      kept or, for an ISOHYBRID image, converted; and that it succeeds.
    - LimineImage.v: the bytes of limine-bios-hdd.h, and their installation.
    - LimineEnroll.v: [enroll_config], [version], [print_datadir], [main].

    Structs.v, last, holds the remaining structures of both programs and shows that the
    offsets written out elsewhere are those of the C declarations.

    ** What the theorems show

    - Memory: the physical allocator is a stack; mapping a page makes it translate
      to its frame and changes no other translation; the heap is first fit with
      splitting and coalescing, live regions never overlap and keep their contents.
    - Tasks: round robin is fair; creating a task is atomic to timer ticks; every task
      has a processor of its own: whatever the others compute, whichever interrupts
      come and whichever tasks are created, it resumes with exactly its registers, and
      a new one starts at its entry point on its own stack.
    - Boot: the entry point zeroes [.bss] and enters [kmain]; [gdt_flush] loads the
      segments of [gdt_init] without a fault; the sequence of [kmain] terminates with page
      tables, frame allocator, heap and scheduler in their invariants and both test
      threads ready to start, and its log on the serial line is known to the byte; run on
      the structures of the loader in memory, it computes what it computes on their
      values, since it writes to no byte it has yet to read.
    - Layouts: every request of the boot protocol can be answered through the header they
      share; the frame the assembly pushes is the [registers_t] of kernel.h, name by name.
    - Devices: what is transmitted, in which order, and that every wait ends; the
      keyboard is a bounded queue, also when interrupted; after [idt_init] every
      vector reaches its stub; a sleep ends, and not before its time; in a mode of 32 bits
      a pixel no text leaves the framebuffer.
    - The tool: the cache is invisible; a failed installation leaves the device
      unchanged when the device itself works; uninstalling restores it; an
      installation on an MBR device keeps every partition, one on a GPT device
      changes only its BIOS boot partition behind the boot sector, and one that
      converts a GPT writes exactly the MBR table of its partitions; on a device that
      works and passes the checks the installation does succeed, and the shipped
      image is then complete on the device.
    - Defects of the code are theorems too, named in the manifest's findings: the
      exclusion of the kernel image in [pmm_init], frame 0 on the free list, the
      wrap-around in [kmalloc], free neighbours left by [kfree], [task_exit] undone by
      the next tick, two creators that take one slot, the overflow in [timer_sleep] and
      its race between compare and [hlt], the memory-type bit taken for an address bit in
      a large page, the empty font, the pixel depth that is never looked at, a partial
      write that is not undone, the double free after a broken uninstall file, the search
      of [enroll_config] that stops too early, and the conversion of a GPT with blocks of
      4096 bytes, which wipes the volume descriptor of the ISO image.

    ** Bounds and fuel

    Loops of the code with a fixed range are [for_range] or structural recursion.
    Fuel appears where the bound comes from data or from the hardware, and each such
    function has a theorem that gives the fuel which is enough: the polling loops of
    the serial line ([uart_live]), the wait of [timer_sleep] (the ticks that come in each turn of its loop), the
    page loops of [pmm_init] and [fb_init], the chunk loops of the block cache (one
    more than the byte count), the signature search (27 steps per position).

    ** Assumptions and what is not modelled

    - A task of VirtualCpu.v may write anywhere but to the stacks of others and to the
      links of free frames: that the compiled kernel keeps to its stacks is assumed. No
      step ends a task ([task_exit] does not: see the findings).
    - Memory is sequentially consistent and uncached; TLB invalidations are recorded,
      stale entries are not simulated. One processor runs the kernel.
    - [lidt] and control registers are events without further effect, and so is [lgdt]
      outside BootEntry.v; the reloads of data segment registers in the interrupt stubs
      are left out. The Makefiles hold no program logic. Elsewhere than in Link.v the
      addresses the linker chooses are arguments.
    - limine.h is modelled in its branch for x86-64, without the enumeration constants
      that no code uses; the loader itself is not part of the repository: where its
      structures lie apart from page tables and usable frames is a hypothesis. Nothing
      else of the implementation is left to model: what remains are prototypes,
      includes, usage texts, and the branches of limine.h for other processors. The bytes of
      limine-bios-hdd.h are data of LimineImage.v; what they do when a BIOS runs them
      is not modelled. The theorems on the installer hold for any image of the sizes
      they name.
    - In the boot sequence the timer interrupts that come before the first sleep are
      taken together after [scheduler_init]; those between the creation of the threads
      and the loop (Preempt.v has what they do to one creation) and keys pressed
      meanwhile are left out.
      The boot loader's page tables are assumed to form a tree without sharing.
    - Of the tool: [malloc] and [realloc] succeed, streams are unbuffered and do not
      grow, messages on the terminal are left out, [rand] is an argument, and [long]
      has any width ([LONG_MAX] is an argument). *)

From Stdlib Require Export ZArith Lia.
From stdpp Require Export base numbers gmap list.

#[global] Open Scope Z_scope.

Create HintDb kernel.
Create HintDb word.
Create Rewrite HintDb word.

(** ** Fixed-width integers

    A C integer of an unsigned type is a [Z] in range; every operation that can
    leave the range is wrapped explicitly with the conversion of its type. *)

Definition u8 (x : Z) : Z := x mod 2 ^ 8.
Definition u16 (x : Z) : Z := x mod 2 ^ 16.
Definition u32 (x : Z) : Z := x mod 2 ^ 32.
Definition u64 (x : Z) : Z := x mod 2 ^ 64.

(** A plain [char] of the x86-64 psABI is signed. *)
Definition i8 (x : Z) : Z := (x + 2 ^ 7) mod 2 ^ 8 - 2 ^ 7.

(** [int]: two's complement on 32 bits. *)
Definition i32 (x : Z) : Z := (x + 2 ^ 31) mod 2 ^ 32 - 2 ^ 31.

(** [~m] for an [int] constant [m], converted to [uint64_t] by the usual
    arithmetic conversions, as in [x & ~0xFFF]. *)
Definition not64 (m : Z) : Z := u64 (Z.lnot m).

(** C truth value of an integer. *)
Definition truthy (x : Z) : bool := negb (x =? 0).

#[global] Arguments u8 : simpl never.
#[global] Arguments u16 : simpl never.
#[global] Arguments u32 : simpl never.
#[global] Arguments u64 : simpl never.
#[global] Arguments i8 : simpl never.
#[global] Arguments i32 : simpl never.
#[global] Arguments not64 : simpl never.
#[global] Arguments truthy : simpl never.

Ltac mlia := Z.div_mod_to_equations; lia.

Lemma u8_bound x : 0 <= u8 x < 2 ^ 8.
Proof. unfold u8. mlia. Qed.
Lemma u16_bound x : 0 <= u16 x < 2 ^ 16.
Proof. unfold u16. mlia. Qed.
Lemma u32_bound x : 0 <= u32 x < 2 ^ 32.
Proof. unfold u32. mlia. Qed.
Lemma u64_bound x : 0 <= u64 x < 2 ^ 64.
Proof. unfold u64. mlia. Qed.

Lemma u8_id x : 0 <= x < 2 ^ 8 -> u8 x = x.
Proof. intros. by apply Z.mod_small. Qed.
Lemma u16_id x : 0 <= x < 2 ^ 16 -> u16 x = x.
Proof. intros. by apply Z.mod_small. Qed.
Lemma u32_id x : 0 <= x < 2 ^ 32 -> u32 x = x.
Proof. intros. by apply Z.mod_small. Qed.
Lemma u64_id x : 0 <= x < 2 ^ 64 -> u64 x = x.
Proof. intros. by apply Z.mod_small. Qed.
Lemma i32_id x : - 2 ^ 31 <= x < 2 ^ 31 -> i32 x = x.
Proof. intros. unfold i32. rewrite Z.mod_small; lia. Qed.
Lemma i8_id x : - 2 ^ 7 <= x < 2 ^ 7 -> i8 x = x.
Proof. intros. unfold i8. rewrite Z.mod_small; lia. Qed.
Lemma u64_u64 x : u64 (u64 x) = u64 x.
Proof. apply u64_id, u64_bound. Qed.
Lemma u64_add_idemp_l x y : u64 (u64 x + y) = u64 (x + y).
Proof. unfold u64. by rewrite Zplus_mod_idemp_l. Qed.

#[export] Hint Resolve u8_bound u16_bound u32_bound u64_bound : word.
#[export] Hint Rewrite u64_u64 u64_add_idemp_l : word.

Lemma truthy_false x : truthy x = false <-> x = 0.
Proof. unfold truthy. rewrite negb_false_iff, Z.eqb_eq. done. Qed.
Lemma truthy_true x : truthy x = true <-> x <> 0.
Proof. unfold truthy. rewrite negb_true_iff, Z.eqb_neq. done. Qed.

(** ** Masks *)

(** Rounding down to a multiple of [2^k], as [x & ~(2^k - 1)] does. *)
Lemma not64_ones k : 0 <= k <= 64 -> not64 (Z.ones k) = Z.ldiff (Z.ones 64) (Z.ones k).
Proof.
  intros. unfold not64, u64. rewrite <-Z.land_ones by lia.
  apply Z.bits_inj'. intros i Hi.
  by rewrite Z.land_spec, Z.ldiff_spec, Z.lnot_spec, andb_comm by lia.
Qed.

Lemma land_not64_ones x k :
  0 <= k <= 64 -> 0 <= x < 2 ^ 64 ->
  Z.land x (not64 (Z.ones k)) = x - x mod 2 ^ k.
Proof.
  intros Hk Hx. rewrite not64_ones by done.
  rewrite <-Z.land_ones by lia.
  transitivity (Z.ldiff x (Z.ones k)).
  - apply Z.bits_inj'. intros i Hi.
    rewrite Z.land_spec, !Z.ldiff_spec, Z.testbit_ones_nonneg by lia.
    destruct (i <? 64) eqn:E; [done|].
    rewrite (Z.bits_above_log2 x); [done|lia|].
    destruct (decide (x = 0)) as [->|]; [cbn; lia|].
    enough (Z.log2 x < 64) by lia. apply Z.log2_lt_pow2; lia.
  - rewrite Z.sub_nocarry_ldiff.
    + apply Z.bits_inj'. intros i Hi.
      rewrite !Z.ldiff_spec, Z.land_spec. by destruct (Z.testbit x i), (Z.testbit _ i).
    + apply Z.bits_inj'. intros i Hi.
      rewrite Z.ldiff_spec, Z.land_spec, Z.bits_0.
      by destruct (Z.testbit x i), (Z.testbit _ i).
Qed.

Lemma land_page_mask x :
  0 <= x < 2 ^ 64 -> Z.land x (not64 0xFFF) = x - x mod 4096.
Proof. apply (land_not64_ones x 12); lia. Qed.

Lemma land_low_ones x k : 0 <= k -> Z.land x (Z.ones k) = x mod 2 ^ k.
Proof. apply Z.land_ones. Qed.

(** A contiguous bit field, [(x >> a) & (2^n - 1)]. *)
Lemma shift_mask_field x a n :
  0 <= a -> 0 <= n -> Z.land (Z.shiftr x a) (Z.ones n) = (x / 2 ^ a) mod 2 ^ n.
Proof. intros. by rewrite Z.land_ones, Z.shiftr_div_pow2 by lia. Qed.

(** Or-ing flags below an aligned value is addition. *)
Lemma lor_low_add x f k :
  0 <= k -> 0 <= f < 2 ^ k -> x mod 2 ^ k = 0 -> Z.lor x f = x + f.
Proof.
  intros Hk Hf Hx. symmetry. apply Z.add_nocarry_lor.
  rewrite <-(Z.mod_small f (2 ^ k)), <-Z.land_ones by lia.
  rewrite (Z.land_comm f), Z.land_assoc, Z.land_ones, Hx by lia. done.
Qed.

(** The high part of a word, [x & (2^m - 2^k)] as a bit field. *)
Lemma land_field_mask x k m :
  0 <= k <= m -> 0 <= x ->
  Z.land x (2 ^ m - 2 ^ k) = x mod 2 ^ m - x mod 2 ^ k.
Proof.
  intros Hk Hx.
  replace (2 ^ m - 2 ^ k) with (Z.ldiff (Z.ones m) (Z.ones k)).
  2: { rewrite <-Z.sub_nocarry_ldiff, !Z.ones_equiv; [lia|].
       apply Z.bits_inj'. intros i Hi.
       rewrite Z.ldiff_spec, !Z.testbit_ones_nonneg, Z.bits_0 by lia.
       destruct (i <? k) eqn:?, (i <? m) eqn:?; done || lia. }
  rewrite <-!Z.land_ones by lia. rewrite Z.sub_nocarry_ldiff.
  - apply Z.bits_inj'. intros i Hi.
    rewrite !Z.ldiff_spec, !Z.land_spec, !Z.ldiff_spec.
    by destruct (Z.testbit x i), (Z.testbit (Z.ones m) i), (Z.testbit (Z.ones k) i).
  - apply Z.bits_inj'. intros i Hi.
    rewrite Z.ldiff_spec, !Z.land_spec, !Z.testbit_ones_nonneg, Z.bits_0 by lia.
    destruct (i <? k) eqn:?, (i <? m) eqn:?, (Z.testbit x i); done || lia.
Qed.

(** Testing a single bit, [x & (1 << k)]. *)
Lemma truthy_land_bit x k : 0 <= k -> truthy (Z.land x (2 ^ k)) = Z.testbit x k.
Proof.
  intros Hk. destruct (Z.testbit x k) eqn:E.
  - apply truthy_true. intros H0.
    assert (Z.testbit (Z.land x (2 ^ k)) k = true) as Hb.
    { by rewrite Z.land_spec, E, Z.pow2_bits_true by lia. }
    by rewrite H0, Z.bits_0 in Hb.
  - apply truthy_false. apply Z.bits_inj'. intros i Hi.
    rewrite Z.land_spec, Z.pow2_bits_eqb, Z.bits_0 by lia.
    destruct (Z.eqb_spec k i) as [->|]; [by rewrite E|by rewrite andb_false_r].
Qed.

(** ** Counting loops: [for (i = lo; i < lo + n; i++) s = f i s] *)

Definition for_range {S} (lo n : Z) (f : Z -> S -> S) (s : S) : S :=
  foldl (fun s i => f i s) s (seqZ lo n).

Lemma for_range_nil {S} lo n (f : Z -> S -> S) s : n <= 0 -> for_range lo n f s = s.
Proof. intros. unfold for_range. by rewrite seqZ_nil. Qed.

Lemma for_range_S {S} lo n (f : Z -> S -> S) s :
  0 <= n -> for_range lo (n + 1) f s = f (lo + n) (for_range lo n f s).
Proof.
  intros. unfold for_range. rewrite seqZ_app by lia.
  rewrite foldl_app, (seqZ_cons _ 1), (seqZ_nil _ (Z.pred 1)) by lia. done.
Qed.

Lemma for_range_cons {S} lo n (f : Z -> S -> S) s :
  0 < n -> for_range lo n f s = for_range (lo + 1) (n - 1) f (f lo s).
Proof. intros. unfold for_range. rewrite seqZ_cons by lia. done. Qed.

(** The invariant rule of the loop. *)
Lemma for_range_ind {S} (P : Z -> S -> Prop) n (f : Z -> S -> S) s lo :
  0 <= n -> P 0 s ->
  (forall i s, 0 <= i < n -> P i s -> P (i + 1) (f (lo + i) s)) ->
  P n (for_range lo n f s).
Proof.
  intros Hn H0 Hstep.
  assert (forall k, 0 <= k -> k <= n -> P k (for_range lo k f s)) as H.
  { intros k Hk. pattern k. apply natlike_ind; [| |done].
    - intros _. rewrite for_range_nil by lia. done.
    - intros x Hx IH Hle. rewrite <-Z.add_1_r, for_range_S by lia.
      apply Hstep; [lia|]. apply IH. lia. }
  apply H; lia.
Qed.

Lemma for_range_shift {S} k lo n (f : Z -> S -> S) s :
  for_range lo n (fun i => f (i + k)) s = for_range (lo + k) n f s.
Proof.
  unfold for_range. rewrite (Z.add_comm lo), <-(fmap_add_seqZ k lo). generalize (seqZ lo n) as l.
  intros l. revert s. induction l as [|i l IH]; intros s; [done|]. cbn. rewrite IH.
  by rewrite (Z.add_comm k).
Qed.

Lemma for_range_ext {S} lo n (f g : Z -> S -> S) s :
  (forall i s, lo <= i < lo + n -> f i s = g i s) -> for_range lo n f s = for_range lo n g s.
Proof.
  unfold for_range. intros Hfg.
  assert (Hl : Forall (fun i => lo <= i < lo + n) (seqZ lo n)).
  { apply Forall_forall. intros i Hi%elem_of_seqZ. lia. }
  revert s. induction Hl as [|i l Hi _ IH]; intros s; [done|]. cbn. by rewrite Hfg.
Qed.

#[global] Opaque for_range.

(** ** Decidability *)

Lemma not_and_ne (a a' b b' : Z) : ~ (a = a' /\ b = b') -> a <> a' \/ b <> b'.
Proof. destruct (decide (a = a')) as [->|]; [right|by left]. intros ->. tauto. Qed.

(** A decidable fact about all numbers below a bound, by evaluation. *)
Lemma forall_below (n : Z) (P : Z -> Prop) `{forall i, Decision (P i)} :
  forallb (fun i => bool_decide (P i)) (seqZ 0 n) = true -> forall i, 0 <= i < n -> P i.
Proof.
  intros Hb i Hi. rewrite forallb_forall in Hb. eapply bool_decide_eq_true_1, Hb.
  apply list_elem_of_In, elem_of_seqZ. lia.
Qed.

Ltac below :=
  match goal with
  | |- forall i, 0 <= i < ?n -> @?P i => refine (forall_below n P _); vm_compute; reflexivity
  end.

(** ** Lists *)

Lemma elem_of_rev {A} (l : list A) x : x ∈ rev l <-> x ∈ l.
Proof. by rewrite !list_elem_of_In, <-in_rev. Qed.

Lemma NoDup_rev_1 {A} (l : list A) : NoDup l -> NoDup (rev l).
Proof. by rewrite <-Permutation_rev. Qed.

(** ** A state monad with divergence

    [None]: the fuel given to a polling loop is exhausted. *)

Definition prog (S A : Type) : Type := S -> option (A * S).

Definition pret {S A} (a : A) : prog S A := fun s => Some (a, s).
Definition pbind {S A B} (m : prog S A) (k : A -> prog S B) : prog S B :=
  fun s => match m s with Some (a, s') => k a s' | None => None end.
Definition pdiverge {S A} : prog S A := fun _ => None.
Definition pget {S} : prog S S := fun s => Some (s, s).
Definition pmodify {S} (f : S -> S) : prog S unit := fun s => Some (tt, f s).

Declare Scope prog_scope.
Delimit Scope prog_scope with prog.
Notation "'let*' x ':=' m 'in' k" := (pbind m (fun x => k))
  (at level 10, x pattern, m at level 100, k at level 200) : prog_scope.
Notation "m ';;' k" := (pbind m (fun _ => k))
  (at level 100, k at level 200, right associativity) : prog_scope.

Lemma pbind_Some {S A B} (m : prog S A) (k : A -> prog S B) s r :
  pbind m k s = Some r <-> exists a s', m s = Some (a, s') /\ k a s' = Some r.
Proof.
  unfold pbind. split.
  - destruct (m s) as [[a s']|] eqn:E; [|done]. eauto.
  - intros (a & s' & -> & ?). done.
Qed.

Lemma pbind_step {S A B} (m : prog S A) (k : A -> prog S B) s a s' :
  m s = Some (a, s') -> pbind m k s = k a s'.
Proof. unfold pbind. by intros ->. Qed.

(** Running a program once per element of a list. *)
Fixpoint pfor {S A} (f : A -> prog S unit) (l : list A) : prog S unit :=
  match l with
  | [] => pret tt
  | x :: l => pbind (f x) (fun _ => pfor f l)
  end.
