(* ===== verification/Mem.v ===== *)
(** Byte-addressed memory as the kernel's pointer dereferences see it: an
    interface [AddrSpace] of byte loads and stores, little-endian accesses of
    any width derived from it, and the instance for the flat memory of the
    higher-half direct map. *)

From S2P Require Import Prelude.

(** ** Address spaces

    A component that dereferences pointers is written against this interface:
    [vok s a] says that address [a] may be accessed in state [s]. *)

Class AddrSpace (S : Type) := {
  vld8 : S -> Z -> Z;
  vst8 : S -> Z -> Z -> S;
  vok : S -> Z -> Prop;
}.

Class AddrSpaceLaws (S : Type) `{AddrSpace S} := {
  vld8_bound : forall s a, 0 <= vld8 s a < 2 ^ 8;
  vld8_vst8_eq : forall s a v, vok s a -> vld8 (vst8 s a v) a = u8 v;
  vld8_vst8_ne : forall s a b v,
    vok s a -> vok s b -> a <> b -> vld8 (vst8 s a v) b = vld8 s b;
  vok_vst8 : forall s a b v, vok s a -> vok (vst8 s a v) b <-> vok s b;
}.

Section Access.
Context {S : Type} `{AddrSpace S}.

(** Little-endian accesses of [n] bytes. *)
Fixpoint ld_le (n : nat) (s : S) (a : Z) : Z :=
  match n with
  | O => 0
  | Datatypes.S n => vld8 s a + 2 ^ 8 * ld_le n s (a + 1)
  end.

Fixpoint st_le (n : nat) (s : S) (a v : Z) : S :=
  match n with
  | O => s
  | Datatypes.S n => st_le n (vst8 s a v) (a + 1) (v / 2 ^ 8)
  end.

Definition ld32 := ld_le 4.
Definition ld64 := ld_le 8.
Definition st32 := st_le 4.
Definition st64 := st_le 8.

(** All of [a, a+n) is accessible. *)
Definition vok_range (s : S) (a n : Z) : Prop := forall x, a <= x < a + n -> vok s x.

(** Two states hold the same bytes on [a, a+n). *)
Definition agree (s s' : S) (a n : Z) : Prop :=
  forall x, a <= x < a + n -> vld8 s' x = vld8 s x.
End Access.

Section AccessLaws.
Context {S : Type} `{AddrSpaceLaws S}.
Implicit Types s : S.

Lemma ld_le_bound n s a : 0 <= ld_le n s a < 2 ^ (8 * Z.of_nat n).
Proof.
  revert a. induction n as [|n IH]; intros a; [cbn; lia|].
  cbn [ld_le]. specialize (IH (a + 1)). pose proof (vld8_bound s a).
  replace (8 * Z.of_nat (Datatypes.S n)) with (8 + 8 * Z.of_nat n) by lia.
  rewrite Z.pow_add_r by lia. lia.
Qed.

Lemma ld64_bound s a : 0 <= ld64 s a < 2 ^ 64.
Proof. apply (ld_le_bound 8). Qed.
Lemma ld32_bound s a : 0 <= ld32 s a < 2 ^ 32.
Proof. apply (ld_le_bound 4). Qed.

Lemma ld_le_agree n s s' a : agree s s' a (Z.of_nat n) -> ld_le n s' a = ld_le n s a.
Proof.
  revert a. induction n as [|n IH]; intros a Ha; [done|].
  cbn [ld_le]. rewrite Ha, IH; [done| |lia].
  intros x Hx. apply Ha. lia.
Qed.

Lemma vok_st_le n s a v x :
  vok_range s a (Z.of_nat n) -> vok (st_le n s a v) x <-> vok s x.
Proof.
  revert s a v. induction n as [|n IH]; intros s a v Hr; [done|].
  cbn [st_le]. assert (vok s a) by (apply Hr; lia).
  rewrite IH; [by apply vok_vst8|].
  intros y Hy. apply vok_vst8; [done|]. apply Hr. lia.
Qed.

(** Every byte of the memory after a store. *)
Lemma vld8_st_le n s a v x :
  vok_range s a (Z.of_nat n) -> vok s x ->
  vld8 (st_le n s a v) x =
    if decide (a <= x < a + Z.of_nat n) then u8 (v / 2 ^ (8 * (x - a))) else vld8 s x.
Proof.
  revert s a v. induction n as [|n IH]; intros s a v Hr Hx.
  { rewrite decide_False by lia. done. }
  assert (vok s a) as Ha by (apply Hr; lia).
  cbn [st_le]. rewrite IH.
  2: { intros y Hy. apply vok_vst8; [done|]. apply Hr. lia. }
  2: by apply vok_vst8.
  destruct (decide (x = a)) as [->|Hne].
  - rewrite decide_False, decide_True by lia.
    rewrite vld8_vst8_eq by done. rewrite Z.sub_diag. by rewrite Z.div_1_r.
  - rewrite vld8_vst8_ne by done.
    destruct (decide (a + 1 <= x < a + 1 + Z.of_nat n)).
    + rewrite decide_True by lia. f_equal.
      rewrite Z.div_div by lia. f_equal.
      rewrite <-Z.pow_add_r by lia. f_equal. lia.
    + by rewrite decide_False by lia.
Qed.

Lemma st_le_agree n s a v b k :
  vok_range s a (Z.of_nat n) -> vok_range s b k ->
  b + k <= a \/ a + Z.of_nat n <= b -> agree s (st_le n s a v) b k.
Proof.
  intros Ha Hb Hd x Hx. rewrite vld8_st_le by auto. by rewrite decide_False by lia.
Qed.

(** Load after store, at the same address ... *)
Lemma ld_st_le_eq n s a v :
  vok_range s a (Z.of_nat n) -> ld_le n (st_le n s a v) a = v mod 2 ^ (8 * Z.of_nat n).
Proof.
  revert s a v. induction n as [|n IH]; intros s a v Hr.
  { cbn. by rewrite Z.mod_1_r. }
  assert (vok s a) as Ha by (apply Hr; lia).
  assert (vok_range (vst8 s a v) (a + 1) (Z.of_nat n)) as Hr'.
  { intros y Hy. apply vok_vst8; [done|]. apply Hr. lia. }
  cbn [ld_le st_le]. rewrite IH by done.
  rewrite vld8_st_le by (done || by apply vok_vst8).
  rewrite decide_False, vld8_vst8_eq by (lia || done). unfold u8.
  replace (8 * Z.of_nat (Datatypes.S n)) with (8 + 8 * Z.of_nat n) by lia.
  rewrite Z.pow_add_r, Z.rem_mul_r by lia. lia.
Qed.

(** ... and elsewhere. *)
Lemma ld_st_le_ne n m s a v b :
  vok_range s a (Z.of_nat n) -> vok_range s b (Z.of_nat m) ->
  b + Z.of_nat m <= a \/ a + Z.of_nat n <= b ->
  ld_le m (st_le n s a v) b = ld_le m s b.
Proof. intros. apply ld_le_agree. by apply st_le_agree. Qed.

Lemma ld64_st64_eq s a v : vok_range s a 8 -> ld64 (st64 s a v) a = u64 v.
Proof. apply (ld_st_le_eq 8). Qed.
Lemma ld64_st64_ne s a v b :
  vok_range s a 8 -> vok_range s b 8 -> b + 8 <= a \/ a + 8 <= b ->
  ld64 (st64 s a v) b = ld64 s b.
Proof. apply (ld_st_le_ne 8 8). Qed.
Lemma ld32_st32_eq s a v : vok_range s a 4 -> ld32 (st32 s a v) a = u32 v.
Proof. apply (ld_st_le_eq 4). Qed.
Lemma ld32_st32_ne s a v b :
  vok_range s a 4 -> vok_range s b 4 -> b + 4 <= a \/ a + 4 <= b ->
  ld32 (st32 s a v) b = ld32 s b.
Proof. apply (ld_st_le_ne 4 4). Qed.
Lemma ld64_st32_ne s a v b :
  vok_range s a 4 -> vok_range s b 8 -> b + 8 <= a \/ a + 4 <= b ->
  ld64 (st32 s a v) b = ld64 s b.
Proof. apply (ld_st_le_ne 4 8). Qed.
Lemma ld32_st64_ne s a v b :
  vok_range s a 8 -> vok_range s b 4 -> b + 4 <= a \/ a + 8 <= b ->
  ld32 (st64 s a v) b = ld32 s b.
Proof. apply (ld_st_le_ne 8 4). Qed.

Lemma vok_st64 s a v x : vok_range s a 8 -> vok (st64 s a v) x <-> vok s x.
Proof. apply (vok_st_le 8). Qed.
Lemma vok_st32 s a v x : vok_range s a 4 -> vok (st32 s a v) x <-> vok s x.
Proof. apply (vok_st_le 4). Qed.

Lemma vok_range_sub s a n b k : vok_range s a n -> a <= b -> b + k <= a + n -> vok_range s b k.
Proof. intros Hv ?? x Hx. apply Hv. lia. Qed.
Lemma vok_range_st64 s x v a n :
  vok_range s x 8 -> vok_range s a n -> vok_range (st64 s x v) a n.
Proof. intros Hx Ha y Hy. apply vok_st64; [done|]. by apply Ha. Qed.
Lemma vok_range_st32 s x v a n :
  vok_range s x 4 -> vok_range s a n -> vok_range (st32 s x v) a n.
Proof. intros Hx Ha y Hy. apply vok_st32; [done|]. by apply Ha. Qed.

Lemma vld8_st64_ne s a v x :
  vok_range s a 8 -> vok s x -> ~ (a <= x < a + 8) -> vld8 (st64 s a v) x = vld8 s x.
Proof. intros Ha Hx Hne. unfold st64. rewrite vld8_st_le by done. by rewrite decide_False by lia. Qed.
Lemma vld8_st32_ne s a v x :
  vok_range s a 4 -> vok s x -> ~ (a <= x < a + 4) -> vld8 (st32 s a v) x = vld8 s x.
Proof. intros Ha Hx Hne. unfold st32. rewrite vld8_st_le by done. by rewrite decide_False by lia. Qed.

Lemma agree_refl s a n : agree s s a n.
Proof. by intros x Hx. Qed.
Lemma agree_trans s1 s2 s3 a n : agree s1 s2 a n -> agree s2 s3 a n -> agree s1 s3 a n.
Proof. intros H1 H2 x Hx. by rewrite H2, H1. Qed.
Lemma agree_sub s s' a n b k :
  agree s s' a n -> a <= b -> b + k <= a + n -> agree s s' b k.
Proof. intros Ha ?? x Hx. apply Ha. lia. Qed.
Lemma ld64_agree s s' a : agree s s' a 8 -> ld64 s' a = ld64 s a.
Proof. apply (ld_le_agree 8). Qed.
Lemma ld32_agree s s' a : agree s s' a 4 -> ld32 s' a = ld32 s a.
Proof. apply (ld_le_agree 4). Qed.

(** Loads from a range of zero bytes. *)
Lemma ld_le_zero n s a :
  (forall x, a <= x < a + Z.of_nat n -> vld8 s x = 0) -> ld_le n s a = 0.
Proof.
  revert a. induction n as [|n IH]; intros a Hz; [done|].
  cbn [ld_le]. rewrite Hz, IH; [done| |lia]. intros. apply Hz. lia.
Qed.
End AccessLaws.

(** Accessibility of a range inside an accessible one, through any stores; and
    loads through stores at known distances. *)
Ltac vok :=
  lazymatch goal with
  | |- vok_range (st64 _ _ _) _ _ => apply vok_range_st64; vok
  | |- vok_range (st32 _ _ _) _ _ => apply vok_range_st32; vok
  | |- vok_range _ _ _ => solve [eapply vok_range_sub; [eassumption|lia|lia]]
  end.

Ltac ld_st :=
  repeat first
    [ rewrite ld64_st64_eq by vok | rewrite ld32_st32_eq by vok
    | rewrite ld64_st64_ne by (vok || lia) | rewrite ld64_st32_ne by (vok || lia)
    | rewrite ld32_st64_ne by (vok || lia) | rewrite ld32_st32_ne by (vok || lia) ].

#[global] Arguments ld_le : simpl never.
#[global] Arguments st_le : simpl never.
#[global] Arguments ld32 : simpl never.
#[global] Arguments ld64 : simpl never.
#[global] Arguments st32 : simpl never.
#[global] Arguments st64 : simpl never.

(** ** Flat memory

    Memory reached through the higher-half direct map: the key is the virtual
    address [hhdm + phys] the code computes, a missing key is a zero byte. The
    boot loader maps all of it, so every address is accessible. *)

Abbreviation mem := (gmap Z Z).

#[export] Instance mem_addr_space : AddrSpace mem := {|
  vld8 := fun m a => u8 (default 0 (m !! a));
  vst8 := fun m a v => <[a := u8 v]> m;
  vok := fun _ _ => True;
|}.

#[export] Instance mem_addr_space_laws : AddrSpaceLaws mem.
Proof.
  split; cbn.
  - intros. apply u8_bound.
  - intros m a v _. rewrite lookup_insert_eq. cbn. apply u8_id, u8_bound.
  - intros m a b v _ _ Hne. by rewrite lookup_insert_ne.
  - done.
Qed.

Lemma mem_vok_range (m : mem) a n : vok_range m a n.
Proof. by intros x Hx. Qed.
#[export] Hint Resolve mem_vok_range : kernel.

Lemma mem_vst8_eq (m : mem) a v : vld8 (vst8 m a v) a = u8 v.
Proof. by apply vld8_vst8_eq. Qed.
Lemma mem_vst8_ne (m : mem) a b v : a <> b -> vld8 (vst8 m a v) b = vld8 m b.
Proof. intros. by apply vld8_vst8_ne. Qed.
