(* ===== verification/Layout.v ===== *)
(** Layout of C structures, as the System V psABI for x86-64 fixes it for the
    structures the program shares with the hardware, the boot loader and its own
    assembly: size and alignment of a type, the offset of each member, loads and
    stores of members. *)

From Stdlib Require Import String.
From S2P Require Import Prelude Mem.

(** ** Types *)

Record ctype := CType { sizeof : Z; alignof : Z }.

(** A scalar is aligned to its size; a pointer has 8 bytes. *)
Definition scalar (n : Z) : ctype := CType n n.
Definition uint8_t : ctype := scalar 1.
Definition uint16_t : ctype := scalar 2.
Definition uint32_t : ctype := scalar 4.
Definition uint64_t : ctype := scalar 8.
Definition int64_t : ctype := scalar 8.
Definition ptr : ctype := scalar 8.

Definition array (t : ctype) (n : Z) : ctype := CType (n * sizeof t) (alignof t).

Record cstruct := CStruct { packed : bool; members : list (string * ctype) }.

Definition align_up (x a : Z) : Z := (x + (a - 1)) / a * a.

Section Placement.
Context (pk : bool).

Definition member_align (t : ctype) : Z := if pk then 1 else alignof t.

(** Each member goes to the next offset its alignment allows. *)
Fixpoint offsets (off : Z) (ts : list ctype) : list Z :=
  match ts with
  | [] => []
  | t :: ts => let o := align_up off (member_align t) in o :: offsets (o + sizeof t) ts
  end.

(** The end of the last member. *)
Fixpoint extent (off : Z) (ts : list ctype) : Z :=
  match ts with
  | [] => off
  | t :: ts => extent (align_up off (member_align t) + sizeof t) ts
  end.

Definition largest_align (ts : list ctype) : Z := foldr (fun t a => Z.max (member_align t) a) 1 ts.
End Placement.

Definition types (s : cstruct) : list ctype := (members s).*2.
Definition member_offsets (s : cstruct) : list Z := offsets (packed s) 0 (types s).

(** The structure as a type of its own: padded to a multiple of its alignment. *)
Definition struct_type (s : cstruct) : ctype :=
  let a := largest_align (packed s) (types s) in CType (align_up (extent (packed s) 0 (types s)) a) a.

(** The place and the type of the member [f]. *)
Fixpoint find_member (f : string) (os : list Z) (ms : list (string * ctype)) : option (Z * ctype) :=
  match os, ms with
  | o :: os, (g, t) :: ms => if String.eqb f g then Some (o, t) else find_member f os ms
  | _, _ => None
  end.

Definition member (s : cstruct) (f : string) : option (Z * ctype) :=
  find_member f (member_offsets s) (members s).

Definition offsetof (s : cstruct) (f : string) : option Z := fst <$> member s f.

(** [p->f] on the right and on the left of an assignment, for a scalar member [f] of
    [*p]; [None]: there is no such member. *)
Section Fields.
Context {S : Type} `{AddrSpace S}.

Definition ld_field (st : cstruct) (f : string) (s : S) (p : Z) : option Z :=
  (fun ot => ld_le (Z.to_nat (sizeof ot.2)) s (p + ot.1)) <$> member st f.

Definition st_field (st : cstruct) (f : string) (s : S) (p v : Z) : option S :=
  (fun ot => st_le (Z.to_nat (sizeof ot.2)) s (p + ot.1) v) <$> member st f.
End Fields.

(** ** Well-formed types *)

(** A power-of-two alignment would be more than is needed: arrays of the type stay
    aligned because its size is a multiple of its alignment. *)
Definition type_ok (t : ctype) : Prop := 0 < alignof t /\ 0 <= sizeof t /\ (alignof t | sizeof t).

#[export] Instance type_ok_dec t : Decision (type_ok t).
Proof.
  unfold type_ok. refine (cast_if (decide (0 < alignof t /\ 0 <= sizeof t /\ sizeof t mod alignof t = 0)));
    abstract (destruct (decide (0 < alignof t)); [rewrite <-Z.mod_divide by lia|]; tauto).
Defined.

Definition struct_ok (s : cstruct) : Prop := Forall type_ok (types s).

#[export] Instance struct_ok_dec s : Decision (struct_ok s).
Proof. unfold struct_ok. apply _. Defined.

Lemma align_up_spec x a : 0 < a ->
  x <= align_up x a < x + a /\ (a | align_up x a) /\ forall y, x <= y -> (a | y) -> align_up x a <= y.
Proof.
  intros Ha. unfold align_up.
  pose proof (Z.div_mod (x + (a - 1)) a ltac:(lia)) as E. pose proof (Z.mod_pos_bound (x + (a - 1)) a Ha) as B.
  split; [lia|]. split; [apply Z.divide_factor_r|]. intros y Hy [k ->].
  apply Z.mul_le_mono_nonneg_r; [lia|]. apply Z.lt_succ_r, Z.div_lt_upper_bound; [done|]. nia.
Qed.

Lemma member_align_pos pk t : type_ok t -> 0 < member_align pk t.
Proof. intros (? & _). unfold member_align. by destruct pk; lia. Qed.

(** Where members may go: each at a multiple of its alignment, after the one before. *)
Fixpoint placed (pk : bool) (off : Z) (ts : list ctype) (os : list Z) : Prop :=
  match ts, os with
  | [], [] => True
  | t :: ts, o :: os => off <= o /\ (member_align pk t | o) /\ placed pk (o + sizeof t) ts os
  | _, _ => False
  end.

Lemma offsets_placed pk off ts : Forall type_ok ts -> placed pk off ts (offsets pk off ts).
Proof.
  intros Hok. revert off. induction Hok as [|t ts Ht _ IH]; intros off; [done|]. cbn [offsets placed].
  destruct (align_up_spec off (member_align pk t) (member_align_pos pk t Ht)) as (? & ? & _).
  split; [lia|]. by split.
Qed.

Lemma placed_aligned pk off ts os i o t :
  placed pk off ts os -> os !! i = Some o -> ts !! i = Some t -> (member_align pk t | o).
Proof.
  revert off os i. induction ts as [|u ts IH]; intros off [|q os] [|i]; try done; intros (_ & Hd & Hp).
  - by intros [= ->] [= ->].
  - by apply (IH _ os i Hp).
Qed.

Lemma offsets_least pk ts : Forall type_ok ts -> forall off off' os,
  off <= off' -> placed pk off' ts os -> Forall2 Z.le (offsets pk off ts) os.
Proof.
  intros Hok. induction Hok as [|t ts Ht _ IH]; intros off off' [|o os] Hle Hp; try done.
  destruct Hp as (Ho & Hd & Hp). cbn [offsets].
  assert (Hao : align_up off (member_align pk t) <= o).
  { apply (align_up_spec off _ (member_align_pos pk t Ht)); [lia|done]. }
  constructor; [done|]. apply (IH _ (o + sizeof t)); [lia|done].
Qed.

Lemma extent_ge pk off ts : Forall type_ok ts -> off <= extent pk off ts.
Proof.
  intros Hok. revert off. induction Hok as [|t ts Ht _ IH]; intros off; [done|]. cbn [extent].
  destruct (align_up_spec off (member_align pk t) (member_align_pos pk t Ht)) as (? & _).
  destruct Ht as (_ & ? & _). etrans; [|apply IH]. lia.
Qed.

(** Every member lies between the start of the rest and its end. *)
Lemma offsets_within pk off ts i o t :
  Forall type_ok ts -> offsets pk off ts !! i = Some o -> ts !! i = Some t ->
  off <= o /\ o + sizeof t <= extent pk off ts.
Proof.
  intros Hok. revert off i. induction Hok as [|u ts Hu Hts IH]; intros off i Ho Ht; [done|].
  destruct (align_up_spec off (member_align pk u) (member_align_pos pk u Hu)) as (? & _).
  pose proof Hu as (_ & ? & _). cbn [offsets extent] in *. destruct i as [|i].
  - injection Ho as <-. injection Ht as <-. split; [lia|]. by apply extent_ge.
  - destruct (IH _ i Ho Ht) as [? ?]. split; [lia|done].
Qed.

Lemma length_offsets pk off ts : length (offsets pk off ts) = length ts.
Proof. revert off. induction ts as [|t ts IH]; intros off; cbn; [done|]. by rewrite IH. Qed.

Lemma offsets_disjoint pk off ts i j o p t :
  Forall type_ok ts -> (i < j)%nat -> offsets pk off ts !! i = Some o -> ts !! i = Some t ->
  offsets pk off ts !! j = Some p -> o + sizeof t <= p.
Proof.
  intros Hok. revert off i j. induction Hok as [|u ts Hu Hts IH]; intros off i j Hij Ho Ht Hp; [done|].
  destruct j as [|j]; [lia|]. cbn [offsets] in *. destruct i as [|i].
  - injection Ho as <-. injection Ht as <-. cbn in Hp.
    destruct (lookup_lt_is_Some_2 ts j) as [u' Eu].
    { apply lookup_lt_Some in Hp. by rewrite length_offsets in Hp. }
    by apply (offsets_within pk (align_up off (member_align pk u) + sizeof u) ts j p u' Hts Hp Eu).
  - apply Nat.succ_lt_mono in Hij. by eapply IH.
Qed.

Lemma largest_align_pos pk ts : 0 < largest_align pk ts.
Proof. unfold largest_align. induction ts; cbn; lia. Qed.

(** ** Members *)

Lemma find_member_lookup f os ms o t :
  find_member f os ms = Some (o, t) -> exists i, os !! i = Some o /\ ms !! i = Some (f, t).
Proof.
  revert os. induction ms as [|[g u] ms IH]; intros [|p os]; try done. cbn [find_member].
  destruct (String.eqb_spec f g) as [->|_]; [intros [= <- <-]; by exists 0%nat|].
  intros (i & ? & ?)%IH. by exists (S i).
Qed.

Lemma member_lookup s f o t :
  member s f = Some (o, t) -> exists i, member_offsets s !! i = Some o /\ types s !! i = Some t /\ (members s) !! i = Some (f, t).
Proof.
  intros (i & Ho & Hm)%find_member_lookup. exists i. split; [done|]. split; [|done].
  unfold types. by rewrite list_lookup_fmap, Hm.
Qed.

Lemma member_within s f o t :
  struct_ok s -> member s f = Some (o, t) -> 0 <= o /\ 0 <= sizeof t /\ o + sizeof t <= sizeof (struct_type s).
Proof.
  intros Hok (i & Ho & Ht & _)%member_lookup. destruct (offsets_within _ _ _ _ _ _ Hok Ho Ht) as [? He].
  pose proof Hok as Hok'. unfold struct_ok in Hok'. rewrite Forall_lookup in Hok'. destruct (Hok' i t Ht) as (_ & ? & _).
  destruct (align_up_spec (extent (packed s) 0 (types s)) _ (largest_align_pos (packed s) (types s))) as (? & _).
  cbn. lia.
Qed.

(** Two members do not meet. *)
Lemma members_apart s f g o t p u :
  struct_ok s -> member s f = Some (o, t) -> member s g = Some (p, u) -> f <> g ->
  o + sizeof t <= p \/ p + sizeof u <= o.
Proof.
  intros Hok (i & Ho & Ht & Hi)%member_lookup (j & Hp & Hu & Hj)%member_lookup Hne.
  destruct (lt_eq_lt_dec i j) as [[Hij| ->]|Hij].
  - left. by apply (offsets_disjoint (packed s) 0 (types s) i j o p t).
  - congruence.
  - right. by apply (offsets_disjoint (packed s) 0 (types s) j i p o u).
Qed.

Section FieldLaws.
Context {S : Type} `{AddrSpaceLaws S}.
Implicit Types s : S.

(** Reading a member after writing the same one, and after writing another. *)
Lemma ld_st_field_eq st f s p v s' o t :
  struct_ok st -> member st f = Some (o, t) -> vok_range s p (sizeof (struct_type st)) ->
  st_field st f s p v = Some s' -> ld_field st f s' p = Some (v mod 2 ^ (8 * sizeof t)).
Proof.
  intros Hok Hm Hv E. unfold st_field in E. unfold ld_field. rewrite Hm in *. cbn in E |- *. injection E as <-.
  destruct (member_within st f o t Hok Hm) as (? & ? & ?).
  rewrite ld_st_le_eq by (eapply vok_range_sub; [exact Hv|lia|lia]). by rewrite Z2Nat.id by lia.
Qed.

Lemma ld_st_field_ne st f g s p v s' :
  struct_ok st -> f <> g -> vok_range s p (sizeof (struct_type st)) ->
  st_field st f s p v = Some s' -> ld_field st g s' p = ld_field st g s p.
Proof.
  intros Hok Hne Hv E. unfold st_field in E. unfold ld_field.
  destruct (member st f) as [[o t]|] eqn:Hf; [|done]. destruct (member st g) as [[q u]|] eqn:Hg; [|done].
  cbn in E |- *. injection E as <-. f_equal.
  destruct (member_within st f o t Hok Hf) as (? & ? & ?), (member_within st g q u Hok Hg) as (? & ? & ?).
  pose proof (members_apart st f g o t q u Hok Hf Hg Hne).
  apply ld_st_le_ne; [eapply vok_range_sub; [exact Hv|lia|lia]..|lia].
Qed.

(** A member reads the same in states that agree on the structure. *)
Lemma ld_field_agree st f s s' p :
  struct_ok st -> agree s s' p (sizeof (struct_type st)) -> ld_field st f s' p = ld_field st f s p.
Proof.
  intros Hok Ha. unfold ld_field. destruct (member st f) as [[o t]|] eqn:Hf; [|done]. cbn. f_equal.
  destruct (member_within st f o t Hok Hf) as (? & ? & ?). apply ld_le_agree. eapply agree_sub; [exact Ha|lia|lia].
Qed.
End FieldLaws.

(** The layout of a structure is sound and tight: its members lie inside it, in the
    order of their declaration, without overlap, each at a multiple of its alignment
    (of one byte, if the structure is packed); its size is the smallest multiple of its
    alignment that holds them; and no other placement in that order puts any member
    lower. *)
Theorem layout_sound s :
  struct_ok s ->
  (forall i o t, member_offsets s !! i = Some o -> types s !! i = Some t ->
     0 <= o /\ o + sizeof t <= sizeof (struct_type s) /\ (member_align (packed s) t | o)) /\
  (forall i j o p t, (i < j)%nat -> member_offsets s !! i = Some o -> types s !! i = Some t ->
     member_offsets s !! j = Some p -> o + sizeof t <= p) /\
  (forall os, placed (packed s) 0 (types s) os -> Forall2 Z.le (member_offsets s) os) /\
  type_ok (struct_type s) /\ sizeof (struct_type s) < extent (packed s) 0 (types s) + alignof (struct_type s).
Proof.
  intros Hok. pose proof (largest_align_pos (packed s) (types s)) as Hpos.
  destruct (align_up_spec (extent (packed s) 0 (types s)) _ Hpos) as (Hb & Hd & _).
  pose proof (extent_ge (packed s) 0 (types s) Hok) as H0.
  split; [|split; [|split; [|split]]].
  - intros i o t Ho Ht. destruct (offsets_within _ _ _ _ _ _ Hok Ho Ht) as [? ?]. split; [done|]. split; [cbn; lia|].
    by eapply placed_aligned; [by apply offsets_placed| |].
  - intros. by eapply offsets_disjoint.
  - intros os. by apply (offsets_least _ _ Hok 0 0).
  - split; [exact Hpos|]. split; [cbn; lia|exact Hd].
  - cbn. lia.
Qed.
