(* ===== verification/CString.v ===== *)
(** [src/kernel/string.c]: the memory and string routines, over any address
    space. Loops with no bound in the code ([strlen], [strcmp]) take fuel. *)

From S2P Require Import Prelude Mem.

Section CString.
Context {S : Type} `{AddrSpaceLaws S}.
Implicit Types s : S.

Definition memset (s : S) (dst c n : Z) : S * Z :=
  (for_range 0 n (fun i s => vst8 s (dst + i) (u8 c)) s, dst).

Definition memcpy (s : S) (dst src n : Z) : S * Z :=
  (for_range 0 n (fun i s => vst8 s (dst + i) (vld8 s (src + i))) s, dst).

Fixpoint strlen_loop (fuel : nat) (s : S) (str len : Z) : option Z :=
  match fuel with
  | O => None
  | Datatypes.S fuel =>
      if truthy (vld8 s (str + len)) then strlen_loop fuel s str (u64 (len + 1)) else Some len
  end.

Definition strlen (fuel : nat) (s : S) (str : Z) : option Z := strlen_loop fuel s str 0.

Fixpoint strcmp (fuel : nat) (s : S) (a b : Z) : option Z :=
  match fuel with
  | O => None
  | Datatypes.S fuel =>
      if truthy (vld8 s a) && (vld8 s a =? vld8 s b)
      then strcmp fuel s (a + 1) (b + 1)
      else Some (vld8 s a - vld8 s b)
  end.

(** The NUL-terminated string [l] at address [a]. *)
Fixpoint cstring (s : S) (a : Z) (l : list Z) : Prop :=
  match l with
  | [] => vld8 s a = 0
  | c :: l => vld8 s a = c /\ c <> 0 /\ cstring s (a + 1) l
  end.

(** Lexicographic order of byte strings. *)
Fixpoint lex_cmp (l1 l2 : list Z) : comparison :=
  match l1, l2 with
  | [], [] => Eq
  | [], _ :: _ => Lt
  | _ :: _, [] => Gt
  | c1 :: l1, c2 :: l2 => if c1 =? c2 then lex_cmp l1 l2 else c1 ?= c2
  end.

Lemma lex_cmp_eq l1 l2 : lex_cmp l1 l2 = Eq <-> l1 = l2.
Proof.
  revert l2. induction l1 as [|c1 l1 IH]; intros [|c2 l2]; cbn; try done.
  destruct (Z.eqb_spec c1 c2) as [->|Hne].
  - rewrite IH. naive_solver.
  - rewrite Z.compare_eq_iff. naive_solver.
Qed.

Lemma u8_vld8 s a : u8 (vld8 s a) = vld8 s a.
Proof. apply u8_id, vld8_bound. Qed.

(** A loop storing byte [g i] at ascending addresses [dst + i]: the bytes of
    the result, when [g] may read the state only where it is not yet written. *)
Lemma store_loop_spec s dst n (g : Z -> S -> Z) (h : Z -> Z) :
  0 <= n -> vok_range s dst n ->
  (forall i s', 0 <= i < n ->
     (forall y, vok s' y <-> vok s y) ->
     (forall y, vok s y -> ~ (dst <= y < dst + i) -> vld8 s' y = vld8 s y) ->
     u8 (g i s') = h i) ->
  let s' := for_range 0 n (fun i s => vst8 s (dst + i) (g i s)) s in
  (forall y, vok s' y <-> vok s y) /\
  (forall y, vok s y ->
     vld8 s' y = if decide (dst <= y < dst + n) then h (y - dst) else vld8 s y).
Proof.
  intros Hn Hr Hg s'.
  pose (P := fun k s' => (forall y, vok s' y <-> vok s y) /\
    (forall y, vok s y ->
       vld8 s' y = if decide (dst <= y < dst + k) then h (y - dst) else vld8 s y)).
  enough (P n s') by done. unfold s'. clear s'.
  apply for_range_ind; [lia| |]; unfold P.
  - split; [done|]. intros y Hy. by rewrite decide_False by lia.
  - intros i s' Hi [Hok IH].
    assert (vok s' (dst + i)) by (apply Hok, Hr; lia).
    split; [intros y; by rewrite vok_vst8|].
    intros y Hy. destruct (decide (y = dst + i)) as [->|Hne].
    + rewrite decide_True, vld8_vst8_eq by (lia || done).
      replace (dst + i - dst) with i by lia. apply Hg; [done..|].
      intros z Hz Hout. rewrite IH by done. by rewrite decide_False by lia.
    + rewrite vld8_vst8_ne, IH by (done || by apply Hok).
      repeat case_decide; lia || done.
Qed.

Lemma memset_spec s dst c n :
  0 <= n -> vok_range s dst n ->
  (forall y, vok (memset s dst c n).1 y <-> vok s y) /\
  (forall y, vok s y ->
     vld8 (memset s dst c n).1 y = if decide (dst <= y < dst + n) then u8 c else vld8 s y).
Proof.
  intros Hn Hr. apply (store_loop_spec s dst n (fun _ _ => u8 c) (fun _ => u8 c)); [done..|].
  intros. apply u8_id, u8_bound.
Qed.

Lemma memset_zero_ld64 s dst n a :
  0 <= n -> vok_range s dst n -> dst <= a -> a + 8 <= dst + n ->
  ld64 (memset s dst 0 n).1 a = 0.
Proof.
  intros Hn Hr ??. apply (ld_le_zero 8). intros x Hx.
  rewrite (proj2 (memset_spec s dst 0 n Hn Hr)) by (apply Hr; lia).
  by rewrite decide_True by lia.
Qed.

Lemma memset_agree s dst c n a k :
  0 <= n -> vok_range s dst n -> vok_range s a k ->
  a + k <= dst \/ dst + n <= a -> agree s (memset s dst c n).1 a k.
Proof.
  intros Hn Hr Ha Hd x Hx. rewrite (proj2 (memset_spec s dst c n Hn Hr)) by auto.
  by rewrite decide_False by lia.
Qed.

(** [memcpy] copies [n] bytes when the two ranges are disjoint, and also
    when they overlap with the destination below the source (it copies
    upwards); every other byte is unchanged. *)
Theorem memcpy_spec s dst src n :
  0 <= n -> vok_range s dst n -> vok_range s src n ->
  dst <= src \/ src + n <= dst ->
  (forall y, vok (memcpy s dst src n).1 y <-> vok s y) /\
  (forall y, vok s y ->
     vld8 (memcpy s dst src n).1 y =
       if decide (dst <= y < dst + n) then vld8 s (src + (y - dst)) else vld8 s y).
Proof.
  intros Hn Hd Hs Hov.
  apply (store_loop_spec s dst n (fun i s => vld8 s (src + i)) (fun i => vld8 s (src + i)));
    [done..|].
  intros i s' Hi Hok Hsame. rewrite u8_vld8. apply Hsame; [apply Hs; lia|lia].
Qed.

Lemma cstring_nonneg s a l : cstring s a l -> Forall (fun c => 0 < c < 2 ^ 8) l.
Proof.
  revert a. induction l as [|c l IH]; intros a Hl; [done|].
  destruct Hl as (Hc & Hnz & Hl). constructor; [|by eapply IH].
  pose proof (vld8_bound s a). lia.
Qed.

Lemma strlen_loop_spec s l fuel str len :
  cstring s (str + len) l -> 0 <= len -> len + Z.of_nat (length l) < 2 ^ 64 ->
  (length l < fuel)%nat -> strlen_loop fuel s str len = Some (len + Z.of_nat (length l)).
Proof.
  revert fuel len. induction l as [|c l IH]; intros [|fuel] len Hs Hlen Hb Hf;
    cbn [length] in *; try lia; cbn [strlen_loop].
  - cbn in Hs. rewrite Hs. cbn. f_equal. lia.
  - destruct Hs as (Hc & Hnz & Hl).
    rewrite (proj2 (truthy_true _)), u64_id by lia.
    rewrite IH; [f_equal; lia| |lia..].
    by rewrite Z.add_assoc.
Qed.

(** [strlen] terminates on a NUL-terminated string and returns its
    length. *)
Theorem strlen_spec s str l fuel :
  cstring s str l -> Z.of_nat (length l) < 2 ^ 64 -> (length l < fuel)%nat ->
  strlen fuel s str = Some (Z.of_nat (length l)).
Proof.
  intros Hs Hb Hf. unfold strlen. rewrite (strlen_loop_spec s l); [f_equal; lia|..];
    rewrite ?Z.add_0_r; done || lia.
Qed.

(** [strcmp] terminates on NUL-terminated strings and its result has the
    sign of their lexicographic comparison as unsigned bytes. *)
Theorem strcmp_spec s a b l1 l2 fuel :
  cstring s a l1 -> cstring s b l2 -> (length l1 < fuel)%nat ->
  exists r, strcmp fuel s a b = Some r /\ (r ?= 0) = lex_cmp l1 l2 /\ - 2 ^ 8 < r < 2 ^ 8.
Proof.
  revert a b l2 fuel. induction l1 as [|c1 l1 IH]; intros a b l2 [|fuel] H1 H2 Hf;
    cbn [length] in Hf; try lia; cbn [strcmp].
  - cbn in H1. rewrite H1. cbn [truthy negb Z.eqb andb].
    eexists; split; [done|]. pose proof (vld8_bound s b).
    split; [|lia]. destruct l2 as [|c2 l2]; cbn [cstring lex_cmp] in *.
    + rewrite H2. done.
    + destruct H2 as (Hc & Hnz & _). rewrite Z.compare_lt_iff. lia.
  - destruct H1 as (Hc1 & Hnz1 & H1). rewrite Hc1.
    rewrite (proj2 (truthy_true _)) by done. cbn [andb].
    pose proof (vld8_bound s a). pose proof (vld8_bound s b).
    destruct l2 as [|c2 l2]; cbn [cstring lex_cmp] in *.
    + rewrite H2. rewrite (proj2 (Z.eqb_neq _ _)) by done.
      eexists; split; [done|]. split; [|lia]. rewrite Z.compare_gt_iff. lia.
    + destruct H2 as (Hc2 & Hnz2 & H2). rewrite Hc2.
      destruct (Z.eqb_spec c1 c2) as [->|Hne].
      * by apply IH; [..|lia].
      * eexists; split; [done|]. split; [|lia].
        destruct (Z.compare_spec (c1 - c2) 0), (Z.compare_spec c1 c2); done || lia.
Qed.
End CString.

Example strcmp_ex :
  let m := st64 (st64 (∅ : mem) 100 0x6261) 200 0x6361 in
  strcmp 10 m 100 200 = Some (-1) /\ strlen 10 m 200 = Some 2.
Proof. by vm_compute. Qed.

(** ** At concrete inputs *)

Definition demo_str : mem := <[0x10 := 97]> (<[0x11 := 98]> (<[0x20 := 97]> (<[0x21 := 200]> ∅))).

Lemma memcpy_spec_witness : vld8 (memcpy demo_str 0x0F 0x10 3).1 0x10 = 98.
Proof.
  refine (proj2 (memcpy_spec demo_str 0x0F 0x10 3 _ _ _ _) 0x10 I);
    [lia|apply mem_vok_range..|lia].
Defined.

Lemma strlen_spec_witness : strlen 5 demo_str 0x10 = Some 2.
Proof. apply (strlen_spec demo_str 0x10 [97; 98] 5); [by repeat split|cbn; lia..]. Defined.

Lemma strcmp_spec_witness : exists r, strcmp 5 demo_str 0x10 0x20 = Some r /\ (r ?= 0) = Lt.
Proof.
  destruct (strcmp_spec demo_str 0x10 0x20 [97; 98] [97; 200] 5) as (r & E & C & _);
    [by repeat split..|cbn; lia|].
  exists r. split; [exact E|exact C].
Defined.
