(* ===== verification/Pmm.v ===== *)
(** [src/kernel/memory/pmm.c]: the physical frame allocator, a stack of free
    4 KiB frames threaded through the frames themselves (the first 8 bytes of a
    free frame, seen through the direct map, hold the next free frame). *)

From S2P Require Import Prelude Mem.

(** The statics of pmm.c. *)
Record pmm := Pmm {
  pmm_hhdm : Z;
  free_count : Z;
  free_list_head : Z;
}.

Definition pmm_bss : pmm := Pmm 0 0 0.

Definition LIMINE_MEMMAP_USABLE : Z := 0.

(** [struct limine_memmap_entry] *)
Record memmap_entry := MemmapEntry {
  e_base : Z;
  e_length : Z;
  e_type : Z;
}.

Definition pmm_alloc (st : pmm) (m : mem) : Z * pmm :=
  if negb (truthy (free_list_head st)) then (0, st)
  else
    let page := free_list_head st in
    (page, Pmm (pmm_hhdm st) (u64 (free_count st - 1)) (ld64 m (u64 (pmm_hhdm st + page)))).

Definition pmm_free (st : pmm) (m : mem) (phys_addr : Z) : pmm * mem :=
  if negb (truthy phys_addr) then (st, m)
  else
    let m' := st64 m (u64 (pmm_hhdm st + phys_addr)) (free_list_head st) in
    (Pmm (pmm_hhdm st) (u64 (free_count st + 1)) phys_addr, m').

Definition pmm_get_free_count (st : pmm) : Z := free_count st.
Definition pmm_get_hhdm (st : pmm) : Z := pmm_hhdm st.

Section Init.
(** The linker symbols [_kernel_start], [_kernel_end] (config/linker.ld). *)
Context (kernel_start kernel_end : Z).

Definition kstart : Z := Z.land kernel_start (not64 0xFFF).
Definition kend : Z := Z.land (u64 (kernel_end + 0xFFF)) (not64 0xFFF).

(** The loop body up to the page loop: [None] for [continue], otherwise the
    aligned bounds of the page loop. *)
Definition entry_range (e : memmap_entry) : option (Z * Z) :=
  if negb (e_type e =? LIMINE_MEMMAP_USABLE) then None
  else
    let base := e_base e in
    let top := u64 (e_base e + e_length e) in
    let base :=
      if (base <? kend) && (kstart <? top) then
        let base := if base <? kstart then kend else base in
        if kend <? top then (if kstart <? base then base else kend) else base
      else base in
    if top <=? base then None
    else Some (Z.land (u64 (base + 0xFFF)) (not64 0xFFF), Z.land top (not64 0xFFF)).

(** One iteration of the page loop. *)
Definition push_page (hhdm page : Z) (s : pmm * mem) : pmm * mem :=
  (Pmm (pmm_hhdm s.1) (u64 (free_count s.1 + 1)) page,
   st64 s.2 (u64 (hhdm + page)) (free_list_head s.1)).

Fixpoint page_loop (fuel : nat) (hhdm page top : Z) (s : pmm * mem) : option (pmm * mem) :=
  match fuel with
  | O => None
  | S fuel =>
      if page <? top
      then page_loop fuel hhdm (u64 (page + 0x1000)) top (push_page hhdm page s)
      else Some s
  end.

Fixpoint entry_loop (fuel : nat) (hhdm : Z) (es : list memmap_entry) (s : pmm * mem)
    : option (pmm * mem) :=
  match es with
  | [] => Some s
  | e :: es =>
      match entry_range e with
      | None => entry_loop fuel hhdm es s
      | Some (base, top) =>
          match page_loop fuel hhdm base top s with
          | None => None
          | Some s => entry_loop fuel hhdm es s
          end
      end
  end.

(** [mmr]: the response of the memory-map request, [None] for a null pointer;
    [fuel] bounds each page loop. *)
Definition pmm_init (fuel : nat) (hhdm_offset : Z) (mmr : option (list memmap_entry))
    (st : pmm) (m : mem) : option (pmm * mem) :=
  let st := Pmm hhdm_offset (free_count st) (free_list_head st) in
  match mmr with
  | None => Some (st, m)
  | Some es => entry_loop fuel hhdm_offset es (st, m)
  end.
End Init.

(** ** The abstract allocator: a stack of frames *)

(** A frame the direct map reaches: nonzero, aligned, inside the address space. *)
Definition frame_ok (hhdm p : Z) : Prop :=
  0 < p /\ p mod 4096 = 0 /\ hhdm + p + 4096 <= 2 ^ 64.

#[export] Instance frame_ok_dec hhdm p : Decision (frame_ok hhdm p).
Proof. unfold frame_ok. apply _. Defined.

(** The linked list starting at frame [head] holds the frames [l]. *)
Fixpoint chain (m : mem) (hhdm head : Z) (l : list Z) : Prop :=
  match l with
  | [] => head = 0
  | p :: l => head = p /\ chain m hhdm (ld64 m (u64 (hhdm + p))) l
  end.

(** The allocator state [st] over memory [m] represents the stack [l]. *)
Record pmm_rep (st : pmm) (m : mem) (l : list Z) : Prop := {
  rep_hhdm : 0 <= pmm_hhdm st;
  rep_chain : chain m (pmm_hhdm st) (free_list_head st) l;
  rep_nodup : NoDup l;
  rep_frames : Forall (frame_ok (pmm_hhdm st)) l;
  rep_count : free_count st = Z.of_nat (length l);
}.

Lemma frame_ok_u64 hhdm p : 0 <= hhdm -> frame_ok hhdm p -> u64 (hhdm + p) = hhdm + p.
Proof. intros ? (? & ? & ?). apply u64_id. lia. Qed.

(** Distinct aligned frames are 4096 bytes apart. *)
Lemma frames_apart p q :
  p mod 4096 = 0 -> q mod 4096 = 0 -> p <> q -> p + 4096 <= q \/ q + 4096 <= p.
Proof. intros. mlia. Qed.

Lemma frames_length hhdm l :
  0 <= hhdm -> NoDup l -> Forall (frame_ok hhdm) l -> Z.of_nat (length l) < 2 ^ 52.
Proof.
  intros Hh Hnd Hf. rewrite Forall_forall in Hf.
  assert (NoDup ((fun p => p / 4096) <$> l)) as Hnd'.
  { apply NoDup_fmap_2_strong; [|done]. intros x y Hx Hy Hxy.
    destruct (Hf x Hx) as (? & ? & ?), (Hf y Hy) as (? & ? & ?). mlia. }
  assert ((fun p => p / 4096) <$> l ⊆+ seqZ 1 (2 ^ 52 - 1)) as Hs.
  { apply NoDup_submseteq; [done|]. intros x (p & -> & Hp)%list_elem_of_fmap.
    destruct (Hf p Hp) as (? & ? & ?). apply elem_of_seqZ. mlia. }
  apply submseteq_length in Hs. rewrite length_fmap, length_seqZ in Hs. lia.
Qed.

(** The list survives any change of memory outside its own frames' links. *)
Lemma chain_agree m m' hhdm head l :
  0 <= hhdm -> Forall (frame_ok hhdm) l ->
  (forall p, p ∈ l -> agree m m' (hhdm + p) 8) ->
  chain m hhdm head l -> chain m' hhdm head l.
Proof.
  intros Hh. revert head. induction l as [|p l IH]; intros head Hf Ha; [done|].
  inversion Hf as [|?? Hp Hf']; subst. cbn. intros [-> Hc]. split; [done|].
  assert (ld64 m' (u64 (hhdm + p)) = ld64 m (u64 (hhdm + p))) as ->.
  { rewrite frame_ok_u64 by done. apply ld64_agree, Ha. set_solver. }
  apply IH; [done| |done]. intros q Hq. apply Ha. set_solver.
Qed.

Lemma pmm_rep_agree st m m' l :
  pmm_rep st m l -> (forall p, p ∈ l -> agree m m' (pmm_hhdm st + p) 8) -> pmm_rep st m' l.
Proof. intros [] Ha. split; try done. by eapply chain_agree. Qed.

Lemma chain_head m hhdm head l : Forall (frame_ok hhdm) l -> chain m hhdm head l ->
  head = hd 0 l.
Proof. destruct l; cbn; naive_solver. Qed.

Lemma pmm_rep_head st m l : pmm_rep st m l -> free_list_head st = hd 0 l.
Proof. intros []. by eapply chain_head. Qed.

(** *** [pmm_alloc] pops *)

Lemma pmm_alloc_nil st m : pmm_rep st m [] -> pmm_alloc st m = (0, st).
Proof. intros Hr. unfold pmm_alloc. by rewrite (pmm_rep_head _ _ _ Hr). Qed.

Lemma pmm_alloc_cons st m p l :
  pmm_rep st m (p :: l) ->
  (pmm_alloc st m).1 = p /\ pmm_rep (pmm_alloc st m).2 m l /\
  pmm_hhdm (pmm_alloc st m).2 = pmm_hhdm st.
Proof.
  intros H. pose proof (pmm_rep_head _ _ _ H) as Hh. cbn in Hh.
  destruct H as [Hh0 [_ Hc] Hnd Hf Hn]. pose proof (frames_length _ _ Hh0 Hnd Hf) as Hlen.
  inversion Hf as [|?? Hp Hf']; subst. inversion Hnd; subst.
  destruct Hp as (Hp & _). unfold pmm_alloc.
  rewrite (proj2 (truthy_true _)) by lia. cbn [negb fst snd pmm_hhdm].
  split; [done|]. split; [|done]. split; cbn [pmm_hhdm free_list_head free_count]; try done.
  cbn [length] in *. rewrite u64_id by lia. lia.
Qed.

(** *** [pmm_free] and the initial page loop push *)

Lemma push_page_rep st m l p :
  pmm_rep st m l -> frame_ok (pmm_hhdm st) p -> p ∉ l ->
  pmm_rep (push_page (pmm_hhdm st) p (st, m)).1 (push_page (pmm_hhdm st) p (st, m)).2 (p :: l).
Proof.
  intros [Hh0 Hc Hnd Hf Hn] Hp Hnin. pose proof (frames_length _ _ Hh0 Hnd Hf) as Hlen.
  unfold push_page.
  assert (0 <= free_list_head st < 2 ^ 64) as Hhd.
  { rewrite (chain_head _ _ _ _ Hf Hc). destruct l as [|q l]; cbn; [lia|].
    inversion Hf as [|?? Hq]; subst. destruct Hq as (? & ? & ?). lia. }
  split; cbn [fst snd pmm_hhdm free_list_head free_count chain length].
  - done.
  - split; [done|]. rewrite frame_ok_u64 by done.
    rewrite ld64_st64_eq, u64_id by auto with kernel.
    eapply chain_agree; [done..| |done]. intros q Hq.
    apply (st_le_agree 8); auto with kernel.
    rewrite Forall_forall in Hf. destruct (Hf q Hq) as (? & ? & ?), Hp as (? & ? & ?).
    destruct (frames_apart p q); [done..|naive_solver|lia|lia].
  - by constructor.
  - by constructor.
  - rewrite u64_id; lia.
Qed.

(** Memory away from the links of some frames. *)
Definition off_frames (hhdm : Z) (l : list Z) (a n : Z) : Prop :=
  forall p, p ∈ l -> a + n <= hhdm + p \/ hhdm + p + 8 <= a.

Lemma push_page_agree st m hhdm p a n :
  0 <= hhdm -> frame_ok hhdm p -> off_frames hhdm [p] a n -> agree m (push_page hhdm p (st, m)).2 a n.
Proof.
  intros Hh Hp Ho. unfold push_page. cbn [fst snd]. rewrite frame_ok_u64 by done.
  apply (st_le_agree 8); auto with kernel. specialize (Ho p ltac:(by left)). lia.
Qed.

Lemma pmm_free_push st m p :
  0 < p -> pmm_free st m p = push_page (pmm_hhdm st) p (st, m).
Proof. intros Hp. unfold pmm_free. by rewrite (proj2 (truthy_true _)) by lia. Qed.

(** *** The page loop *)

(** [n] frames from [base] upwards. *)
Fixpoint page_seq (base : Z) (n : nat) : list Z :=
  match n with
  | O => []
  | S n => base :: page_seq (base + 4096) n
  end.

Lemma length_page_seq base n : length (page_seq base n) = n.
Proof. revert base. induction n as [|n IH]; intros base; cbn; [done|]. by rewrite IH. Qed.

Lemma elem_of_page_seq base n p :
  p ∈ page_seq base n <-> exists i, 0 <= i < Z.of_nat n /\ p = base + 4096 * i.
Proof.
  revert base. induction n as [|n IH]; intros base; cbn [page_seq].
  - rewrite elem_of_nil. split; [done|]. intros (i & ? & _). lia.
  - rewrite elem_of_cons, IH. split.
    + intros [->|(i & ? & ->)]; [exists 0; lia|exists (i + 1); lia].
    + intros (i & Hi & ->). destruct (decide (i = 0)) as [->|]; [left; lia|].
      right. exists (i - 1). lia.
Qed.

(** From aligned bounds the page loop terminates after
    [(top - page) / 4096] iterations (never, when [top <= page]): the counter
    does not wrap because [top] is itself aligned. *)
Lemma page_loop_spec n fuel hhdm page top st m l :
  n = Z.to_nat ((top - page) / 4096) -> (n < fuel)%nat ->
  0 <= page -> page mod 4096 = 0 -> 0 <= top < 2 ^ 64 -> top mod 4096 = 0 ->
  pmm_hhdm st = hhdm -> pmm_rep st m l ->
  Forall (frame_ok hhdm) (page_seq page n) -> NoDup (page_seq page n ++ l) ->
  exists st' m', page_loop fuel hhdm page top (st, m) = Some (st', m') /\
    pmm_hhdm st' = hhdm /\ pmm_rep st' m' (rev (page_seq page n) ++ l) /\
    (forall a k, off_frames hhdm (page_seq page n) a k -> agree m m' a k).
Proof.
  revert fuel page st m l.
  induction n as [|n IH]; intros [|fuel] page st m l Hn Hfu Hp Hpa Ht Hta Hh Hr Hf Hnd;
    try lia; cbn [page_loop page_seq rev app].
  - rewrite (proj2 (Z.ltb_ge _ _)) by mlia. exists st, m. do 3 (split; [done|]). intros; apply agree_refl.
  - cbn [page_seq app] in *. apply Forall_cons in Hf as [Hfp Hf].
    apply NoDup_cons in Hnd as [Hnin Hnd].
    rewrite (proj2 (Z.ltb_lt _ _)) by mlia. rewrite u64_id by mlia.
    assert (page ∉ l) as Hnl by set_solver.
    pose proof (push_page_rep st m l page Hr) as Hr'. rewrite Hh in Hr'.
    specialize (Hr' Hfp Hnl).
    destruct (IH fuel (page + 4096) (push_page hhdm page (st, m)).1
                 (push_page hhdm page (st, m)).2 (page :: l)) as (st' & m' & He & Hhe & Hre & Hag);
      try (done || mlia).
    { apply NoDup_app in Hnd as (Hnd1 & Hdisj & Hnd2). apply NoDup_app.
      split; [done|]. split; [|by constructor]. set_solver. }
    exists st', m'. split; [done|]. split; [done|]. split; [by rewrite <-app_assoc|].
    intros a k Ho. eapply agree_trans; [apply (push_page_agree st m hhdm page)|apply Hag].
    + rewrite <-Hh. by destruct Hr.
    + done.
    + intros p ->%list_elem_of_singleton. apply Ho. by left.
    + intros p Hp'. apply Ho. by right.
Qed.

(** *** [pmm_init] *)

(** The frames of a memory-map entry that the loop pushes, in push order. *)
Definition entry_frames (ks ke : Z) (e : memmap_entry) : list Z :=
  match entry_range ks ke e with
  | None => []
  | Some (base, top) => page_seq base (Z.to_nat ((top - base) / 4096))
  end.

Lemma entry_range_aligned ks ke e base top :
  entry_range ks ke e = Some (base, top) ->
  (0 <= base < 2 ^ 64 /\ base mod 4096 = 0) /\ (0 <= top < 2 ^ 64 /\ top mod 4096 = 0).
Proof.
  unfold entry_range. intros H. repeat case_match; simplify_eq;
    rewrite !land_page_mask by apply u64_bound;
    pose proof (u64_bound (e_base e + e_length e));
    match goal with |- context [u64 (?b + 0xFFF)] => pose proof (u64_bound (b + 0xFFF)) end;
    mlia.
Qed.

Lemma entry_loop_spec ks ke fuel hhdm es st m l :
  Forall (fun e => length (entry_frames ks ke e) < fuel)%nat es ->
  pmm_hhdm st = hhdm -> pmm_rep st m l ->
  Forall (frame_ok hhdm) (mjoin (entry_frames ks ke <$> es)) ->
  NoDup (mjoin (entry_frames ks ke <$> es) ++ l) ->
  exists st' m', entry_loop ks ke fuel hhdm es (st, m) = Some (st', m') /\
    pmm_hhdm st' = hhdm /\ pmm_rep st' m' (rev (mjoin (entry_frames ks ke <$> es)) ++ l) /\
    (forall a k, off_frames hhdm (mjoin (entry_frames ks ke <$> es)) a k -> agree m m' a k).
Proof.
  intros Hfu. revert st m l. induction Hfu as [|e es Hfe _ IH]; intros st m l Hh Hr Hf Hnd.
  { exists st, m. do 3 (split; [done|]). intros; apply agree_refl. }
  cbn [entry_loop fmap list_fmap mjoin list_join] in *.
  unfold entry_frames at 1 in Hf. unfold entry_frames at 1 in Hnd.
  unfold entry_frames at 1. unfold entry_frames in Hfe.
  destruct (entry_range ks ke e) as [[base top]|] eqn:E.
  2: { destruct (IH st m l Hh Hr Hf Hnd) as (st' & m' & ? & ? & ? & Ha). exists st', m'.
       do 3 (split; [done|]). intros a k Ho. apply Ha. intros p Hp'. apply Ho. by apply elem_of_app; right. }
  pose proof E as Ee. rewrite length_page_seq in Hfe.
  apply entry_range_aligned in E as [[Hb Hba] [Ht Hta]].
  apply Forall_app in Hf as [Hf1 Hf2].
  rewrite <-app_assoc in Hnd. apply NoDup_app in Hnd as (Hnd1 & Hdj & Hnd2).
  apply NoDup_app in Hnd2 as (Hnd2 & Hdj2 & Hnd3).
  destruct (page_loop_spec (Z.to_nat ((top - base) / 4096)) fuel hhdm base top st m l)
    as (st1 & m1 & He & Hh1 & Hr1 & Ha1); try (done || mlia).
  { apply NoDup_app. split; [done|]. split; [set_solver|done]. }
  rewrite He.
  destruct (IH st1 m1 _ Hh1 Hr1 Hf2) as (st' & m' & He' & Hh' & Hr' & Ha').
  { rewrite !NoDup_app. repeat split; try done.
    - intros x Hx. rewrite elem_of_app, elem_of_rev. set_solver.
    - by apply NoDup_rev_1.
    - intros x. rewrite elem_of_rev. set_solver. }
  exists st', m'. split; [done|]. split; [done|]. split; [by rewrite rev_app_distr, <-app_assoc|].
  intros a k Ho. eapply agree_trans; [apply Ha1|apply Ha']; intros p Hp'; apply Ho.
  - unfold entry_frames at 1. rewrite Ee. apply elem_of_app. by left.
  - apply elem_of_app. by right.
Qed.

(** ** Refinement: a client session against the abstract stack

    The client allocates, frees, and writes through the direct map to frames it
    owns; the abstract allocator is the list of free frames, top first. *)

Inductive pmm_op :=
  | OpAlloc
  | OpFree (p : Z)
  | OpWrite (a v : Z).

Definition pmm_step (s : pmm * mem) (op : pmm_op) : (pmm * mem) * Z :=
  match op with
  | OpAlloc => let '(p, st) := pmm_alloc s.1 s.2 in ((st, s.2), p)
  | OpFree p => (pmm_free s.1 s.2 p, 0)
  | OpWrite a v => ((s.1, vst8 s.2 (pmm_hhdm s.1 + a) v), 0)
  end.

Definition stack_step (l : list Z) (op : pmm_op) : list Z * Z :=
  match op with
  | OpAlloc => (tail l, hd 0 l)
  | OpFree p => (p :: l, 0)
  | OpWrite _ _ => (l, 0)
  end.

(** What the allocator asks of its client: free only well-formed frames that are
    not already free, and do not write to free frames. *)
Definition op_legal (hhdm : Z) (l : list Z) (op : pmm_op) : Prop :=
  match op with
  | OpAlloc => True
  | OpFree p => frame_ok hhdm p /\ p ∉ l
  | OpWrite a v => forall p, p ∈ l -> ~ (p <= a < p + 4096)
  end.

Fixpoint pmm_run (s : pmm * mem) (ops : list pmm_op) : (pmm * mem) * list Z :=
  match ops with
  | [] => (s, [])
  | op :: ops =>
      let '(s1, r) := pmm_step s op in
      let '(s2, rs) := pmm_run s1 ops in (s2, r :: rs)
  end.

Fixpoint stack_run (l : list Z) (ops : list pmm_op) : list Z * list Z :=
  match ops with
  | [] => (l, [])
  | op :: ops =>
      let '(l1, r) := stack_step l op in
      let '(l2, rs) := stack_run l1 ops in (l2, r :: rs)
  end.

Fixpoint session_legal (hhdm : Z) (l : list Z) (ops : list pmm_op) : Prop :=
  match ops with
  | [] => True
  | op :: ops => op_legal hhdm l op /\ session_legal hhdm (stack_step l op).1 ops
  end.

Lemma pmm_step_refines s l op :
  pmm_rep s.1 s.2 l -> op_legal (pmm_hhdm s.1) l op ->
  (pmm_step s op).2 = (stack_step l op).2 /\
  pmm_rep (pmm_step s op).1.1 (pmm_step s op).1.2 (stack_step l op).1 /\
  pmm_hhdm (pmm_step s op).1.1 = pmm_hhdm s.1.
Proof.
  destruct s as [st m]. intros Hr Hl. destruct op as [|p|a v]; cbn in *.
  - destruct l as [|p l].
    + by rewrite (pmm_alloc_nil _ _ Hr).
    + destruct (pmm_alloc_cons _ _ _ _ Hr) as (H1 & H2 & H3).
      destruct (pmm_alloc st m) as [q st']. done.
  - destruct Hl as [Hf Hn]. pose proof Hf as (Hp & _). rewrite pmm_free_push by done.
    split; [done|]. split; [by apply push_page_rep|done].
  - split; [done|]. split; [|done]. eapply pmm_rep_agree; [done|].
    intros p Hp x Hx. specialize (Hl p Hp).
    exact (vld8_vst8_ne m (pmm_hhdm st + a) x v I I ltac:(lia)).
Qed.

(** C8 Every client session that respects the allocator's contract gets from
    [pmm_alloc]/[pmm_free] exactly the answers of an abstract stack of free
    frames (0 when it is empty), and the linked list in the frames still
    represents that stack at the end. *)
Theorem pmm_refines_stack ops st m l :
  pmm_rep st m l -> session_legal (pmm_hhdm st) l ops ->
  (pmm_run (st, m) ops).2 = (stack_run l ops).2 /\
  pmm_rep (pmm_run (st, m) ops).1.1 (pmm_run (st, m) ops).1.2 (stack_run l ops).1.
Proof.
  revert st m l. induction ops as [|op ops IH]; intros st m l Hr Hs; [done|].
  destruct Hs as [Hl Hs]. destruct (pmm_step_refines (st, m) l op Hr Hl) as (E & Hr' & Hh).
  cbn [pmm_run stack_run]. cbn [fst snd] in Hh. rewrite <-Hh in Hs.
  destruct (pmm_step (st, m) op) as [[st1 m1] r], (stack_step l op) as [l1 r'].
  cbn [fst snd] in *. subst r'. destruct (IH st1 m1 l1 Hr' Hs) as [E2 Hr2].
  destruct (pmm_run (st1, m1) ops) as [s2 rs], (stack_run l1 ops) as [l2 rs'].
  cbn [fst snd] in *. by subst.
Qed.

(** A session on a concrete allocator: two free frames. *)
Definition demo_hhdm : Z := 0xFFFF800000000000.
Definition demo_pmm : pmm * mem :=
  push_page demo_hhdm 0x3000 (push_page demo_hhdm 0x2000 (Pmm demo_hhdm 0 0, ∅)).

Lemma demo_pmm_rep : pmm_rep demo_pmm.1 demo_pmm.2 [0x3000; 0x2000].
Proof.
  split.
  - done.
  - repeat split; by vm_compute.
  - by apply (bool_decide_unpack _).
  - by apply (bool_decide_unpack _); vm_compute.
  - by vm_compute.
Qed.

Lemma pmm_refines_stack_witness :
  (pmm_run demo_pmm [OpAlloc; OpWrite 0x3008 7; OpAlloc; OpAlloc; OpFree 0x3000; OpAlloc]).2
    = [0x3000; 0; 0x2000; 0; 0; 0x3000].
Proof.
  refine (proj1 (pmm_refines_stack _ _ _ _ demo_pmm_rep _)).
  cbn [session_legal op_legal stack_step fst tail].
  split; [done|]. split; [apply Forall_forall; repeat constructor; lia|].
  split; [done|]. split; [done|].
  split; [split; [by repeat split|by apply (bool_decide_unpack _)]|done].
Defined.

(** C23 [pmm_init] terminates on every memory map whose usable frames are
    well-formed and distinct (with more turns per entry than the entry has
    frames), and leaves the allocator representing the stack of
    all those frames, last pushed on top, with the matching [free_count]. *)
Theorem pmm_init_spec ks ke fuel hhdm es m :
  Forall (fun e => length (entry_frames ks ke e) < fuel)%nat es -> 0 <= hhdm ->
  Forall (frame_ok hhdm) (mjoin (entry_frames ks ke <$> es)) ->
  NoDup (mjoin (entry_frames ks ke <$> es)) ->
  exists st' m', pmm_init ks ke fuel hhdm (Some es) pmm_bss m = Some (st', m') /\
    pmm_rep st' m' (rev (mjoin (entry_frames ks ke <$> es))) /\
    pmm_get_free_count st' = Z.of_nat (length (mjoin (entry_frames ks ke <$> es))).
Proof.
  intros Hfu Hh Hf Hnd.
  destruct (entry_loop_spec ks ke fuel hhdm es (Pmm hhdm 0 0) m []) as (st' & m' & He & Hh' & Hr' & _);
    [done|done| |done|by rewrite app_nil_r|].
  { split; cbn; done || constructor. }
  rewrite app_nil_r in Hr'. exists st', m'. split; [done|]. split; [done|].
  rewrite <-length_rev. apply (rep_count _ _ _ Hr').
Qed.

(** A machine with two usable entries, the second one straddling the kernel. *)
Definition demo_map : list memmap_entry :=
  [MemmapEntry 0x1000 0x3000 0; MemmapEntry 0x4000 0x1000 1; MemmapEntry 0x5000 0x4000 0].

Lemma pmm_init_spec_witness :
  mjoin (entry_frames 0x6000 0x6FFF <$> demo_map) = [0x1000; 0x2000; 0x3000; 0x7000; 0x8000] /\
  exists st' m',
    pmm_init 0x6000 0x6FFF 10 demo_hhdm (Some demo_map) pmm_bss ∅ = Some (st', m') /\
    pmm_get_free_count st' = 5.
Proof.
  split; [by vm_compute|].
  destruct (pmm_init_spec 0x6000 0x6FFF 10 demo_hhdm demo_map ∅) as (st' & m' & E & _ & C).
  - repeat constructor; vm_compute; lia.
  - done.
  - by apply (bool_decide_unpack _); vm_compute.
  - by apply (bool_decide_unpack _); vm_compute.
  - exists st', m'. split; [exact E|]. rewrite C. by vm_compute.
Defined.

(** A usable memory-map entry, aligned as the boot protocol guarantees. *)
Definition entry_wf (e : memmap_entry) : Prop :=
  e_type e = LIMINE_MEMMAP_USABLE /\ 0 <= e_base e /\ 0 < e_length e /\
  e_base e + e_length e < 2 ^ 64 /\ e_base e mod 4096 = 0 /\ e_length e mod 4096 = 0.

Lemma entry_frames_elem ks ke e p :
  entry_wf e ->
  p ∈ entry_frames ks ke e <-> exists base top,
    entry_range ks ke e = Some (base, top) /\ base <= p < top /\ p mod 4096 = 0.
Proof.
  intros _. unfold entry_frames. destruct (entry_range ks ke e) as [[b t]|] eqn:E.
  2: { rewrite elem_of_nil. split; [done|]. by intros (? & ? & ? & _). }
  apply entry_range_aligned in E as [[Hb Hba] [Ht Hta]]. rewrite elem_of_page_seq. split.
  - intros (i & Hi & ->). exists b, t. split; [done|]. split; mlia.
  - intros (? & ? & [= <- <-] & Hp & Hpa). exists ((p - b) / 4096). mlia.
Qed.

(** The lower bound after clipping against the kernel image. *)
Definition clip_base (ks ke base top : Z) : Z :=
  if (base <? ke) && (ks <? top) then
    let base := if base <? ks then ke else base in
    if ke <? top then (if ks <? base then base else ke) else base
  else base.

Lemma align_up_aligned x : 0 <= x < 2 ^ 64 -> x mod 4096 = 0 ->
  Z.land (u64 (x + 0xFFF)) (not64 0xFFF) = x.
Proof. intros. rewrite land_page_mask by apply u64_bound. rewrite u64_id; mlia. Qed.

Lemma align_down_aligned x : 0 <= x < 2 ^ 64 -> x mod 4096 = 0 ->
  Z.land x (not64 0xFFF) = x.
Proof. intros. rewrite land_page_mask by done. lia. Qed.

Lemma kend_aligned ke : 0 <= kend ke < 2 ^ 64 /\ kend ke mod 4096 = 0.
Proof.
  unfold kend. rewrite land_page_mask by apply u64_bound. pose proof (u64_bound (ke + 0xFFF)). mlia.
Qed.

Lemma entry_range_wf ks ke e :
  entry_wf e ->
  let top := e_base e + e_length e in
  let base := clip_base (kstart ks) (kend ke) (e_base e) top in
  entry_range ks ke e = if top <=? base then None else Some (base, top).
Proof.
  intros (Hu & Hb & Hl & Hs & Hba & Hla) top base. pose proof (kend_aligned ke) as [Hke Hkea].
  assert (Ht : u64 (e_base e + e_length e) = top) by (apply u64_id; lia).
  unfold entry_range. rewrite Hu, Ht, Z.eqb_refl. cbn [negb].
  fold (clip_base (kstart ks) (kend ke) (e_base e) top). fold base. cbv zeta.
  destruct (top <=? base) eqn:E; [done|].
  assert ((base = e_base e \/ base = kend ke) /\ 0 <= top < 2 ^ 64 /\ top mod 4096 = 0) as (Hbc & ? & ?).
  { split; [|unfold top; mlia]. unfold base, clip_base. repeat case_match; auto. }
  rewrite (align_down_aligned top), (align_up_aligned base); [done|..]; try done; destruct Hbc as [->| ->]; done || lia.
Qed.

(** The kernel image [kstart, kend) is kept out of the free list except when
    a usable entry starts inside it: then (unless the entry starts exactly at
    [kstart] and reaches beyond [kend]) kernel frames are handed out. *)
Theorem pmm_init_kernel_exclusion ks ke e :
  entry_wf e -> kstart ks < kend ke ->
  (exists p, p ∈ entry_frames ks ke e /\ kstart ks <= p < kend ke) <->
  kstart ks <= e_base e < kend ke /\ (e_base e <> kstart ks \/ e_base e + e_length e <= kend ke).
Proof.
  intros Hwf Hlt.
  setoid_rewrite (entry_frames_elem _ _ _ _ Hwf).
  setoid_rewrite (entry_range_wf ks ke e Hwf).
  destruct Hwf as (Hu & Hb & Hl & Hs & Hba & Hla). unfold clip_base. split.
  - intros (p & (b & t & He & Hp & Hpa) & Hpk). repeat case_match; simplify_eq; lia.
  - intros [Hin Hor]. exists (e_base e). split; [|done].
    exists (e_base e), (e_base e + e_length e). split; [|lia].
    repeat case_match; try done; lia.
Qed.

Lemma pmm_init_kernel_exclusion_witness :
  exists p, p ∈ entry_frames 0x4000 0x6000 (MemmapEntry 0x5000 0x1000 0) /\
    kstart 0x4000 <= p < kend 0x6000.
Proof.
  apply (pmm_init_kernel_exclusion 0x4000 0x6000 (MemmapEntry 0x5000 0x1000 0)).
  - by repeat split.
  - done.
  - cbn. split; [by vm_compute|]. left. by vm_compute.
Defined.

(** A frame at physical address 0 must not be usable memory: once it is
    pushed, every frame already in the list is lost (allocation fails) although
    [free_count] still counts them. *)
Theorem pmm_zero_frame_loses_list st m l :
  pmm_rep st m l ->
  let s' := push_page (pmm_hhdm st) 0 (st, m) in
  (pmm_alloc s'.1 s'.2).1 = 0 /\ pmm_get_free_count s'.1 = Z.of_nat (length l) + 1.
Proof.
  intros [Hh Hc Hnd Hf Hn] s'. split; [done|].
  pose proof (frames_length _ _ Hh Hnd Hf). cbn. rewrite u64_id; lia.
Qed.

Lemma pmm_zero_frame_loses_list_witness :
  let s' := push_page demo_hhdm 0 demo_pmm in
  (pmm_alloc s'.1 s'.2).1 = 0 /\ pmm_get_free_count s'.1 = 3.
Proof. exact (pmm_zero_frame_loses_list _ _ _ demo_pmm_rep). Defined.
