(* ===== verification/Vmm.v ===== *)
(** [src/kernel/memory/vmm.c]: 4-level page tables edited in place through the
    direct map, with intermediate tables taken from the frame allocator. *)

From S2P Require Import Prelude Mem CString Pmm.

Definition PML4_I (v : Z) : Z := Z.land (Z.shiftr v 39) 0x1FF.
Definition PDPT_I (v : Z) : Z := Z.land (Z.shiftr v 30) 0x1FF.
Definition PD_I (v : Z) : Z := Z.land (Z.shiftr v 21) 0x1FF.
Definition PT_I (v : Z) : Z := Z.land (Z.shiftr v 12) 0x1FF.

Definition phys_mask (e : Z) : Z := Z.land e 0x000FFFFFFFFFF000.

(** What vmm.c reads and writes: memory, the frame allocator, the CR3 register,
    and the TLB entries it invalidates (latest first). *)
Record vmm := Vmm {
  v_mem : mem;
  v_pmm : pmm;
  v_cr3 : Z;
  v_invlpg : list Z;
}.

Definition set_mem (s : vmm) (m : mem) : vmm := Vmm m (v_pmm s) (v_cr3 s) (v_invlpg s).
Definition set_pmm (s : vmm) (p : pmm) : vmm := Vmm (v_mem s) p (v_cr3 s) (v_invlpg s).

Definition get_cr3 (s : vmm) : Z := v_cr3 s.
Definition do_invlpg (v : Z) (s : vmm) : vmm :=
  Vmm (v_mem s) (v_pmm s) (v_cr3 s) (v :: v_invlpg s).

(** [&table[i]] for [uint64_t *table = (uint64_t * )(hhdm + pa)]. *)
Definition slot (hhdm pa i : Z) : Z := u64 (hhdm + pa) + 8 * i.

Definition ensure_table (hhdm entry flags : Z) (s : vmm) : Z * vmm :=
  if truthy (Z.land (ld64 (v_mem s) entry) 1) then (phys_mask (ld64 (v_mem s) entry), s)
  else
    let '(p, pm) := pmm_alloc (v_pmm s) (v_mem s) in
    let s := set_pmm s pm in
    if negb (truthy p) then (0, s)
    else
      let s := set_mem s (for_range 0 4096 (fun i m => vst8 m (u64 (hhdm + p) + i) 0) (v_mem s)) in
      (p, set_mem s (st64 (v_mem s) entry (Z.lor p flags))).

Definition vmm_init (s : vmm) : vmm := s.

Definition vmm_map_page (hhdm virt phys flags : Z) (s : vmm) : vmm :=
  let p4e := slot hhdm (Z.land (get_cr3 s) (not64 0xFFF)) (PML4_I virt) in
  let '(pdpt_pa, s) := ensure_table hhdm p4e 0x03 s in
  if negb (truthy pdpt_pa) then s else
  let p3e := slot hhdm pdpt_pa (PDPT_I virt) in
  if truthy (Z.land (ld64 (v_mem s) p3e) 0x80) then s else
  let '(pd_pa, s) := ensure_table hhdm p3e 0x03 s in
  if negb (truthy pd_pa) then s else
  let p2e := slot hhdm pd_pa (PD_I virt) in
  if truthy (Z.land (ld64 (v_mem s) p2e) 0x80) then s else
  let '(pt_pa, s) := ensure_table hhdm p2e 0x03 s in
  if negb (truthy pt_pa) then s else
  let s := set_mem s (st64 (v_mem s) (slot hhdm pt_pa (PT_I virt))
                           (Z.lor (Z.land phys (not64 0xFFF)) flags)) in
  do_invlpg virt s.

Definition vmm_unmap_page (hhdm virt : Z) (s : vmm) : vmm :=
  let p4e := ld64 (v_mem s) (slot hhdm (Z.land (get_cr3 s) (not64 0xFFF)) (PML4_I virt)) in
  if negb (truthy (Z.land p4e 1)) then s else
  let p3e := ld64 (v_mem s) (slot hhdm (phys_mask p4e) (PDPT_I virt)) in
  if negb (truthy (Z.land p3e 1)) || truthy (Z.land p3e 0x80) then s else
  let p2e := ld64 (v_mem s) (slot hhdm (phys_mask p3e) (PD_I virt)) in
  if negb (truthy (Z.land p2e 1)) || truthy (Z.land p2e 0x80) then s else
  let s := set_mem s (st64 (v_mem s) (slot hhdm (phys_mask p2e) (PT_I virt)) 0) in
  do_invlpg virt s.

Definition vmm_virt_to_phys (hhdm virt : Z) (s : vmm) : Z :=
  let p4e := ld64 (v_mem s) (slot hhdm (Z.land (get_cr3 s) (not64 0xFFF)) (PML4_I virt)) in
  if negb (truthy (Z.land p4e 1)) then 0 else
  let p3e := ld64 (v_mem s) (slot hhdm (phys_mask p4e) (PDPT_I virt)) in
  if negb (truthy (Z.land p3e 1)) then 0 else
  if truthy (Z.land p3e 0x80)
  then u64 (Z.land p3e 0x000FFFFFC0000000 + Z.land virt 0x3FFFFFFF) else
  let p2e := ld64 (v_mem s) (slot hhdm (phys_mask p3e) (PD_I virt)) in
  if negb (truthy (Z.land p2e 1)) then 0 else
  if truthy (Z.land p2e 0x80) then u64 (phys_mask p2e + Z.land virt 0x1FFFFF) else
  let p1e := ld64 (v_mem s) (slot hhdm (phys_mask p2e) (PT_I virt)) in
  if negb (truthy (Z.land p1e 1)) then 0 else
  u64 (phys_mask p1e + Z.land virt 0xFFF).

(** ** Reference: the page walk of the processor *)

Definition present (e : Z) : bool := Z.testbit e 0.
Definition huge (e : Z) : bool := Z.testbit e 7.

(** Index into the table of level [l] (4 = PML4 ... 1 = PT). *)
Definition idx (l va : Z) : Z := (va / 2 ^ (12 + 9 * (l - 1))) mod 512.

(** The part of the (48-bit) address above the reach of one table of level [l]:
    identifies the table; level 0 identifies the 4 KiB page. *)
Definition prefix (l va : Z) : Z := (va mod 2 ^ 48) / 2 ^ (12 + 9 * l).

(** Outcome: no translation, or the terminal entry and its level. *)
Inductive walk_result :=
  | Unmapped
  | Leaf (l e : Z).

Definition entry (hhdm : Z) (m : mem) (pa i : Z) : Z := ld64 m (slot hhdm pa i).

Fixpoint walk (n : nat) (hhdm : Z) (m : mem) (pa va : Z) : walk_result :=
  match n with
  | O => Unmapped
  | S n' =>
      let e := entry hhdm m pa (idx (Z.of_nat n) va) in
      if negb (present e) then Unmapped
      else if (n' =? 0)%nat then Leaf 1 e
      else if (n <? 4)%nat && huge e then Leaf (Z.of_nat n) e
      else walk n' hhdm m (phys_mask e) va
  end.

(** The physical address the processor forms from a terminal entry of level [l]: bits
    [12 + 9 * (l - 1)] to 51 of the entry, below them the bits of the address. (In a
    large page, bit 12 of the entry is a memory-type bit and the bits between it and the
    frame are reserved.) 0 where there is no translation, as in the code. The address is
    a canonical one: neither the walk nor the code looks at bits 48 to 63. *)
Definition resolve (r : walk_result) (va : Z) : Z :=
  match r with
  | Unmapped => 0
  | Leaf l e => let k := 12 + 9 * (l - 1) in (e mod 2 ^ 52 - e mod 2 ^ k) + va mod 2 ^ k
  end.

(** Bits 12 to 20 of a 2 MiB entry, which are no part of its frame. *)
Definition stray (r : walk_result) : Z :=
  match r with
  | Leaf 2 e => e mod 2 ^ 21 - e mod 2 ^ 12
  | _ => 0
  end.

(** The address [vmm_virt_to_phys] forms: one mask for the 4 KiB and the 2 MiB entries. *)
Definition kernel_resolve (r : walk_result) (va : Z) : Z :=
  match r with
  | Unmapped => 0
  | Leaf l e =>
      if l =? 1 then phys_mask e + va mod 2 ^ 12
      else if l =? 2 then phys_mask e + va mod 2 ^ 21
      else Z.land e 0x000FFFFFC0000000 + va mod 2 ^ 30
  end.

Definition root (s : vmm) : Z := Z.land (v_cr3 s) (not64 0xFFF).

(** *** Index and mask arithmetic *)

Lemma PML4_I_idx v : PML4_I v = idx 4 v.
Proof. exact (shift_mask_field v 39 9 ltac:(lia) ltac:(lia)). Qed.
Lemma PDPT_I_idx v : PDPT_I v = idx 3 v.
Proof. exact (shift_mask_field v 30 9 ltac:(lia) ltac:(lia)). Qed.
Lemma PD_I_idx v : PD_I v = idx 2 v.
Proof. exact (shift_mask_field v 21 9 ltac:(lia) ltac:(lia)). Qed.
Lemma PT_I_idx v : PT_I v = idx 1 v.
Proof. exact (shift_mask_field v 12 9 ltac:(lia) ltac:(lia)). Qed.

Lemma truthy_present e : truthy (Z.land e 1) = present e.
Proof. exact (truthy_land_bit e 0 ltac:(lia)). Qed.
Lemma truthy_huge e : truthy (Z.land e 0x80) = huge e.
Proof. exact (truthy_land_bit e 7 ltac:(lia)). Qed.

Create Rewrite HintDb vmm.
Create HintDb vmm_path.
#[export] Hint Rewrite PML4_I_idx PDPT_I_idx PD_I_idx PT_I_idx truthy_present truthy_huge : vmm.

Lemma phys_mask_eq e : 0 <= e -> phys_mask e = e mod 2 ^ 52 - e mod 4096.
Proof. exact (land_field_mask e 12 52 ltac:(lia)). Qed.

Lemma phys_mask_bound e : 0 <= e -> 0 <= phys_mask e < 2 ^ 52 /\ phys_mask e mod 4096 = 0.
Proof. intros He. rewrite phys_mask_eq by done. mlia. Qed.

Lemma idx_bound l va : 0 <= idx l va < 512.
Proof. unfold idx. mlia. Qed.

Lemma prefix_step l va : 1 <= l <= 4 -> prefix (l - 1) va = prefix l va * 512 + idx l va.
Proof.
  intros Hl. unfold prefix, idx.
  assert (l = 1 \/ l = 2 \/ l = 3 \/ l = 4) as [->|[->|[->| ->]]] by lia; cbn [Z.sub Z.mul Z.add];
    mlia.
Qed.

Lemma prefix_4 va : prefix 4 va = 0.
Proof. unfold prefix. mlia. Qed.

Lemma entry_bound hhdm m pa i : 0 <= entry hhdm m pa i < 2 ^ 64.
Proof. apply ld64_bound. Qed.

Lemma resolve_bound r va :
  (forall l e, r = Leaf l e -> 0 <= e < 2 ^ 64) -> 0 <= kernel_resolve r va < 2 ^ 53.
Proof.
  intros Hr. destruct r as [|l e]; cbn [kernel_resolve]; [lia|].
  specialize (Hr l e eq_refl). pose proof (phys_mask_bound e ltac:(lia)).
  pose proof (land_field_mask e 30 52 ltac:(lia) ltac:(lia)) as Hg.
  change (2 ^ 52 - 2 ^ 30) with 0x000FFFFFC0000000 in Hg. rewrite Hg.
  repeat case_match; mlia.
Qed.

Lemma walk_entry_bound n hhdm m pa va l e :
  walk n hhdm m pa va = Leaf l e -> 0 <= e < 2 ^ 64.
Proof.
  revert pa. induction n as [|n IH]; intros pa; cbn [walk]; [done|].
  pose proof (entry_bound hhdm m pa (idx (Z.of_nat (S n)) va)) as Hb.
  repeat case_match; intros; simplify_eq; eauto.
Qed.

Lemma walk_leaf n hhdm m pa va l e :
  (n <= 4)%nat -> walk n hhdm m pa va = Leaf l e -> 1 <= l <= 3 /\ 0 <= e < 2 ^ 64.
Proof.
  intros Hn E. split; [|by eapply walk_entry_bound]. revert pa Hn E.
  induction n as [|n IH]; intros pa Hn; cbn [walk]; [done|].
  destruct (present _); cbn [negb]; [|done]. destruct (n =? 0)%nat eqn:E0; [intros; simplify_eq; lia|].
  apply Nat.eqb_neq in E0. destruct (S n <? 4)%nat eqn:E4; cbn [andb].
  - apply Nat.ltb_lt in E4. destruct (huge _); [intros; simplify_eq; lia|]. apply IH. lia.
  - apply IH. lia.
Qed.

Lemma stray_other l e : l <> 2 -> stray (Leaf l e) = 0.
Proof. intros Hl. cbn [stray]. by repeat case_match. Qed.

Lemma kernel_resolve_stray l e va :
  1 <= l <= 3 -> 0 <= e < 2 ^ 64 -> kernel_resolve (Leaf l e) va = resolve (Leaf l e) va + stray (Leaf l e).
Proof.
  intros Hl He. pose proof (phys_mask_eq e ltac:(lia)) as Hp.
  pose proof (land_field_mask e 30 52 ltac:(lia) ltac:(lia)) as Hg.
  change (2 ^ 52 - 2 ^ 30) with 0x000FFFFFC0000000 in Hg.
  assert (Hc : l = 1 \/ l = 2 \/ l = 3) by lia. cbn [kernel_resolve]. rewrite Hg, Hp.
  destruct Hc as [-> | [-> | ->]]; cbn [Z.eqb Pos.eqb resolve stray Z.sub Z.mul Z.add Z.opp Z.pos_sub Pos.mul Pos.add]; mlia.
Qed.

(** The kernel's software walk follows the processor's. *)
Lemma virt_to_phys_resolve hhdm va s :
  vmm_virt_to_phys hhdm va s = kernel_resolve (walk 4 hhdm (v_mem s) (root s) va) va.
Proof.
  rewrite <-(u64_id (kernel_resolve _ _)).
  2: { pose proof (resolve_bound (walk 4 hhdm (v_mem s) (root s) va) va) as Hb.
       destruct Hb; [eauto using walk_entry_bound|lia]. }
  unfold vmm_virt_to_phys, get_cr3. fold (root s).
  change 0xFFF with (Z.ones 12). change 0x1FFFFF with (Z.ones 21).
  change 0x3FFFFFFF with (Z.ones 30). rewrite !Z.land_ones by lia.
  autorewrite with vmm. cbn [walk Nat.eqb Nat.ltb Nat.leb andb].
  cbv zeta. unfold entry. change (Z.ones 12) with 0xFFF.
  change (Z.of_nat 4) with 4. change (Z.of_nat 3) with 3. change (Z.of_nat 2) with 2.
  change (Z.of_nat 1) with 1.
  repeat match goal with
    | |- context [present ?e] => destruct (present e); cbn [negb]; [|done]
    | |- context [huge ?e] => destruct (huge e); [done|]
    end. done.
Qed.

(** ** Well-formed page-table trees

    [own] assigns to each table page its level and the address prefix it serves:
    a function, so no table is shared between two places of the tree. *)

Definition tbl_ok (hhdm pa : Z) : Prop := frame_ok hhdm pa /\ pa < 2 ^ 52.

Record pt_wf (hhdm rt : Z) (m : mem) (own : gmap Z (Z * Z)) : Prop := {
  wf_hhdm : 0 <= hhdm;
  wf_root : own !! rt = Some (4, 0);
  wf_tbl pa l x : own !! pa = Some (l, x) -> tbl_ok hhdm pa /\ 1 <= l <= 4;
  wf_edge pa l x i :
    own !! pa = Some (l, x) -> 1 < l -> 0 <= i < 512 ->
    present (entry hhdm m pa i) = true ->
    (l < 4 -> huge (entry hhdm m pa i) = false) ->
    own !! phys_mask (entry hhdm m pa i) = Some (l - 1, x * 512 + i);
}.

(** The whole state of vmm.c: a well-formed tree, and a frame allocator whose
    free frames [free] are not table pages. *)
Record vmm_inv (hhdm : Z) (s : vmm) (own : gmap Z (Z * Z)) (free : list Z) : Prop := {
  inv_pt : pt_wf hhdm (root s) (v_mem s) own;
  inv_pmm : pmm_rep (v_pmm s) (v_mem s) free;
  inv_hhdm : pmm_hhdm (v_pmm s) = hhdm;
  inv_free p : p ∈ free -> own !! p = None /\ p < 2 ^ 52;
}.

Lemma slot_eq hhdm pa i : 0 <= hhdm -> tbl_ok hhdm pa -> slot hhdm pa i = hhdm + pa + 8 * i.
Proof. intros ? [? _]. unfold slot. by rewrite frame_ok_u64. Qed.

Lemma slots_apart hhdm pa i pa' i' :
  0 <= hhdm -> tbl_ok hhdm pa -> tbl_ok hhdm pa' -> 0 <= i < 512 -> 0 <= i' < 512 ->
  pa <> pa' \/ i <> i' ->
  slot hhdm pa i + 8 <= slot hhdm pa' i' \/ slot hhdm pa' i' + 8 <= slot hhdm pa i.
Proof.
  intros ? Ht Ht' ? ? Hne. rewrite !slot_eq by done.
  destruct Ht as [(? & ? & ?) _], Ht' as [(? & ? & ?) _].
  destruct (decide (pa = pa')) as [->|]; [lia|].
  destruct (frames_apart pa pa'); done || lia.
Qed.

(** A store to one table entry. *)
Lemma entry_store_eq hhdm m pa i v : entry hhdm (st64 m (slot hhdm pa i) v) pa i = u64 v.
Proof. apply ld64_st64_eq; auto with kernel. Qed.

Lemma entry_store_ne hhdm m pa i v pa' i' :
  0 <= hhdm -> tbl_ok hhdm pa -> tbl_ok hhdm pa' -> 0 <= i < 512 -> 0 <= i' < 512 ->
  pa <> pa' \/ i <> i' ->
  entry hhdm (st64 m (slot hhdm pa i) v) pa' i' = entry hhdm m pa' i'.
Proof.
  intros. apply ld64_st64_ne; auto with kernel.
  destruct (slots_apart hhdm pa i pa' i'); auto.
Qed.

(** Such a store leaves the free list intact. *)
Lemma store_slot_free hhdm m pa i v p :
  0 <= hhdm -> tbl_ok hhdm pa -> 0 <= i < 512 -> frame_ok hhdm p -> p <> pa ->
  agree m (st64 m (slot hhdm pa i) v) (hhdm + p) 8.
Proof.
  intros Hh Ht Hi Hp Hne. apply (st_le_agree 8); auto with kernel.
  rewrite slot_eq by done. destruct Ht as [(? & ? & ?) _], Hp as (? & ? & ?).
  destruct (frames_apart p pa); done || lia.
Qed.

(** Zeroing a whole frame. *)
Definition zero_page (hhdm p : Z) (m : mem) : mem :=
  for_range 0 4096 (fun i m => vst8 m (u64 (hhdm + p) + i) 0) m.

Lemma zero_page_memset hhdm p m : zero_page hhdm p m = (memset m (u64 (hhdm + p)) 0 4096).1.
Proof. reflexivity. Qed.

Lemma zero_page_entry hhdm p m i :
  0 <= i < 512 -> entry hhdm (zero_page hhdm p m) p i = 0.
Proof.
  intros Hi. rewrite zero_page_memset. apply memset_zero_ld64; auto with kernel;
    unfold slot; lia.
Qed.

Lemma zero_page_agree hhdm p m q a k :
  0 <= hhdm -> frame_ok hhdm p -> frame_ok hhdm q -> p <> q ->
  q <= a -> a + k <= q + 4096 -> agree m (zero_page hhdm p m) (hhdm + a) k.
Proof.
  intros Hh Hp Hq Hne ??. rewrite zero_page_memset. apply memset_agree; auto with kernel; [lia|].
  rewrite frame_ok_u64 by done. destruct Hp as (? & ? & ?), Hq as (? & ? & ?).
  destruct (frames_apart p q); done || lia.
Qed.

Lemma zero_page_entry_ne hhdm p m pa i :
  0 <= hhdm -> frame_ok hhdm p -> tbl_ok hhdm pa -> p <> pa -> 0 <= i < 512 ->
  entry hhdm (zero_page hhdm p m) pa i = entry hhdm m pa i.
Proof.
  intros Hh Hp Ht Hne Hi. apply ld64_agree. rewrite slot_eq by done.
  rewrite <-Z.add_assoc. apply (zero_page_agree _ _ _ pa); [done..|apply Ht|done|lia|lia].
Qed.

(** ** Translations are stable *)

(** Linking a fresh, empty table into an empty entry changes no translation. *)
Lemma walk_link_fresh hhdm rt m m' own p tbl i0 :
  pt_wf hhdm rt m own ->
  own !! p = None ->
  present (entry hhdm m tbl i0) = false ->
  present (entry hhdm m' tbl i0) = true ->
  huge (entry hhdm m' tbl i0) = false ->
  phys_mask (entry hhdm m' tbl i0) = p ->
  (forall i, 0 <= i < 512 -> present (entry hhdm m' p i) = false) ->
  (forall pa l x i, own !! pa = Some (l, x) -> 0 <= i < 512 -> pa <> tbl \/ i <> i0 ->
     entry hhdm m' pa i = entry hhdm m pa i) ->
  (exists l x, own !! tbl = Some (l, x) /\ 1 < l) ->
  forall n pa x va, own !! pa = Some (Z.of_nat n, x) -> walk n hhdm m' pa va = walk n hhdm m pa va.
Proof.
  intros Hwf Hp Hold Hnew Hnh Hpm Hz Hsame (l0 & x0 & Ht & Hl0).
  induction n as [|n IH]; intros pa x va Hpa; [done|].
  set (i := idx (Z.of_nat (S n)) va). assert (Hi : 0 <= i < 512) by apply idx_bound.
  cbn [walk]. fold i.
  destruct (decide (pa = tbl /\ i = i0)) as [[-> ->]|Hne].
  - rewrite Hold, Hnew, Hnh, andb_false_r. cbn [negb].
    rewrite Ht in Hpa. injection Hpa as Hn _. destruct n as [|n]; [lia|]. cbn [Nat.eqb].
    rewrite Hpm. cbn [walk]. by rewrite Hz by apply idx_bound.
  - assert (entry hhdm m' pa i = entry hhdm m pa i) as He.
    { eapply Hsame; [done..|]. by apply not_and_ne. }
    rewrite He.
    destruct (present (entry hhdm m pa i)) eqn:Epr; cbn [negb]; [|done].
    destruct (n =? 0)%nat eqn:En; [done|].
    destruct ((S n <? 4)%nat && huge (entry hhdm m pa i)) eqn:Eh; [done|].
    eapply IH. replace (Z.of_nat n) with (Z.of_nat (S n) - 1) by lia.
    apply Nat.eqb_neq in En.
    eapply (wf_edge _ _ _ _ Hwf); [done|lia|done|done|].
    intros Hl4. rewrite (proj2 (Nat.ltb_lt _ _)) in Eh by lia. done.
Qed.

(** Linking a fresh table keeps the tree; only one that serves tables has to be
    empty. *)
Lemma link_wf hhdm rt m m' own p tbl l x i :
  pt_wf hhdm rt m own -> own !! tbl = Some (l, x) -> 1 < l -> tbl_ok hhdm p -> own !! p = None ->
  phys_mask (entry hhdm m' tbl i) = p ->
  (forall pa y j, own !! pa = Some y -> 0 <= j < 512 -> pa <> tbl \/ j <> i ->
     entry hhdm m' pa j = entry hhdm m pa j) ->
  (2 < l -> forall j, 0 <= j < 512 -> entry hhdm m' p j = 0) ->
  pt_wf hhdm rt m' (<[p := (l - 1, x * 512 + i)]> own).
Proof.
  intros W Htbl Hl Hok Hno Hnew Hold Hz. split.
  - apply W.
  - rewrite lookup_insert_ne; [apply W|]. intros ->. pose proof (wf_root _ _ _ _ W). congruence.
  - intros pa l' x' Hpa. destruct (decide (pa = p)) as [->|Hne].
    + rewrite lookup_insert_eq in Hpa. simplify_eq. split; [done|].
      pose proof (wf_tbl _ _ _ _ W _ _ _ Htbl). lia.
    + rewrite lookup_insert_ne in Hpa by done. by apply (wf_tbl _ _ _ _ W) in Hpa.
  - intros pa l' x' j Hpa Hl' Hj Hpr Hh. destruct (decide (pa = p)) as [->|Hne].
    { rewrite lookup_insert_eq in Hpa. simplify_eq. rewrite Hz in Hpr by lia. done. }
    rewrite lookup_insert_ne in Hpa by done.
    destruct (decide (pa = tbl /\ j = i)) as [[-> ->]|Hne2].
    + rewrite Hnew, Htbl in *. simplify_eq. apply lookup_insert_eq.
    + assert (E : entry hhdm m' pa j = entry hhdm m pa j).
      { apply (Hold pa (l', x')); [done..|]. by apply not_and_ne. }
      rewrite E in Hpr, Hh |- *.
      pose proof (wf_edge _ _ _ _ W pa l' x' j Hpa Hl' Hj Hpr Hh) as He.
      rewrite lookup_insert_ne; [done|congruence].
Qed.

(** Writing one entry of a bottom-level table changes the translation of the
    addresses of one page only. *)
Lemma walk_leaf_store hhdm rt m m' own pt virt :
  pt_wf hhdm rt m own ->
  own !! pt = Some (1, prefix 1 virt) ->
  (forall pa l x i, own !! pa = Some (l, x) -> 0 <= i < 512 -> pa <> pt \/ i <> idx 1 virt ->
     entry hhdm m' pa i = entry hhdm m pa i) ->
  forall n pa va, prefix 0 va <> prefix 0 virt ->
  own !! pa = Some (Z.of_nat n, prefix (Z.of_nat n) va) ->
  walk n hhdm m' pa va = walk n hhdm m pa va.
Proof.
  intros Hwf Hpt Hsame. induction n as [|n IH]; intros pa va Hne Hpa; [done|].
  set (i := idx (Z.of_nat (S n)) va). assert (Hi : 0 <= i < 512) by apply idx_bound.
  cbn [walk]. fold i.
  assert (entry hhdm m' pa i = entry hhdm m pa i) as ->.
  { eapply Hsame; [done..|]. destruct (decide (pa = pt)) as [->|]; [right|by left].
    rewrite Hpt in Hpa. injection Hpa as Hn Hx. intros Hii. apply Hne.
    unfold i in Hii. replace (Z.of_nat (S n)) with 1 in * by lia.
    pose proof (prefix_step 1 va ltac:(lia)) as E1. pose proof (prefix_step 1 virt ltac:(lia)) as E2.
    change (1 - 1) with 0 in *. congruence. }
  destruct (present (entry hhdm m pa i)) eqn:Epr; cbn [negb]; [|done].
  destruct (n =? 0)%nat eqn:En; [done|].
  destruct ((S n <? 4)%nat && huge (entry hhdm m pa i)) eqn:Eh; [done|].
  apply IH; [done|]. apply Nat.eqb_neq in En.
  pose proof (wf_tbl _ _ _ _ Hwf _ _ _ Hpa) as [_ Hl].
  replace (Z.of_nat n) with (Z.of_nat (S n) - 1) by lia.
  rewrite prefix_step by lia.
  eapply (wf_edge _ _ _ _ Hwf); [done|lia|done|done|].
  intros Hl4. rewrite (proj2 (Nat.ltb_lt _ _)) in Eh by lia. done.
Qed.

(** ** [ensure_table] *)

(** An entry linking frame [p] with the flags present, writable. *)
Lemma link_entry p :
  0 <= p < 2 ^ 52 -> p mod 4096 = 0 ->
  u64 (Z.lor p 0x03) = p + 3 /\ present (p + 3) = true /\ huge (p + 3) = false /\
  phys_mask (p + 3) = p.
Proof.
  intros Hp Ha. rewrite (lor_low_add p 3 12) by (done || lia).
  split; [apply u64_id; lia|]. split; [|split].
  - apply Z.testbit_true; [lia|]. mlia.
  - apply Z.testbit_false; [lia|]. mlia.
  - rewrite phys_mask_eq by lia. mlia.
Qed.

(** What one or more [ensure_table] calls may do to the state: take at most [k]
    frames, keep the tree well-formed, keep present entries, change no
    translation. *)
Record tables_step (hhdm : Z) (k : nat) (s : vmm) (own : gmap Z (Z * Z)) (free : list Z)
    (s' : vmm) (own' : gmap Z (Z * Z)) (free' : list Z) : Prop := {
  ts_inv : vmm_inv hhdm s' own' free';
  ts_cr3 : v_cr3 s' = v_cr3 s;
  ts_own : own ⊆ own';
  ts_keep pa l x i :
    own !! pa = Some (l, x) -> 0 <= i < 512 -> present (entry hhdm (v_mem s) pa i) = true ->
    entry hhdm (v_mem s') pa i = entry hhdm (v_mem s) pa i;
  ts_link pa y i :
    own !! pa = Some y -> 0 <= i < 512 ->
    entry hhdm (v_mem s') pa i = entry hhdm (v_mem s) pa i \/
    huge (entry hhdm (v_mem s') pa i) = false;
  ts_walk n pa x va :
    own !! pa = Some (Z.of_nat n, x) -> walk n hhdm (v_mem s') pa va = walk n hhdm (v_mem s) pa va;
  ts_free : (length free <= length free' + k)%nat;
  ts_sub p : p ∈ free' -> p ∈ free;
  ts_new p y : own' !! p = Some y -> own !! p = Some y \/ p ∈ free;
  ts_invlpg : v_invlpg s' = v_invlpg s;
}.

Lemma tables_step_refl hhdm k s own free :
  vmm_inv hhdm s own free -> tables_step hhdm k s own free s own free.
Proof. intros Hi. split; try done; [by left|lia|]. by left. Qed.

Lemma tables_step_weaken hhdm k k' s own free s' own' free' :
  (k <= k')%nat -> tables_step hhdm k s own free s' own' free' ->
  tables_step hhdm k' s own free s' own' free'.
Proof. intros Hk []. split; try done. lia. Qed.

Lemma tables_step_trans hhdm k1 k2 s1 o1 f1 s2 o2 f2 s3 o3 f3 :
  tables_step hhdm k1 s1 o1 f1 s2 o2 f2 -> tables_step hhdm k2 s2 o2 f2 s3 o3 f3 ->
  tables_step hhdm (k1 + k2) s1 o1 f1 s3 o3 f3.
Proof.
  intros A B. split.
  - apply (ts_inv _ _ _ _ _ _ _ _ B).
  - by rewrite (ts_cr3 _ _ _ _ _ _ _ _ B), (ts_cr3 _ _ _ _ _ _ _ _ A).
  - etrans; [apply A|apply B].
  - intros pa l x i Ho Hi Hp. pose proof (ts_keep _ _ _ _ _ _ _ _ A _ _ _ _ Ho Hi Hp) as E1.
    rewrite <-E1. eapply (ts_keep _ _ _ _ _ _ _ _ B); [|done|by rewrite E1].
    eapply lookup_weaken; [done|apply A].
  - intros pa y i Ho Hi.
    destruct (ts_link _ _ _ _ _ _ _ _ B pa y i) as [-> | Hb]; [by eapply lookup_weaken; [|apply A]|done| |by right].
    by apply (ts_link _ _ _ _ _ _ _ _ A pa y i).
  - intros n pa x va Ho. rewrite (ts_walk _ _ _ _ _ _ _ _ B n pa x).
    + by eapply (ts_walk _ _ _ _ _ _ _ _ A).
    + eapply lookup_weaken; [done|apply A].
  - pose proof (ts_free _ _ _ _ _ _ _ _ A). pose proof (ts_free _ _ _ _ _ _ _ _ B). lia.
  - intros p Hp. apply A, B, Hp.
  - intros p y Ho. destruct (ts_new _ _ _ _ _ _ _ _ B p y Ho) as [Ho2|Hf].
    + by apply (ts_new _ _ _ _ _ _ _ _ A).
    + right. by apply A.
  - by rewrite (ts_invlpg _ _ _ _ _ _ _ _ B), (ts_invlpg _ _ _ _ _ _ _ _ A).
Qed.

(** Table [r] hangs off entry [i] of table [tbl]. *)
Record linked (hhdm : Z) (m : mem) (own : gmap Z (Z * Z)) (tbl l x i r : Z) : Prop := {
  lk_present : present (entry hhdm m tbl i) = true;
  lk_huge : l < 4 -> huge (entry hhdm m tbl i) = false;
  lk_phys : phys_mask (entry hhdm m tbl i) = r;
  lk_own : own !! r = Some (l - 1, x * 512 + i);
}.

Section EnsureFresh.
(** The branch of [ensure_table] that links a new table. *)
Context (hhdm : Z) (s : vmm) (own : gmap Z (Z * Z)) (p : Z) (free : list Z) (tbl l x i : Z).
Hypothesis Hinv : vmm_inv hhdm s own (p :: free).
Hypothesis Htbl : own !! tbl = Some (l, x).
Hypothesis Hl : 1 < l.
Hypothesis Hi : 0 <= i < 512.
Hypothesis Hnp : present (entry hhdm (v_mem s) tbl i) = false.

Let m' := st64 (zero_page hhdm p (v_mem s)) (slot hhdm tbl i) (Z.lor p 0x03).
Let s' := set_mem (set_pmm s (pmm_alloc (v_pmm s) (v_mem s)).2) m'.
Let own' := <[p := (l - 1, x * 512 + i)]> own.

Lemma fresh_tbl_ok : tbl_ok hhdm p.
Proof using Hinv.
  split; [|apply (inv_free _ _ _ _ Hinv); constructor].
  pose proof (rep_frames _ _ _ (inv_pmm _ _ _ _ Hinv)) as Hf.
  rewrite (inv_hhdm _ _ _ _ Hinv) in Hf. by apply Forall_cons in Hf as [? _].
Qed.

Lemma fresh_not_owned : own !! p = None.
Proof using Hinv. apply (inv_free _ _ _ _ Hinv). constructor. Qed.

Lemma fresh_h : 0 <= hhdm.
Proof using Hinv. apply (wf_hhdm _ _ _ _ (inv_pt _ _ _ _ Hinv)). Qed.

Lemma owned_tbl_ok pa y : own !! pa = Some y -> tbl_ok hhdm pa /\ pa <> p.
Proof using Hinv.
  destruct y as [l' x']. intros H. split.
  - by apply (wf_tbl _ _ _ _ (inv_pt _ _ _ _ Hinv)) in H as [? _].
  - intros ->. by rewrite fresh_not_owned in H.
Qed.

Lemma fresh_entry_new : entry hhdm m' tbl i = p + 3.
Proof using Hinv.
  unfold m'. rewrite entry_store_eq. destruct fresh_tbl_ok as [(? & ? & ?) ?].
  apply link_entry; done || lia.
Qed.

Lemma fresh_entry_old pa y j :
  own !! pa = Some y -> 0 <= j < 512 -> pa <> tbl \/ j <> i ->
  entry hhdm m' pa j = entry hhdm (v_mem s) pa j.
Proof using Hinv Htbl Hi.
  intros Ho Hj Hne. unfold m'.
  destruct (owned_tbl_ok _ _ Ho) as [Hok Hp], (owned_tbl_ok _ _ Htbl) as [Hok' _].
  rewrite entry_store_ne; [|apply fresh_h|done..|naive_solver].
  apply zero_page_entry_ne; [apply fresh_h|apply fresh_tbl_ok|done..].
Qed.

Lemma fresh_entry_zero j : 0 <= j < 512 -> entry hhdm m' p j = 0.
Proof using Hinv Htbl Hi.
  intros Hj. unfold m'. destruct (owned_tbl_ok _ _ Htbl) as [Hok Hne].
  rewrite entry_store_ne; [|apply fresh_h|done|apply fresh_tbl_ok|done|done|by left].
  by apply zero_page_entry.
Qed.

Lemma fresh_wf : pt_wf hhdm (root s') m' own'.
Proof using Hinv Htbl Hl Hi.
  destruct fresh_tbl_ok as [(Hp0 & Hpa & Hph) Hlt].
  apply (link_wf hhdm (root s) (v_mem s) m' own p tbl l x i); auto using fresh_tbl_ok, fresh_not_owned, fresh_entry_zero.
  - apply Hinv.
  - rewrite fresh_entry_new. by apply link_entry; [lia|].
  - exact fresh_entry_old.
Qed.

Lemma fresh_inv : vmm_inv hhdm s' own' free.
Proof using Hinv Htbl Hl Hi Hnp.
  destruct (pmm_alloc_cons _ _ _ _ (inv_pmm _ _ _ _ Hinv)) as (_ & Hr & Hh).
  pose proof fresh_h as H0. pose proof (rep_nodup _ _ _ (inv_pmm _ _ _ _ Hinv)) as Hnd.
  apply NoDup_cons in Hnd as [Hnin Hnd].
  split; [apply fresh_wf| | |].
  - cbn [s' set_mem set_pmm v_pmm v_mem]. eapply pmm_rep_agree; [exact Hr|].
    intros q Hq. rewrite Hh, (inv_hhdm _ _ _ _ Hinv).
    assert (frame_ok hhdm q) as Hfq.
    { pose proof (rep_frames _ _ _ Hr) as Hf. rewrite Hh, (inv_hhdm _ _ _ _ Hinv) in Hf.
      by eapply Forall_forall in Hf. }
    eapply agree_trans.
    + apply (zero_page_agree hhdm p _ q); [done|apply fresh_tbl_ok|done|set_solver|lia|lia].
    + apply store_slot_free; [done|by eapply owned_tbl_ok|done|done|].
      intros ->. destruct (inv_free _ _ _ _ Hinv tbl) as [Hno _]; [set_solver|congruence].
  - exact (eq_trans Hh (inv_hhdm _ _ _ _ Hinv)).
  - intros q Hq. destruct (inv_free _ _ _ _ Hinv q) as [Hno ?]; [set_solver|].
    split; [|done]. unfold own'. rewrite lookup_insert_ne; [done|]. set_solver.
Qed.

Lemma fresh_step : tables_step hhdm 1 s own (p :: free) s' own' free.
Proof using Hinv Htbl Hl Hi Hnp.
  destruct fresh_tbl_ok as [(Hp0 & Hpa & Hph) Hlt].
  destruct (link_entry p) as (_ & Hpr & Hnh & Hpm); [lia|done|].
  split.
  - apply fresh_inv.
  - done.
  - apply insert_subseteq, fresh_not_owned.
  - intros pa l' x' j Ho Hj Hpres. apply (fresh_entry_old pa (l', x')); [done..|].
    apply not_and_ne. intros [-> ->]. congruence.
  - intros pa y j Ho Hj. destruct (decide (pa = tbl /\ j = i)) as [[-> ->]|Hne].
    + right. cbn [s' set_mem v_mem]. by rewrite fresh_entry_new.
    + left. apply (fresh_entry_old pa y); [done..|]. by apply not_and_ne.
  - intros n pa y va Hpa'.
    apply (walk_link_fresh hhdm (root s) (v_mem s) m' own p tbl i) with (x := y); auto.
    + apply Hinv.
    + apply fresh_not_owned.
    + by rewrite fresh_entry_new.
    + by rewrite fresh_entry_new.
    + by rewrite fresh_entry_new.
    + intros j Hj. by rewrite fresh_entry_zero.
    + intros pa' l' x' j Ho Hj Hne. by apply (fresh_entry_old pa' (l', x')).
    + by exists l, x.
  - cbn [length]. lia.
  - intros q Hq. set_solver.
  - intros q y. unfold own'. destruct (decide (q = p)) as [->|Hne]; [right; set_solver|].
    rewrite lookup_insert_ne by done. by left.
  - done.
Qed.

Lemma fresh_linked : linked hhdm (v_mem s') own' tbl l x i p.
Proof using Hinv.
  destruct fresh_tbl_ok as [(Hp0 & Hpa & Hph) Hlt].
  destruct (link_entry p) as (_ & Hpr & Hnh & Hpm); [lia|done|].
  split; cbn [s' set_mem v_mem]; rewrite ?fresh_entry_new; auto.
  apply lookup_insert_eq.
Qed.
End EnsureFresh.

(** The contract of [ensure_table] on an owned table of level above 1. *)
Lemma ensure_table_spec hhdm s own free tbl l x i :
  vmm_inv hhdm s own free -> own !! tbl = Some (l, x) -> 1 < l -> 0 <= i < 512 ->
  (l < 4 -> huge (entry hhdm (v_mem s) tbl i) = false) ->
  exists r s' own' free',
    ensure_table hhdm (slot hhdm tbl i) 0x03 s = (r, s') /\
    tables_step hhdm 1 s own free s' own' free' /\
    (present (entry hhdm (v_mem s) tbl i) = true -> s' = s) /\
    (present (entry hhdm (v_mem s) tbl i) = false -> 0 < r ->
       forall j, 0 <= j < 512 -> entry hhdm (v_mem s') r j = 0) /\
    ((r = 0 /\ free = []) \/ (0 < r /\ linked hhdm (v_mem s') own' tbl l x i r)).
Proof.
  intros Hinv Htbl Hl Hi Hh. unfold ensure_table.
  fold (entry hhdm (v_mem s) tbl i). rewrite truthy_present.
  destruct (present (entry hhdm (v_mem s) tbl i)) eqn:Epr.
  - exists (phys_mask (entry hhdm (v_mem s) tbl i)), s, own, free. split; [done|].
    split; [by apply tables_step_refl|]. split; [done|]. split; [done|]. right.
    pose proof (wf_edge _ _ _ _ (inv_pt _ _ _ _ Hinv) _ _ _ _ Htbl Hl Hi Epr Hh) as He.
    pose proof (wf_tbl _ _ _ _ (inv_pt _ _ _ _ Hinv) _ _ _ He) as [[(? & _) _] _].
    split; [done|]. by split.
  - destruct free as [|p free].
    + rewrite (pmm_alloc_nil _ _ (inv_pmm _ _ _ _ Hinv)).
      exists 0, (set_pmm s (v_pmm s)), own, []. split; [done|].
      split; [destruct s; by apply tables_step_refl|].
      split; [done|]. split; [lia|]. by left.
    + destruct (pmm_alloc_cons _ _ _ _ (inv_pmm _ _ _ _ Hinv)) as (Hp & _ & _).
      destruct (pmm_alloc (v_pmm s) (v_mem s)) as [q pm] eqn:Ea. cbn [fst] in Hp. subst q.
      destruct (fresh_tbl_ok _ _ _ _ _ Hinv) as [(Hp0 & _) _].
      rewrite (proj2 (truthy_true p)) by lia. cbn [negb].
      pose proof (fresh_step hhdm s own p free tbl l x i Hinv Htbl Hl Hi Epr) as Hs.
      pose proof (fresh_linked hhdm s own p free tbl l x i Hinv) as Hlk.
      pose proof (fresh_entry_zero hhdm s own p free tbl l x i Hinv Htbl Hi) as Hz.
      rewrite Ea in Hs, Hlk. eexists p, _, _, free. split; [reflexivity|].
      split; [exact Hs|]. split; [done|]. split; [intros _ _; exact Hz|].
      right. split; [done|exact Hlk].
Qed.

Lemma linked_step hhdm k s own free s' own' free' tbl l x i r :
  tables_step hhdm k s own free s' own' free' ->
  linked hhdm (v_mem s) own tbl l x i r -> own !! tbl = Some (l, x) -> 0 <= i < 512 ->
  linked hhdm (v_mem s') own' tbl l x i r.
Proof.
  intros T [Hp Hh Hm Ho] Ht Hi. pose proof (ts_keep _ _ _ _ _ _ _ _ T _ _ _ _ Ht Hi Hp) as E.
  split; rewrite ?E; try done. eapply lookup_weaken; [done|apply T].
Qed.

Lemma walk_linked n hhdm m own tbl x r va :
  linked hhdm m own tbl (Z.of_nat (S (S n))) x (idx (Z.of_nat (S (S n))) va) r ->
  walk (S (S n)) hhdm m tbl va = walk (S n) hhdm m r va.
Proof.
  intros [Hp Hh Hm _]. cbn [walk]. rewrite Hp. cbn [negb Nat.eqb].
  destruct (S (S n) <? 4)%nat eqn:El; cbn [andb]; [|by rewrite Hm].
  apply Nat.ltb_lt in El. rewrite Hh by lia. by rewrite Hm.
Qed.

Section LeafStore.
(** A store to an entry of an owned bottom-level table. *)
Context (hhdm : Z) (s : vmm) (own : gmap Z (Z * Z)) (free : list Z) (pt x i v : Z).
Hypothesis Hinv : vmm_inv hhdm s own free.
Hypothesis Hpt : own !! pt = Some (1, x).
Hypothesis Hi : 0 <= i < 512.

Let m' := st64 (v_mem s) (slot hhdm pt i) v.

Lemma leaf_entry_ne pa y j :
  own !! pa = Some y -> 0 <= j < 512 -> pa <> pt \/ j <> i ->
  entry hhdm m' pa j = entry hhdm (v_mem s) pa j.
Proof.
  intros Ho Hj Hne. destruct y as [l' x'].
  pose proof (inv_pt _ _ _ _ Hinv) as W.
  apply entry_store_ne; try done; [apply W|..].
  - by apply (wf_tbl _ _ _ _ W) in Hpt as [? _].
  - by apply (wf_tbl _ _ _ _ W) in Ho as [? _].
  - destruct Hne; auto.
Qed.

Lemma leaf_store_inv : vmm_inv hhdm (set_mem s m') own free.
Proof.
  pose proof (inv_pt _ _ _ _ Hinv) as W.
  pose proof (wf_tbl _ _ _ _ W _ _ _ Hpt) as [Hok _].
  split; [| |apply Hinv|apply Hinv].
  - split; [apply W|apply W|by apply W|].
    cbn [set_mem v_mem]. intros pa l' x' j Ho Hl Hj Hp Hh.
    assert (pa <> pt) as Hne by (intros ->; rewrite Hpt in Ho; injection Ho; lia).
    rewrite (leaf_entry_ne pa _ j Ho Hj (or_introl Hne)) in Hp, Hh |- *.
    by apply (wf_edge _ _ _ _ W).
  - eapply pmm_rep_agree; [apply Hinv|]. intros p Hp.
    cbn [set_mem v_pmm v_mem]. rewrite (inv_hhdm _ _ _ _ Hinv).
    apply store_slot_free; [apply W|done|done| |].
    + pose proof (rep_frames _ _ _ (inv_pmm _ _ _ _ Hinv)) as Hf.
      rewrite (inv_hhdm _ _ _ _ Hinv) in Hf. by eapply Forall_forall in Hf.
    + intros ->. apply (inv_free _ _ _ _ Hinv) in Hp as [? _]. congruence.
Qed.

Lemma leaf_linked tbl l y j r :
  linked hhdm (v_mem s) own tbl l y j r -> own !! tbl = Some (l, y) -> 1 < l -> 0 <= j < 512 ->
  linked hhdm m' own tbl l y j r.
Proof.
  intros [Hp Hh Hm Ho] Ht Hl Hj.
  assert (tbl <> pt) as Hne by (intros ->; rewrite Hpt in Ht; injection Ht; lia).
  split; rewrite ?(leaf_entry_ne tbl _ j Ht Hj (or_introl Hne)); done.
Qed.
End LeafStore.

(** ** [vmm_map_page] *)

(** The large-page bit is set in the level-3 or level-2 entry on the path of
    [va]: [vmm_map_page] refuses to descend. *)
Definition blocked (hhdm : Z) (m : mem) (rt va : Z) : bool :=
  let e4 := entry hhdm m rt (idx 4 va) in
  let e3 := entry hhdm m (phys_mask e4) (idx 3 va) in
  let e2 := entry hhdm m (phys_mask e3) (idx 2 va) in
  present e4 && (huge e3 || (present e3 && huge e2)).

(** The path from the root to the bottom-level table [pt] that serves [va]. *)
Definition path (hhdm : Z) (m : mem) (own : gmap Z (Z * Z)) (rt va pt : Z) : Prop :=
  exists r3 r2,
    own !! rt = Some (4, prefix 4 va) /\ linked hhdm m own rt 4 (prefix 4 va) (idx 4 va) r3 /\
    own !! r3 = Some (3, prefix 3 va) /\ linked hhdm m own r3 3 (prefix 3 va) (idx 3 va) r2 /\
    own !! r2 = Some (2, prefix 2 va) /\ linked hhdm m own r2 2 (prefix 2 va) (idx 2 va) pt /\
    own !! pt = Some (1, prefix 1 va).

Lemma linked_own hhdm m own tbl l va r :
  1 <= l <= 4 -> linked hhdm m own tbl l (prefix l va) (idx l va) r ->
  own !! r = Some (l - 1, prefix (l - 1) va).
Proof. intros Hl [_ _ _ Ho]. by rewrite prefix_step. Qed.

Lemma root_own hhdm s own free va :
  vmm_inv hhdm s own free -> own !! root s = Some (4, prefix 4 va).
Proof. intros Hinv. rewrite prefix_4. apply (wf_root _ _ _ _ (inv_pt _ _ _ _ Hinv)). Qed.

Lemma walk_path hhdm m own rt va pt :
  path hhdm m own rt va pt -> walk 4 hhdm m rt va = walk 1 hhdm m pt va.
Proof.
  intros (r3 & r2 & _ & L3 & _ & L2 & _ & L1 & _).
  rewrite (walk_linked 2 _ _ _ _ _ _ _ L3), (walk_linked 1 _ _ _ _ _ _ _ L2).
  apply (walk_linked 0 _ _ _ _ _ _ _ L1).
Qed.

(** The final store of [vmm_map_page]. *)
Definition map_leaf (hhdm virt phys flags pt : Z) (s : vmm) : vmm :=
  do_invlpg virt (set_mem s (st64 (v_mem s) (slot hhdm pt (idx 1 virt))
                               (Z.lor (Z.land phys (not64 0xFFF)) flags))).

Lemma huge_nonzero e : huge e = true -> e <> 0.
Proof. by intros H ->. Qed.
Lemma present_nonzero e : present e = true -> e <> 0.
Proof. by intros H ->. Qed.
#[local] Hint Resolve huge_nonzero present_nonzero idx_bound : vmm_path.

(** One level of the descent: [ensure_table] and the test of its result. A
    nonzero entry in the table it returns was there before. *)
Lemma descend hhdm s own free tbl l virt (k : Z -> vmm -> vmm) :
  vmm_inv hhdm s own free -> own !! tbl = Some (l, prefix l virt) -> 2 <= l <= 4 ->
  (l < 4 -> huge (entry hhdm (v_mem s) tbl (idx l virt)) = false) ->
  exists s1 own1 free1, tables_step hhdm 1 s own free s1 own1 free1 /\
    let run := let '(r, s') := ensure_table hhdm (slot hhdm tbl (idx l virt)) 0x03 s in
               if negb (truthy r) then s' else k r s' in
    ((run = s1 /\ free = []) \/
     exists r, run = k r s1 /\
       linked hhdm (v_mem s1) own1 tbl l (prefix l virt) (idx l virt) r /\
       own1 !! r = Some (l - 1, prefix (l - 1) virt) /\
       (forall j, 0 <= j < 512 -> entry hhdm (v_mem s1) r j <> 0 ->
          present (entry hhdm (v_mem s) tbl (idx l virt)) = true /\ v_mem s1 = v_mem s)).
Proof.
  intros Hinv Ho Hl Hh.
  destruct (ensure_table_spec hhdm s own free tbl l (prefix l virt) (idx l virt) Hinv Ho)
    as (r & s1 & own1 & free1 & -> & T & P & Z & O); [lia|apply idx_bound|done|].
  exists s1, own1, free1. split; [done|]. cbv zeta beta iota.
  destruct O as [[-> ->]|[Hr L]]; [by left|right]. exists r.
  rewrite (proj2 (truthy_true r)) by lia. split; [done|]. split; [done|].
  split; [by eapply linked_own; [lia|]|].
  intros j Hj Hhj. destruct (present (entry hhdm (v_mem s) tbl (idx l virt))).
  - by rewrite P.
  - by rewrite Z in Hhj.
Qed.

(** The tail of [vmm_map_page] from the level-2 entry, and from the level-3
    entry. *)
Definition map_from2 (hhdm virt phys flags r2 : Z) (s : vmm) : vmm :=
  if huge (entry hhdm (v_mem s) r2 (idx 2 virt)) then s else
  let '(pt, s) := ensure_table hhdm (slot hhdm r2 (idx 2 virt)) 0x03 s in
  if negb (truthy pt) then s else map_leaf hhdm virt phys flags pt s.

Definition map_from3 (hhdm virt phys flags r3 : Z) (s : vmm) : vmm :=
  if huge (entry hhdm (v_mem s) r3 (idx 3 virt)) then s else
  let '(r2, s) := ensure_table hhdm (slot hhdm r3 (idx 3 virt)) 0x03 s in
  if negb (truthy r2) then s else map_from2 hhdm virt phys flags r2 s.

Lemma map_page_from3 hhdm virt phys flags s :
  vmm_map_page hhdm virt phys flags s =
    let '(r3, s) := ensure_table hhdm (slot hhdm (root s) (idx 4 virt)) 0x03 s in
    if negb (truthy r3) then s else map_from3 hhdm virt phys flags r3 s.
Proof.
  unfold vmm_map_page, map_from3, map_from2, map_leaf, entry, get_cr3. fold (root s).
  rewrite PML4_I_idx. destruct (ensure_table _ _ _ s) as [r3 s1].
  rewrite PDPT_I_idx, truthy_huge. repeat (case_match; [done|]).
  destruct (ensure_table _ _ _ s1) as [r2 s2].
  rewrite PD_I_idx, truthy_huge. repeat (case_match; [done|]).
  destruct (ensure_table _ _ _ s2) as [pt s3]. by rewrite PT_I_idx.
Qed.

Section MapCases.
Context (hhdm virt phys flags : Z).

Lemma map_from2_cases s own free r2 :
  vmm_inv hhdm s own free -> own !! r2 = Some (2, prefix 2 virt) ->
  exists s1 own1 free1, tables_step hhdm 1 s own free s1 own1 free1 /\
    ((map_from2 hhdm virt phys flags r2 s = s1 /\
        (huge (entry hhdm (v_mem s) r2 (idx 2 virt)) = true \/ free = [])) \/
     exists pt, map_from2 hhdm virt phys flags r2 s = map_leaf hhdm virt phys flags pt s1 /\
       linked hhdm (v_mem s1) own1 r2 2 (prefix 2 virt) (idx 2 virt) pt /\
       own1 !! pt = Some (1, prefix 1 virt)).
Proof.
  intros Hinv Ho. unfold map_from2.
  destruct (huge (entry hhdm (v_mem s) r2 (idx 2 virt))) eqn:Hh.
  { exists s, own, free. split; [by apply tables_step_refl|]. auto. }
  destruct (descend hhdm s own free r2 2 virt (map_leaf hhdm virt phys flags) Hinv Ho)
    as (s1 & own1 & free1 & T & [[-> ->]|(r & -> & L & Hr & _)]); [lia|done|..];
    exists s1, own1; eauto 10.
Qed.

Lemma map_from3_cases s own free r3 :
  vmm_inv hhdm s own free -> own !! r3 = Some (3, prefix 3 virt) ->
  let e3 := entry hhdm (v_mem s) r3 (idx 3 virt) in
  exists s1 own1 free1, tables_step hhdm 2 s own free s1 own1 free1 /\
    ((map_from3 hhdm virt phys flags r3 s = s1 /\
        (huge e3 = true \/ (length free < 2)%nat \/
         (present e3 = true /\
          huge (entry hhdm (v_mem s) (phys_mask e3) (idx 2 virt)) = true))) \/
     exists r2 pt, map_from3 hhdm virt phys flags r3 s = map_leaf hhdm virt phys flags pt s1 /\
       linked hhdm (v_mem s1) own1 r3 3 (prefix 3 virt) (idx 3 virt) r2 /\
       own1 !! r2 = Some (2, prefix 2 virt) /\
       linked hhdm (v_mem s1) own1 r2 2 (prefix 2 virt) (idx 2 virt) pt /\
       own1 !! pt = Some (1, prefix 1 virt)).
Proof.
  intros Hinv Ho e3. unfold map_from3. fold e3.
  destruct (huge e3) eqn:Hh.
  { exists s, own, free. split; [by apply tables_step_refl|]. auto. }
  destruct (descend hhdm s own free r3 3 virt (map_from2 hhdm virt phys flags) Hinv Ho)
    as (s1 & own1 & free1 & T & [[-> ->]|(r2 & -> & L & Hr & Hhj)]); [lia|done|..].
  { exists s1, own1, free1. split; [by eapply tables_step_weaken; [|done]; lia|]. left.
    split; [done|]. right. left. cbn. lia. }
  destruct (map_from2_cases s1 own1 free1 r2 (ts_inv _ _ _ _ _ _ _ _ T) Hr)
    as (s2 & own2 & free2 & T2 & C2).
  exists s2, own2, free2. split; [by apply (tables_step_trans _ 1 1 _ _ _ s1 own1 free1)|].
  destruct C2 as [[-> [H2|Hf]]|(pt & -> & L2 & Hpt)].
  - left. split; [done|]. right. right. destruct (Hhj (idx 2 virt)) as [Hp E]; eauto with vmm_path. split; [done|]. rewrite E in *.
    unfold e3. by rewrite (lk_phys _ _ _ _ _ _ _ _ L).
  - left. split; [done|]. right. left. pose proof (ts_free _ _ _ _ _ _ _ _ T).
    subst. cbn in *. lia.
  - right. exists r2, pt. split; [done|]. split; [|split; [|done]].
    + eapply linked_step; [done..| |apply idx_bound].
      eapply lookup_weaken; [done|apply T].
    + eapply lookup_weaken; [done|apply T2].
Qed.
End MapCases.

(** Every run of [vmm_map_page] grows the tree along the path of [virt] and
    then either stops, for one of the two reasons the code has, or stores the
    leaf. *)
Lemma map_page_cases hhdm virt phys flags s own free :
  vmm_inv hhdm s own free ->
  exists s1 own1 free1, tables_step hhdm 3 s own free s1 own1 free1 /\
    ((vmm_map_page hhdm virt phys flags s = s1 /\
        (blocked hhdm (v_mem s) (root s) virt = true \/ (length free < 3)%nat)) \/
     exists pt, vmm_map_page hhdm virt phys flags s = map_leaf hhdm virt phys flags pt s1 /\
       path hhdm (v_mem s1) own1 (root s) virt pt).
Proof.
  intros Hinv. rewrite map_page_from3. pose proof (root_own _ _ _ _ virt Hinv) as Ho.
  destruct (descend hhdm s own free (root s) 4 virt (map_from3 hhdm virt phys flags) Hinv Ho)
    as (s1 & own1 & free1 & T & [[-> ->]|(r3 & -> & L & Hr & Hhj)]); [lia|lia|..].
  { exists s1, own1, free1. split; [by eapply tables_step_weaken; [|done]; lia|]. left.
    split; [done|]. right. cbn. lia. }
  destruct (map_from3_cases hhdm virt phys flags s1 own1 free1 r3 (ts_inv _ _ _ _ _ _ _ _ T) Hr)
    as (s2 & own2 & free2 & T2 & C2).
  exists s2, own2, free2. split; [by apply (tables_step_trans _ 1 2 _ _ _ s1 own1 free1)|].
  pose proof (lk_phys _ _ _ _ _ _ _ _ L) as Hm. pose proof (lk_present _ _ _ _ _ _ _ _ L) as Hp.
  destruct C2 as [[-> Hwhy]|(r2 & pt & -> & L3 & Hr2 & L2 & Hpt)].
  - left. split; [done|]. unfold blocked. destruct Hwhy as [H3|[Hf|[Hp3 H2]]].
    + left. destruct (Hhj (idx 3 virt)) as [_ E]; eauto with vmm_path.
      rewrite E in *. by rewrite Hp, Hm, H3.
    + right. pose proof (ts_free _ _ _ _ _ _ _ _ T). lia.
    + left. destruct (Hhj (idx 3 virt)) as [_ E]; eauto with vmm_path.
      rewrite E in *. rewrite Hp, Hm, Hp3, H2. by rewrite orb_true_r.
  - right. exists pt. split; [done|]. exists r3, r2. split.
    { eapply lookup_weaken; [exact Ho|]. etrans; [apply T|apply T2]. }
    split.
    { eapply linked_step; [exact T2|exact L| |apply idx_bound].
      eapply lookup_weaken; [exact Ho|apply T]. }
    split; [|by auto]. eapply lookup_weaken; [exact Hr|apply T2].
Qed.

Lemma tables_step_translate hhdm k s own free s1 own1 free1 va :
  vmm_inv hhdm s own free -> tables_step hhdm k s own free s1 own1 free1 ->
  walk 4 hhdm (v_mem s1) (root s1) va = walk 4 hhdm (v_mem s) (root s) va.
Proof.
  intros Hinv T. replace (root s1) with (root s) by (unfold root; by rewrite (ts_cr3 _ _ _ _ _ _ _ _ T)).
  eapply (ts_walk _ _ _ _ _ _ _ _ T 4). apply (root_own _ _ _ _ va Hinv).
Qed.

(** The leaf store: invariant, translation of the page, of the others. *)
Lemma map_leaf_spec hhdm virt phys flags s own free pt :
  vmm_inv hhdm s own free -> path hhdm (v_mem s) own (root s) virt pt ->
  let s' := map_leaf hhdm virt phys flags pt s in
  vmm_inv hhdm s' own free /\
  walk 4 hhdm (v_mem s') (root s') virt =
    (let e := u64 (Z.lor (Z.land phys (not64 0xFFF)) flags) in
     if present e then Leaf 1 e else Unmapped) /\
  (forall va, prefix 0 va <> prefix 0 virt ->
     walk 4 hhdm (v_mem s') (root s') va = walk 4 hhdm (v_mem s) (root s) va) /\
  path hhdm (v_mem s') own (root s') virt pt.
Proof.
  intros Hinv Hpath s'. pose proof Hpath as (r3 & r2 & Hr & L3 & Hr3 & L2 & Hr2 & L1 & Hpt).
  set (v := Z.lor (Z.land phys (not64 0xFFF)) flags) in *.
  pose proof (leaf_store_inv hhdm s own free pt (prefix 1 virt) (idx 1 virt) v Hinv Hpt
                (idx_bound 1 virt)) as Hinv'.
  assert (path hhdm (v_mem s') own (root s) virt pt) as Hpath'.
  { assert (forall tbl l y j r, linked hhdm (v_mem s) own tbl l y j r ->
      own !! tbl = Some (l, y) -> 1 < l -> 0 <= j < 512 ->
      linked hhdm (v_mem s') own tbl l y j r) as Hlk.
    { intros tbl l y j r ? ? ? ?.
      apply (leaf_linked hhdm s own free pt (prefix 1 virt) (idx 1 virt) v); auto using idx_bound. }
    exists r3, r2. pose proof idx_bound. auto 10 with lia. }
  split; [|split; [|split; [|exact Hpath']]].
  - destruct Hinv' as [W ? ? ?]. by split.
  - change (root s') with (root s). rewrite (walk_path _ _ _ _ _ _ Hpath'). cbn [walk].
    unfold s', map_leaf. cbn [do_invlpg set_mem v_mem Z.of_nat].
    change (Z.of_nat 1) with 1. fold v. rewrite entry_store_eq. by destruct (present _).
  - intros va Hne. change (root s') with (root s).
    eapply (walk_leaf_store hhdm (root s) (v_mem s) (v_mem s') own pt virt); try done.
    + apply Hinv.
    + intros pa l x i Ho Hi Hne'. by apply (leaf_entry_ne hhdm s own free pt (prefix 1 virt)
        (idx 1 virt) v Hinv Hpt (idx_bound 1 virt) pa (l, x)).
    + apply (root_own _ _ _ _ va Hinv).
Qed.

(** A leaf entry for an aligned frame. *)
Lemma leaf_entry phys flags :
  0 <= phys < 2 ^ 52 -> 0 <= flags < 2 ^ 12 -> Z.odd flags = true ->
  let e := u64 (Z.lor (Z.land phys (not64 0xFFF)) flags) in
  present e = true /\ phys_mask e = phys - phys mod 4096.
Proof.
  intros Hp Hf Ho e. unfold e. rewrite land_page_mask by lia.
  rewrite (lor_low_add _ flags 12) by mlia. rewrite u64_id by mlia.
  rewrite phys_mask_eq by mlia. split; [|mlia].
  unfold present. rewrite Z.bit0_odd, Z.odd_add, Ho.
  assert (Z.odd (phys - phys mod 4096) = false) as ->; [|done].
  rewrite <-Z.negb_even, negb_false_iff. apply Z.even_spec.
  exists (2048 * (phys / 4096)). mlia.
Qed.

Lemma map_page_sound hhdm virt phys flags s own free :
  vmm_inv hhdm s own free ->
  let s' := vmm_map_page hhdm virt phys flags s in
  (exists own' free', vmm_inv hhdm s' own' free' /\ own ⊆ own' /\
     (length free <= length free' + 3)%nat) /\
  (forall va, prefix 0 va <> prefix 0 virt ->
     walk 4 hhdm (v_mem s') (root s') va = walk 4 hhdm (v_mem s) (root s) va).
Proof.
  intros Hinv s'. unfold s'.
  destruct (map_page_cases hhdm virt phys flags s own free Hinv)
    as (s1 & own1 & free1 & T & [[-> _]|(pt & -> & Hpath)]).
  - split.
    + exists own1, free1. split; [apply T|]. split; apply T.
    + intros va _. by rewrite (tables_step_translate _ _ _ _ _ _ _ _ va Hinv T).
  - replace (root s) with (root s1) in Hpath by (unfold root; by rewrite (ts_cr3 _ _ _ _ _ _ _ _ T)).
    destruct (map_leaf_spec hhdm virt phys flags s1 own1 free1 pt (ts_inv _ _ _ _ _ _ _ _ T) Hpath)
      as (Hinv' & _ & Hw & _).
    split.
    + exists own1, free1. split; [done|]. split; apply T.
    + intros va Hne. rewrite Hw by done.
      by rewrite (tables_step_translate _ _ _ _ _ _ _ _ va Hinv T).
Qed.

(** Everything a caller needs to know about a successful mapping. *)
Lemma map_page_mapped hhdm virt phys flags s own free :
  vmm_inv hhdm s own free ->
  blocked hhdm (v_mem s) (root s) virt = false -> (3 <= length free)%nat ->
  0 <= phys < 2 ^ 52 -> 0 <= flags < 2 ^ 12 -> Z.odd flags = true ->
  let s' := vmm_map_page hhdm virt phys flags s in
  exists own' free' pt, vmm_inv hhdm s' own' free' /\ root s' = root s /\
    path hhdm (v_mem s') own' (root s') virt pt /\
    (length free <= length free' + 3)%nat /\ (forall q, q ∈ free' -> q ∈ free) /\
    (forall q y, own' !! q = Some y -> own !! q = Some y \/ q ∈ free) /\
    kernel_resolve (walk 4 hhdm (v_mem s') (root s') virt) virt = (phys - phys mod 4096) + virt mod 4096 /\
    (forall va, prefix 0 va <> prefix 0 virt ->
       walk 4 hhdm (v_mem s') (root s') va = walk 4 hhdm (v_mem s) (root s) va).
Proof.
  intros Hinv Hb Hf Hp Hfl Ho s'.
  destruct (map_page_cases hhdm virt phys flags s own free Hinv)
    as (s1 & own1 & free1 & T & [[_ Hwhy]|(pt & E & Hpath)]).
  { destruct Hwhy; [congruence|lia]. }
  assert (Er : root s1 = root s) by (unfold root; by rewrite (ts_cr3 _ _ _ _ _ _ _ _ T)).
  rewrite <-Er in Hpath.
  destruct (map_leaf_spec hhdm virt phys flags s1 own1 free1 pt (ts_inv _ _ _ _ _ _ _ _ T) Hpath)
    as (Hinv' & Hw & Hne & Hpath').
  unfold s'. rewrite E. exists own1, free1, pt. split; [done|]. split; [done|]. split; [done|].
  split; [apply T|]. split; [apply T|]. split; [apply T|]. split.
  - rewrite Hw. cbv zeta. destruct (leaf_entry phys flags) as [Hpr Hm]; [done..|].
    cbv zeta in Hpr, Hm. rewrite Hpr. cbn [kernel_resolve Z.eqb Pos.eqb]. by rewrite Hm.
  - intros va Hva. rewrite Hne by done. by rewrite (tables_step_translate _ _ _ _ _ _ _ _ va Hinv T).
Qed.

(** Once a page is mapped, the other pages served by the same bottom-level table
    are not blocked. *)
Lemma path_unblocked hhdm m own rt va pt va' :
  path hhdm m own rt va pt -> prefix 1 va' = prefix 1 va -> blocked hhdm m rt va' = false.
Proof.
  intros (r3 & r2 & _ & L4 & _ & L3 & _ & L2 & _) Hpre.
  assert (Hi : idx 4 va' = idx 4 va /\ idx 3 va' = idx 3 va /\ idx 2 va' = idx 2 va).
  { unfold prefix, idx in *. cbn [Z.sub Z.mul Z.add] in *. mlia. }
  destruct Hi as (E4 & E3 & E2). unfold blocked. rewrite E4, E3, E2.
  rewrite (lk_phys _ _ _ _ _ _ _ _ L4), (lk_phys _ _ _ _ _ _ _ _ L3).
  rewrite (lk_huge _ _ _ _ _ _ _ _ L3), (lk_huge _ _ _ _ _ _ _ _ L2) by lia.
  by rewrite andb_false_r, andb_false_r.
Qed.

(** A memory that agrees on all table entries is as good. *)
Lemma walk_same hhdm rt m m' own :
  pt_wf hhdm rt m own ->
  (forall pa y i, own !! pa = Some y -> 0 <= i < 512 -> entry hhdm m' pa i = entry hhdm m pa i) ->
  forall n pa x va, own !! pa = Some (Z.of_nat n, x) -> walk n hhdm m' pa va = walk n hhdm m pa va.
Proof.
  intros Hwf Hsame. induction n as [|n IH]; intros pa x va Hpa; [done|]. cbn [walk].
  rewrite (Hsame _ _ _ Hpa (idx_bound _ _)). set (e := entry hhdm m pa (idx (Z.of_nat (S n)) va)).
  destruct (present e) eqn:Epr; cbn [negb]; [|done].
  destruct (n =? 0)%nat eqn:En; [done|]. apply Nat.eqb_neq in En.
  destruct ((S n <? 4)%nat && huge e) eqn:Eh; [done|].
  eapply (IH _ (x * 512 + idx (Z.of_nat (S n)) va)). replace (Z.of_nat n) with (Z.of_nat (S n) - 1) by lia.
  eapply (wf_edge _ _ _ _ Hwf); [done|lia|apply idx_bound|done|].
  intros Hl4. rewrite (proj2 (Nat.ltb_lt _ _)) in Eh by lia. done.
Qed.

Lemma pt_wf_same hhdm rt m m' own :
  pt_wf hhdm rt m own ->
  (forall pa y i, own !! pa = Some y -> 0 <= i < 512 -> entry hhdm m' pa i = entry hhdm m pa i) ->
  pt_wf hhdm rt m' own.
Proof.
  intros [Hh Hr Ht He] Hsame. split; try done. intros pa l x i Ho Hl Hi Hp Hhu.
  rewrite (Hsame _ _ _ Ho Hi) in *. by apply (He pa l x i).
Qed.

(** The page number decides the walk. *)
Lemma walk_page n hhdm m pa va va' :
  (n <= 4)%nat -> prefix 0 va = prefix 0 va' -> walk n hhdm m pa va = walk n hhdm m pa va'.
Proof.
  intros Hn Hp. revert pa. induction n as [|n IH]; intros pa; [done|]. cbn [walk].
  assert (E : idx (Z.of_nat (S n)) va = idx (Z.of_nat (S n)) va').
  { assert (Hc : Z.of_nat (S n) = 1 \/ Z.of_nat (S n) = 2 \/ Z.of_nat (S n) = 3 \/ Z.of_nat (S n) = 4) by lia.
    unfold prefix in Hp. cbn [Z.mul Z.add] in Hp.
    destruct Hc as [-> | [-> | [-> | ->]]]; unfold idx; cbn [Z.sub Z.mul Z.add Z.opp Z.pos_sub Pos.mul Pos.add]; mlia. }
  rewrite E. by rewrite IH by lia.
Qed.

Lemma resolve_page r va off :
  va mod 4096 = 0 -> 0 <= off < 4096 -> kernel_resolve r va <> 0 -> kernel_resolve r (va + off) = kernel_resolve r va + off.
Proof.
  intros Hva Ho. destruct r as [|l e]; cbn [kernel_resolve]; [done|]. intros _.
  destruct (l =? 1); [mlia|]. destruct (l =? 2); mlia.
Qed.

(** ** A region where mapping goes ahead

    The level-2 table that serves [va] is in place and no large page covers [va]:
    true of the kernel's own neighbourhood, and kept by every mapping. *)
Definition clear (hhdm : Z) (m : mem) (own : gmap Z (Z * Z)) (rt va : Z) : Prop :=
  exists r3 r2,
    own !! rt = Some (4, prefix 4 va) /\ linked hhdm m own rt 4 (prefix 4 va) (idx 4 va) r3 /\
    own !! r3 = Some (3, prefix 3 va) /\ linked hhdm m own r3 3 (prefix 3 va) (idx 3 va) r2 /\
    own !! r2 = Some (2, prefix 2 va) /\ huge (entry hhdm m r2 (idx 2 va)) = false.

Lemma clear_unblocked hhdm m own rt va : clear hhdm m own rt va -> blocked hhdm m rt va = false.
Proof.
  intros (r3 & r2 & _ & L4 & _ & L3 & _ & H2). unfold blocked.
  rewrite (lk_phys _ _ _ _ _ _ _ _ L4), (lk_phys _ _ _ _ _ _ _ _ L3), H2.
  rewrite (lk_huge _ _ _ _ _ _ _ _ L3) by lia. by rewrite !andb_false_r.
Qed.

Lemma clear_step hhdm k s own free s' own' free' va :
  tables_step hhdm k s own free s' own' free' ->
  clear hhdm (v_mem s) own (root s) va -> clear hhdm (v_mem s') own' (root s') va.
Proof.
  intros T (r3 & r2 & O4 & L4 & O3 & L3 & O2 & H2). exists r3, r2.
  replace (root s') with (root s) by (unfold root; by rewrite (ts_cr3 _ _ _ _ _ _ _ _ T)).
  pose proof (ts_own _ _ _ _ _ _ _ _ T) as Hs.
  split; [by eapply lookup_weaken|]. split; [eapply linked_step; eauto using idx_bound|].
  split; [by eapply lookup_weaken|]. split; [eapply linked_step; eauto using idx_bound|].
  split; [by eapply lookup_weaken|].
  by destruct (ts_link _ _ _ _ _ _ _ _ T r2 _ (idx 2 va) O2 (idx_bound 2 va)) as [-> | ?].
Qed.

Lemma clear_leaf hhdm virt phys flags s own free pt va :
  vmm_inv hhdm s own free -> own !! pt = Some (1, prefix 1 virt) ->
  clear hhdm (v_mem s) own (root s) va ->
  let s' := map_leaf hhdm virt phys flags pt s in clear hhdm (v_mem s') own (root s') va.
Proof.
  intros Hinv Hpt (r3 & r2 & O4 & L4 & O3 & L3 & O2 & H2) s'. exists r3, r2.
  change (root s') with (root s). split; [done|].
  split; [by eapply leaf_linked; eauto using idx_bound; lia|]. split; [done|].
  split; [by eapply leaf_linked; eauto using idx_bound; lia|]. split; [done|].
  assert (r2 <> pt) as Hne by (intros ->; rewrite Hpt in O2; injection O2; lia).
  rewrite <-H2. f_equal.
  apply (leaf_entry_ne hhdm s own free pt (prefix 1 virt) (idx 1 virt) _ Hinv Hpt (idx_bound 1 virt) r2 _ _ O2
    (idx_bound 2 va) (or_introl Hne)).
Qed.

(** Every mapping keeps the region and takes at most three frames. *)
Lemma map_page_clear hhdm virt phys flags s own free va :
  vmm_inv hhdm s own free -> clear hhdm (v_mem s) own (root s) va ->
  let s' := vmm_map_page hhdm virt phys flags s in
  exists own' free', vmm_inv hhdm s' own' free' /\ clear hhdm (v_mem s') own' (root s') va /\
    (length free <= length free' + 3)%nat /\ (forall q, q ∈ free' -> q ∈ free).
Proof.
  intros Hinv Hc s'. unfold s'.
  destruct (map_page_cases hhdm virt phys flags s own free Hinv) as (s1 & own1 & free1 & T & C).
  exists own1, free1. pose proof (clear_step _ _ _ _ _ _ _ _ va T Hc) as Hc1.
  assert (Hf : (length free <= length free1 + 3)%nat /\ (forall q, q ∈ free1 -> q ∈ free)) by (split; apply T).
  destruct C as [[-> _]|(pt & -> & Hpath)]; [split; [apply T|done]|].
  replace (root s) with (root s1) in Hpath by (unfold root; by rewrite (ts_cr3 _ _ _ _ _ _ _ _ T)).
  split; [apply (map_leaf_spec hhdm virt phys flags s1 own1 free1 pt (ts_inv _ _ _ _ _ _ _ _ T) Hpath)|].
  split; [|done]. destruct Hpath as (r3 & r2 & _ & _ & _ & _ & _ & _ & Hpt).
  by apply (clear_leaf hhdm virt phys flags s1 own1 free1 pt va (ts_inv _ _ _ _ _ _ _ _ T)).
Qed.

(** ** [vmm_unmap_page] *)

Lemma linked_intro hhdm s own free tbl l va :
  vmm_inv hhdm s own free -> own !! tbl = Some (l, prefix l va) -> 1 < l <= 4 ->
  present (entry hhdm (v_mem s) tbl (idx l va)) = true ->
  (l < 4 -> huge (entry hhdm (v_mem s) tbl (idx l va)) = false) ->
  let r := phys_mask (entry hhdm (v_mem s) tbl (idx l va)) in
  linked hhdm (v_mem s) own tbl l (prefix l va) (idx l va) r /\
  own !! r = Some (l - 1, prefix (l - 1) va).
Proof.
  intros Hinv Ho Hl Hp Hh r.
  pose proof (wf_edge _ _ _ _ (inv_pt _ _ _ _ Hinv) _ _ _ _ Ho ltac:(lia) (idx_bound l va) Hp Hh) as He.
  split; [by split|]. rewrite prefix_step by lia. done.
Qed.

(** [vmm_unmap_page] finds the bottom-level table of [virt], or does nothing
    because no 4 KiB translation exists. *)
Lemma unmap_cases hhdm virt s own free :
  vmm_inv hhdm s own free ->
  (vmm_unmap_page hhdm virt s = s /\
     (forall e, walk 4 hhdm (v_mem s) (root s) virt <> Leaf 1 e)) \/
  exists pt, path hhdm (v_mem s) own (root s) virt pt /\
    vmm_unmap_page hhdm virt s =
      do_invlpg virt (set_mem s (st64 (v_mem s) (slot hhdm pt (idx 1 virt)) 0)).
Proof.
  intros Hinv. pose proof (root_own _ _ _ _ virt Hinv) as Hr4.
  unfold vmm_unmap_page, get_cr3. fold (root s). autorewrite with vmm. cbv zeta.
  fold (entry hhdm (v_mem s) (root s) (idx 4 virt)).
  cbn [walk negb Nat.eqb Nat.ltb Nat.leb andb].
  change (Z.of_nat 4) with 4. change (Z.of_nat 3) with 3. change (Z.of_nat 2) with 2.
  set (e4 := entry hhdm (v_mem s) (root s) (idx 4 virt)).
  destruct (present e4) eqn:P4; cbn [negb]; [|by left].
  destruct (linked_intro hhdm s own free _ 4 virt Hinv Hr4) as [L4 Hr3]; [lia|done|lia|].
  fold e4 in L4, Hr3.
  fold (entry hhdm (v_mem s) (phys_mask e4) (idx 3 virt)).
  set (e3 := entry hhdm (v_mem s) (phys_mask e4) (idx 3 virt)) in *.
  destruct (present e3) eqn:P3; cbn [negb orb]; [|by left].
  destruct (huge e3) eqn:H3; [by left|].
  destruct (linked_intro hhdm s own free _ 3 virt Hinv Hr3) as [L3 Hr2]; [lia|done|done|].
  fold e3 in L3, Hr2.
  fold (entry hhdm (v_mem s) (phys_mask e3) (idx 2 virt)).
  set (e2 := entry hhdm (v_mem s) (phys_mask e3) (idx 2 virt)) in *.
  destruct (present e2) eqn:P2; cbn [negb orb]; [|by left].
  destruct (huge e2) eqn:H2; [by left|].
  destruct (linked_intro hhdm s own free _ 2 virt Hinv Hr2) as [L2 Hr1]; [lia|done|done|].
  right. exists (phys_mask e2). split; [|done].
  by exists (phys_mask e4), (phys_mask e3).
Qed.

(** ** Properties *)

(** C5 Mapping then translating: when no large page is in the way and three
    frames are free, [vmm_map_page] makes [virt] translate to the page of
    [phys] plus the page offset, and invalidates the TLB entry of [virt]. *)
Theorem vmm_map_page_translates hhdm virt phys flags s own free :
  vmm_inv hhdm s own free ->
  blocked hhdm (v_mem s) (root s) virt = false -> (3 <= length free)%nat ->
  0 <= phys < 2 ^ 52 -> 0 <= flags < 2 ^ 12 -> Z.odd flags = true ->
  let s' := vmm_map_page hhdm virt phys flags s in
  vmm_virt_to_phys hhdm virt s' = (phys - phys mod 4096) + virt mod 4096 /\
  hd_error (v_invlpg s') = Some virt.
Proof.
  intros Hinv Hb Hf Hp Hfl Ho s'.
  destruct (map_page_cases hhdm virt phys flags s own free Hinv)
    as (s1 & own1 & free1 & T & [[_ Hwhy]|(pt & E & Hpath)]).
  { destruct Hwhy; [congruence|lia]. }
  replace (root s) with (root s1) in Hpath by (unfold root; by rewrite (ts_cr3 _ _ _ _ _ _ _ _ T)).
  destruct (map_leaf_spec hhdm virt phys flags s1 own1 free1 pt (ts_inv _ _ _ _ _ _ _ _ T) Hpath)
    as (_ & Hw & _ & _).
  unfold s'. rewrite virt_to_phys_resolve, E, Hw. cbv zeta.
  destruct (leaf_entry phys flags) as [Hpr Hm]; [done..|].
  cbv zeta in Hpr, Hm. rewrite Hpr. cbn [kernel_resolve Z.eqb Pos.eqb]. by rewrite Hm.
Qed.

(** C6 Isolation: whatever [vmm_map_page] does (map, run out of frames, meet a
    large page), the page tables stay well-formed and every address of another
    page keeps its translation. *)
Theorem vmm_map_page_isolated hhdm virt phys flags s own free :
  vmm_inv hhdm s own free ->
  let s' := vmm_map_page hhdm virt phys flags s in
  (exists own' free', vmm_inv hhdm s' own' free' /\ own ⊆ own' /\
     (length free <= length free' + 3)%nat) /\
  (forall va, prefix 0 va <> prefix 0 virt ->
     vmm_virt_to_phys hhdm va s' = vmm_virt_to_phys hhdm va s).
Proof.
  intros Hinv s'. unfold s'. setoid_rewrite virt_to_phys_resolve.
  destruct (map_page_sound hhdm virt phys flags s own free Hinv) as [Hi Hw].
  split; [exact Hi|]. intros va Hne. by rewrite Hw.
Qed.

(** C28 [vmm_map_page] invalidates the TLB entry of its page or gives up; when it
    gives up (a large page on the path, or no frame for a table) no address at
    all changes translation. *)
Theorem vmm_map_page_failure_atomic hhdm virt phys flags s own free :
  vmm_inv hhdm s own free ->
  let s' := vmm_map_page hhdm virt phys flags s in
  v_invlpg s' = virt :: v_invlpg s \/
  (v_invlpg s' = v_invlpg s /\
   forall va, vmm_virt_to_phys hhdm va s' = vmm_virt_to_phys hhdm va s).
Proof.
  intros Hinv s'. unfold s'. setoid_rewrite virt_to_phys_resolve.
  destruct (map_page_cases hhdm virt phys flags s own free Hinv)
    as (s1 & own1 & free1 & T & [[-> _]|(pt & -> & Hpath)]).
  - right. split; [apply T|]. intros va.
    by rewrite (tables_step_translate _ _ _ _ _ _ _ _ va Hinv T).
  - left. cbn. by rewrite (ts_invlpg _ _ _ _ _ _ _ _ T).
Qed.

(** C27 [vmm_unmap_page] removes a 4 KiB translation (the address then has none,
    and its TLB entry is invalidated), leaves large pages alone, keeps the page
    tables well-formed and every address of another page as it was. *)
Theorem vmm_unmap_page_spec hhdm virt s own free :
  vmm_inv hhdm s own free ->
  let s' := vmm_unmap_page hhdm virt s in
  vmm_inv hhdm s' own free /\
  (forall va, prefix 0 va <> prefix 0 virt ->
     vmm_virt_to_phys hhdm va s' = vmm_virt_to_phys hhdm va s) /\
  (forall e, walk 4 hhdm (v_mem s) (root s) virt = Leaf 1 e ->
     vmm_virt_to_phys hhdm virt s' = 0 /\ v_invlpg s' = virt :: v_invlpg s) /\
  (forall l e, walk 4 hhdm (v_mem s) (root s) virt = Leaf l e -> l <> 1 -> s' = s).
Proof.
  intros Hinv s'. unfold s'. setoid_rewrite virt_to_phys_resolve.
  destruct (unmap_cases hhdm virt s own free Hinv) as [[-> Hno]|(pt & Hpath & ->)].
  { split; [done|]. split; [done|]. split; [intros e He; by destruct (Hno e)|done]. }
  rewrite (walk_path _ _ _ _ _ _ Hpath).
  destruct (map_leaf_spec hhdm virt 0 0 s own free pt Hinv Hpath) as (Hinv' & Hw & Hne & _).
  unfold map_leaf in Hinv', Hw, Hne. change (Z.lor (Z.land 0 _) 0) with 0 in Hinv', Hw, Hne.
  split; [done|]. split; [intros va Hva; by rewrite Hne|]. split.
  - intros e _. by rewrite Hw.
  - intros l e He Hl. cbn [walk] in He. repeat case_match; simplify_eq.
Qed.

(** C40 [vmm_virt_to_phys] on any page tables and canonical addresses, against the page
    walk of the processor and its address computation: it finds no translation where the
    processor finds none, and otherwise the processor's address with bits 12 to 20 of
    the entry added when the page is a 2 MiB one. So it is right exactly when those bits
    are zero: on every 4 KiB and 1 GiB page, and on a 2 MiB page without the memory-type
    bit. *)
Theorem vmm_virt_to_phys_walks hhdm va s :
  let r := walk 4 hhdm (v_mem s) (root s) va in
  vmm_virt_to_phys hhdm va s = resolve r va + stray r /\
  (vmm_virt_to_phys hhdm va s = resolve r va <-> forall e, r = Leaf 2 e -> e mod 2 ^ 21 = e mod 2 ^ 12).
Proof.
  intros r. assert (E : vmm_virt_to_phys hhdm va s = resolve r va + stray r).
  { rewrite virt_to_phys_resolve. fold r. destruct r as [|l e] eqn:Er; [done|].
    destruct (walk_leaf 4 _ _ _ _ _ _ ltac:(lia) Er) as [Hl He]. by apply kernel_resolve_stray. }
  split; [done|]. rewrite E. split.
  - intros H e He. rewrite He in H. cbn [stray] in H. lia.
  - intros H. destruct r as [|l e]; cbn [stray]; [lia|]. destruct (decide (l = 2)) as [->|Hl].
    + rewrite (H e eq_refl). lia.
    + assert (E0 : stray (Leaf l e) = 0) by (by apply stray_other). cbn [stray] in E0. lia.
Qed.

(** With the memory-type bit in a 2 MiB entry the address is off by one page: the tables
    map address 0 by a large page at 0x40000000 with bit 12 set. *)
Definition pat_vmm : vmm :=
  Vmm (st64 (st64 (st64 ∅ (demo_hhdm + 0x1000) 0x2003) (demo_hhdm + 0x2000) 0x3003) (demo_hhdm + 0x3000) 0x40001083)
    pmm_bss 0x1000 [].

Theorem large_page_type_bit off :
  off = 0 \/ off = 0x1FFFFF ->
  walk 4 demo_hhdm (v_mem pat_vmm) (root pat_vmm) off = Leaf 2 0x40001083 /\
  resolve (Leaf 2 0x40001083) off = 0x40000000 + off /\
  vmm_virt_to_phys demo_hhdm off pat_vmm = 0x40001000 + off.
Proof. by intros [-> | ->]; vm_compute. Qed.

(** ** A concrete machine: an empty PML4 at frame 1, three free frames *)

Definition demo_frames : pmm * mem := push_page demo_hhdm 0x4000 demo_pmm.
Definition demo_vmm : vmm := Vmm demo_frames.2 demo_frames.1 0x1000 [].
Definition demo_own : gmap Z (Z * Z) := {[0x1000 := (4, 0)]}.

Lemma demo_pml4_empty i : 0 <= i < 512 -> entry demo_hhdm (v_mem demo_vmm) 0x1000 i = 0.
Proof.
  intros Hi. unfold entry, slot.
  replace (u64 (demo_hhdm + 0x1000)) with (demo_hhdm + 0x1000) by reflexivity.
  cbn [v_mem demo_vmm demo_frames demo_pmm push_page fst snd].
  repeat match goal with
    |- context [u64 (demo_hhdm + ?p)] =>
      replace (u64 (demo_hhdm + p)) with (demo_hhdm + p) by reflexivity
  end.
  rewrite !ld64_st64_ne by (auto with kernel || lia).
  by apply ld_le_zero.
Qed.

Lemma demo_vmm_inv : vmm_inv demo_hhdm demo_vmm demo_own [0x4000; 0x3000; 0x2000].
Proof.
  split.
  - split.
    + done.
    + done.
    + unfold demo_own. intros pa l x [<- [= <- <-]]%lookup_singleton_Some.
      split; [split; [by apply (bool_decide_unpack _); vm_compute|]|]; lia.
    + unfold demo_own. intros pa l x i [<- [= <- <-]]%lookup_singleton_Some _ Hi.
      by rewrite demo_pml4_empty.
  - apply (push_page_rep demo_pmm.1 demo_pmm.2); [exact demo_pmm_rep|..];
      by apply (bool_decide_unpack _); vm_compute.
  - done.
  - intros p Hp. revert p Hp. apply Forall_forall. repeat constructor.
Qed.

Definition demo_map_ok : vmm := vmm_map_page demo_hhdm 0x400123 0x7ABC 3 demo_vmm.

Lemma vmm_map_page_translates_witness :
  vmm_virt_to_phys demo_hhdm 0x400123 demo_map_ok = 0x7123.
Proof.
  refine (proj1 (vmm_map_page_translates demo_hhdm 0x400123 0x7ABC 3 demo_vmm _ _
    demo_vmm_inv _ _ _ _ _)).
  - unfold blocked. by rewrite demo_pml4_empty by apply idx_bound.
  - cbn; lia.
  - done.
  - done.
  - done.
Defined.

Lemma vmm_map_page_isolated_witness :
  prefix 0 0x401000 <> prefix 0 0x400123 /\
  vmm_virt_to_phys demo_hhdm 0x401000 demo_map_ok = vmm_virt_to_phys demo_hhdm 0x401000 demo_vmm.
Proof.
  assert (Hne : prefix 0 0x401000 <> prefix 0 0x400123) by done. split; [exact Hne|].
  exact (proj2 (vmm_map_page_isolated demo_hhdm 0x400123 0x7ABC 3 demo_vmm _ _ demo_vmm_inv) _ Hne).
Defined.

(** The same machine with no free frame. *)
Definition demo_vmm_full : vmm := set_pmm demo_vmm (Pmm demo_hhdm 0 0).

Lemma demo_vmm_full_inv : vmm_inv demo_hhdm demo_vmm_full demo_own [].
Proof.
  destruct demo_vmm_inv as [W _ _ _]. split; [exact W| |done|].
  - split; cbn; done || constructor.
  - by intros p Hp%elem_of_nil.
Qed.

Lemma vmm_map_page_failure_atomic_witness :
  vmm_virt_to_phys demo_hhdm 0x400123 (vmm_map_page demo_hhdm 0x400123 0x7ABC 3 demo_vmm_full) =
    vmm_virt_to_phys demo_hhdm 0x400123 demo_vmm_full.
Proof.
  destruct (vmm_map_page_failure_atomic demo_hhdm 0x400123 0x7ABC 3 demo_vmm_full _ _ demo_vmm_full_inv)
    as [H|[_ H]].
  - by vm_compute in H.
  - exact (H 0x400123).
Defined.

Lemma vmm_unmap_page_spec_witness :
  vmm_virt_to_phys demo_hhdm 0x400123 (vmm_unmap_page demo_hhdm 0x400123 demo_map_ok) = 0.
Proof.
  destruct (map_page_sound demo_hhdm 0x400123 0x7ABC 3 demo_vmm _ _ demo_vmm_inv)
    as [(own & free & Hinv & _) _].
  destruct (vmm_unmap_page_spec demo_hhdm 0x400123 demo_map_ok own free Hinv) as (_ & _ & H & _).
  refine (proj1 (H 0x7003 _)). by vm_compute.
Defined.

(** Address 0x123456 in the large page of [pat_vmm]. *)
Lemma vmm_virt_to_phys_walks_witness :
  resolve (walk 4 demo_hhdm (v_mem pat_vmm) (root pat_vmm) 0x123456) 0x123456 = 0x40123456 /\
  vmm_virt_to_phys demo_hhdm 0x123456 pat_vmm = 0x40124456 /\
  vmm_virt_to_phys demo_hhdm 0x8000000000 pat_vmm = 0.
Proof.
  destruct (vmm_virt_to_phys_walks demo_hhdm 0x123456 pat_vmm) as [E _].
  destruct (vmm_virt_to_phys_walks demo_hhdm 0x8000000000 pat_vmm) as [E' _].
  split; [by vm_compute|]. split; [by rewrite E; vm_compute|by rewrite E'; vm_compute].
Defined.
