(* ===== verification/PortIO.v ===== *)
(** Port input/output and the other privileged instructions the drivers use
    ([src/kernel/include/kernel.h]): a program acts on the trace of its
    interactions with the hardware, and a device answers reads from the trace. *)

From S2P Require Import Prelude.

Inductive io_event :=
  | Out8 (port v : Z)
  | In8 (port v : Z)
  | Cli
  | Sti
  | Hlt
  | Lidt (limit base : Z)
  | Lgdt (limit base : Z).

(** Latest event first. *)
Abbreviation trace := (list io_event).

Section PortIO.
(** The hardware behind the ports: the byte a port answers after a history of
    interactions. *)
Context (dev : trace -> Z -> Z).

Definition outb (port val : Z) : prog trace unit :=
  pmodify (cons (Out8 (u16 port) (u8 val))).

Definition inb (port : Z) : prog trace Z := fun tr =>
  let v := u8 (dev tr (u16 port)) in Some (v, In8 (u16 port) v :: tr).

Definition io_wait : prog trace unit := outb 0x80 0.

Definition emit (e : io_event) : prog trace unit := pmodify (cons e).
End PortIO.

(** The bytes written to a port, oldest first. *)
Definition sent (port : Z) (tr : trace) : list Z :=
  rev (omap (fun e => match e with Out8 p v => if p =? port then Some v else None | _ => None end) tr).

Lemma sent_app port tr1 tr2 : sent port (tr1 ++ tr2) = sent port tr2 ++ sent port tr1.
Proof. unfold sent. by rewrite omap_app, rev_app_distr. Qed.

Lemma sent_out_eq port v tr : sent port (Out8 port v :: tr) = sent port tr ++ [v].
Proof. unfold sent. cbn. by rewrite Z.eqb_refl. Qed.

Lemma sent_out_ne port p v tr : p <> port -> sent port (Out8 p v :: tr) = sent port tr.
Proof. intros Hp. unfold sent. cbn. by rewrite (proj2 (Z.eqb_neq p port)). Qed.

Lemma sent_in port p v tr : sent port (In8 p v :: tr) = sent port tr.
Proof. reflexivity. Qed.

(** The events other than port accesses, oldest first. *)
Definition is_control (e : io_event) : bool :=
  match e with Out8 _ _ | In8 _ _ => false | _ => true end.

Definition controls (tr : trace) : list io_event := rev (List.filter is_control tr).

Lemma controls_app tr1 tr2 : controls (tr1 ++ tr2) = controls tr2 ++ controls tr1.
Proof. unfold controls. by rewrite List.filter_app, rev_app_distr. Qed.
