(* ===== verification/Format.v ===== *)
(** Number formatting, as [serial_put_hex]/[serial_put_dec] of
    [src/kernel/serial.c] and their copies in [src/kernel/fb.c] do it: digits are
    stored into a stack buffer whose initial contents are arbitrary. *)

From S2P Require Import Prelude.

(** [char buf[19]] after the stores of the hexadecimal formatter; [buf] is the
    uninitialised buffer. *)
Definition hex_digit (digit : Z) : Z := if digit <? 10 then 48 + digit else 97 + digit - 10.

Definition hex_store (value i : Z) (buf : list Z) : list Z :=
  <[Z.to_nat (17 - i) := hex_digit (Z.land (Z.shiftr value (i * 4)) 0xF)]> buf.

Definition hex_buf (value : Z) (buf : list Z) : list Z :=
  let buf := <[1%nat := 120]> (<[0%nat := 48]> buf) in
  let buf := foldl (fun buf i => hex_store value i buf) buf (rev (seqZ 0 16)) in
  <[18%nat := 0]> buf.

(** The digit loop of the decimal formatter: [while (v > 0) buf[--i] = ...].
    [None]: fuel exhausted or a store before the start of the buffer. *)
Fixpoint dec_loop (fuel : nat) (buf : list Z) (i v : Z) : option (list Z * Z) :=
  match fuel with
  | O => None
  | S fuel =>
      if 0 <? v then
        if i - 1 <? 0 then None
        else dec_loop fuel (<[Z.to_nat (i - 1) := 48 + v mod 10]> buf) (i - 1) (v / 10)
      else Some (buf, i)
  end.

(** [&buf[i]] after the loop, for a nonzero value. *)
Definition dec_buf (value : Z) (buf : list Z) : option (list Z) :=
  match dec_loop 21 (<[20%nat := 0]> buf) 20 value with
  | Some (buf, i) => Some (drop (Z.to_nat i) buf)
  | None => None
  end.

(** The characters of a C string stored at the start of a buffer. *)
Fixpoint c_chars (buf : list Z) : list Z :=
  match buf with
  | [] => []
  | c :: buf => if truthy c then c :: c_chars buf else []
  end.

(** ** Reference: positional notation *)

Definition digit_val (c : Z) : Z := if c <? 58 then c - 48 else c - 87.

Definition parse (radix : Z) (s : list Z) : Z :=
  foldl (fun v c => v * radix + digit_val c) 0 s.

(** The [n] low hexadecimal digits, most significant first. *)
Fixpoint hex_digits (n : nat) (value : Z) : list Z :=
  match n with
  | O => []
  | S n => hex_digit ((value / 2 ^ (4 * Z.of_nat n)) mod 16) :: hex_digits n value
  end.

(** The decimal digits of a positive number, most significant first. *)
Fixpoint dec_digits (n : nat) (v : Z) : list Z :=
  match n with
  | O => []
  | S n => if 0 <? v then dec_digits n (v / 10) ++ [48 + v mod 10] else []
  end.

Lemma parse_snoc radix s c : parse radix (s ++ [c]) = parse radix s * radix + digit_val c.
Proof. unfold parse. by rewrite foldl_app. Qed.

Lemma digit_val_hex d : 0 <= d < 16 -> digit_val (hex_digit d) = d.
Proof. intros. unfold digit_val, hex_digit. repeat case_match; lia. Qed.

Lemma hex_digits_snoc n v :
  0 <= v -> hex_digits (S n) v = hex_digits n (v / 16) ++ [hex_digit (v mod 16)].
Proof.
  intros Hv. revert v Hv. induction n as [|n IH]; intros v Hv.
  { cbn. by rewrite Z.div_1_r. }
  change (hex_digits (S (S n)) v) with
    (hex_digit ((v / 2 ^ (4 * Z.of_nat (S n))) mod 16) :: hex_digits (S n) v).
  rewrite IH by done. cbn [hex_digits app]. f_equal. f_equal. f_equal.
  rewrite Z.div_div by lia. f_equal.
  replace (4 * Z.of_nat (S n)) with (4 + 4 * Z.of_nat n) by lia.
  rewrite (Z.pow_add_r 2 4) by lia. lia.
Qed.

Lemma parse_hex_digits n v :
  0 <= v -> parse 16 (hex_digits n v) = v mod 2 ^ (4 * Z.of_nat n).
Proof.
  revert v. induction n as [|n IH]; intros v Hv.
  { cbn. by rewrite Z.mod_1_r. }
  rewrite hex_digits_snoc, parse_snoc, IH, digit_val_hex by (done || mlia).
  replace (4 * Z.of_nat (S n)) with (4 + 4 * Z.of_nat n) by lia.
  pose proof (Z.pow_pos_nonneg 2 (4 * Z.of_nat n)).
  rewrite (Z.pow_add_r 2 4), (Z.rem_mul_r v (2 ^ 4)) by lia. change (2 ^ 4) with 16. ring.
Qed.

Lemma parse_dec_digits n v :
  0 <= v < 10 ^ Z.of_nat n -> parse 10 (dec_digits n v) = v.
Proof.
  revert v. induction n as [|n IH]; intros v Hv; cbn [dec_digits].
  { cbn in *. lia. }
  destruct (Z.ltb_spec 0 v); [|cbn; lia].
  rewrite parse_snoc, IH.
  - unfold digit_val. case_match; mlia.
  - rewrite Nat2Z.inj_succ, Z.pow_succ_r in Hv by lia. split; [mlia|].
    apply Z.div_lt_upper_bound; lia.
Qed.

(** ** The formatters write those digits *)

Lemma c_chars_app s rest :
  Forall (fun c => c <> 0) s -> c_chars (s ++ 0 :: rest) = s.
Proof.
  induction 1 as [|c s Hc _ IH]; cbn [c_chars app]; [done|].
  by rewrite (proj2 (truthy_true c)), IH.
Qed.

Lemma hex_digit_range d : 0 <= d < 16 -> 48 <= hex_digit d <= 102.
Proof. intros. unfold hex_digit. case_match; lia. Qed.

Lemma hex_store_digit v i buf :
  0 <= v -> 0 <= i -> hex_store v i buf = <[Z.to_nat (17 - i) := hex_digit ((v / 2 ^ (4 * i)) mod 16)]> buf.
Proof.
  intros Hv Hi. unfold hex_store. change 0xF with (Z.ones 4).
  by rewrite shift_mask_field, (Z.mul_comm i) by lia.
Qed.

(** Whatever the stack held, all 19 bytes are initialised, to the string
    ["0x"] followed by 16 digits. *)
Lemma hex_buf_eq value buf :
  0 <= value -> length buf = 19%nat ->
  hex_buf value buf = 48 :: 120 :: hex_digits 16 value ++ [0].
Proof.
  intros Hv Hl. do 19 (destruct buf as [|? buf]; [done|]). destruct buf; [|done].
  unfold hex_buf. change (rev (seqZ 0 16)) with [15;14;13;12;11;10;9;8;7;6;5;4;3;2;1;0].
  cbn [foldl]. by rewrite !hex_store_digit by lia.
Qed.

Lemma dec_digits_length n v : (length (dec_digits n v) <= n)%nat.
Proof.
  revert v. induction n as [|n IH]; intros v; cbn [dec_digits]; [done|].
  case_match; [|cbn; lia]. rewrite length_app. specialize (IH (v / 10)). cbn. lia.
Qed.

(** The loop stores the decimal digits just before position [i], without
    touching what follows. *)
Lemma dec_loop_eq n buf i v :
  0 <= v < 10 ^ Z.of_nat n -> Z.of_nat n <= i -> (Z.to_nat i <= length buf)%nat ->
  exists buf', dec_loop (S n) buf i v = Some (buf', i - Z.of_nat (length (dec_digits n v))) /\
    length buf' = length buf /\
    drop (Z.to_nat (i - Z.of_nat (length (dec_digits n v)))) buf' =
      dec_digits n v ++ drop (Z.to_nat i) buf.
Proof.
  revert buf i v. induction n as [|n IH]; intros buf i v Hv Hi Hb.
  { cbn in Hv. replace v with 0 by lia. exists buf. cbn. rewrite Z.sub_0_r. done. }
  cbn [dec_digits]. change (dec_loop (S (S n)) buf i v) with
    (if 0 <? v then if i - 1 <? 0 then None
       else dec_loop (S n) (<[Z.to_nat (i - 1) := 48 + v mod 10]> buf) (i - 1) (v / 10)
     else Some (buf, i)).
  destruct (Z.ltb_spec 0 v) as [Hpos|].
  2: { exists buf. cbn. rewrite Z.sub_0_r. done. }
  rewrite (proj2 (Z.ltb_ge (i - 1) 0)) by lia.
  destruct (IH (<[Z.to_nat (i - 1) := 48 + v mod 10]> buf) (i - 1) (v / 10)) as (buf' & -> & Hl & Hd).
  - rewrite Nat2Z.inj_succ, Z.pow_succ_r in Hv by lia. split; [mlia|].
    apply Z.div_lt_upper_bound; lia.
  - lia.
  - rewrite length_insert. lia.
  - exists buf'. rewrite length_app. cbn [length].
    replace (i - Z.of_nat (length (dec_digits n (v / 10)) + 1))
      with (i - 1 - Z.of_nat (length (dec_digits n (v / 10)))) by lia.
    split; [done|]. rewrite Hl, length_insert. split; [done|].
    rewrite Hd, <-app_assoc. f_equal. cbn [app].
    rewrite (drop_S _ (48 + v mod 10)).
    + f_equal. replace (S (Z.to_nat (i - 1))) with (Z.to_nat i) by lia.
      apply drop_insert_lt. lia.
    + apply list_lookup_insert_eq. lia.
Qed.

Lemma dec_buf_eq value buf :
  0 <= value < 2 ^ 64 -> length buf = 21%nat ->
  dec_buf value buf = Some (dec_digits 20 value ++ [0]).
Proof.
  intros Hv Hl. unfold dec_buf.
  destruct (dec_loop_eq 20 (<[20%nat := 0]> buf) 20 value) as (buf' & -> & Hl' & Hd).
  - split; [lia|]. transitivity (2 ^ 64); [lia|]. by vm_compute.
  - lia.
  - rewrite length_insert. lia.
  - rewrite Hd. do 2 f_equal. do 21 (destruct buf as [|? buf]; [done|]). by destruct buf.
Qed.

Lemma hex_digits_nonzero n v : 0 <= v -> Forall (fun c => c <> 0) (hex_digits n v).
Proof.
  intros Hv. induction n as [|n IH]; constructor; [|done].
  pose proof (hex_digit_range ((v / 2 ^ (4 * Z.of_nat n)) mod 16)). mlia.
Qed.

Lemma dec_digits_range n v : 0 <= v -> Forall (fun c => 48 <= c <= 57) (dec_digits n v).
Proof.
  revert v. induction n as [|n IH]; intros v Hv; cbn [dec_digits]; [done|].
  case_match; [|done]. apply Forall_app. split; [apply IH; mlia|]. constructor; [mlia|done].
Qed.

(** No leading zero. *)
Lemma dec_digits_head n v : 0 < v < 10 ^ Z.of_nat n -> hd 48 (dec_digits n v) <> 48.
Proof.
  revert v. induction n as [|n IH]; intros v Hv; [cbn in Hv; lia|]. cbn [dec_digits].
  rewrite Nat2Z.inj_succ, Z.pow_succ_r in Hv by lia.
  rewrite (proj2 (Z.ltb_lt 0 v)) by lia.
  destruct (decide (0 < v / 10)).
  - assert (hd 48 (dec_digits n (v / 10)) <> 48) as Hh.
    { apply IH. split; [done|]. apply Z.div_lt_upper_bound; lia. }
    by destruct (dec_digits n (v / 10)).
  - assert (dec_digits n (v / 10) = []) as ->.
    { destruct n; [done|]. cbn [dec_digits]. by rewrite (proj2 (Z.ltb_ge 0 _)) by lia. }
    cbn. mlia.
Qed.
