(* ===== verification/Serial.v ===== *)
(** [src/kernel/serial.c]: the polled COM1 driver. Every polling loop takes the
    fuel [n]; a theorem gives the fuel that is enough for a UART whose transmitter
    empties in bounded time. *)

From S2P Require Import Prelude PortIO Format.

Definition SERIAL_COM1 : Z := 0x3F8.

Section Serial.
Context (dev : trace -> Z -> Z).

Definition serial_init : prog trace unit := (
  outb (SERIAL_COM1 + 1) 0x00 ;;
  outb (SERIAL_COM1 + 3) 0x80 ;;
  outb (SERIAL_COM1 + 0) 0x03 ;;
  outb (SERIAL_COM1 + 1) 0x00 ;;
  outb (SERIAL_COM1 + 3) 0x03 ;;
  outb (SERIAL_COM1 + 2) 0xC7 ;;
  outb (SERIAL_COM1 + 4) 0x0B)%prog.

Definition serial_tx_empty : prog trace Z :=
  (let* lsr := inb dev (SERIAL_COM1 + 5) in pret (Z.land lsr 0x20))%prog.

(** [while (!serial_tx_empty());] *)
Fixpoint tx_wait (fuel : nat) : prog trace unit :=
  match fuel with
  | O => pdiverge
  | S fuel =>
      (let* e := serial_tx_empty in if truthy e then pret tt else tx_wait fuel)%prog
  end.

Definition serial_putchar (n : nat) (c : Z) : prog trace unit :=
  (tx_wait n ;; outb SERIAL_COM1 (u8 c))%prog.

(** [str]: the bytes of the C string; the loop stops at the first NUL. *)
Fixpoint serial_puts (n : nat) (str : list Z) : prog trace unit :=
  match str with
  | [] => pret tt
  | c :: str =>
      if truthy c then
        ((if c =? 10 then serial_putchar n 13 else pret tt) ;;
         serial_putchar n c ;;
         serial_puts n str)%prog
      else pret tt
  end.

(** [stack]: the uninitialised bytes of the local buffer. *)
Definition serial_put_hex (n : nat) (stack : list Z) (value : Z) : prog trace unit :=
  serial_puts n (hex_buf value stack).

Definition serial_put_dec (n : nat) (stack : list Z) (value : Z) : prog trace unit :=
  if value =? 0 then serial_putchar n 48
  else match dec_buf value stack with
       | Some s => serial_puts n s
       | None => pdiverge
       end.

(** ** The UART *)

(** The trace after [k] polls of the line status register. *)
Fixpoint polled (k : nat) (tr : trace) : trace :=
  match k with
  | O => tr
  | S k => let tr := polled k tr in In8 0x3FD (u8 (dev tr 0x3FD)) :: tr
  end.

Definition tx_ready (tr : trace) : bool := Z.testbit (u8 (dev tr 0x3FD)) 5.

(** The transmitter holding register empties within [n] polls. *)
Definition uart_live (n : nat) : Prop :=
  forall tr, exists k, (k < n)%nat /\ tx_ready (polled k tr) = true.

(** Driver discipline: a byte is written to the data register only right after
    a poll that found the transmitter empty. *)
Fixpoint polite (tr : trace) : Prop :=
  match tr with
  | [] => True
  | Out8 p v :: tr' =>
      (p = 0x3F8 -> exists lsr tr2, tr' = In8 0x3FD lsr :: tr2 /\ Z.testbit lsr 5 = true) /\
      polite tr'
  | _ :: tr' => polite tr'
  end.

Lemma sent_polled k tr p : sent p (polled k tr) = sent p tr.
Proof. induction k as [|k IH]; [done|]. cbn [polled]. by rewrite sent_in. Qed.

Lemma polite_polled k tr : polite tr -> polite (polled k tr).
Proof. by induction k. Qed.

Lemma polled_S k tr : polled (S k) tr = polled k (polled 1 tr).
Proof. induction k as [|k IH]; [done|]. change (polled (S (S k)) tr) with
  (In8 0x3FD (u8 (dev (polled (S k) tr) 0x3FD)) :: polled (S k) tr). by rewrite IH. Qed.

Lemma tx_empty_run tr :
  serial_tx_empty tr = Some (Z.land (u8 (dev tr 0x3FD)) 0x20, polled 1 tr).
Proof. reflexivity. Qed.

Lemma tx_wait_run k : forall tr n, (k < n)%nat -> tx_ready (polled k tr) = true ->
  exists j, (j <= k)%nat /\ tx_wait n tr = Some (tt, polled (S j) tr) /\
    tx_ready (polled j tr) = true.
Proof.
  induction k as [|k IH]; intros tr [|n] Hn Hr; try lia; cbn [tx_wait];
    rewrite (pbind_step _ _ _ _ _ (tx_empty_run tr)), (truthy_land_bit _ 5 ltac:(lia));
    fold (tx_ready tr); destruct (tx_ready tr) eqn:E.
  - by exists 0%nat.
  - cbn [polled] in Hr. congruence.
  - exists 0%nat. split; [lia|]. done.
  - rewrite polled_S in Hr. destruct (IH (polled 1 tr) n ltac:(lia) Hr) as (j & Hj & -> & Hjr).
    exists (S j). split; [lia|]. by rewrite (polled_S (S j) tr), (polled_S j tr).
Qed.

(** What a string looks like on the wire: CR before every LF. *)
Definition crlf (s : list Z) : list Z :=
  mjoin ((fun c => if c =? 10 then [13; 10] else [u8 c]) <$> s).

Lemma polite_app l1 l2 : polite l1 -> polite l2 -> polite (l1 ++ l2).
Proof.
  intros H1 H2. induction l1 as [|e l1 IH]; [done|]. destruct e; cbn [app polite] in *; auto.
  destruct H1 as [Hp H1]. split; [|auto]. intros E. destruct (Hp E) as (lsr & tr2 & -> & Hb).
  by exists lsr, (tr2 ++ l2).
Qed.

(** Program [p] terminates with [a], transmits [out] on COM1, respecting the
    driver discipline, and executes the privileged instructions [ctl]. *)
Definition says {A} (p : prog trace A) (a : A) (out : list Z) (ctl : list io_event) : Prop :=
  forall tr, exists l, p tr = Some (a, l ++ tr) /\ polite l /\
    sent 0x3F8 l = out /\ controls l = ctl.

Lemma says_ret {A} (a : A) : says (pret a) a [] [].
Proof. intros tr. by exists []. Qed.

Lemma says_bind {A B} (p : prog trace A) (k : A -> prog trace B) a b out1 out2 c1 c2 :
  says p a out1 c1 -> says (k a) b out2 c2 -> says (pbind p k) b (out1 ++ out2) (c1 ++ c2).
Proof.
  intros H1 H2 tr. destruct (H1 tr) as (l1 & E1 & Hp1 & Hs1 & Hc1).
  destruct (H2 (l1 ++ tr)) as (l2 & E2 & Hp2 & Hs2 & Hc2).
  exists (l2 ++ l1). rewrite (pbind_step _ _ _ _ _ E1), <-!app_assoc.
  split; [done|]. split; [by apply polite_app|]. by rewrite sent_app, controls_app, Hs2, Hs1, Hc2, Hc1.
Qed.

Lemma says_emit e : is_control e = true -> says (emit e) tt [] [e].
Proof.
  intros He tr. exists [e]. split; [done|]. unfold sent, controls. cbn. rewrite He. by destruct e.
Qed.

(** Output to another port, and input, are silent. *)
Lemma says_outb port v : u16 port <> 0x3F8 -> says (outb port v) tt [] [].
Proof. intros Hp tr. exists [Out8 (u16 port) (u8 v)]. split; [done|]. by rewrite sent_out_ne. Qed.

Lemma polled_split k tr :
  exists l, polled k tr = l ++ tr /\ controls l = [] /\ sent 0x3F8 l = [] /\ polite l.
Proof.
  induction k as [|k (l & IH & Hc & Hs & Hp)]; [by exists []|].
  exists (In8 0x3FD (u8 (dev (polled k tr) 0x3FD)) :: l).
  cbn [polled app]. split; [by rewrite IH at 2|]. done.
Qed.

Section Live.
Context (n : nat) (Hlive : uart_live n).

Lemma says_putchar c : says (serial_putchar n c) tt [u8 c] [].
Proof using Hlive.
  intros tr. destruct (Hlive tr) as (k & Hk & Hr).
  destruct (tx_wait_run k tr n Hk Hr) as (j & _ & E & Hj).
  destruct (polled_split j tr) as (l & El & Hcl & Hsl & Hpl).
  set (lsr := u8 (dev (polled j tr) 0x3FD)) in *.
  exists (Out8 0x3F8 (u8 (u8 c)) :: In8 0x3FD lsr :: l). unfold serial_putchar.
  rewrite (pbind_step _ _ _ _ _ E). split; [cbn [polled app]; by rewrite El at 2|]. split; [|split].
  - cbn [polite]. split; [|done]. intros _. by exists lsr, l.
  - rewrite sent_out_eq, sent_in, Hsl, (u8_id (u8 c)) by apply u8_bound. done.
  - exact Hcl.
Qed.

Lemma says_puts s : says (serial_puts n s) tt (crlf (c_chars s)) [].
Proof using Hlive.
  induction s as [|c s IH]; cbn [serial_puts c_chars]; [apply says_ret|].
  destruct (truthy c); [|apply says_ret].
  change (crlf (c :: c_chars s)) with
    ((if c =? 10 then [13; 10] else [u8 c]) ++ crlf (c_chars s)).
  destruct (Z.eqb_spec c 10) as [->|Hne].
  - apply (says_bind _ _ tt tt [13] ([10] ++ _) [] []); [apply says_putchar|].
    apply (says_bind _ _ tt tt [10] _ [] []); [apply says_putchar|done].
  - apply (says_bind _ _ tt tt [] ([u8 c] ++ _) [] []); [apply says_ret|].
    apply (says_bind _ _ tt tt [u8 c] _ [] []); [apply says_putchar|done].
Qed.
End Live.

Lemma crlf_plain s : Forall (fun c => c <> 10 /\ 0 <= c < 2 ^ 8) s -> crlf s = s.
Proof.
  induction 1 as [|c s [Hc Hb] _ IH]; [done|].
  change (crlf (c :: s)) with ((if c =? 10 then [13; 10] else [u8 c]) ++ crlf s).
  by rewrite (proj2 (Z.eqb_neq c 10)), u8_id, IH.
Qed.

Lemma hex_plain value :
  0 <= value -> Forall (fun c => c <> 10 /\ 0 <= c < 2 ^ 8) (hex_digits 16 value).
Proof.
  intros Hv. generalize 16%nat. induction n as [|n IH]; [done|]. constructor; [|done].
  pose proof (hex_digit_range ((value / 2 ^ (4 * Z.of_nat n)) mod 16)). mlia.
Qed.

Lemma dec_plain n value :
  0 <= value -> Forall (fun c => c <> 10 /\ 0 <= c < 2 ^ 8) (dec_digits n value).
Proof.
  intros Hv. eapply Forall_impl; [by apply dec_digits_range|]. cbn. lia.
Qed.

(** The digits printed for a number. *)
Definition hex_str (value : Z) : list Z := 48 :: 120 :: hex_digits 16 value.
Definition dec_str (value : Z) : list Z := if value =? 0 then [48] else dec_digits 20 value.

Lemma says_put_hex n stack value :
  uart_live n -> length stack = 19%nat -> 0 <= value ->
  says (serial_put_hex n stack value) tt (hex_str value) [].
Proof.
  intros Hl Hs Hv. unfold serial_put_hex. rewrite hex_buf_eq by done.
  assert (crlf (c_chars (48 :: 120 :: hex_digits 16 value ++ [0])) = hex_str value) as <-.
  { transitivity (crlf (hex_str value)).
    - f_equal. apply (c_chars_app (hex_str value) []).
      do 2 (constructor; [done|]). by apply hex_digits_nonzero.
    - apply crlf_plain. do 2 (constructor; [lia|]). by apply hex_plain. }
  by apply says_puts.
Qed.

Lemma says_put_dec n stack value :
  uart_live n -> length stack = 21%nat -> 0 <= value < 2 ^ 64 ->
  says (serial_put_dec n stack value) tt (dec_str value) [].
Proof.
  intros Hl Hs Hv. unfold serial_put_dec, dec_str.
  destruct (Z.eqb_spec value 0) as [->|Hnz]; [by apply says_putchar|].
  rewrite dec_buf_eq by done.
  pose proof (says_puts n Hl (dec_digits 20 value ++ [0])) as H.
  rewrite (c_chars_app _ []), crlf_plain in H; [done| |]; [by apply dec_plain; lia|].
  eapply Forall_impl; [apply dec_digits_range; lia|]. cbn. lia.
Qed.

(** ** Properties *)

(** On a UART whose transmitter empties within [n] polls, [serial_puts]
    terminates and puts exactly the string on the wire, CR inserted before each
    LF, never writing to a full transmitter. *)
Theorem serial_puts_spec n s tr :
  uart_live n ->
  exists l, serial_puts n s tr = Some (tt, l ++ tr) /\ polite l /\ sent 0x3F8 l = crlf (c_chars s).
Proof. intros Hl. destruct (says_puts n Hl s tr) as (l & ? & ? & ? & _). eauto. Qed.

(** [serial_put_hex] terminates and transmits ["0x"] and 16 digits that
    read back as the value, whatever its stack buffer held before. *)
Theorem serial_put_hex_spec n stack value tr :
  uart_live n -> length stack = 19%nat -> 0 <= value < 2 ^ 64 ->
  exists l ds, serial_put_hex n stack value tr = Some (tt, l ++ tr) /\ polite l /\
    sent 0x3F8 l = 48 :: 120 :: ds /\ length ds = 16%nat /\ parse 16 ds = value.
Proof.
  intros Hl Hs Hv.
  destruct (says_put_hex n stack value Hl Hs ltac:(lia) tr) as (l & ? & ? & ? & _).
  exists l, (hex_digits 16 value). do 4 (split; [done|]).
  rewrite parse_hex_digits by lia. by apply Z.mod_small.
Qed.

(** [serial_put_dec] terminates without leaving its 21-byte buffer, for
    every 64-bit value, and transmits decimal digits without leading zero that
    read back as the value. *)
Theorem serial_put_dec_spec n stack value tr :
  uart_live n -> length stack = 21%nat -> 0 <= value < 2 ^ 64 ->
  exists l ds, serial_put_dec n stack value tr = Some (tt, l ++ tr) /\ polite l /\
    sent 0x3F8 l = ds /\
    Forall (fun c => 48 <= c <= 57) ds /\ parse 10 ds = value /\
    (hd 48 ds = 48 -> value = 0) /\ (1 <= length ds <= 20)%nat.
Proof.
  intros Hl Hs Hv.
  destruct (says_put_dec n stack value Hl Hs Hv tr) as (l & ? & ? & ? & _).
  exists l, (dec_str value). do 3 (split; [done|]). unfold dec_str.
  destruct (Z.eqb_spec value 0) as [->|Hnz].
  { split; [by constructor|]. cbn. lia. }
  assert (Hb : 0 < value < 10 ^ Z.of_nat 20).
  { change (10 ^ Z.of_nat 20) with 100000000000000000000. lia. }
  split; [apply dec_digits_range; lia|]. split; [apply parse_dec_digits; lia|].
  pose proof (dec_digits_head 20 value Hb) as Hh. split; [done|].
  pose proof (dec_digits_length 20 value). destruct (dec_digits 20 value); cbn in *; lia.
Qed.
End Serial.

(** ** A concrete UART: busy at every other poll *)

Definition demo_uart (tr : trace) (port : Z) : Z :=
  match tr with In8 0x3FD 0 :: _ => 0x60 | _ => 0 end.

Lemma demo_uart_live : uart_live demo_uart 2.
Proof.
  intros tr. destruct (tx_ready demo_uart tr) eqn:E.
  - exists 0%nat. split; [lia|done].
  - exists 1%nat. split; [lia|]. unfold tx_ready in *. cbn [polled].
    assert (demo_uart tr 0x3FD = 0) as ->; [|done].
    unfold demo_uart in *. repeat case_match; done.
Qed.

Lemma serial_puts_spec_witness : exists l,
  serial_puts demo_uart 2 [72; 10; 0; 99] [] = Some (tt, l ++ []) /\ sent 0x3F8 l = [72; 13; 10].
Proof.
  destruct (serial_puts_spec demo_uart 2 [72; 10; 0; 99] [] demo_uart_live) as (l & E & _ & S).
  exists l. split; [exact E|exact S].
Defined.

Lemma serial_put_hex_spec_witness : exists l ds,
  serial_put_hex demo_uart 2 (repeat 0 19) 0xBEEF [] = Some (tt, l ++ []) /\
  sent 0x3F8 l = 48 :: 120 :: ds /\ parse 16 ds = 0xBEEF.
Proof.
  destruct (serial_put_hex_spec demo_uart 2 (repeat 0 19) 0xBEEF [] demo_uart_live eq_refl)
    as (l & ds & E & _ & S & _ & P); [lia|].
  exists l, ds. split; [exact E|]. split; [exact S|exact P].
Defined.

Lemma serial_put_dec_spec_witness : exists l ds,
  serial_put_dec demo_uart 2 (repeat 0 21) (2 ^ 64 - 1) [] = Some (tt, l ++ []) /\
  sent 0x3F8 l = ds /\ parse 10 ds = 2 ^ 64 - 1.
Proof.
  destruct (serial_put_dec_spec demo_uart 2 (repeat 0 21) (2 ^ 64 - 1) [] demo_uart_live eq_refl)
    as (l & ds & E & _ & S & _ & P & _); [lia|].
  exists l, ds. split; [exact E|]. split; [exact S|exact P].
Defined.
