(* ===== verification/Panic.v ===== *)
(** [src/kernel/panic.c]: report on the serial line and stop. The final loop
    [for (;;) cli; hlt] never ends and is the value [Halted]. *)

From Stdlib Require Import String Ascii.
From S2P Require Import Prelude PortIO Format Serial.

(** The bytes of a string literal. *)
Fixpoint chars (s : string) : list Z :=
  match s with
  | EmptyString => []
  | String a s => Z.of_nat (nat_of_ascii a) :: chars s
  end.

Definition nl : list Z := [10].
Definition crnl : list Z := [13; 10].

(** A function that ends in [for (;;) { cli; hlt; }]: the first turn of the loop
    is in the trace, the processor then stays in it. *)
Inductive halted := Halted.

Definition halt_loop : prog trace halted := (emit Cli ;; emit Hlt ;; pret Halted)%prog.

Section Panic.
Context (dev : trace -> Z -> Z) (n : nat).

Definition panic (message : list Z) : prog trace halted := (
  emit Cli ;;
  serial_puts dev n (nl ++ chars "=== KERNEL PANIC ===" ++ nl) ;;
  serial_puts dev n message ;;
  serial_puts dev n (nl ++ chars "System halted." ++ nl) ;;
  halt_loop)%prog.

Definition panic_assert (stack file : list Z) (line : Z) (desc : list Z) : prog trace halted := (
  emit Cli ;;
  serial_puts dev n (nl ++ chars "=== ASSERTION FAILED ===" ++ nl ++ chars "File: ") ;;
  serial_puts dev n file ;;
  serial_puts dev n (nl ++ chars "Line: ") ;;
  serial_put_dec dev n stack line ;;
  serial_puts dev n (nl ++ chars "Condition: ") ;;
  serial_puts dev n desc ;;
  serial_puts dev n (nl ++ chars "System halted." ++ nl) ;;
  halt_loop)%prog.

(** What the loop and the report leave: nothing more is transmitted, and
    interrupts stay off. *)
Lemma says_halt : says halt_loop Halted [] [Cli; Hlt].
Proof using.
  apply (says_bind _ _ tt _ [] [] [Cli] [Hlt]); [by apply says_emit|].
  apply (says_bind _ _ tt _ [] [] [Hlt] []); [by apply says_emit|apply says_ret].
Qed.

Section Live.
Context (Hlive : uart_live dev n).

Lemma says_seq {A} (s : list Z) (k : prog trace A) a out ctl :
  says k a out ctl ->
  says (serial_puts dev n s ;; k)%prog a (crlf (c_chars s) ++ out) ctl.
Proof using Hlive.
  intros Hk. apply (says_bind _ _ tt _ _ _ [] _); [by apply says_puts|done].
Qed.

Lemma says_cli {A} (k : prog trace A) a out ctl :
  says k a out ctl -> says (emit Cli ;; k)%prog a out (Cli :: ctl).
Proof using.
  intros Hk. apply (says_bind _ _ tt _ [] _ [Cli] _); [by apply says_emit|done].
Qed.

(** [panic] terminates in the halted state with interrupts disabled
    before the first byte is sent and never enabled again, and the wire carries
    the banner, the message, and the final line, CR LF at each line end. *)
Theorem panic_reports message tr :
  exists l, panic message tr = Some (Halted, l ++ tr) /\ polite l /\
    sent 0x3F8 l =
      (crnl ++ chars "=== KERNEL PANIC ===" ++ crnl) ++ crlf (c_chars message) ++
      (crnl ++ chars "System halted." ++ crnl) /\
    controls l = [Cli; Cli; Hlt].
Proof using Hlive.
  assert (H : says (panic message) Halted
    ((crnl ++ chars "=== KERNEL PANIC ===" ++ crnl) ++ crlf (c_chars message) ++
      (crnl ++ chars "System halted." ++ crnl)) [Cli; Cli; Hlt]).
  { apply says_cli. refine (says_seq _ _ _ _ _ _). apply says_seq.
    refine (says_seq _ _ _ [] _ says_halt). }
  exact (H tr).
Qed.

(** [panic_assert] likewise: interrupts off first, the whole report (file,
    line in decimal, condition) on the wire, then halted. *)
Theorem panic_assert_reports stack file line desc tr :
  length stack = 21%nat -> 0 <= line < 2 ^ 64 ->
  exists l, panic_assert stack file line desc tr = Some (Halted, l ++ tr) /\
    polite l /\
    sent 0x3F8 l =
      (crnl ++ chars "=== ASSERTION FAILED ===" ++ crnl ++ chars "File: ") ++ crlf (c_chars file) ++
      (crnl ++ chars "Line: ") ++ dec_str line ++
      (crnl ++ chars "Condition: ") ++ crlf (c_chars desc) ++
      (crnl ++ chars "System halted." ++ crnl) /\
    controls l = [Cli; Cli; Hlt].
Proof using Hlive.
  intros Hs Hl.
  assert (H : says (panic_assert stack file line desc) Halted
    ((crnl ++ chars "=== ASSERTION FAILED ===" ++ crnl ++ chars "File: ") ++ crlf (c_chars file) ++
      (crnl ++ chars "Line: ") ++ dec_str line ++
      (crnl ++ chars "Condition: ") ++ crlf (c_chars desc) ++
      (crnl ++ chars "System halted." ++ crnl)) [Cli; Cli; Hlt]).
  { apply says_cli. refine (says_seq _ _ _ _ _ _). apply says_seq.
    refine (says_seq _ _ _ _ _ _).
    refine (says_bind _ _ tt _ _ _ [] _ _ _); [by apply says_put_dec|].
    refine (says_seq _ _ _ _ _ _). apply says_seq.
    refine (says_seq _ _ _ [] _ says_halt). }
  exact (H tr).
Qed.
End Live.
End Panic.

Lemma panic_reports_witness : exists l,
  panic demo_uart 2 (chars "no memory map" ++ [0]) [] = Some (Halted, l ++ []) /\
  controls l = [Cli; Cli; Hlt].
Proof.
  destruct (panic_reports demo_uart 2 demo_uart_live (chars "no memory map" ++ [0]) [])
    as (l & E & _ & _ & C).
  exists l. split; [exact E|exact C].
Defined.

Lemma panic_assert_reports_witness : exists l,
  panic_assert demo_uart 2 (repeat 0 21) (chars "pmm.c" ++ [0]) 42 (chars "page" ++ [0]) []
    = Some (Halted, l ++ []) /\
  controls l = [Cli; Cli; Hlt].
Proof.
  destruct (panic_assert_reports demo_uart 2 demo_uart_live (repeat 0 21) (chars "pmm.c" ++ [0]) 42
    (chars "page" ++ [0]) [] eq_refl) as (l & E & _ & _ & C); [lia|].
  exists l. split; [exact E|exact C].
Defined.
