(* ===== verification/Heap.v ===== *)
(** [src/kernel/memory/heap.c]: a first-fit allocator over a chain of blocks with
    in-band headers. [kmalloc] and [kfree] are written against [AddrSpace]: the
    proofs hold for any memory the heap's virtual range is backed by. *)

From S2P Require Import Prelude Mem.

Definition HEAP_PAGES : Z := 256.

(** [struct heap_block]: 24 bytes, [size] at 0, [next] at 8, [int free] at 16. *)
Definition sizeof_block : Z := 24.

Section Fields.
Context {S : Type} `{AddrSpace S}.

Definition b_size (s : S) (b : Z) : Z := ld64 s b.
Definition b_next (s : S) (b : Z) : Z := ld64 s (b + 8).
Definition b_free (s : S) (b : Z) : Z := ld32 s (b + 16).
Definition set_size (b v : Z) (s : S) : S := st64 s b v.
Definition set_next (b v : Z) (s : S) : S := st64 s (b + 8) v.
Definition set_free (b v : Z) (s : S) : S := st32 s (b + 16) v.

(** [while (cur && !(cur->free && cur->size >= size)) cur = cur->next;] *)
Fixpoint find_fit (fuel : nat) (s : S) (cur size : Z) : option Z :=
  match fuel with
  | O => None
  | Datatypes.S fuel =>
      if truthy cur && negb (truthy (b_free s cur) && (size <=? b_size s cur))
      then find_fit fuel s (b_next s cur) size
      else Some cur
  end.

(** The split: [newb] takes what is left of [cur] after [size] bytes. *)
Definition split_block (cur size : Z) (s : S) : S :=
  if u64 (u64 (size + sizeof_block) + 16) <? b_size s cur then
    let newb := u64 (cur + sizeof_block + size) in
    let s := set_size newb (u64 (b_size s cur - size - sizeof_block)) s in
    let s := set_next newb (b_next s cur) s in
    let s := set_free newb 1 s in
    let s := set_size cur size s in
    set_next cur newb s
  else s.

(** Returns the pointer ([NULL] is 0) and the new memory; [None]: out of fuel. *)
Definition kmalloc (fuel : nat) (heap_head size : Z) (s : S) : option (Z * S) :=
  if negb (truthy heap_head) || negb (truthy size) then Some (0, s)
  else
    let size := Z.land (u64 (size + 7)) (not64 7) in
    match find_fit fuel s heap_head size with
    | None => None
    | Some cur =>
        if negb (truthy cur) then Some (0, s)
        else
          let s := split_block cur size s in
          let s := set_free cur 0 s in
          Some (u64 (cur + sizeof_block), s)
    end.

(** [for (b = heap_head; b && b->next; b = b->next) ...] *)
Fixpoint coalesce (fuel : nat) (b : Z) (s : S) : option S :=
  match fuel with
  | O => None
  | Datatypes.S fuel =>
      if truthy b && truthy (b_next s b) then
        let s :=
          if truthy (b_free s b) && truthy (b_free s (b_next s b)) then
            let s := set_size b (u64 (b_size s b + u64 (sizeof_block + b_size s (b_next s b)))) s in
            set_next b (b_next s (b_next s b)) s
          else s in
        coalesce fuel (b_next s b) s
      else Some s
  end.

Definition kfree (fuel : nat) (heap_head ptr : Z) (s : S) : option S :=
  if negb (truthy ptr) then Some s
  else
    let block := u64 (ptr - sizeof_block) in
    coalesce fuel heap_head (set_free block 1 s).
End Fields.

(** ** The abstract heap: a list of blocks tiling the region *)

Record block := Block { bsize : Z; bfree : bool }.

(** The address after the blocks [bs] laid out from [a]. *)
Fixpoint after (a : Z) (bs : list block) : Z :=
  match bs with
  | [] => a
  | b :: bs => after (a + 24 + bsize b) bs
  end.

(** First fit, splitting when more than 16 bytes would be left for the payload
    of the remainder. [Some (p, bs')]: the pointer and the new blocks. *)
Fixpoint alloc_blocks (a size : Z) (bs : list block) : option (Z * list block) :=
  match bs with
  | [] => None
  | b :: bs =>
      if bfree b && (size <=? bsize b) then
        Some (a + 24,
          if size + 40 <? bsize b
          then Block size false :: Block (bsize b - size - 24) true :: bs
          else Block (bsize b) false :: bs)
      else
        match alloc_blocks (a + 24 + bsize b) size bs with
        | None => None
        | Some (p, bs') => Some (p, b :: bs')
        end
  end.

(** Marking the block whose payload is at [p] free. *)
Fixpoint mark_free (a p : Z) (bs : list block) : list block :=
  match bs with
  | [] => []
  | b :: bs =>
      if a + 24 =? p then Block (bsize b) true :: bs
      else b :: mark_free (a + 24 + bsize b) p bs
  end.

(** One pass of pairwise merging, left to right; a merged block is not merged
    again with its new successor. *)
Fixpoint merge_pass (bs : list block) : list block :=
  match bs with
  | b1 :: ((b2 :: rest) as tl) =>
      if bfree b1 && bfree b2
      then Block (bsize b1 + (24 + bsize b2)) true :: merge_pass rest
      else b1 :: merge_pass tl
  | _ => bs
  end.

Definition free_blocks (a p : Z) (bs : list block) : list block :=
  if p =? 0 then bs else merge_pass (mark_free a p bs).

(** Payloads of the blocks in use: pointer and capacity. *)
Fixpoint live (a : Z) (bs : list block) : list (Z * Z) :=
  match bs with
  | [] => []
  | b :: bs =>
      (if bfree b then [] else [(a + 24, bsize b)]) ++ live (a + 24 + bsize b) bs
  end.

Section Rep.
Context {S : Type} `{AddrSpaceLaws S}.
Implicit Types s : S.

(** The header at [a] describes [b] and points to [nxt]. *)
Definition header s a (b : block) (nxt : Z) : Prop :=
  b_size s a = bsize b /\ b_next s a = nxt /\ truthy (b_free s a) = bfree b.

(** The pointer to the first of [bs], laid out from [a]; [nxt] when there is none. *)
Definition first (a : Z) (bs : list block) (nxt : Z) : Z :=
  match bs with [] => nxt | _ => a end.

Fixpoint seg s a (bs : list block) (nxt : Z) : Prop :=
  match bs with
  | [] => True
  | b :: bs =>
      let a' := a + 24 + bsize b in
      header s a b (first a' bs nxt) /\ seg s a' bs nxt
  end.

Definition block_ok (b : block) : Prop := 0 <= bsize b /\ bsize b mod 8 = 0.

(** The heap over memory [s]: blocks tiling the region from [a], chained. *)
Record heap_rep s a (bs : list block) : Prop := {
  hr_head : 0 < a /\ a mod 8 = 0;
  hr_blocks : Forall block_ok bs;
  hr_top : after a bs + 40 < 2 ^ 64;
  hr_vok : vok_range s a (after a bs - a);
  hr_seg : seg s a bs 0;
}.

(** Addresses of headers; every other byte of the heap belongs to a payload. *)
Fixpoint in_header a (bs : list block) (x : Z) : Prop :=
  match bs with
  | [] => False
  | b :: bs => a <= x < a + 24 \/ in_header (a + 24 + bsize b) bs x
  end.

Lemma after_app a l1 l2 : after a (l1 ++ l2) = after (after a l1) l2.
Proof. revert a. induction l1 as [|b l1 IH]; intros a; [done|]. apply IH. Qed.

Lemma after_ge a bs : Forall block_ok bs -> a <= after a bs.
Proof.
  intros Hb. revert a. induction Hb as [|b bs [Hb _] _ IH]; intros a; cbn; [lia|].
  specialize (IH (a + 24 + bsize b)). lia.
Qed.

Lemma seg_app s a l1 l2 nxt :
  seg s a (l1 ++ l2) nxt <-> seg s a l1 (first (after a l1) l2 nxt) /\ seg s (after a l1) l2 nxt.
Proof.
  revert a. induction l1 as [|b l1 IH]; intros a; cbn [app seg after]; [tauto|].
  rewrite IH. destruct l1; cbn [app first after]; tauto.
Qed.

Lemma header_agree s s' a b nxt : agree s s' a 24 -> header s a b nxt -> header s' a b nxt.
Proof.
  intros Ha. unfold header, b_size, b_next, b_free.
  rewrite (ld64_agree s s' a), (ld64_agree s s' (a + 8)), (ld32_agree s s' (a + 16)); [done|..];
    (eapply agree_sub; [done|lia..]).
Qed.

Lemma in_header_range a bs x : Forall block_ok bs -> in_header a bs x -> a <= x < after a bs.
Proof.
  intros Hb. revert a. induction Hb as [|b bs [Hb0 _] Hbs IH]; intros a; cbn [in_header after]; [done|].
  pose proof (after_ge (a + 24 + bsize b) bs Hbs). intros [?|Hi]; [lia|]. specialize (IH _ Hi). lia.
Qed.

Lemma seg_same s s' a bs nxt :
  (forall x, in_header a bs x -> vld8 s' x = vld8 s x) -> seg s a bs nxt -> seg s' a bs nxt.
Proof.
  revert a. induction bs as [|b bs IH]; intros a Hs; [done|]. cbn [seg]. intros [Hh Hr].
  split; [|apply IH; [|done]; intros x Hx; apply Hs; by right].
  eapply header_agree; [|done]. intros x Hx. apply Hs. left. lia.
Qed.

(** *** First fit *)

Definition split_blocks (size : Z) (b : block) : list block :=
  if size + 40 <? bsize b then [Block size false; Block (bsize b - size - 24) true]
  else [Block (bsize b) false].

(** What the search of [alloc_blocks] finds. *)
Inductive fit (a size : Z) (bs : list block) : option (Z * list block) -> Z -> Prop :=
  | fit_none : alloc_blocks a size bs = None -> fit a size bs None 0
  | fit_some l1 b l2 : bs = l1 ++ b :: l2 -> bfree b = true -> size <= bsize b ->
      fit a size bs (Some (after a l1 + 24, l1 ++ split_blocks size b ++ l2)) (after a l1).

Lemma find_fit_spec fuel s a size bs :
  0 < a -> Forall block_ok bs -> seg s a bs 0 -> (length bs < fuel)%nat ->
  exists c, find_fit fuel s (first a bs 0) size = Some c /\ fit a size bs (alloc_blocks a size bs) c.
Proof.
  revert a fuel. induction bs as [|b bs IH]; intros a [|fuel] Ha Hb Hs Hf; cbn [length] in Hf; try lia.
  { exists 0. split; [done|]. by constructor. }
  cbn [first find_fit alloc_blocks]. destruct Hs as ((Hsz & Hnx & Hfr) & Hs).
  rewrite (proj2 (truthy_true a)), Hfr, Hsz, Hnx by lia. cbn [andb].
  inversion Hb as [|?? [Hb0 _] Hbs]; subst.
  destruct (bfree b && (size <=? bsize b)) eqn:E; cbn [negb].
  - exists a. split; [done|]. apply andb_true_iff in E as [Hf' Hs']. apply Z.leb_le in Hs'.
    eapply (fit_some a size (b :: bs) [] b bs) in Hf'; [|done..].
    unfold split_blocks in Hf'. by destruct (size + 40 <? bsize b).
  - destruct (IH (a + 24 + bsize b) fuel) as (c & -> & [Hn|l1 b' l2 -> Hf' Hs']); [lia|done|done|lia|..].
    + exists 0. split; [done|]. constructor. cbn. by rewrite E, Hn.
    + eexists. split; [done|]. by apply (fit_some a size _ (b :: l1)).
Qed.

(** *** Updating headers *)

(** What an operation that writes only the headers of [bs] leaves. *)
Record updated s a (bs : list block) (s' : S) : Prop := {
  up_vok y : vok s' y <-> vok s y;
  up_same x : vok s x -> ~ in_header a bs x -> vld8 s' x = vld8 s x;
}.

Lemma updated_vok_range s a bs s' x n :
  updated s a bs s' -> vok_range s x n -> vok_range s' x n.
Proof. intros [Hv _] Hr y Hy. by apply Hv, Hr. Qed.

Ltac voks := repeat first [rewrite vok_st64 by vok | rewrite vok_st32 by vok]; done.
Ltac stores :=
  split;
  [ intros y; voks
  | intros x Hx Hn; cbn [in_header bsize] in Hn;
    repeat first [rewrite vld8_st64_ne by (vok || lia || voks)
                 |rewrite vld8_st32_ne by (vok || lia || voks)];
    done ].

Lemma take_block_spec s cur b nxt size :
  header s cur b nxt -> bfree b = true -> 0 < cur -> 0 <= size <= bsize b ->
  vok_range s cur (24 + bsize b) -> cur + 24 + bsize b + 40 < 2 ^ 64 ->
  let s' := set_free cur 0 (split_block cur size s) in
  seg s' cur (split_blocks size b) nxt /\ updated s cur (split_blocks size b) s'.
Proof.
  intros (Hsz & Hnx & Hfr) Hb Hc Hs Hv Ht s'. unfold s', split_block, sizeof_block, split_blocks.
  assert (u64 (u64 (size + 24) + 16) = size + 40) as ->.
  { rewrite (u64_id (size + 24)), u64_id; lia. }
  rewrite Hsz. destruct (Z.ltb_spec (size + 40) (bsize b)) as [Hlt|Hge].
  - rewrite (u64_id (cur + 24 + size)), (u64_id (bsize b - size - 24)) by lia.
    unfold b_next, b_size, set_size, set_next, set_free in *. pose proof (ld64_bound s (cur + 8)).
    split; [|stores].
    cbn [seg first bsize]. unfold header, b_size, b_next, b_free. cbn [bsize bfree].
    repeat split; ld_st; rewrite ?u64_id; try done; lia.
  - unfold b_next, b_size, set_free in *. split; [|stores].
    cbn [seg first]. unfold header, b_size, b_next, b_free. cbn [bsize bfree].
    repeat split; ld_st; done.
Qed.

(** Joining [b2] at [a2 = a + 24 + bsize b1] to the block before it. *)
Lemma join_spec s a b1 b2 nxt :
  let a2 := a + 24 + bsize b1 in
  let b := Block (bsize b1 + (24 + bsize b2)) (bfree b1) in
  header s a b1 a2 -> header s a2 b2 nxt -> 0 < a -> 0 <= bsize b1 -> 0 <= bsize b2 ->
  vok_range s a (24 + bsize b) -> a + 24 + bsize b < 2 ^ 64 ->
  let s1 := set_size a (u64 (b_size s a + u64 (sizeof_block + b_size s (b_next s a)))) s in
  let s' := set_next a (b_next s1 (b_next s1 a)) s1 in
  header s' a b nxt /\ updated s a [b] s'.
Proof.
  intros a2 b (Hsz & Hnx & Hfr) (Hsz2 & Hnx2 & _) Ha H1 H2 Hv Ht s1 s'.
  unfold s', s1, b, a2, sizeof_block in *. cbn [bsize] in *.
  rewrite Hnx, Hsz, Hsz2, (u64_id (24 + bsize b2)), u64_id by lia.
  unfold header, b_size, b_next, b_free, set_size, set_next in *. cbn [bsize bfree].
  pose proof (ld64_bound s (a2 + 8)). unfold a2 in *.
  assert (ld64 (st64 s a (bsize b1 + (24 + bsize b2))) (a + 8) = a + 24 + bsize b1) as Hn1 by (ld_st; done).
  rewrite Hn1. split; [|stores].
  repeat split; ld_st; rewrite ?u64_id; try done; lia.
Qed.

Lemma in_header_app a l1 l2 x :
  in_header a (l1 ++ l2) x <-> in_header a l1 x \/ in_header (after a l1) l2 x.
Proof.
  revert a. induction l1 as [|b l1 IH]; intros a; cbn [app in_header after]; [tauto|].
  rewrite IH. tauto.
Qed.

(** Replacing blocks by others tiling the same range. *)
Lemma heap_rep_replace s s' a l1 mid mid' l2 :
  heap_rep s a (l1 ++ mid ++ l2) -> mid <> [] -> mid' <> [] ->
  let c := after a l1 in
  after c mid' = after c mid -> Forall block_ok mid' ->
  seg s' c mid' (first (after c mid) l2 0) -> updated s c mid' s' ->
  heap_rep s' a (l1 ++ mid' ++ l2) /\ updated s a (l1 ++ mid' ++ l2) s'.
Proof.
  intros [Hh Hb Ht Hv Hs] Hm Hm' c Ha Hb' Hs' Hu.
  rewrite !Forall_app in Hb. destruct Hb as (Hb1 & Hbm & Hb2).
  pose proof (after_ge c mid Hbm) as Hge. pose proof (after_ge (after c mid) l2 Hb2) as Hge2.
  pose proof (after_ge a l1 Hb1) as Hge1. fold c in Hge1.
  rewrite !after_app in Ht, Hv. fold c in Ht, Hv. rewrite !seg_app in Hs. fold c in Hs.
  destruct Hs as (Hs1 & _ & Hs2). split; [split|].
  - done.
  - by rewrite !Forall_app.
  - rewrite !after_app. fold c. by rewrite Ha.
  - eapply updated_vok_range; [done|]. rewrite !after_app. fold c. by rewrite Ha.
  - rewrite !seg_app. fold c. rewrite Ha. split; [|split; [done|]].
    + destruct mid, mid'; try done. cbn [app first] in *. eapply seg_same; [|done].
      intros x Hx%in_header_range; [|done]. apply Hu; [apply Hv; lia|].
      intros Hi%in_header_range; [|done]. fold c in Hx. lia.
    + eapply seg_same; [|done]. intros x Hx%in_header_range; [|done].
      apply Hu; [apply Hv; lia|]. intros Hi%in_header_range; [|done]. lia.
  - split; [apply Hu|]. intros x Hx Hn. apply Hu; [done|]. intros Hi. apply Hn.
    rewrite !in_header_app. fold c. tauto.
Qed.

Lemma split_blocks_ok size b c :
  block_ok b -> 0 <= size -> size mod 8 = 0 ->
  split_blocks size b <> [] /\ after c (split_blocks size b) = after c [b] /\
  Forall block_ok (split_blocks size b).
Proof.
  intros [Hb Hm] Hs Hsm. unfold split_blocks, block_ok.
  destruct (Z.ltb_spec (size + 40) (bsize b)); (split; [done|]); cbn [after bsize].
  - split; [lia|]. repeat constructor; cbn [bsize]; try lia; mlia.
  - split; [done|]. repeat constructor; cbn [bsize]; lia.
Qed.

Definition round8 (size : Z) : Z := 8 * ((size + 7) / 8).

Lemma round8_land size :
  0 <= size <= 2 ^ 64 - 8 -> Z.land (u64 (size + 7)) (not64 7) = round8 size.
Proof.
  intros Hs. rewrite u64_id by lia. change 7 with (Z.ones 3) at 2.
  rewrite land_not64_ones by lia. unfold round8. mlia.
Qed.

Lemma kmalloc_spec fuel s a bs size :
  heap_rep s a bs -> (length bs < fuel)%nat -> bs <> [] -> 0 < size <= 2 ^ 64 - 8 ->
  match alloc_blocks a (round8 size) bs with
  | None => kmalloc fuel a size s = Some (0, s)
  | Some (p, bs') => exists s', kmalloc fuel a size s = Some (p, s') /\
      heap_rep s' a bs' /\ updated s a bs' s'
  end.
Proof.
  intros Hr Hf Hne Hs. pose proof Hr as [[Ha Ham] Hb Ht Hv Hg]. unfold kmalloc.
  rewrite (proj2 (truthy_true a)), (proj2 (truthy_true size)), round8_land by lia. cbn [negb orb].
  destruct (find_fit_spec fuel s a (round8 size) bs Ha Hb Hg Hf) as (c & Hc & Hfit).
  replace (first a bs 0) with a in Hc by (by destruct bs). rewrite Hc.
  assert (Hr8 : size <= round8 size /\ round8 size mod 8 = 0) by (unfold round8; mlia).
  destruct Hfit as [_|l1 b l2 -> Hbf Hbs]; [done|].
  apply Forall_app in Hb as [Hb1 Hb2]. inversion Hb2 as [|?? Hbo Hb2']; subst.
  pose proof (after_ge a l1 Hb1) as Hge. pose proof Hbo as [Hb0 _].
  destruct (split_blocks_ok (round8 size) b (after a l1) Hbo) as (Hm & Haf & Hok); [lia..|].
  rewrite seg_app in Hg. destruct Hg as (_ & Hh & _).
  rewrite after_app in Ht, Hv. cbn [after] in Ht, Hv.
  pose proof (after_ge (after a l1 + 24 + bsize b) l2 Hb2').
  destruct (take_block_spec s (after a l1) b _ (round8 size) Hh Hbf) as [Hs' Hu]; [lia|lia|vok|lia|].
  rewrite (proj2 (truthy_true (after a l1))) by lia. cbn [negb]. unfold sizeof_block.
  rewrite u64_id by lia. eexists. split; [done|].
  apply (heap_rep_replace s _ a l1 [b] (split_blocks (round8 size) b) l2); done.
Qed.

(** What lies outside the updated blocks is kept. *)
Lemma updated_agree s a bs s' x n :
  updated s a bs s' -> Forall block_ok bs -> x + n <= a \/ after a bs <= x -> vok_range s x n -> agree s s' x n.
Proof.
  intros [_ U] Hb Hd Hr y Hy. apply U; [by apply Hr|]. intros Hi%in_header_range; [|done]. lia.
Qed.

(** *** The merging pass *)

Lemma updated_refl s a bs : updated s a bs s.
Proof. by split. Qed.

Lemma updated_trans s1 s2 s3 a bs :
  updated s1 a bs s2 -> updated s2 a bs s3 -> updated s1 a bs s3.
Proof.
  intros [V1 U1] [V2 U2]. split; [intros y; by rewrite V2|].
  intros x Hx Hn. rewrite U2, U1; [done|done|done|by apply V1|done].
Qed.

Lemma updated_weaken s s' a bs a' bs' :
  (forall x, in_header a' bs' x -> in_header a bs x) -> updated s a' bs' s' -> updated s a bs s'.
Proof. intros Hi [V U]. split; [done|]. intros x Hx Hn. apply U; auto. Qed.

Lemma merge_pass_cons b1 b2 rest :
  merge_pass (b1 :: b2 :: rest) =
    if bfree b1 && bfree b2
    then Block (bsize b1 + (24 + bsize b2)) true :: merge_pass rest
    else b1 :: merge_pass (b2 :: rest).
Proof. reflexivity. Qed.

Lemma merge_pass_ok a bs :
  Forall block_ok bs ->
  Forall block_ok (merge_pass bs) /\ after a (merge_pass bs) = after a bs /\
  first a (merge_pass bs) 0 = first a bs 0.
Proof.
  remember (length bs) as n eqn:Hn. assert (Hl : (length bs <= n)%nat) by lia. clear Hn.
  revert a bs Hl. induction n as [|n IH]; intros a bs Hl Hb.
  { destruct bs; [done|cbn in Hl; lia]. }
  destruct bs as [|b1 [|b2 rest]]; [done|done|].
  apply Forall_cons in Hb as [[Hz1 Hm1] Hb1].
  pose proof (proj1 (Forall_cons _ _ _) Hb1) as [[Hz2 Hm2] Hb2].
  cbn [length] in *. rewrite merge_pass_cons. destruct (bfree b1 && bfree b2); cbn [after first].
  - destruct (IH (a + 24 + (bsize b1 + (24 + bsize b2))) rest) as (Ho & Ha & _); [lia|done|].
    split; [|split; [|done]].
    + constructor; [split; cbn; [lia|mlia]|done].
    + cbn [bsize]. rewrite Ha. f_equal. lia.
  - destruct (IH (a + 24 + bsize b1) (b2 :: rest)) as (Ho & Ha & _); [cbn; lia|done|].
    split; [|split; [|done]]; [constructor; done|]. by rewrite Ha.
Qed.

Lemma coalesce_spec n : forall bs s a fuel,
  (length bs <= n)%nat -> (n < fuel)%nat -> 0 < a -> Forall block_ok bs ->
  after a bs + 40 < 2 ^ 64 -> vok_range s a (after a bs - a) -> seg s a bs 0 ->
  exists s', coalesce fuel (first a bs 0) s = Some s' /\
    seg s' a (merge_pass bs) 0 /\ updated s a bs s'.
Proof.
  induction n as [|n IH]; intros bs s a [|fuel] Hl Hf Ha Hb Ht Hv Hs; try lia.
  { destruct bs; [|cbn in Hl; lia]. exists s. split; [done|]. split; [done|apply updated_refl]. }
  destruct bs as [|b1 bs]; [exists s; split; [done|]; split; [done|apply updated_refl]|].
  cbn [first coalesce]. rewrite (proj2 (truthy_true a)) by lia.
  destruct Hs as [(Hsz & Hnx & Hfr) Hs].
  destruct bs as [|b2 rest].
  { rewrite Hnx. exists s. split; [done|]. split; [|apply updated_refl].
    split; [|done]. by split. }
  apply Forall_cons in Hb as [[Hz1 Hm1] Hb1].
  pose proof (proj1 (Forall_cons _ _ _) Hb1) as [[Hz2 Hm2] Hb2].
  destruct Hs as [Hh2 Hs2]. pose proof Hh2 as (_ & _ & Hfr2).
  cbn [first after length] in Hnx, Ht, Hv, Hl, Hh2. set (a2 := a + 24 + bsize b1) in *.
  pose proof (after_ge (a2 + 24 + bsize b2) rest Hb2) as Hge.
  rewrite Hnx, (proj2 (truthy_true a2)), Hfr, Hfr2 by lia. cbn [andb]. rewrite merge_pass_cons.
  destruct (bfree b1 && bfree b2) eqn:E.
  - apply andb_true_iff in E as [E1 E2].
    pose proof (join_spec s a b1 b2 (first (a2 + 24 + bsize b2) rest 0)) as Hj.
    cbv zeta in Hj. fold a2 in Hj. cbn [bsize] in Hj. rewrite Hnx in Hj.
    destruct Hj as [Hh' Hu]; [by split|done|lia..|vok|lia|].
    set (s1 := set_next a _ _) in *. rewrite E1 in Hh'.
    assert (b_next s1 a = first (a2 + 24 + bsize b2) rest 0) as -> by apply Hh'.
    destruct (IH rest s1 (a2 + 24 + bsize b2) fuel) as (s' & -> & Hs' & Hu');
      [lia|lia|lia|done|done| | |].
    { eapply updated_vok_range; [done|]. vok. }
    { eapply seg_same; [|done]. intros x Hx%in_header_range; [|done].
      apply Hu; [apply Hv; lia|]. cbn. lia. }
    exists s'. split; [done|]. split.
    + cbn [seg bsize]. replace (a + 24 + (bsize b1 + (24 + bsize b2))) with (a2 + 24 + bsize b2) by lia.
      split; [|done]. assert (first (a2 + 24 + bsize b2) (merge_pass rest) 0 =
        first (a2 + 24 + bsize b2) rest 0) as -> by (by apply merge_pass_ok).
      eapply header_agree; [|done]. eapply updated_agree; [done|done|lia|].
      eapply updated_vok_range; [done|]. vok.
    + apply (updated_trans _ s1); (eapply updated_weaken; [|done]); cbn; tauto.
  - rewrite Hnx. destruct (IH (b2 :: rest) s a2 fuel) as (s' & E' & Hs' & Hu');
      [cbn; lia|lia|lia|done|done|cbn [after]; vok|by split|].
    cbn [first] in E'. rewrite E'. exists s'. split; [done|]. split.
    + cbn [seg]. fold a2. split; [|exact Hs']. assert (first a2 (merge_pass (b2 :: rest)) 0 = a2) as ->.
      { by apply (merge_pass_ok a2 (b2 :: rest)). }
      eapply header_agree; [|by split]. eapply updated_agree; [done|done|lia|vok].
    + eapply updated_weaken; [|done]. intros x Hx. by right.
Qed.

(** *** Live payloads *)

Lemma live_app a l1 l2 : live a (l1 ++ l2) = live a l1 ++ live (after a l1) l2.
Proof.
  revert a. induction l1 as [|b l1 IH]; intros a; [done|]. cbn [app live after].
  by rewrite IH, app_assoc.
Qed.

Lemma live_cons_elem a b bs p c :
  (p, c) ∈ live a (b :: bs) <->
    (bfree b = false /\ p = a + 24 /\ c = bsize b) \/ (p, c) ∈ live (a + 24 + bsize b) bs.
Proof.
  cbn [live]. rewrite elem_of_app. destruct (bfree b).
  - rewrite elem_of_nil. naive_solver.
  - rewrite list_elem_of_singleton. naive_solver.
Qed.

Lemma live_range a bs p c :
  Forall block_ok bs -> (p, c) ∈ live a bs -> a + 24 <= p /\ 0 <= c /\ p + c <= after a bs.
Proof.
  intros Hb. revert a. induction Hb as [|b bs [Hb _] Hbs IH]; intros a.
  { by intros Hp%elem_of_nil. }
  pose proof (after_ge (a + 24 + bsize b) bs Hbs). cbn [after].
  rewrite live_cons_elem. intros [(_ & -> & ->)|Hp]; [lia|]. specialize (IH _ Hp). lia.
Qed.

Lemma live_not_header a bs p c x :
  Forall block_ok bs -> (p, c) ∈ live a bs -> p <= x < p + c -> ~ in_header a bs x.
Proof.
  intros Hb. revert a. induction Hb as [|b bs [Hb _] Hbs IH]; intros a.
  { by intros Hp%elem_of_nil. }
  rewrite live_cons_elem. cbn [in_header]. intros Hp Hx [Hh|Hh].
  - destruct Hp as [(_ & -> & ->)|Hp]; [lia|]. apply live_range in Hp; [lia|done].
  - destruct Hp as [(_ & -> & ->)|Hp]; [|by eapply IH].
    apply in_header_range in Hh; [lia|done].
Qed.

(** Two regions apart. *)
Definition apart (r1 r2 : Z * Z) : Prop := r1.1 + r1.2 <= r2.1 \/ r2.1 + r2.2 <= r1.1.

Lemma live_apart a bs r1 r2 :
  Forall block_ok bs -> r1 ∈ live a bs -> r2 ∈ live a bs -> r1 <> r2 -> apart r1 r2.
Proof.
  intros Hb. revert a. induction Hb as [|b bs [Hb _] Hbs IH]; intros a.
  { by intros Hp%elem_of_nil. }
  destruct r1 as [p1 c1], r2 as [p2 c2]. rewrite !live_cons_elem. unfold apart. cbn [fst snd].
  intros [(_ & -> & ->)|H1] [(_ & -> & ->)|H2] Hne; [done|..].
  - apply live_range in H2; [lia|done].
  - apply live_range in H1; [lia|done].
  - by apply (IH _ H1 H2).
Qed.

Lemma live_inj a bs p c d :
  Forall block_ok bs -> (p, c) ∈ live a bs -> (p, d) ∈ live a bs -> c = d.
Proof.
  intros Hb. revert a. induction Hb as [|b bs [Hb _] Hbs IH]; intros a.
  { by intros Hp%elem_of_nil. }
  rewrite !live_cons_elem. intros [(_ & Hp & ->)|Hc] [(_ & Hp' & ->)|Hd]; [done|..].
  - apply live_range in Hd; [lia|done].
  - apply live_range in Hc; [lia|done].
  - by eapply IH.
Qed.

Lemma live_merge_pass a bs : live a (merge_pass bs) = live a bs.
Proof.
  remember (length bs) as n eqn:Hn. assert (Hl : (length bs <= n)%nat) by lia. clear Hn.
  revert a bs Hl. induction n as [|n IH]; intros a bs Hl.
  { destruct bs; [done|cbn in Hl; lia]. }
  destruct bs as [|b1 [|b2 rest]]; [done|done|]. rewrite merge_pass_cons. cbn [length] in Hl.
  destruct (bfree b1 && bfree b2) eqn:E.
  - apply andb_true_iff in E as [E1 E2]. cbn [live bfree bsize]. rewrite E1, E2. cbn [app].
    rewrite IH by lia. f_equal. lia.
  - cbn [live]. by rewrite IH by (cbn; lia).
Qed.

Lemma live_split a bs p c :
  (p, c) ∈ live a bs -> exists l1 b l2,
    bs = l1 ++ b :: l2 /\ p = after a l1 + 24 /\ bsize b = c /\ bfree b = false.
Proof.
  revert a. induction bs as [|b bs IH]; intros a; [by intros Hp%elem_of_nil|].
  rewrite live_cons_elem. intros [(Hf & -> & ->)|Hp].
  - by exists [], b, bs.
  - destruct (IH _ Hp) as (l1 & b' & l2 & -> & -> & Hc & Hf). by exists (b :: l1), b', l2.
Qed.

Lemma mark_free_mid a l1 b l2 :
  Forall block_ok l1 ->
  mark_free a (after a l1 + 24) (l1 ++ b :: l2) = l1 ++ Block (bsize b) true :: l2.
Proof.
  intros Hb. revert a. induction Hb as [|b1 l1 [Hb1 _] Hl1 IH]; intros a; cbn [app mark_free after].
  - by rewrite Z.eqb_refl.
  - pose proof (after_ge (a + 24 + bsize b1) l1 Hl1).
    rewrite (proj2 (Z.eqb_neq _ _)) by lia. by rewrite IH.
Qed.

Lemma kfree_spec fuel s a bs p c :
  heap_rep s a bs -> (length bs < fuel)%nat -> (p, c) ∈ live a bs ->
  exists s', kfree fuel a p s = Some s' /\ heap_rep s' a (free_blocks a p bs) /\
    updated s a bs s' /\ live a bs ≡ₚ (p, c) :: live a (free_blocks a p bs) /\
    after a (free_blocks a p bs) = after a bs.
Proof.
  intros Hr Hf Hl. pose proof Hr as [[Ha Ham] Hb Ht Hv Hg].
  pose proof (live_range _ _ _ _ Hb Hl) as Hp.
  destruct (live_split _ _ _ _ Hl) as (l1 & b & l2 & -> & -> & Hc & Hfb).
  apply Forall_app in Hb as [Hb1 Hb2]. pose proof (proj1 (Forall_cons _ _ _) Hb2) as [Hbo Hbl2].
  pose proof (after_ge a l1 Hb1) as Hge. pose proof Hbo as [Hb0 _].
  rewrite after_app in Ht, Hv, Hp. cbn [after] in Ht, Hv, Hp.
  pose proof (after_ge (after a l1 + 24 + bsize b) l2 Hbl2).
  unfold kfree, free_blocks. rewrite (proj2 (truthy_true _)), (proj2 (Z.eqb_neq _ 0)) by lia.
  cbn [negb]. unfold sizeof_block. rewrite mark_free_mid by done.
  replace (after a l1 + 24 - 24) with (after a l1) by lia. rewrite u64_id by lia.
  set (b' := Block (bsize b) true). set (s1 := set_free (after a l1) 1 s).
  rewrite seg_app in Hg. destruct Hg as (_ & (Hsz & Hnx & _) & _).
  assert (Hm : seg s1 (after a l1) [b'] (first (after a l1 + 24 + bsize b) l2 0) /\
               updated s (after a l1) [b'] s1).
  { unfold s1, set_free. split; [|stores].
    cbn [seg first]. unfold header, b_size, b_next, b_free in *.
    repeat split; ld_st; done. }
  destruct Hm as [Hm Hu].
  destruct (heap_rep_replace s s1 a l1 [b] [b'] l2 Hr) as [Hr1 Hu1]; try done.
  { by constructor. }
  cbn [app] in Hr1, Hu1. pose proof Hr1 as [_ Hb' Ht' Hv' Hg'].
  destruct (coalesce_spec (length (l1 ++ b :: l2)) (l1 ++ b' :: l2) s1 a fuel)
    as (s' & E & Hs' & Hu'); try done.
  { rewrite !length_app. done. }
  replace (first a (l1 ++ b' :: l2) 0) with a in E by (by destruct l1).
  destruct (merge_pass_ok a _ Hb') as (Hok & Haf & _).
  exists s'. split; [done|]. split; [|split; [|split]].
  - split; try done; [by rewrite Haf|]. rewrite Haf. by eapply updated_vok_range.
  - apply (updated_trans _ s1); (eapply updated_weaken; [|done]);
      intros x; rewrite !in_header_app; cbn; tauto.
  - rewrite live_merge_pass, !live_app. cbn [live bfree bsize b']. rewrite Hfb, Hc. cbn [app].
    by rewrite <-Permutation_middle.
  - rewrite Haf, !after_app. done.
Qed.

Lemma after_aligned a bs : Forall block_ok bs -> a mod 8 = 0 -> after a bs mod 8 = 0.
Proof.
  intros Hb. revert a. induction Hb as [|b bs [Hb0 Hb8] _ IH]; intros a Ha; [done|].
  cbn [after]. apply IH. mlia.
Qed.

Lemma live_free_head a l1 b l2 c :
  Forall block_ok (l1 ++ b :: l2) -> bfree b = true ->
  ~ (after a l1 + 24, c) ∈ live a (l1 ++ b :: l2).
Proof.
  intros Hb Hf. rewrite live_app, elem_of_app, live_cons_elem.
  apply Forall_app in Hb as [Hb1 [[Hb0 _] Hb2]%Forall_cons].
  intros [Hl|[(Hf' & _)|Hl]]; [|congruence|]; apply live_range in Hl; try done; lia.
Qed.

Lemma alloc_blocks_Some a size bs p bs' :
  alloc_blocks a size bs = Some (p, bs') -> exists l1 b l2,
    bs = l1 ++ b :: l2 /\ bfree b = true /\ size <= bsize b /\ p = after a l1 + 24 /\
    bs' = l1 ++ split_blocks size b ++ l2 /\
    Forall (fun b => bfree b = true -> bsize b < size) l1.
Proof.
  revert a bs'. induction bs as [|b bs IH]; intros a bs'; cbn [alloc_blocks]; [done|].
  destruct (bfree b && (size <=? bsize b)) eqn:E.
  - intros [= <- <-]. apply andb_true_iff in E as [Hf Hs]. exists [], b, bs.
    split; [done|]. split; [done|]. split; [lia|]. split; [done|]. split; [|done].
    unfold split_blocks. by destruct (size + 40 <? bsize b).
  - destruct (alloc_blocks _ _ _) as [[q bs1]|] eqn:Ea; [|done]. intros [= <- <-].
    destruct (IH _ _ Ea) as (l1 & b' & l2 & -> & Hf & Hs & -> & -> & Hl1).
    exists (b :: l1), b', l2. do 5 (split; [done|]). constructor; [|done].
    intros Hfb. rewrite Hfb in E. cbn in E. lia.
Qed.

Lemma alloc_blocks_None a size bs :
  alloc_blocks a size bs = None -> Forall (fun b => bfree b = true -> bsize b < size) bs.
Proof.
  revert a. induction bs as [|b bs IH]; intros a; cbn [alloc_blocks]; [done|].
  destruct (bfree b && (size <=? bsize b)) eqn:E; [done|].
  destruct (alloc_blocks _ _ _) as [[q bs1]|] eqn:Ea; [done|]. intros _.
  constructor; [|by apply (IH (a + 24 + bsize b))]. intros Hfb. rewrite Hfb in E. cbn in E. lia.
Qed.

(** ** Properties *)

(** C22 [kmalloc] terminates and refines first-fit allocation on the list of blocks:
    the same pointer, and a memory that represents the resulting list, all
    bytes outside the headers being unchanged. *)
Theorem kmalloc_refines fuel s a bs size :
  heap_rep s a bs -> (length bs < fuel)%nat -> bs <> [] -> 0 < size <= 2 ^ 64 - 8 ->
  match alloc_blocks a (round8 size) bs with
  | None => kmalloc fuel a size s = Some (0, s)
  | Some (p, bs') => exists s', kmalloc fuel a size s = Some (p, s') /\
      heap_rep s' a bs' /\ updated s a bs' s'
  end.
Proof. exact (kmalloc_spec fuel s a bs size). Qed.

(** What a caller of [kmalloc] gets: [NULL] with nothing changed exactly when no
    free block is large enough; otherwise an 8-aligned region of at least the
    requested size, apart from every live region, and the contents of every
    live region unchanged. *)
Lemma kmalloc_client fuel s a bs size :
  heap_rep s a bs -> (length bs < fuel)%nat -> bs <> [] -> 0 < size <= 2 ^ 64 - 8 ->
  exists p s', kmalloc fuel a size s = Some (p, s') /\
    ((p = 0 /\ s' = s /\ Forall (fun b => bfree b = true -> bsize b < round8 size) bs) \/
     (p mod 8 = 0 /\ exists bs' cap, alloc_blocks a (round8 size) bs = Some (p, bs') /\
        heap_rep s' a bs' /\ size <= cap /\
        live a bs' ≡ₚ (p, cap) :: live a bs /\ after a bs' = after a bs /\
        (forall q c, (q, c) ∈ live a bs -> apart (p, cap) (q, c) /\ agree s s' q c))).
Proof.
  intros Hr Hf Hne Hs. pose proof (kmalloc_spec fuel s a bs size Hr Hf Hne Hs) as Hk.
  destruct (alloc_blocks a (round8 size) bs) as [[p bs']|] eqn:E.
  2: { exists 0, s. split; [done|]. left. do 2 (split; [done|]). by eapply alloc_blocks_None. }
  destruct Hk as (s' & Ek & Hr' & Hu). exists p, s'. split; [done|]. right.
  destruct (alloc_blocks_Some _ _ _ _ _ E) as (l1 & b & l2 & -> & Hbf & Hbs & -> & -> & _).
  pose proof Hr as [[Ha Ham] Hb Ht Hv _]. pose proof Hr' as [_ Hb' _ _ _].
  assert (Hr8 : size <= round8 size /\ round8 size mod 8 = 0) by (unfold round8; mlia).
  pose proof (proj1 (Forall_app _ _ _) Hb) as [Hb1 Hb2].
  pose proof (proj1 (Forall_cons _ _ _) Hb2) as [Hbo Hbl2].
  destruct (split_blocks_ok (round8 size) b (after a l1) Hbo) as (Hm & Haf & Hok); [lia..|].
  assert (Hlive : exists cap, size <= cap /\
    live (after a l1) (split_blocks (round8 size) b) = [(after a l1 + 24, cap)]).
  { unfold split_blocks. destruct (_ <? _); cbn [live bfree bsize app]; eexists; (split; [|done]); lia. }
  destruct Hlive as (cap & Hcap & Hlive).
  assert (Hp : live a (l1 ++ split_blocks (round8 size) b ++ l2) ≡ₚ
               (after a l1 + 24, cap) :: live a (l1 ++ b :: l2)).
  { rewrite !live_app, Hlive, Haf. cbn [live after app]. rewrite Hbf. cbn [app].
    by rewrite <-Permutation_middle. }
  split.
  { rewrite <-Z.add_mod_idemp_l by lia. by rewrite (after_aligned a l1 Hb1 Ham). }
  exists (l1 ++ split_blocks (round8 size) b ++ l2), cap.
  split; [done|]. split; [done|]. split; [done|]. split; [done|]. split; [by rewrite !after_app, Haf|].
  intros q c Hq. assert (Hq' : (q, c) ∈ live a (l1 ++ split_blocks (round8 size) b ++ l2)).
  { rewrite Hp. by right. }
  pose proof (live_range _ _ _ _ Hb Hq). split.
  - apply (live_apart a (l1 ++ split_blocks (round8 size) b ++ l2)); [done| |done|].
    + rewrite Hp. by left.
    + intros [= <- <-]. by apply (live_free_head a l1 b l2 cap Hb Hbf).
  - intros x Hx. apply Hu; [apply Hv; lia|]. by apply (live_not_header a _ q c).
Qed.

(** [kfree] of a live pointer terminates, removes exactly that region from the
    live ones, loses no byte of the heap, and leaves the contents of every
    region that was live unchanged; [kfree(NULL)] does nothing. *)
Lemma kfree_client fuel s a bs p c :
  heap_rep s a bs -> (length bs < fuel)%nat -> (p, c) ∈ live a bs ->
  kfree fuel a 0 s = Some s /\
  exists s' bs', kfree fuel a p s = Some s' /\ heap_rep s' a bs' /\
    live a bs ≡ₚ (p, c) :: live a bs' /\ after a bs' = after a bs /\
    forall q d, (q, d) ∈ live a bs -> agree s s' q d.
Proof.
  intros Hr Hf Hl. split; [done|].
  destruct (kfree_spec fuel s a bs p c Hr Hf Hl) as (s' & E & Hr' & Hu & Hp & Ha).
  exists s', (free_blocks a p bs). do 4 (split; [done|]). intros q d Hq x Hx.
  destruct Hr as [_ Hb _ Hv _]. pose proof (live_range _ _ _ _ Hb Hq).
  apply Hu; [apply Hv; lia|]. by apply (live_not_header a _ q d).
Qed.

(** No two neighbouring blocks are free. *)
Fixpoint coalesced (bs : list block) : Prop :=
  match bs with
  | b1 :: ((b2 :: _) as tl) => bfree b1 && bfree b2 = false /\ coalesced tl
  | _ => True
  end.

Lemma merge_pass_coalesced bs : coalesced bs -> merge_pass bs = bs.
Proof.
  induction bs as [|b1 bs IH]; [done|]. destruct bs as [|b2 rest]; [done|].
  intros [E Hc]. rewrite merge_pass_cons, E. by rewrite IH.
Qed.

Lemma coalesced_app_r l1 l2 : coalesced (l1 ++ l2) -> coalesced l2.
Proof.
  induction l1 as [|b l1 IH]; [done|]. intros Hc. apply IH.
  cbn [app] in Hc. destruct (l1 ++ l2); [done|]. apply Hc.
Qed.

Lemma merge_pass_mid l1 b l2 tl :
  coalesced (l1 ++ b :: l2) -> bfree b = true -> merge_pass (l1 ++ tl) = l1 ++ merge_pass tl.
Proof.
  intros Hc Hb. induction l1 as [|b1 l1 IH]; [done|]. destruct l1 as [|b2 l1]; cbn [app] in *.
  - destruct Hc as [E _]. rewrite Hb, andb_true_r in E. destruct tl as [|b2 tl]; [done|].
    by rewrite merge_pass_cons, E.
  - destruct Hc as [E Hc]. rewrite merge_pass_cons, E. f_equal. by apply IH.
Qed.

Lemma alloc_free_blocks a size bs p bs' :
  0 < a -> Forall block_ok bs -> coalesced bs ->
  alloc_blocks a size bs = Some (p, bs') -> free_blocks a p bs' = bs.
Proof.
  intros Ha Hb Hc E.
  destruct (alloc_blocks_Some _ _ _ _ _ E) as (l1 & b & l2 & -> & Hbf & Hbs & -> & -> & _).
  apply Forall_app in Hb as [Hb1 _]. pose proof (after_ge a l1 Hb1).
  unfold free_blocks. rewrite (proj2 (Z.eqb_neq _ 0)) by lia.
  pose proof (coalesced_app_r _ _ Hc) as Hc2. destruct b as [sz fr]. cbn [bfree bsize] in *. subst fr.
  unfold split_blocks. cbn [bsize]. destruct (size + 40 <? sz); cbn [app].
  - rewrite mark_free_mid, (merge_pass_mid l1 _ _ _ Hc) by done. cbn [bsize].
    rewrite merge_pass_cons. cbn [bfree bsize andb]. f_equal. f_equal.
    + f_equal. lia.
    + apply merge_pass_coalesced. by apply (coalesced_app_r [_]) in Hc2.
  - rewrite mark_free_mid by done. by rewrite merge_pass_coalesced.
Qed.

Lemma alloc_coalesced a size bs p bs' :
  coalesced bs -> alloc_blocks a size bs = Some (p, bs') -> coalesced bs'.
Proof.
  intros Hc E. destruct (alloc_blocks_Some _ _ _ _ _ E) as (l1 & [sz fr] & l2 & -> & Hbf & _ & _ & -> & _).
  cbn [bfree] in Hbf. subst fr. unfold split_blocks. clear E. revert Hc.
  induction l1 as [|b1 l1 IH]; intros Hc.
  - cbn [app] in *. destruct (_ <? _); cbn [app].
    + split; [done|]. destruct l2 as [|b2 l2]; [done|]. split; [apply Hc|apply Hc].
    + destruct l2 as [|b2 l2]; [done|]. split; [done|apply Hc].
  - assert (Hc' := coalesced_app_r [b1] _ Hc). specialize (IH Hc'). destruct l1 as [|b2 l1].
    + cbn [app] in *. destruct (_ <? _); cbn [app] in *; (split; [by destruct (bfree b1)|done]).
    + cbn [app] in *. split; [apply Hc|done].
Qed.

(** A request in the last 7 bytes of the 64-bit range wraps to size 0: [kmalloc]
    then returns a non-null pointer to a region without a single byte. *)
Theorem kmalloc_wraps fuel s a sz bs size :
  heap_rep s a (Block sz true :: bs) -> (1 < fuel)%nat -> 40 < sz -> 2 ^ 64 - 8 < size < 2 ^ 64 ->
  exists s', kmalloc fuel a size s = Some (a + 24, s') /\
    heap_rep s' a (Block 0 false :: Block (sz - 24) true :: bs).
Proof.
  intros Hr Hf Hsz Hs. pose proof Hr as [[Ha Ham] Hb Ht Hv Hg]. cbn [after bsize] in *.
  pose proof (proj1 (Forall_cons _ _ _) Hb) as [Hbo Hb2].
  pose proof (after_ge (a + 24 + sz) bs Hb2). destruct Hg as [Hh _].
  unfold kmalloc. rewrite (proj2 (truthy_true a)), (proj2 (truthy_true size)) by lia.
  replace (Z.land (u64 (size + 7)) (not64 7)) with 0.
  2: { change 7 with (Z.ones 3) at 2. rewrite land_not64_ones by (apply u64_bound || lia).
       unfold u64. mlia. }
  destruct fuel as [|fuel]; [lia|]. cbn [negb orb find_fit].
  pose proof Hh as (Hsz' & _ & Hfr). rewrite Hfr, Hsz'. cbn [bfree bsize].
  rewrite (proj2 (truthy_true a)), (proj2 (Z.leb_le 0 sz)) by lia. cbn [andb negb].
  rewrite (proj2 (truthy_true a)) by lia. cbn [negb].
  destruct (take_block_spec s a _ _ 0 Hh) as [Hs' Hu];
    [done|lia|cbn; lia|cbn [bsize]; vok|cbn; lia|].
  unfold sizeof_block. rewrite u64_id by lia. eexists. split; [done|].
  assert (E : split_blocks 0 (Block sz true) = [Block 0 false; Block (sz - 24) true]).
  { unfold split_blocks. cbn [bsize]. rewrite (proj2 (Z.ltb_lt _ _)) by lia. do 3 f_equal. lia. }
  rewrite E in Hs', Hu.
  apply (heap_rep_replace s _ a [] [Block sz true] [Block 0 false; Block (sz - 24) true] bs); try done.
  - cbn. lia.
  - destruct Hbo as [_ Hm]. cbn in Hm. repeat constructor; cbn; try lia; mlia.
Qed.

(** *** Client sessions

    A client allocates, frees what it holds, and writes inside what it holds:
    [held] are the regions [(p, size)] of its successful requests. *)
Inductive heap_op :=
  | HAlloc (size : Z)
  | HFree (p : Z)
  | HWrite (x v : Z).

Definition heap_step (fuel : nat) (a : Z) (s : S) (op : heap_op) : option (Z * S) :=
  match op with
  | HAlloc size => kmalloc fuel a size s
  | HFree p => s' ← kfree fuel a p s; Some (0, s')
  | HWrite x v => Some (0, vst8 s x v)
  end.

Definition heap_legal (held : list (Z * Z)) (op : heap_op) : Prop :=
  match op with
  | HAlloc size => 0 < size <= 2 ^ 64 - 8
  | HFree p => exists c, (p, c) ∈ held
  | HWrite x _ => exists p c, (p, c) ∈ held /\ p <= x < p + c
  end.

Definition held_after (held : list (Z * Z)) (op : heap_op) (p : Z) (held' : list (Z * Z)) : Prop :=
  match op with
  | HAlloc size => held' = if p =? 0 then held else (p, size) :: held
  | HFree q => exists c, held ≡ₚ (q, c) :: held'
  | HWrite _ _ => held' = held
  end.

(** [session fuel a held s held' s']: a sequence of operations, each legal when
    it is issued, leads from [s] to [s']. *)
Inductive session (fuel : nat) (a : Z) (held : list (Z * Z)) (s : S) : list (Z * Z) -> S -> Prop :=
  | session_nil : session fuel a held s held s
  | session_step held1 s1 op p held2 s2 :
      session fuel a held s held1 s1 -> heap_legal held1 op ->
      heap_step fuel a s1 op = Some (p, s2) -> held_after held1 op p held2 ->
      session fuel a held s held2 s2.

(** What the client holds are live regions of at least the requested sizes. *)
Definition session_inv (a top : Z) (held : list (Z * Z)) (s : S) : Prop :=
  exists bs caps, heap_rep s a bs /\ a < top /\ after a bs = top /\ live a bs ≡ₚ caps /\
    Forall2 (fun r r' => r.1 = r'.1 /\ r.2 <= r'.2) held caps.

Lemma length_blocks a bs : Forall block_ok bs -> a + 24 * Z.of_nat (length bs) <= after a bs.
Proof.
  intros Hb. revert a. induction Hb as [|b bs [Hb _] _ IH]; intros a; cbn [length after]; [lia|].
  specialize (IH (a + 24 + bsize b)). lia.
Qed.

Lemma write_live_rep s a bs p c x v :
  heap_rep s a bs -> (p, c) ∈ live a bs -> p <= x < p + c -> heap_rep (vst8 s x v) a bs.
Proof.
  intros [Hh Hb Ht Hv Hg] Hl Hx. pose proof (live_range _ _ _ _ Hb Hl).
  assert (Hok : vok s x) by (apply Hv; lia).
  split; try done.
  - intros y Hy. apply vok_vst8; [done|]. by apply Hv.
  - eapply seg_same; [|done]. intros y Hy. apply vld8_vst8_ne; [done| |].
    + apply in_header_range in Hy; [apply Hv; lia|done].
    + intros ->. by apply (live_not_header a bs p c y Hb Hl).
Qed.

(** Nested use of the heap: each use requests a region, writes at offsets of it (when
    there is one), lets the other uses run, and frees it. *)
Definition fill (p : Z) (ws : list (Z * Z)) (s : S) : S := foldl (fun s w => vst8 s (p + w.1) w.2) s ws.

Fixpoint nested (fuel : nat) (a : Z) (uses : list (Z * list (Z * Z))) (s : S) : option S :=
  match uses with
  | [] => Some s
  | (size, ws) :: uses =>
      '(p, s) ← kmalloc fuel a size s;
      s ← nested fuel a uses (if p =? 0 then s else fill p ws s);
      kfree fuel a p s
  end.

Definition use_ok (u : Z * list (Z * Z)) : Prop :=
  0 < u.1 <= 2 ^ 64 - 8 /\ Forall (fun w => 0 <= w.1 < u.1) u.2.

Lemma fill_rep a bs p c ws : forall s,
  heap_rep s a bs -> (p, c) ∈ live a bs -> Forall (fun w : Z * Z => 0 <= w.1 < c) ws ->
  heap_rep (fill p ws s) a bs /\
  forall q d, (q, d) ∈ live a bs -> apart (p, c) (q, d) -> agree s (fill p ws s) q d.
Proof.
  induction ws as [|[o v] ws IH]; intros s Hr Hl Hws; [done|]. apply Forall_cons in Hws as [Ho Hws].
  cbn [fst] in Ho. pose proof (write_live_rep s a bs p c (p + o) v Hr Hl ltac:(lia)) as Hr1.
  destruct (IH _ Hr1 Hl Hws) as [Hr2 Ha]. split; [done|]. intros q d Hq Hap.
  eapply agree_trans; [|by apply Ha]. destruct Hr as [_ Hb _ Hv _].
  pose proof (live_range _ _ _ _ Hb Hq). pose proof (live_range _ _ _ _ Hb Hl).
  intros x Hx. apply vld8_vst8_ne; [apply Hv; lia|apply Hv; lia|].
  unfold apart in Hap. cbn [fst snd] in Hap. lia.
Qed.

(** C29 Freeing, in reverse order, everything that was allocated since, with any writes to
    the regions meanwhile, on any heap: it all terminates, a request that finds no room
    included, and leaves the regions that were in use before, their contents and the
    extent of the heap; and on a heap without neighbouring free blocks it gives back the
    very same blocks, so that nothing is lost to fragmentation. *)
Theorem kmalloc_kfree_roundtrip fuel uses : forall s a bs,
  heap_rep s a bs -> a < after a bs -> after a bs - a < 24 * Z.of_nat fuel -> Forall use_ok uses ->
  exists s' bs', nested fuel a uses s = Some s' /\ heap_rep s' a bs' /\
    after a bs' = after a bs /\ live a bs' ≡ₚ live a bs /\
    (forall q d, (q, d) ∈ live a bs -> agree s s' q d) /\
    (coalesced bs -> bs' = bs).
Proof.
  induction uses as [|[size ws] uses IH]; intros s a bs Hr Hat Hf Hu.
  { exists s, bs. do 4 (split; [done|]). split; [|done]. intros q d _. apply agree_refl. }
  apply Forall_cons in Hu as [[Hs Hws] Hu]. cbn [fst snd] in Hs, Hws.
  pose proof (length_blocks a bs (hr_blocks _ _ _ Hr)) as Hlen.
  destruct (kmalloc_client fuel s a bs size Hr) as (p & s1 & E & Hcase); [lia|by intros ->; cbn in Hat; lia|done|].
  cbn [nested]. rewrite E. cbn [mbind option_bind].
  destruct Hcase as [(-> & -> & _)|(_ & bs1 & cap & Eb & Hr1 & Hcap & Hl1 & Ha1 & Hq1)].
  { destruct (IH s a bs Hr Hat Hf Hu) as (s2 & bs2 & E2 & H2). cbn [Z.eqb]. rewrite E2. by exists s2, bs2. }
  assert (Hin : (p, cap) ∈ live a bs1) by (rewrite Hl1; by left).
  pose proof Hr1 as [[Ha0 _] Hb1 _ _ _]. pose proof (live_range _ _ _ _ Hb1 Hin).
  rewrite (proj2 (Z.eqb_neq p 0)) by lia.
  destruct (fill_rep a bs1 p cap ws s1 Hr1 Hin) as [Hr1' Hq1'].
  { eapply Forall_impl; [exact Hws|]. intros w Hw. cbv beta in Hw |- *. lia. }
  destruct (IH _ a bs1 Hr1') as (s2 & bs2 & E2 & Hr2 & Ha2 & Hl2 & Hq2 & Hc2); [lia|lia|done|].
  rewrite E2. cbn [mbind option_bind]. pose proof (length_blocks a bs2 (hr_blocks _ _ _ Hr2)).
  assert (Hin2 : (p, cap) ∈ live a bs2) by (by rewrite Hl2).
  destruct (kfree_spec fuel s2 a bs2 p cap Hr2) as (s3 & E3 & Hr3 & _ & Hl3 & Ha3); [lia|done|].
  destruct (kfree_client fuel s2 a bs2 p cap Hr2) as (_ & s3' & _ & E3' & _ & _ & _ & Hq3); [lia|done|].
  rewrite E3 in E3'. injection E3' as <-.
  exists s3, (free_blocks a p bs2). split; [done|]. split; [done|]. split; [lia|]. split; [|split].
  - apply (Permutation_cons_inv (a := (p, cap))). by rewrite <-Hl3, Hl2.
  - intros q d Hin'. destruct (Hq1 q d Hin') as [Hap Hag].
    assert (Hin1 : (q, d) ∈ live a bs1) by (rewrite Hl1; by right).
    eapply agree_trans; [exact Hag|]. eapply agree_trans; [by apply Hq1'|].
    eapply agree_trans; [by apply Hq2|]. apply Hq3. by rewrite Hl2.
  - intros Hc. rewrite Hc2 by (by eapply alloc_coalesced). destruct Hr as [_ Hb _ _ _].
    by eapply alloc_free_blocks.
Qed.

Lemma held_live held caps r :
  Forall2 (fun r r' : Z * Z => r.1 = r'.1 /\ r.2 <= r'.2) held caps -> r ∈ held ->
  exists c, (r.1, c) ∈ caps /\ r.2 <= c.
Proof.
  induction 1 as [|r1 r2 held caps [H1 H2] _ IH]; [by intros ?%elem_of_nil|].
  intros [->|Hr]%elem_of_cons.
  - exists r2.2. rewrite H1. destruct r2. split; [by left|done].
  - destruct (IH Hr) as (c & Hc & ?). exists c. split; [by right|done].
Qed.

Lemma session_inv_held fuel a top held s bs caps :
  heap_rep s a bs -> a < top -> after a bs = top -> live a bs ≡ₚ caps ->
  Forall2 (fun r r' => r.1 = r'.1 /\ r.2 <= r'.2) held caps -> top - a < 24 * Z.of_nat fuel ->
  bs <> [] /\ (length bs < fuel)%nat /\
  (forall r, r ∈ held -> exists c, (r.1, c) ∈ live a bs /\ r.2 <= c) /\
  (forall r s', r ∈ held -> (forall q d, (q, d) ∈ live a bs -> agree s s' q d) ->
     agree s s' r.1 r.2).
Proof.
  intros Hr Hat Ht Hp Hc Hf. pose proof (length_blocks a bs (hr_blocks _ _ _ Hr)) as Hlen.
  split; [intros ->; cbn in Ht; lia|]. split; [lia|].
  assert (Hheld : forall r, r ∈ held -> exists c, (r.1, c) ∈ live a bs /\ r.2 <= c).
  { intros r Hin. destruct (held_live _ _ _ Hc Hin) as (c & ? & ?). exists c. by rewrite Hp. }
  split; [done|]. intros r s' Hin Hs. destruct (Hheld r Hin) as (c & Hcl & ?).
  apply (agree_sub _ _ r.1 c); [by apply Hs|lia..].
Qed.

Lemma step_alloc_safe fuel a top held s size :
  top - a < 24 * Z.of_nat fuel -> session_inv a top held s -> 0 < size <= 2 ^ 64 - 8 ->
  exists p s', kmalloc fuel a size s = Some (p, s') /\
    session_inv a top (if p =? 0 then held else (p, size) :: held) s' /\
    forall r, r ∈ held -> agree s s' r.1 r.2 /\ (p <> 0 -> apart (p, size) r /\ p mod 8 = 0).
Proof.
  intros Hf (bs & caps & Hr & Hat & Ht & Hp & Hc) Hl.
  destruct (session_inv_held fuel a top held s bs caps) as (Hne & Hlen & Hheld & Hsame); try done.
  destruct (kmalloc_client fuel s a bs size Hr) as (p & s' & E & Hcase); [lia|done|done|].
  exists p, s'. split; [done|].
  destruct Hcase as [(-> & -> & _)|(Hp8 & bs' & cap & _ & Hr' & Hcap & Hl' & Ha' & Hq)].
  { split; [by exists bs, caps|]. intros r _. split; [apply agree_refl|done]. }
  assert (Hin : (p, cap) ∈ live a bs') by (rewrite Hl'; by left).
  pose proof Hr' as [[Ha _] Hb' _ _ _]. pose proof (live_range _ _ _ _ Hb' Hin). split.
  - rewrite (proj2 (Z.eqb_neq p 0)) by lia.
    exists bs', ((p, cap) :: caps). rewrite Hl', Hp, Ha'. do 4 (split; [done|]). by constructor.
  - intros r Hin'. split; [apply Hsame; [done|]; apply Hq|]. intros _. split; [|done].
    destruct (Hheld r Hin') as (c & Hcl & ?). destruct (Hq _ _ Hcl) as [Hap _].
    unfold apart in *. cbn [fst snd] in *. lia.
Qed.

Lemma step_free_safe fuel a top held s q c0 :
  top - a < 24 * Z.of_nat fuel -> session_inv a top held s -> (q, c0) ∈ held ->
  exists s', kfree fuel a q s = Some s' /\
    (forall c held', held ≡ₚ (q, c) :: held' -> session_inv a top held' s') /\
    forall r, r ∈ held -> agree s s' r.1 r.2.
Proof.
  intros Hf (bs & caps & Hr & Hat & Ht & Hp & Hc) Hin.
  destruct (session_inv_held fuel a top held s bs caps) as (Hne & Hlen & Hheld & Hsame); try done.
  destruct (Hheld _ Hin) as (c & Hcl & _). cbn [fst] in Hcl.
  destruct (kfree_client fuel s a bs q c Hr) as (_ & s' & bs' & E & Hr' & Hl' & Ha' & Hq); [lia|done|].
  exists s'. split; [done|]. split; [|intros r Hin'; by apply Hsame].
  intros c1 held' Hperm.
  destruct (Permutation_Forall2 Hperm Hc) as (caps2 & Hp2 & Hc2).
  inversion Hc2 as [|? [q2 c2] ? caps' [Hq1 Hc1] Hc']; subst. cbn [fst snd] in *. subst q2.
  assert (c2 = c) as ->.
  { apply (live_inj a bs q); [apply Hr| |done]. rewrite Hp, Hp2. by left. }
  exists bs', caps'. do 3 (split; [done|]). split; [|done].
  apply (Permutation_cons_inv (a := (q, c))). by rewrite <-Hl', Hp, Hp2.
Qed.

Lemma heap_step_inv fuel a top held s op p s' held' :
  top - a < 24 * Z.of_nat fuel -> session_inv a top held s -> heap_legal held op ->
  heap_step fuel a s op = Some (p, s') -> held_after held op p held' ->
  session_inv a top held' s'.
Proof.
  intros Hf Hi Hl. destruct op as [size|q|x v]; cbn [heap_step heap_legal held_after] in *.
  - destruct (step_alloc_safe fuel a top held s size Hf Hi Hl) as (? & ? & -> & Hi' & _).
    by intros [= <- <-] ->.
  - destruct Hl as [c0 Hin].
    destruct (step_free_safe fuel a top held s q c0 Hf Hi Hin) as (? & -> & Hi' & _).
    intros [= <- <-] [c Hperm]. by eapply Hi'.
  - intros [= <- <-] ->. destruct Hl as (q & c & Hin & Hx).
    pose proof Hi as (bs & caps & Hr & Hat & Ht & Hp & Hc).
    destruct (session_inv_held fuel a top held s bs caps) as (Hne & Hlen & Hheld & _); try done.
    destruct (Hheld _ Hin) as (c' & Hcl & ?). cbn [fst snd] in *.
    exists bs, caps. split; [|done]. apply (write_live_rep s a bs q c' x v Hr); [done|lia].
Qed.

Lemma session_preserves fuel a top held s held1 s1 :
  top - a < 24 * Z.of_nat fuel -> session_inv a top held s ->
  session fuel a held s held1 s1 -> session_inv a top held1 s1.
Proof. intros Hf Hi. induction 1; [done|]. by eapply heap_step_inv. Qed.

(** C7 In every state that a client session reaches from a well-formed heap, the
    heap is still well-formed, tiling the same region, and the next legal
    operation terminates: an allocation that succeeds is 8-aligned and apart
    from everything the client holds, and neither allocation nor release
    changes the contents of what the client holds. *)
Theorem heap_session_safe fuel a top held s held1 s1 op :
  top - a < 24 * Z.of_nat fuel -> session_inv a top held s ->
  session fuel a held s held1 s1 -> heap_legal held1 op ->
  session_inv a top held1 s1 /\
  exists p s2, heap_step fuel a s1 op = Some (p, s2) /\
    match op with
    | HAlloc size => forall r, r ∈ held1 ->
        agree s1 s2 r.1 r.2 /\ (p <> 0 -> apart (p, size) r /\ p mod 8 = 0)
    | HFree _ => forall r, r ∈ held1 -> agree s1 s2 r.1 r.2
    | HWrite x v => s2 = vst8 s1 x v
    end.
Proof.
  intros Hf Hi Hs Hl. assert (Hi1 : session_inv a top held1 s1) by (by eapply session_preserves).
  split; [done|]. destruct op as [size|q|x v]; cbn [heap_step heap_legal] in *.
  - destruct (step_alloc_safe fuel a top held1 s1 size Hf Hi1 Hl) as (p & s' & E & _ & H'). eauto.
  - destruct Hl as [c0 Hin].
    destruct (step_free_safe fuel a top held1 s1 q c0 Hf Hi1 Hin) as (s' & -> & _ & H').
    by exists 0, s'.
  - by exists 0, (vst8 s1 x v).
Qed.
End Rep.

(** ** A concrete heap: 400 bytes at 0x1000 in flat memory *)

Definition demo_heap (sz : Z) : mem := set_free 0x1000 1 (set_next 0x1000 0 (set_size 0x1000 sz ∅)).

Lemma demo_heap_rep sz : 0 <= sz < 2 ^ 32 -> sz mod 8 = 0 -> heap_rep (demo_heap sz) 0x1000 [Block sz true].
Proof.
  intros Hs Hm. split; try done.
  - constructor; [split; cbn; lia|constructor].
  - cbn. lia.
  - split; [|done]. unfold header, b_size, b_next, b_free, demo_heap, set_size, set_next, set_free.
    cbn [bsize bfree first]. repeat split.
    + rewrite ld64_st32_ne, ld64_st64_ne, ld64_st64_eq, u64_id by (auto with kernel || lia). done.
Qed.

(** The pass that [kfree] makes may leave free neighbours: with three blocks
    around a used one, freeing the middle one joins only two of them, although no
    two neighbours were free before. *)
Theorem kfree_leaves_free_neighbours :
  let a := 0x1000 in
  exists (s : mem) bs p s', heap_rep s a bs /\ coalesced bs /\ (p, 32) ∈ live a bs /\
    kfree 10 a p s = Some s' /\ exists bs', heap_rep s' a bs' /\ ~ coalesced bs'.
Proof.
  intros a.
  set (bs := [Block 32 true; Block 32 false; Block 64 true]).
  set (s := set_free 0x1070 1 (set_next 0x1070 0 (set_size 0x1070 64
           (set_free 0x1038 0 (set_next 0x1038 0x1070 (set_size 0x1038 32
           (set_free 0x1000 1 (set_next 0x1000 0x1038 (set_size 0x1000 32 (∅ : mem)))))))))).
  assert (Hr : heap_rep s a bs).
  { split; try done.
    - repeat (constructor; [by split|]). constructor. }
  assert (Hl : (0x1050, 32) ∈ live a bs) by (cbn; by left).
  destruct (kfree_spec 10 s a bs 0x1050 32 Hr) as (s' & E & Hr' & _); [cbn; lia|done|].
  exists s, bs, 0x1050, s'. split; [exact Hr|]. split; [exact (conj eq_refl (conj eq_refl I))|].
  split; [exact Hl|]. split; [exact E|].
  exists (free_blocks a 0x1050 bs). split; [exact Hr'|]. intros [H _]. discriminate H.
Qed.

Lemma kmalloc_refines_witness : exists s',
  kmalloc 5 0x1000 100 (demo_heap 400) = Some (0x1018, s') /\
  heap_rep s' 0x1000 [Block 104 false; Block 272 true].
Proof.
  destruct (kmalloc_refines 5 (demo_heap 400) 0x1000 [Block 400 true] 100) as (s' & E & R & _).
  - by apply demo_heap_rep.
  - cbn; lia.
  - discriminate.
  - lia.
  - exists s'. split; [exact E|exact R].
Defined.

Lemma demo_session_inv : session_inv 0x1000 0x11A8 [] (demo_heap 400).
Proof. exists [Block 400 true], []. split; [by apply demo_heap_rep|]. repeat split; constructor. Qed.

Lemma heap_session_safe_witness : exists p s2,
  heap_step 50 0x1000 (demo_heap 400) (HAlloc 24) = Some (p, s2).
Proof.
  destruct (heap_session_safe 50 0x1000 0x11A8 [] (demo_heap 400) [] (demo_heap 400) (HAlloc 24))
    as (_ & p & s2 & E & _).
  - lia.
  - exact demo_session_inv.
  - apply session_nil.
  - cbn; lia.
  - exists p, s2. exact E.
Defined.

(** Two uses within one another and a third that finds no room. *)
Lemma kmalloc_kfree_roundtrip_witness : exists s',
  nested 20 0x1000 [(100, [(0, 7); (99, 8)]); (40, [(5, 1)]); (1000, [(0, 1)])] (demo_heap 400) = Some s' /\
  heap_rep s' 0x1000 [Block 400 true].
Proof.
  destruct (kmalloc_kfree_roundtrip 20 [(100, [(0, 7); (99, 8)]); (40, [(5, 1)]); (1000, [(0, 1)])]
    (demo_heap 400) 0x1000 [Block 400 true]) as (s' & bs' & E & R & _ & _ & _ & Hc).
  - by apply demo_heap_rep.
  - cbn; lia.
  - cbn; lia.
  - unfold use_ok. repeat (apply List.Forall_cons || apply List.Forall_nil || split); cbn [fst snd]; lia.
  - exists s'. split; [exact E|]. rewrite <-(Hc I). exact R.
Defined.

Lemma kmalloc_wraps_witness : exists s',
  kmalloc 5 0x1000 (2 ^ 64 - 1) (demo_heap 400) = Some (0x1018, s').
Proof.
  destruct (kmalloc_wraps 5 (demo_heap 400) 0x1000 400 [] (2 ^ 64 - 1)) as (s' & E & _).
  - by apply demo_heap_rep.
  - lia.
  - lia.
  - lia.
  - exists s'. exact E.
Defined.
