(* ===== verification/HeapInit.v ===== *)
(** [heap_init] of [src/kernel/memory/heap.c], and the memory the heap lives in: a
    window of virtual pages backed by distinct frames, as an instance of
    [AddrSpace]. With it every theorem of Heap.v holds for the heap that
    [heap_init] builds from frames of the physical allocator and page tables. *)

From S2P Require Import Prelude Mem CString Pmm Vmm Heap.

Definition heap_virt : Z := 0xFFFFFFFF81000000.

(** The mapping loop from page [i] on, [n] pages left; the flag says whether it
    ran to the end. *)
Fixpoint heap_map (n : nat) (i hhdm : Z) (s : vmm) : bool * vmm :=
  match n with
  | O => (true, s)
  | S n =>
      let '(phys, pm) := pmm_alloc (v_pmm s) (v_mem s) in
      let s := set_pmm s pm in
      if negb (truthy phys) then (false, s)
      else heap_map n (i + 1) hhdm (vmm_map_page hhdm (u64 (heap_virt + i * 0x1000)) phys 0x23 s)
  end.

(** ** Virtual memory: a window of pages

    Ghost components besides the machine state: the page tables [vs_own], the free
    frames, and the window [vs_base, vs_base + 4096 * length vs_frames) with the
    frame behind each of its pages. *)
Record vspace := Vspace {
  vs_hhdm : Z;
  vs_vmm : vmm;
  vs_own : gmap Z (Z * Z);
  vs_free : list Z;
  vs_base : Z;
  vs_frames : list Z;
}.

Definition vs_with (s : vspace) (v : vmm) : vspace :=
  Vspace (vs_hhdm s) v (vs_own s) (vs_free s) (vs_base s) (vs_frames s).

(** Where the access to a virtual address goes. *)
Definition vs_pa (s : vspace) (a : Z) : Z := vs_hhdm s + vmm_virt_to_phys (vs_hhdm s) a (vs_vmm s).

(** A frame that is neither a page table nor free. *)
Definition data_frame (hhdm : Z) (own : gmap Z (Z * Z)) (free : list Z) (f : Z) : Prop :=
  frame_ok hhdm f /\ f < 2 ^ 52 /\ own !! f = None /\ f ∉ free.

Record window_ok (s : vspace) : Prop := {
  wo_inv : vmm_inv (vs_hhdm s) (vs_vmm s) (vs_own s) (vs_free s);
  wo_base : 0 <= vs_base s /\ vs_base s mod 4096 = 0;
  wo_nodup : NoDup (vs_frames s);
  wo_data : Forall (data_frame (vs_hhdm s) (vs_own s) (vs_free s)) (vs_frames s);
  wo_map (i : nat) f off : vs_frames s !! i = Some f -> 0 <= off < 4096 ->
    vmm_virt_to_phys (vs_hhdm s) (vs_base s + 4096 * Z.of_nat i + off) (vs_vmm s) = f + off;
}.

Definition in_window (s : vspace) (a : Z) : Prop :=
  vs_base s <= a < vs_base s + 4096 * Z.of_nat (length (vs_frames s)).

#[export] Instance vspace_addr_space : AddrSpace vspace := {|
  vld8 := fun s a => vld8 (v_mem (vs_vmm s)) (vs_pa s a);
  vst8 := fun s a v => vs_with s (set_mem (vs_vmm s) (vst8 (v_mem (vs_vmm s)) (vs_pa s a) v));
  vok := fun s a => window_ok s /\ in_window s a;
|}.

(** An address of the window: its page, its frame, its place in memory. *)
Lemma window_addr s a :
  window_ok s -> in_window s a -> exists i f off,
    vs_frames s !! i = Some f /\ 0 <= off < 4096 /\ a = vs_base s + 4096 * Z.of_nat i + off /\
    vs_pa s a = vs_hhdm s + f + off.
Proof.
  intros Hw [Hlo Hhi]. set (d := a - vs_base s).
  assert (Hd : 0 <= d / 4096 < Z.of_nat (length (vs_frames s))) by (unfold d; mlia).
  destruct (lookup_lt_is_Some_2 (vs_frames s) (Z.to_nat (d / 4096))) as [f Hf]; [lia|].
  exists (Z.to_nat (d / 4096)), f, (d mod 4096). split; [done|]. split; [mlia|].
  assert (Ha : a = vs_base s + 4096 * Z.of_nat (Z.to_nat (d / 4096)) + d mod 4096) by (unfold d; mlia).
  split; [done|]. unfold vs_pa. rewrite Ha at 1. rewrite (wo_map s Hw _ f) by (done || mlia). lia.
Qed.

Lemma window_frame s i f :
  window_ok s -> vs_frames s !! i = Some f -> data_frame (vs_hhdm s) (vs_own s) (vs_free s) f.
Proof. intros Hw Hf. pose proof (wo_data s Hw) as Hd. rewrite Forall_forall in Hd. apply Hd. by eapply list_elem_of_lookup_2. Qed.

(** Distinct addresses of the window are distinct places. *)
Lemma vs_pa_inj s a b :
  window_ok s -> in_window s a -> in_window s b -> vs_pa s a = vs_pa s b -> a = b.
Proof.
  intros Hw Ha Hb E.
  destruct (window_addr s a Hw Ha) as (i & f & o & Hf & Ho & -> & Ea).
  destruct (window_addr s b Hw Hb) as (j & g & o' & Hg & Ho' & -> & Eb). rewrite Ea, Eb in E.
  destruct (window_frame s i f Hw Hf) as [(_ & Hfa & _) _].
  destruct (window_frame s j g Hw Hg) as [(_ & Hga & _) _].
  assert (f = g /\ o = o') as [-> ->] by mlia.
  by rewrite (NoDup_lookup _ i j g (wo_nodup s Hw) Hf Hg).
Qed.

(** A store to a data frame touches neither a table entry nor a free frame. *)
Lemma data_store_entry hhdm m own rt free f off v pa y i :
  pt_wf hhdm rt m own -> data_frame hhdm own free f -> 0 <= off < 4096 ->
  own !! pa = Some y -> 0 <= i < 512 ->
  entry hhdm (vst8 m (hhdm + f + off) v) pa i = entry hhdm m pa i.
Proof.
  intros Hwf ((Hf0 & Hfa & Hfb) & _ & Hfo & _) Hoff Ho Hi. destruct y as [l x].
  destruct (wf_tbl _ _ _ _ Hwf pa l x Ho) as [Ht _]. pose proof (wf_hhdm _ _ _ _ Hwf).
  unfold entry. apply ld64_agree. rewrite slot_eq by done. intros z Hz.
  destruct Ht as [(Hp0 & Hpa & Hpb) _].
  assert (Hne : f <> pa) by congruence.
  apply mem_vst8_ne. destruct (frames_apart f pa); done || lia.
Qed.

Lemma data_store_inv hhdm s own free f off v :
  vmm_inv hhdm s own free -> data_frame hhdm own free f -> 0 <= off < 4096 ->
  vmm_inv hhdm (set_mem s (vst8 (v_mem s) (hhdm + f + off) v)) own free.
Proof.
  intros [Hpt Hpm Hh Hfr] Hf Hoff. split; try done.
  - eapply pt_wf_same; [exact Hpt|]. intros pa y i Ho Hi. by eapply data_store_entry.
  - eapply pmm_rep_agree; [exact Hpm|]. intros p Hp z Hz. cbn in Hz.
    pose proof (rep_frames _ _ _ Hpm) as Hff. rewrite Forall_forall in Hff.
    destruct (Hff p Hp) as (? & ? & _). destruct Hf as ((? & ? & _) & _ & _ & Hnin).
    assert (Hne : f <> p) by (by intros ->).
    apply mem_vst8_ne. destruct (frames_apart f p); done || lia.
Qed.

Lemma data_store_translate hhdm s own free f off v va :
  vmm_inv hhdm s own free -> data_frame hhdm own free f -> 0 <= off < 4096 ->
  vmm_virt_to_phys hhdm va (set_mem s (vst8 (v_mem s) (hhdm + f + off) v)) = vmm_virt_to_phys hhdm va s.
Proof.
  intros Hi Hf Hoff. rewrite !virt_to_phys_resolve. f_equal.
  eapply (walk_same hhdm (root s) _ _ own (inv_pt _ _ _ _ Hi)).
  - intros pa y i Ho Hin. eapply data_store_entry; [apply Hi|done..].
  - apply (root_own _ _ _ _ va Hi).
Qed.

(** A store through the window keeps it. *)
Lemma window_store s a v :
  window_ok s -> in_window s a -> window_ok (vst8 s a v) /\
  forall va, vmm_virt_to_phys (vs_hhdm s) va (vs_vmm (vst8 s a v)) = vmm_virt_to_phys (vs_hhdm s) va (vs_vmm s).
Proof.
  intros Hw Ha. destruct (window_addr s a Hw Ha) as (i & f & off & Hf & Hoff & _ & Epa).
  pose proof (window_frame s i f Hw Hf) as Hdf. cbn. rewrite Epa.
  pose proof (wo_inv s Hw) as Hi.
  assert (Htr : forall va, vmm_virt_to_phys (vs_hhdm s) va
    (set_mem (vs_vmm s) (vst8 (v_mem (vs_vmm s)) (vs_hhdm s + f + off) v)) =
    vmm_virt_to_phys (vs_hhdm s) va (vs_vmm s)).
  { intros va. by eapply data_store_translate. }
  split; [|exact Htr]. pose proof Hw as [_ Hb Hnd Hd Hm]. split; try done.
  - by apply data_store_inv.
  - intros k g o Hg Ho. cbn. etransitivity; [apply Htr|]. by apply Hm.
Qed.

#[export] Instance vspace_addr_space_laws : AddrSpaceLaws vspace.
Proof.
  assert (Hpa : forall s a b v, window_ok s -> in_window s a -> vs_pa (vst8 s a v) b = vs_pa s b).
  { intros s a b v Hw Ha. unfold vs_pa. change (vs_hhdm (vst8 s a v)) with (vs_hhdm s). f_equal.
    by apply window_store. }
  split.
  - intros s a. apply (vld8_bound (v_mem (vs_vmm s))).
  - intros s a v [Hw Ha]. pose proof (Hpa s a a v Hw Ha) as E. cbn [vld8 vspace_addr_space]. rewrite E.
    apply mem_vst8_eq.
  - intros s a b v [Hw Ha] [_ Hb] Hne. pose proof (Hpa s a b v Hw Ha) as E.
    cbn [vld8 vspace_addr_space]. rewrite E.
    apply mem_vst8_ne.
    intros E2. by apply Hne, (vs_pa_inj s).
  - intros s a b v [Hw Ha]. destruct (window_store s a v Hw Ha) as [Hw' _].
    cbn [vok vspace_addr_space]. split; intros [_ Hb]; (split; [done|exact Hb]).
Qed.

(** ** [heap_init] *)

(** The virtual memory of the machine state [s], with no window. *)
Definition vs_bare (hhdm : Z) (s : vmm) : vspace := Vspace hhdm s ∅ [] 0 [].

(** Returns the new value of [heap_head] and the new machine state. [None]: the
    heap's first page is not mapped and writing the header faults. *)
Definition heap_init (hhdm_offset heap_head : Z) (s : vmm) : option (Z * vmm) :=
  let '(done, s) := heap_map (Z.to_nat HEAP_PAGES) 0 hhdm_offset s in
  if negb done then Some (heap_head, s)
  else if negb (truthy (vmm_virt_to_phys hhdm_offset heap_virt s)) then None
  else
    let vs := vs_bare hhdm_offset s in
    let vs := set_size heap_virt (HEAP_PAGES * 0x1000 - sizeof_block) vs in
    let vs := set_next heap_virt 0 vs in
    let vs := set_free heap_virt 1 vs in
    Some (heap_virt, vs_vmm vs).

(** The ghost part of a [vspace] has no influence on stores. *)
Lemma st_le_ghost n s b a v :
  vs_hhdm b = vs_hhdm s -> vs_with s (vs_vmm b) = s ->
  vs_hhdm (st_le n b a v) = vs_hhdm (st_le n s a v) /\ vs_with (st_le n s a v) (vs_vmm (st_le n b a v)) = st_le n s a v.
Proof.
  revert s b a v. induction n as [|n IH]; intros s b a v Hh Hv; [done|].
  change (st_le (S n) b a v) with (st_le n (vst8 b a v) (a + 1) (v / 2 ^ 8)).
  change (st_le (S n) s a v) with (st_le n (vst8 s a v) (a + 1) (v / 2 ^ 8)).
  apply IH; [done|].
  pose proof (f_equal vs_vmm Hv : vs_vmm b = vs_vmm s) as E.
  cbn. unfold vs_with, vs_pa. cbn. by rewrite Hh, E.
Qed.

(** *** The mapping loop *)

(** The state after some iterations: [frames] are mapped, [free] are left, and
    nothing stands in the way of the next one. *)
Definition heap_mapped (hhdm : Z) (s : vmm) (own : gmap Z (Z * Z)) (free frames : list Z) : Prop :=
  window_ok (Vspace hhdm s own free heap_virt frames) /\
  blocked hhdm (v_mem s) (root s) heap_virt = false.

Lemma heap_page_prefix i : 0 <= i < 256 ->
  u64 (heap_virt + i * 0x1000) = heap_virt + i * 4096 /\
  prefix 1 (heap_virt + i * 4096) = prefix 1 heap_virt.
Proof. intros Hi. unfold heap_virt, u64, prefix. split; mlia. Qed.

Lemma alloc_inv hhdm s own p free :
  vmm_inv hhdm s own (p :: free) ->
  (pmm_alloc (v_pmm s) (v_mem s)).1 = p /\
  vmm_inv hhdm (set_pmm s (pmm_alloc (v_pmm s) (v_mem s)).2) own free /\
  data_frame hhdm own free p.
Proof.
  intros [Hpt Hpm Hh Hfr]. destruct (pmm_alloc_cons _ _ _ _ Hpm) as (E & Hpm' & Eh).
  pose proof (rep_frames _ _ _ Hpm) as Hf. pose proof (rep_nodup _ _ _ Hpm) as Hn.
  apply Forall_cons in Hf as [Hf _]. apply NoDup_cons in Hn as [Hn _]. rewrite Hh in Hf.
  destruct (Hfr p) as [Ho Hb]; [by left|].
  split; [done|]. split; [|done]. split; [done..| |].
  - by rewrite <-Hh, <-Eh.
  - intros q Hq. apply Hfr. by right.
Qed.

Lemma blocked_prefix hhdm m rt va va' :
  prefix 1 va = prefix 1 va' -> blocked hhdm m rt va = blocked hhdm m rt va'.
Proof.
  intros Hp.
  assert (Hi : idx 4 va = idx 4 va' /\ idx 3 va = idx 3 va' /\ idx 2 va = idx 2 va').
  { unfold prefix, idx in *. cbn [Z.sub Z.mul Z.add] in *. mlia. }
  destruct Hi as (E4 & E3 & E2). unfold blocked. by rewrite E4, E3, E2.
Qed.

(** One iteration maps page [length frames] to the frame it takes. *)
Lemma heap_map_step hhdm s own p free frames :
  heap_mapped hhdm s own (p :: free) frames -> (length frames < 256)%nat -> (3 <= length free)%nat ->
  let s1 := set_pmm s (pmm_alloc (v_pmm s) (v_mem s)).2 in
  let va := heap_virt + Z.of_nat (length frames) * 4096 in
  exists own' free', heap_mapped hhdm (vmm_map_page hhdm va p 0x23 s1) own' free' (frames ++ [p]) /\
    (length free <= length free' + 3)%nat /\ (forall q, q ∈ free' -> q ∈ free).
Proof.
  intros [Hw Hbl] Hlen Hfree s1 va. pose proof Hw as [Hinv Hbase Hnd Hd Hm]. cbn in *.
  destruct (alloc_inv _ _ _ _ _ Hinv) as (_ & Hinv1 & Hp). fold s1 in Hinv1.
  destruct (heap_page_prefix (Z.of_nat (length frames))) as [_ Hpre]; [lia|].
  pose proof Hp as ((Hp0 & Hpa & Hpb) & Hp52 & Hpo & Hpf).
  destruct (map_page_mapped hhdm va p 0x23 s1 own free) as
    (own' & free' & pt & Hinv' & Hroot & Hpath & Hlf & Hsub & Hnew & Hres & Hoth); try (done || lia).
  { by rewrite (blocked_prefix _ _ _ va heap_virt). }
  exists own', free'. split; [|done].
  assert (Hkeep : forall f, data_frame hhdm own free f -> data_frame hhdm own' free' f).
  { intros f (? & ? & Ho & Hn). split; [done|]. split; [done|]. split; [|by intros ?%Hsub].
    destruct (own' !! f) as [y|] eqn:E; [|done]. destruct (Hnew f y E); [congruence|done]. }
  split; [|by eapply path_unblocked].
  split; cbn; [done|done| | |].
  - apply NoDup_app. split; [done|]. split; [|apply NoDup_singleton].
    intros f Hf ->%list_elem_of_singleton. rewrite Forall_forall in Hd. destruct (Hd _ Hf) as (_ & _ & _ & Hn).
    by apply Hn; left.
  - apply Forall_app. split; [|constructor; [by apply Hkeep|done]].
    eapply Forall_impl; [exact Hd|]. intros f (? & ? & ? & Hn). apply Hkeep.
    do 3 (split; [done|]). intros ?. by apply Hn; right.
  - intros i f off Hi Ho. rewrite virt_to_phys_resolve.
    apply lookup_app_Some in Hi as [Hi|[Hge Hi]].
    + rewrite <-(Hm i f off Hi Ho), virt_to_phys_resolve. f_equal. apply Hoth.
      apply lookup_lt_Some in Hi. unfold va, heap_virt, prefix. mlia.
    + apply list_lookup_singleton_Some in Hi as [Hi <-].
      assert (Ei : i = length frames) by lia. subst i.
      replace (heap_virt + 4096 * Z.of_nat (length frames) + off) with (va + off) by (unfold va; lia).
      rewrite (walk_page 4 _ _ _ (va + off) va); [|lia|unfold va, heap_virt, prefix; mlia].
      assert (Hva : va mod 4096 = 0) by (unfold va, heap_virt; mlia).
      rewrite resolve_page; [rewrite Hres; lia|done|done|rewrite Hres; lia].
Qed.

Lemma heap_map_spec hhdm n s own free frames :
  heap_mapped hhdm s own free frames -> (length frames + n = 256)%nat -> (4 * n <= length free)%nat ->
  exists s' own' free' new, heap_map n (Z.of_nat (length frames)) hhdm s = (true, s') /\
    length new = n /\ heap_mapped hhdm s' own' free' (frames ++ new) /\
    (length free <= length free' + 4 * n)%nat /\ (forall q, q ∈ free' -> q ∈ free).
Proof.
  revert s own free frames. induction n as [|n IH]; intros s own free frames Hm Hlen Hf; cbn [heap_map].
  - exists s, own, free, []. rewrite app_nil_r. do 3 (split; [done|]). split; [lia|done].
  - destruct free as [|p free]; [cbn in Hf; lia|]. cbn [length] in Hf.
    destruct (alloc_inv _ _ _ _ _ (wo_inv _ (proj1 Hm))) as (Ep & _ & (Hp & _) & _). cbn in Ep.
    destruct (heap_map_step hhdm s own p free frames Hm) as (own1 & free1 & Hm1 & Hl1 & Hq1); [lia..|].
    destruct (pmm_alloc (v_pmm s) (v_mem s)) as [phys pm] eqn:E. cbn in Ep, Hm1. subst phys.
    rewrite (proj2 (truthy_true p)) by lia. cbn [negb].
    rewrite (proj1 (heap_page_prefix (Z.of_nat (length frames)) ltac:(lia))).
    destruct (IH _ own1 free1 (frames ++ [p]) Hm1) as (s' & own' & free' & new & E' & Hn & Hm' & Hl' & Hq').
    { rewrite length_app. cbn. lia. } { lia. }
    rewrite length_app in E'. cbn [length] in E'.
    replace (Z.of_nat (length frames + 1)) with (Z.of_nat (length frames) + 1) in E' by lia.
    exists s', own', free', (p :: new). split; [done|]. split; [by cbn; rewrite Hn|].
    rewrite <-app_assoc in Hm'. split; [done|]. cbn [length]. split; [lia|].
    intros q Hq. right. auto.
Qed.

(** The region after the mapping loop, before the header is written. *)
Lemma heap_mapped_vok hhdm s own free frames :
  heap_mapped hhdm s own free frames -> length frames = 256%nat ->
  vok_range (Vspace hhdm s own free heap_virt frames) heap_virt 0x100000.
Proof. intros [Hw _] Hl x Hx. split; [done|]. unfold in_window. cbn. rewrite Hl. lia. Qed.

(** The three header stores turn an accessible region into a heap of one block. *)
Lemma one_block_rep {S} `{AddrSpaceLaws S} (s : S) a n :
  0 < a -> a mod 8 = 0 -> 24 <= n -> n mod 8 = 0 -> a + n + 40 < 2 ^ 64 -> vok_range s a n ->
  heap_rep (set_free a 1 (set_next a 0 (set_size a (n - 24) s))) a [Block (n - 24) true].
Proof.
  intros Ha Ham Hn Hnm Ht Hv. unfold set_free, set_next, set_size. split; cbn [after bsize].
  - done.
  - repeat constructor; cbn; mlia.
  - lia.
  - replace (a + 24 + (n - 24) - a) with n by lia. vok.
  - split; [|done]. unfold header, b_size, b_next, b_free. cbn [first bsize bfree].
    ld_st. split; [apply u64_id; lia|]. by split.
Qed.

(** [heap_init] after a complete mapping loop. *)
Lemma heap_init_stores hhdm heap_head s s1 own free frames :
  heap_map 256 0 hhdm s = (true, s1) -> heap_mapped hhdm s1 own free frames ->
  length frames = 256%nat ->
  let vs := Vspace hhdm s1 own free heap_virt frames in
  let vs' := set_free heap_virt 1 (set_next heap_virt 0 (set_size heap_virt (0x100000 - 24) vs)) in
  exists s', heap_init hhdm heap_head s = Some (heap_virt, s') /\
    vs' = Vspace hhdm s' own free heap_virt frames.
Proof.
  intros E [Hw _] Hl vs vs'. unfold heap_init. change (Z.to_nat HEAP_PAGES) with 256%nat. rewrite E.
  cbn [negb].
  destruct (lookup_lt_is_Some_2 frames 0) as [f Hf]; [lia|].
  pose proof (wo_map _ Hw 0%nat f 0 Hf ltac:(lia)) as Htr. cbn [vs_hhdm vs_vmm vs_base] in Htr.
  replace (heap_virt + 4096 * Z.of_nat 0 + 0) with heap_virt in Htr by lia.
  destruct (window_frame _ _ _ Hw Hf) as [[Hp _] _].
  rewrite Htr, (proj2 (truthy_true (f + 0))) by lia. cbn [negb].
  eexists. split; [reflexivity|].
  set (b := vs_bare hhdm s1).
  destruct (st_le_ghost 8 vs b heap_virt (0x100000 - 24)) as [H1 V1]; [done|done|].
  destruct (st_le_ghost 8 _ _ (heap_virt + 8) 0 H1 V1) as [H2 V2].
  destruct (st_le_ghost 4 _ _ (heap_virt + 16) 1 H2 V2) as [_ V3].
  exact (eq_sym V3).
Qed.

(** The window over [frames] holds one free block. *)
Definition heap_ready (hhdm : Z) (s : vmm) (own : gmap Z (Z * Z)) (free frames : list Z) : Prop :=
  let vs := Vspace hhdm s own free heap_virt frames in
  length frames = 256%nat /\ window_ok vs /\ heap_rep vs heap_virt [Block (0x100000 - 24) true].

Lemma heap_init_sound hhdm heap_head s own free :
  vmm_inv hhdm s own free -> blocked hhdm (v_mem s) (root s) heap_virt = false ->
  (1024 <= length free)%nat ->
  exists s' own' free' frames, heap_init hhdm heap_head s = Some (heap_virt, s') /\
    heap_ready hhdm s' own' free' frames /\
    (length free <= length free' + 1024)%nat /\ (forall q, q ∈ free' -> q ∈ free).
Proof.
  intros Hinv Hbl Hf.
  assert (Hm0 : heap_mapped hhdm s own free []).
  { split; [|done]. split; cbn; try done. constructor. }
  destruct (heap_map_spec hhdm 256 s own free [] Hm0 eq_refl) as (s1 & own1 & free1 & frames & E & Hl & Hm & Hk & Hq);
    [lia|]. cbn [app] in Hm. change (Z.of_nat (length [])) with 0 in E.
  pose proof (heap_mapped_vok _ _ _ _ _ Hm Hl) as Hv.
  set (vs := Vspace hhdm s1 own1 free1 heap_virt frames) in *.
  pose proof (one_block_rep vs heap_virt 0x100000 ltac:(done) eq_refl ltac:(lia) eq_refl ltac:(done) Hv) as Hr.
  destruct (heap_init_stores hhdm heap_head s s1 own1 free1 frames E Hm Hl) as (v & Ei & Ev).
  fold vs in Ev. cbv zeta in Ev. rewrite Ev in Hr.
  exists v, own1, free1, frames. split; [done|]. split; [|split; [lia|done]]. split; [done|]. split; [|done].
  destruct Hr as [_ _ _ Hvr _]. by apply (Hvr heap_virt).
Qed.

(** C16 With 1024 free frames and no large page in the way, [heap_init] succeeds:
    [heap_head] is the heap's base, the 1 MiB behind it are 256 distinct frames that
    are neither page tables nor free, and they hold a single free block. From
    there the theorems on [kmalloc] and [kfree] apply to this very memory. *)
Theorem heap_init_builds hhdm heap_head s own free :
  vmm_inv hhdm s own free -> blocked hhdm (v_mem s) (root s) heap_virt = false ->
  (1024 <= length free)%nat ->
  exists s' own' free' frames, heap_init hhdm heap_head s = Some (heap_virt, s') /\
    length frames = 256%nat /\
    let vs := Vspace hhdm s' own' free' heap_virt frames in
    window_ok vs /\ heap_rep vs heap_virt [Block (0x100000 - 24) true].
Proof.
  intros Hinv Hbl Hf.
  destruct (heap_init_sound hhdm heap_head s own free Hinv Hbl Hf) as
    (s' & own' & free' & frames & E & (Hl & Hw & Hr) & _).
  by exists s', own', free', frames.
Qed.

(** ** Out of memory *)

Lemma map_page_frames hhdm virt phys flags s own free :
  vmm_inv hhdm s own free ->
  exists own' free', vmm_inv hhdm (vmm_map_page hhdm virt phys flags s) own' free' /\
    (length free' <= length free)%nat.
Proof.
  intros Hinv.
  destruct (map_page_cases hhdm virt phys flags s own free Hinv) as (s1 & own1 & free1 & T & C).
  assert (Hl : (length free1 <= length free)%nat).
  { apply submseteq_length, NoDup_submseteq; [|apply T].
    apply (rep_nodup _ _ _ (inv_pmm _ _ _ _ (ts_inv _ _ _ _ _ _ _ _ T))). }
  exists own1, free1. split; [|done]. destruct C as [[-> _]|(pt & -> & Hpath)]; [apply T|].
  replace (root s) with (root s1) in Hpath by (unfold root; by rewrite (ts_cr3 _ _ _ _ _ _ _ _ T)).
  apply (map_leaf_spec hhdm virt phys flags s1 own1 free1 pt (ts_inv _ _ _ _ _ _ _ _ T) Hpath).
Qed.

Lemma heap_map_fails hhdm n i s own free :
  vmm_inv hhdm s own free -> (length free < n)%nat ->
  exists s' own' free', heap_map n i hhdm s = (false, s') /\ vmm_inv hhdm s' own' free'.
Proof.
  revert i s own free. induction n as [|n IH]; intros i s own free Hinv Hl; [lia|]. cbn [heap_map].
  destruct free as [|p free].
  - rewrite (pmm_alloc_nil _ _ (inv_pmm _ _ _ _ Hinv)). cbn. exists s, own, [].
    by destruct s.
  - destruct (alloc_inv _ _ _ _ _ Hinv) as (Ep & Hinv1 & (Hp & _) & _). cbn [length] in Hl.
    destruct (pmm_alloc (v_pmm s) (v_mem s)) as [phys pm]. cbn in Ep, Hinv1. subst phys.
    rewrite (proj2 (truthy_true p)) by lia. cbn [negb].
    destruct (map_page_frames hhdm (u64 (heap_virt + i * 0x1000)) p 0x23 _ _ _ Hinv1)
      as (own' & free' & Hinv' & Hl').
    apply (IH _ _ own' free' Hinv'). lia.
Qed.

(** Out of memory: with fewer than 256 free frames [heap_init] returns early,
    [heap_head] keeps its value ([NULL] at boot, so every [kmalloc] then returns
    [NULL]), and allocator and page tables stay well-formed. *)
Theorem heap_init_out_of_memory hhdm heap_head s own free :
  vmm_inv hhdm s own free -> (length free < 256)%nat ->
  exists s' own' free', heap_init hhdm heap_head s = Some (heap_head, s') /\
    vmm_inv hhdm s' own' free'.
Proof.
  intros Hinv Hl.
  destruct (heap_map_fails hhdm 256 0 s own free Hinv Hl) as (s' & own' & free' & E & Hinv').
  exists s', own', free'. split; [|done]. unfold heap_init.
  change (Z.to_nat HEAP_PAGES) with 256%nat. by rewrite E.
Qed.

(** ** A concrete machine: an empty PML4 at frame 1 and 1100 free frames *)

Definition many_frames (n : nat) : option (pmm * mem) :=
  page_loop (S n) demo_hhdm 0x2000 (0x2000 + 0x1000 * Z.of_nat n) (Pmm demo_hhdm 0 0, ∅).
Definition big_pmm : pmm * mem := default (pmm_bss, ∅) (many_frames 1100).
Definition big_vmm : vmm := Vmm big_pmm.2 big_pmm.1 0x1000 [].
Definition big_free : list Z := rev (page_seq 0x2000 1100).

Lemma page_seq_NoDup base n : NoDup (page_seq base n).
Proof.
  revert base. induction n as [|n IH]; intros base; cbn; constructor; [|done].
  rewrite elem_of_page_seq. intros (i & ? & ?). lia.
Qed.

Lemma many_frames_rep n : Z.of_nat n < 2 ^ 20 ->
  exists st m, many_frames n = Some (st, m) /\ pmm_hhdm st = demo_hhdm /\
    pmm_rep st m (rev (page_seq 0x2000 n)).
Proof.
  intros Hn. rewrite <-(app_nil_r (rev _)).
  enough (H : exists st m, many_frames n = Some (st, m) /\ pmm_hhdm st = demo_hhdm /\
    pmm_rep st m (rev (page_seq 0x2000 n) ++ []) /\
    forall a k, off_frames demo_hhdm (page_seq 0x2000 n) a k -> agree ∅ m a k).
  { destruct H as (st & m & ? & ? & ? & _). by exists st, m. }
  apply (page_loop_spec n); try lia; try done.
  - replace (0x2000 + 0x1000 * Z.of_nat n - 0x2000) with (Z.of_nat n * 4096) by lia.
    rewrite Z.div_mul by lia. lia.
  - mlia.
  - split; try done; constructor.
  - apply Forall_forall. intros p (i & Hi & ->)%elem_of_page_seq. unfold frame_ok, demo_hhdm. mlia.
  - rewrite app_nil_r. apply page_seq_NoDup.
Qed.

Lemma big_pmm_rep : pmm_hhdm big_pmm.1 = demo_hhdm /\ pmm_rep big_pmm.1 big_pmm.2 big_free.
Proof.
  unfold big_pmm. destruct (many_frames_rep 1100) as (st & m & E & Hr); [done|].
  rewrite E. exact Hr.
Qed.

Lemma big_pml4_empty i : 0 <= i < 512 -> entry demo_hhdm (v_mem big_vmm) 0x1000 i = 0.
Proof. revert i. below. Qed.

Lemma big_vmm_inv : vmm_inv demo_hhdm big_vmm demo_own big_free.
Proof.
  destruct big_pmm_rep as [Hh Hr]. split; [split|done|done|].
  - done.
  - done.
  - unfold demo_own. intros pa l x [<- [= <- <-]]%lookup_singleton_Some.
    split; [split; [by apply (bool_decide_unpack _); vm_compute|]|]; lia.
  - unfold demo_own. intros pa l x i [<- [= <- <-]]%lookup_singleton_Some _ Hi.
    by rewrite big_pml4_empty.
  - intros p. unfold big_free. rewrite elem_of_rev. intros (i & Hi & ->)%elem_of_page_seq.
    split; [|lia]. unfold demo_own. apply lookup_singleton_ne. lia.
Qed.

Lemma heap_init_builds_witness : exists s' own' free' frames,
  heap_init demo_hhdm 0 big_vmm = Some (heap_virt, s') /\
  heap_rep (Vspace demo_hhdm s' own' free' heap_virt frames) heap_virt [Block (0x100000 - 24) true].
Proof.
  destruct (heap_init_builds demo_hhdm 0 big_vmm demo_own big_free)
    as (s' & own' & free' & frames & E & _ & _ & Hr).
  - exact big_vmm_inv.
  - unfold blocked. change (root big_vmm) with 0x1000. rewrite big_pml4_empty; [done|apply idx_bound].
  - apply Nat.leb_le. by vm_compute.
  - exists s', own', free', frames. by split.
Defined.

Lemma heap_init_out_of_memory_witness :
  exists s', heap_init demo_hhdm 0 demo_vmm = Some (0, s').
Proof.
  destruct (heap_init_out_of_memory demo_hhdm 0 demo_vmm demo_own [0x4000; 0x3000; 0x2000])
    as (s' & _ & _ & E & _); [exact demo_vmm_inv|cbn; lia|].
  by exists s'.
Defined.
