(* ===== verification/Sched.v ===== *)
(** [src/kernel/sched/scheduler.c]: the task table and the round-robin switch. A
    task's saved context is the stack pointer of its interrupt frame; the frame of
    a new task is written into its stack through the direct map. *)

From S2P Require Import Prelude Mem CString Pmm Format.

Definition TASK_NAME_MAX : Z := 32.
Definition MAX_TASKS : Z := 64.

Inductive task_state := TASK_READY | TASK_RUNNING | TASK_BLOCKED | TASK_TERMINATED.

#[export] Instance task_state_eq_dec : EqDecision task_state.
Proof. solve_decision. Defined.

(** [task_t] *)
Record task := Task {
  t_rsp : Z;
  t_kernel_stack_top : Z;
  t_kernel_stack_size : Z;
  t_state : task_state;
  t_name : list Z;
}.

Definition with_rsp (r : Z) (t : task) : task :=
  Task r (t_kernel_stack_top t) (t_kernel_stack_size t) (t_state t) (t_name t).
Definition with_state (st : task_state) (t : task) : task :=
  Task (t_rsp t) (t_kernel_stack_top t) (t_kernel_stack_size t) st (t_name t).
Definition with_name (n : list Z) (t : task) : task :=
  Task (t_rsp t) (t_kernel_stack_top t) (t_kernel_stack_size t) (t_state t) n.
Definition with_stack (top size : Z) (t : task) : task :=
  Task (t_rsp t) top size (t_state t) (t_name t).

(** The statics. *)
Record sched := Sched {
  tasks : list task;
  task_count : Z;
  current_task : Z;
}.

Definition task_bss : task := Task 0 0 0 TASK_READY (repeat 0 32).
Definition sched_bss : sched := Sched (repeat task_bss 64) 0 (-1).

(** [tasks[i]] for an index in range. *)
Definition tget (s : sched) (i : Z) : task := nth (Z.to_nat i) (tasks s) task_bss.
Definition tset (i : Z) (f : task -> task) (s : sched) : sched :=
  Sched (alter f (Z.to_nat i) (tasks s)) (task_count s) (current_task s).
Definition set_count (n : Z) (s : sched) : sched := Sched (tasks s) n (current_task s).
Definition set_current (n : Z) (s : sched) : sched := Sched (tasks s) (task_count s) n.

(** The counting loops that return from inside. *)
Fixpoint search (n : nat) (i : Z) (p : Z -> bool) (r : Z -> Z) : Z :=
  match n with
  | O => -1
  | S n => if p i then r i else search n (i + 1) p r
  end.

Definition task_find_free (s : sched) : Z :=
  search 64 0 (fun i => bool_decide (t_state (tget s i) = TASK_TERMINATED)) id.

Definition task_find_next_ready (s : sched) (from : Z) : Z :=
  search 64 0
    (fun i => let idx := (from + i) mod MAX_TASKS in
              (idx <? task_count s) && bool_decide (t_state (tget s idx) = TASK_READY))
    (fun i => (from + i) mod MAX_TASKS).

(** [for (; name[i] && i < TASK_NAME_MAX - 1; i++) t->name[i] = name[i];
    t->name[i] = 0;] with [n] characters of room left. *)
Fixpoint name_copy (n : nat) (name : list Z) (i : nat) (buf : list Z) : list Z :=
  match n, name with
  | S n, c :: name =>
      if truthy c then name_copy n name (S i) (<[i := c]> buf) else <[i := 0]> buf
  | _, _ => <[i := 0]> buf
  end.

(** Offsets in [task_regs_t], 22 packed 64-bit fields. *)
Definition sizeof_regs : Z := 176.
Definition off_rip : Z := 136.
Definition off_cs : Z := 144.
Definition off_rflags : Z := 152.
Definition off_rsp : Z := 160.
Definition off_ss : Z := 168.

(** Everything [task_create] touches. *)
Record sys := Sys { y_sched : sched; y_pmm : pmm; y_mem : mem }.

Definition init_frame (frame stack_top entry : Z) (m : mem) : mem :=
  let m := st64 m (frame + off_ss) 0x10 in
  let m := st64 m (frame + off_rsp) stack_top in
  let m := st64 m (frame + off_rflags) 0x202 in
  let m := st64 m (frame + off_cs) 0x08 in
  st64 m (frame + off_rip) entry.

Definition task_create (name : list Z) (entry : Z) (y : sys) : Z * sys :=
  let idx := task_find_free (y_sched y) in
  if idx <? 0 then (-1, y)
  else
    let stack_size := 4096 in
    let '(stack_phys, pm) := pmm_alloc (y_pmm y) (y_mem y) in
    if negb (truthy stack_phys) then (-1, Sys (y_sched y) pm (y_mem y))
    else
      let '(m, _) := memset (y_mem y) (u64 (pmm_get_hhdm pm + stack_phys)) 0 stack_size in
      let stack_top := u64 (u64 (pmm_get_hhdm pm + stack_phys) + stack_size) in
      let frame := u64 (stack_top - sizeof_regs) in
      let m := init_frame frame stack_top entry m in
      let s := tset idx (with_rsp frame) (y_sched y) in
      let s := tset idx (with_stack stack_top stack_size) s in
      let s := tset idx (with_state TASK_READY) s in
      let s := tset idx (fun t => with_name (name_copy 31 name 0 (t_name t)) t) s in
      let s := if task_count s <=? idx then set_count (idx + 1) s else s in
      (idx, Sys s pm m).

(** [task_exit] up to its loop [for (;;) scheduler_yield();]. *)
Definition task_exit_mark (s : sched) : sched :=
  tset (current_task s) (with_state TASK_TERMINATED) s.

Definition scheduler_tick (s : sched) (current_rsp : Z) : Z * sched :=
  if current_task s <? 0 then (0, s)
  else
    let s := tset (current_task s) (with_rsp current_rsp) s in
    let next := task_find_next_ready s (current_task s + 1) in
    if (next <? 0) || (next =? current_task s) then
      (0, tset (current_task s) (with_state TASK_RUNNING) s)
    else
      let s := tset (current_task s) (with_state TASK_READY) s in
      let s := set_current next s in
      let s := tset (current_task s) (with_state TASK_RUNNING) s in
      (t_rsp (tget s (current_task s)), s).

Definition init_name : list Z := [105; 110; 105; 116].

(** [tasks[0]]: the boot context becomes the task [init]. *)
Definition init_slot0 (s : sched) : sched :=
  let s := tset 0 (with_rsp 0) s in
  let s := tset 0 (with_stack 0 0) s in
  let s := tset 0 (with_state TASK_RUNNING) s in
  let s := foldl (fun s i => tset 0 (fun t => with_name (<[i := nth i init_name 0]> (t_name t)) t) s)
             s (seq 0 4) in
  let s := tset 0 (fun t => with_name (<[4%nat := 0]> (t_name t)) t) s in
  set_current 0 (set_count 1 s).

Definition scheduler_init (s : sched) : sched :=
  init_slot0 (for_range 0 MAX_TASKS
    (fun i s => tset i (with_rsp 0) (tset i (with_state TASK_TERMINATED) s)) s).

Example sched_ex :
  let s := scheduler_init sched_bss in
  (scheduler_tick s 77, take 5 (t_name (tget s 0))) =
    ((0, tset 0 (with_rsp 77) s), [105; 110; 105; 116; 0]).
Proof. by vm_compute. Qed.

(** ** The table *)

Lemma tget_tset_eq i f s :
  0 <= i < Z.of_nat (length (tasks s)) -> tget (tset i f s) i = f (tget s i).
Proof.
  intros Hi. unfold tget, tset. cbn [tasks]. rewrite !nth_lookup, list_lookup_alter_eq.
  destruct (lookup_lt_is_Some_2 (tasks s) (Z.to_nat i)) as [t ->]; [lia|done].
Qed.

Lemma tget_tset_ne i j f s : 0 <= i -> 0 <= j -> i <> j -> tget (tset i f s) j = tget s j.
Proof.
  intros Hi Hj Hne. unfold tget, tset. cbn [tasks].
  by rewrite !nth_lookup, list_lookup_alter_ne by lia.
Qed.

Lemma tget_set_current n s i : tget (set_current n s) i = tget s i.
Proof. reflexivity. Qed.
Lemma tget_set_count n s i : tget (set_count n s) i = tget s i.
Proof. reflexivity. Qed.

Lemma length_tset i f s : length (tasks (tset i f s)) = length (tasks s).
Proof. apply length_alter. Qed.

Lemma length_set_current n s : length (tasks (set_current n s)) = length (tasks s).
Proof. reflexivity. Qed.
Lemma length_set_count n s : length (tasks (set_count n s)) = length (tasks s).
Proof. reflexivity. Qed.

Create Rewrite HintDb table.
#[export] Hint Rewrite length_tset length_set_current length_set_count
  tget_set_current tget_set_count : table.

(** Reading a field the update does not touch. *)
Lemma tget_tset_field {A} (g : task -> A) i j f s :
  0 <= i < Z.of_nat (length (tasks s)) -> 0 <= j -> (forall t, g (f t) = g t) ->
  g (tget (tset i f s) j) = g (tget s j).
Proof.
  intros Hi Hj Hg. destruct (decide (i = j)) as [->|Hne].
  - by rewrite tget_tset_eq, Hg.
  - by rewrite tget_tset_ne by lia.
Qed.

Lemma search_cases n i p r :
  (search n i p r = -1 /\ forall k, i <= k < i + Z.of_nat n -> p k = false) \/
  (exists k, i <= k < i + Z.of_nat n /\ p k = true /\ search n i p r = r k /\
     forall k', i <= k' < k -> p k' = false).
Proof.
  revert i. induction n as [|n IH]; intros i; cbn [search].
  { left. split; [done|]. lia. }
  destruct (p i) eqn:E.
  { right. exists i. split; [lia|]. split; [done|]. split; [done|lia]. }
  destruct (IH (i + 1)) as [[-> Hn]|(k & Hk & Hp & -> & Hlt)].
  - left. split; [done|]. intros k Hk. destruct (decide (k = i)) as [->|]; [done|]. apply Hn. lia.
  - right. exists k. split; [lia|]. split; [done|]. split; [done|].
    intros k' Hk'. destruct (decide (k' = i)) as [->|]; [done|]. apply Hlt. lia.
Qed.

Definition state_of (s : sched) (i : Z) : task_state := t_state (tget s i).
Definition ready (s : sched) (i : Z) : Prop := i < task_count s /\ state_of s i = TASK_READY.

Lemma find_next_ready_cases s from :
  0 <= from ->
  (task_find_next_ready s from = -1 /\ forall i, 0 <= i < 64 -> ~ ready s i) \/
  (exists k, 0 <= k < 64 /\ task_find_next_ready s from = (from + k) mod 64 /\
     ready s ((from + k) mod 64) /\ forall k', 0 <= k' < k -> ~ ready s ((from + k') mod 64)).
Proof.
  intros Hf. unfold task_find_next_ready, MAX_TASKS.
  assert (Hp : forall i, ((from + i) mod 64 <? task_count s) &&
     bool_decide (t_state (tget s ((from + i) mod 64)) = TASK_READY) = true <->
     ready s ((from + i) mod 64)).
  { intros i. rewrite andb_true_iff, bool_decide_eq_true, Z.ltb_lt. done. }
  match goal with |- context [search ?n ?i ?p ?r] => destruct (search_cases n i p r)
    as [[-> Hn]|(k & Hk & Hpk & -> & Hlt)] end.
  - left. split; [done|]. intros i Hi Hr.
    specialize (Hn ((i - from) mod 64) ltac:(mlia)). apply not_true_iff_false in Hn. apply Hn, Hp.
    by rewrite Zplus_mod_idemp_r, Zplus_minus, Z.mod_small.
  - right. exists k. split; [lia|]. split; [done|]. split; [by apply Hp|].
    intros k' Hk' Hr%Hp. rewrite Hlt in Hr; [done|lia].
Qed.

(** ** The invariant *)

(** The table after [scheduler_init]: the current task is the only one that may
    be running, and slots beyond [task_count] are free. *)
Record sched_wf (s : sched) : Prop := {
  sw_length : length (tasks s) = 64%nat;
  sw_current : 0 <= current_task s < task_count s;
  sw_count : task_count s <= 64;
  sw_run i : 0 <= i < 64 -> i <> current_task s -> state_of s i <> TASK_RUNNING;
  sw_cur : state_of s (current_task s) <> TASK_READY;
  sw_free i : task_count s <= i < 64 -> state_of s i = TASK_TERMINATED;
}.

(** What one tick does. *)
Record ticked (s : sched) (r : Z) (s' : sched) (ret : Z) : Prop := {
  tk_length : length (tasks s') = length (tasks s);
  tk_count : task_count s' = task_count s;
  tk_range : 0 <= current_task s' < task_count s;
  tk_saved : t_rsp (tget s' (current_task s)) = r;
  tk_rsp i : 0 <= i -> i <> current_task s -> t_rsp (tget s' i) = t_rsp (tget s i);
  tk_rest i : 0 <= i -> t_name (tget s' i) = t_name (tget s i) /\
    t_kernel_stack_top (tget s' i) = t_kernel_stack_top (tget s i);
  tk_running : state_of s' (current_task s') = TASK_RUNNING;
  tk_other i : 0 <= i -> i <> current_task s -> i <> current_task s' ->
    state_of s' i = state_of s i;
  tk_switch : current_task s' <> current_task s ->
    ret = t_rsp (tget s (current_task s')) /\ state_of s' (current_task s) = TASK_READY /\
    state_of s (current_task s') = TASK_READY;
  tk_stay : current_task s' = current_task s ->
    ret = 0 /\ forall i, 0 <= i < 64 -> i <> current_task s -> ~ ready s i;
  tk_order : forall k, 0 <= k < (current_task s' - (current_task s + 1)) mod 64 ->
    ~ ready s ((current_task s + 1 + k) mod 64);
}.

Lemma ready_saved s i r j :
  0 <= i < Z.of_nat (length (tasks s)) -> 0 <= j -> ready (tset i (with_rsp r) s) j <-> ready s j.
Proof.
  intros Hi Hj. unfold ready, state_of. by rewrite (tget_tset_field t_state).
Qed.

Lemma not_ready_current s : sched_wf s -> ~ ready s (current_task s).
Proof. intros Hw [_ Hr]. by apply (sw_cur s Hw). Qed.

(** [ready] does not depend on the rsp just saved. *)
Lemma next_ready_wf s r :
  sched_wf s ->
  let next := task_find_next_ready (tset (current_task s) (with_rsp r) s) (current_task s + 1) in
  (next = -1 /\ forall i, 0 <= i < 64 -> ~ ready s i) \/
  (0 <= next < task_count s /\ next <> current_task s /\ ready s next /\
   forall k, 0 <= k < (next - (current_task s + 1)) mod 64 -> ~ ready s ((current_task s + 1 + k) mod 64)).
Proof.
  intros Hw next. pose proof Hw as [Hl Hc Hn _ _ _].
  set (s1 := tset (current_task s) (with_rsp r) s) in *.
  assert (Hr : forall j, 0 <= j -> ready s1 j <-> ready s j) by (intros j Hj; apply ready_saved; lia).
  destruct (find_next_ready_cases s1 (current_task s + 1) ltac:(lia)) as [[E Hno]|(k & Hk & E & Hrd & Hlt)];
    unfold next; rewrite E.
  - left. split; [done|]. intros i Hi. rewrite <-Hr by lia. by apply Hno.
  - right. rewrite Hr in Hrd by mlia. split; [|split; [|split; [done|]]].
    + destruct Hrd as [? _]. split; [mlia|done].
    + intros Ec. rewrite Ec in Hrd. by apply (not_ready_current s).
    + intros k' Hk'. rewrite <-Hr by mlia. apply Hlt. mlia.
Qed.

(** Reading a table entry through updates at known distinct indices. *)
Ltac tbl :=
  unfold state_of; autorewrite with table;
  repeat first
    [ rewrite tget_tset_eq by (autorewrite with table; lia)
    | rewrite tget_tset_ne by lia
    | progress autorewrite with table ].

Lemma tick_stay s r :
  sched_wf s -> (forall i, 0 <= i < 64 -> ~ ready s i) ->
  ticked s r (tset (current_task s) (with_state TASK_RUNNING)
                (tset (current_task s) (with_rsp r) s)) 0.
Proof.
  intros [Hl Hc Hn _ _ _] Hno.
  split; change (current_task (tset _ _ _)) with (current_task s); try done.
  - by rewrite !length_tset.
  - by tbl.
  - intros. by tbl.
  - intros i Hi. by rewrite !(tget_tset_field t_name), !(tget_tset_field t_kernel_stack_top)
      by (rewrite ?length_tset; lia || done).
  - by tbl.
  - intros. by tbl.
  - intros _. split; [done|]. intros i Hi _. by apply Hno.
  - intros k Hk. apply Hno. mlia.
Qed.

Lemma tick_switch s r next :
  sched_wf s -> 0 <= next < task_count s -> next <> current_task s -> ready s next ->
  (forall k, 0 <= k < (next - (current_task s + 1)) mod 64 -> ~ ready s ((current_task s + 1 + k) mod 64)) ->
  let s' := tset next (with_state TASK_RUNNING) (set_current next
              (tset (current_task s) (with_state TASK_READY) (tset (current_task s) (with_rsp r) s))) in
  ticked s r s' (t_rsp (tget s' next)).
Proof.
  intros [Hl Hc Hn _ _ _] Hnx Hne [_ Hrd] Hlt s'. unfold s'.
  split; change (current_task (tset _ _ (set_current next _))) with next; try done.
  - by autorewrite with table.
  - by tbl.
  - intros. destruct (decide (i = next)) as [->|]; by tbl.
  - intros i Hi. destruct (decide (i = next)) as [->|]; [by tbl|].
    destruct (decide (i = current_task s)) as [->|]; by tbl.
  - by tbl.
  - intros. by tbl.
  - intros _. split; [by tbl|]. split; by tbl.
Qed.

Lemma tick_spec s r :
  sched_wf s -> ticked s r (scheduler_tick s r).2 (scheduler_tick s r).1.
Proof.
  intros Hw. pose proof (sw_current s Hw) as Hc. unfold scheduler_tick.
  rewrite (proj2 (Z.ltb_ge _ _)) by lia. cbv zeta.
  destruct (next_ready_wf s r Hw) as [[E Hno]|(Hnx & Hne & Hrd & Hlt)];
    set (next := task_find_next_ready _ _) in *.
  - rewrite E. by apply tick_stay.
  - change (current_task (tset _ _ s)) with (current_task s).
    rewrite (proj2 (Z.ltb_ge next 0)), (proj2 (Z.eqb_neq next _)) by lia. by apply tick_switch.
Qed.

(** The tick keeps the invariant, and afterwards the current task is running. *)
Lemma ticked_wf s r s' ret : sched_wf s -> ticked s r s' ret -> sched_wf s'.
Proof.
  intros [Hl Hc Hn Hrun Hcur Hfree] T. pose proof (tk_range _ _ _ _ T) as Hr.
  pose proof (tk_count _ _ _ _ T) as Hk. split.
  - by rewrite (tk_length _ _ _ _ T).
  - by rewrite Hk.
  - by rewrite Hk.
  - intros i Hi Hne. destruct (decide (i = current_task s)) as [->|Hnc].
    + destruct (tk_switch _ _ _ _ T) as (_ & -> & _); [congruence|done].
    + rewrite (tk_other _ _ _ _ T) by (done || lia). by apply Hrun.
  - by rewrite (tk_running _ _ _ _ T).
  - intros i Hi. rewrite Hk in Hi. rewrite (tk_other _ _ _ _ T) by lia. by apply Hfree.
Qed.

(** ** Round robin *)

(** The table after a sequence of ticks with the given interrupted contexts. *)
Fixpoint ticks (s : sched) (rs : list Z) : sched :=
  match rs with
  | [] => s
  | r :: rs => ticks (scheduler_tick s r).2 rs
  end.

Lemma tick_wf s r : sched_wf s -> sched_wf (scheduler_tick s r).2.
Proof. intros Hw. eapply ticked_wf; [done|]. by apply tick_spec. Qed.

Lemma ticks_wf s rs : sched_wf s -> sched_wf (ticks s rs).
Proof. revert s. induction rs as [|r rs IH]; intros s Hw; [done|]. by apply IH, tick_wf. Qed.

Lemma ticks_app s rs1 rs2 : ticks s (rs1 ++ rs2) = ticks (ticks s rs1) rs2.
Proof. revert s. induction rs1 as [|r rs1 IH]; intros s; [done|]. apply IH. Qed.

(** While no other task is ready the current one goes on. *)
Lemma ticks_idle s rs :
  sched_wf s -> state_of s (current_task s) = TASK_RUNNING -> (forall i, 0 <= i < 64 -> ~ ready s i) ->
  let s' := ticks s rs in
  sched_wf s' /\ current_task s' = current_task s /\
  (forall i, 0 <= i -> state_of s' i = state_of s i /\ t_name (tget s' i) = t_name (tget s i)).
Proof.
  revert s. induction rs as [|r rs IH]; intros s Hw Hrun Hno; [done|]. cbn [ticks].
  pose proof (tick_spec s r Hw) as T. pose proof (sw_count s Hw) as Hn.
  assert (Ec : current_task (scheduler_tick s r).2 = current_task s).
  { apply dec_stable. intros Hne. destruct (tk_switch _ _ _ _ T Hne) as (_ & _ & Hr).
    pose proof (tk_range _ _ _ _ T). by apply (Hno (current_task (scheduler_tick s r).2)); [lia|split; [lia|]]. }
  assert (Hst : forall i, 0 <= i -> state_of (scheduler_tick s r).2 i = state_of s i).
  { intros i Hi. destruct (decide (i = current_task s)) as [->|Hne].
    - rewrite Hrun, <-Ec. apply T.
    - apply (tk_other _ _ _ _ T); congruence. }
  destruct (IH (scheduler_tick s r).2) as (W & C & H).
  - by apply tick_wf.
  - rewrite Ec, Hst; [done|]. by apply (sw_current s Hw).
  - intros i Hi [H1 H2]. apply (Hno i Hi). split; [by rewrite <-(tk_count _ _ _ _ T)|by rewrite <-Hst by lia].
  - split; [done|]. split; [congruence|]. intros i Hi. destruct (H i Hi) as [-> ->].
    split; [by apply Hst|]. apply (tk_rest _ _ _ _ T i Hi).
Qed.

(** Steps from [c] up to [j], wrapping at the last task. *)
Definition dist (n c j : Z) : Z := if c <? j then j - c else j - c + n.

(** A tick brings every waiting task closer. *)
Lemma tick_closer s r j :
  sched_wf s -> 0 <= j -> ready s j ->
  let s' := (scheduler_tick s r).2 in
  current_task s' = j \/
  (ready s' j /\ current_task s' <> j /\
   dist (task_count s) (current_task s') j < dist (task_count s) (current_task s) j).
Proof.
  intros Hw Hj Hr s'. pose proof (tick_spec s r Hw) as T. fold s' in T.
  pose proof Hw as [_ Hc Hn _ _ _]. pose proof (tk_range _ _ _ _ T) as Hc'.
  destruct Hr as [Hjn Hrd].
  assert (Hjc : j <> current_task s) by (intros ->; by apply (sw_cur s Hw)).
  destruct (decide (current_task s' = j)) as [|Hne]; [by left|right].
  assert (Hsw : current_task s' <> current_task s).
  { intros E. destruct (tk_stay _ _ _ _ T E) as [_ Hno]. apply (Hno j); [lia|done|by split]. }
  split; [split; [by rewrite (tk_count _ _ _ _ T)|by rewrite (tk_other _ _ _ _ T) by auto]|].
  split; [done|].
  pose proof (tk_order _ _ _ _ T) as Hlt.
  assert (Hge : (current_task s' - (current_task s + 1)) mod 64 <= (j - (current_task s + 1)) mod 64).
  { apply Z.nlt_ge. intros Hlt'. apply (Hlt ((j - (current_task s + 1)) mod 64)); [mlia|].
    rewrite Zplus_mod_idemp_r, Zplus_minus, Z.mod_small by lia. by split. }
  unfold dist. destruct (Z.ltb_spec (current_task s) j), (Z.ltb_spec (current_task s') j); mlia.
Qed.

(** C17 Round-robin fairness: a ready task runs after at most as many ticks as it is
    places away from the current task, whatever contexts are interrupted. *)
Theorem round_robin_fair s j rs :
  sched_wf s -> 0 <= j -> ready s j ->
  Z.of_nat (length rs) = dist (task_count s) (current_task s) j ->
  exists k, (0 < k <= length rs)%nat /\ (Z.of_nat k < task_count s) /\
    current_task (ticks s (take k rs)) = j /\ state_of (ticks s (take k rs)) j = TASK_RUNNING.
Proof.
  intros Hw Hj Hr Hlen.
  assert (Hd : Z.of_nat (length rs) < task_count s).
  { rewrite Hlen. pose proof (sw_current s Hw). destruct Hr as [Hjn Hrd]. unfold dist.
    assert (j <> current_task s) by (intros ->; by apply (sw_cur s Hw)).
    destruct (Z.ltb_spec (current_task s) j); lia. }
  assert (Hge : dist (task_count s) (current_task s) j <= Z.of_nat (length rs)) by lia.
  enough (exists k, (0 < k <= length rs)%nat /\ current_task (ticks s (take k rs)) = j /\
            state_of (ticks s (take k rs)) j = TASK_RUNNING) as (k & Hk & Hc & Hs).
  { exists k. split; [done|]. split; [lia|done]. }
  clear Hlen Hd. revert s Hw Hr Hge. induction rs as [|r rs IH]; intros s Hw Hr Hge.
  { pose proof (sw_current s Hw). destruct Hr as [? Hrd].
    assert (j <> current_task s) by (intros ->; by apply (sw_cur s Hw)).
    unfold dist in Hge. cbn in Hge. destruct (Z.ltb_spec (current_task s) j); lia. }
  pose proof (tick_spec s r Hw) as T.
  destruct (tick_closer s r j Hw Hj Hr) as [Hc|(Hr' & Hne & Hlt)].
  - exists 1%nat. cbn [length take ticks]. rewrite take_0. split; [lia|]. split; [done|].
    cbn [ticks]. rewrite <-Hc. by apply (tk_running _ _ _ _ T).
  - destruct (IH _ (tick_wf s r Hw) Hr') as (k & Hk & Hc & Hs).
    { rewrite (tk_count _ _ _ _ T). cbn [length] in Hge. lia. }
    exists (S k). cbn [length take ticks]. split; [lia|done].
Qed.

(** ** Contexts *)

Lemma rsp_kept s rs i :
  sched_wf s -> 0 <= i ->
  (forall k, (k <= length rs)%nat -> current_task (ticks s (take k rs)) <> i) ->
  t_rsp (tget (ticks s rs) i) = t_rsp (tget s i).
Proof.
  intros Hw Hi. revert s Hw. induction rs as [|r rs IH]; intros s Hw Hn; [done|].
  cbn [ticks]. rewrite IH; [|by apply tick_wf|].
  - apply (tk_rsp _ _ _ _ (tick_spec s r Hw)); [done|]. intros ->. by apply (Hn 0%nat); [lia|].
  - intros k Hk. apply (Hn (S k)). cbn. lia.
Qed.

(** A preempted task resumes with its own context: if the tick that interrupts
    task [i] at stack pointer [r] switches to another task, then the first later
    tick that makes [i] current again returns exactly [r]. *)
Theorem context_resumed s r rs r2 :
  sched_wf s ->
  let i := current_task s in
  let s1 := (scheduler_tick s r).2 in
  (forall k, (k <= length rs)%nat -> current_task (ticks s1 (take k rs)) <> i) ->
  current_task (scheduler_tick (ticks s1 rs) r2).2 = i ->
  (scheduler_tick (ticks s1 rs) r2).1 = r.
Proof.
  intros Hw i s1 Hn Hres. pose proof (tick_spec s r Hw) as T. fold s1 in T.
  assert (Hw1 : sched_wf s1) by (by apply tick_wf).
  assert (Hi : 0 <= i) by (pose proof (sw_current s Hw); lia).
  pose proof (tick_spec _ r2 (ticks_wf s1 rs Hw1)) as T2.
  destruct (tk_switch _ _ _ _ T2) as (-> & _).
  - rewrite Hres. intros E. apply (Hn (length rs)); [lia|]. by rewrite firstn_all.
  - rewrite Hres, (rsp_kept s1 rs i Hw1 Hi Hn). apply (tk_saved _ _ _ _ T).
Qed.

(** [task_exit] marks the task terminated and then yields for ever, but the very
    tick its first yield causes makes the mark disappear: no task in use is
    terminated after a tick, its slot is never reused, and it runs again. *)
Theorem exit_mark_undone s r :
  sched_wf s -> state_of s (current_task s) = TASK_RUNNING ->
  (forall i, 0 <= i < task_count s -> state_of s i <> TASK_TERMINATED) ->
  let s' := (scheduler_tick (task_exit_mark s) r).2 in
  sched_wf s' /\ (forall i, 0 <= i < task_count s' -> state_of s' i <> TASK_TERMINATED) /\
  (state_of s' (current_task s) = TASK_READY \/ state_of s' (current_task s) = TASK_RUNNING).
Proof.
  intros Hw Hrun Hall s'. pose proof Hw as [Hl Hc Hn Hr _ Hf].
  assert (Hm : sched_wf (task_exit_mark s)).
  { unfold task_exit_mark. split; change (current_task (tset _ _ s)) with (current_task s);
      change (task_count (tset _ _ s)) with (task_count s); try done.
    - by autorewrite with table.
    - intros i Hi Hne. tbl. by apply Hr.
    - by tbl.
    - intros i Hi. tbl. by apply Hf. }
  pose proof (tick_spec _ r Hm) as T. fold s' in T.
  assert (Hcur : state_of s' (current_task s) = TASK_READY \/ state_of s' (current_task s) = TASK_RUNNING).
  { destruct (decide (current_task s' = current_task s)) as [E|E].
    - right. rewrite <-E. apply (tk_running _ _ _ _ T).
    - left. by apply (tk_switch _ _ _ _ T). }
  split; [by apply tick_wf|]. split; [|done]. intros i Hi. rewrite (tk_count _ _ _ _ T) in Hi.
  change (task_count (task_exit_mark s)) with (task_count s) in Hi.
  destruct (decide (i = current_task s)) as [->|Hne]; [destruct Hcur as [-> | ->]; done|].
  destruct (decide (i = current_task s')) as [->|Hne']; [by rewrite (tk_running _ _ _ _ T)|].
  rewrite (tk_other _ _ _ _ T) by (done || lia). unfold task_exit_mark. tbl. apply Hall. lia.
Qed.

(** ** Creating tasks *)

Lemma find_free_cases s :
  (task_find_free s = -1 /\ forall i, 0 <= i < 64 -> state_of s i <> TASK_TERMINATED) \/
  (0 <= task_find_free s < 64 /\ state_of s (task_find_free s) = TASK_TERMINATED /\
   forall i, 0 <= i < task_find_free s -> state_of s i <> TASK_TERMINATED).
Proof.
  unfold task_find_free.
  match goal with |- context [search ?n ?i ?p ?r] => destruct (search_cases n i p r)
    as [[-> Hn]|(k & Hk & Hpk & -> & Hlt)] end.
  - left. split; [done|]. intros i Hi. specialize (Hn i ltac:(lia)).
    by apply bool_decide_eq_false in Hn.
  - right. apply bool_decide_eq_true in Hpk. unfold id. split; [lia|]. split; [done|].
    intros i Hi. specialize (Hlt i ltac:(lia)). by apply bool_decide_eq_false in Hlt.
Qed.

(** The copy of the name: at most [n] characters and a terminating NUL. *)
Lemma name_copy_spec n name : forall i buf,
  (i + n < length buf)%nat ->
  c_chars (drop i (name_copy n name i buf)) = take n (c_chars name) /\
  length (name_copy n name i buf) = length buf /\
  take i (name_copy n name i buf) = take i buf.
Proof.
  revert name. induction n as [|n IH]; intros name i buf Hlen;
    (assert (Hstop : c_chars (drop i (<[i := 0]> buf)) = [] /\ length (<[i := 0]> buf) = length buf /\
       take i (<[i := 0]> buf) = take i buf);
     [split; [|split; [apply length_insert|by apply take_insert_ge]];
      rewrite (drop_S _ 0) by (apply list_lookup_insert_eq; lia); done|]).
  { destruct name; done. }
  destruct name as [|c name]; cbn [name_copy c_chars]; [by rewrite take_nil|].
  destruct (truthy c) eqn:E; [|by rewrite take_nil].
  destruct (IH name (S i) (<[i := c]> buf)) as (H1 & H2 & H3); [rewrite length_insert; lia|].
  rewrite length_insert in H2.
  assert (Hi : name_copy n name (S i) (<[i := c]> buf) !! i = Some c).
  { rewrite <-(lookup_take_lt _ (S i)), H3, lookup_take_lt by lia. apply list_lookup_insert_eq. lia. }
  split; [|split; [done|]].
  - rewrite (drop_S _ c) by done. cbn [c_chars take]. by rewrite E, H1.
  - assert (Ht : take i (take (S i) (name_copy n name (S i) (<[i := c]> buf))) =
                 take i (take (S i) (<[i := c]> buf))) by (by rewrite H3).
    rewrite !take_take, Nat.min_l in Ht by lia. rewrite Ht. by apply take_insert_ge.
Qed.

(** The saved registers of a frame. *)
Definition reg (m : mem) (frame k : Z) : Z := ld64 m (frame + 8 * k).

(** The frame of a task that has never run. *)
Definition fresh_regs (entry stack_top k : Z) : Z :=
  if k =? 17 then entry else if k =? 18 then 0x08 else if k =? 19 then 0x202
  else if k =? 20 then stack_top else if k =? 21 then 0x10 else 0.

Lemma init_frame_spec m base entry :
  0 <= base -> base + 4096 < 2 ^ 64 -> 0 <= entry < 2 ^ 64 ->
  let top := base + 4096 in
  let m' := init_frame (top - 176) top entry (memset m base 0 4096).1 in
  (forall k, 0 <= k < 22 -> reg m' (top - 176) k = fresh_regs entry top k) /\
  (forall a n, a + n <= base \/ base + 4096 <= a -> agree m m' a n).
Proof.
  intros Hb Ht He top m'. unfold m', init_frame, off_ss, off_rsp, off_rflags, off_cs, off_rip. split.
  - intros k Hk. unfold reg, fresh_regs, top.
    destruct (Z.eqb_spec k 17) as [->|]; [|destruct (Z.eqb_spec k 18) as [->|]; [|
      destruct (Z.eqb_spec k 19) as [->|]; [|destruct (Z.eqb_spec k 20) as [->|]; [|
      destruct (Z.eqb_spec k 21) as [->|]]]]];
      repeat first [ rewrite ld64_st64_eq by auto with kernel
                   | rewrite ld64_st64_ne by (auto with kernel || lia) ];
      try (rewrite u64_id; lia).
    apply memset_zero_ld64; auto with kernel; lia.
  - intros a n Hd x Hx.
    rewrite !vld8_st64_ne by (auto with kernel || done || lia).
    by apply (memset_agree m base 0 4096 a n); auto with kernel; lia.
Qed.

(** The slot of a new task, as [task_create] fills it. *)
Definition new_task (name : list Z) (base : Z) (t : task) : task :=
  Task (base + 4096 - 176) (base + 4096) 4096 TASK_READY (name_copy 31 name 0 (t_name t)).

(** [task_create] in terms of a single table update. *)
Lemma task_create_eq name entry s pm m p l :
  pmm_rep pm m (p :: l) -> pmm_hhdm pm + p + 4096 < 2 ^ 64 ->
  0 <= task_find_free s < Z.of_nat (length (tasks s)) ->
  let idx := task_find_free s in
  let base := pmm_hhdm pm + p in
  exists pm' s',
    task_create name entry (Sys s pm m) =
      (idx, Sys s' pm' (init_frame (base + 4096 - 176) (base + 4096) entry (memset m base 0 4096).1)) /\
    (forall mm, (forall q, q ∈ l -> agree m mm (pmm_hhdm pm + q) 8) -> pmm_rep pm' mm l) /\
    pmm_hhdm pm' = pmm_hhdm pm /\
    length (tasks s') = length (tasks s) /\ current_task s' = current_task s /\
    task_count s' = Z.max (task_count s) (idx + 1) /\
    tget s' idx = new_task name base (tget s idx) /\
    (forall i, 0 <= i -> i <> idx -> tget s' i = tget s i).
Proof.
  intros Hr Htop Hidx idx base. pose proof (pmm_alloc_cons _ _ _ _ Hr) as (Hp & Hr' & Hh).
  pose proof (Forall_inv (rep_frames _ _ _ Hr)) as (Hp0 & Hpa & Hpb).
  pose proof (rep_hhdm _ _ _ Hr) as Hh0.
  unfold task_create. cbn [y_sched y_pmm y_mem]. fold idx.
  rewrite (proj2 (Z.ltb_ge idx 0)) by lia.
  destruct (pmm_alloc pm m) as [p' pm'] eqn:Ea. cbn [fst snd] in *. subst p'.
  rewrite (proj2 (truthy_true p)) by lia. cbn [negb]. unfold pmm_get_hhdm, sizeof_regs. rewrite Hh.
  fold base. rewrite (u64_id base) by (unfold base; lia).
  destruct (memset m base 0 4096) as [m1 d] eqn:Em. cbn [fst].
  rewrite (u64_id (base + 4096)), (u64_id (base + 4096 - 176)) by (unfold base; lia).
  set (s4 := tset idx _ _). exists pm', (if task_count s4 <=? idx then set_count (idx + 1) s4 else s4).
  split; [done|]. split; [|split; [done|]].
  - intros mm Hag. apply (pmm_rep_agree pm' m mm l Hr'). by rewrite Hh.
  - assert (Hs4 : tget s4 idx = new_task name base (tget s idx)).
    { unfold s4. rewrite !tget_tset_eq by (autorewrite with table; lia). done. }
    assert (Hne : forall i, 0 <= i -> i <> idx -> tget s4 i = tget s i).
    { intros i Hi Hne. unfold s4. by rewrite !tget_tset_ne by lia. }
    assert (Hl4 : length (tasks s4) = length (tasks s)) by (unfold s4; by autorewrite with table).
    assert (Hc4 : current_task s4 = current_task s) by reflexivity.
    assert (Hk4 : task_count s4 = task_count s) by reflexivity.
    clearbody s4. rewrite Hk4.
    destruct (Z.leb_spec (task_count s) idx); autorewrite with table; cbn [set_count task_count current_task];
      rewrite ?Hk4; (split; [exact Hl4|]); (split; [exact Hc4|]); (split; [lia|]); (split; [exact Hs4|exact Hne]).
Qed.

(** The proof of the property below, also used by the boot sequence. *)
Lemma task_create_sound name entry s pm m p l :
  sched_wf s -> state_of s (current_task s) = TASK_RUNNING ->
  (forall i, 0 <= i < 64 -> length (t_name (tget s i)) = 32%nat) ->
  pmm_rep pm m (p :: l) -> pmm_hhdm pm + p + 4096 < 2 ^ 64 -> 0 <= entry < 2 ^ 64 ->
  (exists i, 0 <= i < 64 /\ state_of s i = TASK_TERMINATED) ->
  let base := pmm_hhdm pm + p in
  exists idx s' pm' m', task_create name entry (Sys s pm m) = (idx, Sys s' pm' m') /\
    (0 <= idx < 64 /\ state_of s idx = TASK_TERMINATED /\
     forall i, 0 <= i < idx -> state_of s i <> TASK_TERMINATED) /\
    sched_wf s' /\ ready s' idx /\ t_rsp (tget s' idx) = base + 3920 /\
    c_chars (t_name (tget s' idx)) = take 31 (c_chars name) /\
    (forall i, 0 <= i -> i <> idx -> tget s' i = tget s i) /\
    pmm_rep pm' m' l /\ pmm_hhdm pm' = pmm_hhdm pm /\ current_task s' = current_task s /\
    length (t_name (tget s' idx)) = 32%nat /\
    (forall k, 0 <= k < 22 -> reg m' (base + 3920) k = fresh_regs entry (base + 4096) k) /\
    (forall a n, a + n <= base \/ base + 4096 <= a -> agree m m' a n).
Proof.
  intros Hw Hrun Hnames Hr Htop He Hfree base. pose proof Hw as [Hl Hc Hn Hru Hcur Hf].
  destruct (find_free_cases s) as [[_ Hno]|(Hidx & Hst & Hlt)].
  { destruct Hfree as (i & Hi & Hsi). by destruct (Hno i Hi). }
  destruct (task_create_eq name entry s pm m p l Hr Htop) as
    (pm' & s' & -> & Hrep & Hh & Hl' & Hc' & Hk' & Ht & Hoth); [lia|].
  set (idx := task_find_free s) in *. fold base in Ht |- *.
  pose proof (Forall_inv (rep_frames _ _ _ Hr)) as (Hp0 & Hpa & Hpb).
  pose proof (rep_hhdm _ _ _ Hr) as Hh0.
  destruct (init_frame_spec m base entry) as [Hregs Hag]; [unfold base; lia..|].
  replace (base + 4096 - 176) with (base + 3920) in * by lia.
  assert (Hidxc : idx <> current_task s) by (intros ->; congruence).
  assert (Hcnt : idx <= task_count s).
  { apply Z.nlt_ge. intros Hgt. apply (Hlt (task_count s)); [lia|]. apply Hf. lia. }
  assert (Hnew : state_of s' idx = TASK_READY) by (unfold state_of; by rewrite Ht).
  eexists idx, s', pm', _. split; [done|]. split; [done|].
  split; [|split; [by split; [lia|]|split; [rewrite Ht; cbn; lia|split; [|split; [done|split; [|split; [done|split; [done|split; [|done]]]]]]]]].
  - split; rewrite ?Hc'.
    + lia.
    + lia.
    + lia.
    + intros i Hi Hne. destruct (decide (i = idx)) as [->|]; [by rewrite Hnew|].
      unfold state_of. rewrite Hoth by lia. by apply Hru.
    + unfold state_of. by rewrite Hoth by lia.
    + intros i Hi. unfold state_of. rewrite Hoth by lia. apply Hf. lia.
  - rewrite Ht. cbn [new_task t_name].
    destruct (name_copy_spec 31 name 0 (t_name (tget s idx))) as (Hn1 & _); [rewrite Hnames by lia; lia|].
    by rewrite drop_0 in Hn1.
  - apply Hrep. intros q Hq. apply Hag.
    pose proof (rep_nodup _ _ _ Hr) as [Hnin _]%NoDup_cons.
    pose proof (rep_frames _ _ _ Hr) as [_ Hfr]%Forall_cons. rewrite Forall_forall in Hfr.
    destruct (Hfr q Hq) as (? & ? & ?). unfold base.
    assert (Hpq : p <> q) by (by intros ->).
    destruct (frames_apart p q Hpa ltac:(done) Hpq); lia.
  - rewrite Ht. cbn [new_task t_name].
    destruct (name_copy_spec 31 name 0 (t_name (tget s idx))) as (_ & -> & _); rewrite Hnames by lia; lia.
Qed.

(** C24 [task_create] takes the first free slot and one frame: it returns the slot;
    the frame is a cleared stack with the interrupt frame that starts [entry] on
    it with interrupts enabled; the name is cut to 31 characters and terminated;
    the other tasks, the invariant and all other memory are untouched. *)
Theorem task_create_spec name entry s pm m p l :
  sched_wf s -> state_of s (current_task s) = TASK_RUNNING ->
  (forall i, 0 <= i < 64 -> length (t_name (tget s i)) = 32%nat) ->
  pmm_rep pm m (p :: l) -> pmm_hhdm pm + p + 4096 < 2 ^ 64 -> 0 <= entry < 2 ^ 64 ->
  (exists i, 0 <= i < 64 /\ state_of s i = TASK_TERMINATED) ->
  let base := pmm_hhdm pm + p in
  exists idx s' pm' m', task_create name entry (Sys s pm m) = (idx, Sys s' pm' m') /\
    (0 <= idx < 64 /\ state_of s idx = TASK_TERMINATED /\
     forall i, 0 <= i < idx -> state_of s i <> TASK_TERMINATED) /\
    sched_wf s' /\ ready s' idx /\ t_rsp (tget s' idx) = base + 3920 /\
    c_chars (t_name (tget s' idx)) = take 31 (c_chars name) /\
    (forall i, 0 <= i -> i <> idx -> tget s' i = tget s i) /\
    pmm_rep pm' m' l /\
    (forall k, 0 <= k < 22 -> reg m' (base + 3920) k = fresh_regs entry (base + 4096) k) /\
    (forall a n, a + n <= base \/ base + 4096 <= a -> agree m m' a n).
Proof.
  intros Hw Hrun Hnames Hr Htop He Hfree base.
  destruct (task_create_sound name entry s pm m p l Hw Hrun Hnames Hr Htop He Hfree) as
    (idx & s' & pm' & m' & E & H1 & H2 & H3 & H4 & H5 & H6 & H7 & _ & _ & _ & H8).
  by exists idx, s', pm', m'.
Qed.

(** Without a free slot or without a free frame [task_create] fails with -1 and
    changes nothing. *)
Theorem task_create_fails name entry s pm m l :
  pmm_rep pm m l -> (forall i, 0 <= i < 64 -> state_of s i <> TASK_TERMINATED) \/ l = [] ->
  task_create name entry (Sys s pm m) = (-1, Sys s pm m).
Proof.
  intros Hr Hwhy. unfold task_create. cbn [y_sched y_pmm y_mem].
  destruct (find_free_cases s) as [[-> _]|(Hidx & Hst & _)]; [done|].
  destruct Hwhy as [Hno| ->]; [by destruct (Hno _ Hidx)|].
  rewrite (proj2 (Z.ltb_ge _ _)) by lia. by rewrite (pmm_alloc_nil _ _ Hr).
Qed.

Lemma init_loop_spec s :
  length (tasks s) = 64%nat ->
  let s' := for_range 0 64
    (fun i s => tset i (with_rsp 0) (tset i (with_state TASK_TERMINATED) s)) s in
  length (tasks s') = 64%nat /\
  forall i, 0 <= i < 64 -> state_of s' i = TASK_TERMINATED /\ t_rsp (tget s' i) = 0 /\
    t_name (tget s' i) = t_name (tget s i).
Proof.
  intros Hl. cbv zeta.
  set (P := fun (k : Z) (s' : sched) => length (tasks s') = 64%nat /\
    forall i, 0 <= i < 64 -> t_name (tget s' i) = t_name (tget s i) /\
      (i < k -> state_of s' i = TASK_TERMINATED /\ t_rsp (tget s' i) = 0)).
  enough (HP : P 64 (for_range 0 64
    (fun i s => tset i (with_rsp 0) (tset i (with_state TASK_TERMINATED) s)) s)).
  { destruct HP as [H64 HP]. split; [done|]. intros i Hi. destruct (HP i Hi) as [Hn Hs].
    destruct Hs as [? ?]; [lia|done]. }
  apply for_range_ind; [lia| |].
  - split; [done|]. intros i Hi. split; [done|lia].
  - intros k s1 Hk [Hl1 IH]. rewrite Z.add_0_l. split; [by autorewrite with table|]. intros i Hi.
    destruct (IH i Hi) as [Hn Hs]. destruct (decide (i = k)) as [->|]; tbl; [done|].
    split; [done|]. intros Hik. apply Hs. lia.
Qed.

Lemma init_slot0_spec s :
  length (tasks s) = 64%nat ->
  let s' := init_slot0 s in
  length (tasks s') = 64%nat /\
  tget s' 0 = Task 0 0 0 TASK_RUNNING
    (<[4%nat := 0]> (<[3%nat := 116]> (<[2%nat := 105]> (<[1%nat := 110]> (<[0%nat := 105]>
      (t_name (tget s 0))))))) /\
  forall i, 1 <= i < 64 -> tget s' i = tget s i.
Proof.
  intros Hl s'. unfold s', init_slot0. cbn [seq foldl]. split; [by autorewrite with table|].
  split; [by tbl|]. intros i Hi. by tbl.
Qed.

(** [scheduler_init] establishes the invariant from any table: one running task,
    [init], in slot 0, and 63 free slots. *)
Theorem scheduler_init_spec s :
  length (tasks s) = 64%nat -> (forall i, 0 <= i < 64 -> length (t_name (tget s i)) = 32%nat) ->
  let s' := scheduler_init s in
  sched_wf s' /\ current_task s' = 0 /\ task_count s' = 1 /\ state_of s' 0 = TASK_RUNNING /\
  c_chars (t_name (tget s' 0)) = init_name /\
  (forall i, 1 <= i < 64 -> state_of s' i = TASK_TERMINATED) /\
  (forall i, 0 <= i < 64 -> t_rsp (tget s' i) = 0 /\ length (t_name (tget s' i)) = 32%nat).
Proof.
  intros Hl Hnames s'. unfold s', scheduler_init, MAX_TASKS.
  destruct (init_loop_spec s Hl) as [Hl1 H1].
  set (s1 := for_range 0 64 _ s) in *. clearbody s1.
  destruct (init_slot0_spec s1 Hl1) as (Hl2 & H0 & Hoth).
  assert (Hst : forall i, 1 <= i < 64 -> state_of (init_slot0 s1) i = TASK_TERMINATED).
  { intros i Hi. unfold state_of. rewrite Hoth by done. apply H1. lia. }
  assert (Hs0 : state_of (init_slot0 s1) 0 = TASK_RUNNING) by (unfold state_of; by rewrite H0).
  pose proof (Hnames 0 ltac:(lia)) as Hn0. destruct (H1 0 ltac:(lia)) as (_ & _ & Hn1).
  split; [|split; [done|split; [done|split; [done|split; [|split; [done|]]]]]].
  - split; try done; change (current_task (init_slot0 s1)) with 0; change (task_count (init_slot0 s1)) with 1.
    + intros i Hi Hne. by rewrite Hst by lia.
    + by rewrite Hs0.
  - rewrite H0, Hn1. cbn [t_name]. destruct (t_name (tget s 0)) as [|? [|? [|? [|? [|? ?]]]]]; done.
  - intros i Hi. destruct (decide (i = 0)) as [->|].
    + rewrite H0, Hn1. cbn [t_rsp t_name]. by rewrite !length_insert.
    + rewrite Hoth by lia. destruct (H1 i Hi) as (_ & ? & ->). auto.
Qed.

(** ** A concrete table: [init] running, two ready tasks *)

Definition demo_task (rsp : Z) (st : task_state) : task := Task rsp 0 0 st (repeat 0 32).
Definition demo_sched : sched :=
  Sched ([demo_task 0 TASK_RUNNING; demo_task 100 TASK_READY; demo_task 200 TASK_READY]
         ++ repeat (demo_task 0 TASK_TERMINATED) 61) 3 0.

Lemma demo_sched_wf : sched_wf demo_sched.
Proof.
  split; try done.
  - below.
  - intros i Hi. assert (Hi' : 0 <= i < 64) by (cbn in Hi; lia). revert Hi. revert i Hi'. below.
Qed.

Lemma round_robin_fair_witness : exists k, (0 < k <= 2)%nat /\
  current_task (ticks demo_sched (take k [7; 8])) = 2.
Proof.
  destruct (round_robin_fair demo_sched 2 [7; 8] demo_sched_wf) as (k & Hk & _ & Hc & _).
  - lia.
  - by split.
  - reflexivity.
  - exists k. split; [exact Hk|exact Hc].
Defined.

Lemma context_resumed_witness :
  (scheduler_tick (ticks (scheduler_tick demo_sched 55).2 [66]) 77).1 = 55.
Proof.
  apply (context_resumed demo_sched 55 [66] 77 demo_sched_wf).
  - intros k Hk. destruct k as [|[|k]]; [by vm_compute..|cbn in Hk; lia].
  - by vm_compute.
Defined.

Lemma exit_mark_undone_witness :
  state_of (scheduler_tick (task_exit_mark demo_sched) 9).2 0 = TASK_READY \/
  state_of (scheduler_tick (task_exit_mark demo_sched) 9).2 0 = TASK_RUNNING.
Proof.
  apply (exit_mark_undone demo_sched 9 demo_sched_wf).
  - reflexivity.
  - intros i Hi. assert (H : i = 0 \/ i = 1 \/ i = 2) by (cbn in Hi; lia).
    destruct H as [->|[->| ->]]; discriminate.
Defined.

Lemma task_create_spec_witness : exists idx s' pm' m',
  task_create [65; 66; 0] 0x1234 (Sys demo_sched demo_pmm.1 demo_pmm.2) = (idx, Sys s' pm' m') /\
  ready s' idx /\ t_rsp (tget s' idx) = demo_hhdm + 0x3000 + 3920.
Proof.
  destruct (task_create_spec [65; 66; 0] 0x1234 demo_sched demo_pmm.1 demo_pmm.2 0x3000 [0x2000]
    demo_sched_wf) as (idx & s' & pm' & m' & E & _ & _ & R & T & _).
  - reflexivity.
  - below.
  - exact demo_pmm_rep.
  - reflexivity.
  - lia.
  - exists 3. split; [lia|reflexivity].
  - exists idx, s', pm', m'. split; [exact E|]. split; [exact R|exact T].
Defined.

Lemma task_create_fails_witness :
  task_create [65; 0] 0x1234 (Sys demo_sched (Pmm demo_hhdm 0 0) ∅) = (-1, Sys demo_sched (Pmm demo_hhdm 0 0) ∅).
Proof.
  apply (task_create_fails [65; 0] 0x1234 demo_sched (Pmm demo_hhdm 0 0) ∅ []).
  - split; [done|done|constructor|constructor|done].
  - right. reflexivity.
Defined.

Lemma scheduler_init_spec_witness :
  sched_wf (scheduler_init sched_bss) /\ task_count (scheduler_init sched_bss) = 1.
Proof.
  destruct (scheduler_init_spec sched_bss) as (W & _ & C & _).
  - reflexivity.
  - below.
  - split; [exact W|exact C].
Defined.
