(* ===== verification/Preempt.v ===== *)
(** [task_create] of [src/kernel/sched/scheduler.c] under preemption: interrupts are
    enabled while it runs, so the timer can tick between any two of its statements.
    With one task creating tasks this is harmless, whatever the ticks; two at a
    time can take the same slot. *)

From S2P Require Import Prelude Mem CString Pmm Format Sched.

(** ** Updates that a tick does not notice *)

Definition visible (s : sched) (i : Z) : bool :=
  (i <? task_count s) && bool_decide (state_of s i = TASK_READY).

(** A slot that is neither running nor ready. *)
Record hidden (s : sched) (i : Z) : Prop := {
  hd_nonneg : 0 <= i;
  hd_current : i <> current_task s;
  hd_visible : visible s i = false;
}.

(** An update that the scheduler neither reads nor overwrites. *)
Record inert (f : task -> task) : Prop := {
  in_state t : t_state (f t) = t_state t;
  in_rsp t : t_rsp (f t) = t_rsp t;
  in_with_rsp r t : f (with_rsp r t) = with_rsp r (f t);
  in_with_state st t : f (with_state st t) = with_state st (f t);
}.

Lemma tset_comm_ne i j f g s : 0 <= i -> 0 <= j -> i <> j -> tset i f (tset j g s) = tset j g (tset i f s).
Proof. intros Hi Hj Hne. unfold tset. cbn [tasks task_count current_task]. f_equal. apply list_alter_alter_ne. lia. Qed.

Lemma tset_comm i j f g s :
  0 <= i -> 0 <= j -> (forall t, f (g t) = g (f t)) -> tset i f (tset j g s) = tset j g (tset i f s).
Proof.
  intros Hi Hj Hc. destruct (decide (i = j)) as [->|]; [|by apply tset_comm_ne].
  unfold tset. cbn [tasks task_count current_task]. f_equal. rewrite !list_alter_alter_eq.
  apply list_alter_ext; [|done]. intros t _. apply Hc.
Qed.

Lemma search_ext n i p q r : (forall k, i <= k < i + Z.of_nat n -> p k = q k) -> search n i p r = search n i q r.
Proof.
  revert i. induction n as [|n IH]; intros i H; cbn [search]; [done|]. rewrite (H i) by lia.
  destruct (q i); [done|]. apply IH. intros k Hk. apply H. lia.
Qed.

(** The choice of the next task depends on which slots are visible. *)
Lemma next_ready_ext s s' from :
  (forall i, 0 <= i < 64 -> visible s' i = visible s i) ->
  task_find_next_ready s' from = task_find_next_ready s from.
Proof.
  intros H. unfold task_find_next_ready, MAX_TASKS. apply search_ext. intros k _.
  specialize (H ((from + k) mod 64) ltac:(mlia)). exact H.
Qed.

Lemma next_ready_visible s from :
  0 <= from -> 0 <= task_find_next_ready s from -> visible s (task_find_next_ready s from) = true.
Proof.
  intros Hf H. destruct (find_next_ready_cases s from Hf) as [[E _]|(k & Hk & -> & [H1 H2] & _)]; [lia|].
  unfold visible. rewrite (proj2 (Z.ltb_lt _ _)) by done. by rewrite bool_decide_eq_true_2.
Qed.

Lemma visible_ne s i j f : 0 <= i -> 0 <= j -> i <> j -> visible (tset i f s) j = visible s j.
Proof. intros Hi Hj Hne. unfold visible, state_of. by rewrite tget_tset_ne. Qed.

(** Reading what an update keeps, in range or not. *)
Lemma tget_keeps {A} (g : task -> A) f s i j :
  0 <= i -> 0 <= j -> (forall t, g (f t) = g t) -> g (tget (tset i f s) j) = g (tget s j).
Proof.
  intros Hi Hj Hg. destruct (decide (i = j)) as [->|]; [|by rewrite tget_tset_ne].
  unfold tget, tset. cbn [tasks]. rewrite !nth_lookup, list_lookup_alter_eq. by destruct (tasks s !! Z.to_nat j); cbn.
Qed.

Lemma visible_keeps f s i j : 0 <= i -> 0 <= j -> (forall t, t_state (f t) = t_state t) -> visible (tset i f s) j = visible s j.
Proof. intros Hi Hj Hf. unfold visible, state_of. by rewrite (tget_keeps t_state). Qed.

#[local] Ltac side := first [done | lia | by left | by right | right; by eexists].

(** What a tick writes: the stack pointer and the state of the task it leaves, the
    state of the task it enters, which was visible. *)
Lemma tick_commutes f i s r :
  0 <= i ->
  (forall j g s', 0 <= j -> j = current_task s \/ visible s j = true -> g = with_rsp r \/ (exists st, g = with_state st) ->
     tset j g (tset i f s') = tset i f (tset j g s')) ->
  (forall j, 0 <= j < 64 -> visible (tset i f s) j = visible s j) ->
  (forall j s', 0 <= j -> visible s j = true -> t_rsp (tget (tset i f s') j) = t_rsp (tget s' j)) ->
  scheduler_tick (tset i f s) r = ((scheduler_tick s r).1, tset i f (scheduler_tick s r).2).
Proof.
  intros Hi Hc Hv Hr. unfold scheduler_tick. change (current_task (tset i f s)) with (current_task s).
  destruct (Z.ltb_spec (current_task s) 0) as [|Hcur]; [done|]. cbv zeta.
  rewrite (Hc (current_task s)) by side. set (s1 := tset (current_task s) (with_rsp r) s).
  change (current_task (tset i f s1)) with (current_task s). change (current_task s1) with (current_task s).
  assert (Hv1 : forall j, 0 <= j < 64 -> visible (tset i f s1) j = visible s1 j).
  { intros j Hj. unfold s1. rewrite <-(Hc (current_task s)) by side.
    rewrite !(visible_keeps (with_rsp r)) by (done || lia). by apply Hv. }
  rewrite (next_ready_ext s1 _ _ Hv1). pose proof (next_ready_visible s1 (current_task s + 1) ltac:(lia)) as Hnx.
  set (next := task_find_next_ready s1 (current_task s + 1)) in *.
  destruct (Z.ltb_spec next 0) as [|Hn0]; cbn [orb].
  { cbn [fst snd]. by rewrite (Hc (current_task s)) by side. }
  destruct (Z.eqb_spec next (current_task s)) as [|Hne].
  { cbn [fst snd]. by rewrite (Hc (current_task s)) by side. }
  specialize (Hnx Hn0). unfold s1 in Hnx. rewrite (visible_keeps (with_rsp r)) in Hnx by done.
  cbn [fst snd]. rewrite (Hc (current_task s)) by side.
  change (set_current next (tset i f ?x)) with (tset i f (set_current next x)).
  change (current_task (tset _ _ (set_current next ?x))) with next. change (current_task (set_current next ?x)) with next.
  rewrite (Hc next) by side. by rewrite Hr.
Qed.

Lemma tick_inert f i s r :
  0 <= i -> inert f -> scheduler_tick (tset i f s) r = ((scheduler_tick s r).1, tset i f (scheduler_tick s r).2).
Proof.
  intros Hi [H1 H2 H3 H4]. apply tick_commutes; [done| | |].
  - intros j g s' Hj _ [->|[st ->]]; apply tset_comm; try done; intros t; by rewrite ?H3, ?H4.
  - intros j Hj. apply visible_keeps; done || lia.
  - intros j s' Hj _. by apply tget_keeps.
Qed.

Lemma tick_hidden f i s r :
  hidden s i -> visible (tset i f s) i = false ->
  scheduler_tick (tset i f s) r = ((scheduler_tick s r).1, tset i f (scheduler_tick s r).2).
Proof.
  intros [Hi Hc Hv] Hf. apply tick_commutes; [done| | |].
  - intros j g s' Hj Hjv _. apply tset_comm_ne; [done..|]. intros ->. destruct Hjv as [->|Hjv]; congruence.
  - intros j Hj. destruct (decide (i = j)) as [<-|]; [congruence|]. apply visible_ne; lia.
  - intros j s' Hj Hjv. rewrite tget_tset_ne; [done..|]. congruence.
Qed.

(** *** Any number of ticks *)

Lemma ticks_inert f i rs : forall s, 0 <= i -> inert f -> ticks (tset i f s) rs = tset i f (ticks s rs).
Proof.
  induction rs as [|r rs IH]; intros s Hi Hf; cbn [ticks]; [done|]. rewrite tick_inert by done. cbn [snd]. by apply IH.
Qed.

Lemma tick_keeps_hidden i s r : hidden s i -> hidden (scheduler_tick s r).2 i.
Proof.
  intros [Hi Hc Hv]. unfold scheduler_tick.
  destruct (Z.ltb_spec (current_task s) 0) as [|Hcur]; [by split|]. cbv zeta.
  set (s1 := tset (current_task s) (with_rsp r) s). change (current_task s1) with (current_task s).
  assert (Hv1 : visible s1 i = false) by (unfold s1; by rewrite visible_ne by done).
  pose proof (next_ready_visible s1 (current_task s + 1) ltac:(lia)) as Hnx.
  set (next := task_find_next_ready s1 (current_task s + 1)) in *.
  destruct (Z.ltb_spec next 0) as [|Hn0]; cbn [orb snd].
  { split; [done|done|]. by rewrite visible_ne. }
  destruct (Z.eqb_spec next (current_task s)) as [|Hne]; cbn [snd].
  { split; [done|done|]. by rewrite visible_ne. }
  specialize (Hnx Hn0). assert (Hni : next <> i) by congruence. split; [done|exact (not_eq_sym Hni)|].
  change (current_task (set_current next ?x)) with next. rewrite visible_ne by done.
  change (visible (tset (current_task s) (with_state TASK_READY) s1) i = false). by rewrite visible_ne.
Qed.

Lemma ticks_keeps_hidden i rs : forall s, hidden s i -> hidden (ticks s rs) i.
Proof. induction rs as [|r rs IH]; intros s Hh; [done|]. by apply IH, tick_keeps_hidden. Qed.

Lemma ticks_hidden f i rs : forall s,
  hidden s i -> hidden (tset i f s) i -> ticks (tset i f s) rs = tset i f (ticks s rs).
Proof.
  induction rs as [|r rs IH]; intros s Hh Hf; cbn [ticks]; [done|].
  pose proof (tick_hidden f i s r Hh (hd_visible _ _ Hf)) as E. rewrite E. cbn [snd]. apply IH.
  - by apply tick_keeps_hidden.
  - pose proof (tick_keeps_hidden i _ r Hf) as Hf'. by rewrite E in Hf'.
Qed.

(** Ticks neither make a slot free nor take a free one, and leave a running task. *)
Definition usable_sched (s : sched) : Prop := sched_wf s /\ state_of s (current_task s) = TASK_RUNNING.

Lemma tick_terminated s r i :
  usable_sched s -> 0 <= i < 64 ->
  usable_sched (scheduler_tick s r).2 /\
  (state_of (scheduler_tick s r).2 i = TASK_TERMINATED <-> state_of s i = TASK_TERMINATED).
Proof.
  intros [Hw Hrun] Hi. pose proof (tick_spec s r Hw) as T. split.
  { split; [by apply tick_wf|apply T]. }
  destruct (decide (current_task (scheduler_tick s r).2 = current_task s)) as [E|E].
  - destruct (decide (i = current_task s)) as [->|Hne].
    + rewrite <-E at 1. rewrite (tk_running _ _ _ _ T), Hrun. done.
    + rewrite (tk_other _ _ _ _ T); [done|lia|done|congruence].
  - destruct (tk_switch _ _ _ _ T E) as (_ & H1 & H2). destruct (decide (i = current_task s)) as [->|Hne].
    + by rewrite H1, Hrun.
    + destruct (decide (i = current_task (scheduler_tick s r).2)) as [->|Hne2].
      * by rewrite (tk_running _ _ _ _ T), H2.
      * by rewrite (tk_other _ _ _ _ T) by (done || lia).
Qed.

Lemma ticks_terminated rs : forall s,
  usable_sched s -> usable_sched (ticks s rs) /\
  forall i, 0 <= i < 64 -> (state_of (ticks s rs) i = TASK_TERMINATED <-> state_of s i = TASK_TERMINATED).
Proof.
  induction rs as [|r rs IH]; intros s Hu; cbn [ticks]; [done|].
  destruct (tick_terminated s r 0 Hu ltac:(lia)) as [Hu1 _]. destruct (IH _ Hu1) as [Hu2 H]. split; [done|].
  intros i Hi. rewrite (H i Hi). by apply tick_terminated.
Qed.

(** ** [task_create] with ticks between its statements *)

Section Preempted.
(** The frames of the ticks that arrive at each point: before each test of the
    search (0 to 63), before the stores to the new slot (64) and after each of them
    (65 to 67, 100), after each character of the name (68 to 99) and after its end
    (101). A tick reads and writes the table only: the frame it pushes goes to the
    stack of the task it interrupts, so between the calls of [task_create] that do
    not touch the table ticks commute, and the points above stand for all. *)
Context (fr : nat -> list Z).

(** The table, and the ticks taken so far. *)
Definition preempt (k : nat) (p : sched * list Z) : sched * list Z := (ticks p.1 (fr k), p.2 ++ fr k).
Definition store (f : sched -> sched) (p : sched * list Z) : sched * list Z := (f p.1, p.2).

Fixpoint find_free_preempted (n : nat) (i : Z) (p : sched * list Z) : Z * (sched * list Z) :=
  match n with
  | O => (-1, p)
  | S n =>
      let p := preempt (Z.to_nat i) p in
      if bool_decide (t_state (tget p.1 i) = TASK_TERMINATED) then (i, p) else find_free_preempted n (i + 1) p
  end.

Fixpoint name_copy_preempted (idx : Z) (n : nat) (name : list Z) (i : nat) (p : sched * list Z) : sched * list Z :=
  let set_char c := store (tset idx (fun t => with_name (<[i := c]> (t_name t)) t)) in
  match n, name with
  | S n, c :: name =>
      if truthy c then name_copy_preempted idx n name (S i) (preempt (68 + i) (set_char c p)) else set_char 0 p
  | _, _ => set_char 0 p
  end.

(** The stores to the slot. *)
Definition stores_preempted (idx frame stack_top stack_size : Z) (name : list Z) (p : sched * list Z) : sched * list Z :=
  let p := preempt 64 p in
  let p := preempt 65 (store (tset idx (with_rsp frame)) p) in
  let p := preempt 66 (store (tset idx (fun t => with_stack stack_top (t_kernel_stack_size t) t)) p) in
  let p := preempt 67 (store (tset idx (fun t => with_stack (t_kernel_stack_top t) stack_size t)) p) in
  let p := preempt 100 (store (tset idx (with_state TASK_READY)) p) in
  let p := name_copy_preempted idx 31 name 0 p in
  let p := preempt 101 p in
  store (fun s => if task_count s <=? idx then set_count (idx + 1) s else s) p.

Definition task_create_preempted (name : list Z) (entry : Z) (y : sys) : Z * sys * list Z :=
  let '(idx, p) := find_free_preempted 64 0 (y_sched y, []) in
  if idx <? 0 then (-1, Sys p.1 (y_pmm y) (y_mem y), p.2)
  else
    let stack_size := 4096 in
    let '(stack_phys, pm) := pmm_alloc (y_pmm y) (y_mem y) in
    if negb (truthy stack_phys) then (-1, Sys p.1 pm (y_mem y), p.2)
    else
      let '(m, _) := memset (y_mem y) (u64 (pmm_get_hhdm pm + stack_phys)) 0 stack_size in
      let stack_top := u64 (u64 (pmm_get_hhdm pm + stack_phys) + stack_size) in
      let frame := u64 (stack_top - sizeof_regs) in
      let m := init_frame frame stack_top entry m in
      let p := stores_preempted idx frame stack_top stack_size name p in
      (idx, Sys p.1 pm m, p.2).

(** The search finds the slot it would have found at once. *)
Lemma find_free_preempted_spec s n : forall i B,
  usable_sched s -> 0 <= i -> i + Z.of_nat n <= 64 ->
  exists B', find_free_preempted n i (ticks s B, B) =
    (search n i (fun i => bool_decide (t_state (tget s i) = TASK_TERMINATED)) id, (ticks s B', B')).
Proof using.
  induction n as [|n IH]; intros i B Hu Hi Hn; cbn [find_free_preempted search]; [by eexists|].
  unfold preempt. cbn [fst snd]. rewrite <-ticks_app.
  destruct (ticks_terminated (B ++ fr (Z.to_nat i)) s Hu) as [_ Ht]. specialize (Ht i ltac:(lia)).
  change (t_state (tget ?s ?i)) with (state_of s i). rewrite (bool_decide_ext _ _ Ht).
  destruct (bool_decide _); [by eexists|]. apply IH; [done|lia|lia].
Qed.

Lemma name_inert buf : inert (fun t => with_name (buf (t_name t)) t).
Proof using. by split. Qed.

(** The copy of the name goes on while ticks come. *)
Lemma name_copy_preempted_spec idx n : forall name i T C,
  0 <= idx ->
  exists D, name_copy_preempted idx n name i (T, C) =
    (tset idx (fun t => with_name (name_copy n name i (t_name t)) t) (ticks T D), C ++ D).
Proof using.
  induction n as [|n IH]; intros name i T C Hi.
  { exists []. cbn [name_copy_preempted name_copy ticks]. rewrite app_nil_r. by destruct name. }
  destruct name as [|c name]; cbn [name_copy_preempted name_copy]; [exists []; by rewrite app_nil_r|].
  destruct (truthy c); [|exists []; by rewrite app_nil_r].
  unfold preempt, store. cbn [fst snd]. set (f := fun t => with_name (<[i:=c]> (t_name t)) t).
  rewrite ticks_inert by (done || apply name_inert).
  destruct (IH name (S i) (tset idx f (ticks T (fr (68 + i)))) (C ++ fr (68 + i)) Hi) as (D & ->).
  exists (fr (68 + i) ++ D). rewrite ticks_inert by (done || apply name_inert). rewrite <-app_assoc, ticks_app. f_equal.
  unfold tset. cbn [tasks task_count current_task]. f_equal. rewrite list_alter_alter_eq. by apply list_alter_ext.
Qed.

(** A free slot stays hidden. *)
Lemma free_hidden s i : usable_sched s -> 0 <= i < 64 -> state_of s i = TASK_TERMINATED -> hidden s i.
Proof using.
  intros [Hw Hrun] Hi Hf. split; [lia|congruence|]. unfold visible. rewrite Hf. by rewrite andb_false_r.
Qed.

Lemma ticks_count rs : forall s, task_count (ticks s rs) = task_count s.
Proof using.
  induction rs as [|r rs IH]; intros s; cbn [ticks]; [done|]. rewrite IH. unfold scheduler_tick.
  destruct (_ <? 0); [done|]. cbv zeta. by destruct (_ || _).
Qed.

(** The stores to the slot up to its stack, and the one that makes it ready. *)
Definition fill (idx frame top size : Z) (s : sched) : sched :=
  tset idx (with_stack top size) (tset idx (with_rsp frame) s).

Lemma fill_parts idx frame top size s :
  tset idx (fun t => with_stack (t_kernel_stack_top t) size t)
    (tset idx (fun t => with_stack top (t_kernel_stack_size t) t) (tset idx (with_rsp frame) s)) = fill idx frame top size s.
Proof using.
  unfold fill, tset. cbn [tasks task_count current_task]. f_equal. rewrite !list_alter_alter_eq. by apply list_alter_ext.
Qed.

Section Slot.
Context (s : sched) (Hu : usable_sched s) (idx : Z) (Hidx : 0 <= idx < 64) (Hfree : state_of s idx = TASK_TERMINATED).
Context (frame top size : Z).

Lemma rsp_ticks B rs :
  ticks (tset idx (with_rsp frame) (ticks s B)) rs = tset idx (with_rsp frame) (ticks s (B ++ rs)).
Proof using Hu Hidx Hfree.
  rewrite ticks_app. destruct (ticks_terminated B s Hu) as [HuB Ht].
  assert (HfB : state_of (ticks s B) idx = TASK_TERMINATED) by by apply Ht.
  pose proof (free_hidden _ _ HuB Hidx HfB) as Hh. apply ticks_hidden; [exact Hh|].
  destruct Hh as [H1 H2 H3]. split; [done|done|]. by rewrite visible_keeps.
Qed.

Lemma fill_ticks B rs : ticks (fill idx frame top size (ticks s B)) rs = fill idx frame top size (ticks s (B ++ rs)).
Proof using Hu Hidx Hfree. unfold fill. rewrite ticks_inert, rsp_ticks by (done || lia). done. Qed.

(** Beyond [task_count] even a ready slot is hidden. *)
Lemma ready_ticks B rs :
  task_count s <= idx ->
  ticks (tset idx (with_state TASK_READY) (fill idx frame top size (ticks s B))) rs =
  tset idx (with_state TASK_READY) (fill idx frame top size (ticks s (B ++ rs))).
Proof using Hu Hidx Hfree.
  intros Hc. rewrite <-fill_ticks. destruct (ticks_terminated B s Hu) as [[HwB HrB] Ht].
  assert (HfB : state_of (ticks s B) idx = TASK_TERMINATED) by by apply Ht.
  assert (Hne : idx <> current_task (ticks s B)) by congruence.
  apply ticks_hidden.
  - split; [lia|exact Hne|]. unfold visible. change (task_count (fill _ _ _ _ ?x)) with (task_count x).
    rewrite ticks_count, (proj2 (Z.ltb_ge _ _)) by done. done.
  - split; [lia|exact Hne|]. unfold visible. change (task_count (tset _ _ (fill _ _ _ _ ?x))) with (task_count x).
    rewrite ticks_count, (proj2 (Z.ltb_ge _ _)) by done. done.
Qed.

(** The stores of an uninterrupted [task_create]. *)
Definition stores (name : list Z) (s : sched) : sched :=
  let s := tset idx (fun t => with_name (name_copy 31 name 0 (t_name t)) t)
    (tset idx (with_state TASK_READY) (fill idx frame top size s)) in
  if task_count s <=? idx then set_count (idx + 1) s else s.

Lemma stores_preempted_spec B name :
  exists before after, stores_preempted idx frame top size name (ticks s B, B) =
    (ticks (stores name (ticks s before)) after, before ++ after).
Proof using Hu Hidx Hfree.
  unfold stores_preempted, preempt, store. cbn [fst snd]. rewrite <-(ticks_app s).
  rewrite rsp_ticks, (ticks_inert (fun t => with_stack top (t_kernel_stack_size t) t)), rsp_ticks by (by split || lia).
  rewrite (ticks_inert (fun t => with_stack (t_kernel_stack_top t) size t)),
    (ticks_inert (fun t => with_stack top (t_kernel_stack_size t) t)), rsp_ticks by (by split || lia).
  rewrite fill_parts. set (B1 := (((B ++ fr 64) ++ fr 65) ++ fr 66) ++ fr 67). set (R s := tset idx (with_state TASK_READY) (fill idx frame top size s)).
  change (tset idx (with_state TASK_READY) (fill idx frame top size (ticks s B1))) with (R (ticks s B1)).
  destruct (name_copy_preempted_spec idx 31 name 0 (ticks (R (ticks s B1)) (fr 100)) (B1 ++ fr 100)) as (D & E); [lia|].
  rewrite E. cbn [fst snd]. rewrite ticks_inert by (lia || apply name_inert). rewrite <-!ticks_app, <-!app_assoc.
  set (A := fr 100 ++ D ++ fr 101). unfold stores.
  assert (HR : forall f x, task_count (tset idx f (R x)) = task_count x) by reflexivity.
  assert (HT : forall f x, task_count (tset idx f x) = task_count x) by reflexivity.
  rewrite HT, ticks_count. change (task_count (R (ticks s B1))) with (task_count (ticks s B1)). rewrite ticks_count.
  destruct (Z.leb_spec (task_count s) idx) as [Hnew|Hold].
  - exists (B1 ++ A), []. rewrite app_nil_r. cbn [ticks]. unfold R at 1. rewrite ready_ticks by done.
    fold (R (ticks s (B1 ++ A))). by rewrite HR, ticks_count, (proj2 (Z.leb_le _ _)) by done.
  - exists B1, A. fold (R (ticks s B1)). rewrite HR, ticks_count, (proj2 (Z.leb_gt _ _)) by done.
    by rewrite ticks_inert by (lia || apply name_inert).
Qed.
End Slot.
End Preempted.

(** ** Properties *)

Lemma find_free_ticks s B : usable_sched s -> task_find_free (ticks s B) = task_find_free s.
Proof.
  intros Hu. unfold task_find_free. apply search_ext. intros i Hi. apply bool_decide_ext.
  by apply (ticks_terminated B s Hu).
Qed.

(** C18 [task_create] needs no lock against the timer: wherever ticks hit it, it returns
    what it would have returned, allocates and writes the same memory, and leaves
    the table of an uninterrupted [task_create] with some of the ticks before it and
    the others after it, none lost. *)
Theorem task_create_preemptible fr name entry s pm m :
  usable_sched s ->
  exists before after,
    (task_create_preempted fr name entry (Sys s pm m)).2 = before ++ after /\
    (task_create_preempted fr name entry (Sys s pm m)).1 =
      let '(r, y) := task_create name entry (Sys (ticks s before) pm m) in
      (r, Sys (ticks (y_sched y) after) (y_pmm y) (y_mem y)).
Proof.
  intros Hu. unfold task_create_preempted, task_create. cbn [y_sched y_pmm y_mem].
  destruct (find_free_preempted_spec fr s 64 0 [] Hu) as (B & E); [lia..|]. cbn [ticks] in E. rewrite E. clear E.
  fold (task_find_free s). cbn [fst snd].
  destruct (find_free_cases s) as [[En _]|(Hidx & Hfree & _)].
  { rewrite En. exists B, []. rewrite app_nil_r. split; [done|]. cbn [Z.ltb Z.compare fst]. by rewrite find_free_ticks, En. }
  rewrite (proj2 (Z.ltb_ge _ _)) by lia. set (idx := task_find_free s) in *.
  destruct (pmm_alloc pm m) as [sp pm'] eqn:Ea. destruct (truthy sp) eqn:Et; cbn [negb].
  2: { exists B, []. rewrite app_nil_r, find_free_ticks by done. fold idx. by rewrite (proj2 (Z.ltb_ge _ _)) by lia. }
  destruct (memset m _ 0 4096) as [m1 ret] eqn:Em. set (top := u64 (u64 (pmm_get_hhdm pm' + sp) + 4096)).
  set (frame := u64 (top - sizeof_regs)).
  destruct (stores_preempted_spec fr s Hu idx Hidx Hfree frame top 4096 B name) as (before & after & ->).
  exists before, after. split; [done|]. cbn [fst snd]. rewrite find_free_ticks by done. fold idx.
  rewrite (proj2 (Z.ltb_ge _ _)) by lia. done.
Qed.

(** ** Two creators at a time *)

(** [task_create] from its search on, with the slot [idx] found. *)
Definition create_at (idx : Z) (name : list Z) (entry : Z) (y : sys) : Z * sys :=
  let stack_size := 4096 in
  let '(stack_phys, pm) := pmm_alloc (y_pmm y) (y_mem y) in
  if negb (truthy stack_phys) then (-1, Sys (y_sched y) pm (y_mem y))
  else
    let '(m, _) := memset (y_mem y) (u64 (pmm_get_hhdm pm + stack_phys)) 0 stack_size in
    let stack_top := u64 (u64 (pmm_get_hhdm pm + stack_phys) + stack_size) in
    let frame := u64 (stack_top - sizeof_regs) in
    let m := init_frame frame stack_top entry m in
    (idx, Sys (stores idx frame stack_top stack_size name (y_sched y)) pm m).

Lemma task_create_at name entry y :
  task_create name entry y =
    if task_find_free (y_sched y) <? 0 then (-1, y) else create_at (task_find_free (y_sched y)) name entry y.
Proof. reflexivity. Qed.

Lemma stores_slot idx frame top size name s i :
  0 <= idx < Z.of_nat (length (tasks s)) -> 0 <= i ->
  if decide (i = idx) then t_rsp (tget (stores idx frame top size name s) i) = frame
  else tget (stores idx frame top size name s) i = tget s i.
Proof.
  intros Hidx Hi. unfold stores, fill.
  assert (E : forall x c, tget (if task_count x <=? c then set_count (c + 1) x else x) i = tget x i) by
    (intros x c; by destruct (_ <=? _)).
  rewrite E. destruct (decide (i = idx)) as [->|Hne].
  - by rewrite !tget_tset_eq by (autorewrite with table; lia).
  - by rewrite !tget_tset_ne by lia.
Qed.

Lemma create_at_eq idx name entry s pm m p l :
  pmm_rep pm m (p :: l) -> pmm_hhdm pm + p + 4096 < 2 ^ 64 -> 0 <= idx < Z.of_nat (length (tasks s)) ->
  exists s' pm' m', create_at idx name entry (Sys s pm m) = (idx, Sys s' pm' m') /\
    t_rsp (tget s' idx) = pmm_hhdm pm + p + 3920 /\
    (forall i, 0 <= i -> i <> idx -> tget s' i = tget s i).
Proof.
  intros Hr Htop Hidx. pose proof (pmm_alloc_cons _ _ _ _ Hr) as (Hp & _ & Hh).
  pose proof (Forall_inv (rep_frames _ _ _ Hr)) as (Hp0 & _ & _). pose proof (rep_hhdm _ _ _ Hr) as Hh0.
  unfold create_at. cbn [y_sched y_pmm y_mem]. destruct (pmm_alloc pm m) as [p' pm'] eqn:Ea. cbn [fst snd] in *. subst p'.
  rewrite (proj2 (truthy_true p)) by lia. cbn [negb]. unfold pmm_get_hhdm, sizeof_regs. rewrite Hh.
  destruct (memset m _ 0 4096) as [m1 d] eqn:Em. rewrite !(u64_id (pmm_hhdm pm + p)) by lia.
  rewrite (u64_id (pmm_hhdm pm + p + 4096)), (u64_id (pmm_hhdm pm + p + 4096 - 176)) by lia.
  eexists _, pm', _. split; [reflexivity|]. split.
  - pose proof (stores_slot idx (pmm_hhdm pm + p + 4096 - 176) (pmm_hhdm pm + p + 4096) 4096 name s idx Hidx ltac:(lia)) as H.
    rewrite decide_True in H by done. rewrite H. lia.
  - intros i Hi Hne. pose proof (stores_slot idx (pmm_hhdm pm + p + 4096 - 176) (pmm_hhdm pm + p + 4096) 4096 name s i Hidx Hi) as H.
    by rewrite decide_False in H by done.
Qed.

Lemma ticks_length rs : forall s, length (tasks (ticks s rs)) = length (tasks s).
Proof.
  induction rs as [|r rs IH]; intros s; cbn [ticks]; [done|]. rewrite IH. unfold scheduler_tick.
  destruct (_ <? 0); [done|]. cbv zeta. destruct (_ || _); cbn [snd tset set_current tasks]; by rewrite !length_alter.
Qed.

(** Two tasks that create tasks at the same time can collide: when the one has found
    its slot and is preempted, and the other runs [task_create] to its end, both
    return the same slot; the table then holds the frame of the first one only, and
    the task of the second is lost with its stack. *)
Theorem concurrent_creates_collide name1 entry1 name2 entry2 s pm m p1 p2 l rs1 rs2 :
  usable_sched s -> pmm_rep pm m (p2 :: p1 :: l) ->
  pmm_hhdm pm + p1 + 4096 < 2 ^ 64 -> pmm_hhdm pm + p2 + 4096 < 2 ^ 64 ->
  0 <= entry2 < 2 ^ 64 -> (exists i, 0 <= i < 64 /\ state_of s i = TASK_TERMINATED) ->
  (forall i, 0 <= i < 64 -> length (t_name (tget (ticks s rs1) i)) = 32%nat) ->
  let idx := task_find_free s in
  exists s2 pm2 m2 s1 pm1 m1,
    task_create name2 entry2 (Sys (ticks s rs1) pm m) = (idx, Sys s2 pm2 m2) /\
    create_at idx name1 entry1 (Sys (ticks s2 rs2) pm2 m2) = (idx, Sys s1 pm1 m1) /\
    t_rsp (tget s2 idx) = pmm_hhdm pm + p2 + 3920 /\
    t_rsp (tget s1 idx) = pmm_hhdm pm + p1 + 3920 /\
    (forall i, 0 <= i -> i <> idx -> tget s1 i = tget (ticks s2 rs2) i).
Proof.
  intros Hu Hr H1 H2 He Hfree Hnames idx. destruct (ticks_terminated rs1 s Hu) as [[Hw Hrun] Ht].
  assert (Hfree' : exists i, 0 <= i < 64 /\ state_of (ticks s rs1) i = TASK_TERMINATED).
  { destruct Hfree as (i & Hi & Hs). exists i. split; [done|]. by apply Ht. }
  destruct (task_create_sound name2 entry2 _ pm m p2 (p1 :: l) Hw Hrun Hnames Hr H2 He Hfree') as
    (idx' & s2 & pm2 & m2 & E & (Hidx & _) & [Hl _ _ _ _ _] & _ & Hrsp & _ & _ & Hr2 & Hh & _).
  assert (idx' = idx) as ->.
  { rewrite task_create_at in E. cbn [y_sched] in E. rewrite find_free_ticks in E by done. fold idx in E.
    apply (f_equal fst) in E. cbn [fst] in E. destruct (idx <? 0); [cbn [fst] in E; lia|].
    unfold create_at in E. cbn [y_pmm y_mem] in E. destruct (pmm_alloc pm m) as [sp pm'].
    destruct (negb (truthy sp)); [cbn [fst] in E; lia|]. destruct (memset m _ 0 4096). by cbn [fst] in E. }
  destruct (create_at_eq idx name1 entry1 (ticks s2 rs2) pm2 m2 p1 l Hr2) as (s1 & pm1 & m1 & E1 & Hrsp1 & Hoth).
  { by rewrite Hh. } { rewrite ticks_length, Hl. lia. }
  exists s2, pm2, m2, s1, pm1, m1. rewrite <-Hh at 2. done.
Qed.

(** ** Concrete instances *)

Lemma demo_sched_usable : usable_sched demo_sched.
Proof. split; [exact demo_sched_wf|reflexivity]. Qed.

(** Ticks in the search, between the stores and in the name. *)
Definition demo_frames (k : nat) : list Z :=
  match k with 2%nat => [300] | 65%nat => [400; 500] | 69%nat => [600] | 101%nat => [700] | _ => [] end.

Lemma task_create_preemptible_witness :
  exists before after,
    (task_create_preempted demo_frames [65; 66; 0] 0x1234 (Sys demo_sched demo_pmm.1 demo_pmm.2)).2 = before ++ after /\
    (task_create_preempted demo_frames [65; 66; 0] 0x1234 (Sys demo_sched demo_pmm.1 demo_pmm.2)).1 =
      let '(r, y) := task_create [65; 66; 0] 0x1234 (Sys (ticks demo_sched before) demo_pmm.1 demo_pmm.2) in
      (r, Sys (ticks (y_sched y) after) (y_pmm y) (y_mem y)).
Proof. exact (task_create_preemptible demo_frames [65; 66; 0] 0x1234 demo_sched demo_pmm.1 demo_pmm.2 demo_sched_usable). Defined.

(** Every one of these ticks is taken, and the new task gets the first free slot. *)
Example demo_create_ticks :
  (task_create_preempted demo_frames [65; 66; 0] 0x1234 (Sys demo_sched demo_pmm.1 demo_pmm.2)).2 = [300; 400; 500; 600; 700] /\
  (task_create_preempted demo_frames [65; 66; 0] 0x1234 (Sys demo_sched demo_pmm.1 demo_pmm.2)).1.1 = 3.
Proof. split; vm_compute; reflexivity. Qed.

Lemma concurrent_creates_collide_witness :
  let idx := task_find_free demo_sched in
  idx = 3 /\ exists s2 pm2 m2 s1 pm1 m1,
    task_create [66; 0] 0x5678 (Sys (ticks demo_sched [300]) demo_pmm.1 demo_pmm.2) = (idx, Sys s2 pm2 m2) /\
    create_at idx [65; 0] 0x1234 (Sys (ticks s2 [400]) pm2 m2) = (idx, Sys s1 pm1 m1) /\
    t_rsp (tget s2 idx) = pmm_hhdm demo_pmm.1 + 0x3000 + 3920 /\ t_rsp (tget s1 idx) = pmm_hhdm demo_pmm.1 + 0x2000 + 3920 /\
    (forall i, 0 <= i -> i <> idx -> tget s1 i = tget (ticks s2 [400]) i).
Proof.
  split; [reflexivity|].
  apply (concurrent_creates_collide [65; 0] 0x1234 [66; 0] 0x5678 demo_sched demo_pmm.1 demo_pmm.2 0x2000 0x3000 [] [300] [400]).
  - exact demo_sched_usable.
  - exact demo_pmm_rep.
  - reflexivity.
  - reflexivity.
  - split; [done|reflexivity].
  - exists 5. split; [done|reflexivity].
  - below.
Defined.
