(* ===== verification/Context.v ===== *)
(** [src/arc/x86_64/interrupts.asm]: what an interrupt stub pushes and what
    [isr_return] pops, over the kernel's memory. The frame in memory is the
    [registers_t] of kernel.h (and the [task_regs_t] of scheduler.h). *)

From S2P Require Import Prelude Mem CString Pmm Format Sched.

(** The registers an interrupt must preserve: the 15 general-purpose ones in push
    order (rax first), and what the processor itself saves. *)
Record cpu := Cpu {
  c_rax : Z; c_rbx : Z; c_rcx : Z; c_rdx : Z; c_rsi : Z; c_rdi : Z; c_rbp : Z;
  c_r8 : Z; c_r9 : Z; c_r10 : Z; c_r11 : Z; c_r12 : Z; c_r13 : Z; c_r14 : Z; c_r15 : Z;
  c_rip : Z; c_cs : Z; c_rflags : Z; c_rsp : Z; c_ss : Z;
}.

(** [push v]; the state is the stack pointer and the memory. *)
Definition push (v : Z) (s : Z * mem) : Z * mem :=
  let rsp := u64 (s.1 - 8) in (rsp, st64 s.2 rsp v).

Definition push_all (vs : list Z) (s : Z * mem) : Z * mem := foldl (fun s v => push v s) s vs.

(** Delivery of an interrupt in 64-bit mode: the stack pointer is aligned to 16
    bytes and ss, rsp, rflags, cs, rip are pushed. *)
Definition deliver (c : cpu) (m : mem) : Z * mem :=
  push_all [c_ss c; c_rsp c; c_rflags c; c_cs c; c_rip c] (Z.land (c_rsp c) (not64 0xF), m).

(** The stubs [irqN]: [push 0; push vector; jmp irq_common]; an exception with an
    error code has it pushed by the processor in place of the 0. *)
Definition stub (err vector : Z) (s : Z * mem) : Z * mem := push vector (push err s).

(** [irq_common]/[isr_common] up to the call: the stack pointer is the argument. *)
Definition save_regs (c : cpu) (s : Z * mem) : Z * mem :=
  push_all [c_rax c; c_rbx c; c_rcx c; c_rdx c; c_rsi c; c_rdi c; c_rbp c;
            c_r8 c; c_r9 c; c_r10 c; c_r11 c; c_r12 c; c_r13 c; c_r14 c; c_r15 c] s.

Definition irq_entry (err vector : Z) (c : cpu) (m : mem) : Z * mem :=
  save_regs c (stub err vector (deliver c m)).

(** [pop] reads at the stack pointer. *)
Definition pop (m : mem) (rsp : Z) : Z * Z := (ld64 m rsp, u64 (rsp + 8)).

(** [isr_return]: pop r15 ... rax, [add rsp, 16], [iretq]. *)
Definition isr_return (m : mem) (rsp : Z) : cpu :=
  let '(r15, rsp) := pop m rsp in
  let '(r14, rsp) := pop m rsp in
  let '(r13, rsp) := pop m rsp in
  let '(r12, rsp) := pop m rsp in
  let '(r11, rsp) := pop m rsp in
  let '(r10, rsp) := pop m rsp in
  let '(r9, rsp) := pop m rsp in
  let '(r8, rsp) := pop m rsp in
  let '(rbp, rsp) := pop m rsp in
  let '(rdi, rsp) := pop m rsp in
  let '(rsi, rsp) := pop m rsp in
  let '(rdx, rsp) := pop m rsp in
  let '(rcx, rsp) := pop m rsp in
  let '(rbx, rsp) := pop m rsp in
  let '(rax, rsp) := pop m rsp in
  let rsp := u64 (rsp + 16) in
  let '(rip, rsp) := pop m rsp in
  let '(cs, rsp) := pop m rsp in
  let '(rflags, rsp) := pop m rsp in
  let '(rsp', rsp) := pop m rsp in
  let '(ss, rsp) := pop m rsp in
  Cpu rax rbx rcx rdx rsi rdi rbp r8 r9 r10 r11 r12 r13 r14 r15 rip cs rflags rsp' ss.

(** The tail of [irq_common]: [test rax, rax; jz isr_return; mov rsp, rax]. *)
Definition irq_exit (m : mem) (frame new_rsp : Z) : cpu :=
  isr_return m (if truthy new_rsp then new_rsp else frame).

(** ** The frame *)

(** All registers hold 64-bit words. *)
Definition cpu_words (c : cpu) : list Z :=
  [c_r15 c; c_r14 c; c_r13 c; c_r12 c; c_r11 c; c_r10 c; c_r9 c; c_r8 c;
   c_rbp c; c_rdi c; c_rsi c; c_rdx c; c_rcx c; c_rbx c; c_rax c].

Definition cpu_ok (c : cpu) : Prop :=
  Forall (fun x => 0 <= x < 2 ^ 64) (cpu_words c ++ [c_rip c; c_cs c; c_rflags c; c_rsp c; c_ss c]).

(** The 22 words of the frame, from its lowest address: [registers_t]. *)
Definition frame_words (err vector : Z) (c : cpu) : list Z :=
  cpu_words c ++ [vector; err; c_rip c; c_cs c; c_rflags c; c_rsp c; c_ss c].

Definition frame_base (c : cpu) : Z := Z.land (c_rsp c) (not64 0xF) - 176.

(** Memory holds the words [ws] from [a] upwards. *)
Fixpoint words_at (m : mem) (a : Z) (ws : list Z) : Prop :=
  match ws with
  | [] => True
  | w :: ws => ld64 m a = w /\ words_at m (a + 8) ws
  end.

Lemma words_at_agree m m' a ws :
  agree m m' a (8 * Z.of_nat (length ws)) -> words_at m a ws -> words_at m' a ws.
Proof.
  revert a. induction ws as [|w ws IH]; intros a Ha; [done|]. cbn [words_at length] in *.
  intros [<- Hr]. split; [apply ld64_agree; eapply agree_sub; [done|lia..]|].
  apply IH; [|done]. eapply agree_sub; [done|lia..].
Qed.

(** Pushing a list leaves its words, last pushed at the lowest address. *)
Lemma push_all_spec vs : forall rsp m,
  8 * Z.of_nat (length vs) <= rsp < 2 ^ 64 -> Forall (fun v => 0 <= v < 2 ^ 64) vs ->
  exists m', push_all vs (rsp, m) = (rsp - 8 * Z.of_nat (length vs), m') /\
    words_at m' (rsp - 8 * Z.of_nat (length vs)) (rev vs) /\
    (forall a n, a + n <= rsp - 8 * Z.of_nat (length vs) \/ rsp <= a -> agree m m' a n).
Proof.
  induction vs as [|v vs IH] using rev_ind; intros rsp m Hr Hv.
  { exists m. cbn. rewrite Z.sub_0_r. split; [done|]. split; [done|]. intros; apply agree_refl. }
  rewrite length_app in *. cbn [length] in *. apply Forall_app in Hv as [Hvs [Hv _]%Forall_cons].
  destruct (IH rsp m) as (m1 & E & Hw & Ha); [lia|done|].
  unfold push_all in *. rewrite foldl_app, E. cbn [foldl]. unfold push. cbn [fst snd].
  set (rsp1 := rsp - 8 * Z.of_nat (length vs)) in *.
  replace (rsp - 8 * Z.of_nat (length vs + 1)) with (rsp1 - 8) by lia.
  rewrite u64_id by lia. eexists. split; [done|].
  assert (Ha1 : forall a n, a + n <= rsp1 - 8 \/ rsp1 <= a -> agree m1 (st64 m1 (rsp1 - 8) v) a n).
  { intros a n Hd. apply (st_le_agree 8); auto with kernel. lia. }
  split.
  - rewrite rev_app_distr. cbn [rev app words_at]. split.
    + rewrite ld64_st64_eq by auto with kernel. by apply u64_id.
    + replace (rsp1 - 8 + 8) with rsp1 by lia. eapply words_at_agree; [|done]. apply Ha1. lia.
  - intros a n Hd. eapply agree_trans; [apply Ha; lia|apply Ha1; lia].
Qed.

Lemma push_all_app vs1 vs2 s : push_all (vs1 ++ vs2) s = push_all vs2 (push_all vs1 s).
Proof. unfold push_all. apply foldl_app. Qed.

(** The frame an interrupt leaves: a [registers_t] just below the interrupted
    stack pointer, everything outside it untouched. *)
Lemma irq_entry_frame err vector c m :
  cpu_ok c -> 192 <= c_rsp c -> 0 <= err < 2 ^ 64 -> 0 <= vector < 2 ^ 64 ->
  exists m', irq_entry err vector c m = (frame_base c, m') /\
    words_at m' (frame_base c) (frame_words err vector c) /\
    (forall a n, a + n <= frame_base c \/ c_rsp c <= a -> agree m m' a n).
Proof.
  intros Hok Hr He Hv.
  assert (Hb : 0 <= c_rsp c < 2 ^ 64).
  { unfold cpu_ok, cpu_words in Hok. cbn [app] in Hok. repeat apply Forall_cons in Hok as [? Hok]. done. }
  set (top := Z.land (c_rsp c) (not64 0xF)).
  assert (Htop : top = c_rsp c - c_rsp c mod 16).
  { unfold top. change 0xF with (Z.ones 4). by rewrite land_not64_ones by lia. }
  set (vs := [c_ss c; c_rsp c; c_rflags c; c_cs c; c_rip c] ++ [err; vector] ++ rev (cpu_words c)).
  assert (E : irq_entry err vector c m = push_all vs (top, m)).
  { unfold vs. rewrite !push_all_app. reflexivity. }
  destruct (push_all_spec vs top m) as (m' & Ep & Hw & Ha).
  - unfold vs. cbn. mlia.
  - unfold vs, cpu_ok, cpu_words in *. cbn [app rev] in *.
    repeat apply Forall_cons in Hok as [? Hok]. repeat (constructor; [assumption|]). constructor.
  - exists m'. rewrite E, Ep. change (8 * Z.of_nat (length vs)) with 176 in *.
    split; [done|]. split; [exact Hw|]. intros a n Hd. apply Ha. unfold frame_base in Hd. fold top in Hd.
    mlia.
Qed.

(** The frame stays inside the address space, just below the stack pointer. *)
Lemma frame_fits c :
  cpu_ok c -> 192 <= c_rsp c ->
  0 < frame_base c /\ frame_base c + 176 <= c_rsp c < 2 ^ 64 /\ c_rsp c - 192 < frame_base c.
Proof.
  intros Hok Hr. unfold cpu_ok, cpu_words in Hok. cbn [app] in Hok.
  assert (Hb : 0 <= c_rsp c < 2 ^ 64) by (repeat apply Forall_cons in Hok as [? Hok]; done).
  unfold frame_base. change 0xF with (Z.ones 4). rewrite land_not64_ones by lia. mlia.
Qed.

(** The words the handlers look at. *)
Lemma frame_fields m base err vector c :
  words_at m base (frame_words err vector c) ->
  ld64 m (base + 120) = vector /\ ld64 m (base + 128) = err /\ ld64 m (base + 136) = c_rip c.
Proof.
  intros Hw. unfold frame_words, cpu_words in Hw. cbn [app words_at] in Hw. rewrite <-!Z.add_assoc in Hw.
  split; [apply Hw|]. split; apply Hw.
Qed.

Lemma frame_vector m base err vector c :
  words_at m base (frame_words err vector c) -> ld64 m (base + 120) = vector.
Proof. intros Hw. by destruct (frame_fields _ _ _ _ _ Hw). Qed.

(** Popping a frame gives back its words. *)
Lemma isr_return_frame m base err vector c :
  0 <= base -> base + 176 < 2 ^ 64 -> words_at m base (frame_words err vector c) -> isr_return m base = c.
Proof.
  intros Hb Ht Hw. unfold frame_words, cpu_words in Hw. cbn [app words_at] in Hw.
  unfold isr_return, pop.
  repeat match goal with |- context [u64 (?x + 8)] => rewrite (u64_id (x + 8)) by lia end.
  match goal with |- context [u64 (?x + 16)] =>
    rewrite (u64_id (x + 16)) by lia; replace (x + 16) with (x + 8 + 8) by lia end.
  repeat match goal with |- context [u64 (?x + 8)] => rewrite (u64_id (x + 8)) by lia end.
  repeat match goal with H : _ /\ _ |- _ => destruct H as [? H] end.
  destruct c. cbn in *. f_equal; assumption.
Qed.

(** ** Properties *)

(** An interrupt is transparent: whatever the vector, if the handler asks for no
    switch and leaves the frame alone, every register is restored, and the entry
    wrote only below the interrupted stack pointer. *)
Theorem interrupt_transparent err vector c m :
  cpu_ok c -> 192 <= c_rsp c -> 0 <= err < 2 ^ 64 -> 0 <= vector < 2 ^ 64 ->
  exists frame m1, irq_entry err vector c m = (frame, m1) /\
    (forall m2, agree m1 m2 frame 176 -> irq_exit m2 frame 0 = c) /\
    ld64 m1 (frame + 120) = vector /\ ld64 m1 (frame + 128) = err /\ ld64 m1 (frame + 136) = c_rip c /\
    c_rsp c - 192 < frame /\ (forall a n, a + n <= frame \/ c_rsp c <= a -> agree m m1 a n).
Proof.
  intros Hok Hr He Hv. destruct (irq_entry_frame err vector c m Hok Hr He Hv) as (m1 & E & Hw & Ha).
  pose proof (frame_fits c Hok Hr) as Hfr.
  exists (frame_base c), m1. split; [done|]. split.
  - intros m2 Hag. unfold irq_exit. change (truthy 0) with false. cbv iota. apply (isr_return_frame m2 _ err vector); [lia|lia|].
    by eapply words_at_agree.
  - destruct (frame_fields _ _ _ _ _ Hw) as (-> & -> & ->). do 3 (split; [done|]). split; [lia|done].
Qed.

Lemma words_at_nth m a ws :
  (forall k, (k < length ws)%nat -> ld64 m (a + 8 * Z.of_nat k) = nth k ws 0) -> words_at m a ws.
Proof.
  revert a. induction ws as [|w ws IH]; intros a Hk; [done|]. cbn [words_at length] in *. split.
  - pose proof (Hk 0%nat ltac:(lia)) as H0. cbn [nth] in H0. rewrite <-H0. f_equal. lia.
  - apply IH. intros k Hlt. pose proof (Hk (S k) ltac:(lia)) as HS. cbn [nth] in HS.
    rewrite <-HS. f_equal. lia.
Qed.

(** The processor state in which a new task starts. *)
Definition fresh_cpu (entry stack_top : Z) : cpu :=
  Cpu 0 0 0 0 0 0 0 0 0 0 0 0 0 0 0 entry 0x08 0x202 stack_top 0x10.

Lemma fresh_frame m base entry top :
  (forall k, 0 <= k < 22 -> reg m base k = fresh_regs entry top k) ->
  words_at m base (frame_words 0 0 (fresh_cpu entry top)).
Proof.
  intros Hreg. apply words_at_nth. intros k Hk. change (length _) with 22%nat in Hk.
  fold (reg m base (Z.of_nat k)). rewrite Hreg by lia.
  do 22 (destruct k as [|k]; [reflexivity|]). lia.
Qed.

(** A task created by [task_create] starts, when a switch returns its saved stack
    pointer, at its entry point in the kernel code segment with interrupts
    enabled, zero registers, and an empty stack of its own. *)
Theorem new_task_starts name entry s pm m p l old_frame :
  pmm_rep pm m (p :: l) -> pmm_hhdm pm + p + 4096 < 2 ^ 64 -> 0 <= entry < 2 ^ 64 ->
  length (tasks s) = 64%nat -> 0 <= task_find_free s ->
  exists idx s' pm' m', task_create name entry (Sys s pm m) = (idx, Sys s' pm' m') /\
    0 <= idx /\ t_rsp (tget s' idx) <> 0 /\
    irq_exit m' old_frame (t_rsp (tget s' idx)) = fresh_cpu entry (pmm_hhdm pm + p + 4096).
Proof.
  intros Hr Htop He Hl Hidx.
  assert (Hidx' : 0 <= task_find_free s < Z.of_nat (length (tasks s))).
  { destruct (find_free_cases s) as [[E _]|[? _]]; lia. }
  destruct (task_create_eq name entry s pm m p l Hr Htop Hidx') as
    (pm' & s' & E & _ & _ & _ & _ & _ & Ht & _).
  pose proof (Forall_inv (rep_frames _ _ _ Hr)) as (Hp0 & Hpa & Hpb).
  pose proof (rep_hhdm _ _ _ Hr) as Hh0.
  destruct (init_frame_spec m (pmm_hhdm pm + p) entry) as [Hregs _]; [lia..|].
  eexists _, s', pm', _. split; [exact E|]. split; [done|]. rewrite Ht. cbn [new_task t_rsp].
  split; [lia|]. unfold irq_exit. rewrite (proj2 (truthy_true _)) by lia.
  apply (isr_return_frame _ _ 0 0); [lia..|]. by apply fresh_frame.
Qed.

(** ** At concrete inputs *)

Definition demo_cpu : cpu :=
  Cpu 1 2 3 4 5 6 7 8 9 10 11 12 13 14 15 0x401000 0x08 0x202 0x9008 0x10.

Lemma demo_cpu_ok : cpu_ok demo_cpu.
Proof. unfold cpu_ok. cbn. repeat (constructor; [lia|]). constructor. Qed.

Lemma interrupt_transparent_witness : exists frame m1,
  irq_entry 0 32 demo_cpu ∅ = (frame, m1) /\ irq_exit m1 frame 0 = demo_cpu.
Proof.
  destruct (interrupt_transparent 0 32 demo_cpu ∅ demo_cpu_ok) as (frame & m1 & E & H & _);
    [cbn; lia|lia|lia|].
  exists frame, m1. split; [exact E|]. apply H, agree_refl.
Defined.

Lemma new_task_starts_witness : exists idx s' pm' m',
  task_create [65; 0] 0x1234 (Sys demo_sched demo_pmm.1 demo_pmm.2) = (idx, Sys s' pm' m') /\
  irq_exit m' 0 (t_rsp (tget s' idx)) = fresh_cpu 0x1234 (demo_hhdm + 0x4000).
Proof.
  destruct (new_task_starts [65; 0] 0x1234 demo_sched demo_pmm.1 demo_pmm.2 0x3000 [0x2000] 0)
    as (idx & s' & pm' & m' & E & _ & _ & H).
  - exact demo_pmm_rep.
  - reflexivity.
  - lia.
  - reflexivity.
  - vm_compute. congruence.
  - exists idx, s', pm', m'. split; [exact E|exact H].
Defined.
