(* ===== verification/Timer.v ===== *)
(** [src/arc/x86_64/drivers/timer.c]: the PIT and the tick counter. [timer_sleep] waits
    with interrupts enabled from its [sti] to its [cli], so a tick may come at any point
    between: an argument says how many come before and after each compare. *)

From S2P Require Import Prelude PortIO.

Definition PIT_BASE_FREQ : Z := 1193182.

(** The statics. *)
Record timer := Timer { timer_ticks : Z; timer_freq : Z; pit_divisor : Z }.

Definition timer_bss : timer := Timer 0 0 0.

Definition timer_handler (t : timer) : timer :=
  Timer (u64 (timer_ticks t + 1)) (timer_freq t) (pit_divisor t).

Definition timer_get_ticks (t : timer) : Z := timer_ticks t.

(** One turn of the waiting loop: the ticks that arrive before its compare (since [sti],
    or since the [hlt] of the turn before, which they end), and those that arrive after
    it, before the [hlt] or, in the last turn, before the [cli]. A [hlt] that another
    interrupt ends adds no tick. *)
Abbreviation turn := (nat * nat)%type.

Section Timer.
Context (dev : trace -> Z -> Z).

Definition pit_read_count : prog trace Z := (
  outb 0x43 0x00 ;;
  let* low := inb dev 0x40 in
  let* high := inb dev 0x40 in
  pret (u16 (Z.lor (u16 low) (Z.shiftl (u16 high) 8))))%prog.

(** [None]: the division faults. *)
Definition timer_init (frequency : Z) (t : timer) : prog trace timer :=
  if frequency =? 0 then pdiverge
  else
    let d := u16 (PIT_BASE_FREQ / frequency) in (
    outb 0x43 0x34 ;;
    outb 0x40 (u8 (Z.land d 0xFF)) ;;
    outb 0x40 (u8 (Z.land (Z.shiftr d 8) 0xFF)) ;;
    pret (Timer 0 frequency d))%prog.

Definition sleep_target (ms : Z) (t : timer) : Z :=
  u64 (timer_ticks t + u32 (timer_freq t * ms) / 1000).

(** The waiting loop; [None] when [wakes] ends before a compare sees the target. *)
Fixpoint sleep_loop (target : Z) (wakes : list turn) (t : timer) : prog trace timer :=
  match wakes with
  | [] => pdiverge
  | (before, after) :: wakes =>
      let t := Nat.iter before timer_handler t in
      if timer_ticks t <? target
      then (emit Hlt ;; sleep_loop target wakes (Nat.iter after timer_handler t))%prog
      else pret (Nat.iter after timer_handler t)
  end.

Definition timer_sleep (ms : Z) (wakes : list turn) (t : timer) : prog trace timer := (
  let target := sleep_target ms t in
  emit Sti ;;
  let* t := sleep_loop target wakes t in
  emit Cli ;;
  pret t)%prog.
End Timer.

Lemma iter_ticks k t :
  timer_ticks t + Z.of_nat k < 2 ^ 64 -> 0 <= timer_ticks t ->
  Nat.iter k timer_handler t = Timer (timer_ticks t + Z.of_nat k) (timer_freq t) (pit_divisor t).
Proof.
  intros Hb Ht. induction k as [|k IH]; cbn [Nat.iter nat_rect].
  - destruct t. cbn. f_equal. lia.
  - fold (Nat.iter k timer_handler t). rewrite IH by lia. unfold timer_handler. cbn.
    f_equal. rewrite u64_id; lia.
Qed.

(** All ticks of some turns, and those the last compare among them has seen. *)
Definition arrived (wakes : list turn) : Z := foldr (fun w n => Z.of_nat (w.1 + w.2) + n) 0 wakes.

Fixpoint seen (wakes : list turn) : Z :=
  match wakes with
  | [] => 0
  | [(before, _)] => Z.of_nat before
  | (before, after) :: wakes => Z.of_nat (before + after) + seen wakes
  end.

Lemma arrived_nonneg wakes : 0 <= arrived wakes.
Proof. unfold arrived. induction wakes; cbn [foldr]; lia. Qed.

Lemma seen_cons b a wakes : wakes <> [] -> seen ((b, a) :: wakes) = Z.of_nat (b + a) + seen wakes.
Proof. by destruct wakes. Qed.

Lemma seen_nonneg wakes : 0 <= seen wakes.
Proof.
  induction wakes as [|[b a] wakes IH]; [done|]. destruct wakes as [|w wakes]; [cbn; lia|].
  rewrite seen_cons by done. lia.
Qed.

Lemma seen_arrived wakes : seen wakes <= arrived wakes.
Proof.
  unfold arrived. induction wakes as [|[b a] wakes IH]; [done|].
  destruct (decide (wakes = [])) as [->|]; [cbn; lia|]. rewrite seen_cons by done. cbn [foldr fst snd]. lia.
Qed.

Lemma take_S_ne {A} k (l : list A) : l <> [] -> take (S k) l <> [].
Proof. by destruct l. Qed.

(** The ticks up to a [hlt] are among those the next compare sees. *)
Lemma arrived_seen k wakes : (S k < length wakes)%nat -> arrived (take (S k) wakes) <= seen (take (S (S k)) wakes).
Proof.
  revert wakes. induction k as [|k IH]; intros [|[b a] [|[b' a'] wakes]] Hl; cbn [length] in Hl; try lia.
  - unfold arrived. cbn [take foldr fst snd seen]. rewrite take_0. lia.
  - specialize (IH ((b', a') :: wakes) ltac:(cbn; lia)).
    change (take (S (S k)) ((b, a) :: (b', a') :: wakes)) with ((b, a) :: take (S k) ((b', a') :: wakes)).
    change (take (S (S (S k))) ((b, a) :: (b', a') :: wakes)) with ((b, a) :: take (S (S k)) ((b', a') :: wakes)).
    rewrite seen_cons by done. unfold arrived in *. cbn [foldr fst snd]. lia.
Qed.

(** The loop ends at the first compare that sees the target. *)
Lemma sleep_loop_spec target wakes : forall t tr,
  wakes <> [] -> 0 <= timer_ticks t -> timer_ticks t + arrived wakes < 2 ^ 64 -> target <= timer_ticks t + seen wakes ->
  exists n, (n < length wakes)%nat /\
    sleep_loop target wakes t tr =
      Some (Timer (timer_ticks t + arrived (take (S n) wakes)) (timer_freq t) (pit_divisor t), repeat Hlt n ++ tr) /\
    target <= timer_ticks t + seen (take (S n) wakes) /\
    forall k, (k < n)%nat -> timer_ticks t + seen (take (S k) wakes) < target.
Proof.
  induction wakes as [|[b a] wakes IH]; intros t tr Hne Ht Hb Htg; [done|]. cbn [sleep_loop length].
  assert (Ea : arrived ((b, a) :: wakes) = Z.of_nat (b + a) + arrived wakes) by done.
  pose proof (arrived_nonneg wakes) as Hp. rewrite Ea in Hb. rewrite (iter_ticks b) by lia.
  cbv zeta. cbn [timer_ticks]. rewrite iter_ticks by (cbn [timer_ticks]; lia). cbn [timer_ticks timer_freq pit_divisor].
  destruct (Z.ltb_spec (timer_ticks t + Z.of_nat b) target) as [Hlow|Hge].
  2: { exists 0%nat. split; [lia|]. split; [|split; [done|lia]]. unfold arrived. cbn [take foldr fst snd repeat app].
       unfold pret. rewrite take_0. cbn [foldr]. do 3 f_equal. lia. }
  assert (Hw : wakes <> []) by (intros ->; cbn in Htg; lia). rewrite seen_cons in Htg by done.
  destruct (IH (Timer (timer_ticks t + Z.of_nat b + Z.of_nat a) (timer_freq t) (pit_divisor t)) (Hlt :: tr) Hw)
    as (n & Hn & E & Hr & Hk); cbn [timer_ticks]; try lia.
  cbn [timer_ticks timer_freq pit_divisor] in *. exists (S n). split; [lia|].
  change (take (S (S n)) ((b, a) :: wakes)) with ((b, a) :: take (S n) wakes).
  rewrite seen_cons by (by apply take_S_ne). split; [|split; [lia|]].
  - unfold emit, pmodify, pbind. rewrite E. change (repeat Hlt (S n)) with (Hlt :: repeat Hlt n).
    rewrite repeat_cons, <-app_assoc. do 3 f_equal. unfold arrived. cbn [foldr fst snd]. lia.
  - intros [|k] Hkn; [cbn [take seen]; rewrite take_0; lia|].
    change (take (S (S k)) ((b, a) :: wakes)) with ((b, a) :: take (S k) wakes).
    rewrite seen_cons by (by apply take_S_ne). specialize (Hk k ltac:(lia)). lia.
Qed.

(** ** Properties *)

(** C37 [timer_sleep] with ticks that arrive at any point of its loop, before and after
    each compare: if some compare comes to see [need] ticks, where [need] is
    [freq * ms / 1000] with the product on 32 bits as the code computes it, and the
    counter does not wrap, then it terminates; the first compare that sees [need] ticks
    ends it, and no earlier one does; at most its last [hlt] is entered with the ticks
    already there; interrupts are enabled exactly while it waits. *)
Theorem timer_sleep_waits ms wakes t tr :
  let need := u32 (timer_freq t * ms) / 1000 in
  wakes <> [] -> need <= seen wakes ->
  0 <= timer_ticks t -> timer_ticks t + need < 2 ^ 64 -> timer_ticks t + arrived wakes < 2 ^ 64 ->
  exists n t', timer_sleep ms wakes t tr = Some (t', Cli :: repeat Hlt n ++ Sti :: tr) /\
    (n < length wakes)%nat /\
    timer_ticks t' = timer_ticks t + arrived (take (S n) wakes) /\
    need <= seen (take (S n) wakes) /\ need <= timer_ticks t' - timer_ticks t /\
    (forall k, (k < n)%nat -> seen (take (S k) wakes) < need) /\
    (forall k, (S k < n)%nat -> arrived (take (S k) wakes) < need) /\
    (timer_freq t * ms < 2 ^ 32 -> 0 <= timer_freq t * ms -> need = timer_freq t * ms / 1000).
Proof.
  intros need Hw Hs Ht Hn Hb.
  assert (Hneed : 0 <= need) by (unfold need; pose proof (u32_bound (timer_freq t * ms)); mlia).
  assert (Htg : sleep_target ms t = timer_ticks t + need) by (unfold sleep_target; apply u64_id; fold need; lia).
  destruct (sleep_loop_spec (sleep_target ms t) wakes t (Sti :: tr) Hw Ht Hb) as (n & Hnl & E & Hr & Hk); [lia|].
  rewrite Htg in Hr, Hk. eexists n, (Timer _ _ _). cbn [timer_ticks].
  pose proof (seen_arrived (take (S n) wakes)).
  split; [|split; [done|split; [reflexivity|split; [lia|split; [lia|split; [|split]]]]]].
  - unfold timer_sleep. cbv zeta. erewrite pbind_step by done. erewrite pbind_step by exact E. done.
  - intros k Hkn. specialize (Hk k Hkn). lia.
  - intros k Hkn. specialize (Hk (S k) Hkn). pose proof (arrived_seen k wakes ltac:(lia)). lia.
  - intros ? ?. unfold need. by rewrite u32_id by lia.
Qed.

(** The compare and the [hlt] are two steps with interrupts enabled: when the tick that
    reaches the target arrives between them, the processor halts all the same, until some
    later interrupt; a tick that comes before the compare ends the wait at once. *)
Theorem timer_sleep_race div tr :
  timer_sleep 10 [(0, 1); (1, 0)]%nat (Timer 0 100 div) tr = Some (Timer 2 100 div, Cli :: Hlt :: Sti :: tr) /\
  timer_sleep 10 [(1, 0)]%nat (Timer 0 100 div) tr = Some (Timer 1 100 div, Cli :: Sti :: tr).
Proof. by split. Qed.

(** The product [timer_freq * ms] is computed on 32 bits: a sleep of
    [2^32 / freq] milliseconds or more can return at once. *)
Theorem timer_sleep_overflow before after wakes div tr :
  Z.of_nat (before + after) < 2 ^ 64 ->
  timer_sleep 42949673 ((before, after) :: wakes) (Timer 0 100 div) tr =
    Some (Timer (Z.of_nat (before + after)) 100 div, Cli :: Sti :: tr).
Proof.
  intros Hb. unfold timer_sleep. change (sleep_target 42949673 (Timer 0 100 div)) with 0. cbv zeta.
  erewrite pbind_step by done. cbn [sleep_loop]. rewrite (iter_ticks before) by (cbn; lia).
  cbn [timer_ticks timer_freq pit_divisor]. rewrite iter_ticks by (cbn; lia).
  rewrite (proj2 (Z.ltb_ge (0 + Z.of_nat before) 0)) by lia.
  cbn [timer_ticks timer_freq pit_divisor].
  replace (0 + Z.of_nat before + Z.of_nat after) with (Z.of_nat (before + after)) by lia. reflexivity.
Qed.

(** [timer_init] programs channel 0 in mode 2 with the divisor, low byte first;
    for a frequency from 19 Hz to the base frequency the PIT then runs at no less
    than the requested rate and one count less would be too slow. *)
Theorem timer_init_programs frequency t tr :
  19 <= frequency <= PIT_BASE_FREQ ->
  exists t' tr' d, timer_init frequency t tr = Some (t', tr') /\
    timer_ticks t' = 0 /\ timer_freq t' = frequency /\ pit_divisor t' = d /\
    1 <= d < 2 ^ 16 /\ d * frequency <= PIT_BASE_FREQ < (d + 1) * frequency /\
    sent 0x43 tr' = sent 0x43 tr ++ [0x34] /\
    exists lo hi, sent 0x40 tr' = sent 0x40 tr ++ [lo; hi] /\ lo + 256 * hi = d.
Proof.
  intros Hf. unfold PIT_BASE_FREQ in *. set (d := 1193182 / frequency).
  assert (Hd : 1 <= d < 2 ^ 16 /\ d * frequency <= 1193182 < (d + 1) * frequency).
  { pose proof (Z.div_mod 1193182 frequency ltac:(lia)). pose proof (Z.mod_pos_bound 1193182 frequency).
    fold d in H. split; [split|]; nia. }
  unfold timer_init. rewrite (proj2 (Z.eqb_neq frequency 0)) by lia. unfold PIT_BASE_FREQ. fold d.
  rewrite (u16_id d) by lia. change 0xFF with (Z.ones 8). rewrite !Z.land_ones by lia.
  rewrite Z.shiftr_div_pow2 by lia.
  eexists _, _, d. split; [reflexivity|]. do 3 (split; [done|]). split; [lia|]. split; [lia|].
  split; [by rewrite !sent_out_ne, sent_out_eq by done|].
  eexists _, _. split.
  { rewrite sent_out_eq, sent_out_eq, sent_out_ne, <-app_assoc by done. reflexivity. }
  assert (Hb : forall x, u8 (u8 (x mod 2 ^ 8)) = x mod 2 ^ 8).
  { intros x. rewrite !u8_id; [done|..]; rewrite ?u8_id; mlia. }
  rewrite !Hb. mlia.
Qed.

(** [pit_read_count] assembles the two bytes of the latched counter. *)
Lemma pit_read_count_spec dev tr :
  exists tr' lo hi, pit_read_count dev tr = Some (lo + 256 * hi, tr') /\
    0 <= lo < 256 /\ 0 <= hi < 256 /\ hd_error tr' = Some (In8 0x40 hi).
Proof.
  set (tr1 := Out8 0x43 0 :: tr). set (lo := u8 (dev tr1 0x40)).
  set (hi := u8 (dev (In8 0x40 lo :: tr1) 0x40)).
  assert (0 <= lo < 2 ^ 8) by apply u8_bound. assert (0 <= hi < 2 ^ 8) by apply u8_bound.
  exists (In8 0x40 hi :: In8 0x40 lo :: tr1), lo, hi. split; [|split; [lia|split; [lia|done]]].
  transitivity (Some (u16 (Z.lor (u16 lo) (Z.shiftl (u16 hi) 8)), In8 0x40 hi :: In8 0x40 lo :: tr1));
    [reflexivity|]. do 2 f_equal.
  rewrite (u16_id lo), (u16_id hi), Z.shiftl_mul_pow2 by lia.
  rewrite Z.lor_comm, (lor_low_add _ lo 8) by mlia. rewrite u16_id; lia.
Qed.

Lemma timer_sleep_waits_witness : exists n t',
  timer_sleep 30 [(1, 0); (0, 2); (1, 1)]%nat (Timer 7 100 11931) [] = Some (t', Cli :: repeat Hlt n ++ [Sti]) /\
  3 <= timer_ticks t' - 7.
Proof.
  destruct (timer_sleep_waits 30 [(1, 0); (0, 2); (1, 1)]%nat (Timer 7 100 11931) []) as (n & t' & E & _ & _ & _ & H & _);
    [discriminate|vm_compute; congruence..|].
  exists n, t'. split; [exact E|exact H].
Defined.

Lemma timer_init_programs_witness : exists t' tr',
  timer_init 100 timer_bss [] = Some (t', tr') /\ timer_freq t' = 100.
Proof.
  destruct (timer_init_programs 100 timer_bss []) as (t' & tr' & d & E & _ & F & _).
  - split; [lia|vm_compute; congruence].
  - exists t', tr'. split; [exact E|exact F].
Defined.
