(* ===== verification/Keyboard.v ===== *)
(** [src/arc/x86_64/drivers/keyboard.c]: scan codes to characters, and the ring
    buffer between the interrupt handler (producer) and the readers (consumer). *)

From Stdlib Require Import String Ascii.
From S2P Require Import Prelude PortIO Panic.

Definition KB_BUFFER_SIZE : Z := 256.

(** The statics. *)
Record kbd := Kbd { kb_buffer : list Z; kb_head : Z; kb_tail : Z; shift_pressed : Z }.

Definition kbd_bss : kbd := Kbd (repeat 0 256) 0 0 0.

(** The tables: a row per line of the source; entries not named are 0. *)
Definition scancode_table : list Z :=
  [0; 27] ++ chars "1234567890-=" ++ [8] ++
  [9] ++ chars "qwertyuiop[]" ++ [10] ++
  [0] ++ chars "asdfghjkl;'`" ++
  [0] ++ chars "\zxcvbnm,./" ++ [0] ++
  chars "*" ++ [0] ++ chars " " ++ repeat 0 70.

Definition scancode_shift_table : list Z :=
  [0; 27] ++ chars "!@#$%^&*()_+" ++ [8] ++
  [9] ++ chars "QWERTYUIOP{}" ++ [10] ++
  [0] ++ chars "ASDFGHJKL:" ++ [34] ++ chars "~" ++
  [0] ++ chars "|ZXCVBNM<>?" ++ [0] ++
  chars "*" ++ [0] ++ chars " " ++ repeat 0 70.

Definition table_at (t : list Z) (i : Z) : Z := nth (Z.to_nat i) t 0.

Definition kb_push (c : Z) (k : kbd) : kbd :=
  let next := (kb_head k + 1) mod KB_BUFFER_SIZE in
  if negb (next =? kb_tail k)
  then Kbd (<[Z.to_nat (kb_head k) := c]> (kb_buffer k)) next (kb_tail k) (shift_pressed k)
  else k.

Definition set_shift (v : Z) (k : kbd) : kbd := Kbd (kb_buffer k) (kb_head k) (kb_tail k) v.

(** The handler after its [inb(0x60)]. *)
Definition scan (scancode : Z) (k : kbd) : kbd :=
  if truthy (Z.land scancode 0x80) then
    let released := Z.land scancode 0x7F in
    if (released =? 0x2A) || (released =? 0x36) then set_shift 0 k else k
  else if (scancode =? 0x2A) || (scancode =? 0x36) then set_shift 1 k
  else if scancode <? 128 then
    let c := if truthy (shift_pressed k) then table_at scancode_shift_table scancode
             else table_at scancode_table scancode in
    if truthy c then kb_push c k else k
  else k.

(** [kb_buffer[kb_tail]] and the advance of the tail. *)
Definition kb_peek (k : kbd) : Z := nth (Z.to_nat (kb_tail k)) (kb_buffer k) 0.
Definition kb_advance (k : kbd) : kbd :=
  Kbd (kb_buffer k) (kb_head k) ((kb_tail k + 1) mod KB_BUFFER_SIZE) (shift_pressed k).

Definition keyboard_getchar (k : kbd) : Z * kbd :=
  if kb_head k =? kb_tail k then (-1, k)
  else (kb_peek k, kb_advance k).

(** [irqs]: the scan codes that arrive at each [hlt]; [None] when it ends first. *)
Fixpoint keyboard_read (irqs : list (list Z)) (k : kbd) : prog trace (Z * kbd) :=
  let '(c, k) := keyboard_getchar k in
  if c =? -1 then
    match irqs with
    | [] => pdiverge
    | codes :: irqs => (emit Hlt ;; keyboard_read irqs (foldl (fun k s => scan s k) k codes))%prog
    end
  else pret (i8 c, k).

Section Keyboard.
Context (dev : trace -> Z -> Z).

Definition keyboard_handler (k : kbd) : prog trace kbd :=
  (let* scancode := inb dev 0x60 in pret (scan scancode k))%prog.

(** [while (inb(0x64) & 1) inb(0x60);] *)
Fixpoint drain (fuel : nat) : prog trace unit :=
  match fuel with
  | O => pdiverge
  | S fuel =>
      (let* st := inb dev 0x64 in
       if truthy (Z.land st 1) then (let* _ := inb dev 0x60 in drain fuel) else pret tt)%prog
  end.

Definition keyboard_init (fuel : nat) (k : kbd) : prog trace kbd :=
  (drain fuel ;; pret (Kbd (kb_buffer k) 0 0 (shift_pressed k)))%prog.
End Keyboard.

(** ** Specification: a bounded queue of characters *)

(** The contents of the ring, oldest first. *)
Definition queue (k : kbd) : list Z :=
  (fun i => nth (Z.to_nat ((kb_tail k + i) mod 256)) (kb_buffer k) 0) <$>
    seqZ 0 ((kb_head k - kb_tail k) mod 256).

Record kbd_wf (k : kbd) : Prop := {
  kw_length : length (kb_buffer k) = 256%nat;
  kw_head : 0 <= kb_head k < 256;
  kw_tail : 0 <= kb_tail k < 256;
}.

(** One slot stays empty: the 256th character is dropped. *)
Definition enqueue (c : Z) (q : list Z) : list Z := if (length q <? 255)%nat then q ++ [c] else q.

(** What a scan code means: a change of the shift state, a character, nothing. *)
Definition is_shift (code : Z) : bool := (code =? 0x2A) || (code =? 0x36).
Definition pressed_char (shift : bool) (code : Z) : Z :=
  table_at (if shift then scancode_shift_table else scancode_table) code.

Definition kbd_spec (code : Z) (s : bool * list Z) : bool * list Z :=
  if 128 <=? code then ((if is_shift (code - 128) then false else s.1), s.2)
  else if is_shift code then (true, s.2)
  else let c := pressed_char s.1 code in (s.1, if c =? 0 then s.2 else enqueue c s.2).

Definition kbd_abs (k : kbd) : bool * list Z := (truthy (shift_pressed k), queue k).

(** *** The ring *)

Lemma length_queue k : Z.of_nat (length (queue k)) = (kb_head k - kb_tail k) mod 256.
Proof. unfold queue. rewrite length_fmap, length_seqZ. mlia. Qed.

Lemma kb_push_queue c k : kbd_wf k -> kbd_wf (kb_push c k) /\ queue (kb_push c k) = enqueue c (queue k).
Proof.
  intros Hw. pose proof Hw as [Hl Hh Ht]. unfold kb_push, enqueue, KB_BUFFER_SIZE.
  pose proof (length_queue k) as Hq.
  destruct (Z.eqb_spec ((kb_head k + 1) mod 256) (kb_tail k)) as [E|E]; cbn [negb].
  - split; [done|]. rewrite (proj2 (Nat.ltb_ge _ _)); [done|]. mlia.
  - split; [split; cbn; [by rewrite length_insert|mlia|done]|].
    rewrite (proj2 (Nat.ltb_lt _ _)) by mlia.
    unfold queue. cbn [kb_head kb_tail kb_buffer].
    replace (((kb_head k + 1) mod 256 - kb_tail k) mod 256)
      with ((kb_head k - kb_tail k) mod 256 + 1) by mlia.
    rewrite seqZ_app by mlia. rewrite fmap_app. f_equal.
    + apply list_fmap_ext. intros _ i Hi%list_elem_of_lookup_2%elem_of_seqZ.
      rewrite !nth_lookup, list_lookup_insert_ne; [done|mlia].
    + rewrite Z.add_0_l, seqZ_cons, (seqZ_nil _ (Z.pred 1)) by lia. cbn [fmap list_fmap].
      f_equal. rewrite nth_lookup.
      replace (Z.to_nat _) with (Z.to_nat (kb_head k)) by mlia.
      rewrite list_lookup_insert_eq; [done|lia].
Qed.

Lemma getchar_queue k :
  kbd_wf k ->
  kbd_wf (keyboard_getchar k).2 /\ shift_pressed (keyboard_getchar k).2 = shift_pressed k /\
  match queue k with
  | [] => keyboard_getchar k = (-1, k)
  | c :: q => (keyboard_getchar k).1 = c /\ queue (keyboard_getchar k).2 = q
  end.
Proof.
  intros Hw. pose proof Hw as [Hl Hh Ht]. unfold keyboard_getchar.
  destruct (Z.eqb_spec (kb_head k) (kb_tail k)) as [E|E]; cbn [fst snd].
  - split; [done|]. split; [done|]. unfold queue. by rewrite E, Z.sub_diag.
  - split; [split; cbn; try done; unfold KB_BUFFER_SIZE; mlia|]. split; [done|].
    unfold queue. rewrite seqZ_cons by mlia. cbn [fmap list_fmap]. split.
    + unfold kb_peek. do 2 f_equal. rewrite Z.add_0_r. symmetry. f_equal. by apply Z.mod_small.
    + cbn [kb_advance kb_head kb_tail kb_buffer]. unfold KB_BUFFER_SIZE.
      replace ((kb_head k - (kb_tail k + 1) mod 256) mod 256)
        with (Z.pred ((kb_head k - kb_tail k) mod 256)) by mlia.
      change (Z.succ 0) with (0 + 1). rewrite <-(fmap_add_seqZ 1 0), <-list_fmap_compose.
      apply list_fmap_ext. intros ? i Hi. cbn. do 2 f_equal.
      rewrite Zplus_mod_idemp_l. f_equal. lia.
Qed.

(** *** The handler *)

Lemma released_bit code : 0 <= code < 256 -> truthy (Z.land code 0x80) = (128 <=? code).
Proof.
  intros Hc. transitivity (Z.testbit code 7); [exact (truthy_land_bit code 7 ltac:(lia))|].
  apply eq_true_iff_eq.
  rewrite Z.testbit_true, Z.leb_le by lia. mlia.
Qed.

Lemma set_shift_wf v k : kbd_wf k -> kbd_wf (set_shift v k).
Proof. by intros []. Qed.

Lemma scan_spec code k :
  kbd_wf k -> 0 <= code < 256 ->
  kbd_wf (scan code k) /\ kbd_abs (scan code k) = kbd_spec code (kbd_abs k).
Proof.
  intros Hw Hc. unfold scan, kbd_spec, is_shift. rewrite released_bit by done.
  destruct (Z.leb_spec 128 code) as [Hr|Hp].
  - replace (Z.land code 0x7F) with (code - 128).
    2: { change 0x7F with (Z.ones 7). rewrite Z.land_ones by lia. mlia. }
    destruct ((code - 128 =? 0x2A) || (code - 128 =? 0x36)); (split; [by apply set_shift_wf || done|done]).
  - destruct ((code =? 0x2A) || (code =? 0x36)); [split; [by apply set_shift_wf|done]|].
    rewrite (proj2 (Z.ltb_lt code 128)) by lia. cbv zeta.
    replace (if truthy (shift_pressed k) then table_at scancode_shift_table code
             else table_at scancode_table code)
      with (pressed_char (truthy (shift_pressed k)) code) by (by destruct (truthy (shift_pressed k))).
    cbn [kbd_abs fst snd]. set (c := pressed_char (truthy (shift_pressed k)) code).
    change (truthy c) with (negb (c =? 0)).
    destruct (Z.eqb_spec c 0) as [E|E]; cbn [negb]; [done|].
    destruct (kb_push_queue c k Hw) as [Hw' Hq].
    split; [done|]. unfold kbd_abs. rewrite Hq. f_equal. unfold kb_push.
    by destruct (negb _).
Qed.

Definition codes_ok (codes : list Z) : Prop := Forall (fun c => 0 <= c < 256) codes.
Definition scan_all (codes : list Z) (k : kbd) : kbd := foldl (fun k s => scan s k) k codes.
Definition spec_all (codes : list Z) (s : bool * list Z) : bool * list Z :=
  foldl (fun s c => kbd_spec c s) s codes.

Lemma scan_all_spec codes k :
  kbd_wf k -> codes_ok codes ->
  kbd_wf (scan_all codes k) /\ kbd_abs (scan_all codes k) = spec_all codes (kbd_abs k).
Proof.
  intros Hw Hc. revert k Hw. induction Hc as [|c codes Hc _ IH]; intros k Hw; [done|].
  destruct (scan_spec c k Hw Hc) as [Hw1 E]. cbn. rewrite <-E. by apply IH.
Qed.

(** ** Properties *)

(** An interrupt with a scan code, or a call of [keyboard_getchar]. *)
Inductive kb_event := Irq (code : Z) | Get.

Definition kb_step (e : kb_event) (k : kbd) : list Z * kbd :=
  match e with
  | Irq code => ([], scan code k)
  | Get => let '(c, k) := keyboard_getchar k in ([c], k)
  end.

Definition kb_spec_step (e : kb_event) (s : bool * list Z) : list Z * (bool * list Z) :=
  match e with
  | Irq code => ([], kbd_spec code s)
  | Get => match s.2 with
           | [] => ([-1], s)
           | c :: q => ([c], (s.1, q))
           end
  end.

Fixpoint run {S} (step : kb_event -> S -> list Z * S) (es : list kb_event) (s : S) : list Z * S :=
  match es with
  | [] => ([], s)
  | e :: es => let '(o, s) := step e s in let '(os, s) := run step es s in (o ++ os, s)
  end.

(** C25 The driver refines a bounded queue: any sequence of interrupts and reads
    returns exactly the characters the queue gives, oldest first, -1 exactly
    when it is empty, dropping only what arrives on 255 unread characters. *)
Theorem keyboard_refines_queue es k :
  kbd_wf k -> Forall (fun e => match e with Irq c => 0 <= c < 256 | Get => True end) es ->
  (run kb_step es k).1 = (run kb_spec_step es (kbd_abs k)).1 /\
  kbd_wf (run kb_step es k).2 /\
  kbd_abs (run kb_step es k).2 = (run kb_spec_step es (kbd_abs k)).2.
Proof.
  intros Hw He. revert k Hw. induction He as [|e es He _ IH]; intros k Hw; [done|]. cbn [run].
  assert (Hs : (kb_step e k).1 = (kb_spec_step e (kbd_abs k)).1 /\ kbd_wf (kb_step e k).2 /\
               kbd_abs (kb_step e k).2 = (kb_spec_step e (kbd_abs k)).2).
  { destruct e as [c|]; cbn [kb_step kb_spec_step].
    - split; [done|]. by apply scan_spec.
    - destruct (getchar_queue k Hw) as (Hw' & Hsh & Hq). cbn [kbd_abs snd fst].
      destruct (queue k) as [|c q] eqn:Eq.
      + rewrite Hq. cbn. unfold kbd_abs. by rewrite Eq.
      + destruct Hq as [Hc Hq]. destruct (keyboard_getchar k) as [c' k']. cbn [fst snd] in *.
        split; [by rewrite Hc|]. split; [done|]. unfold kbd_abs. by rewrite Hsh, Hq. }
  destruct Hs as (Ho & Hw1 & Ha). destruct (kb_step e k) as [o k1], (kb_spec_step e (kbd_abs k)) as [o' s1].
  cbn [fst snd] in *. subst o' s1. destruct (IH k1 Hw1) as (Eo & Hw2 & E2).
  destruct (run kb_step es k1) as [os k2], (run kb_spec_step es (kbd_abs k1)) as [os' s2].
  cbn [fst snd] in *. by subst.
Qed.

(** [keyboard_getchar] with keyboard interrupts in the middle: the codes [a]
    arrive after the test, [b] between the load of the character and the store of
    the tail. *)
Definition getchar_preempted (a b : list Z) (k : kbd) : Z * kbd :=
  if kb_head k =? kb_tail k then (-1, k)
  else
    let k := scan_all a k in
    let c := kb_peek k in
    let k := scan_all b k in
    (c, kb_advance k).

Lemma getchar_parts k c q :
  kbd_wf k -> queue k = c :: q ->
  kb_head k <> kb_tail k /\ kb_peek k = c /\ kbd_wf (kb_advance k) /\ queue (kb_advance k) = q.
Proof.
  intros Hw Eq. destruct (getchar_queue k Hw) as (Hw' & _ & Hq). rewrite Eq in Hq.
  unfold keyboard_getchar in *. destruct (Z.eqb_spec (kb_head k) (kb_tail k)) as [E|E]; cbn [fst snd] in *; [|by destruct Hq].
  exfalso. unfold queue in Eq. by rewrite E, Z.sub_diag in Eq.
Qed.

Lemma spec_all_head codes sh c q : exists sh' q', spec_all codes (sh, c :: q) = (sh', c :: q').
Proof.
  revert sh q. induction codes as [|code codes IH]; intros sh q; [by eauto|].
  cbn [spec_all foldl]. fold (spec_all codes (kbd_spec code (sh, c :: q))).
  enough (exists sh1 q1, kbd_spec code (sh, c :: q) = (sh1, c :: q1)) as (sh1 & q1 & ->) by apply IH.
  unfold kbd_spec, enqueue. cbn [fst snd]. repeat case_match; eauto.
Qed.

(** C26 The reader needs no lock: wherever keyboard interrupts hit it, it returns the
    oldest character, and the queue is what the interrupts before and after
    an uninterrupted removal leave. *)
Theorem getchar_atomic a b k c q :
  kbd_wf k -> queue k = c :: q -> codes_ok a -> codes_ok b ->
  (getchar_preempted a b k).1 = c /\ kbd_wf (getchar_preempted a b k).2 /\
  c :: queue (getchar_preempted a b k).2 = (spec_all (a ++ b) (kbd_abs k)).2.
Proof.
  intros Hw Eq Ha Hb. destruct (getchar_parts k c q Hw Eq) as (Hne & _ & _ & _).
  unfold getchar_preempted. rewrite (proj2 (Z.eqb_neq _ _)) by done. cbn [fst snd].
  destruct (scan_all_spec a k Hw Ha) as [Hwa Ea].
  destruct (scan_all_spec b _ Hwa Hb) as [Hwb Eb].
  unfold kbd_abs at 2 in Ea. rewrite Eq in Ea.
  destruct (spec_all_head a (truthy (shift_pressed k)) c q) as (sha & qa & Eqa). rewrite Eqa in Ea.
  unfold kbd_abs in Ea. injection Ea as Esa Eqa'.
  destruct (spec_all_head b sha c qa) as (shb & qb & Eqb).
  unfold kbd_abs at 2 in Eb. rewrite Esa, Eqa', Eqb in Eb. unfold kbd_abs in Eb. injection Eb as _ Eqb'.
  destruct (getchar_parts _ _ _ Hwa Eqa') as (_ & Hp & _ & _).
  destruct (getchar_parts _ _ _ Hwb Eqb') as (_ & _ & Hw' & Hq').
  split; [done|]. split; [done|]. rewrite Hq'. unfold spec_all. rewrite foldl_app.
  fold (spec_all a (kbd_abs k)). unfold kbd_abs. rewrite Eq, Eqa.
  fold (spec_all b (sha, c :: qa)). by rewrite Eqb.
Qed.

(** The tables: every entry is a 7-bit character or 0, a key that types a small
    letter types the capital one with shift, and without shift no two keys type
    the same character. *)
Theorem scancode_tables :
  (forall code, 0 <= code < 128 -> 0 <= pressed_char true code < 128 /\ 0 <= pressed_char false code < 128 /\
     (97 <= pressed_char false code <= 122 -> pressed_char true code = pressed_char false code - 32)) /\
  (forall code, 0 <= code < 128 -> forall code', 0 <= code' < 128 ->
     pressed_char false code = pressed_char false code' -> pressed_char false code <> 0 -> code = code').
Proof.
  split; [below|]. intros code Hc code' Hc' E Hn.
  assert (H : forall i, 0 <= i < 128 -> Forall (fun j => pressed_char false i = pressed_char false j ->
    pressed_char false i <> 0 -> i = j) (seqZ 0 128)) by below.
  specialize (H code Hc). rewrite Forall_forall in H. apply (H code'); [|done..]. apply elem_of_seqZ. lia.
Qed.

(** *** Reading and initialisation *)

Definition ascii_queue (q : list Z) : Prop := Forall (fun c => 0 < c < 128) q.

Lemma pressed_char_range sh code : 0 <= code < 128 -> 0 <= pressed_char sh code < 128.
Proof. revert code. destruct sh; below. Qed.

Lemma spec_all_ascii codes s :
  codes_ok codes -> ascii_queue s.2 -> ascii_queue (spec_all codes s).2.
Proof.
  intros Hc. revert s. induction Hc as [|code codes Hc _ IH]; intros s Hs; [done|].
  apply IH. unfold kbd_spec. destruct (Z.leb_spec 128 code); [done|]. destruct (is_shift code); [done|].
  pose proof (pressed_char_range s.1 code ltac:(lia)). cbv zeta.
  destruct (Z.eqb_spec (pressed_char s.1 code) 0); [done|]. cbn [snd]. unfold enqueue.
  destruct (length s.2 <? 255)%nat; [|done]. apply Forall_app. split; [done|]. constructor; [lia|done].
Qed.

(** [keyboard_read] halts exactly while no character is queued and then returns
    the oldest one: [irqs] are the scan codes that each [hlt] lets in. *)
Theorem keyboard_read_waits irqs : forall k tr n,
  kbd_wf k -> ascii_queue (queue k) -> Forall codes_ok irqs -> (n <= length irqs)%nat ->
  (forall m, (m < n)%nat -> (spec_all (mjoin (take m irqs)) (kbd_abs k)).2 = []) ->
  (spec_all (mjoin (take n irqs)) (kbd_abs k)).2 <> [] ->
  exists c q k', keyboard_read irqs k tr = Some ((c, k'), repeat Hlt n ++ tr) /\
    (spec_all (mjoin (take n irqs)) (kbd_abs k)).2 = c :: q /\ kbd_wf k' /\ queue k' = q.
Proof.
  induction irqs as [|codes irqs IH]; intros k tr n Hw Ha Hc Hn Hm Hne;
    (destruct n as [|n]; [|specialize (Hm 0%nat ltac:(lia)) as Hm0]);
    cbn [take mjoin list_join spec_all foldl kbd_abs snd length] in *; try lia.
  1, 2: destruct (queue k) as [|c q] eqn:Eq; [done|];
    destruct (getchar_queue k Hw) as (Hw' & _ & Hq); rewrite Eq in Hq; destruct Hq as [Ec Eq'];
    exists c, q, (keyboard_getchar k).2; cbn [keyboard_read];
    destruct (keyboard_getchar k) as [c' k']; cbn [fst snd] in *; subst c';
    apply Forall_cons in Ha as [Hcr _];
    rewrite (proj2 (Z.eqb_neq c (-1))), i8_id by lia; done.
  destruct (getchar_queue k Hw) as (_ & _ & Hq). rewrite Hm0 in Hq.
  apply Forall_cons in Hc as [Hc Hcs].
  destruct (scan_all_spec codes k Hw Hc) as [Hw1 E1].
  assert (Hstep : forall m, spec_all (mjoin (take m irqs)) (kbd_abs (scan_all codes k)) =
                       spec_all (mjoin (take (S m) (codes :: irqs))) (kbd_abs k)).
  { intros m. rewrite E1. unfold spec_all. cbn [take mjoin list_join]. by rewrite foldl_app. }
  destruct (IH (scan_all codes k) (Hlt :: tr) n Hw1) as (c & q & k' & E & Hcq & Hw' & Hq'); [| |lia| | |].
  - replace (queue (scan_all codes k)) with (kbd_abs (scan_all codes k)).2 by done. rewrite E1.
    by apply spec_all_ascii.
  - done.
  - intros m Hlt. rewrite Hstep. apply Hm. lia.
  - rewrite Hstep. exact Hne.
  - exists c, q, k'. split; [|split; [rewrite <-Hcq, Hstep; reflexivity|done]].
    cbn [keyboard_read]. rewrite Hq. change (-1 =? -1) with true. cbv iota beta.
    rewrite (pbind_step (emit Hlt) _ tr tt (Hlt :: tr) eq_refl). fold (scan_all codes k).
    rewrite E. change (repeat Hlt (S n)) with (Hlt :: repeat Hlt n).
    by rewrite repeat_cons, <-app_assoc.
Qed.

(** The history after [n] rounds of the initial draining loop. *)
Fixpoint drained (dev : trace -> Z -> Z) (n : nat) (tr : trace) : trace :=
  match n with
  | O => tr
  | S n => let tr := In8 0x64 (u8 (dev tr 0x64)) :: tr in
           drained dev n (In8 0x60 (u8 (dev tr 0x60)) :: tr)
  end.

Definition output_full (dev : trace -> Z -> Z) (tr : trace) : bool := Z.testbit (u8 (dev tr 0x64)) 0.

Lemma drain_spec dev n : forall fuel tr, (n < fuel)%nat ->
  (forall i, (i < n)%nat -> output_full dev (drained dev i tr) = true) ->
  output_full dev (drained dev n tr) = false ->
  exists st, drain dev fuel tr = Some (tt, In8 0x64 st :: drained dev n tr).
Proof.
  induction n as [|n IH]; intros [|fuel] tr Hf Hb Hn; try lia; cbn [drain].
  - cbn [drained] in *. eexists. unfold pbind at 1, inb at 1. change (u16 0x64) with 0x64.
    rewrite (truthy_land_bit _ 0 ltac:(lia)). unfold output_full in Hn. by rewrite Hn.
  - pose proof (Hb 0%nat ltac:(lia)) as H0. cbn [drained] in H0. unfold output_full in H0.
    unfold pbind at 1, inb at 1. change (u16 0x64) with 0x64.
    rewrite (truthy_land_bit _ 0 ltac:(lia)), H0. unfold pbind at 1, inb at 1. change (u16 0x60) with 0x60.
    apply IH; [lia| |done]. intros i Hi. apply (Hb (S i)). lia.
Qed.

(** [keyboard_init] reads exactly the bytes the controller still holds and starts
    with an empty queue. *)
Theorem keyboard_init_drains dev n fuel k tr :
  (n < fuel)%nat -> length (kb_buffer k) = 256%nat ->
  (forall i, (i < n)%nat -> output_full dev (drained dev i tr) = true) ->
  output_full dev (drained dev n tr) = false ->
  exists k' st, keyboard_init dev fuel k tr = Some (k', In8 0x64 st :: drained dev n tr) /\
    kbd_wf k' /\ queue k' = [].
Proof.
  intros Hf Hl Hb Hn. destruct (drain_spec dev n fuel tr Hf Hb Hn) as [st E].
  eexists _, st. split; [unfold keyboard_init; by erewrite pbind_step|]. by split.
Qed.

(** ** At concrete inputs *)

Definition demo_kbd : kbd := kbd_bss.

Lemma demo_kbd_wf : kbd_wf demo_kbd.
Proof. by split. Qed.

Lemma keyboard_refines_queue_witness :
  (run kb_step [Get; Irq 0x1E; Irq 0x2A; Irq 0x1E; Irq 0xAA; Get; Get; Get] demo_kbd).1
    = [-1; 97; 65; -1].
Proof.
  rewrite (proj1 (keyboard_refines_queue
    [Get; Irq 0x1E; Irq 0x2A; Irq 0x1E; Irq 0xAA; Get; Get; Get] demo_kbd demo_kbd_wf
    ltac:(repeat constructor; lia))).
  by vm_compute.
Defined.

Lemma getchar_atomic_witness :
  (getchar_preempted [0x1F] [0x20] (scan 0x1E demo_kbd)).1 = 97.
Proof.
  refine (proj1 (getchar_atomic [0x1F] [0x20] (scan 0x1E demo_kbd) 97 [] _ _ _ _)).
  - by split.
  - by vm_compute.
  - constructor; [lia|constructor].
  - constructor; [lia|constructor].
Defined.

Lemma keyboard_read_waits_witness : exists k',
  keyboard_read [[]; [0x9E]; [0x1E; 0x1F]] demo_kbd [] = Some ((97, k'), [Hlt; Hlt; Hlt]) /\ queue k' = [115].
Proof.
  destruct (keyboard_read_waits [[]; [0x9E]; [0x1E; 0x1F]] demo_kbd [] 3 demo_kbd_wf)
    as (c & q & k' & E & Ecq & _ & Eq).
  - change (queue demo_kbd) with (@nil Z). constructor.
  - repeat (constructor; [repeat (constructor; [lia|]); constructor|]). constructor.
  - cbn; lia.
  - intros m Hm. destruct m as [|[|[|m]]]; [by vm_compute..|lia].
  - by vm_compute.
  - assert (H : c = 97 /\ q = [115]) by (vm_compute in Ecq; by injection Ecq).
    destruct H as [-> ->]. exists k'. split; [exact E|exact Eq].
Defined.

Lemma keyboard_init_drains_witness :
  let dev := fun (tr : trace) port => if (port =? 0x64) && (length tr <? 4)%nat then 1 else 0 in
  exists k' tr', keyboard_init dev 5 demo_kbd [] = Some (k', tr') /\ queue k' = [].
Proof.
  intros dev. destruct (keyboard_init_drains dev 2 5 demo_kbd []) as (k' & st & E & _ & Q).
  - lia.
  - reflexivity.
  - intros i Hi. destruct i as [|[|i]]; [by vm_compute..|lia].
  - by vm_compute.
  - exists k', (In8 0x64 st :: drained dev 2 []). split; [exact E|exact Q].
Defined.
