(* ===== verification/Gdt.v ===== *)
(** [src/arc/x86_64/gdt.c]: the five segment descriptors, their packed layout, and
    what the processor reads back from it. *)

From S2P Require Import Prelude PortIO.

(** [gdt_entry_t]: the bit-fields, in declaration order. *)
Record gdt_entry := GdtEntry {
  limit_low : Z;
  base_low : Z;
  access : Z;
  limit_high : Z;
  gflags : Z;
  base_high : Z;
}.

Definition gdt_zero : gdt_entry := GdtEntry 0 0 0 0 0 0.

(** Assigning to a bit-field of [n] bits keeps the low bits. *)
Definition bits (n x : Z) : Z := x mod 2 ^ n.

(** The value the six assignments give one slot. *)
Definition gdt_fields (base limit acc flags : Z) : gdt_entry :=
  GdtEntry (bits 16 (Z.land limit 0xFFFF)) (bits 24 (Z.land base 0x00FFFFFF)) (u8 acc)
    (bits 4 (Z.land (Z.shiftr limit 16) 0x0F)) (bits 4 (Z.land flags 0x0F))
    (bits 8 (Z.land (Z.shiftr base 24) 0xFF)).

Definition gdt_set_entry (index : nat) (base limit acc flags : Z) (gdt : list gdt_entry)
    : list gdt_entry :=
  <[index := gdt_fields (u32 base) (u32 limit) (u8 acc) (u8 flags)]> gdt.

(** The table, and the operand of [lgdt]: [sizeof(gdt) - 1] and the address of
    the table, which the linker chooses. *)
Definition gdt_init (gdt_addr : Z) (gdt : list gdt_entry) : prog trace (list gdt_entry) :=
  let gdt := gdt_set_entry 0 0 0 0 0 gdt in
  let gdt := gdt_set_entry 1 0 0xFFFFFFFF 0x9A 0x0A gdt in
  let gdt := gdt_set_entry 2 0 0xFFFFFFFF 0x92 0x0A gdt in
  let gdt := gdt_set_entry 3 0 0xFFFFFFFF 0xFA 0x0A gdt in
  let gdt := gdt_set_entry 4 0 0xFFFFFFFF 0xF2 0x0A gdt in
  (emit (Lgdt (u16 (5 * 8 - 1)) gdt_addr) ;; pret gdt)%prog.

(** The 8 bytes of a packed descriptor as a word: 16, 24, 8, 4, 4 and 8 bits. *)
Definition gdt_word (e : gdt_entry) : Z :=
  limit_low e + 2 ^ 16 * base_low e + 2 ^ 40 * access e + 2 ^ 48 * limit_high e +
  2 ^ 52 * gflags e + 2 ^ 56 * base_high e.

(** ** What the processor reads (segment descriptor format) *)

Definition field (w lo n : Z) : Z := (w / 2 ^ lo) mod 2 ^ n.

Definition seg_base (w : Z) : Z := field w 16 24 + 2 ^ 24 * field w 56 8.
Definition seg_limit (w : Z) : Z := field w 0 16 + 2 ^ 16 * field w 48 4.
Definition seg_access (w : Z) : Z := field w 40 8.
Definition seg_flags (w : Z) : Z := field w 52 4.

Definition seg_present (w : Z) : bool := Z.testbit w 47.
Definition seg_dpl (w : Z) : Z := field w 45 2.
(** Code or data (not a system descriptor); executable; 64-bit. *)
Definition seg_user (w : Z) : bool := Z.testbit w 44.
Definition seg_exec (w : Z) : bool := Z.testbit w 43.
Definition seg_rw (w : Z) : bool := Z.testbit w 41.
Definition seg_long (w : Z) : bool := Z.testbit w 53.
Definition seg_db (w : Z) : bool := Z.testbit w 54.

Lemma gdt_fields_bound base limit acc flags :
  let e := gdt_fields base limit acc flags in
  (0 <= limit_low e < 2 ^ 16 /\ 0 <= base_low e < 2 ^ 24 /\ 0 <= access e < 2 ^ 8) /\
  (0 <= limit_high e < 2 ^ 4 /\ 0 <= gflags e < 2 ^ 4 /\ 0 <= base_high e < 2 ^ 8).
Proof. cbn [gdt_fields limit_low base_low access limit_high gflags base_high]. unfold bits, u8. mlia. Qed.

(** Encoding round trip: the processor reads back from the packed descriptor the
    base, the 20-bit limit, the access byte and the 4 flag bits given to
    [gdt_set_entry]. *)
Theorem gdt_entry_roundtrip index base limit acc flags gdt :
  (index < length gdt)%nat ->
  0 <= base < 2 ^ 32 -> 0 <= limit < 2 ^ 32 -> 0 <= acc < 2 ^ 8 -> 0 <= flags < 2 ^ 8 ->
  exists e, gdt_set_entry index base limit acc flags gdt !! index = Some e /\
    0 <= gdt_word e < 2 ^ 64 /\
    seg_base (gdt_word e) = base /\ seg_limit (gdt_word e) = limit mod 2 ^ 20 /\
    seg_access (gdt_word e) = acc /\ seg_flags (gdt_word e) = flags mod 16.
Proof.
  intros Hi Hb Hl Ha Hf. eexists. unfold gdt_set_entry.
  split; [by apply list_lookup_insert_eq|]. rewrite !u32_id, !u8_id by done.
  pose proof (gdt_fields_bound base limit acc flags) as [(B1 & B2 & B3) (B4 & B5 & B6)].
  set (e := gdt_fields base limit acc flags) in *.
  assert (E1 : limit_low e + 2 ^ 16 * limit_high e = limit mod 2 ^ 20).
  { cbn [e gdt_fields limit_low limit_high]. unfold bits.
    change 0xFFFF with (Z.ones 16). change 0x0F with (Z.ones 4).
    rewrite !Z.land_ones, Z.shiftr_div_pow2 by lia. mlia. }
  assert (E2 : base_low e + 2 ^ 24 * base_high e = base).
  { cbn [e gdt_fields base_low base_high]. unfold bits.
    change 0x00FFFFFF with (Z.ones 24). change 0xFF with (Z.ones 8).
    rewrite !Z.land_ones, Z.shiftr_div_pow2 by lia. mlia. }
  assert (E3 : access e = acc) by (cbn; by rewrite u8_id).
  assert (E4 : gflags e = flags mod 16).
  { cbn [e gdt_fields gflags]. unfold bits. change 0x0F with (Z.ones 4).
    rewrite Z.land_ones by lia. mlia. }
  clearbody e. unfold gdt_word, seg_base, seg_limit, seg_access, seg_flags, field.
  rewrite <-E1, <-E2, <-E3, <-E4. clear E1 E2 E3 E4 Hb Hl Ha Hf.
  split; [lia|]. repeat split; mlia.
Qed.

(** [gdt_init] loads a table of exactly five descriptors: null, ring-0 64-bit
    code at selector 8 and writable data at 16, and the ring-3 pair; every
    non-null one is present. *)
Theorem gdt_init_segments gdt_addr gdt tr :
  length gdt = 5%nat ->
  exists g, gdt_init gdt_addr gdt tr = Some (g, Lgdt 39 gdt_addr :: tr) /\
    let w i := gdt_word (nth i g gdt_zero) in
    length g = 5%nat /\ w 0%nat = 0 /\
    (forall i, (1 <= i < 5)%nat -> seg_present (w i) = true /\ seg_user (w i) = true /\
       seg_rw (w i) = true /\ seg_base (w i) = 0 /\ seg_limit (w i) = 0xFFFFF /\
       seg_exec (w i) = Nat.odd i /\ seg_dpl (w i) = (if (i <=? 2)%nat then 0 else 3) /\
       seg_long (w i) = true /\ seg_db (w i) = false).
Proof.
  intros Hl. destruct gdt as [|? [|? [|? [|? [|? [|]]]]]]; try discriminate Hl.
  eexists. split; [reflexivity|]. split; [reflexivity|]. split; [reflexivity|].
  intros i Hi. destruct i as [|[|[|[|[|i]]]]]; try lia; by vm_compute.
Qed.

Lemma gdt_entry_roundtrip_witness : exists e,
  gdt_set_entry 1 0x12345678 0xABCDE 0x9A 0x0A (repeat gdt_zero 5) !! 1%nat = Some e /\
  seg_base (gdt_word e) = 0x12345678.
Proof.
  destruct (gdt_entry_roundtrip 1 0x12345678 0xABCDE 0x9A 0x0A (repeat gdt_zero 5))
    as (e & E & _ & B & _); [cbn; lia|lia..|].
  exists e. split; [exact E|exact B].
Defined.

Lemma gdt_init_segments_witness : exists g,
  gdt_init 0x8000 (repeat gdt_zero 5) [] = Some (g, [Lgdt 39 0x8000]) /\
  seg_exec (gdt_word (nth 1 g gdt_zero)) = true.
Proof.
  destruct (gdt_init_segments 0x8000 (repeat gdt_zero 5) []) as (g & E & _ & _ & H); [reflexivity|].
  exists g. split; [exact E|]. apply (H 1%nat). lia.
Defined.
