(* ===== verification/Link.v ===== *)
(** The placement of the kernel image by [config/linker.ld]: the addresses its symbols
    get from the sizes of the sections, and what they mean for the code that takes them
    as arguments. *)

From S2P Require Import Prelude Mem Layout Pmm.

(** Sizes of the output sections. *)
Record sizes := Sizes { sz_requests : Z; sz_text : Z; sz_rodata : Z; sz_data : Z; sz_bss : Z }.

Definition sizes_ok (z : sizes) : Prop :=
  0 <= sz_requests z /\ 0 <= sz_text z /\ 0 <= sz_rodata z /\ 0 <= sz_data z /\ 0 <= sz_bss z.

Section Script.
(** [CONSTANT(MAXPAGESIZE)] of the linker. *)
Context (maxpage : Z) (z : sizes).

Definition _kernel_start : Z := 0xffffffff80000000.
Definition requests_addr : Z := _kernel_start.
Definition text_addr : Z := align_up (align_up (requests_addr + sz_requests z) maxpage) 4096.
Definition rodata_addr : Z := align_up (align_up (text_addr + sz_text z) maxpage) 4096.
Definition data_addr : Z := align_up (align_up (rodata_addr + sz_rodata z) maxpage) 4096.
Definition _bss_start : Z := align_up (data_addr + sz_data z) 4096.
Definition _bss_end : Z := _bss_start + sz_bss z.
Definition _kernel_end : Z := _bss_end.

(** The sections as ranges, in the order of the script. *)
Definition placement : list (Z * Z) :=
  [(requests_addr, sz_requests z); (text_addr, sz_text z); (rodata_addr, sz_rodata z);
   (data_addr, sz_data z); (_bss_start, sz_bss z)].

Context (Hmax : 0 < maxpage) (Hz : sizes_ok z).

Lemma after_page x : x <= align_up (align_up x maxpage) 4096 /\ align_up (align_up x maxpage) 4096 mod 4096 = 0.
Proof using Hmax.
  destruct (align_up_spec x maxpage Hmax) as ([? _] & _).
  destruct (align_up_spec (align_up x maxpage) 4096 ltac:(lia)) as ([? _] & Hd & _).
  split; [lia|]. by apply Z.mod_divide.
Qed.

(** Each section starts on a page, behind the one before; the image starts at
    [_kernel_start] and ends with [.bss] at [_kernel_end]. *)
Theorem placement_ordered :
  Forall (fun s => s.1 mod 4096 = 0 /\ _kernel_start <= s.1 /\ s.1 + s.2 <= _kernel_end) placement /\
  (forall i s s', placement !! i = Some s -> placement !! S i = Some s' -> s.1 + s.2 <= s'.1) /\
  _bss_start <= _bss_end /\ _bss_end = _kernel_end.
Proof using All.
  destruct Hz as (? & ? & ? & ? & ?).
  pose proof (after_page (requests_addr + sz_requests z)) as [T0 T1]. fold text_addr in T0, T1.
  pose proof (after_page (text_addr + sz_text z)) as [R0 R1]. fold rodata_addr in R0, R1.
  pose proof (after_page (rodata_addr + sz_rodata z)) as [D0 D1]. fold data_addr in D0, D1.
  destruct (align_up_spec (data_addr + sz_data z) 4096 ltac:(lia)) as ([B0 _] & B1 & _). fold _bss_start in B0, B1.
  apply Z.mod_divide in B1; [|lia].
  unfold _kernel_end, _bss_end, requests_addr in *. split; [|split; [|split; [lia|done]]].
  - unfold placement, requests_addr. repeat (apply Forall_cons; cbn [fst snd]; split; [split; [done|lia]|]). constructor.
  - unfold placement, requests_addr. intros [|[|[|[|[|i]]]]] s s' [= <-]; intros [= <-]; cbn [fst snd]; lia.
Qed.
End Script.

(** At these addresses the exclusion of the image in [pmm_init] never takes effect: the
    memory map holds physical addresses, far below [_kernel_start], and every usable
    entry is taken whole, the frames of the image among them if its entry is. *)
Theorem image_never_excluded ke e :
  e_type e = LIMINE_MEMMAP_USABLE -> 0 <= e_base e -> 0 < e_length e -> e_base e + e_length e <= 2 ^ 52 ->
  entry_range _kernel_start ke e =
    Some (Z.land (u64 (e_base e + 0xFFF)) (not64 0xFFF), Z.land (e_base e + e_length e) (not64 0xFFF)).
Proof.
  intros Ht Hb Hl Htop. unfold entry_range. rewrite Ht, Z.eqb_refl. cbn [negb]. cbv zeta.
  rewrite (u64_id (e_base e + e_length e)) by lia. change (kstart _kernel_start) with 0xffffffff80000000.
  rewrite (proj2 (Z.ltb_ge 0xffffffff80000000 (e_base e + e_length e))) by lia. rewrite andb_false_r.
  by rewrite (proj2 (Z.leb_gt _ _)) by lia.
Qed.

Lemma image_never_excluded_witness :
  entry_range _kernel_start 0xffffffff80100000 (MemmapEntry 0x100000 0x5000 0) = Some (0x100000, 0x105000).
Proof. exact (image_never_excluded 0xffffffff80100000 (MemmapEntry 0x100000 0x5000 0) eq_refl ltac:(done) ltac:(done) ltac:(done)). Defined.

(** A small image, with pages of 4 KiB. *)
Example demo_link :
  placement 4096 (Sizes 0xC0 0x5432 0x1000 0x20 0x9000) =
    [(0xffffffff80000000, 0xC0); (0xffffffff80001000, 0x5432); (0xffffffff80007000, 0x1000);
     (0xffffffff80008000, 0x20); (0xffffffff80009000, 0x9000)].
Proof. by vm_compute. Qed.
