(* ===== verification/BootEntry.v ===== *)
(** [src/arc/x86_64/boot/boot.asm]: the entry point [_start] and [gdt_flush], as
    code of a small processor: the registers the file uses, memory, the segment
    registers with the descriptors the processor caches in them, and the trace of
    port accesses and control instructions. *)

From stdpp Require Import functions.
From S2P Require Import Prelude Mem CString Pmm Format PortIO Context Gdt.

(** ** The processor *)

Inductive reg := RAX | RCX | RDX | RDI | RSP.
Inductive sreg := CS | DS | ES | FS | GS | SS.

#[export] Instance reg_eq_dec : EqDecision reg.
Proof. solve_decision. Defined.
#[export] Instance sreg_eq_dec : EqDecision sreg.
Proof. solve_decision. Defined.

(** A segment register holds its selector and the descriptor behind it. *)
Record mach := Mach {
  x_rip : Z;
  x_reg : reg -> Z;
  x_seg : sreg -> Z * Z;
  x_df : bool;
  x_gdtr : Z * Z;
  x_mem : mem;
  x_tr : trace;
}.

(** The instructions of the file; the target of [IJmp] and [ILea] is a position in
    the same code. *)
Inductive instr :=
  | ICli
  | IHlt
  | ICld
  | IMov64 (r : reg) (v : Z)
  | IMov16 (r : reg) (v : Z)
  | IMov8 (r : reg) (v : Z)
  | ISub (r1 r2 : reg)
  | IXor8 (r1 r2 : reg)
  | IRepStosb
  | IOutDxAl
  | ICall (target : Z)
  | IJmp (target : nat)
  | ILgdt (r : reg)
  | IMovSeg (sg : sreg)
  | IPush (v : Z)
  | IPushReg (r : reg)
  | ILea (r : reg) (target : nat)
  | IRetf
  | IRet.

Definition set_rip (v : Z) (s : mach) : mach :=
  Mach v (x_reg s) (x_seg s) (x_df s) (x_gdtr s) (x_mem s) (x_tr s).
Definition set_reg (r : reg) (v : Z) (s : mach) : mach :=
  Mach (x_rip s) (<[r := v]> (x_reg s)) (x_seg s) (x_df s) (x_gdtr s) (x_mem s) (x_tr s).
Definition set_seg (sg : sreg) (v : Z * Z) (s : mach) : mach :=
  Mach (x_rip s) (x_reg s) (<[sg := v]> (x_seg s)) (x_df s) (x_gdtr s) (x_mem s) (x_tr s).
Definition set_df (b : bool) (s : mach) : mach :=
  Mach (x_rip s) (x_reg s) (x_seg s) b (x_gdtr s) (x_mem s) (x_tr s).
Definition set_gdtr (v : Z * Z) (s : mach) : mach :=
  Mach (x_rip s) (x_reg s) (x_seg s) (x_df s) v (x_mem s) (x_tr s).
Definition set_mem (m : mem) (s : mach) : mach :=
  Mach (x_rip s) (x_reg s) (x_seg s) (x_df s) (x_gdtr s) m (x_tr s).
Definition event (e : io_event) (s : mach) : mach :=
  Mach (x_rip s) (x_reg s) (x_seg s) (x_df s) (x_gdtr s) (x_mem s) (e :: x_tr s).

(** Writing the low [n] bits of a register. *)
Definition low (n x v : Z) : Z := x - x mod 2 ^ n + v mod 2 ^ n.

Definition push64 (v : Z) (s : mach) : mach :=
  let '(rsp, m) := push v (x_reg s RSP, x_mem s) in set_mem m (set_reg RSP rsp s).
Definition pop64 (s : mach) : Z * mach :=
  let '(v, rsp) := pop (x_mem s) (x_reg s RSP) in (v, set_reg RSP rsp s).

(** [rep stosb]: [rcx] times al to [rdi], up or down as the direction flag says. *)
Definition rep_stosb (s : mach) : mach :=
  let n := x_reg s RCX in
  let d := if x_df s then -1 else 1 in
  let m := for_range 0 n (fun i m => vst8 m (u64 (x_reg s RDI + d * i)) (u8 (x_reg s RAX))) (x_mem s) in
  set_mem m (set_reg RCX 0 (set_reg RDI (u64 (x_reg s RDI + d * n)) s)).

(** Loading a segment register at privilege 0 from the GDT: the selector must lie in
    the table and the descriptor must suit the register, else the processor faults.
    The first load of a descriptor sets its accessed bit in the table. Selectors
    with a privilege level or for the LDT, and the null selector, are not loaded by
    this code and fault here. *)
Definition desc_ok (sg : sreg) (w : Z) : bool :=
  seg_present w && seg_user w &&
  match sg with
  | CS => seg_exec w && (seg_dpl w =? 0) && seg_long w && negb (seg_db w)
  | SS => negb (seg_exec w) && seg_rw w && (seg_dpl w =? 0)
  | _ => negb (seg_exec w) || seg_rw w
  end.

Definition accessed (w : Z) : Z := Z.setbit w 40.

Definition load_seg (sg : sreg) (sel : Z) (s : mach) : option mach :=
  let '(limit, base) := x_gdtr s in
  if negb (sel mod 8 =? 0) || (limit <? sel + 7) then None
  else
    let w := ld64 (x_mem s) (base + sel) in
    if negb (desc_ok sg w) then None
    else
      let m := if Z.testbit w 40 then x_mem s else st64 (x_mem s) (base + sel) (accessed w) in
      Some (set_seg sg (sel, accessed w) (set_mem m s)).

Section Code.
(** A piece of code and the address of each of its instructions. *)
Context (code : list instr) (addr : nat -> Z).

(** One instruction, the next one being at [next]; [None] is a fault. *)
Definition exec (i : instr) (next : Z) (s0 : mach) : option mach :=
  let s := set_rip next s0 in
  match i with
  | ICli => Some (event Cli s)
  | IHlt => Some (event Hlt s)
  | ICld => Some (set_df false s)
  | IMov64 r v => Some (set_reg r (u64 v) s)
  | IMov16 r v => Some (set_reg r (low 16 (x_reg s r) v) s)
  | IMov8 r v => Some (set_reg r (low 8 (x_reg s r) v) s)
  | ISub r1 r2 => Some (set_reg r1 (u64 (x_reg s r1 - x_reg s r2)) s)
  | IXor8 r1 r2 => Some (set_reg r1 (low 8 (x_reg s r1) (Z.lxor (x_reg s r1) (x_reg s r2))) s)
  | IRepStosb => Some (rep_stosb s)
  | IOutDxAl => Some (event (Out8 (u16 (x_reg s RDX)) (u8 (x_reg s RAX))) s)
  | ICall target => Some (set_rip target (push64 next s))
  | IJmp k => Some (set_rip (addr k) s)
  | ILgdt r =>
      let limit := ld_le 2 (x_mem s) (x_reg s r) in
      let base := ld64 (x_mem s) (x_reg s r + 2) in
      Some (set_gdtr (limit, base) (event (Lgdt limit base) s))
  | IMovSeg sg => load_seg sg (u16 (x_reg s RAX)) s
  | IPush v => Some (push64 (u64 v) s)
  | IPushReg r => Some (push64 (x_reg s r) s)
  | ILea r k => Some (set_reg r (addr k) s)
  | IRetf =>
      let '(rip, s) := pop64 s in
      let '(sel, s) := pop64 s in
      set_rip rip <$> load_seg CS (u16 sel) s
  | IRet => let '(rip, s) := pop64 s in Some (set_rip rip s)
  end.

Definition fetch (rip : Z) : option (instr * Z) :=
  match list_find (fun k => addr k = rip) (seq 0 (length code)) with
  | Some (_, k) => (fun i => (i, addr (S k))) <$> code !! k
  | None => None
  end.

(** At most [n] instructions of this code. *)
Fixpoint run (n : nat) (s : mach) : option mach :=
  match n with
  | O => Some s
  | S n =>
      match fetch (x_rip s) with
      | Some (i, next) => exec i next s ≫= run n
      | None => Some s
      end
  end.

Lemma run_app n k : forall s, run (n + k) s = run n s ≫= run k.
Proof using.
  induction n as [|n IH]; intros s; [done|]. cbn [run Nat.add]. destruct (fetch (x_rip s)) as [[i next]|] eqn:E.
  - destruct (exec i next s); cbn; [apply IH|done].
  - cbn. destruct k; cbn [run]; by rewrite ?E.
Qed.

Hypothesis addr_inj : forall i j, (i < length code)%nat -> (j < length code)%nat -> addr i = addr j -> i = j.

Lemma fetch_at k i : code !! k = Some i -> fetch (addr k) = Some (i, addr (S k)).
Proof using addr_inj.
  intros Hk. pose proof (lookup_lt_Some _ _ _ Hk) as Hl. unfold fetch.
  assert (list_find (fun j => addr j = addr k) (seq 0 (length code)) = Some (k, k)) as ->; [|by rewrite Hk].
  apply list_find_Some. split; [by apply lookup_seq|]. split; [done|]. intros j y [-> Hj]%lookup_seq Hjk E.
  assert (0 + j = k)%nat by (by apply addr_inj). lia.
Qed.

Lemma run_at k i n s : code !! k = Some i -> x_rip s = addr k -> run (S n) s = exec i (addr (S k)) s ≫= run n.
Proof using addr_inj. intros Hk Hr. cbn [run]. by rewrite Hr, (fetch_at k i). Qed.
End Code.

(** ** The code *)

Section Boot.
(** Where the linker puts [kmain] and the bounds of the [.bss] section. *)
Context (kmain bss_start bss_end : Z).

Definition start_code : list instr := [
  ICli;
  IMov64 RDI bss_start; IMov64 RCX bss_end; ISub RCX RDI; IXor8 RAX RAX; ICld; IRepStosb;
  IMov16 RDX 0x3F8;
  IMov8 RAX 83; IOutDxAl; IMov8 RAX 79; IOutDxAl; IMov8 RAX 75; IOutDxAl; IMov8 RAX 10; IOutDxAl;
  ICall kmain;
  ICli; IHlt; IJmp 17].
End Boot.

Definition gdt_flush_code : list instr := [
  ILgdt RDI;
  IMov16 RAX 0x10; IMovSeg DS; IMovSeg ES; IMovSeg FS; IMovSeg GS; IMovSeg SS;
  IPush 0x08; ILea RAX 11; IPushReg RAX; IRetf;
  IRet].

(** ** [_start] *)

(** Ascending, [rep stosb] is [memset]. *)
Lemma rep_stosb_memset s :
  x_df s = false -> 0 <= x_reg s RDI -> x_reg s RDI + x_reg s RCX <= 2 ^ 64 ->
  x_mem (rep_stosb s) = (memset (x_mem s) (x_reg s RDI) (x_reg s RAX) (x_reg s RCX)).1.
Proof.
  intros Hd H1 H3. unfold rep_stosb, memset. rewrite Hd. cbn [x_mem set_mem fst].
  apply for_range_ext. intros i m Hi. rewrite u64_id by lia. f_equal. lia.
Qed.

Lemma low_low n x v w : 0 <= n -> low n (low n x v) w = low n x w.
Proof. intros Hn. unfold low. pose proof (Z.pow_pos_nonneg 2 n ltac:(lia) Hn). 
  assert ((x - x mod 2 ^ n + v mod 2 ^ n) mod 2 ^ n = v mod 2 ^ n) as ->; [|lia].
  rewrite Zplus_mod, Zminus_mod, Z.mod_mod, Z.sub_diag, Z.mod_0_l, Z.add_0_l, !Z.mod_mod by lia. done.
Qed.

Lemma u8_low8 x v : u8 (low 8 x v) = u8 v.
Proof. unfold u8, low. mlia. Qed.
Lemma u16_low16 x v : u16 (low 16 x v) = u16 v.
Proof. unfold u16, low. mlia. Qed.

Ltac at_insn Hinj k :=
  erewrite (run_at _ _ Hinj k); [|reflexivity|reflexivity];
  cbn [exec mbind option_bind set_rip set_reg set_df set_mem set_gdtr set_seg event x_rip x_reg x_seg x_df x_gdtr x_mem x_tr].

Ltac fields := cbn [set_rip set_reg set_df set_mem set_gdtr set_seg event x_rip x_reg x_seg x_df x_gdtr x_mem x_tr fst snd].
Ltac regs := repeat first [rewrite fn_lookup_insert | rewrite fn_lookup_insert_ne by done].

Section Start.
Context (kmain bss_start bss_end : Z) (addr : nat -> Z).
Abbreviation code := (start_code kmain bss_start bss_end).
Context (Hinj : forall i j, (i < length code)%nat -> (j < length code)%nat -> addr i = addr j -> i = j).
Context (Hbss : 0 <= bss_start <= bss_end) (Htop : bss_end < 2 ^ 64).
Context (Haddr : 0 <= addr 17%nat < 2 ^ 64).

Lemma start_clears s :
  x_rip s = addr 0%nat ->
  exists s', run code addr 7 s = Some s' /\ x_rip s' = addr 7%nat /\ x_reg s' RSP = x_reg s RSP /\
    x_reg s' RDX = x_reg s RDX /\ x_df s' = false /\ x_seg s' = x_seg s /\ x_gdtr s' = x_gdtr s /\
    x_tr s' = Cli :: x_tr s /\ x_mem s' = (memset (x_mem s) bss_start 0 (bss_end - bss_start)).1.
Proof using Hinj Hbss Htop.
  intros Hr. destruct s as [rip rg sg df gd m tr]. cbn [x_rip] in Hr. subst rip.
  at_insn Hinj 0%nat. at_insn Hinj 1%nat. at_insn Hinj 2%nat. at_insn Hinj 3%nat. at_insn Hinj 4%nat.
  at_insn Hinj 5%nat. at_insn Hinj 6%nat. cbn [run].
  regs. rewrite (u64_id bss_start), (u64_id bss_end), (u64_id (bss_end - bss_start)), Z.lxor_nilpotent by lia.
  eexists. split; [reflexivity|]. rewrite rep_stosb_memset; fields; regs; [|done|lia..].
  unfold rep_stosb. fields. regs. do 7 (split; [done|]). unfold memset. cbn [fst]. by rewrite u8_low8.
Qed.

Lemma start_prints s :
  x_rip s = addr 7%nat ->
  exists s', run code addr 10 s = Some s' /\ x_rip s' = kmain /\ x_reg s' RSP = u64 (x_reg s RSP - 8) /\
    x_df s' = x_df s /\ x_seg s' = x_seg s /\ x_gdtr s' = x_gdtr s /\
    x_tr s' = Out8 0x3F8 10 :: Out8 0x3F8 75 :: Out8 0x3F8 79 :: Out8 0x3F8 83 :: x_tr s /\
    x_mem s' = st64 (x_mem s) (u64 (x_reg s RSP - 8)) (addr 17%nat).
Proof using Hinj.
  intros Hr. destruct s as [rip rg sg df gd m tr]. cbn [x_rip] in Hr. subst rip.
  at_insn Hinj 7%nat. at_insn Hinj 8%nat. at_insn Hinj 9%nat. at_insn Hinj 10%nat. at_insn Hinj 11%nat.
  at_insn Hinj 12%nat. at_insn Hinj 13%nat. at_insn Hinj 14%nat. at_insn Hinj 15%nat. at_insn Hinj 16%nat. cbn [run].
  eexists. split; [reflexivity|]. unfold push64, push.
  fields. regs.
  do 5 (split; [done|]). split; [|done]. by rewrite !u8_low8, !u16_low16.
Qed.
(** After [kmain], should it return: interrupts stay off for good. *)
Lemma halt_loop_stays n : forall s,
  x_rip s ∈ addr <$> [17; 18; 19]%nat ->
  exists s' evs, run code addr n s = Some s' /\ x_rip s' ∈ addr <$> [17; 18; 19]%nat /\
    x_tr s' = evs ++ x_tr s /\ Forall (fun e => e = Cli \/ e = Hlt) evs /\ x_mem s' = x_mem s.
Proof using Hinj.
  clear Hbss Htop Haddr. induction n as [|n IH]; intros s Hr; [by exists s, []|].
  assert (H : exists s1 evs, run code addr 1 s = Some s1 /\ x_rip s1 ∈ addr <$> [17; 18; 19]%nat /\
    x_tr s1 = evs ++ x_tr s /\ Forall (fun e => e = Cli \/ e = Hlt) evs /\ x_mem s1 = x_mem s).
  { cbn [fmap list_fmap] in Hr. rewrite !elem_of_cons, elem_of_nil in Hr.
    destruct s as [rip rg sg df gd m tr]. cbn [x_rip] in Hr. destruct Hr as [->|[->|[->|[]]]];
      [at_insn Hinj 17%nat|at_insn Hinj 18%nat|at_insn Hinj 19%nat]; cbn [run]; eexists;
      [exists [Cli]|exists [Hlt]|exists []]; (split; [reflexivity|]); fields;
      (split; [set_solver|]); (split; [done|]); (split; [|done]); repeat (constructor; [auto|]); constructor. }
  destruct H as (s1 & ev1 & E1 & Hr1 & Ht1 & Hf1 & Hm1). destruct (IH s1 Hr1) as (s' & evs & E & Hr' & Ht & Hf & Hm).
  exists s', (evs ++ ev1). split; [change (S n) with (1 + n)%nat; by rewrite run_app, E1|].
  split; [done|]. split; [by rewrite Ht, Ht1, app_assoc|]. split; [by apply Forall_app|congruence].
Qed.

(** C34 The boot entry enters [kmain] with every byte of [.bss] zero, which is what the
    initial values of the kernel's variables mean, with interrupts disabled, the
    direction flag clear and [SOK] on the serial line. Of the rest of memory it
    writes only the return address, which leads to its halt loop. *)
Theorem start_enters_kmain s :
  x_rip s = addr 0%nat -> 8 <= x_reg s RSP < 2 ^ 64 -> x_reg s RSP <= bss_start \/ bss_end + 8 <= x_reg s RSP ->
  let sp := x_reg s RSP - 8 in
  exists s', run code addr 17 s = Some s' /\ x_rip s' = kmain /\ x_reg s' RSP = sp /\
    ld64 (x_mem s') sp = addr 17%nat /\
    (forall a, bss_start <= a < bss_end -> vld8 (x_mem s') a = 0) /\
    (forall a, ~ bss_start <= a < bss_end -> ~ sp <= a < sp + 8 -> vld8 (x_mem s') a = vld8 (x_mem s) a) /\
    x_df s' = false /\ x_seg s' = x_seg s /\ x_gdtr s' = x_gdtr s /\
    exists out, x_tr s' = out ++ x_tr s /\ sent 0x3F8 out = [83; 79; 75; 10] /\ controls out = [Cli].
Proof using All.
  intros Hr Hsp Hdis sp. destruct (start_clears s Hr) as (s1 & E1 & R1 & P1 & _ & D1 & G1 & T1 & O1 & M1).
  destruct (start_prints s1 R1) as (s' & E & R & P & D & G & T & O & M).
  rewrite P1, u64_id in P, M by lia. fold sp in P, M.
  assert (Hsp' : sp = x_reg s RSP - 8) by done. clearbody sp.
  assert (Hb : forall a, vld8 (x_mem s1) a = if decide (bss_start <= a < bss_end) then 0 else vld8 (x_mem s) a).
  { intros a. rewrite M1, (proj2 (memset_spec (x_mem s) bss_start 0 (bss_end - bss_start) ltac:(lia) ltac:(auto with kernel))) by done.
    replace (bss_start + (bss_end - bss_start)) with bss_end by lia. done. }
  assert (Hs : forall a, ~ sp <= a < sp + 8 -> vld8 (x_mem s') a = vld8 (x_mem s1) a).
  { intros a Ha. rewrite M. apply vld8_st64_ne; [apply mem_vok_range|done|done]. }
  exists s'. split; [change 17%nat with (7 + 10)%nat; by rewrite run_app, E1|]. do 2 (split; [done|]).
  split; [rewrite M, ld64_st64_eq by auto with kernel; by apply u64_id|]. split.
  { intros a Ha. by rewrite Hs, Hb, decide_True by lia. }
  split. { intros a Ha Hst. by rewrite Hs, Hb, decide_False. }
  do 3 (split; [congruence|]). eexists (_ :: _ :: _ :: _ :: [Cli]).
  split; [by rewrite O, O1|]. by split.
Qed.
End Start.

(** ** [gdt_flush] *)

(** The words of the table, loaded or not. *)
Definition kernel_code : Z := 0x00AF9A000000FFFF.
Definition kernel_data : Z := 0x00AF92000000FFFF.

Lemma gdt_init_words gdt_addr gdt tr :
  length gdt = 5%nat ->
  exists g, gdt_init gdt_addr gdt tr = Some (g, Lgdt 39 gdt_addr :: tr) /\
    map gdt_word g = [0; kernel_code; kernel_data; 0x00AFFA000000FFFF; 0x00AFF2000000FFFF].
Proof.
  intros Hl. destruct gdt as [|? [|? [|? [|? [|? [|]]]]]]; try discriminate Hl.
  eexists. split; [reflexivity|]. by vm_compute.
Qed.

(** Loading a register whose descriptor suits it. *)
Lemma load_seg_ok sg sel s limit base w :
  x_gdtr s = (limit, base) -> sel mod 8 = 0 -> sel + 7 <= limit -> ld64 (x_mem s) (base + sel) = w -> desc_ok sg w = true ->
  exists m, load_seg sg sel s = Some (set_seg sg (sel, accessed w) (set_mem m s)) /\
    ld64 m (base + sel) = u64 (accessed w) /\
    (forall a n, a + n <= base + sel \/ base + sel + 8 <= a -> agree (x_mem s) m a n).
Proof.
  intros Hg Ha Hl Hw Hok. unfold load_seg. rewrite Hg, Ha, (proj2 (Z.ltb_ge _ _)), Hw, Hok by lia. cbn [negb orb Z.eqb].
  eexists. split; [reflexivity|]. destruct (Z.testbit w 40) eqn:Eb.
  - split; [|intros; apply agree_refl]. rewrite Hw. unfold accessed.
    assert (Z.setbit w 40 = w) as ->; [|subst w; symmetry; apply u64_id, ld64_bound].
    apply Z.bits_inj'. intros i Hi. rewrite Z.setbit_eqb by lia. destruct (Z.eqb_spec 40 i) as [<-|]; [by rewrite Eb|done].
  - split; [apply ld64_st64_eq; auto with kernel|]. intros a n Hd. apply (st_le_agree 8); auto with kernel.
Qed.

Section Flush.
Context (addr : nat -> Z).
Abbreviation code := gdt_flush_code.
Context (Hinj : forall i j, (i < length code)%nat -> (j < length code)%nat -> addr i = addr j -> i = j).
Context (base : Z).

(** The data segment registers of [sgs] are loaded, at instruction [k]. *)
Record loaded (s0 : mach) (k : nat) (sgs : list sreg) (s : mach) : Prop := {
  ld_rip : x_rip s = addr k;
  ld_reg : x_reg s = x_reg s0;
  ld_gdtr : x_gdtr s = (39, base);
  ld_df : x_df s = x_df s0;
  ld_tr : x_tr s = x_tr s0;
  ld_seg sg : x_seg s sg = if decide (sg ∈ sgs) then (16, accessed kernel_data) else x_seg s0 sg;
  ld_word : ld64 (x_mem s) (base + 16) = match sgs with [] => kernel_data | _ => accessed kernel_data end;
  ld_agree a n : a + n <= base + 16 \/ base + 24 <= a -> agree (x_mem s0) (x_mem s) a n;
}.

Lemma load_data s0 k sgs s sg :
  loaded s0 k sgs s -> u16 (x_reg s0 RAX) = 16 -> code !! k = Some (IMovSeg sg) -> sg <> CS ->
  exists s', run code addr 1 s = Some s' /\ loaded s0 (S k) (sg :: sgs) s'.
Proof using Hinj.
  intros [Hr Hg Ht Hd Htr Hs Hw Ha] Hax Hk Hsg. rewrite (run_at _ _ Hinj k _ 0 s Hk Hr). cbn [exec]. fields. rewrite Hg, Hax.
  destruct (load_seg_ok sg 16 (set_rip (addr (S k)) s) 39 base (ld64 (x_mem s) (base + 16))) as (m & -> & Hm & Hag); try done.
  { rewrite Hw. by destruct sgs, sg. }
  cbn [mbind option_bind run]. eexists. split; [reflexivity|]. fields.
  assert (Hacc : accessed (ld64 (x_mem s) (base + 16)) = accessed kernel_data) by (rewrite Hw; by destruct sgs).
  rewrite Hacc in *. split; fields; try done.
  - intros sg'. destruct (decide (sg' = sg)) as [->|Hne].
    + rewrite fn_lookup_insert, decide_True by left. done.
    + rewrite fn_lookup_insert_ne, Hs by done. apply decide_ext. rewrite elem_of_cons. tauto.
  - intros a n Hn. eapply agree_trans; [by apply Ha|]. apply Hag. fields. lia.
Qed.

Lemma load_all s0 s :
  loaded s0 2 [] s -> u16 (x_reg s0 RAX) = 16 ->
  exists s', run code addr 5 s = Some s' /\ loaded s0 7 [SS; GS; FS; ES; DS] s'.
Proof using Hinj.
  intros H0 Hax. destruct (load_data _ _ _ _ DS H0 Hax) as (s1 & E1 & H1); [done..|].
  destruct (load_data _ _ _ _ ES H1 Hax) as (s2 & E2 & H2); [done..|].
  destruct (load_data _ _ _ _ FS H2 Hax) as (s3 & E3 & H3); [done..|].
  destruct (load_data _ _ _ _ GS H3 Hax) as (s4 & E4 & H4); [done..|].
  destruct (load_data _ _ _ _ SS H4 Hax) as (s5 & E5 & H5); [done..|].
  exists s5. split; [|done]. change 5%nat with (1 + (1 + (1 + (1 + 1))))%nat.
  rewrite run_app, E1. cbn [mbind option_bind]. rewrite run_app, E2. cbn [mbind option_bind]. rewrite run_app, E3.
  cbn [mbind option_bind]. by rewrite run_app, E4.
Qed.
(** The far return to the next instruction, and the return. *)
Lemma far_return s :
  x_rip s = addr 7%nat -> x_gdtr s = (39, base) -> ld64 (x_mem s) (base + 8) = kernel_code ->
  0 <= addr 11%nat < 2 ^ 64 -> 16 <= x_reg s RSP < 2 ^ 64 - 8 ->
  let sp := x_reg s RSP in sp + 8 <= base \/ base + 40 <= sp - 16 ->
  exists s', run code addr 5 s = Some s' /\ x_rip s' = ld64 (x_mem s) sp /\ x_reg s' RSP = sp + 8 /\
    (forall r, r <> RAX -> r <> RSP -> x_reg s' r = x_reg s r) /\
    (forall sg, x_seg s' sg = if decide (sg = CS) then (8, accessed kernel_code) else x_seg s sg) /\
    x_df s' = x_df s /\ x_gdtr s' = (39, base) /\ x_tr s' = x_tr s /\ ld64 (x_mem s') (base + 8) = accessed kernel_code /\
    (forall a n, a + n <= base + 8 \/ base + 16 <= a -> a + n <= sp - 16 \/ sp <= a -> agree (x_mem s) (x_mem s') a n).
Proof using Hinj.
  intros Hr Hg Hw Hadd Hsp sp Hdis. destruct s as [rip rg seg df gd m tr]. cbn [x_rip x_reg x_gdtr x_mem] in *. subst rip gd.
  at_insn Hinj 7%nat. unfold push64, push. fields. at_insn Hinj 8%nat. at_insn Hinj 9%nat. unfold push64, push. fields. regs.
  fold sp. rewrite (u64_id (sp - 8)), (u64_id (sp - 8 - 8)), (u64_id 8) by lia.
  set (m2 := st64 (st64 m (sp - 8) 8) (sp - 8 - 8) (addr 11%nat)).
  assert (Hm2 : forall a n, a + n <= sp - 16 \/ sp <= a -> agree m m2 a n).
  { intros a n Hd. eapply agree_trans; apply (st_le_agree 8); auto with kernel; lia. }
  assert (H1 : ld64 m2 (sp - 8 - 8) = addr 11%nat) by (unfold m2; rewrite ld64_st64_eq by auto with kernel; by apply u64_id).
  assert (H2 : ld64 m2 (sp - 8) = 8).
  { unfold m2. rewrite ld64_st64_ne, ld64_st64_eq by (auto with kernel || lia). done. }
  at_insn Hinj 10%nat. unfold pop64, pop. fields. regs. rewrite H1, (u64_id (sp - 8 - 8 + 8)), (u64_id (sp - 8 - 8 + 8 + 8)) by lia.
  replace (sp - 8 - 8 + 8) with (sp - 8) by lia. rewrite H2. change (u16 8) with 8.
  match goal with |- context [load_seg CS 8 ?s] => destruct (load_seg_ok CS 8 s 39 base kernel_code) as (m3 & E3 & Hw3 & Hm3) end.
  1-5: fields; try done; try lia. { erewrite ld64_agree; [exact Hw|apply Hm2; lia]. }
  rewrite E3. clear E3. cbn [fmap option_fmap option_map mbind option_bind]. fields. fields.
  at_insn Hinj 11%nat. unfold pop64, pop. fields. regs. cbn [run].
  assert (Hag : forall a n, a + n <= base + 8 \/ base + 16 <= a -> a + n <= sp - 16 \/ sp <= a -> agree m m3 a n).
  { intros a n Ha Hb. eapply agree_trans; [by apply Hm2|apply Hm3; lia]. }
  eexists. split; [reflexivity|]. fields. replace (sp - 8 + 8) with sp by lia.
  split; [apply ld64_agree, Hag; lia|]. rewrite fn_lookup_insert. split; [apply u64_id; lia|].
  split; [intros r H3 H4; by rewrite !fn_lookup_insert_ne by done|]. split.
  { intros sg. destruct (decide (sg = CS)) as [->|]; [by rewrite fn_lookup_insert|by rewrite fn_lookup_insert_ne]. }
  do 3 (split; [done|]). split; [done|exact Hag].
Qed.

(** The two segments suit code, data and stack of the kernel. *)
Lemma kernel_segments :
  desc_ok CS (accessed kernel_code) = true /\ (forall sg, sg <> CS -> desc_ok sg (accessed kernel_data) = true).
Proof using. split; [done|]. by intros []. Qed.

(** C35 With the table of [gdt_init] in memory, [gdt_flush] raises no fault and
    returns to its caller: code then runs in the ring-0 64-bit segment of selector
    8, data and stack use the ring-0 data segment of selector 16, and the one event
    is the [Lgdt] that [gdt_init] records. Memory changes in two descriptors (their
    accessed bits) and below the stack pointer only. *)
Theorem gdt_flush_reloads gdt g s tr' :
  length gdt = 5%nat -> gdt_init base gdt (x_tr s) = Some (g, tr') -> words_at (x_mem s) base (map gdt_word g) ->
  x_rip s = addr 0%nat -> 0 <= addr 11%nat < 2 ^ 64 -> 16 <= x_reg s RSP < 2 ^ 64 - 8 ->
  ld_le 2 (x_mem s) (x_reg s RDI) = 39 -> ld64 (x_mem s) (x_reg s RDI + 2) = base ->
  let sp := x_reg s RSP in sp + 8 <= base \/ base + 40 <= sp - 16 ->
  exists s', run code addr 12 s = Some s' /\ x_rip s' = ld64 (x_mem s) sp /\ x_reg s' RSP = sp + 8 /\
    (forall r, r <> RAX -> r <> RSP -> x_reg s' r = x_reg s r) /\
    (forall sg, x_seg s' sg = if decide (sg = CS) then (8, accessed kernel_code) else (16, accessed kernel_data)) /\
    x_gdtr s' = (39, base) /\ x_df s' = x_df s /\ x_tr s' = tr' /\
    words_at (x_mem s') base [0; accessed kernel_code; accessed kernel_data; 0x00AFFA000000FFFF; 0x00AFF2000000FFFF] /\
    (forall a n, a + n <= base + 8 \/ base + 24 <= a -> a + n <= sp - 16 \/ sp <= a -> agree (x_mem s) (x_mem s') a n).
Proof using Hinj.
  intros Hl Hg Hw Hr Hadd Hsp Hlim Hbase sp Hdis. destruct (gdt_init_words base gdt (x_tr s) Hl) as (g' & Eg & Ew).
  rewrite Hg in Eg. injection Eg as -> ->. rewrite Ew in Hw. cbn [words_at] in *. rewrite <-!Z.add_assoc in *.
  cbn [Z.add Pos.add Pos.succ Pos.add_carry] in *. destruct Hw as (W0 & W1 & W2 & W3 & W4 & _).
  destruct s as [rip rg seg df gd m tr]. cbn [x_rip x_reg x_mem x_tr x_df] in *. subst rip.
  change 12%nat with (2 + (5 + 5))%nat. rewrite run_app. at_insn Hinj 0%nat. rewrite Hlim, Hbase. at_insn Hinj 1%nat. cbn [run mbind option_bind].
  fields. match goal with |- context [run _ _ (5 + 5) ?x] => set (s2 := x) end. rewrite run_app.
  destruct (load_all s2 s2) as (s7 & E7 & [R7 G7 D7 F7 T7 S7 W7 A7]).
  { split; try done; intros; apply agree_refl. }
  { unfold s2. fields. rewrite fn_lookup_insert, u16_low16. done. }
  assert (P7 : x_reg s7 RSP = sp) by (rewrite G7; by apply fn_lookup_insert_ne).
  rewrite E7. cbn [mbind option_bind].
  destruct (far_return s7 R7 D7) as (s' & E & R & P & G & S & F & D & T & W & A); rewrite ?P7 in *; try done.
  { rewrite <-W1. apply ld64_agree, A7. lia. }
  assert (Hag : forall a n, a + n <= base + 8 \/ base + 24 <= a -> a + n <= sp - 16 \/ sp <= a -> agree m (x_mem s') a n).
  { intros a n Ha Hb. eapply agree_trans; [apply A7; lia|apply A; lia]. }
  exists s'. split; [exact E|]. split; [rewrite R; apply ld64_agree, A7; lia|]. split; [done|]. split.
  { intros r H1 H2. rewrite G, G7 by done. by apply fn_lookup_insert_ne. }
  split; [intros sg; rewrite S, S7; by destruct sg|].
  split; [done|]. split; [by rewrite F, F7|]. split; [by rewrite T, T7|]. split; [|exact Hag].
  split; [rewrite <-W0; apply ld64_agree, Hag; lia|]. split; [done|].
  split; [rewrite <-W7; apply ld64_agree, A; lia|].
  split; [rewrite <-W3|split; [rewrite <-W4|done]]; apply ld64_agree, Hag; lia.
Qed.
End Flush.

(** ** Concrete runs *)

Definition demo_addr (k : nat) : Z := 0x8000 + Z.of_nat k.
Lemma demo_addr_inj (n : nat) i j : (i < n)%nat -> (j < n)%nat -> demo_addr i = demo_addr j -> i = j.
Proof. unfold demo_addr. lia. Qed.

(** Dirty memory where [.bss] will be, and beside it. *)
Definition demo_entry : mach :=
  Mach (demo_addr 0) (fun r => match r with RSP => 0x700 | _ => 0x1234 end) (fun _ => (0x28, 0)) true (0, 0)
    (<[0x100 := 7]> (<[0x103 := 9]> (<[0x104 := 5]> ∅))) [].

Lemma start_enters_kmain_witness :
  exists s', run (start_code 0x9000 0x100 0x104) demo_addr 17 demo_entry = Some s' /\ x_rip s' = 0x9000 /\
    vld8 (x_mem s') 0x103 = 0 /\ vld8 (x_mem s') 0x104 = 5 /\ exists out, x_tr s' = out ++ [] /\ sent 0x3F8 out = [83; 79; 75; 10].
Proof.
  destruct (start_enters_kmain 0x9000 0x100 0x104 demo_addr (demo_addr_inj 20)) with (s := demo_entry)
    as (s' & E & R & _ & _ & Z & K & _ & _ & _ & out & O & S & _).
  1, 3, 5: split; reflexivity || discriminate. 1-2: reflexivity. { right. discriminate. }
  exists s'. split; [exact E|]. split; [exact R|]. split; [apply Z; split; [discriminate|reflexivity]|]. split; [by rewrite K by (cbn; lia)|].
  exists out. split; [exact O|exact S].
Defined.

(** The table at 0x600, its descriptor at 0x500, and the return address on the stack. *)
Definition demo_gdt_mem : mem :=
  st64 (st64 (st64 (st64 (st64 (st64 (st_le 2 (st64 ∅ 0x502 0x600) 0x500 39) 0x600 0) 0x608 kernel_code) 0x610 kernel_data)
    0x618 0x00AFFA000000FFFF) 0x620 0x00AFF2000000FFFF) 0x700 0x7777.
Definition demo_flush : mach :=
  Mach (demo_addr 0) (fun r => match r with RSP => 0x700 | RDI => 0x500 | _ => 0 end) (fun _ => (0x28, 0)) false (0, 0)
    demo_gdt_mem [].

Definition demo_table : list gdt_entry := default [] (fst <$> gdt_init 0x600 (repeat gdt_zero 5) []).

Lemma gdt_flush_reloads_witness :
  exists s', run gdt_flush_code demo_addr 12 demo_flush = Some s' /\ x_rip s' = 0x7777 /\
    x_seg s' CS = (8, accessed kernel_code) /\ x_seg s' SS = (16, accessed kernel_data).
Proof.
  assert (Hlim : ld_le 2 (x_mem demo_flush) (x_reg demo_flush RDI) = 39) by (vm_compute; reflexivity).
  assert (Hbase : ld64 (x_mem demo_flush) (x_reg demo_flush RDI + 2) = 0x600) by (vm_compute; reflexivity).
  assert (Hret : ld64 (x_mem demo_flush) 0x700 = 0x7777) by (vm_compute; reflexivity).
  assert (Hw : words_at (x_mem demo_flush) 0x600 (map gdt_word demo_table)) by (vm_compute; repeat split).
  destruct (gdt_flush_reloads demo_addr (demo_addr_inj 12) 0x600 (repeat gdt_zero 5) demo_table demo_flush [Lgdt 39 0x600]
    eq_refl eq_refl Hw eq_refl) as (s' & E & R & _ & _ & S & _).
  - split; reflexivity || discriminate.
  - split; reflexivity || discriminate.
  - exact Hlim.
  - exact Hbase.
  - right. discriminate.
  - exists s'. split; [exact E|]. split; [rewrite R; exact Hret|]. split; [apply (S CS)|apply (S SS)].
Defined.
