(* ===== verification/Idt.v ===== *)
(** [src/arc/x86_64/idt.c]: the interrupt gates, their packed layout, and the
    remapping of the two 8259 interrupt controllers. *)

From S2P Require Import Prelude PortIO Gdt.

(** [idt_entry_t] *)
Record idt_entry := IdtEntry {
  ib_low : Z;
  i_selector : Z;
  i_ist : Z;
  i_flags : Z;
  ib_mid : Z;
  ib_high : Z;
  i_reserved : Z;
}.

Definition idt_bss : list idt_entry := repeat (IdtEntry 0 0 0 0 0 0 0) 256.

Definition idt_gate (base sel flags : Z) : idt_entry :=
  IdtEntry (u16 (Z.land base 0xFFFF)) (u16 sel) 0 (u8 flags)
    (u16 (Z.land (Z.shiftr base 16) 0xFFFF))
    (u32 (Z.land (Z.shiftr base 32) 0xFFFFFFFF)) 0.

Definition idt_set_entry (index : Z) (base sel flags : Z) (idt : list idt_entry) : list idt_entry :=
  <[Z.to_nat index := idt_gate base sel flags]> idt.

Definition pic_remap : prog trace unit := (
  outb 0x20 0x11 ;; io_wait ;;
  outb 0xA0 0x11 ;; io_wait ;;
  outb 0x21 0x20 ;; io_wait ;;
  outb 0xA1 0x28 ;; io_wait ;;
  outb 0x21 0x04 ;; io_wait ;;
  outb 0xA1 0x02 ;; io_wait ;;
  outb 0x21 0x01 ;; io_wait ;;
  outb 0xA1 0x01 ;; io_wait ;;
  outb 0x21 0xFC ;;
  outb 0xA1 0xFF)%prog.

Section Init.
(** The addresses of the assembly stubs [isr0..isr31], [irq0..irq15], and of
    the table itself. *)
Context (isr irq : Z -> Z) (idt_addr : Z).

Definition idt_table (idt : list idt_entry) : list idt_entry :=
  let idt := for_range 0 256 (fun i => idt_set_entry i 0 0 0) idt in
  let idt := for_range 0 32 (fun i => idt_set_entry i (isr i) 0x08 0x8E) idt in
  for_range 32 16 (fun i => idt_set_entry i (irq (i - 32)) 0x08 0x8E) idt.

Definition idt_init (idt : list idt_entry) : prog trace (list idt_entry) := (
  let idt := idt_table idt in
  pic_remap ;;
  emit (Lidt (u16 (256 * 16 - 1)) idt_addr) ;;
  emit Sti ;;
  pret idt)%prog.
End Init.

(** The 16 bytes of a gate as a word. *)
Definition idt_word (e : idt_entry) : Z :=
  ib_low e + 2 ^ 16 * i_selector e + 2 ^ 32 * i_ist e + 2 ^ 40 * i_flags e +
  2 ^ 48 * ib_mid e + 2 ^ 64 * ib_high e + 2 ^ 96 * i_reserved e.

(** ** What the processor reads (64-bit gate format) *)

Definition gate_offset (w : Z) : Z :=
  field w 0 16 + 2 ^ 16 * field w 48 16 + 2 ^ 32 * field w 64 32.
Definition gate_selector (w : Z) : Z := field w 16 16.
Definition gate_ist (w : Z) : Z := field w 32 3.
Definition gate_type (w : Z) : Z := field w 40 4.
Definition gate_dpl (w : Z) : Z := field w 45 2.
Definition gate_present (w : Z) : bool := Z.testbit w 47.

Lemma gate_present_field w : gate_present w = (field w 47 1 =? 1).
Proof.
  unfold gate_present, field. apply eq_true_iff_eq. rewrite Z.testbit_true, Z.eqb_eq by lia. done.
Qed.

Lemma idt_gate_decodes base sel flags :
  0 <= base < 2 ^ 64 -> 0 <= sel < 2 ^ 16 -> 0 <= flags < 2 ^ 8 ->
  let w := idt_word (idt_gate base sel flags) in
  gate_offset w = base /\ gate_selector w = sel /\ gate_ist w = 0 /\
  gate_type w = flags mod 16 /\ gate_dpl w = (flags / 32) mod 4 /\
  gate_present w = (128 <=? flags).
Proof.
  intros Hb Hs Hf w. unfold w. clear w. rewrite gate_present_field. unfold idt_word. cbn [idt_gate ib_low i_selector i_ist
    i_flags ib_mid ib_high i_reserved].
  change 0xFFFF with (Z.ones 16). change 0xFFFFFFFF with (Z.ones 32).
  rewrite !Z.land_ones, !Z.shiftr_div_pow2, (u16_id sel), (u8_id flags) by lia.
  unfold u16, u32. set (lo := (base mod 2 ^ 16) mod 2 ^ 16).
  set (mid := ((base / 2 ^ 16) mod 2 ^ 16) mod 2 ^ 16).
  set (hi := ((base / 2 ^ 32) mod 2 ^ 32) mod 2 ^ 32).
  assert (Hsum : 0 <= lo < 2 ^ 16 /\ 0 <= mid < 2 ^ 16 /\ 0 <= hi < 2 ^ 32 /\
    lo + 2 ^ 16 * mid + 2 ^ 32 * hi = base) by (unfold lo, mid, hi; mlia).
  clearbody lo mid hi. destruct Hsum as (B1 & B2 & B3 & <-). clear Hb.
  unfold gate_offset, gate_selector, gate_ist, gate_type, gate_dpl, field.
  repeat split; mlia.
Qed.

(** *** The table *)

Lemma set_entries_lookup lo n (f : Z -> idt_entry) (idt : list idt_entry) v :
  0 <= lo -> 0 <= n -> lo + n <= Z.of_nat (length idt) ->
  let idt' := for_range lo n (fun i idt => <[Z.to_nat i := f i]> idt) idt in
  length idt' = length idt /\
  (0 <= v -> idt' !! Z.to_nat v = if decide (lo <= v < lo + n) then Some (f v) else idt !! Z.to_nat v).
Proof.
  intros Hlo Hn Hlen.
  set (P := fun k idt' => length idt' = length idt /\
    (0 <= v -> idt' !! Z.to_nat v =
       if decide (lo <= v < lo + k) then Some (f v) else idt !! Z.to_nat v)).
  intros idt'. enough (HP : P n idt') by exact HP. apply for_range_ind; [done| |].
  - split; [done|]. intros _. by rewrite decide_False by lia.
  - intros i idt1 Hi [Hl IH]. unfold P. rewrite length_insert. split; [done|]. intros Hv.
    destruct (decide (v = lo + i)) as [->|Hne].
    + rewrite list_lookup_insert_eq by lia. by rewrite decide_True by lia.
    + rewrite list_lookup_insert_ne, IH by lia. repeat case_decide; lia || done.
Qed.

Lemma idt_table_lookup isr irq idt v :
  length idt = 256%nat -> 0 <= v < 256 ->
  length (idt_table isr irq idt) = 256%nat /\
  idt_table isr irq idt !! Z.to_nat v =
    Some (if v <? 32 then idt_gate (isr v) 8 0x8E
          else if v <? 48 then idt_gate (irq (v - 32)) 8 0x8E else idt_gate 0 0 0).
Proof.
  intros Hl Hv. unfold idt_table, idt_set_entry.
  destruct (set_entries_lookup 0 256 (fun _ => idt_gate 0 0 0) idt v) as [L1 E1]; [lia..|].
  destruct (set_entries_lookup 0 32 (fun i => idt_gate (isr i) 0x08 0x8E) (for_range 0 256
    (fun i idt => <[Z.to_nat i := idt_gate 0 0 0]> idt) idt) v) as [L2 E2]; [lia..|].
  match goal with |- length (for_range 32 16 _ ?t) = _ /\ _ =>
    destruct (set_entries_lookup 32 16 (fun i => idt_gate (irq (i - 32)) 0x08 0x8E) t v) as [L3 E3] end;
    [lia..|].
  split; [by rewrite L3, L2, L1|]. rewrite E3, E2, E1 by lia.
  destruct (Z.ltb_spec v 32), (Z.ltb_spec v 48); repeat case_decide; first [exfalso; lia|reflexivity].
Qed.

(** ** Reference: the pair of 8259A interrupt controllers *)

Record pic := Pic {
  p_base : Z;
  p_cascade : Z;
  p_icw4 : Z;
  p_mask : Z;
  p_stage : nat;
}.

(** ICW1 (bit 4 of a command byte) starts the initialisation sequence and clears
    the mask; ICW2 to ICW4 and the mask go to the data port. *)
Definition pic_command (v : Z) (p : pic) : pic :=
  if Z.testbit v 4 then Pic (p_base p) (p_cascade p) (p_icw4 p) 0 1 else p.

Definition pic_data (v : Z) (p : pic) : pic :=
  match p_stage p with
  | 1%nat => Pic (8 * (v / 8)) (p_cascade p) (p_icw4 p) (p_mask p) 2
  | 2%nat => Pic (p_base p) v (p_icw4 p) (p_mask p) 3
  | 3%nat => Pic (p_base p) (p_cascade p) v (p_mask p) 0
  | _ => Pic (p_base p) (p_cascade p) (p_icw4 p) v (p_stage p)
  end.

Definition pics_step (e : io_event) (ps : pic * pic) : pic * pic :=
  match e with
  | Out8 port v =>
      if port =? 0x20 then (pic_command v ps.1, ps.2)
      else if port =? 0x21 then (pic_data v ps.1, ps.2)
      else if port =? 0xA0 then (ps.1, pic_command v ps.2)
      else if port =? 0xA1 then (ps.1, pic_data v ps.2)
      else ps
  | _ => ps
  end.

(** The controllers after a history (latest event first). *)
Definition pics (ps0 : pic * pic) (tr : trace) : pic * pic := foldr pics_step ps0 tr.

(** Line [n] of the pair (8 to 15 on the slave, which sits on line 2 of the
    master) can interrupt, and the vector it raises. *)
Definition line_enabled (ps : pic * pic) (n : Z) : bool :=
  if n <? 8 then negb (Z.testbit (p_mask ps.1) n)
  else negb (Z.testbit (p_mask ps.2) (n - 8)) && negb (Z.testbit (p_mask ps.1) 2).
Definition line_vector (ps : pic * pic) (n : Z) : Z :=
  if n <? 8 then p_base ps.1 + n else p_base ps.2 + (n - 8).

(** C31 After [idt_init], from any state of the table and of the controllers: every
    exception vector and every interrupt line of the controllers is routed to its
    own stub by a present ring-0 interrupt gate of the kernel code segment, no
    other vector has a gate, only the timer and the keyboard lines can
    interrupt, and interrupts are enabled only after [lidt]. *)
Theorem idt_init_routes isr irq idt_addr idt tr ps0 :
  length idt = 256%nat ->
  (forall i, 0 <= i < 32 -> 0 <= isr i < 2 ^ 64) -> (forall i, 0 <= i < 16 -> 0 <= irq i < 2 ^ 64) ->
  exists idt' l, idt_init isr irq idt_addr idt tr = Some (idt', Sti :: Lidt 4095 idt_addr :: l ++ tr) /\
    controls l = [] /\
    let gate v := idt_word (nth (Z.to_nat v) idt' (idt_gate 0 0 0)) in
    let kernel_gate v target := gate_present (gate v) = true /\ gate_offset (gate v) = target /\
      gate_selector (gate v) = 8 /\ gate_type (gate v) = 14 /\ gate_dpl (gate v) = 0 in
    let ps := pics ps0 (l ++ tr) in
    (forall v, 0 <= v < 32 -> kernel_gate v (isr v)) /\
    (forall n, 0 <= n < 16 -> line_vector ps n = 32 + n /\ kernel_gate (line_vector ps n) (irq n) /\
       line_enabled ps n = (n <? 2)) /\
    (forall v, 48 <= v < 256 -> gate_present (gate v) = false).
Proof.
  intros Hl Hisr Hirq.
  exists (idt_table isr irq idt),
    [Out8 0xA1 0xFF; Out8 0x21 0xFC; Out8 0x80 0; Out8 0xA1 1; Out8 0x80 0; Out8 0x21 1;
     Out8 0x80 0; Out8 0xA1 2; Out8 0x80 0; Out8 0x21 4; Out8 0x80 0; Out8 0xA1 40;
     Out8 0x80 0; Out8 0x21 32; Out8 0x80 0; Out8 0xA0 17; Out8 0x80 0; Out8 0x20 17].
  split; [reflexivity|]. split; [reflexivity|]. intros gate kernel_gate ps.
  assert (Hps : ps = (Pic 32 4 1 0xFC 0, Pic 40 2 1 0xFF 0)).
  { unfold ps, pics. rewrite foldr_app. destruct (foldr pics_step ps0 tr) as [[] []]. reflexivity. }
  assert (Hk : forall v target, 0 <= v < 256 -> 0 <= target < 2 ^ 64 ->
    idt_table isr irq idt !! Z.to_nat v = Some (idt_gate target 8 0x8E) -> kernel_gate v target).
  { intros v target Hv Ht E. unfold kernel_gate, gate.
    replace (nth _ _ _) with (idt_gate target 8 0x8E) by (by rewrite nth_lookup, E).
    destruct (idt_gate_decodes target 8 0x8E Ht) as (-> & -> & _ & -> & -> & ->); [lia|lia|]. done. }
  split; [|split].
  - intros v Hv. apply Hk; [lia|auto|]. destruct (idt_table_lookup isr irq idt v Hl) as [_ ->]; [lia|].
    by rewrite (proj2 (Z.ltb_lt v 32)) by lia.
  - intros n Hn. assert (Hvec : line_vector ps n = 32 + n).
    { rewrite Hps. unfold line_vector. cbn [p_base fst snd]. destruct (Z.ltb_spec n 8); lia. }
    split; [done|]. rewrite Hvec. split.
    + apply Hk; [lia|auto|]. destruct (idt_table_lookup isr irq idt (32 + n) Hl) as [_ ->]; [lia|].
      rewrite (proj2 (Z.ltb_ge _ 32)), (proj2 (Z.ltb_lt _ 48)) by lia. do 3 f_equal. lia.
    + rewrite Hps. revert n Hn Hvec. clear. intros n Hn _. revert n Hn. below.
  - intros v Hv. unfold gate. rewrite nth_lookup.
    destruct (idt_table_lookup isr irq idt v Hl) as [_ ->]; [lia|].
    by rewrite (proj2 (Z.ltb_ge _ 32)), (proj2 (Z.ltb_ge _ 48)) by lia.
Qed.

Lemma idt_init_routes_witness : exists idt' tr',
  idt_init (fun i => 0xFFFFFFFF80001000 + 16 * i) (fun i => 0xFFFFFFFF80002000 + 16 * i) 0x9000 idt_bss []
    = Some (idt', tr') /\
  gate_offset (idt_word (nth 33 idt' (idt_gate 0 0 0))) = 0xFFFFFFFF80002010.
Proof.
  destruct (idt_init_routes (fun i => 0xFFFFFFFF80001000 + 16 * i)
    (fun i => 0xFFFFFFFF80002000 + 16 * i) 0x9000 idt_bss [] (Pic 0 0 0 0 0, Pic 0 0 0 0 0))
    as (idt' & l & E & _ & _ & H & _); [reflexivity|intros i Hi; lia..|].
  exists idt', (Sti :: Lidt 4095 0x9000 :: l ++ []). split; [exact E|].
  destruct (H 1) as (Ev & Hk & _); [lia|]. rewrite Ev in Hk. apply Hk.
Defined.
