(* ===== verification/Fb.v ===== *)
(** [src/kernel/fb.c]: the framebuffer console. The framebuffer is an array of
    32-bit pixels; [fb_pixels] holds what was stored at each index of [fb_ptr]. *)

From S2P Require Import Prelude Mem CString Pmm Vmm Format.

(** The statics. [fb_font] is [font8x16]: glyph, row. *)
Record fb := Fb {
  fb_ptr : Z;
  fb_width : Z;
  fb_height : Z;
  fb_pitch : Z;
  fb_bpp : Z;
  cursor_x : Z;
  cursor_y : Z;
  fg_color : Z;
  bg_color : Z;
  fb_char_width : Z;
  fb_char_height : Z;
  fb_font : Z -> Z -> Z;
  fb_pixels : gmap Z Z;
}.

Definition fb_bss : fb := Fb 0 0 0 0 0 0 0 0xFFFFFF 0 8 16 (fun _ _ => 0) ∅.

Definition set_cursor (x y : Z) (f : fb) : fb :=
  Fb (fb_ptr f) (fb_width f) (fb_height f) (fb_pitch f) (fb_bpp f) x y (fg_color f) (bg_color f)
    (fb_char_width f) (fb_char_height f) (fb_font f) (fb_pixels f).
Definition set_colors (fg bg : Z) (f : fb) : fb :=
  Fb (fb_ptr f) (fb_width f) (fb_height f) (fb_pitch f) (fb_bpp f) (cursor_x f) (cursor_y f) fg bg
    (fb_char_width f) (fb_char_height f) (fb_font f) (fb_pixels f).
Definition set_pixels (p : gmap Z Z) (f : fb) : fb :=
  Fb (fb_ptr f) (fb_width f) (fb_height f) (fb_pitch f) (fb_bpp f) (cursor_x f) (cursor_y f)
    (fg_color f) (bg_color f) (fb_char_width f) (fb_char_height f) (fb_font f) p.

(** [fb_ptr[y * (fb_pitch / 4) + x] = color] *)
Definition pixel_index (f : fb) (x y : Z) : Z := u64 (y * (fb_pitch f / 4) + x).
Definition store_pixel (x y color : Z) (f : fb) : fb :=
  set_pixels (<[pixel_index f x y := u32 color]> (fb_pixels f)) f.

(** The mapping loop: one page per turn while [off < height * pitch]. *)
Fixpoint fb_map_loop (fuel : nat) (hhdm fb_virt fb_phys len off : Z) (s : vmm) : option vmm :=
  match fuel with
  | O => None
  | S fuel =>
      if off <? len
      then fb_map_loop fuel hhdm fb_virt fb_phys len (u64 (off + 0x1000))
             (vmm_map_page hhdm (u64 (fb_virt + off)) (u64 (fb_phys + off)) 0x23 s)
      else Some s
  end.

Definition fb_virt_base : Z := 0xFFFFFFFF82000000.

Definition fb_init (fuel : nat) (hhdm fb_phys width height pitch bpp : Z) (f : fb) (s : vmm)
    : option (fb * vmm) :=
  match fb_map_loop fuel hhdm fb_virt_base fb_phys (u64 (height * pitch)) 0 s with
  | None => None
  | Some s =>
      Some (Fb fb_virt_base width height pitch (u16 bpp) (cursor_x f) (cursor_y f) (fg_color f) (bg_color f)
              (fb_char_width f) (fb_char_height f) (fb_font f) (fb_pixels f), s)
  end.

Definition draw_pixel (x y color : Z) (f : fb) : fb :=
  if (x <? 0) || (fb_width f <=? u64 x) || (y <? 0) || (fb_height f <=? u64 y) then f
  else store_pixel x y color f.

(** The loops below do not change the statics that bound them. *)
Definition fb_clear (color : Z) (f : fb) : fb :=
  let w := fb_width f in
  let h := fb_height f in
  let f := for_range 0 h (fun y f => for_range 0 w (fun x f => store_pixel x y color f) f) f in
  set_cursor 0 0 f.

Definition draw_char (x y c fg bg : Z) (f : fb) : fb :=
  let glyph := fb_font f (u8 c) in
  let w := fb_char_width f in
  let h := fb_char_height f in
  for_range 0 h (fun row f =>
    for_range 0 w (fun col f =>
      draw_pixel (i32 (x + col)) (i32 (y + row))
        (if truthy (Z.land (glyph row) (Z.shiftr 0x80 col)) then fg else bg) f) f) f.

Definition fb_putchar (c : Z) (f : fb) : fb :=
  let f :=
    if c =? 10 then set_cursor 0 (i32 (cursor_y f + fb_char_height f)) f
    else if c =? 13 then set_cursor 0 (cursor_y f) f
    else if c =? 9 then
      set_cursor (i32 ((Z.quot (cursor_x f) (fb_char_width f * 4) + 1) * (fb_char_width f * 4))) (cursor_y f) f
    else
      let f := draw_char (cursor_x f) (cursor_y f) c (fg_color f) (bg_color f) f in
      set_cursor (i32 (cursor_x f + fb_char_width f)) (cursor_y f) f in
  let f :=
    if fb_width f <? u64 (u64 (cursor_x f) + u64 (fb_char_width f))
    then set_cursor 0 (i32 (cursor_y f + fb_char_height f)) f else f in
  if fb_height f <? u64 (u64 (cursor_y f) + u64 (fb_char_height f))
  then fb_clear (bg_color f) f else f.

Fixpoint fb_puts (str : list Z) (f : fb) : fb :=
  match str with
  | [] => f
  | c :: str => if truthy c then fb_puts str (fb_putchar c f) else f
  end.

Definition fb_puts_color (str : list Z) (fg bg : Z) (f : fb) : fb :=
  let old_fg := fg_color f in
  let old_bg := bg_color f in
  let f := set_colors fg bg f in
  let f := fb_puts str f in
  set_colors old_fg old_bg f.

Definition fb_put_hex (stack : list Z) (value : Z) (f : fb) : fb := fb_puts (hex_buf value stack) f.

Definition fb_put_dec (stack : list Z) (value : Z) (f : fb) : option fb :=
  if value =? 0 then Some (fb_putchar 48 f)
  else s ← dec_buf value stack; Some (fb_puts s f).

(** ** Specification: a text screen *)

(** What a cell shows: a plain colour or a character in two colours. *)
Inductive cell := Plain (color : Z) | Glyph (c fg bg : Z).

Record term := Term {
  t_cols : Z;
  t_rows : Z;
  t_col : Z;
  t_row : Z;
  t_fg : Z;
  t_bg : Z;
  t_cells : Z -> Z -> cell;
}.

Definition put_cell (c : Z) (t : term) : term :=
  Term (t_cols t) (t_rows t) (t_col t + 1) (t_row t) (t_fg t) (t_bg t)
    (fun i j => if decide (i = t_col t /\ j = t_row t) then Glyph (u8 c) (t_fg t) (t_bg t)
                else t_cells t i j).
Definition move (col row : Z) (t : term) : term :=
  Term (t_cols t) (t_rows t) col row (t_fg t) (t_bg t) (t_cells t).
Definition blank (t : term) : term :=
  Term (t_cols t) (t_rows t) 0 0 (t_fg t) (t_bg t) (fun _ _ => Plain (t_bg t)).

(** Newline, carriage return, tab stops every 4 columns, or a character; then
    wrapping at the last column; and a full screen is cleared. *)
Definition term_putchar (c : Z) (t : term) : term :=
  let t :=
    if c =? 10 then move 0 (t_row t + 1) t
    else if c =? 13 then move 0 (t_row t) t
    else if c =? 9 then move (4 * (t_col t / 4 + 1)) (t_row t) t
    else put_cell c t in
  let t := if t_cols t <=? t_col t then move 0 (t_row t + 1) t else t in
  if t_rows t <=? t_row t then blank t else t.

(** The colour of pixel [(i, j)] of a cell. *)
Definition cell_pixel (font : Z -> Z -> Z) (cl : cell) (i j : Z) : Z :=
  match cl with
  | Plain color => color
  | Glyph c fg bg => if Z.testbit (font c j) (7 - i) then fg else bg
  end.

(** A framebuffer mode the code can serve: 32-bit pixels, lines of at least
    [width] pixels, an addressable size, at least one character. *)
Definition mode_ok (f : fb) : Prop :=
  8 <= fb_width f <= fb_pitch f / 4 /\ 16 <= fb_height f /\
  fb_width f < 2 ^ 30 /\ fb_height f < 2 ^ 30 /\ fb_pitch f < 2 ^ 32.

(** What the hardware reports of a mode: sizes it can address, and lines that hold their
    pixels at the depth it gives. *)
Definition reported (f : fb) : Prop :=
  0 <= fb_width f < 2 ^ 30 /\ 0 <= fb_height f < 2 ^ 30 /\ 0 <= fb_pitch f < 2 ^ 32 /\
  fb_width f * fb_bpp f <= 8 * fb_pitch f.

(** The console shows the text screen [t]. *)
Record fb_rep (f : fb) (t : term) : Prop := {
  fr_mode : mode_ok f;
  fr_size : fb_char_width f = 8 /\ fb_char_height f = 16;
  fr_cols : t_cols t = fb_width f / 8 /\ t_rows t = fb_height f / 16;
  fr_cursor : cursor_x f = 8 * t_col t /\ cursor_y f = 16 * t_row t;
  fr_inside : 0 <= t_col t < t_cols t /\ 0 <= t_row t < t_rows t;
  fr_colors : fg_color f = t_fg t /\ bg_color f = t_bg t /\ 0 <= t_fg t < 2 ^ 32 /\ 0 <= t_bg t < 2 ^ 32;
  fr_pixels col row i j :
    0 <= col < t_cols t -> 0 <= row < t_rows t -> 0 <= i < 8 -> 0 <= j < 16 ->
    fb_pixels f !! pixel_index f (8 * col + i) (16 * row + j) =
      Some (cell_pixel (fb_font f) (t_cells t col row) i j);
}.

(** *** Pixels *)

Lemma pixel_index_eq f x y :
  mode_ok f -> 0 <= x < fb_width f -> 0 <= y < fb_height f ->
  pixel_index f x y = y * (fb_pitch f / 4) + x.
Proof. intros (? & ? & ? & ? & ?) ? ?. apply u64_id. assert (fb_pitch f / 4 < 2 ^ 30) by mlia. nia. Qed.

Lemma pixel_index_inj f x y x' y' :
  mode_ok f -> 0 <= x < fb_width f -> 0 <= y < fb_height f ->
  0 <= x' < fb_width f -> 0 <= y' < fb_height f ->
  pixel_index f x y = pixel_index f x' y' -> x = x' /\ y = y'.
Proof.
  intros Hm Hx Hy Hx' Hy'. rewrite !pixel_index_eq by done.
  destruct Hm as (? & ? & ? & ? & ?). set (w := fb_pitch f / 4) in *. intros E.
  assert (y = y') as -> by nia. lia.
Qed.

(** A double loop that stores one pixel per turn fills a rectangle. *)
Section Fill.
Context (f : fb) (x0 y0 w h : Z) (g : Z -> Z -> Z) (body : Z -> Z -> fb -> fb).
Context (Hmode : mode_ok f) (Hw : 0 <= w) (Hh : 0 <= h).
Context (Hx : 0 <= x0 /\ x0 + w <= fb_width f) (Hy : 0 <= y0 /\ y0 + h <= fb_height f).
Context (Hbody : forall col row p, 0 <= col < w -> 0 <= row < h ->
  body row col (set_pixels p f) = store_pixel (x0 + col) (y0 + row) (g col row) (set_pixels p f)).

Definition filled (P : Z -> Z -> Prop) `{forall x y, Decision (P x y)} (f' : fb) : Prop :=
  exists p, f' = set_pixels p f /\ forall x y, 0 <= x < fb_width f -> 0 <= y < fb_height f ->
    p !! pixel_index f x y =
      if decide (P x y) then Some (u32 (g (x - x0) (y - y0))) else fb_pixels f !! pixel_index f x y.

Lemma fill_row row (P : Z -> Z -> Prop) `{forall x y, Decision (P x y)} f1 :
  0 <= row < h -> filled P f1 ->
  filled (fun x y => P x y \/ (x0 <= x < x0 + w /\ y = y0 + row)) (for_range 0 w (body row) f1).
Proof using Hbody Hmode Hw Hx Hy.
  intros Hrow Hf1.
  set (Q := fun k f' => filled (fun x y => P x y \/ (x0 <= x < x0 + k /\ y = y0 + row)) f').
  enough (HQ : Q w (for_range 0 w (body row) f1)) by exact HQ.
  apply for_range_ind; unfold Q; [done| |].
  - destruct Hf1 as (p & -> & Hp). exists p. split; [done|]. intros x y Hxr Hyr. rewrite Hp by done.
    destruct (decide (P x y)); case_decide; done || (exfalso; naive_solver lia).
  - intros col f2 Hcol (p & -> & Hp). rewrite Z.add_0_l, Hbody by done. unfold store_pixel.
    eexists. split; [reflexivity|]. intros x y Hxr Hyr.
    change (pixel_index (set_pixels p f)) with (pixel_index f). cbn [fb_pixels set_pixels].
    destruct (decide (x = x0 + col /\ y = y0 + row)) as [[-> ->]|Hne].
    + rewrite lookup_insert_eq. rewrite decide_True by (right; lia). do 3 f_equal; lia.
    + rewrite lookup_insert_ne.
      2: { intros E. apply Hne. apply pixel_index_inj in E; [lia|done..|lia|lia|lia|lia]. }
      rewrite Hp by done. repeat case_decide; try done; exfalso; naive_solver lia.
Qed.

Lemma fill_rect :
  filled (fun x y => x0 <= x < x0 + w /\ y0 <= y < y0 + h)
    (for_range 0 h (fun row => for_range 0 w (body row)) f).
Proof using Hbody Hmode Hw Hh Hx Hy.
  set (Q := fun k f' => filled (fun x y => x0 <= x < x0 + w /\ y0 <= y < y0 + k) f').
  enough (HQ : Q h (for_range 0 h (fun row => for_range 0 w (body row)) f)) by exact HQ.
  apply for_range_ind; unfold Q; [done| |].
  - exists (fb_pixels f). split; [by destruct f|]. intros x y _ _. by rewrite decide_False by lia.
  - intros row f1 Hrow Hf1. rewrite Z.add_0_l.
    destruct (fill_row row _ f1 Hrow Hf1) as (p & E & Hp). exists p. split; [done|].
    intros x y Hxr Hyr. rewrite Hp by done. repeat case_decide; try done; exfalso; lia.
Qed.
End Fill.

(** Clearing fills the whole screen. *)
Lemma fb_clear_spec f color :
  mode_ok f -> exists p, fb_clear color f = set_cursor 0 0 (set_pixels p f) /\
    forall x y, 0 <= x < fb_width f -> 0 <= y < fb_height f ->
      p !! pixel_index f x y = Some (u32 color).
Proof.
  intros Hm. pose proof Hm as (Hw & Hh & _).
  destruct (fill_rect f 0 0 (fb_width f) (fb_height f) (fun _ _ => color)
    (fun y x => store_pixel x y color)) as (p & E & Hp); try done; try lia.
  exists p. split.
  { transitivity (set_cursor 0 0 (for_range 0 (fb_height f)
      (fun y => for_range 0 (fb_width f) (fun x => store_pixel x y color)) f)); [reflexivity|by rewrite E]. }
  intros x y Hx Hy. rewrite Hp by done. by rewrite decide_True by lia.
Qed.

(** A glyph inside the screen changes its 8x16 pixels and no other. *)
Lemma draw_char_spec f x y c fg bg :
  mode_ok f -> fb_char_width f = 8 -> fb_char_height f = 16 ->
  0 <= x -> x + 8 <= fb_width f -> 0 <= y -> y + 16 <= fb_height f ->
  exists p, draw_char x y c fg bg f = set_pixels p f /\
    forall x' y', 0 <= x' < fb_width f -> 0 <= y' < fb_height f ->
      p !! pixel_index f x' y' =
        if decide (x <= x' < x + 8 /\ y <= y' < y + 16)
        then Some (u32 (if Z.testbit (fb_font f (u8 c) (y' - y)) (7 - (x' - x)) then fg else bg))
        else fb_pixels f !! pixel_index f x' y'.
Proof.
  intros Hm Hcw Hch Hx Hxw Hy Hyh. pose proof Hm as (Hw & Hh & Hw30 & Hh30 & _).
  destruct (fill_rect f x y 8 16
    (fun col row => if Z.testbit (fb_font f (u8 c) row) (7 - col) then fg else bg)
    (fun row col => draw_pixel (i32 (x + col)) (i32 (y + row))
       (if truthy (Z.land (fb_font f (u8 c) row) (Z.shiftr 0x80 col)) then fg else bg)))
    as (p & E & Hp); try done; try lia.
  - intros col row p Hcol Hrow. rewrite !i32_id by lia. unfold draw_pixel.
    cbn [set_pixels fb_width fb_height]. rewrite !u64_id by lia.
    rewrite (proj2 (Z.ltb_ge (x + col) 0)), (proj2 (Z.ltb_ge (y + row) 0)),
      (proj2 (Z.leb_gt _ (x + col))), (proj2 (Z.leb_gt _ (y + row))) by lia. cbn [orb].
    assert (Hs : Z.shiftr 0x80 col = 2 ^ (7 - col)).
    { rewrite Z.shiftr_div_pow2 by lia. change 0x80 with (2 ^ 7). rewrite <-Z.pow_sub_r by lia. done. }
    by rewrite Hs, truthy_land_bit by lia.
  - exists p. unfold draw_char. rewrite Hcw, Hch. split; [exact E|exact Hp].
Qed.

(** *** Refinement *)

(** Moving the cursor and clearing keep the correspondence. *)
Definition rep_core (f : fb) (t : term) : Prop :=
  mode_ok f /\ (fb_char_width f = 8 /\ fb_char_height f = 16) /\
  (t_cols t = fb_width f / 8 /\ t_rows t = fb_height f / 16) /\
  (fg_color f = t_fg t /\ bg_color f = t_bg t /\ 0 <= t_fg t < 2 ^ 32 /\ 0 <= t_bg t < 2 ^ 32) /\
  (forall col row i j,
    0 <= col < t_cols t -> 0 <= row < t_rows t -> 0 <= i < 8 -> 0 <= j < 16 ->
    fb_pixels f !! pixel_index f (8 * col + i) (16 * row + j) =
      Some (cell_pixel (fb_font f) (t_cells t col row) i j)).

Lemma rep_core_move f t x y col row :
  rep_core f t -> rep_core (set_cursor x y f) (move col row t).
Proof. done. Qed.

Lemma fb_rep_core f t :
  rep_core f t -> cursor_x f = 8 * t_col t -> cursor_y f = 16 * t_row t ->
  0 <= t_col t < t_cols t -> 0 <= t_row t < t_rows t -> fb_rep f t.
Proof. intros (Hm & Hs & Hc & Hcl & Hp) Hx Hy Hcol Hrow. by split. Qed.

Lemma rep_core_clear f t :
  rep_core f t -> fb_rep (fb_clear (bg_color f) f) (blank t).
Proof.
  intros (Hm & Hs & [Hc Hr] & (Hfg & Hbg & Hf & Hb) & _).
  destruct (fb_clear_spec f (bg_color f) Hm) as (p & -> & Hp). pose proof Hm as (? & ? & _).
  apply fb_rep_core; cbn [blank set_cursor set_pixels cursor_x cursor_y t_col t_row t_cols t_rows];
    rewrite ?Hc, ?Hr; try lia; [|mlia|mlia].
  do 3 (split; [done|]). split; [done|]. cbn. intros col row i j Hcol Hrow Hi Hj.
  change (pixel_index (set_cursor 0 0 (set_pixels p f))) with (pixel_index f).
  rewrite Hp by mlia. by rewrite Hbg, u32_id.
Qed.

Lemma rep_core_glyph f t c :
  fb_rep f t ->
  rep_core (draw_char (cursor_x f) (cursor_y f) c (fg_color f) (bg_color f) f) (put_cell c t) /\
  exists p, draw_char (cursor_x f) (cursor_y f) c (fg_color f) (bg_color f) f = set_pixels p f.
Proof.
  intros [Hm [Hcw Hch] [Hc Hr] [Hx Hy] [Hcol Hrow] (Hfg & Hbg & Hf & Hb) Hpix].
  destruct (draw_char_spec f (cursor_x f) (cursor_y f) c (fg_color f) (bg_color f) Hm Hcw Hch)
    as (p & E & Hp); [mlia..|]. rewrite E. split; [|by exists p].
  do 4 (split; [done|]). cbn. intros col row i j Hcl Hrw Hi Hj.
  change (pixel_index (set_pixels p f)) with (pixel_index f).
  rewrite Hp, Hx, Hy by mlia.
  destruct (decide (col = t_col t /\ row = t_row t)) as [[-> ->]|Hne].
  - rewrite decide_True by lia. cbn [cell_pixel]. f_equal.
    replace (16 * t_row t + j - 16 * t_row t) with j by lia.
    replace (7 - (8 * t_col t + i - 8 * t_col t)) with (7 - i) by lia.
    rewrite Hfg, Hbg. destruct (Z.testbit _ _); by apply u32_id.
  - rewrite decide_False by lia. by apply Hpix.
Qed.

(** Wrapping and clearing, after the character's own effect has left the cursor
    at column [t_col t], row [t_row t]. *)
Lemma wrap_clear f t :
  rep_core f t -> cursor_x f = 8 * t_col t -> cursor_y f = 16 * t_row t ->
  0 <= t_col t <= t_cols t + 4 -> 0 <= t_row t <= t_rows t ->
  let f1 := if fb_width f <? u64 (u64 (cursor_x f) + u64 (fb_char_width f))
            then set_cursor 0 (i32 (cursor_y f + fb_char_height f)) f else f in
  let t1 := if t_cols t <=? t_col t then move 0 (t_row t + 1) t else t in
  fb_rep (if fb_height f1 <? u64 (u64 (cursor_y f1) + u64 (fb_char_height f1))
          then fb_clear (bg_color f1) f1 else f1)
         (if t_rows t1 <=? t_row t1 then blank t1 else t1).
Proof.
  intros Hrep Hx Hy Hcol Hrow f1 t1.
  pose proof Hrep as (Hm & [Hcw Hch] & [Hc Hr] & _). pose proof Hm as (Hw & Hh & Hw30 & Hh30 & _).
  assert (H1 : rep_core f1 t1 /\ cursor_x f1 = 8 * t_col t1 /\ cursor_y f1 = 16 * t_row t1 /\
    (0 <= t_col t1 < t_cols t1 /\ 0 <= t_row t1 <= t_rows t1 + 1) /\
    fb_height f1 = fb_height f /\ fb_char_height f1 = 16 /\ t_rows t1 = t_rows t).
  { unfold f1, t1. rewrite Hcw, Hch, Hx, Hy.
    rewrite (u64_id (8 * t_col t)), (u64_id 8), u64_id, i32_id by mlia.
    destruct (Z.ltb_spec (fb_width f) (8 * t_col t + 8)), (Z.leb_spec (t_cols t) (t_col t)); [|mlia|mlia|].
    - split; [by apply rep_core_move|]. cbn. mlia.
    - split; [done|]. mlia. }
  destruct H1 as (Hrep1 & Hx1 & Hy1 & [Hcol1 Hrow1] & Hh1 & Hch1 & Hr1).
  rewrite Hh1, Hch1, Hy1, Hr1.
  rewrite (u64_id (16 * t_row t1)), (u64_id 16), u64_id by mlia.
  destruct (Z.ltb_spec (fb_height f) (16 * t_row t1 + 16)), (Z.leb_spec (t_rows t) (t_row t1));
    [|mlia|mlia|].
  - by apply rep_core_clear.
  - apply fb_rep_core; try done; lia.
Qed.

(** One character of output refines one step of the text screen. *)
Lemma fb_putchar_refines f t c : fb_rep f t -> fb_rep (fb_putchar c f) (term_putchar c t).
Proof.
  intros Hrep. pose proof Hrep as [Hm [Hcw Hch] [Hc Hr] [Hx Hy] [Hcol Hrow] Hcl Hpix].
  pose proof Hm as (Hw & Hh & Hw30 & Hh30 & _).
  assert (Hcore : rep_core f t) by done. unfold fb_putchar, term_putchar.
  destruct (c =? 10); [|destruct (c =? 13); [|destruct (c =? 9)]].
  - apply wrap_clear; [by apply rep_core_move|..]; cbn; rewrite ?i32_id; mlia.
  - apply wrap_clear; [by apply rep_core_move|..]; cbn; mlia.
  - rewrite Hcw. rewrite Z.quot_div_nonneg by lia.
    assert (E : (cursor_x f / (8 * 4) + 1) * (8 * 4) = 8 * (4 * (t_col t / 4 + 1))) by (rewrite Hx; mlia).
    rewrite E, i32_id by mlia.
    apply wrap_clear; [by apply rep_core_move|..]; cbn; mlia.
  - destruct (rep_core_glyph f t c Hrep) as [Hg (p & Ep)]. rewrite Ep in *.
    apply wrap_clear.
    + exact Hg.
    + cbn. rewrite Hcw, i32_id by mlia. lia.
    + cbn. lia.
    + cbn. lia.
    + cbn. lia.
Qed.

Definition term_puts (s : list Z) (t : term) : term := foldl (fun t c => term_putchar c t) t s.

Lemma fb_puts_rep s f t : fb_rep f t -> fb_rep (fb_puts s f) (term_puts (c_chars s) t).
Proof.
  revert f t. induction s as [|c s IH]; intros f t Hr; [done|]. cbn [fb_puts c_chars].
  destruct (truthy c); [|done]. by apply IH, fb_putchar_refines.
Qed.

Lemma rep_set_colors f t fg bg :
  fb_rep f t -> 0 <= fg < 2 ^ 32 -> 0 <= bg < 2 ^ 32 ->
  fb_rep (set_colors fg bg f)
    (Term (t_cols t) (t_rows t) (t_col t) (t_row t) fg bg (t_cells t)).
Proof. intros [] Hf Hb. by split. Qed.

(** *** Bounds *)

(** Every stored pixel lies, with its four bytes, in the [height * pitch] bytes of the
    framebuffer. *)
Definition in_bounds (f : fb) : Prop :=
  forall k v, fb_pixels f !! k = Some v -> 0 <= 4 * k /\ 4 * k + 4 <= fb_height f * fb_pitch f.

(** The code addresses lines of [pitch / 4] pixels: [width] of them must fit. *)
Definition lines_ok (f : fb) : Prop := reported f /\ fb_width f <= fb_pitch f / 4.

Lemma reported_lines f : reported f -> 32 <= fb_bpp f -> lines_ok f.
Proof. intros Hr Hb. split; [done|]. destruct Hr as (? & ? & ? & ?). assert (4 * fb_width f <= fb_pitch f) by nia. mlia. Qed.

Lemma reported_index f x y :
  reported f -> 0 <= x < fb_width f -> 0 <= y < fb_height f -> pixel_index f x y = y * (fb_pitch f / 4) + x.
Proof. intros (? & ? & ? & ?) ? ?. apply u64_id. assert (0 <= fb_pitch f / 4 < 2 ^ 30) by mlia. nia. Qed.

(** Same mode and stored pixels inside the buffer. *)
Definition safe (f0 f : fb) : Prop :=
  fb_width f = fb_width f0 /\ fb_height f = fb_height f0 /\ fb_pitch f = fb_pitch f0 /\ in_bounds f.

Lemma store_pixel_safe f0 f x y color :
  lines_ok f0 -> safe f0 f -> 0 <= x < fb_width f0 -> 0 <= y < fb_height f0 ->
  safe f0 (store_pixel x y color f).
Proof.
  intros [Hm Hl] (Ew & Eh & Ep & Hb) Hx Hy. do 3 (split; [done|]). intros k v. cbn.
  destruct (decide (k = pixel_index f x y)) as [->|Hne].
  - intros _. unfold pixel_index. rewrite Ep, Eh. fold (pixel_index f0 x y). rewrite reported_index by done.
    assert (4 * (fb_pitch f0 / 4) <= fb_pitch f0) by mlia.
    set (w := fb_pitch f0 / 4) in *. split; [nia|]. assert (4 * (y * w + x) + 4 <= (y + 1) * (4 * w)) by nia. nia.
  - rewrite lookup_insert_ne by done. apply Hb.
Qed.

Lemma draw_pixel_safe f0 f x y color :
  lines_ok f0 -> safe f0 f -> - 2 ^ 31 <= x < 2 ^ 31 -> - 2 ^ 31 <= y < 2 ^ 31 ->
  safe f0 (draw_pixel x y color f).
Proof.
  intros Hm Hs Hx Hy. pose proof Hs as (Ew & Eh & _). unfold draw_pixel. rewrite Ew, Eh.
  destruct (Z.ltb_spec x 0); [done|]. destruct (Z.ltb_spec y 0); [by rewrite orb_true_r|].
  rewrite !u64_id by lia.
  destruct (Z.leb_spec (fb_width f0) x); [done|]. destruct (Z.leb_spec (fb_height f0) y); [done|].
  apply store_pixel_safe; done || lia.
Qed.

Lemma for_range_safe f0 f lo n (body : Z -> fb -> fb) :
  safe f0 f -> (forall i f, lo <= i < lo + n -> safe f0 f -> safe f0 (body i f)) ->
  safe f0 (for_range lo n body f).
Proof.
  intros Hf Hb. destruct (decide (0 <= n)); [|by rewrite for_range_nil by lia].
  set (P := fun (_ : Z) f => safe f0 f). enough (HP : P n (for_range lo n body f)) by exact HP.
  apply for_range_ind; [done|done|]. intros i f1 Hi. apply Hb. lia.
Qed.

Lemma fb_clear_safe f0 f color : lines_ok f0 -> safe f0 f -> safe f0 (fb_clear color f).
Proof.
  intros Hm Hs. pose proof Hs as (Ew & Eh & _). unfold fb_clear. rewrite Ew, Eh.
  cut (forall g, safe f0 g -> safe f0 (set_cursor 0 0 g)); [intros Hc; apply Hc|done].
  apply for_range_safe; [done|]. intros y f1 Hy Hs1. apply for_range_safe; [done|].
  intros x f2 Hx Hs2. apply store_pixel_safe; done || lia.
Qed.

Lemma i32_range x : - 2 ^ 31 <= i32 x < 2 ^ 31.
Proof. unfold i32. mlia. Qed.

Lemma fb_putchar_safe f0 f c : lines_ok f0 -> safe f0 f -> safe f0 (fb_putchar c f).
Proof.
  intros Hm Hs. unfold fb_putchar.
  match goal with |- context [if c =? 10 then ?a else ?b] =>
    assert (H1 : safe f0 (if c =? 10 then a else b)); [|set (f1 := if c =? 10 then a else b) in *] end.
  { repeat case_match; try done.
    cut (forall x y g, safe f0 g -> safe f0 (set_cursor x y g)); [intros Hc; apply Hc|done].
    unfold draw_char. apply for_range_safe; [done|]. intros row f1 _ Hs1.
    apply for_range_safe; [done|]. intros col f2 _ Hs2. apply draw_pixel_safe; done || apply i32_range. }
  clearbody f1. cbv zeta. repeat case_match; try (by apply fb_clear_safe); done.
Qed.

Lemma fb_puts_safe f0 s f : lines_ok f0 -> safe f0 f -> safe f0 (fb_puts s f).
Proof.
  intros Hm. revert f. induction s as [|c s IH]; intros f Hs; [done|]. cbn [fb_puts].
  destruct (truthy c); [|done]. by apply IH, fb_putchar_safe.
Qed.

Lemma for_range_mode lo n (body : Z -> fb -> fb) f :
  (forall i g, fb_height (body i g) = fb_height g /\ fb_pitch (body i g) = fb_pitch g) ->
  fb_height (for_range lo n body f) = fb_height f /\ fb_pitch (for_range lo n body f) = fb_pitch f.
Proof.
  intros Hb. destruct (decide (0 <= n)); [|by rewrite for_range_nil by lia].
  set (P := fun (_ : Z) g => fb_height g = fb_height f /\ fb_pitch g = fb_pitch f).
  enough (HP : P n (for_range lo n body f)) by exact HP.
  apply for_range_ind; [done|done|]. unfold P. intros i f1 _ [<- <-]. apply Hb.
Qed.

Lemma fb_clear_mode f color :
  fb_height (fb_clear color f) = fb_height f /\ fb_pitch (fb_clear color f) = fb_pitch f.
Proof.
  unfold fb_clear. cbn [set_cursor fb_height fb_pitch]. apply for_range_mode. intros y g.
  by apply for_range_mode.
Qed.

(** ** Properties *)

(** C33 The console refines a text screen: after printing a string every cell shows
    what the text screen shows, the cursor is where the text screen has it, and
    a whole cell always fits at the cursor. *)
Theorem fb_puts_refines s f t :
  fb_rep f t -> fb_rep (fb_puts s f) (term_puts (c_chars s) t).
Proof. exact (fb_puts_rep s f t). Qed.

(** [fb_puts_color] prints in the given colours and restores the old ones. *)
Theorem fb_puts_color_refines s fg bg f t :
  fb_rep f t -> 0 <= fg < 2 ^ 32 -> 0 <= bg < 2 ^ 32 ->
  let t1 := term_puts (c_chars s) (Term (t_cols t) (t_rows t) (t_col t) (t_row t) fg bg (t_cells t)) in
  fb_rep (fb_puts_color s fg bg f)
    (Term (t_cols t1) (t_rows t1) (t_col t1) (t_row t1) (t_fg t) (t_bg t) (t_cells t1)).
Proof.
  intros Hr Hf Hb t1. pose proof (fr_colors _ _ Hr) as (Ef & Eb & Hf0 & Hb0).
  unfold fb_puts_color. cbv zeta. rewrite Ef, Eb. apply rep_set_colors; [|done|done].
  apply fb_puts_rep. by apply rep_set_colors.
Qed.

(** C39 Memory safety: in any mode the hardware reports with at least 32 bits a pixel, from
    any cursor position and for any string, no byte is ever stored outside the
    [height * pitch] bytes of the framebuffer, nor by clearing the screen. (In a mode with
    fewer bits this fails: [fb_clear_overruns].) *)
Theorem fb_puts_in_bounds s color f :
  reported f -> 32 <= fb_bpp f -> in_bounds f ->
  in_bounds (fb_puts s f) /\ in_bounds (fb_clear color f).
Proof.
  intros Hr H32 Hb. pose proof (reported_lines f Hr H32) as Hl. assert (Hs : safe f f) by done.
  pose proof (fb_puts_safe f s f Hl Hs) as (Ew & Eh & Ep & Hp).
  by pose proof (fb_clear_safe f f color Hl Hs) as (_ & _ & _ & Hc).
Qed.

(** [fb_clear] stores the last pixel of the last line, at the index the code computes. *)
Lemma fb_clear_last f color :
  0 < fb_width f -> 0 < fb_height f ->
  fb_pixels (fb_clear color f) !! pixel_index f (fb_width f - 1) (fb_height f - 1) = Some (u32 color).
Proof.
  intros Hw Hh. unfold fb_clear. cbn [set_cursor fb_pixels].
  replace (for_range 0 (fb_height f)) with (for_range (S := fb) 0 (fb_height f - 1 + 1)) by (f_equal; lia).
  rewrite for_range_S by lia. rewrite Z.add_0_l. set (f1 := for_range 0 (fb_height f - 1) _ f).
  assert (Ep : fb_pitch f1 = fb_pitch f).
  { apply for_range_mode. intros y g. by apply for_range_mode. }
  replace (for_range 0 (fb_width f)) with (for_range (S := fb) 0 (fb_width f - 1 + 1)) by (f_equal; lia).
  rewrite for_range_S by lia. rewrite Z.add_0_l. set (f2 := for_range 0 (fb_width f - 1) _ f1).
  assert (Ep2 : fb_pitch f2 = fb_pitch f) by (rewrite <-Ep; by apply for_range_mode).
  cbn [store_pixel set_pixels fb_pixels]. unfold pixel_index. rewrite Ep2. by rewrite lookup_insert_eq.
Qed.

(** The depth is never looked at: in a mode whose lines are shorter than four bytes a
    pixel (packed 24 or 16 bits), clearing the screen stores past the framebuffer, and so
    does a newline at the bottom of it. *)
Theorem fb_clear_overruns f color :
  reported f -> 0 < fb_width f -> 0 < fb_height f -> fb_pitch f mod 4 = 0 -> fb_pitch f < 4 * fb_width f ->
  ~ in_bounds (fb_clear color f) /\
  (0 <= cursor_y f < 2 ^ 30 -> fb_char_height f = 16 -> fb_height f < cursor_y f + 32 ->
   ~ in_bounds (fb_puts [10] f)).
Proof.
  intros Hr Hw Hh Ha Hp. assert (Hover : forall g c, fb_width g = fb_width f -> fb_height g = fb_height f ->
    fb_pitch g = fb_pitch f -> ~ in_bounds (fb_clear c g)).
  { intros g c Ew Eh Ep Hb. specialize (Hb _ _ (fb_clear_last g c ltac:(lia) ltac:(lia))).
    unfold pixel_index in Hb. rewrite Ew, Ep, Eh in Hb. fold (pixel_index f (fb_width f - 1) (fb_height f - 1)) in Hb.
    rewrite reported_index in Hb by (done || lia).
    destruct (fb_clear_mode g c) as [Eh2 Ep2]. rewrite Eh2, Ep2, Eh, Ep in Hb.
    assert (E4 : fb_pitch f = 4 * (fb_pitch f / 4)) by mlia. set (w := fb_pitch f / 4) in *. nia. }
  split; [by apply Hover|]. intros Hcy Hch Hlow. cbn [fb_puts truthy]. change (truthy 10) with true. cbn [fb_puts].
  unfold fb_putchar. cbn [Z.eqb Pos.eqb]. cbv zeta. cbn [set_cursor cursor_x cursor_y fb_width fb_char_width fb_char_height].
  rewrite Hch, (i32_id (cursor_y f + 16)), (i32_id (cursor_y f + 16 + 16)) by lia.
  match goal with |- context [if fb_width f <? ?v then ?a else ?b] => set (g := if fb_width f <? v then a else b) end.
  assert (Hg : fb_width g = fb_width f /\ fb_height g = fb_height f /\ fb_pitch g = fb_pitch f /\
    fb_char_height g = 16 /\ cursor_y f + 16 <= cursor_y g < 2 ^ 31) by (unfold g; case_match; cbn; lia).
  clearbody g. destruct Hg as (Ew & Eh & Ep & Ec & Hy).
  rewrite Ec, Eh, (u64_id (cursor_y g)), (u64_id 16), u64_id by lia.
  rewrite (proj2 (Z.ltb_lt _ _)) by lia. by apply Hover.
Qed.

Lemma term_putchar_plain font c t bg :
  (forall c j, font c j = 0) -> t_bg t = bg ->
  (forall col row i j, cell_pixel font (t_cells t col row) i j = bg) ->
  t_bg (term_putchar c t) = bg /\
  (forall col row i j, cell_pixel font (t_cells (term_putchar c t) col row) i j = bg).
Proof.
  intros Hfont Hbg Hc. unfold term_putchar, move, put_cell, blank.
  destruct (c =? 10), (c =? 13), (c =? 9); cbn;
    repeat (destruct (_ <=? _); cbn); (split; [done|]); intros col row i j; try done; try apply Hc;
    destruct (decide _); try apply Hc; cbn; by rewrite Hfont, Z.bits_0.
Qed.

Lemma term_puts_plain font s t bg :
  (forall c j, font c j = 0) -> t_bg t = bg ->
  (forall col row i j, cell_pixel font (t_cells t col row) i j = bg) ->
  t_cols (term_puts s t) = t_cols t /\ t_rows (term_puts s t) = t_rows t /\
  (forall col row i j, cell_pixel font (t_cells (term_puts s t) col row) i j = bg).
Proof.
  intros Hfont. revert t. induction s as [|c s IH]; intros t Hbg Hc; [done|].
  destruct (term_putchar_plain font c t bg Hfont Hbg Hc) as [Hbg' Hc'].
  cbn [term_puts foldl]. fold (term_puts s (term_putchar c t)).
  destruct (IH _ Hbg' Hc') as (-> & -> & Hp). split; [|split; [|done]];
    unfold term_putchar, move, put_cell, blank; repeat case_match; done.
Qed.

Lemma for_range_font lo n (body : Z -> fb -> fb) f :
  (forall i f, fb_font (body i f) = fb_font f) -> fb_font (for_range lo n body f) = fb_font f.
Proof.
  intros Hb. destruct (decide (0 <= n)); [|by rewrite for_range_nil by lia].
  set (P := fun (_ : Z) g => fb_font g = fb_font f). enough (HP : P n (for_range lo n body f)) by exact HP.
  apply for_range_ind; [done|done|]. unfold P. intros i f1 _ <-. apply Hb.
Qed.

Lemma draw_char_font x y c fg bg f : fb_font (draw_char x y c fg bg f) = fb_font f.
Proof.
  unfold draw_char. apply for_range_font. intros row f1. apply for_range_font. intros col f2.
  unfold draw_pixel. by destruct (_ || _).
Qed.

Lemma fb_clear_font color f : fb_font (fb_clear color f) = fb_font f.
Proof.
  unfold fb_clear. cbn [set_cursor fb_font]. apply for_range_font. intros y f1.
  by apply for_range_font.
Qed.

Lemma fb_puts_font s f : fb_font (fb_puts s f) = fb_font f.
Proof.
  revert f. induction s as [|c s IH]; intros f; [done|]. cbn [fb_puts]. destruct (truthy c); [|done].
  rewrite IH. unfold fb_putchar. cbv zeta. repeat case_match;
    rewrite ?fb_clear_font; cbn [set_cursor fb_font]; by rewrite ?draw_char_font.
Qed.

(** No source file ever writes [font8x16]: with its initial zeros, whatever is
    printed on a blank screen leaves every cell in the background colour. *)
Theorem fb_text_invisible s f t :
  fb_rep f t -> fb_font f = fb_font fb_bss -> (forall col row, t_cells t col row = Plain (t_bg t)) ->
  forall col row i j, 0 <= col < t_cols t -> 0 <= row < t_rows t -> 0 <= i < 8 -> 0 <= j < 16 ->
    fb_pixels (fb_puts s f) !! pixel_index (fb_puts s f) (8 * col + i) (16 * row + j) = Some (bg_color f).
Proof.
  intros Hr Hfont Hplain.
  assert (Hbg : bg_color f = t_bg t) by apply (fr_colors _ _ Hr).
  pose proof (fb_puts_rep s f t Hr) as Hr'.
  destruct (term_puts_plain (fb_font f) (c_chars s) t (t_bg t)) as (Hc & Hrw & Hp); [by rewrite Hfont|done| |].
  { intros col row i j. by rewrite Hplain. }
  intros col row i j Hcol Hrow Hi Hj. rewrite (fr_pixels _ _ Hr') by (rewrite ?Hc, ?Hrw; done).
  by rewrite fb_puts_font, Hp, Hbg.
Qed.

(** Clearing makes any console in a usable mode show a blank text screen. *)
Lemma fb_clear_establishes color f :
  mode_ok f -> fb_char_width f = 8 -> fb_char_height f = 16 -> 0 <= color < 2 ^ 32 ->
  0 <= fg_color f < 2 ^ 32 -> 0 <= bg_color f < 2 ^ 32 ->
  fb_rep (fb_clear color f)
    (Term (fb_width f / 8) (fb_height f / 16) 0 0 (fg_color f) (bg_color f) (fun _ _ => Plain color)).
Proof.
  intros Hm Hcw Hch Hc Hfg Hbg. destruct (fb_clear_spec f color Hm) as (p & -> & Hp).
  pose proof Hm as (? & ? & _).
  split; cbn [t_cols t_rows t_col t_row t_fg t_bg t_cells]; try done; [split; mlia|].
  cbn. intros col row i j Hcol Hrow Hi Hj.
  change (pixel_index (set_cursor 0 0 (set_pixels p f))) with (pixel_index f).
  rewrite Hp by mlia. by rewrite u32_id.
Qed.

(** *** [fb_init] *)

Lemma fb_map_loop_terminates hhdm fb_virt fb_phys len n : forall fuel off s,
  (n < fuel)%nat -> 0 <= off -> off mod 4096 = 0 -> 0 <= len <= 2 ^ 64 - 4096 ->
  len - off <= 4096 * Z.of_nat n ->
  fb_map_loop fuel hhdm fb_virt fb_phys len off s =
    Some (for_range 0 (Z.max 0 ((len - off + 4095) / 4096)) (fun i s =>
      vmm_map_page hhdm (u64 (fb_virt + (off + 4096 * i))) (u64 (fb_phys + (off + 4096 * i))) 0x23 s) s).
Proof.
  induction n as [|n IH]; intros [|fuel] off s Hf Ho Hoa Hl Hn; try lia; cbn [fb_map_loop].
  - rewrite (proj2 (Z.ltb_ge _ _)), for_range_nil by (lia || mlia). done.
  - destruct (Z.ltb_spec off len) as [Hlt|Hge]; [|rewrite for_range_nil by mlia; done].
    rewrite u64_id by mlia. rewrite IH by (lia || mlia). f_equal.
    rewrite (for_range_cons 0 (Z.max 0 ((len - off + 4095) / 4096))) by mlia.
    rewrite Z.mul_0_r, Z.add_0_r.
    replace (Z.max 0 ((len - off + 4095) / 4096) - 1) with (Z.max 0 ((len - (off + 4096) + 4095) / 4096)) by mlia.
    rewrite <-(for_range_shift 1). apply for_range_ext. intros i s1 _. do 2 f_equal; f_equal; lia.
Qed.

(** [fb_init] terminates and maps exactly the [ceil(height * pitch / 4096)] pages
    of the framebuffer, in order, from its fixed virtual address. *)
Theorem fb_init_maps fuel hhdm fb_phys width height pitch bpp f s :
  0 <= height * pitch <= 2 ^ 64 - 4096 -> height * pitch <= 4096 * Z.of_nat fuel -> (0 < fuel)%nat ->
  exists f', fb_init (S fuel) hhdm fb_phys width height pitch bpp f s =
    Some (f', for_range 0 ((height * pitch + 4095) / 4096) (fun i s =>
      vmm_map_page hhdm (u64 (fb_virt_base + 4096 * i)) (u64 (fb_phys + 4096 * i)) 0x23 s) s) /\
    fb_width f' = width /\ fb_height f' = height /\ fb_pitch f' = pitch /\ fb_ptr f' = fb_virt_base.
Proof.
  intros Hl Hfu Hf0. unfold fb_init. rewrite (u64_id (height * pitch)) by lia.
  rewrite (fb_map_loop_terminates _ _ _ _ fuel) by (lia || done).
  rewrite Z.sub_0_r, Z.max_r by mlia. eexists. split.
  - reflexivity.
  - repeat split.
Qed.

(** ** A concrete console: 24x32 pixels *)

Definition demo_font (c j : Z) : Z := (c + j) mod 256.
Definition demo_raw (font : Z -> Z -> Z) : fb := Fb fb_virt_base 24 32 96 32 0 0 7 9 8 16 font ∅.
Definition demo_fb : fb := fb_clear 5 (demo_raw demo_font).
Definition demo_fb0 : fb := fb_clear 9 (demo_raw (fun _ _ => 0)).
Definition demo_term (color : Z) : term := Term 3 2 0 0 7 9 (fun _ _ => Plain color).

Lemma demo_clear_rep font color : 0 <= color < 2 ^ 32 -> fb_rep (fb_clear color (demo_raw font)) (demo_term color).
Proof.
  intros Hc. apply (fb_clear_establishes color (demo_raw font)); try done.
Qed.

Lemma demo_fb_rep : fb_rep demo_fb (demo_term 5).
Proof. by apply demo_clear_rep. Qed.

Lemma demo_fb0_rep : fb_rep demo_fb0 (demo_term 9).
Proof. by apply demo_clear_rep. Qed.

Lemma fb_puts_refines_witness :
  let t := term_puts [65; 9; 66; 10; 67] (demo_term 5) in
  fb_rep (fb_puts [65; 9; 66; 10; 67; 0] demo_fb) t /\ (t_col t, t_row t) = (1, 0) /\
  t_cells t 0 0 = Glyph 67 7 9.
Proof.
  split; [exact (fb_puts_refines [65; 9; 66; 10; 67; 0] demo_fb (demo_term 5) demo_fb_rep)|].
  by vm_compute.
Defined.

Lemma fb_puts_color_refines_witness :
  let t1 := term_puts [65] (Term 3 2 0 0 1 2 (fun _ _ => Plain 5)) in
  fb_rep (fb_puts_color [65; 0] 1 2 demo_fb) (Term 3 2 1 0 7 9 (t_cells t1)).
Proof. refine (fb_puts_color_refines [65; 0] 1 2 demo_fb (demo_term 5) demo_fb_rep _ _); lia. Defined.

(** A 32-bit mode with padded lines, the cursor outside the screen. *)
Lemma fb_puts_in_bounds_witness :
  in_bounds (fb_puts [65; 66; 67; 68; 0] (Fb fb_virt_base 24 32 102 32 (-50) 31 7 9 8 16 demo_font ∅)).
Proof.
  refine (proj1 (fb_puts_in_bounds [65; 66; 67; 68; 0] 0 (Fb fb_virt_base 24 32 102 32 (-50) 31 7 9 8 16 demo_font ∅) _ _ _)).
  - repeat split; vm_compute; congruence.
  - vm_compute. congruence.
  - intros k v. cbn. by rewrite lookup_empty.
Defined.

(** The same screen with packed 24-bit pixels. *)
Definition demo_packed : fb := Fb fb_virt_base 24 32 72 24 0 16 7 9 8 16 demo_font ∅.

Lemma fb_clear_overruns_witness :
  ~ in_bounds (fb_clear 0 demo_packed) /\ ~ in_bounds (fb_puts [10] demo_packed).
Proof.
  assert (Hr : reported demo_packed) by (repeat split; vm_compute; congruence).
  destruct (fb_clear_overruns demo_packed 0 Hr) as [H1 H2]; [by vm_compute..|].
  split; [exact H1|]. apply H2; [split; [discriminate|reflexivity]|reflexivity|by vm_compute].
Defined.

Lemma fb_text_invisible_witness :
  let f := fb_puts [83; 117; 105; 0] demo_fb0 in
  fb_pixels f !! pixel_index f (8 * 1 + 3) (16 * 0 + 4) = Some 9.
Proof.
  apply (fb_text_invisible [83; 117; 105; 0] demo_fb0 (demo_term 9) demo_fb0_rep).
  - reflexivity.
  - reflexivity.
  - cbn; lia.
  - cbn; lia.
  - lia.
  - lia.
Defined.

Lemma fb_init_maps_witness : exists f' s',
  fb_init 5 demo_hhdm 0xE0000000 24 32 96 32 fb_bss demo_vmm = Some (f', s') /\ fb_width f' = 24.
Proof.
  destruct (fb_init_maps 4 demo_hhdm 0xE0000000 24 32 96 32 fb_bss demo_vmm) as (f' & E & W & _);
    [lia|lia|lia|].
  eexists f', _. split; [exact E|exact W].
Defined.
