(* ===== verification/Apic.v ===== *)
(** [src/arc/x86_64/apic.c]: maps the local APIC registers before any allocator
    exists, with page tables from a static pool of three, and programs LINT0. *)

From Stdlib Require Import String.
From S2P Require Import Prelude Mem CString Pmm Vmm PortIO Format Serial Panic.

Definition APIC_LINT0 : Z := 0x350.

Definition phys_mask (entry : Z) : Z := Z.land entry 0x000FFFFFFFFFF000.

(** What apic.c reads and writes: memory, CR3, [pt_pool_idx], how often the TLB
    was flushed, and the stores to the mapped registers (address, value). *)
Record apic := Apic {
  a_mem : mem;
  a_cr3 : Z;
  pt_pool_idx : Z;
  a_flushes : nat;
  a_mmio : list (Z * Z);
}.

Definition a_set_mem (m : mem) (s : apic) : apic :=
  Apic m (a_cr3 s) (pt_pool_idx s) (a_flushes s) (a_mmio s).

Definition virt_to_phys (hhdm virt : Z) (s : apic) : Z :=
  let pml4e := ld64 (a_mem s) (slot hhdm (Z.land (a_cr3 s) (not64 0xFFF)) (Z.land (Z.shiftr virt 39) 0x1FF)) in
  if negb (truthy (Z.land pml4e 1)) then 0 else
  let pdpte := ld64 (a_mem s) (slot hhdm (phys_mask pml4e) (Z.land (Z.shiftr virt 30) 0x1FF)) in
  if negb (truthy (Z.land pdpte 1)) then 0 else
  if truthy (Z.land pdpte 0x80)
  then u64 (Z.land pdpte 0x000FFFFFC0000000 + Z.land virt 0x3FFFFFFF) else
  let pde := ld64 (a_mem s) (slot hhdm (phys_mask pdpte) (Z.land (Z.shiftr virt 21) 0x1FF)) in
  if negb (truthy (Z.land pde 1)) then 0 else
  if truthy (Z.land pde 0x80) then u64 (phys_mask pde + Z.land virt 0x1FFFFF) else
  let pte := ld64 (a_mem s) (slot hhdm (phys_mask pde) (Z.land (Z.shiftr virt 12) 0x1FF)) in
  if negb (truthy (Z.land pte 1)) then 0 else
  u64 (phys_mask pte + Z.land virt 0xFFF).

Definition flush_tlb (s : apic) : apic :=
  Apic (a_mem s) (a_cr3 s) (pt_pool_idx s) (S (a_flushes s)) (a_mmio s).

Section Apic.
(** The address of [pt_pool], which the linker chooses; the two halves of the
    register IA32_APIC_BASE. *)
Context (pt_pool : Z) (eax edx : Z).

Definition pool_alloc_phys (hhdm : Z) (s : apic) : Z * apic :=
  if 3 <=? pt_pool_idx s then (0, s)
  else
    let virt := pt_pool + 4096 * pt_pool_idx s in
    let s := Apic (a_mem s) (a_cr3 s) (pt_pool_idx s + 1) (a_flushes s) (a_mmio s) in
    (virt_to_phys hhdm virt s, s).

(** [paddr = pool_alloc_phys(); if (!paddr) fail; *entry = paddr | 3; zero it]:
    the three copies of this block; [None] is the failure. *)
Definition pool_link (hhdm entry : Z) (s : apic) : option apic * apic :=
  let '(paddr, s) := pool_alloc_phys hhdm s in
  if negb (truthy paddr) then (None, s)
  else
    let s := a_set_mem (st64 (a_mem s) entry (Z.lor paddr 0x03)) s in
    let s := a_set_mem (for_range 0 4096 (fun j m => vst8 m (u64 (hhdm + paddr) + j) 0) (a_mem s)) s in
    (Some s, s).

Definition apic_virt : Z := 0xFFFFFFFFFEE00000.
Definition apic_phys : Z := Z.land (Z.lor (Z.shiftl (u32 edx) 32) (u32 eax)) 0xFFFFFF000.

(** The split of a 2 MiB page: a table of 512 pages over the same memory. *)
Definition split_2mb (hhdm pde pt_paddr : Z) (s : apic) : apic :=
  let huge_phys := Z.land (ld64 (a_mem s) pde) (not64 0x1FFFFF) in
  let m := for_range 0 512 (fun i m =>
    st64 m (slot hhdm pt_paddr i) (Z.lor (u64 (huge_phys + Z.shiftl i 12)) 0x23)) (a_mem s) in
  a_set_mem (st64 m pde (Z.lor pt_paddr 0x03)) s.

(** The last part: the leaf entry, the flush, the register. *)
Definition apic_leaf (hhdm pde : Z) (s : apic) : apic :=
  let pte := slot hhdm (phys_mask (ld64 (a_mem s) pde)) (Z.land (Z.shiftr apic_virt 12) 0x1FF) in
  let s := a_set_mem (st64 (a_mem s) pte (Z.lor (Z.land apic_phys (not64 0xFFF)) 0x23)) s in
  let s := flush_tlb s in
  Apic (a_mem s) (a_cr3 s) (pt_pool_idx s) (a_flushes s)
    ((apic_virt + 4 * (APIC_LINT0 / 4), 0x700) :: a_mmio s).

(** [inl]: the message of a failure and the state it leaves. *)
Definition apic_pd (hhdm pdpte : Z) (s : apic) : (list Z * apic) + apic :=
  let pde := slot hhdm (phys_mask (ld64 (a_mem s) pdpte)) (Z.land (Z.shiftr apic_virt 21) 0x1FF) in
  if negb (truthy (Z.land (ld64 (a_mem s) pde) 1)) then
    match pool_link hhdm pde s with
    | (None, s) => inl (chars "[APIC] failed: no pool for PT" ++ nl, s)
    | (Some s, _) => inr (apic_leaf hhdm pde s)
    end
  else if truthy (Z.land (ld64 (a_mem s) pde) 0x80) then
    let '(pt_paddr, s) := pool_alloc_phys hhdm s in
    if negb (truthy pt_paddr) then inl (chars "[APIC] failed: no pool to split 2MB" ++ nl, s)
    else inr (apic_leaf hhdm pde (split_2mb hhdm pde pt_paddr s))
  else inr (apic_leaf hhdm pde s).

Definition apic_pdpt (hhdm pml4e : Z) (s : apic) : (list Z * apic) + apic :=
  let pdpte := slot hhdm (phys_mask (ld64 (a_mem s) pml4e)) (Z.land (Z.shiftr apic_virt 30) 0x1FF) in
  if negb (truthy (Z.land (ld64 (a_mem s) pdpte) 1)) then
    match pool_link hhdm pdpte s with
    | (None, s) => inl (chars "[APIC] failed: no pool for PD" ++ nl, s)
    | (Some s, _) => apic_pd hhdm pdpte s
    end
  else if truthy (Z.land (ld64 (a_mem s) pdpte) 0x80) then
    inl (chars "[APIC] failed: PDPT 1GB page conflict" ++ nl, s)
  else apic_pd hhdm pdpte s.

Definition apic_map (hhdm : Z) (s : apic) : (list Z * apic) + apic :=
  let pml4e := slot hhdm (Z.land (a_cr3 s) (not64 0xFFF)) (Z.land (Z.shiftr apic_virt 39) 0x1FF) in
  if negb (truthy (Z.land (ld64 (a_mem s) pml4e) 1)) then
    match pool_link hhdm pml4e s with
    | (None, s) => inl (chars "[APIC] failed: no pool for PDPT" ++ nl, s)
    | (Some s, _) => apic_pdpt hhdm pml4e s
    end
  else apic_pdpt hhdm pml4e s.

Definition apic_init (dev : trace -> Z -> Z) (n : nat) (hhdm : Z) (s : apic) : prog trace apic :=
  match apic_map hhdm s with
  | inl (msg, s) => (serial_puts dev n msg ;; pret s)%prog
  | inr s => pret s
  end.
End Apic.

(** ** Properties *)

(** The walk of apic.c and the one of vmm.c are the same function. *)
Theorem virt_to_phys_agrees hhdm va s :
  virt_to_phys hhdm va s =
    vmm_virt_to_phys hhdm va (Vmm (a_mem s) (Pmm 0 0 0) (a_cr3 s) []) /\
  virt_to_phys hhdm va s = kernel_resolve (walk 4 hhdm (a_mem s) (Z.land (a_cr3 s) (not64 0xFFF)) va) va.
Proof.
  assert (E : virt_to_phys hhdm va s = vmm_virt_to_phys hhdm va (Vmm (a_mem s) (Pmm 0 0 0) (a_cr3 s) [])).
  { unfold virt_to_phys, vmm_virt_to_phys, PML4_I, PDPT_I, PD_I, PT_I, get_cr3, Vmm.phys_mask, phys_mask.
    cbn [v_mem v_cr3]. reflexivity. }
  split; [exact E|]. rewrite E.
  exact (virt_to_phys_resolve hhdm va (Vmm (a_mem s) (Pmm 0 0 0) (a_cr3 s) [])).
Qed.

(** *** The pool is never exceeded *)

(** Outcome of a part of [apic_init] that may take [k] tables. *)
Definition kept (k : Z) (s s' : apic) : Prop :=
  pt_pool_idx s <= pt_pool_idx s' <= 3 /\ pt_pool_idx s' <= pt_pool_idx s + k /\
  a_cr3 s' = a_cr3 s /\ a_flushes s' = a_flushes s /\ a_mmio s' = a_mmio s.

Definition outcome (k : Z) (s : apic) (r : (list Z * apic) + apic) : Prop :=
  match r with
  | inl (msg, s') => kept k s s' /\ exists c rest, msg = c :: rest /\ c <> 0 /\ c <> 10
  | inr s' => exists s1, kept k s s1 /\ pt_pool_idx s' = pt_pool_idx s1 /\ a_cr3 s' = a_cr3 s1 /\
      a_flushes s' = S (a_flushes s) /\ a_mmio s' = (0xFFFFFFFFFEE00350, 0x700) :: a_mmio s
  end.

Lemma kept_trans k1 k2 s s1 s2 : kept k1 s s1 -> kept k2 s1 s2 -> kept (k1 + k2) s s2.
Proof. intros (? & ? & ? & ? & ?) (? & ? & ? & ? & ?). repeat split; try lia; congruence. Qed.

Lemma outcome_trans k1 k2 s s1 r : kept k1 s s1 -> outcome k2 s1 r -> outcome (k1 + k2) s r.
Proof.
  intros H1. pose proof H1 as (_ & _ & _ & Hf & Hm). destruct r as [[msg s2]|s2]; cbn.
  - intros [H2 Hmsg]. split; [by eapply kept_trans|done].
  - intros (s' & H2 & Ei & Ec & Ef & Em). exists s'. split; [by eapply kept_trans|].
    rewrite Ef, Em, Hf, Hm. done.
Qed.

Lemma kept_refl s : pt_pool_idx s <= 3 -> kept 0 s s.
Proof. intros. repeat split; lia. Qed.

Lemma outcome_weaken k k' s r : k <= k' -> outcome k s r -> outcome k' s r.
Proof.
  intros Hk. destruct r as [[msg s2]|s2]; cbn; unfold kept.
  - intros [(? & ? & ?) Hm]. split; [|done]. split; [done|]. split; [lia|done].
  - intros (s' & (? & ? & ?) & He). exists s'. split; [|done]. split; [done|]. split; [lia|done].
Qed.

Lemma outcome_fail k s s' msg c rest :
  kept k s s' -> msg = c :: rest -> c <> 0 -> c <> 10 -> outcome k s (inl (msg, s')).
Proof. intros. split; [done|]. by exists c, rest. Qed.

Lemma pool_alloc_kept pt_pool hhdm s :
  pt_pool_idx s <= 3 -> kept 1 s (pool_alloc_phys pt_pool hhdm s).2.
Proof.
  intros Hs. unfold pool_alloc_phys, kept. destruct (Z.leb_spec 3 (pt_pool_idx s)); cbn; repeat split; lia.
Qed.

Lemma pool_link_kept pt_pool hhdm e s :
  pt_pool_idx s <= 3 ->
  kept 1 s (pool_link pt_pool hhdm e s).2 /\
  match (pool_link pt_pool hhdm e s).1 with
  | Some s1 => s1 = (pool_link pt_pool hhdm e s).2
  | None => True
  end.
Proof.
  intros Hs. unfold pool_link. pose proof (pool_alloc_kept pt_pool hhdm s Hs) as Hb.
  destruct (pool_alloc_phys pt_pool hhdm s) as [p s1]. cbn [snd] in Hb.
  destruct (negb (truthy p)); done.
Qed.

Lemma apic_leaf_outcome eax edx hhdm pde k s s1 :
  kept k s s1 -> outcome k s (inr (apic_leaf eax edx hhdm pde s1)).
Proof.
  intros Hk. pose proof Hk as (_ & _ & _ & Hf & Hm). exists s1. split; [done|].
  do 2 (split; [done|]). cbn [apic_leaf flush_tlb a_set_mem a_flushes a_mmio]. by rewrite Hf, Hm.
Qed.

Lemma apic_pd_outcome pt_pool eax edx hhdm pdpte s :
  pt_pool_idx s <= 3 -> outcome 1 s (apic_pd pt_pool eax edx hhdm pdpte s).
Proof.
  intros Hs. unfold apic_pd. cbv zeta. set (pde := slot hhdm _ _).
  destruct (negb _).
  - destruct (pool_link_kept pt_pool hhdm pde s Hs) as [Hk He].
    destruct (pool_link pt_pool hhdm pde s) as [[s1|] s2]; cbn [fst snd] in *.
    + subst s1. by apply apic_leaf_outcome.
    + eapply outcome_fail; [done|reflexivity|done|done].
  - destruct (truthy _).
    + pose proof (pool_alloc_kept pt_pool hhdm s Hs) as Hk.
      destruct (pool_alloc_phys pt_pool hhdm s) as [p s1]. cbn [snd] in Hk. destruct (negb _).
      * eapply outcome_fail; [done|reflexivity|done|done].
      * by apply apic_leaf_outcome.
    + apply (outcome_weaken 0); [lia|]. apply apic_leaf_outcome. by apply kept_refl.
Qed.

Lemma apic_pdpt_outcome pt_pool eax edx hhdm pml4e s :
  pt_pool_idx s <= 3 -> outcome 2 s (apic_pdpt pt_pool eax edx hhdm pml4e s).
Proof.
  intros Hs. unfold apic_pdpt. cbv zeta. set (pdpte := slot hhdm _ _).
  destruct (negb _).
  - destruct (pool_link_kept pt_pool hhdm pdpte s Hs) as [Hk He].
    destruct (pool_link pt_pool hhdm pdpte s) as [[s1|] s2]; cbn [fst snd] in *.
    + subst s1. apply (outcome_trans 1 1 s s2); [done|]. apply apic_pd_outcome. by destruct Hk as [[_ ?] _].
    + apply (outcome_weaken 1); [lia|]. eapply outcome_fail; [done|reflexivity|done|done].
  - destruct (truthy _).
    + apply (outcome_weaken 0); [lia|]. eapply outcome_fail; [by apply kept_refl|reflexivity|done|done].
    + apply (outcome_weaken 1); [lia|]. by apply apic_pd_outcome.
Qed.

Lemma apic_map_outcome pt_pool eax edx hhdm s :
  pt_pool_idx s <= 3 -> outcome 3 s (apic_map pt_pool eax edx hhdm s).
Proof.
  intros Hs. unfold apic_map. cbv zeta. set (pml4e := slot hhdm _ _).
  destruct (negb _).
  - destruct (pool_link_kept pt_pool hhdm pml4e s Hs) as [Hk He].
    destruct (pool_link pt_pool hhdm pml4e s) as [[s1|] s2]; cbn [fst snd] in *.
    + subst s1. apply (outcome_trans 1 2 s s2); [done|]. apply apic_pdpt_outcome. by destruct Hk as [[_ ?] _].
    + apply (outcome_weaken 1); [lia|]. eapply outcome_fail; [done|reflexivity|done|done].
  - apply (outcome_weaken 2); [lia|]. by apply apic_pdpt_outcome.
Qed.

(** [apic_init] never indexes its pool of three tables out of range and keeps
    CR3; it either programs LINT0, once, after flushing the TLB, or reports one
    message on the serial line and touches no register. *)
Theorem apic_init_bounded pt_pool eax edx dev n hhdm s tr :
  uart_live dev n -> pt_pool_idx s <= 3 ->
  exists s' l, apic_init pt_pool eax edx dev n hhdm s tr = Some (s', l ++ tr) /\
    pt_pool_idx s <= pt_pool_idx s' <= 3 /\ a_cr3 s' = a_cr3 s /\
    ((l = [] /\ a_flushes s' = S (a_flushes s) /\ a_mmio s' = (0xFFFFFFFFFEE00350, 0x700) :: a_mmio s) \/
     (sent 0x3F8 l <> [] /\ a_flushes s' = a_flushes s /\ a_mmio s' = a_mmio s)).
Proof.
  intros Hlive Hs. pose proof (apic_map_outcome pt_pool eax edx hhdm s Hs) as Ho. unfold apic_init.
  destruct (apic_map pt_pool eax edx hhdm s) as [[msg s1]|s1]; cbn [outcome] in Ho.
  - destruct Ho as [(Hi & _ & Hc & Hf & Hm) (c & rest & -> & Hc0 & Hc10)].
    destruct (says_puts dev n Hlive (c :: rest) tr) as (l & E & _ & Hsent & _).
    exists s1, l. rewrite (pbind_step _ _ _ _ _ E). split; [done|]. split; [done|]. split; [done|]. right.
    split; [|done]. rewrite Hsent. cbn [c_chars]. rewrite (proj2 (truthy_true c)) by done.
    unfold crlf. cbn [fmap list_fmap mjoin list_join]. by rewrite (proj2 (Z.eqb_neq c 10)) by done.
  - destruct Ho as (s2 & (Hi & _ & Hc & _) & Ei & Ec & Hf & Hm).
    exists s1, []. split; [done|]. rewrite Ei, Ec. split; [done|]. split; [done|]. by left.
Qed.

(** ** A concrete machine: no mapping at all, so that the pool itself cannot be
    translated and [apic_init] reports it. *)

Definition demo_apic : apic := Apic ∅ 0x1000 0 0 [].

Lemma apic_init_bounded_witness : exists s' l,
  apic_init 0xFFFFFFFF80005000 0xFEE00900 0 demo_uart 2 demo_hhdm demo_apic [] = Some (s', l ++ []) /\
  pt_pool_idx s' <= 3.
Proof.
  destruct (apic_init_bounded 0xFFFFFFFF80005000 0xFEE00900 0 demo_uart 2 demo_hhdm demo_apic []
    demo_uart_live) as (s' & l & E & [_ B] & _); [cbn; lia|].
  exists s', l. split; [exact E|exact B].
Defined.
