(* ===== verification/ApicTables.v ===== *)
(** What [apic_init] of [src/arc/x86_64/apic.c] does to the page tables: they stay a
    tree, translations elsewhere are kept (also when a large page is split), and the
    page of the registers translates to the address the processor reports. The page
    tables are those of Vmm.v; the pool pages are frames outside the tree. *)

From S2P Require Import Prelude Mem CString Pmm Vmm PortIO Format Serial Panic Apic.

(** The 2 MiB around the registers. *)
Definition apic_region : Z := prefix 1 apic_virt.

(** ** Changes confined to the region *)

(** Entries that serve only the region may change. *)
Lemma walk_region hhdm rt m m' own P :
  pt_wf hhdm rt m own ->
  (forall pa l x i, own !! pa = Some (l, x) -> 0 <= i < 512 -> ~ (l = 2 /\ x * 512 + i = P) -> ~ (l = 1 /\ x = P) ->
     entry hhdm m' pa i = entry hhdm m pa i) ->
  forall n pa va, prefix 1 va <> P -> own !! pa = Some (Z.of_nat n, prefix (Z.of_nat n) va) ->
  walk n hhdm m' pa va = walk n hhdm m pa va.
Proof.
  intros Hwf Hsame. induction n as [|n IH]; intros pa va Hne Hpa; [done|]. cbn [walk].
  set (i := idx (Z.of_nat (S n)) va). assert (Hi : 0 <= i < 512) by apply idx_bound.
  assert (entry hhdm m' pa i = entry hhdm m pa i) as ->.
  { eapply Hsame; [done..| |].
    - intros [E H]. apply Hne. rewrite <-H. unfold i. rewrite E.
      by rewrite <-(prefix_step 2 va) by lia.
    - intros [E H]. apply Hne. rewrite <-H. by rewrite E. }
  destruct (present (entry hhdm m pa i)) eqn:Epr; cbn [negb]; [|done].
  destruct (n =? 0)%nat eqn:En; [done|].
  destruct ((S n <? 4)%nat && huge (entry hhdm m pa i)) eqn:Eh; [done|].
  apply IH; [done|]. apply Nat.eqb_neq in En.
  pose proof (wf_tbl _ _ _ _ Hwf _ _ _ Hpa) as [_ Hl].
  replace (Z.of_nat n) with (Z.of_nat (S n) - 1) by lia. rewrite prefix_step by lia.
  eapply (wf_edge _ _ _ _ Hwf); [done|lia|done|done|].
  intros Hl4. rewrite (proj2 (Nat.ltb_lt _ _)) in Eh by lia. done.
Qed.

(** A leaf-level change keeps the tree. *)
Lemma pt_wf_upper hhdm rt m m' own :
  pt_wf hhdm rt m own ->
  (forall pa l x i, own !! pa = Some (l, x) -> 1 < l -> 0 <= i < 512 -> entry hhdm m' pa i = entry hhdm m pa i) ->
  pt_wf hhdm rt m' own.
Proof.
  intros [Hh Hr Ht He] Hs. split; try done. intros pa l x i Ho Hl Hi Hp Hu.
  rewrite (Hs _ _ _ _ Ho Hl Hi) in *. by apply (He pa l x i).
Qed.

Lemma region_idx va : prefix 1 va = apic_region ->
  idx 4 va = idx 4 apic_virt /\ idx 3 va = idx 3 apic_virt /\ idx 2 va = idx 2 apic_virt /\
  prefix 4 va = prefix 4 apic_virt /\ prefix 3 va = prefix 3 apic_virt /\ prefix 2 va = prefix 2 apic_virt.
Proof.
  unfold apic_region. intros H. pose proof (prefix_step 2 va ltac:(lia)) as S2. pose proof (prefix_step 3 va ltac:(lia)) as S3.
  pose proof (prefix_step 4 va ltac:(lia)) as S4. pose proof (prefix_step 2 apic_virt ltac:(lia)) as T2.
  pose proof (prefix_step 3 apic_virt ltac:(lia)) as T3. pose proof (prefix_step 4 apic_virt ltac:(lia)) as T4.
  change (2 - 1) with 1 in *. change (3 - 1) with 2 in *. change (4 - 1) with 3 in *.
  pose proof (idx_bound 2 va). pose proof (idx_bound 3 va). pose proof (idx_bound 4 va).
  pose proof (idx_bound 2 apic_virt). pose proof (idx_bound 3 apic_virt). pose proof (idx_bound 4 apic_virt). lia.
Qed.

(** The small page [i] of a large one. *)
Lemma split_entry e i :
  0 <= e < 2 ^ 64 -> 0 <= i < 512 -> Vmm.phys_mask e mod 2 ^ 21 = 0 ->
  let v := u64 (Z.lor (u64 (Z.land e (not64 0x1FFFFF) + Z.shiftl i 12)) 0x23) in
  present v = true /\ Vmm.phys_mask v = Vmm.phys_mask e + 4096 * i.
Proof.
  intros He Hi Ha v. rewrite (phys_mask_eq e) in Ha |- * by lia.
  change 0x1FFFFF with (Z.ones 21) in v. subst v. rewrite land_not64_ones, Z.shiftl_mul_pow2 by lia.
  rewrite (u64_id (e - _ + _)) by mlia. rewrite (lor_low_add _ 0x23 12) by mlia. rewrite u64_id by mlia.
  rewrite phys_mask_eq by mlia. split; [|mlia]. apply Z.testbit_true; [lia|]. mlia.
Qed.

(** ** Steps of [apic_init] *)

Section Tables.
(** The root table, and the frame behind each page of the pool. *)
Context (hhdm rt : Z) (fs : Z -> Z).

Definition pool_frame (p : Z) : Prop := exists j, 0 <= j < 3 /\ p = fs j.

(** Memory away from the tables of a tree. *)
Definition off_tables (own : gmap Z (Z * Z)) (a n : Z) : Prop :=
  forall p y, own !! p = Some y -> a + n <= hhdm + p \/ hhdm + p + 4096 <= a.

Lemma off_tables_sub own own' a n : own ⊆ own' -> off_tables own' a n -> off_tables own a n.
Proof using. intros Hs Ho p y Hp. eapply Ho. by eapply lookup_weaken. Qed.

Lemma slot_agree m own tbl y i v a n :
  0 <= hhdm -> tbl_ok hhdm tbl -> own !! tbl = Some y -> 0 <= i < 512 -> off_tables own a n ->
  agree m (st64 m (slot hhdm tbl i) v) a n.
Proof using.
  intros Hh Ht Ho Hi Hoff. specialize (Hoff tbl y Ho). rewrite slot_eq by done.
  apply (st_le_agree 8); auto with kernel. lia.
Qed.

Lemma zero_page_off m own p y a n :
  0 <= hhdm -> frame_ok hhdm p -> own !! p = Some y -> off_tables own a n -> agree m (zero_page hhdm p m) a n.
Proof using.
  intros Hh Hp Ho Hoff. specialize (Hoff p y Ho).
  rewrite zero_page_memset, frame_ok_u64 by done. apply memset_agree; auto with kernel; lia.
Qed.

(** From one memory to another: the tree grows by pool frames, its links stay, and
    the addresses outside the page of the registers ([all]: every address) keep their
    translation; memory outside the tables stays as it was. *)
Record grown (all : bool) (m : mem) (own : gmap Z (Z * Z)) (m' : mem) (own' : gmap Z (Z * Z)) : Prop := {
  gr_wf : pt_wf hhdm rt m' own';
  gr_own : own ⊆ own';
  gr_new p y : own' !! p = Some y -> own !! p = Some y \/ pool_frame p;
  gr_keep pa l x i : own !! pa = Some (l, x) -> 1 < l -> 0 <= i < 512 ->
    present (entry hhdm m pa i) = true -> (l < 4 -> huge (entry hhdm m pa i) = false) ->
    entry hhdm m' pa i = entry hhdm m pa i;
  gr_link pa l x i : own !! pa = Some (l, x) -> 1 < l -> 0 <= i < 512 ->
    entry hhdm m' pa i = entry hhdm m pa i \/ huge (entry hhdm m' pa i) = false;
  gr_walk va : all = true \/ prefix 0 va <> prefix 0 apic_virt ->
    kernel_resolve (walk 4 hhdm m' rt va) va = kernel_resolve (walk 4 hhdm m rt va) va;
  gr_agree a n : off_tables own' a n -> agree m m' a n;
}.

Lemma grown_refl all m own : pt_wf hhdm rt m own -> grown all m own m own.
Proof using. intros W. split; try done; by left. Qed.

Lemma grown_trans a1 a2 m1 o1 m2 o2 m3 o3 :
  grown a1 m1 o1 m2 o2 -> grown a2 m2 o2 m3 o3 -> grown (a1 && a2) m1 o1 m3 o3.
Proof using.
  intros A B. split.
  - apply B.
  - etrans; [apply A|apply B].
  - intros p y [Ho|?]%(gr_new _ _ _ _ _ B); [|by right]. by apply (gr_new _ _ _ _ _ A).
  - intros pa l x i Ho Hl Hi Hp Hh. pose proof (gr_keep _ _ _ _ _ A _ _ _ _ Ho Hl Hi Hp Hh) as E.
    rewrite <-E. eapply (gr_keep _ _ _ _ _ B); [|done|done|by rewrite E|by rewrite E].
    eapply lookup_weaken; [done|apply A].
  - intros pa l x i Ho Hl Hi.
    destruct (gr_link _ _ _ _ _ B pa l x i) as [-> | ?]; [by eapply lookup_weaken; [|apply A]|done|done| |by right].
    by apply (gr_link _ _ _ _ _ A pa l x).
  - intros va Hv. rewrite (gr_walk _ _ _ _ _ B), (gr_walk _ _ _ _ _ A); [done|..];
      destruct Hv as [[-> ->]%andb_true_iff|]; auto.
  - intros a n Ho. eapply agree_trans; [apply (gr_agree _ _ _ _ _ A)|by apply (gr_agree _ _ _ _ _ B)].
    eapply off_tables_sub; [apply B|done].
Qed.

Lemma grown_linked all m own m' own' tbl l x i r :
  grown all m own m' own' -> own !! tbl = Some (l, x) -> 1 < l -> 0 <= i < 512 ->
  linked hhdm m own tbl l x i r -> linked hhdm m' own' tbl l x i r.
Proof using.
  intros G Ht Hl Hi [Hp Hh Hm Ho]. pose proof (gr_keep _ _ _ _ _ G _ _ _ _ Ht Hl Hi Hp Hh) as E.
  split; rewrite ?E; try done. eapply lookup_weaken; [done|apply G].
Qed.

Lemma grown_clear all m own m' own' va :
  grown all m own m' own' -> clear hhdm m own rt va -> clear hhdm m' own' rt va.
Proof using.
  intros G (r3 & r2 & O4 & L4 & O3 & L3 & O2 & H2). pose proof (gr_own _ _ _ _ _ G) as Hs. exists r3, r2.
  split; [by eapply lookup_weaken|]. split; [by eapply grown_linked; eauto using idx_bound; lia|].
  split; [by eapply lookup_weaken|]. split; [by eapply grown_linked; eauto using idx_bound; lia|].
  split; [by eapply lookup_weaken|].
  by destruct (gr_link _ _ _ _ _ G r2 _ _ (idx 2 va) O2 ltac:(lia) (idx_bound 2 va)) as [-> | ?].
Qed.

(** *** The pool *)

(** The pages of the pool not yet taken: where they are, and that a page that can
    be used is a frame outside the tree and no other page; large pages are aligned. *)
Record tables (pt_pool : Z) (s : apic) (own : gmap Z (Z * Z)) : Prop := {
  tb_wf : pt_wf hhdm rt (a_mem s) own;
  tb_cr3 : Z.land (a_cr3 s) (not64 0xFFF) = rt;
  tb_idx : 0 <= pt_pool_idx s <= 3;
  tb_at j : pt_pool_idx s <= j < 3 -> virt_to_phys hhdm (pt_pool + 4096 * j) s = fs j;
  tb_free j : pt_pool_idx s <= j < 3 -> fs j <> 0 ->
    tbl_ok hhdm (fs j) /\ own !! fs j = None /\ forall k, pt_pool_idx s <= k < 3 -> fs k = fs j -> k = j;
  tb_large pa x i : own !! pa = Some (2, x) -> 0 <= i < 512 -> huge (entry hhdm (a_mem s) pa i) = true ->
    Vmm.phys_mask (entry hhdm (a_mem s) pa i) mod 2 ^ 21 = 0;
}.

Lemma walk_translates va s s' :
  a_cr3 s' = a_cr3 s ->
  kernel_resolve (walk 4 hhdm (a_mem s') (Z.land (a_cr3 s) (not64 0xFFF)) va) va =
    kernel_resolve (walk 4 hhdm (a_mem s) (Z.land (a_cr3 s) (not64 0xFFF)) va) va ->
  virt_to_phys hhdm va s' = virt_to_phys hhdm va s.
Proof using.
  intros Ec Ew. destruct (virt_to_phys_agrees hhdm va s') as [_ ->], (virt_to_phys_agrees hhdm va s) as [_ ->].
  by rewrite Ec, Ew.
Qed.

Lemma pool_alloc_cases pt_pool s own :
  tables pt_pool s own ->
  exists p s', pool_alloc_phys pt_pool hhdm s = (p, s') /\ tables pt_pool s' own /\
    a_mem s' = a_mem s /\ a_cr3 s' = a_cr3 s /\
    (p <> 0 -> tbl_ok hhdm p /\ own !! p = None /\ pool_frame p /\
       forall j, pt_pool_idx s' <= j < 3 -> fs j <> p).
Proof using.
  intros [W C I A F L]. unfold pool_alloc_phys. destruct (Z.leb_spec 3 (pt_pool_idx s)) as [Hge|Hlt].
  { exists 0, s. by do 4 (split; [done|]). }
  eexists _, _. split; [reflexivity|]. set (s' := Apic _ _ _ _ _).
  assert (Ev : forall va, virt_to_phys hhdm va s' = virt_to_phys hhdm va s) by (intros; by apply walk_translates).
  rewrite Ev, A by lia. split; [|do 2 (split; [done|])].
  - split; cbn [s' a_mem a_cr3 pt_pool_idx]; try done; [lia|..].
    + intros j Hj. rewrite <-(A j) by lia. apply Ev.
    + intros j Hj Hne. destruct (F j ltac:(lia) Hne) as (? & ? & Hk). do 2 (split; [done|]).
      intros k Hk' E. apply Hk; [lia|done].
  - intros Hne. destruct (F (pt_pool_idx s) ltac:(lia) Hne) as (? & ? & Hk). do 2 (split; [done|]). split; [by eexists; split; [|done]; lia|].
    cbn. intros j Hj E. specialize (Hk j ltac:(lia) E). lia.
Qed.

(** A new memory with the tree grown by a pool frame. *)
Lemma tables_grown pt_pool s own m' own' p y :
  tables pt_pool s own -> own' = <[p := y]> own -> (forall j, pt_pool_idx s <= j < 3 -> fs j <> p) ->
  grown true (a_mem s) own m' own' -> (forall j, 0 <= j < 512 -> entry hhdm m' p j = 0) -> tables pt_pool (a_set_mem m' s) own'.
Proof using.
  intros [W C I A F L] -> Hp G Hz. split; cbn [a_set_mem a_mem a_cr3 pt_pool_idx]; try done; [apply G|..].
  - intros j Hj. rewrite <-(A j Hj). apply walk_translates; [done|]. cbn [a_set_mem a_mem]. rewrite C.
    apply (gr_walk _ _ _ _ _ G). by left.
  - intros j Hj Hne. destruct (F j Hj Hne) as (? & ? & ?). split; [done|]. split; [|done].
    rewrite lookup_insert_ne; [done|]. intros E. by apply (Hp j).
  - intros pa x i Ho Hi Hh. destruct (decide (pa = p)) as [->|Hne]; [by rewrite Hz in Hh|].
    rewrite lookup_insert_ne in Ho by done.
    destruct (gr_link _ _ _ _ _ G pa 2 x i Ho ltac:(lia) Hi) as [E|E]; [|congruence].
    rewrite E in *. by apply (L pa x).
Qed.

(** Linking a page and clearing it, in the order of the code. *)
Lemma linked_entries m own tbl l x i p v :
  pt_wf hhdm rt m own -> own !! tbl = Some (l, x) -> 0 <= i < 512 -> frame_ok hhdm p -> own !! p = None ->
  let m' := zero_page hhdm p (st64 m (slot hhdm tbl i) v) in
  entry hhdm m' tbl i = u64 v /\
  (forall pa y j, own !! pa = Some y -> 0 <= j < 512 -> pa <> tbl \/ j <> i -> entry hhdm m' pa j = entry hhdm m pa j) /\
  (forall j, 0 <= j < 512 -> entry hhdm m' p j = 0).
Proof using.
  intros W Ht Hi Hf Hno m'. pose proof (wf_hhdm _ _ _ _ W) as Hh. destruct (wf_tbl _ _ _ _ W _ _ _ Ht) as [Htok _].
  assert (Hown : forall pa y, own !! pa = Some y -> p <> pa) by (intros pa y Ho ->; congruence).
  split; [|split; [|intros; by apply zero_page_entry]].
  - unfold m'. rewrite zero_page_entry_ne; [|exact Hh|exact Hf|exact Htok|by eapply Hown|exact Hi]. by rewrite entry_store_eq.
  - intros pa [l' x'] j Ho Hj Hne. destruct (wf_tbl _ _ _ _ W _ _ _ Ho) as [Hpok _].
    unfold m'. rewrite zero_page_entry_ne; [|exact Hh|exact Hf|exact Hpok|by eapply Hown|exact Hj].
    apply (entry_store_ne hhdm m tbl i v pa j Hh Htok Hpok Hi Hj). destruct Hne as [Hne|Hne]; [left|right]; exact (not_eq_sym Hne).
Qed.

(** The blocks that link a table from the pool. *)
Lemma pool_link_cases pt_pool s own tbl l x i :
  tables pt_pool s own -> own !! tbl = Some (l, x) -> 1 < l -> 0 <= i < 512 ->
  present (entry hhdm (a_mem s) tbl i) = false ->
  exists s' own', tables pt_pool s' own' /\ grown true (a_mem s) own (a_mem s') own' /\
    (pool_link pt_pool hhdm (slot hhdm tbl i) s = (None, s') \/
     exists p, pool_link pt_pool hhdm (slot hhdm tbl i) s = (Some s', s') /\
       linked hhdm (a_mem s') own' tbl l x i p /\
       forall j, 0 <= j < 512 -> entry hhdm (a_mem s') p j = 0).
Proof using.
  intros Hs Ht Hl Hi Hnp. unfold pool_link.
  destruct (pool_alloc_cases pt_pool s own Hs) as (p & s1 & -> & Hs1 & Em & Ec & Hp).
  destruct (truthy p) eqn:Etr; cbn [negb].
  2: { exists s1, own. split; [done|]. split; [|by left]. rewrite Em. apply grown_refl, Hs. }
  apply truthy_true in Etr. destruct (Hp Etr) as (Hok & Hno & Hpf & Hrest). rewrite <-Em in Hnp.
  pose proof (tb_wf _ _ _ Hs1) as W. pose proof (wf_hhdm _ _ _ _ W) as Hh. pose proof Hok as [(Hp0 & Hpa & Hpb) Hp52].
  destruct (link_entry p) as (Eu & Hpr & Hnh & Hpm); [lia|done|].
  assert (Hf : frame_ok hhdm p) by apply Hok.
  set (m1 := st64 (a_mem s1) (slot hhdm tbl i) (Z.lor p 3)).
  assert (Ez : for_range 0 4096 (fun j m => vst8 m (u64 (hhdm + p) + j) 0) m1 = zero_page hhdm p m1) by reflexivity.
  cbn [a_set_mem a_mem]. fold m1. rewrite Ez. clear Ez. set (m' := zero_page hhdm p m1).
  destruct (linked_entries (a_mem s1) own tbl l x i p (Z.lor p 3) W Ht Hi Hf Hno) as (Hnew & Hold & Hz). fold m1 m' in Hnew, Hold, Hz.
  rewrite Eu in Hnew.
  assert (Hag : forall a n, off_tables (<[p := (l - 1, x * 512 + i)]> own) a n -> agree (a_mem s1) m' a n).
  { intros a n Ho. eapply agree_trans; [eapply slot_agree; [exact Hh|apply (wf_tbl _ _ _ _ W _ _ _ Ht)|exact Ht|exact Hi|]|].
    - eapply off_tables_sub; [by apply insert_subseteq|exact Ho].
    - by eapply zero_page_off; [..|apply lookup_insert_eq|exact Ho]. }
  change (a_set_mem m' (a_set_mem m1 s1)) with (a_set_mem m' s1). clearbody m'. clear m1.
  assert (G : grown true (a_mem s1) own m' (<[p := (l - 1, x * 512 + i)]> own)).
  { split.
    - apply (link_wf hhdm rt (a_mem s1) m' own p tbl l x i); auto. by rewrite Hnew.
    - by apply insert_subseteq.
    - intros q y. destruct (decide (q = p)) as [->|Hne]; [by right|]. rewrite lookup_insert_ne by done. by left.
    - intros pa l' x' j Ho _ Hj Hpres _. apply (Hold pa (l', x')); [done..|]. apply not_and_ne. intros [-> ->]. congruence.
    - intros pa l' x' j Ho _ Hj. destruct (decide (pa = tbl /\ j = i)) as [[-> ->]|Hne].
      + right. by rewrite Hnew.
      + left. apply (Hold pa (l', x')); [done..|]. by apply not_and_ne.
    - intros va _. f_equal. apply (walk_link_fresh hhdm rt (a_mem s1) m' own p tbl i) with (x := 0); rewrite ?Hnew; auto.
      + intros j Hj. by rewrite Hz.
      + intros pa l' x' j Ho Hj Hne. by apply (Hold pa (l', x')).
      + by exists l, x.
      + apply W.
    - exact Hag. }
  eexists _, _. split; [eapply tables_grown; [exact Hs1|reflexivity|exact Hrest|exact G|exact Hz]|].
  split; [rewrite <-Em; exact G|]. right. exists p. split; [reflexivity|]. split; [|exact Hz].
  cbn [a_set_mem a_mem]. split; rewrite ?Hnew; auto. apply lookup_insert_eq.
Qed.

(** *** Splitting a large page *)

(** The level-2 table that serves the registers. *)
Definition pd_path (m : mem) (own : gmap Z (Z * Z)) (r2 : Z) : Prop := exists r3,
  own !! rt = Some (4, prefix 4 apic_virt) /\ linked hhdm m own rt 4 (prefix 4 apic_virt) (idx 4 apic_virt) r3 /\
  own !! r3 = Some (3, prefix 3 apic_virt) /\ linked hhdm m own r3 3 (prefix 3 apic_virt) (idx 3 apic_virt) r2 /\
  own !! r2 = Some (2, prefix 2 apic_virt).

(** The walk of an address of the region reaches that table. *)
Lemma pd_walk m own r2 va :
  pd_path m own r2 -> prefix 1 va = apic_region -> walk 4 hhdm m rt va = walk 2 hhdm m r2 va.
Proof using.
  intros (r3 & _ & L4 & _ & L3 & _) Hr. destruct (region_idx va Hr) as (E4 & E3 & _ & P4 & P3 & _).
  rewrite <-E4, <-P4 in L4. rewrite <-E3, <-P3 in L3.
  rewrite (walk_linked 2 _ _ _ _ _ _ _ L4). apply (walk_linked 1 _ _ _ _ _ _ _ L3).
Qed.

(** The entries of small pages, in terms of the large one's. *)
Definition small (e i : Z) : Z := Z.lor (u64 (Z.land e (not64 0x1FFFFF) + Z.shiftl i 12)) 0x23.

(** The memory after [split_2mb] on entry [i2] of table [r2]. *)
Lemma split_mem s own r2 x i2 p :
  pt_wf hhdm rt (a_mem s) own -> own !! r2 = Some (2, x) -> 0 <= i2 < 512 -> tbl_ok hhdm p -> own !! p = None ->
  let m' := a_mem (split_2mb hhdm (slot hhdm r2 i2) p s) in
  entry hhdm m' r2 i2 = p + 3 /\
  (forall j, 0 <= j < 512 -> entry hhdm m' p j = u64 (small (entry hhdm (a_mem s) r2 i2) j)) /\
  (forall pa y j, own !! pa = Some y -> 0 <= j < 512 -> pa <> r2 \/ j <> i2 ->
     entry hhdm m' pa j = entry hhdm (a_mem s) pa j) /\
  (forall y a n, off_tables (<[p := y]> own) a n -> agree (a_mem s) m' a n).
Proof using.
  intros W O2 Hi2 Hok Hno m'. pose proof (wf_hhdm _ _ _ _ W) as Hh. destruct (wf_tbl _ _ _ _ W _ _ _ O2) as [H2ok _].
  destruct (link_entry p) as (Eu & _); [destruct Hok as [(? & _) ?]; lia|apply Hok|].
  assert (Hown : forall pa y, own !! pa = Some y -> p <> pa) by (intros pa y Ho ->; congruence).
  set (e := entry hhdm (a_mem s) r2 i2) in *.
  assert (Em : m' = st64 (for_range 0 512 (fun i m => st64 m (slot hhdm p i) (small e i)) (a_mem s)) (slot hhdm r2 i2) (Z.lor p 0x03))
    by reflexivity.
  destruct (for_range_ind (fun n m => (forall j, 0 <= j < n -> entry hhdm m p j = u64 (small e j)) /\
      (forall pa y j, own !! pa = Some y -> 0 <= j < 512 -> entry hhdm m pa j = entry hhdm (a_mem s) pa j) /\
      forall y a n, off_tables (<[p := y]> own) a n -> agree (a_mem s) m a n)
    512 (fun i m => st64 m (slot hhdm p i) (small e i)) (a_mem s) 0) as (Hin & Hout & Hag);
    [lia|split; [lia|]; split; [done|]; intros; apply agree_refl| |].
  { intros i m Hi (H1 & H2' & H3). cbn [Z.add]. split; [|split].
    - intros j Hj. destruct (decide (j = i)) as [->|Hne]; [apply entry_store_eq|].
      rewrite entry_store_ne; [apply H1; lia|exact Hh|exact Hok|exact Hok|lia|lia|right; lia].
    - intros pa [l y] j Ho Hj. destruct (wf_tbl _ _ _ _ W _ _ _ Ho) as [Hpok _].
      rewrite entry_store_ne; [by eapply H2'|exact Hh|exact Hok|exact Hpok|lia|exact Hj|left; by eapply Hown].
    - intros y a n Ho. eapply agree_trans; [by eapply H3|]. by eapply slot_agree; [..|apply lookup_insert_eq| |exact Ho]. }
  set (m1 := for_range _ _ _ _) in *. clearbody m1. rewrite Em. split; [|split; [|split]].
  - by rewrite entry_store_eq.
  - intros j Hj. rewrite <-(Hin j Hj). apply (entry_store_ne hhdm m1 r2 i2 _ p j Hh H2ok Hok Hi2 Hj).
    left. apply not_eq_sym. by eapply Hown.
  - intros pa [l y] j Ho Hj Hne. destruct (wf_tbl _ _ _ _ W _ _ _ Ho) as [Hpok _]. rewrite <-(Hout pa _ j Ho Hj).
    apply (entry_store_ne hhdm m1 r2 i2 _ pa j Hh H2ok Hpok Hi2 Hj).
    destruct Hne as [Hne|Hne]; [left|right]; exact (not_eq_sym Hne).
  - intros y a n Ho. eapply agree_trans; [by eapply Hag|]. eapply slot_agree; [exact Hh|exact H2ok|exact O2|exact Hi2|].
    eapply off_tables_sub; [by apply (insert_subseteq own p y)|exact Ho].
Qed.

Section Split.
(** Entry [e] of the level-2 table of the registers is a large page; [m'] replaces it
    by the table [p] of small ones. *)
Context (m m' : mem) (own : gmap Z (Z * Z)) (r2 p : Z).
Let i2 : Z := idx 2 apic_virt.
Let e : Z := entry hhdm m r2 i2.
Let own' : gmap Z (Z * Z) := <[p := (2 - 1, prefix 2 apic_virt * 512 + i2)]> own.
Context (W : pt_wf hhdm rt m own) (Hpd : pd_path m own r2) (Hpr : present e = true) (Hhu : huge e = true).
Context (Ha : Vmm.phys_mask e mod 2 ^ 21 = 0) (Hok : tbl_ok hhdm p) (Hno : own !! p = None).
Context (Hnew : entry hhdm m' r2 i2 = p + 3) (Hpt : forall j, 0 <= j < 512 -> entry hhdm m' p j = u64 (small e j)).
Context (Hold : forall pa y j, own !! pa = Some y -> 0 <= j < 512 -> pa <> r2 \/ j <> i2 ->
  entry hhdm m' pa j = entry hhdm m pa j).
Context (Hag : forall a n, off_tables own' a n -> agree m m' a n).

Lemma split_linked : linked hhdm m' own' r2 2 (prefix 2 apic_virt) i2 p.
Proof using Hok Hnew e.
  destruct (link_entry p) as (_ & Hlp & Hlh & Hlm); [destruct Hok as [(? & _) ?]; lia|apply Hok|].
  split; rewrite ?Hnew; auto. apply lookup_insert_eq.
Qed.

Lemma split_keep pa l x i :
  own !! pa = Some (l, x) -> 0 <= i < 512 -> (l < 4 -> huge (entry hhdm m pa i) = false) ->
  entry hhdm m' pa i = entry hhdm m pa i.
Proof using Hpd Hhu Hold.
  intros Ho Hi Hnh. apply (Hold pa (l, x)); [done..|]. apply not_and_ne. intros [-> ->].
  destruct Hpd as (r3 & _ & _ & _ & _ & O2). rewrite O2 in Ho. injection Ho as <- _.
  fold e in Hnh. rewrite Hhu in Hnh. specialize (Hnh ltac:(lia)). done.
Qed.

Lemma split_path : pd_path m' own' r2.
Proof using Hpd Hhu Hno Hold.
  destruct Hpd as (r3 & O4 & [A1 A2 A3 A4] & O3 & [B1 B2 B3 B4] & O2).
  assert (Hs : own ⊆ own') by (by apply insert_subseteq). exists r3.
  split; [by eapply lookup_weaken|]. split.
  { split; rewrite ?(split_keep rt _ _ _ O4 (idx_bound 4 apic_virt) A2); auto. by eapply lookup_weaken. }
  split; [by eapply lookup_weaken|]. split.
  { split; rewrite ?(split_keep r3 _ _ _ O3 (idx_bound 3 apic_virt) B2); auto. by eapply lookup_weaken. }
  by eapply lookup_weaken.
Qed.

(** No address changes translation. *)
Lemma split_walk va : kernel_resolve (walk 4 hhdm m' rt va) va = kernel_resolve (walk 4 hhdm m rt va) va.
Proof using W Hpd Hpr Hhu Ha Hok Hno Hnew Hpt Hold fs.
  destruct (decide (prefix 1 va = apic_region)) as [Hr|Hne].
  - rewrite (pd_walk _ _ _ va split_path Hr), (pd_walk _ _ _ va Hpd Hr).
    pose proof split_linked as Hlk. unfold i2 in Hlk.
    destruct (region_idx va Hr) as (_ & _ & E2 & _ & _ & P2). rewrite <-E2, <-P2 in Hlk.
    rewrite (walk_linked 0 _ _ _ _ _ _ _ Hlk). cbn [walk Nat.eqb Nat.ltb Nat.leb andb].
    change (Z.of_nat 2) with 2. change (Z.of_nat 1) with 1. rewrite E2. fold i2. fold e.
    rewrite Hpr, Hhu, (Hpt _ (idx_bound 1 va)). cbn [negb]. unfold small.
    destruct (split_entry e (idx 1 va) (entry_bound hhdm m r2 i2) (idx_bound 1 va) Ha) as [-> Epm].
    cbn [negb kernel_resolve Z.eqb Pos.eqb]. rewrite Epm. unfold idx. cbn [Z.sub Z.mul Z.add]. mlia.
  - f_equal. apply (walk_region hhdm rt m m' own apic_region W); [|done|by rewrite prefix_4; apply W].
    intros pa l x i Ho Hi Hn2 _. apply (Hold pa (l, x)); [done..|]. apply not_and_ne. intros [-> ->].
    destruct Hpd as (r3 & _ & _ & _ & _ & O2). rewrite O2 in Ho. injection Ho as <- <-. apply Hn2. split; [done|].
    unfold apic_region. symmetry. apply (prefix_step 2 apic_virt). lia.
Qed.

Lemma split_grown : pool_frame p -> grown true m own m' own'.
Proof using W Hpd Hpr Hhu Ha Hok Hno Hnew Hpt Hold Hag.
  intros Hpf. destruct (link_entry p) as (_ & _ & Hlh & Hlm); [destruct Hok as [(? & _) ?]; lia|apply Hok|].
  pose proof Hpd as (r3 & _ & _ & _ & _ & O2). split.
  - apply (link_wf hhdm rt m m' own p r2 2 (prefix 2 apic_virt) i2); auto; [lia|by rewrite Hnew|lia].
  - by apply insert_subseteq.
  - intros q y. unfold own'. destruct (decide (q = p)) as [->|Hne]; [by right|]. rewrite lookup_insert_ne by done. by left.
  - intros pa l x i Ho _ Hi _ Hnh. by eapply split_keep.
  - intros pa l x i Ho _ Hi. destruct (decide (pa = r2 /\ i = i2)) as [[-> ->]|Hne]; [right; by rewrite Hnew|].
    left. apply (Hold pa (l, x)); [done..|]. by apply not_and_ne.
  - intros va _. apply split_walk.
  - exact Hag.
Qed.
End Split.

(** *** The descent *)

Lemma grown_pd_path all m own m' own' r2 :
  grown all m own m' own' -> pd_path m own r2 -> pd_path m' own' r2.
Proof using.
  intros G (r3 & O4 & L4 & O3 & L3 & O2). pose proof (gr_own _ _ _ _ _ G) as Hs. exists r3.
  split; [by eapply lookup_weaken|]. split; [by eapply grown_linked; eauto using idx_bound; lia|].
  split; [by eapply lookup_weaken|]. split; [by eapply grown_linked; eauto using idx_bound; lia|].
  by eapply lookup_weaken.
Qed.

Lemma pd_path_path m own r2 pt :
  pd_path m own r2 -> linked hhdm m own r2 2 (prefix 2 apic_virt) (idx 2 apic_virt) pt ->
  path hhdm m own rt apic_virt pt.
Proof using.
  intros (r3 & O4 & L4 & O3 & L3 & O2) L2. exists r3, r2. do 6 (split; [done|]).
  by apply (linked_own hhdm m own r2 2); [lia|].
Qed.

(** A present entry that is no large page links a table of the tree. *)
Lemma present_linked m own tbl l x i :
  pt_wf hhdm rt m own -> own !! tbl = Some (l, x) -> 1 < l -> 0 <= i < 512 ->
  present (entry hhdm m tbl i) = true -> (l < 4 -> huge (entry hhdm m tbl i) = false) ->
  linked hhdm m own tbl l x i (Vmm.phys_mask (entry hhdm m tbl i)).
Proof using. intros W Ho Hl Hi Hp Hh. split; try done. by apply (wf_edge _ _ _ _ W). Qed.

(** The entry of the registers' page. *)
Definition leaf_value (eax edx : Z) : Z := Z.lor (Z.land (apic_phys eax edx) (not64 0xFFF)) 0x23.

(** What a part of [apic_map] leaves: the registers' page mapped, or a message and
    every translation as it was. *)
Definition mapped (eax edx : Z) (s : apic) (own : gmap Z (Z * Z)) (r : (list Z * apic) + apic) : Prop := exists own',
  match r with
  | inl (_, s') => grown true (a_mem s) own (a_mem s') own'
  | inr s' => grown false (a_mem s) own (a_mem s') own' /\ exists pt, path hhdm (a_mem s') own' rt apic_virt pt /\
      entry hhdm (a_mem s') pt (idx 1 apic_virt) = u64 (leaf_value eax edx)
  end.

Lemma mapped_trans eax edx s own s1 own1 r :
  grown true (a_mem s) own (a_mem s1) own1 -> mapped eax edx s1 own1 r -> mapped eax edx s own r.
Proof using.
  intros G (own' & H). exists own'. destruct r as [[msg s']|s'].
  - apply (grown_trans true true _ _ _ _ _ _ G H).
  - destruct H as [H ?]. split; [|done]. apply (grown_trans true false _ _ _ _ _ _ G H).
Qed.

Lemma apic_leaf_mapped eax edx r2 pt s own :
  pt_wf hhdm rt (a_mem s) own -> pd_path (a_mem s) own r2 ->
  linked hhdm (a_mem s) own r2 2 (prefix 2 apic_virt) (idx 2 apic_virt) pt ->
  mapped eax edx s own (inr (apic_leaf eax edx hhdm (slot hhdm r2 (idx 2 apic_virt)) s)).
Proof using.
  intros W Hpd L2. pose proof (pd_path_path _ _ _ _ Hpd L2) as (_ & _ & _ & _ & _ & _ & _ & _ & Opt).
  destruct (wf_tbl _ _ _ _ W _ _ _ Opt) as [Hok _]. pose proof (wf_hhdm _ _ _ _ W) as Hh.
  set (i1 := idx 1 apic_virt). assert (Hi1 : 0 <= i1 < 512) by apply idx_bound.
  assert (Em : a_mem (apic_leaf eax edx hhdm (slot hhdm r2 (idx 2 apic_virt)) s) =
    st64 (a_mem s) (slot hhdm pt i1) (leaf_value eax edx)).
  { unfold apic_leaf. cbn [a_mem flush_tlb a_set_mem]. fold (entry hhdm (a_mem s) r2 (idx 2 apic_virt)).
    change Apic.phys_mask with Vmm.phys_mask. rewrite (lk_phys _ _ _ _ _ _ _ _ L2).
    reflexivity. }
  assert (Hold : forall pa l x j, own !! pa = Some (l, x) -> 0 <= j < 512 -> pa <> pt \/ j <> i1 ->
    entry hhdm (st64 (a_mem s) (slot hhdm pt i1) (leaf_value eax edx)) pa j = entry hhdm (a_mem s) pa j).
  { intros pa l x j Ho Hj Hne. destruct (wf_tbl _ _ _ _ W _ _ _ Ho) as [Hpok _].
    apply (entry_store_ne hhdm (a_mem s) pt i1 _ pa j Hh Hok Hpok Hi1 Hj).
    destruct Hne as [Hne|Hne]; [left|right]; exact (not_eq_sym Hne). }
  assert (Hup : forall pa l x j, own !! pa = Some (l, x) -> 1 < l -> 0 <= j < 512 ->
    entry hhdm (st64 (a_mem s) (slot hhdm pt i1) (leaf_value eax edx)) pa j = entry hhdm (a_mem s) pa j).
  { intros pa l x j Ho Hl Hj. apply (Hold pa l x j Ho Hj). left. intros ->. rewrite Opt in Ho. injection Ho. lia. }
  assert (G : grown false (a_mem s) own (st64 (a_mem s) (slot hhdm pt i1) (leaf_value eax edx)) own).
  { split; try done.
    - by eapply pt_wf_upper.
    - by left.
    - intros pa l x i Ho Hl Hi _ _. by eapply Hup.
    - intros pa l x i Ho Hl Hi. left. by eapply Hup.
    - intros va [?|Hne]; [done|]. f_equal.
      apply (walk_leaf_store hhdm rt (a_mem s) _ own pt apic_virt W Opt Hold 4 rt va Hne). rewrite prefix_4. apply W.
    - intros a n Ho. by eapply slot_agree. }
  exists own. rewrite Em. split; [exact G|]. exists pt. split; [|apply entry_store_eq].
  apply (pd_path_path _ _ r2); [by eapply grown_pd_path|].
  destruct Hpd as (r3 & _ & _ & _ & _ & O2). eapply grown_linked; eauto using idx_bound. lia.
Qed.

Section Descent.
Context (pt_pool eax edx : Z).

Lemma apic_pd_mapped r2 pdpte s own :
  tables pt_pool s own -> pd_path (a_mem s) own r2 -> Vmm.phys_mask (ld64 (a_mem s) pdpte) = r2 ->
  mapped eax edx s own (apic_pd pt_pool eax edx hhdm pdpte s).
Proof using.
  intros Hs Hpd E. pose proof (tb_wf _ _ _ Hs) as W. pose proof Hpd as (r3 & _ & _ & _ & _ & O2).
  unfold apic_pd. change Apic.phys_mask with Vmm.phys_mask. rewrite E.
  change (Z.land (Z.shiftr apic_virt 21) 0x1FF) with (idx 2 apic_virt). cbv zeta.
  fold (entry hhdm (a_mem s) r2 (idx 2 apic_virt)). rewrite truthy_present, truthy_huge.
  pose proof (idx_bound 2 apic_virt) as Hi. destruct (present _) eqn:Hpr; cbn [negb].
  2: { destruct (pool_link_cases pt_pool s own r2 2 _ _ Hs O2 ltac:(lia) Hi Hpr) as (s1 & own1 & Hs1 & G & [->|(p & -> & L & _)]).
       - by exists own1.
       - apply (mapped_trans _ _ _ _ s1 own1); [done|]. apply (apic_leaf_mapped eax edx r2 p); [apply Hs1|by eapply grown_pd_path|done]. }
  destruct (huge _) eqn:Hhu.
  - destruct (pool_alloc_cases pt_pool s own Hs) as (p & s1 & -> & Hs1 & Em & _ & Hp).
    destruct (truthy p) eqn:Etr; cbn [negb].
    2: { exists own. rewrite Em. by apply grown_refl. }
    apply truthy_true in Etr. destruct (Hp Etr) as (Hok & Hno & Hpf & _). rewrite <-Em in Hpd, Hpr, Hhu, W.
    destruct (split_mem s1 own r2 _ _ p W O2 Hi Hok Hno) as (H1 & H2 & H3 & H4).
    assert (Ha : Vmm.phys_mask (entry hhdm (a_mem s1) r2 (idx 2 apic_virt)) mod 2 ^ 21 = 0).
    { by apply (tb_large _ _ _ Hs1 r2 (prefix 2 apic_virt)). }
    pose proof (split_grown (a_mem s1) _ own r2 p W Hpd Hpr Hhu Ha Hok Hno H1 H2 H3 (H4 _) Hpf) as G.
    rewrite Em in G at 1. eapply mapped_trans; [exact G|]. apply (apic_leaf_mapped eax edx r2 p); [apply G| |].
    + rewrite Em in Hpd. by eapply grown_pd_path.
    + by apply (split_linked (a_mem s1)).
  - apply (apic_leaf_mapped eax edx r2 (Vmm.phys_mask (entry hhdm (a_mem s) r2 (idx 2 apic_virt)))); [done|done|].
    by apply present_linked.
Qed.

Lemma apic_pdpt_mapped r3 pml4e s own :
  tables pt_pool s own -> own !! rt = Some (4, prefix 4 apic_virt) ->
  linked hhdm (a_mem s) own rt 4 (prefix 4 apic_virt) (idx 4 apic_virt) r3 ->
  Vmm.phys_mask (ld64 (a_mem s) pml4e) = r3 ->
  mapped eax edx s own (apic_pdpt pt_pool eax edx hhdm pml4e s).
Proof using.
  intros Hs O4 L4 E. pose proof (tb_wf _ _ _ Hs) as W.
  pose proof (linked_own hhdm _ _ rt 4 apic_virt r3 ltac:(lia) L4) as O3. change (4 - 1) with 3 in O3.
  unfold apic_pdpt. change Apic.phys_mask with Vmm.phys_mask. rewrite E.
  change (Z.land (Z.shiftr apic_virt 30) 0x1FF) with (idx 3 apic_virt). cbv zeta.
  fold (entry hhdm (a_mem s) r3 (idx 3 apic_virt)). rewrite truthy_present, truthy_huge.
  pose proof (idx_bound 3 apic_virt) as Hi.
  assert (Hgo : forall s1 own1 r2, tables pt_pool s1 own1 -> grown true (a_mem s) own (a_mem s1) own1 ->
    linked hhdm (a_mem s1) own1 r3 3 (prefix 3 apic_virt) (idx 3 apic_virt) r2 ->
    mapped eax edx s own (apic_pd pt_pool eax edx hhdm (slot hhdm r3 (idx 3 apic_virt)) s1)).
  { intros s1 own1 r2 Hs1 G L3. apply (mapped_trans _ _ _ _ s1 own1); [done|].
    pose proof (gr_own _ _ _ _ _ G) as Hsub.
    apply (apic_pd_mapped r2); [done| |apply L3]. exists r3.
    split; [by eapply lookup_weaken|]. split; [eapply grown_linked; eauto using idx_bound; lia|].
    split; [by eapply lookup_weaken|]. split; [done|]. by apply (linked_own hhdm (a_mem s1) own1 r3 3); [lia|]. }
  destruct (present _) eqn:Hpr; cbn [negb].
  - destruct (huge _) eqn:Hhu; [exists own; by apply grown_refl|].
    eapply Hgo; [done|by apply grown_refl|]. by apply present_linked.
  - destruct (pool_link_cases pt_pool s own r3 3 _ _ Hs O3 ltac:(lia) Hi Hpr) as (s1 & own1 & Hs1 & G & [->|(p & -> & L & _)]).
    + by exists own1.
    + by eapply Hgo.
Qed.

Lemma apic_map_mapped s own :
  tables pt_pool s own -> mapped eax edx s own (apic_map pt_pool eax edx hhdm s).
Proof using.
  intros Hs. pose proof (tb_wf _ _ _ Hs) as W.
  assert (O4 : own !! rt = Some (4, prefix 4 apic_virt)) by (rewrite prefix_4; apply W).
  unfold apic_map. rewrite (tb_cr3 _ _ _ Hs).
  change (Z.land (Z.shiftr apic_virt 39) 0x1FF) with (idx 4 apic_virt). cbv zeta.
  fold (entry hhdm (a_mem s) rt (idx 4 apic_virt)). rewrite truthy_present.
  pose proof (idx_bound 4 apic_virt) as Hi. destruct (present _) eqn:Hpr; cbn [negb].
  - eapply apic_pdpt_mapped; [done|done| |reflexivity]. by apply present_linked.
  - destruct (pool_link_cases pt_pool s own rt 4 _ _ Hs O4 ltac:(lia) Hi Hpr) as (s1 & own1 & Hs1 & G & [->|(p & -> & L & _)]).
    + by exists own1.
    + apply (mapped_trans _ _ _ _ s1 own1); [done|]. apply (apic_pdpt_mapped p); [done| |done|apply L].
      eapply lookup_weaken; [done|apply G].
Qed.
End Descent.
End Tables.

(** ** The whole of [apic_init] *)

Lemma apic_phys_bound eax edx : 0 <= apic_phys eax edx < 2 ^ 36 /\ apic_phys eax edx mod 4096 = 0.
Proof.
  unfold apic_phys. set (x := Z.lor _ _).
  assert (Hx : 0 <= x).
  { apply Z.lor_nonneg. split; [|apply u32_bound]. apply Z.shiftl_nonneg, u32_bound. }
  pose proof (land_field_mask x 12 36 ltac:(lia) Hx) as E. change (2 ^ 36 - 2 ^ 12) with 0xFFFFFF000 in E.
  rewrite E. mlia.
Qed.

(** The page of the registers, through the entry [apic_init] writes. *)
Lemma apic_page_translates hhdm rt fs eax edx s own s' off :
  mapped hhdm rt fs eax edx s own (inr s') -> Z.land (a_cr3 s') (not64 0xFFF) = rt -> 0 <= off < 4096 ->
  virt_to_phys hhdm (apic_virt + off) s' = apic_phys eax edx + off.
Proof.
  intros (own' & _ & pt & Hpath & E) Hcr3 Ho. destruct (apic_phys_bound eax edx) as [Hb Ha].
  destruct (leaf_entry (apic_phys eax edx) 0x23) as [Hpr Hm]; [lia|lia|done|].
  destruct (virt_to_phys_agrees hhdm (apic_virt + off) s') as [_ ->]. rewrite Hcr3.
  rewrite (walk_page 4 _ _ _ _ apic_virt); [|lia|unfold apic_virt, prefix; mlia].
  rewrite (walk_path _ _ _ _ _ _ Hpath). cbn [walk]. change (Z.of_nat 1) with 1. rewrite E.
  cbv zeta in Hpr, Hm. unfold leaf_value. rewrite Hpr. cbn [negb Nat.eqb kernel_resolve Z.eqb Pos.eqb].
  rewrite Hm, Ha. unfold apic_virt. mlia.
Qed.

Lemma mapped_keeps hhdm rt fs eax edx s own r :
  mapped hhdm rt fs eax edx s own r ->
  exists own', grown hhdm rt fs false (a_mem s) own (a_mem (match r with inl (_, s') => s' | inr s' => s' end)) own'.
Proof.
  intros (own' & H). exists own'. destruct r as [[msg s']|s']; [|apply H].
  destruct H as [W S N K L T A]. split; try done. intros va _. apply T. by left.
Qed.

(** C38 [apic_init] on well-formed page tables, with a pool whose usable pages lie
    outside them: the tables stay well-formed and grow by pool pages only; no address
    outside the page of the registers changes translation, not even when a large page
    is split; and either that page translates to the address in IA32_APIC_BASE and
    LINT0 is programmed, or a message is sent and no register is written. *)
Theorem apic_init_maps hhdm rt fs pt_pool eax edx dev n s own tr :
  uart_live dev n -> tables hhdm rt fs pt_pool s own ->
  exists s' l own', apic_init pt_pool eax edx dev n hhdm s tr = Some (s', l ++ tr) /\
    pt_wf hhdm rt (a_mem s') own' /\ own ⊆ own' /\
    (forall p y, own' !! p = Some y -> own !! p = Some y \/ pool_frame fs p) /\
    (forall va, prefix 0 va <> prefix 0 apic_virt -> virt_to_phys hhdm va s' = virt_to_phys hhdm va s) /\
    ((a_mmio s' = (apic_virt + 0x350, 0x700) :: a_mmio s /\
      forall off, 0 <= off < 4096 -> virt_to_phys hhdm (apic_virt + off) s' = apic_phys eax edx + off) \/
     (sent 0x3F8 l <> [] /\ a_mmio s' = a_mmio s)).
Proof.
  intros Hlive Hs. pose proof (apic_map_outcome pt_pool eax edx hhdm s (proj2 (tb_idx _ _ _ _ _ _ Hs))) as Ho.
  pose proof (apic_map_mapped hhdm rt fs pt_pool eax edx s own Hs) as Hm.
  destruct (mapped_keeps _ _ _ _ _ _ _ _ Hm) as (own' & G). unfold apic_init.
  assert (Hv : forall s', a_cr3 s' = a_cr3 s -> grown hhdm rt fs false (a_mem s) own (a_mem s') own' ->
    forall va, prefix 0 va <> prefix 0 apic_virt -> virt_to_phys hhdm va s' = virt_to_phys hhdm va s).
  { intros s' Ec Gs va Hne. apply walk_translates; [done|]. rewrite (tb_cr3 _ _ _ _ _ _ Hs).
    apply (gr_walk _ _ _ _ _ _ _ _ Gs). by right. }
  destruct (apic_map pt_pool eax edx hhdm s) as [[msg s1]|s1]; cbn [outcome] in Ho.
  - destruct Ho as [(_ & _ & Hc & _ & Hmm) (c & rest & -> & Hc0 & Hc10)].
    destruct (says_puts dev n Hlive (c :: rest) tr) as (l & E & _ & Hsent & _).
    exists s1, l, own'. rewrite (pbind_step _ _ _ _ _ E). split; [done|]. do 3 (split; [apply G|]).
    split; [by apply Hv|]. right. split; [|done]. rewrite Hsent. cbn [c_chars].
    rewrite (proj2 (truthy_true c)) by done. unfold crlf. cbn [fmap list_fmap mjoin list_join].
    by rewrite (proj2 (Z.eqb_neq c 10)) by done.
  - destruct Ho as (s2 & (_ & _ & Hc & _) & _ & Ec & _ & Hmm). rewrite Hc in Ec.
    exists s1, [], own'. split; [done|]. do 3 (split; [apply G|]). split; [by apply Hv|]. left.
    split; [exact Hmm|]. intros off Hoff. eapply apic_page_translates; [exact Hm| |done].
    rewrite Ec. apply (tb_cr3 _ _ _ _ _ _ Hs).
Qed.

(** ** A concrete machine

    The kernel's tables with the three pool pages at frames 0x10000 to 0x12000, and a
    large page over the registers. *)

Definition poke (a v : Z) (m : mem) : mem := st64 m (demo_hhdm + a) v.

Definition demo_tables : mem :=
  poke (0x1000 + 8 * 511) 0x2003 (poke (0x2000 + 8 * 510) 0x3003 (poke (0x2000 + 8 * 511) 0x4003
    (poke 0x3000 0x5003 (poke (0x4000 + 8 * 0x1F7) 0x40000083
    (poke (0x5000 + 8 * 5) 0x10003 (poke (0x5000 + 8 * 6) 0x11003 (poke (0x5000 + 8 * 7) 0x12003 ∅))))))).

Definition demo_tree : gmap Z (Z * Z) :=
  {[0x1000 := (4, 0); 0x2000 := (3, 511); 0x3000 := (2, 511 * 512 + 510); 0x4000 := (2, 511 * 512 + 511);
    0x5000 := (1, (511 * 512 + 510) * 512)]}.

Definition demo_pool : Z := 0xFFFFFFFF80005000.
Definition demo_fs (j : Z) : Z := 0x10000 + 0x1000 * j.
Definition demo_mapped_apic : apic := Apic demo_tables 0x1000 0 0 [].

Lemma demo_tables_wf : pt_wf demo_hhdm 0x1000 demo_tables demo_tree.
Proof.
  assert (Ht : map_Forall (fun pa lx => tbl_ok demo_hhdm pa /\ 1 <= lx.1 <= 4) demo_tree).
  { unfold tbl_ok. by apply (bool_decide_unpack _); vm_compute. }
  assert (He : map_Forall (fun pa lx => Forall (fun i => 1 < lx.1 ->
    present (entry demo_hhdm demo_tables pa i) = true ->
    (lx.1 < 4 -> huge (entry demo_hhdm demo_tables pa i) = false) ->
    demo_tree !! Vmm.phys_mask (entry demo_hhdm demo_tables pa i) = Some (lx.1 - 1, lx.2 * 512 + i)) (seqZ 0 512))
    demo_tree).
  { by apply (bool_decide_unpack _); vm_compute. }
  split.
  - done.
  - reflexivity.
  - intros pa l x Ho. apply (Ht pa _ Ho).
  - intros pa l x i Ho Hl Hi. specialize (He pa _ Ho). rewrite Forall_forall in He.
    apply (He i); [by apply elem_of_seqZ; lia|done].
Qed.

Lemma demo_apic_tables : tables demo_hhdm 0x1000 demo_fs demo_pool demo_mapped_apic demo_tree.
Proof.
  assert (Hl : map_Forall (fun pa lx => Forall (fun i => lx.1 = 2 -> huge (entry demo_hhdm demo_tables pa i) = true ->
    Vmm.phys_mask (entry demo_hhdm demo_tables pa i) mod 2 ^ 21 = 0) (seqZ 0 512)) demo_tree).
  { by apply (bool_decide_unpack _); vm_compute. }
  split; cbn [a_mem a_cr3 pt_pool_idx demo_mapped_apic].
  - exact demo_tables_wf.
  - reflexivity.
  - lia.
  - below.
  - intros j Hj _. assert (Hc : j = 0 \/ j = 1 \/ j = 2) by lia. split; [|split].
    + destruct Hc as [-> | [-> | ->]]; by apply (bool_decide_unpack _); vm_compute.
    + destruct Hc as [-> | [-> | ->]]; reflexivity.
    + intros k Hk E. unfold demo_fs in E. lia.
  - intros pa x i Ho Hi. specialize (Hl pa _ Ho). rewrite Forall_forall in Hl.
    apply (Hl i); [by apply elem_of_seqZ; lia|done].
Qed.

Lemma apic_init_maps_witness : exists s' l own',
  apic_init demo_pool 0xFEE00900 0 demo_uart 2 demo_hhdm demo_mapped_apic [] = Some (s', l ++ []) /\
  pt_wf demo_hhdm 0x1000 (a_mem s') own'.
Proof.
  destruct (apic_init_maps demo_hhdm 0x1000 demo_fs demo_pool 0xFEE00900 0 demo_uart 2 demo_mapped_apic demo_tree []
    demo_uart_live demo_apic_tables) as (s' & l & own' & E & W & _).
  exists s', l, own'. split; [exact E|exact W].
Defined.

(** On that machine the large page is split: the registers' page is mapped, and its
    neighbour keeps its translation. *)
Example demo_apic_split :
  match apic_map demo_pool 0xFEE00900 0 demo_hhdm demo_mapped_apic with
  | inr s => (virt_to_phys demo_hhdm apic_virt s, virt_to_phys demo_hhdm (apic_virt + 0x1234) s, pt_pool_idx s) =
      (0xFEE00000, 0x40001234, 1)
  | inl _ => False
  end.
Proof. by vm_compute. Qed.
