(* ===== verification/Kmain.v ===== *)
(** The interrupt side of [src/kernel/kmain.c]: the exception report, the
    dispatch of device interrupts, and one whole interrupt, from the stub that
    saves the registers to the [iretq] that restores those of some task. *)

From Stdlib Require Import String.
From stdpp Require Import relations.
From S2P Require Import Prelude Mem CString Pmm PortIO Format Serial Panic Sched Context Timer Keyboard.

(** Offsets in [registers_t]. *)
Definition off_int_no : Z := 120.
Definition off_error_code : Z := 128.

Definition exception_names : list (list Z) := [
  chars "Division By Zero"; chars "Debug"; chars "Non-Maskable Interrupt"; chars "Breakpoint";
  chars "Overflow"; chars "Bound Range Exceeded"; chars "Invalid Opcode"; chars "Device Not Available";
  chars "Double Fault"; chars "Coprocessor Segment Overrun"; chars "Invalid TSS";
  chars "Segment Not Present"; chars "Stack-Segment Fault"; chars "General Protection Fault";
  chars "Page Fault"; chars "Reserved"; chars "x87 Floating-Point Exception"; chars "Alignment Check";
  chars "Machine Check"; chars "SIMD Floating-Point Exception"; chars "Virtualization Exception";
  chars "Control Protection Exception" ].

(** What interrupt handlers read and write besides the ports. *)
Record machine := Machine {
  m_mem : mem;
  m_timer : timer;
  m_sched : sched;
  m_kbd : kbd;
}.

Definition with_mem (m : mem) (mc : machine) : machine := Machine m (m_timer mc) (m_sched mc) (m_kbd mc).

Section Handlers.
(** The hardware, and the fuel of each polling loop of the serial line. *)
Context (dev : trace -> Z -> Z) (n : nat).

(** [regs]: the address of the frame; [hex1], [hex2], [dec]: the uninitialised
    buffers of the formatters. *)
Definition isr_handler (hex1 hex2 dec : list Z) (regs : Z) (m : mem) : prog trace halted :=
  let int_no := ld64 m (regs + off_int_no) in (
  (if int_no <? 22 then
     serial_puts dev n (nl ++ chars "=== KERNEL PANIC ===" ++ nl ++ chars "Exception: ") ;;
     serial_puts dev n (nth (Z.to_nat int_no) exception_names []) ;;
     serial_puts dev n (nl ++ chars "Error: ") ;;
     serial_put_hex dev n hex1 (ld64 m (regs + off_error_code)) ;;
     serial_puts dev n (nl ++ chars "RIP: ") ;;
     serial_put_hex dev n hex2 (ld64 m (regs + off_rip)) ;;
     serial_puts dev n nl
   else
     serial_puts dev n (nl ++ chars "Unknown interrupt: ") ;;
     serial_put_dec dev n dec int_no ;;
     serial_puts dev n nl) ;;
  halt_loop)%prog.

Definition irq_handler (regs : Z) (mc : machine) : prog trace (Z * machine) :=
  let int_no := ld64 (m_mem mc) (regs + off_int_no) in (
  let* (new_rsp, mc) :=
    if int_no =? 32 then
      let t := timer_handler (m_timer mc) in
      let '(new_rsp, s) := scheduler_tick (m_sched mc) regs in
      pret (new_rsp, Machine (m_mem mc) t s (m_kbd mc))
    else if int_no =? 33 then
      let* k := keyboard_handler dev (m_kbd mc) in
      pret (0, Machine (m_mem mc) (m_timer mc) (m_sched mc) k)
    else pret (0, mc) in
  (if 40 <=? int_no then outb 0xA0 0x20 else pret tt) ;;
  outb 0x20 0x20 ;;
  pret (new_rsp, mc))%prog.

(** A device interrupt taken in processor state [c]: the stub, [irq_common], the
    handler, [isr_return]; the result is the processor state it resumes. *)
Definition interrupt (vector : Z) (c : cpu) (mc : machine) : prog trace (cpu * machine) :=
  let '(frame, m) := irq_entry 0 vector c (m_mem mc) in (
  let* (new_rsp, mc) := irq_handler frame (with_mem m mc) in
  pret (irq_exit (m_mem mc) frame new_rsp, mc))%prog.
End Handlers.

(** ** Exceptions *)

Section Report.
Context (dev : trace -> Z -> Z) (n : nat) (Hlive : uart_live dev n).

Lemma says_hex {A} stack v (k : prog trace A) a out ctl :
  length stack = 19%nat -> 0 <= v -> says k a out ctl ->
  says (serial_put_hex dev n stack v ;; k)%prog a (hex_str v ++ out) ctl.
Proof using Hlive.
  intros Hs Hv Hk. apply (says_bind _ _ tt _ _ _ [] _); [by apply says_put_hex|done].
Qed.

Lemma says_out {A} (p : prog trace A) a out out' ctl : says p a out' ctl -> out' = out -> says p a out ctl.
Proof using. by intros H <-. Qed.

Lemma names_plain i : 0 <= i < 22 ->
  crlf (c_chars (nth (Z.to_nat i) exception_names [])) = nth (Z.to_nat i) exception_names [].
Proof using. revert i. below. Qed.

(** C36 Every exception is reported: name, error code and instruction pointer
    of the interrupted code, read back from the frame the stub pushed; a vector
    without a name is reported by number. The processor then halts for good. *)
Theorem isr_handler_reports hex1 hex2 dec err vector c m tr :
  length hex1 = 19%nat -> length hex2 = 19%nat -> length dec = 21%nat ->
  cpu_ok c -> 192 <= c_rsp c -> 0 <= err < 2 ^ 64 -> 0 <= vector < 2 ^ 64 ->
  exists frame m1 l, irq_entry err vector c m = (frame, m1) /\
    isr_handler dev n hex1 hex2 dec frame m1 tr = Some (Halted, l ++ tr) /\
    polite l /\ controls l = [Cli; Hlt] /\
    sent 0x3F8 l =
      if vector <? 22 then
        crnl ++ chars "=== KERNEL PANIC ===" ++ crnl ++ chars "Exception: " ++
        nth (Z.to_nat vector) exception_names [] ++
        crnl ++ chars "Error: " ++ hex_str err ++
        crnl ++ chars "RIP: " ++ hex_str (c_rip c) ++ crnl
      else crnl ++ chars "Unknown interrupt: " ++ dec_str vector ++ crnl.
Proof using Hlive.
  intros H1 H2 H3 Hc Hr He Hv.
  destruct (irq_entry_frame err vector c m Hc Hr He Hv) as (m1 & E & Hw & _).
  exists (frame_base c), m1. destruct (frame_fields _ _ _ _ _ Hw) as (Hvec & Herr & Hrip).
  assert (Hrb : 0 <= c_rip c) by (rewrite <-Hrip; apply ld64_bound).
  clear Hw.
  set (out := if vector <? 22 then _ else _).
  enough (H : says (isr_handler dev n hex1 hex2 dec (frame_base c) m1) Halted out [Cli; Hlt]).
  { destruct (H tr) as (l & ? & ? & ? & ?). by exists l. }
  unfold isr_handler, off_int_no, off_error_code, off_rip. rewrite Hvec, Herr, Hrip, <-(app_nil_r out).
  apply (says_bind _ _ tt _ _ [] [] [Cli; Hlt]); [|apply says_halt].
  unfold out. destruct (Z.ltb_spec vector 22) as [Hlt|Hge].
  - eapply says_out.
    { refine (says_seq dev n Hlive _ _ _ _ _ _). refine (says_seq dev n Hlive _ _ _ _ _ _).
      refine (says_seq dev n Hlive _ _ _ _ _ _). refine (says_hex _ _ _ _ _ _ H1 _ _); [lia|].
      refine (says_seq dev n Hlive _ _ _ _ _ _). refine (says_hex _ _ _ _ _ _ H2 Hrb _).
      apply (says_puts dev n Hlive). }
    rewrite (names_plain vector ltac:(lia)). reflexivity.
  - eapply says_out.
    { refine (says_seq dev n Hlive _ _ _ (_ ++ _) [] _).
      apply (says_bind _ _ tt _ _ _ [] []); [by apply says_put_dec|]. apply (says_puts dev n Hlive). }
    reflexivity.
Qed.
End Report.

(** ** Device interrupts *)

(** What each vector does to the machine; [code] is the byte the keyboard
    controller answers. *)
Definition irq_effect (vector code regs : Z) (mc : machine) : Z * machine :=
  if vector =? 32 then
    ((scheduler_tick (m_sched mc) regs).1,
     Machine (m_mem mc) (timer_handler (m_timer mc)) (scheduler_tick (m_sched mc) regs).2 (m_kbd mc))
  else if vector =? 33 then (0, Machine (m_mem mc) (m_timer mc) (m_sched mc) (scan code (m_kbd mc)))
  else (0, mc).

Lemma irq_handler_run dev regs mc tr :
  let vector := ld64 (m_mem mc) (regs + off_int_no) in
  let code := u8 (dev tr 0x60) in
  irq_handler dev regs mc tr =
    Some (irq_effect vector code regs mc,
      Out8 0x20 0x20 :: (if 40 <=? vector then [Out8 0xA0 0x20] else []) ++
      (if vector =? 33 then [In8 0x60 code] else []) ++ tr).
Proof.
  intros vector code. unfold irq_handler, irq_effect. fold vector.
  destruct (Z.eqb_spec vector 32) as [E|E].
  { rewrite E. by destruct (scheduler_tick (m_sched mc) regs). }
  destruct (Z.eqb_spec vector 33) as [->|E2]; [reflexivity|].
  by destruct (40 <=? vector).
Qed.

Lemma irq_effect_mem vector code regs mc : m_mem (irq_effect vector code regs mc).2 = m_mem mc.
Proof. unfold irq_effect. by repeat case_match. Qed.

(** One interrupt, computed. *)
Lemma interrupt_eq dev vector c mc tr :
  cpu_ok c -> 192 <= c_rsp c -> 0 <= vector < 2 ^ 64 ->
  let code := u8 (dev tr 0x60) in
  exists m1, irq_entry 0 vector c (m_mem mc) = (frame_base c, m1) /\
    words_at m1 (frame_base c) (frame_words 0 vector c) /\
    (forall a k, a + k <= frame_base c \/ c_rsp c <= a -> agree (m_mem mc) m1 a k) /\
    let e := irq_effect vector code (frame_base c) (with_mem m1 mc) in
    m_mem e.2 = m1 /\
    interrupt dev vector c mc tr = Some ((irq_exit m1 (frame_base c) e.1, e.2),
      Out8 0x20 0x20 :: (if 40 <=? vector then [Out8 0xA0 0x20] else []) ++
      (if vector =? 33 then [In8 0x60 code] else []) ++ tr).
Proof.
  intros Hc Hr Hv code.
  destruct (irq_entry_frame 0 vector c (m_mem mc) Hc Hr ltac:(lia) Hv) as (m1 & E & Hw & Ha).
  exists m1. split; [exact E|]. split; [exact Hw|]. split; [exact Ha|].
  pose proof (irq_handler_run dev (frame_base c) (with_mem m1 mc) tr) as Er. cbv zeta in Er.
  assert (Hvec : ld64 (m_mem (with_mem m1 mc)) (frame_base c + off_int_no) = vector)
    by (apply (frame_vector m1 _ 0 vector c Hw)).
  rewrite Hvec in Er. fold code in Er.
  pose proof (irq_effect_mem vector code (frame_base c) (with_mem m1 mc)) as Hm.
  cbv zeta. set (e := irq_effect vector code (frame_base c) (with_mem m1 mc)) in *. clearbody e.
  unfold interrupt. rewrite E, (pbind_step _ _ _ _ _ Er). split; [exact Hm|].
  destruct e as [r mc1]. cbn [fst snd] in *. rewrite Hm. reflexivity.
Qed.

(** C19 One device interrupt, whole: a vector other than the timer's resumes the
    interrupted code with every register intact and no task switch; the timer
    resumes the saved frame of the task the scheduler picks, or the interrupted
    code itself; the controllers get their end-of-interrupt commands, the slave
    exactly for its own vectors; memory above the interrupted stack pointer is
    untouched. *)
Theorem interrupt_effect dev vector c mc tr :
  cpu_ok c -> 192 <= c_rsp c -> 0 <= vector < 2 ^ 64 ->
  let code := u8 (dev tr 0x60) in
  exists frame m1 c' tr', irq_entry 0 vector c (m_mem mc) = (frame, m1) /\
    let e := irq_effect vector code frame (with_mem m1 mc) in
    interrupt dev vector c mc tr = Some ((c', e.2), tr') /\
    (e.1 = 0 -> c' = c) /\ (e.1 <> 0 -> vector = 32 /\ c' = isr_return m1 e.1) /\
    (forall a k, c_rsp c <= a -> agree (m_mem mc) (m_mem e.2) a k) /\
    sent 0x20 tr' = sent 0x20 tr ++ [0x20] /\
    sent 0xA0 tr' = sent 0xA0 tr ++ (if 40 <=? vector then [0x20] else []).
Proof.
  intros Hc Hr Hv code. pose proof (frame_fits c Hc Hr) as Hf.
  destruct (interrupt_eq dev vector c mc tr Hc Hr Hv) as (m1 & E & Hw & Ha & Hm & Ei).
  fold code in Hm, Ei. exists (frame_base c), m1. cbv zeta.
  set (e := irq_effect vector code (frame_base c) (with_mem m1 mc)) in *.
  eexists _, _. split; [exact E|]. split; [exact Ei|]. rewrite Hm. split; [|split; [|split; [|split]]].
  - intros ->. change (irq_exit m1 (frame_base c) 0) with (isr_return m1 (frame_base c)).
    apply (isr_return_frame m1 _ 0 vector); [lia|lia|done].
  - intros Hne. split.
    + unfold e, irq_effect in Hne. destruct (Z.eqb_spec vector 32); [done|].
      by destruct (vector =? 33).
    + unfold irq_exit. by rewrite (proj2 (truthy_true _)).
  - intros a k Ha'. apply Ha. by right.
  - rewrite sent_out_eq. f_equal. rewrite !sent_app. by repeat case_match; rewrite ?app_nil_r.
  - rewrite sent_out_ne by done. rewrite !sent_app.
    repeat case_match; rewrite ?app_nil_r; cbn; rewrite ?app_nil_r; done.
Qed.

(** ** Preemption, end to end *)

(** Where an interrupted task's frame and the next interrupt's frame do not meet. *)
Definition stack_apart (base : Z) (c : cpu) : Prop := base + 176 <= c_rsp c - 192 \/ c_rsp c <= base.

Section Preempt.
Context (dev : trace -> Z -> Z).
(** The suspended task and where its frame is. *)
Context (i base : Z).

(** While the task is suspended: other code runs and leaves its frame alone,
    and interrupts of any vector arrive on other stacks. *)
Inductive meanwhile : machine -> machine -> Prop :=
  | mw_run mc m :
      agree (m_mem mc) m base 176 -> meanwhile mc (with_mem m mc)
  | mw_irq mc mc' vector c c' tr tr' :
      cpu_ok c -> 192 <= c_rsp c -> 0 <= vector < 2 ^ 64 -> stack_apart base c ->
      interrupt dev vector c mc tr = Some ((c', mc'), tr') ->
      current_task (m_sched mc') <> i ->
      meanwhile mc mc'.

(** The task [i] is suspended in processor state [c]. *)
Record suspended (c : cpu) (mc : machine) : Prop := {
  su_wf : sched_wf (m_sched mc);
  su_other : current_task (m_sched mc) <> i;
  su_rsp : t_rsp (tget (m_sched mc) i) = base;
  su_frame : words_at (m_mem mc) base (frame_words 0 32 c);
}.

(** What [interrupt] is, without the registers it resumes. *)
Lemma interrupt_run vector c mc tr c' mc' tr' :
  cpu_ok c -> 192 <= c_rsp c -> 0 <= vector < 2 ^ 64 ->
  interrupt dev vector c mc tr = Some ((c', mc'), tr') ->
  exists m1 code, irq_entry 0 vector c (m_mem mc) = (frame_base c, m1) /\
    words_at m1 (frame_base c) (frame_words 0 vector c) /\
    (forall a k, a + k <= frame_base c \/ c_rsp c <= a -> agree (m_mem mc) m1 a k) /\
    m_mem mc' = m1 /\
    let e := irq_effect vector code (frame_base c) (with_mem m1 mc) in
    mc' = e.2 /\ c' = irq_exit m1 (frame_base c) e.1.
Proof using.
  intros Hc Hr Hv E.
  destruct (interrupt_eq dev vector c mc tr Hc Hr Hv) as (m1 & Ee & Hw & Ha & Hm & Ei).
  rewrite Ei in E. injection E as Ec Em _. exists m1, (u8 (dev tr 0x60)).
  split; [exact Ee|]. split; [exact Hw|]. split; [exact Ha|].
  split; [by rewrite <-Em|]. by split.
Qed.

Lemma effect_sched vector code regs mc :
  m_sched (irq_effect vector code regs mc).2 =
    if vector =? 32 then (scheduler_tick (m_sched mc) regs).2 else m_sched mc.
Proof using. unfold irq_effect. by repeat case_match. Qed.

Lemma meanwhile_suspended c mc mc' :
  0 <= i -> suspended c mc -> meanwhile mc mc' -> suspended c mc'.
Proof using.
  intros Hi [Hw Ho Hr Hf] Hm. destruct Hm as [mc m Hag|mc mc' v c2 c' tr tr' Hc2 Hr2 Hv Hap E Hcur].
  { split; try done. by eapply words_at_agree. }
  destruct (interrupt_run _ _ _ _ _ _ _ Hc2 Hr2 Hv E) as (m1 & code & _ & _ & Ha & Hm & Emc & _).
  pose proof (frame_fits c2 Hc2 Hr2) as Hfit.
  assert (Hs : m_sched mc' = if v =? 32 then (scheduler_tick (m_sched mc) (frame_base c2)).2 else m_sched mc)
    by (rewrite Emc; exact (effect_sched _ _ _ (with_mem m1 mc))).
  split; [| done | |].
  - rewrite Hs. destruct (v =? 32); [by apply tick_wf|done].
  - rewrite Hs. destruct (v =? 32); [|done].
    by rewrite (tk_rsp _ _ _ _ (tick_spec _ (frame_base c2) Hw)).
  - rewrite Hm. eapply words_at_agree; [|exact Hf]. apply Ha.
    change (8 * Z.of_nat (length (frame_words 0 32 c))) with 176. destruct Hap; lia.
Qed.

Lemma suspended_rtc c mc mc' :
  0 <= i -> suspended c mc -> rtc meanwhile mc mc' -> suspended c mc'.
Proof using.
  intros Hi Hs Hrtc. induction Hrtc as [|mc mc1 mc2 H1 _ IH]; [done|].
  apply IH. by eapply meanwhile_suspended.
Qed.
End Preempt.

(** A preempted task does not notice: if the timer interrupts task [i] in
    processor state [c] and another task goes on, then, whatever the other tasks
    compute and whatever interrupts come meanwhile, as long as nobody writes to
    the 176 bytes of the saved frame, the first tick that makes [i] current again
    resumes exactly [c]. *)
Theorem preempted_task_resumes dev c mc0 tr0 c1 mc1 tr1 mc2 c2 tr2 c3 mc3 tr3 :
  let i := current_task (m_sched mc0) in
  sched_wf (m_sched mc0) -> cpu_ok c -> 192 <= c_rsp c ->
  interrupt dev 32 c mc0 tr0 = Some ((c1, mc1), tr1) -> current_task (m_sched mc1) <> i ->
  rtc (meanwhile dev i (frame_base c)) mc1 mc2 ->
  cpu_ok c2 -> 192 <= c_rsp c2 -> stack_apart (frame_base c) c2 ->
  interrupt dev 32 c2 mc2 tr2 = Some ((c3, mc3), tr3) -> current_task (m_sched mc3) = i ->
  c3 = c.
Proof.
  intros i Hw Hc Hr E1 Hne Hrtc Hc2 Hr2 Hap E3 Hback.
  pose proof (sw_current _ Hw) as Hcur. fold i in Hcur.
  pose proof (frame_fits c Hc Hr) as Hfit. pose proof (frame_fits c2 Hc2 Hr2) as Hfit2.
  destruct (interrupt_run dev 32 _ _ _ _ _ _ Hc Hr ltac:(lia) E1) as (m1 & code & _ & Hf & _ & Hm & Emc & _).
  assert (Hs1 : m_sched mc1 = (scheduler_tick (m_sched mc0) (frame_base c)).2)
    by (rewrite Emc; exact (effect_sched _ _ _ (with_mem m1 mc0))).
  pose proof (tick_spec _ (frame_base c) Hw) as T1.
  assert (Hsus : suspended i (frame_base c) c mc1).
  { split; [rewrite Hs1; by apply tick_wf|done| |by rewrite Hm].
    rewrite Hs1. apply (tk_saved _ _ _ _ T1). }
  apply (suspended_rtc dev i _ _ _ mc2) in Hsus as [Hw2 Ho2 Hr2' Hf2]; [|lia|done].
  destruct (interrupt_run dev 32 _ _ _ _ _ _ Hc2 Hr2 ltac:(lia) E3) as (m3 & code3 & _ & _ & Ha3 & _ & Emc3 & ->).
  pose proof (tick_spec _ (frame_base c2) Hw2) as T2.
  assert (Hs3 : m_sched mc3 = (scheduler_tick (m_sched mc2) (frame_base c2)).2)
    by (rewrite Emc3; exact (effect_sched _ _ _ (with_mem m3 mc2))).
  rewrite Hs3 in Hback. destruct (tk_switch _ _ _ _ T2) as (Eret & _); [congruence|].
  unfold irq_effect. cbn [Z.eqb Pos.eqb fst m_sched with_mem]. rewrite Eret, Hback, Hr2'.
  unfold irq_exit. rewrite (proj2 (truthy_true _)) by lia.
  apply (isr_return_frame m3 _ 0 32); [lia|lia|]. eapply words_at_agree; [|exact Hf2].
  apply Ha3. change (8 * Z.of_nat (length (frame_words 0 32 c))) with 176. destruct Hap; lia.
Qed.

(** ** At concrete inputs *)

Definition demo_machine : machine := Machine ∅ (Timer 5 100 11931) demo_sched kbd_bss.

(** A second stack, apart from the one of [demo_cpu]. *)
Definition demo_cpu2 : cpu :=
  Cpu 0 0 0 0 0 0 0 0 0 0 0 0 0 0 0 0x402000 0x08 0x202 0xA000 0x10.

Lemma demo_cpu2_ok : cpu_ok demo_cpu2.
Proof. unfold cpu_ok. cbn. repeat (constructor; [lia|]). constructor. Qed.

Lemma timer_tick_run dev c mc tr :
  cpu_ok c -> 192 <= c_rsp c ->
  exists c' mc' tr', interrupt dev 32 c mc tr = Some ((c', mc'), tr') /\
    m_sched mc' = (scheduler_tick (m_sched mc) (frame_base c)).2.
Proof.
  intros Hc Hr. destruct (interrupt_eq dev 32 c mc tr Hc Hr ltac:(lia)) as (m1 & _ & _ & _ & _ & E).
  eexists _, _, _. split; [exact E|]. exact (effect_sched _ _ _ (with_mem m1 mc)).
Qed.

Lemma isr_handler_reports_witness : exists frame m1 l,
  irq_entry 2 14 demo_cpu ∅ = (frame, m1) /\
  isr_handler demo_uart 2 (repeat 0 19) (repeat 0 19) (repeat 0 21) frame m1 [] = Some (Halted, l ++ []).
Proof.
  destruct (isr_handler_reports demo_uart 2 demo_uart_live (repeat 0 19) (repeat 0 19) (repeat 0 21)
    2 14 demo_cpu ∅ [] eq_refl eq_refl eq_refl demo_cpu_ok) as (frame & m1 & l & E & H & _);
    [cbn; lia|lia|lia|].
  exists frame, m1, l. split; [exact E|exact H].
Defined.

Lemma interrupt_effect_witness : exists c' mc' tr',
  interrupt demo_uart 44 demo_cpu demo_machine [] = Some ((c', mc'), tr') /\ c' = demo_cpu /\
  sent 0xA0 tr' = [0x20].
Proof.
  destruct (interrupt_effect demo_uart 44 demo_cpu demo_machine [] demo_cpu_ok)
    as (frame & m1 & c' & tr' & _ & E & H0 & _ & _ & _ & HA); [cbn; lia|lia|].
  eexists c', _, tr'. split; [exact E|]. split; [by apply H0|exact HA].
Defined.

Lemma preempted_task_resumes_witness : exists c1 mc1 tr1 mc2 c3 mc3 tr3,
  interrupt demo_uart 32 demo_cpu demo_machine [] = Some ((c1, mc1), tr1) /\
  rtc (meanwhile demo_uart 0 (frame_base demo_cpu)) mc1 mc2 /\
  interrupt demo_uart 32 demo_cpu2 mc2 [] = Some ((c3, mc3), tr3) /\ c3 = demo_cpu.
Proof.
  assert (Hr : 192 <= c_rsp demo_cpu) by (cbn; lia). assert (Hr2 : 192 <= c_rsp demo_cpu2) by (cbn; lia).
  destruct (timer_tick_run demo_uart demo_cpu demo_machine [] demo_cpu_ok Hr) as (c1 & mc1 & tr1 & E1 & S1).
  destruct (timer_tick_run demo_uart demo_cpu2 mc1 [] demo_cpu2_ok Hr2) as (c2 & mc2 & tr2 & E2 & S2).
  destruct (timer_tick_run demo_uart demo_cpu2 mc2 [] demo_cpu2_ok Hr2) as (c3 & mc3 & tr3 & E3 & S3).
  rewrite S1 in S2. rewrite S2 in S3.
  assert (Hap : stack_apart (frame_base demo_cpu) demo_cpu2) by (vm_compute; left; discriminate).
  assert (Hm : rtc (meanwhile demo_uart 0 (frame_base demo_cpu)) mc1 mc2).
  { apply rtc_once. eapply (mw_irq _ _ _ _ _ 32); [exact demo_cpu2_ok|exact Hr2|lia|exact Hap|exact E2|].
    rewrite S2. vm_compute. discriminate. }
  exists c1, mc1, tr1, mc2, c3, mc3, tr3. split; [exact E1|]. split; [exact Hm|]. split; [exact E3|].
  refine (preempted_task_resumes demo_uart demo_cpu demo_machine [] c1 mc1 tr1 mc2 demo_cpu2 [] c3 mc3 tr3
    demo_sched_wf demo_cpu_ok Hr E1 _ Hm demo_cpu2_ok Hr2 Hap E3 _).
  - rewrite S1. vm_compute. discriminate.
  - rewrite S3. by vm_compute.
Defined.
