(* ===== verification/VirtualCpu.v ===== *)
(** What the scheduler and the interrupt path promise together: every task has a
    processor of its own. The kernel with its one processor, its table of tasks and
    the frames on their stacks refines an abstract machine that keeps one processor
    state per task and runs them in turn. *)

From stdpp Require Import relations.
From S2P Require Import Prelude Mem CString Pmm PortIO Format Serial Sched Context Timer Keyboard Kmain.

(** ** The abstract machine *)

(** The processor state of every task, and the task that runs. *)
Record vcpus := Vcpus { v_cur : Z; v_ctx : gmap Z cpu }.

(** Round robin over the 64 slots: the first task after [cur], which is [cur] itself
    when it is alone. *)
Definition next_live (ctx : gmap Z cpu) (cur j : Z) : Prop :=
  exists d, 0 < d <= 64 /\ j = (cur + d) mod 64 /\ is_Some (ctx !! j) /\
    forall e, 0 < e < d -> ctx !! ((cur + e) mod 64) = None.

(** What happens: the running task computes and gets to the state [c]; an interrupt
    arrives; the running task asks for a task that starts at [entry]. *)
Inductive act := Compute (c : cpu) | Interrupt (vector : Z) | Create (entry : Z).

(** The timer passes the turn on, other interrupts leave no trace; a new task starts
    with fresh registers and a stack of its own, if there is room. *)
Inductive vcpu_step : act -> vcpus -> vcpus -> Prop :=
  | v_compute j ctx c : vcpu_step (Compute c) (Vcpus j ctx) (Vcpus j (<[j := c]> ctx))
  | v_turn j j' ctx : next_live ctx j j' -> vcpu_step (Interrupt 32) (Vcpus j ctx) (Vcpus j' ctx)
  | v_idle vector v : vector <> 32 -> vcpu_step (Interrupt vector) v v
  | v_create entry i top j ctx :
      ctx !! i = None -> vcpu_step (Create entry) (Vcpus j ctx) (Vcpus j (<[i := fresh_cpu entry top]> ctx))
  | v_no_room entry v : vcpu_step (Create entry) v v.

(** A run, with what happens at each step. *)
Inductive steps {S} (R : act -> S -> S -> Prop) : list act -> S -> S -> Prop :=
  | steps_nil s : steps R [] s s
  | steps_cons a l s1 s2 s3 : R a s1 s2 -> steps R l s2 s3 -> steps R (a :: l) s1 s3.

Lemma next_live_fun ctx cur j j' : next_live ctx cur j -> next_live ctx cur j' -> j = j'.
Proof.
  intros (d & Hd & -> & [c Hc] & Hn) (d' & Hd' & -> & [c' Hc'] & Hn').
  destruct (Z.lt_trichotomy d d') as [Hl|[->|Hl]]; [|done|].
  - by rewrite Hn' in Hc by lia.
  - by rewrite Hn in Hc' by lia.
Qed.

(** A task that does not run keeps its processor state. *)
Lemma vcpu_step_other a v v' i c :
  vcpu_step a v v' -> i <> v_cur v -> v_ctx v !! i = Some c -> v_ctx v' !! i = Some c.
Proof.
  intros [j ctx c'|j j' ctx _|vec ? _|en k top j ctx Hk|en ?]; cbn; intros Hne Hi; try done; [by rewrite lookup_insert_ne|].
  rewrite lookup_insert_ne; [done|]. intros ->. congruence.
Qed.

(** ** The kernel *)

(** The processor, what the handlers work on, the frame allocator, and where the
    stack of each task is: the kernel does not store that of [init]. *)
Record system := System {
  z_cpu : cpu;
  z_mach : machine;
  z_pmm : pmm;
  z_stk : gmap Z (Z * Z);
}.

Abbreviation z_sched z := (m_sched (z_mach z)).
Abbreviation z_mem z := (m_mem (z_mach z)).

Definition apart (a n b k : Z) : Prop := a + n <= b \/ b + k <= a.

(** The free frames, away from every stack. *)
Definition free_apart (stk : gmap Z (Z * Z)) (pm : pmm) (m : mem) (l : list Z) : Prop :=
  pmm_rep pm m l /\
  forall p, p ∈ l -> pmm_hhdm pm + p + 4096 < 2 ^ 64 /\
    forall i r, stk !! i = Some r -> r.2 <= pmm_hhdm pm + p \/ pmm_hhdm pm + p + 4096 <= r.1.

(** The stack pointer is in the stack, with room for a frame. *)
Definition on_stack (r : Z * Z) (c : cpu) : Prop := cpu_ok c /\ r.1 + 192 <= c_rsp c <= r.2.

Section System.
Context (dev : trace -> Z -> Z).

(** The running task computes: it may do anything to its registers, to the driver
    state and to memory, except write to the stack of another task, leave its own,
    and break the free list. Interrupts arrive at any time, with any vector. A task
    creates another. *)
Inductive sys_step : act -> system -> system -> Prop :=
  | s_compute c c' mc mc' pm pm' stk r l :
      stk !! current_task (m_sched mc) = Some r -> on_stack r c' ->
      m_sched mc' = m_sched mc ->
      (forall i r', i <> current_task (m_sched mc) -> stk !! i = Some r' ->
         agree (m_mem mc) (m_mem mc') r'.1 (r'.2 - r'.1)) ->
      free_apart stk pm' (m_mem mc') l ->
      sys_step (Compute c') (System c mc pm stk) (System c' mc' pm' stk)
  | s_interrupt vector c c' mc mc' pm stk tr tr' :
      0 <= vector < 2 ^ 64 -> interrupt dev vector c mc tr = Some ((c', mc'), tr') ->
      sys_step (Interrupt vector) (System c mc pm stk) (System c' mc' pm stk)
  | s_create name entry i c mc pm stk s' pm' m' :
      0 <= entry < 2 ^ 64 -> task_create name entry (Sys (m_sched mc) pm (m_mem mc)) = (i, Sys s' pm' m') ->
      sys_step (Create entry) (System c mc pm stk)
        (System c (Machine m' (m_timer mc) s' (m_kbd mc)) pm'
           (if i <? 0 then stk else
              let top := t_kernel_stack_top (tget s' i) in <[i := (top - 4096, top)]> stk)).
End System.

(** ** The refinement *)

(** The frame that holds the registers of a waiting task, on its stack. *)
Record saved (m : mem) (r : Z * Z) (b : Z) (c : cpu) : Prop := {
  sv_lo : r.1 <= b;
  sv_hi : b + 176 <= r.2;
  sv_words : exists err vector, words_at m b (frame_words err vector c);
}.

Record stacks_ok (stk : gmap Z (Z * Z)) : Prop := {
  st_range i r : stk !! i = Some r -> 0 < r.1 /\ r.2 < 2 ^ 64;
  st_apart i j r r' : i <> j -> stk !! i = Some r -> stk !! j = Some r' -> r.2 <= r'.1 \/ r'.2 <= r.1;
}.

(** The tasks of the table: the current one and the ready ones. *)
Definition live (s : sched) (i : Z) : Prop := 0 <= i /\ (i = current_task s \/ ready s i).

Record has_vcpus (z : system) (v : vcpus) : Prop := {
  hv_wf : sched_wf (z_sched z);
  hv_running : state_of (z_sched z) (current_task (z_sched z)) = TASK_RUNNING;
  hv_names i : 0 <= i < 64 -> length (t_name (tget (z_sched z) i)) = 32%nat;
  hv_cur : v_cur v = current_task (z_sched z);
  hv_live i : is_Some (v_ctx v !! i) <-> live (z_sched z) i;
  hv_stk i : is_Some (z_stk z !! i) <-> live (z_sched z) i;
  hv_stacks : stacks_ok (z_stk z);
  hv_on i c r : v_ctx v !! i = Some c -> z_stk z !! i = Some r -> on_stack r c;
  hv_self : v_ctx v !! current_task (z_sched z) = Some (z_cpu z);
  hv_saved i c r : i <> current_task (z_sched z) -> v_ctx v !! i = Some c -> z_stk z !! i = Some r ->
    saved (z_mem z) r (t_rsp (tget (z_sched z) i)) c;
  hv_free : exists l, free_apart (z_stk z) (z_pmm z) (z_mem z) l;
}.

Lemma saved_agree m m' r b c : saved m r b c -> agree m m' r.1 (r.2 - r.1) -> saved m' r b c.
Proof.
  intros [Hl Hh (err & vec & Hw)] Ha. split; [done|done|]. exists err, vec.
  eapply words_at_agree; [|exact Hw]. change (8 * Z.of_nat (length (frame_words err vec c))) with 176.
  eapply agree_sub; [exact Ha|lia|lia].
Qed.

(** Popping the frame gives its registers, whether the handler asks for it or, with
    0, the frame is the one just saved. *)
Lemma saved_return m r b c old :
  saved m r b c -> 0 < r.1 -> r.2 < 2 ^ 64 -> irq_exit m old b = c /\ irq_exit m b 0 = c.
Proof.
  intros [Hl Hh (err & vec & Hw)] H0 Ht. unfold irq_exit. rewrite (proj2 (truthy_true b)) by lia.
  change (truthy 0) with false. cbv iota. split; (apply (isr_return_frame m b err vec); [lia|lia|done]).
Qed.

(** *** A tick *)

Lemma tick_live s r i :
  sched_wf s -> state_of s (current_task s) = TASK_RUNNING ->
  live (scheduler_tick s r).2 i <-> live s i.
Proof.
  intros Hw Hrun. pose proof (tick_spec s r Hw) as T. set (s' := (scheduler_tick s r).2) in *.
  pose proof (sw_current s Hw) as Hc. pose proof (tk_range _ _ _ _ T) as Hc'.
  unfold live, ready. rewrite (tk_count _ _ _ _ T). split; intros [Hi H]; (split; [done|]).
  - destruct (decide (i = current_task s)) as [|Hne]; [by left|right].
    destruct (decide (i = current_task s')) as [->|Hne'].
    + destruct (tk_switch _ _ _ _ T Hne) as (_ & _ & Hr). by split; [lia|].
    + destruct H as [|[Hl Hr]]; [done|]. by rewrite <-(tk_other _ _ _ _ T).
  - destruct (decide (i = current_task s')) as [|Hne']; [by left|right].
    destruct (decide (i = current_task s)) as [->|Hne].
    + destruct (tk_switch _ _ _ _ T) as (_ & Hr & _); [congruence|]. by split; [lia|].
    + destruct H as [|[Hl Hr]]; [done|]. by rewrite (tk_other _ _ _ _ T).
Qed.

Lemma tick_next s r ctx :
  sched_wf s -> (forall i, is_Some (ctx !! i) <-> live s i) ->
  next_live ctx (current_task s) (current_task (scheduler_tick s r).2).
Proof.
  intros Hw Hl. pose proof (tick_spec s r Hw) as T. set (s' := (scheduler_tick s r).2) in *.
  pose proof (sw_current s Hw) as Hc. pose proof (sw_count s Hw) as Hn. pose proof (tk_range _ _ _ _ T) as Hc'.
  assert (Hnone : forall i, i <> current_task s -> ~ ready s i -> ctx !! i = None).
  { intros i Hne Hnr. apply eq_None_not_Some. intros [_ [?|?]]%Hl; done. }
  destruct (decide (current_task s' = current_task s)) as [E|Hne].
  - destruct (tk_stay _ _ _ _ T E) as [_ Hno]. exists 64. split; [lia|]. split; [mlia|].
    split; [apply Hl; split; [lia|by left]|]. intros e He. apply Hnone; [mlia|]. apply Hno; mlia.
  - destruct (tk_switch _ _ _ _ T Hne) as (_ & _ & Hr). exists ((current_task s' - (current_task s + 1)) mod 64 + 1).
    split; [mlia|]. split; [mlia|]. split; [apply Hl; split; [lia|right; by split; [lia|]]|].
    intros e He. apply Hnone; [mlia|]. replace (current_task s + e) with (current_task s + 1 + (e - 1)) by lia.
    apply (tk_order _ _ _ _ T). lia.
Qed.

(** *** An interrupt *)

Section Simulation.
Context (dev : trace -> Z -> Z).

(** The entry of an interrupt saves the running task on its stack and touches no
    other stack and no free frame. *)
Lemma entry_saves vector c mc pm stk v tr c' mc' tr' :
  has_vcpus (System c mc pm stk) v -> 0 <= vector < 2 ^ 64 -> interrupt dev vector c mc tr = Some ((c', mc'), tr') ->
  exists r m1 code, stk !! current_task (m_sched mc) = Some r /\ on_stack r c /\ saved m1 r (frame_base c) c /\
    (forall i r', i <> current_task (m_sched mc) -> stk !! i = Some r' -> agree (m_mem mc) m1 r'.1 (r'.2 - r'.1)) /\
    (forall l, free_apart stk pm (m_mem mc) l -> free_apart stk pm m1 l) /\ m_mem mc' = m1 /\
    let e := irq_effect vector code (frame_base c) (with_mem m1 mc) in mc' = e.2 /\ c' = irq_exit m1 (frame_base c) e.1.
Proof using.
  intros H Hv E. pose proof (proj2 (hv_stk _ _ H (current_task (m_sched mc)))) as Hr.
  destruct Hr as [r Hr]; [split; [apply (sw_current _ (hv_wf _ _ H))|by left]|]. cbn in Hr.
  pose proof (hv_on _ _ H _ _ _ (hv_self _ _ H) Hr) as Hon. cbn in Hon. destruct Hon as [Hc Hsp].
  destruct (st_range _ (hv_stacks _ _ H) _ _ Hr) as [H0 Ht]. cbn in H0, Ht.
  destruct (interrupt_run dev vector c mc tr c' mc' tr' Hc ltac:(lia) Hv E) as (m1 & code & _ & Hw & Ha & Hm & He).
  pose proof (frame_fits c Hc ltac:(lia)) as Hfit.
  assert (Hoth : forall a n, apart a n r.1 (r.2 - r.1) -> agree (m_mem mc) m1 a n).
  { intros a n Hap. apply Ha. unfold apart in Hap. lia. }
  exists r, m1, code. do 2 (split; [done|]). split; [split; [lia|lia|by exists 0, vector]|]. split; [|split].
  - intros i r' Hne Hi. apply Hoth. pose proof (st_apart _ (hv_stacks _ _ H) _ _ _ _ Hne Hi Hr). unfold apart. lia.
  - intros l [Hrep Hfr]. split; [|done]. eapply pmm_rep_agree; [exact Hrep|]. intros p Hp. apply Hoth.
    destruct (Hfr p Hp) as [_ Hst]. specialize (Hst _ _ Hr). unfold apart. lia.
  - by split.
Qed.

Lemma interrupt_simulates vector c c' mc mc' pm stk tr tr' v :
  has_vcpus (System c mc pm stk) v -> 0 <= vector < 2 ^ 64 -> interrupt dev vector c mc tr = Some ((c', mc'), tr') ->
  exists v', vcpu_step (Interrupt vector) v v' /\ has_vcpus (System c' mc' pm stk) v'.
Proof using.
  intros H Hv E. destruct (entry_saves _ _ _ _ _ _ _ _ _ _ H Hv E) as (r & m1 & code & Hr & Hon & Hsv & Hoth & Hfree & Hm & Emc & Ec).
  destruct v as [j ctx]. pose proof H as [Hw Hrun Hnm Hj Hlive Hstk Hst Hons Hself Hsaved [l Hl]].
  cbn [z_cpu z_mach z_pmm z_stk v_cur v_ctx] in *. subst j. set (s := m_sched mc) in *.
  destruct (st_range _ Hst _ _ Hr) as [H0 Ht].
  pose proof (effect_sched vector code (frame_base c) (with_mem m1 mc)) as Es. rewrite <-Emc in Es. cbn [with_mem m_sched] in Es. fold s in Es.
  unfold irq_effect in Ec. destruct (Z.eqb_spec vector 32) as [->|Hne].
  - pose proof (tick_spec s (frame_base c) Hw) as T. cbn [fst with_mem m_sched] in Ec. fold s in Ec.
    set (s' := (scheduler_tick s (frame_base c)).2) in *.
    exists (Vcpus (current_task s') ctx). split; [apply v_turn, tick_next; done|].
    assert (Hsv' : forall i ci ri, ctx !! i = Some ci -> stk !! i = Some ri -> saved m1 ri (t_rsp (tget s' i)) ci).
    { intros i ci ri Hi Hri. destruct (decide (i = current_task s)) as [->|Hic].
      - rewrite (tk_saved _ _ _ _ T). by simplify_eq.
      - assert (0 <= i) by (apply Hlive; by exists ci). rewrite (tk_rsp _ _ _ _ T) by done.
        eapply saved_agree; [by eapply Hsaved|by eapply Hoth]. }
    split; cbn [z_cpu z_mach z_pmm z_stk v_cur v_ctx]; rewrite ?Es, ?Hm.
    + by apply tick_wf.
    + apply T.
    + intros i Hi. destruct (tk_rest _ _ _ _ T i ltac:(lia)) as [-> _]. by apply Hnm.
    + done.
    + intros i. unfold s'. rewrite tick_live by done. apply Hlive.
    + intros i. unfold s'. rewrite tick_live by done. apply Hstk.
    + done.
    + exact Hons.
    + destruct (decide (current_task s' = current_task s)) as [Ecur|Ecur].
      * destruct (tk_stay _ _ _ _ T Ecur) as [Eret _]. rewrite Ec, Eret, Ecur, Hself. f_equal. symmetry.
        exact (proj2 (saved_return m1 r _ _ 0 Hsv H0 Ht)).
      * destruct (tk_switch _ _ _ _ T Ecur) as (Eret & _ & _).
        assert (Hlv : live s (current_task s')).
        { apply (tick_live s (frame_base c)); [done|done|]. pose proof (tk_range _ _ _ _ T). split; [lia|by left]. }
        destruct (proj2 (Hlive _) Hlv) as [c2 Hc2]. destruct (proj2 (Hstk _) Hlv) as [r2 Hr2].
        destruct (st_range _ Hst _ _ Hr2) as [H02 Ht2]. rewrite Hc2, Ec, Eret. f_equal. symmetry.
        pose proof (tk_range _ _ _ _ T). rewrite <-(tk_rsp _ _ _ _ T) by (done || lia).
        exact (proj1 (saved_return m1 r2 _ _ _ (Hsv' _ _ _ Hc2 Hr2) H02 Ht2)).
    + intros i ci ri _ Hi Hri. by eapply Hsv'.
    + eauto.
  - exists (Vcpus (current_task s) ctx). split; [by apply v_idle|].
    assert (c' = c) as ->.
    { assert (Ec0 : c' = irq_exit m1 (frame_base c) 0) by (rewrite Ec; by destruct (vector =? 33)).
      rewrite Ec0. exact (proj2 (saved_return m1 r _ _ 0 Hsv H0 Ht)). }
    split; cbn [z_cpu z_mach z_pmm z_stk v_cur v_ctx]; rewrite ?Es, ?Hm; eauto.
    intros i ci ri Hic Hi Hri. eapply saved_agree; [by eapply Hsaved|by eapply Hoth].
Qed.

(** *** Computing *)

Lemma compute_simulates c c' mc mc' pm pm' stk r l v :
  has_vcpus (System c mc pm stk) v ->
  stk !! current_task (m_sched mc) = Some r -> on_stack r c' -> m_sched mc' = m_sched mc ->
  (forall i r', i <> current_task (m_sched mc) -> stk !! i = Some r' ->
     agree (m_mem mc) (m_mem mc') r'.1 (r'.2 - r'.1)) ->
  free_apart stk pm' (m_mem mc') l ->
  exists v', vcpu_step (Compute c') v v' /\ has_vcpus (System c' mc' pm' stk) v'.
Proof using.
  intros [Hw Hrun Hnm Hj Hlive Hstk Hst Hons Hself Hsaved _] Hr Hon Es Hag Hl.
  destruct v as [j ctx]. cbn [z_cpu z_mach z_pmm z_stk v_cur v_ctx] in *. subst j.
  eexists. split; [apply v_compute|]. split; cbn [z_cpu z_mach z_pmm z_stk v_cur v_ctx]; rewrite ?Es; eauto.
  - intros i. rewrite lookup_insert_is_Some, Hlive. destruct (decide (current_task (m_sched mc) = i)) as [<-|]; [|tauto].
    split; [|tauto]. intros _. apply Hlive. by exists c.
  - intros i ci ri [[<- <-]|[_ Hi]]%lookup_insert_Some Hri; [by simplify_eq|by eapply Hons].
  - apply lookup_insert_eq.
  - intros i ci ri Hic Hi Hri. rewrite lookup_insert_ne in Hi by done.
    eapply saved_agree; [by eapply Hsaved|by eapply Hag].
Qed.

(** *** Creating a task *)

Lemma fresh_ok entry lo :
  0 <= entry < 2 ^ 64 -> 0 <= lo -> lo + 4096 < 2 ^ 64 -> on_stack (lo, lo + 4096) (fresh_cpu entry (lo + 4096)).
Proof using.
  intros He Hl Ht. split; [|cbn; lia]. unfold cpu_ok. cbn. repeat (constructor; [lia|]). constructor.
Qed.

Lemma create_top name entry s pm m p l idx s' pm' m' :
  pmm_rep pm m (p :: l) -> pmm_hhdm pm + p + 4096 < 2 ^ 64 -> length (tasks s) = 64%nat ->
  task_create name entry (Sys s pm m) = (idx, Sys s' pm' m') -> 0 <= idx ->
  t_kernel_stack_top (tget s' idx) = pmm_hhdm pm + p + 4096.
Proof using.
  intros Hr Htop Hl E Hi. destruct (find_free_cases s) as [[En _]|(Hidx & _)].
  { unfold task_create in E. cbn [y_sched] in E. rewrite En in E. change (-1 <? 0) with true in E. injection E as <- _. lia. }
  destruct (task_create_eq name entry s pm m p l Hr Htop ltac:(lia)) as (pm2 & s2 & E2 & _ & _ & _ & _ & _ & Ht & _).
  rewrite E in E2. pose proof (f_equal fst E2) as Ei. pose proof (f_equal (fun x => y_sched x.2) E2) as Es.
  cbn [fst snd y_sched] in Ei, Es. by rewrite Ei, Es, Ht.
Qed.

(** The tasks after a creation are those before and the new one. *)
Lemma create_live s s' idx :
  sched_wf s -> sched_wf s' -> current_task s' = current_task s -> 0 <= idx -> ready s' idx ->
  (forall i, 0 <= i -> i <> idx -> tget s' i = tget s i) ->
  forall i, live s' i <-> i = idx \/ live s i.
Proof using.
  intros [_ _ Hn _ _ Hf] [_ _ Hn' _ _ Hf'] Hc Hidx Hrd Hoth i. unfold live. rewrite Hc.
  assert (Hs : 0 <= i -> i <> idx -> state_of s' i = state_of s i) by (intros; unfold state_of; by rewrite Hoth).
  split.
  - intros [Hi [|[Hl Hr]]]; [tauto|]. destruct (decide (i = idx)) as [|Hne]; [by left|right].
    split; [done|right]. rewrite Hs in Hr by done. split; [|done].
    destruct (Z.lt_ge_cases i (task_count s)); [done|]. rewrite Hf in Hr by lia. done.
  - intros [->|[Hi [|[Hl Hr]]]]; [by split; [|right]|tauto|]. split; [done|]. destruct (decide (i = idx)) as [->|Hne]; [by right|].
    right. rewrite <-Hs in Hr by done. split; [|done].
    destruct (Z.lt_ge_cases i (task_count s')); [done|]. rewrite Hf' in Hr by lia. done.
Qed.

(** The new stack is apart from the others, and so is what remains free. *)
Lemma create_stacks stk pm m p l i :
  stacks_ok stk -> free_apart stk pm m (p :: l) -> stk !! i = None ->
  let lo := pmm_hhdm pm + p in
  stacks_ok (<[i := (lo, lo + 4096)]> stk) /\
  forall pm' m', pmm_rep pm' m' l -> pmm_hhdm pm' = pmm_hhdm pm -> free_apart (<[i := (lo, lo + 4096)]> stk) pm' m' l.
Proof using.
  intros [Hrg Hap] [Hrep Hfr] Hi lo. destruct (Hfr p ltac:(by left)) as [Htop Hpst].
  pose proof (rep_hhdm _ _ _ Hrep) as Hh. pose proof (rep_frames _ _ _ Hrep) as Hff.
  pose proof (Forall_inv Hff) as (Hp0 & Hpa & _). split.
  - split.
    + intros k r [[<- <-]|[_ Hk]]%lookup_insert_Some; [cbn; lia|by eapply Hrg].
    + intros k k' r r' Hne [[<- <-]|[Hk1 Hk]]%lookup_insert_Some [[<- <-]|[Hk1' Hk']]%lookup_insert_Some; [done| | |exact (Hap _ _ _ _ Hne Hk Hk')];
        cbn [fst snd]; [destruct (Hpst _ _ Hk')|destruct (Hpst _ _ Hk)]; lia.
  - intros pm' m' Hrep' Hh'. split; [done|]. rewrite Hh'. intros q Hq.
    destruct (Hfr q ltac:(by right)) as [Hqt Hqst]. split; [done|].
    intros k r [[<- <-]|[_ Hk]]%lookup_insert_Some; [|by eapply Hqst]. cbn [fst snd].
    rewrite Forall_forall in Hff. destruct (Hff q ltac:(by right)) as (_ & Hqa & _).
    pose proof (rep_nodup _ _ _ Hrep) as [Hnin _]%NoDup_cons.
    destruct (frames_apart p q Hpa Hqa); [congruence|lia|lia].
Qed.

Lemma create_succeeds name entry c mc pm stk v p l :
  has_vcpus (System c mc pm stk) v -> free_apart stk pm (m_mem mc) (p :: l) -> 0 <= entry < 2 ^ 64 ->
  (exists k, 0 <= k < 64 /\ state_of (m_sched mc) k = TASK_TERMINATED) ->
  exists i s' pm' m', task_create name entry (Sys (m_sched mc) pm (m_mem mc)) = (i, Sys s' pm' m') /\
    0 <= i /\ v_ctx v !! i = None /\
    let top := pmm_hhdm pm + p + 4096 in
    t_kernel_stack_top (tget s' i) = top /\
    has_vcpus (System c (Machine m' (m_timer mc) s' (m_kbd mc)) pm' (<[i := (top - 4096, top)]> stk))
      (Vcpus (v_cur v) (<[i := fresh_cpu entry top]> (v_ctx v))).
Proof using.
  intros H Hfa He Hroom. pose proof Hfa as [Hrep Hfr]. destruct (Hfr p ltac:(by left)) as [Htop Hpst].
  pose proof H as [Hw Hrun Hnm Hj Hlive Hstk Hst Hons Hself Hsaved _].
  destruct v as [j ctx]. cbn [z_cpu z_mach z_pmm z_stk v_cur v_ctx] in *. subst j. set (s := m_sched mc) in *.
  destruct (task_create_sound name entry s pm (m_mem mc) p l Hw Hrun Hnm Hrep Htop He Hroom) as
    (i & s' & pm' & m' & E & (Hi & Hti & _) & Hw' & Hrd & Hrsp & _ & Hoth & Hrep' & Hh' & Hc' & Hlen & Hreg & Hag).
  pose proof (create_top _ _ _ _ _ _ _ _ _ _ _ Hrep Htop (sw_length _ Hw) E ltac:(lia)) as Etop.
  pose proof (create_live s s' i Hw Hw' Hc' ltac:(lia) Hrd Hoth) as Hlive'.
  assert (Hnl : ~ live s i). { intros [_ [->|[_ Hr]]]; congruence. }
  assert (Hci : ctx !! i = None) by (apply eq_None_not_Some; by rewrite Hlive).
  assert (Hsi : stk !! i = None) by (apply eq_None_not_Some; by rewrite Hstk).
  assert (Hne : current_task s <> i). { intros <-. congruence. }
  pose proof (rep_hhdm _ _ _ Hrep) as Hh. pose proof (Forall_inv (rep_frames _ _ _ Hrep)) as (Hp0 & _ & _).
  destruct (create_stacks stk pm (m_mem mc) p l i Hst Hfa Hsi) as [Hst' Hfa']. cbv zeta in Hst', Hfa'.
  exists i, s', pm', m'. split; [done|]. split; [lia|]. split; [done|]. cbv zeta. split; [done|].
  replace (pmm_hhdm pm + p + 4096 - 4096) with (pmm_hhdm pm + p) by lia. set (lo := pmm_hhdm pm + p) in *.
  split; cbn [z_cpu z_mach z_pmm z_stk v_cur v_ctx m_sched m_mem]; rewrite ?Hc'; try done.
  - unfold state_of. rewrite Hoth; [done|apply (sw_current _ Hw)|done].
  - intros k Hk. destruct (decide (k = i)) as [->|]; [done|]. rewrite Hoth by (done || lia). by apply Hnm.
  - intros k. rewrite lookup_insert_is_Some, Hlive, Hlive'. destruct (decide (i = k)) as [<-|]; naive_solver.
  - intros k. rewrite lookup_insert_is_Some, Hstk, Hlive'. destruct (decide (i = k)) as [<-|]; naive_solver.
  - intros k ck rk [[<- <-]|[Hk1 Hk]]%lookup_insert_Some [[Hk' <-]|[Hk1' Hk']]%lookup_insert_Some; try congruence.
    + apply fresh_ok; lia.
    + by eapply Hons.
  - by rewrite lookup_insert_ne.
  - intros k ck rk Hkc [[<- <-]|[Hk1 Hk]]%lookup_insert_Some [[Hk' <-]|[Hk1' Hk']]%lookup_insert_Some; try congruence.
    + rewrite Hrsp. split; cbn; [lia|lia|]. exists 0, 0. apply fresh_frame. exact Hreg.
    + assert (0 <= k) by (apply Hlive; by exists ck). rewrite Hoth by congruence.
      eapply saved_agree; [by eapply Hsaved|]. apply Hag. destruct (Hpst _ _ Hk'); unfold lo; lia.
  - exists l. by apply Hfa'.
Qed.

Lemma create_simulates name entry i c mc pm stk s' pm' m' v :
  has_vcpus (System c mc pm stk) v ->
  0 <= entry < 2 ^ 64 -> task_create name entry (Sys (m_sched mc) pm (m_mem mc)) = (i, Sys s' pm' m') ->
  exists v', vcpu_step (Create entry) v v' /\
    has_vcpus (System c (Machine m' (m_timer mc) s' (m_kbd mc)) pm'
      (if i <? 0 then stk else let top := t_kernel_stack_top (tget s' i) in <[i := (top - 4096, top)]> stk)) v'.
Proof using.
  intros H He E. pose proof H as [Hw Hrun Hnm Hj Hlive Hstk Hst Hons Hself Hsaved [l [Hrep Hfr]]].
  destruct v as [j ctx]. cbn [z_cpu z_mach z_pmm z_stk v_cur v_ctx] in *. subst j. set (s := m_sched mc) in *.
  assert (Hfail : (forall k, 0 <= k < 64 -> state_of s k <> TASK_TERMINATED) \/ l = [] -> exists v',
    vcpu_step (Create entry) (Vcpus (current_task s) ctx) v' /\ has_vcpus (System c (Machine m' (m_timer mc) s' (m_kbd mc)) pm'
      (if i <? 0 then stk else let top := t_kernel_stack_top (tget s' i) in <[i := (top - 4096, top)]> stk)) v').
  { intros Hwhy. rewrite (task_create_fails name entry s pm _ l Hrep Hwhy) in E. injection E as <- <- <- <-.
    eexists. split; [apply v_no_room|]. by destruct mc. }
  destruct (find_free_cases s) as [[_ Hno]|(Hidx & Hfree & _)]; [by apply Hfail; left|].
  destruct l as [|p l]; [by apply Hfail; right|]. clear Hfail.
  destruct (create_succeeds name entry c mc pm stk _ p l H (conj Hrep Hfr) He ltac:(eauto)) as
    (i2 & s2 & pm2 & m2 & E2 & Hi & Hci & Et & Hhv). cbn [v_ctx v_cur] in *. fold s in E2. rewrite E in E2. injection E2 as -> -> -> ->.
  rewrite (proj2 (Z.ltb_ge _ _)), Et by done. eexists. split; [by apply (v_create entry i2)|exact Hhv].
Qed.

Lemma step_simulates a z z' v :
  sys_step dev a z z' -> has_vcpus z v -> exists v', vcpu_step a v v' /\ has_vcpus z' v'.
Proof using.
  intros Hs H. destruct Hs; [by eapply compute_simulates|by eapply interrupt_simulates|by eapply create_simulates].
Qed.

Lemma steps_simulate l z z' v :
  steps (sys_step dev) l z z' -> has_vcpus z v -> exists v', steps vcpu_step l v v' /\ has_vcpus z' v'.
Proof using.
  intros Hs. revert v. induction Hs as [z|a l z z1 z' Ha _ IH]; intros v H; [exists v; by split; [constructor|]|].
  destruct (step_simulates a z z1 v Ha H) as (v1 & Hv1 & H1). destruct (IH v1 H1) as (v' & Hv' & H').
  exists v'. split; [by econstructor|done].
Qed.

(** Interrupts are never refused. *)
Lemma interrupt_enabled vector z v :
  has_vcpus z v -> 0 <= vector < 2 ^ 64 -> exists z', sys_step dev (Interrupt vector) z z'.
Proof using.
  intros H Hv. destruct z as [c mc pm stk]. pose proof (proj2 (hv_stk _ _ H (current_task (m_sched mc)))) as Hr.
  destruct Hr as [r Hr]; [split; [apply (sw_current _ (hv_wf _ _ H))|by left]|].
  pose proof (hv_on _ _ H _ _ _ (hv_self _ _ H) Hr) as [Hc Hsp].
  destruct (st_range _ (hv_stacks _ _ H) _ _ Hr) as [H0 _].
  destruct (interrupt_eq dev vector c mc [] Hc ltac:(cbn in *; lia) Hv) as (m1 & _ & _ & _ & _ & E).
  eexists. eapply s_interrupt; [done|exact E].
Qed.
End Simulation.

(** ** Properties *)

(** C1 Every task has a processor of its own: whatever the running task computes,
    whichever interrupts come and whichever tasks are created, each step of the
    kernel is the same step of the abstract machine, in which the timer passes the
    turn on in a circle and no other step touches the registers of a waiting task.
    The processor holds the registers of the task whose turn it is, and the next
    interrupt is always served. *)
Theorem kernel_refines_vcpus dev l z z' v :
  has_vcpus z v -> steps (sys_step dev) l z z' ->
  exists v', steps vcpu_step l v v' /\ has_vcpus z' v' /\ v_ctx v' !! v_cur v' = Some (z_cpu z') /\
    forall vector, 0 <= vector < 2 ^ 64 -> exists z2, sys_step dev (Interrupt vector) z' z2.
Proof.
  intros H Hs. destruct (steps_simulate dev l z z' v Hs H) as (v' & Hv & H'). exists v'. split; [done|]. split; [done|].
  split; [by rewrite (hv_cur _ _ H'), (hv_self _ _ H')|]. intros vector. by apply (interrupt_enabled dev vector z' v').
Qed.

(** ** A concrete run *)

(** [init] alone, on the stack of [demo_cpu], with two free frames. *)
Definition demo_system : system :=
  System demo_cpu (Machine demo_pmm.2 (Timer 5 100 11931) (scheduler_init sched_bss) kbd_bss) demo_pmm.1 {[0 := (0x8000, 0x9008)]}.

Lemma demo_alone i : live (scheduler_init sched_bss) i <-> i = 0.
Proof.
  unfold live. split; [|intros ->; split; [done|by left]]. intros [Hi [->|[Hl Hr]]]; [done|].
  change (task_count (scheduler_init sched_bss)) with 1 in Hl. lia.
Qed.

Lemma demo_has_vcpus : has_vcpus demo_system (Vcpus 0 {[0 := demo_cpu]}).
Proof.
  destruct (scheduler_init_spec sched_bss) as (W & _); [done|below|].
  split; cbn [z_cpu z_mach z_pmm z_stk v_cur v_ctx m_sched m_mem demo_system].
  - exact W.
  - reflexivity.
  - below.
  - reflexivity.
  - intros i. rewrite lookup_singleton_is_Some, demo_alone. done.
  - intros i. rewrite lookup_singleton_is_Some, demo_alone. done.
  - split.
    + intros i r [<- <-]%lookup_singleton_Some. cbn. lia.
    + intros i j r r' Hne [<- _]%lookup_singleton_Some [<- _]%lookup_singleton_Some. done.
  - intros i c r [<- <-]%lookup_singleton_Some [_ <-]%lookup_singleton_Some. split; [exact demo_cpu_ok|cbn; lia].
  - apply lookup_singleton_eq.
  - intros i c r Hne [<- <-]%lookup_singleton_Some. by destruct Hne.
  - exists [0x3000; 0x2000]. split; [exact demo_pmm_rep|]. change (pmm_hhdm demo_pmm.1) with demo_hhdm.
    intros p Hp. split; [|intros i r [<- <-]%lookup_singleton_Some; left];
      rewrite !elem_of_cons, elem_of_nil in Hp; unfold demo_hhdm; cbn; lia.
Qed.

Lemma kernel_refines_vcpus_witness : exists z' v',
  steps (sys_step demo_uart) [Create 0x1234; Interrupt 32] demo_system z' /\
  steps vcpu_step [Create 0x1234; Interrupt 32] (Vcpus 0 {[0 := demo_cpu]}) v' /\ has_vcpus z' v'.
Proof.
  destruct (task_create [65; 0] 0x1234 (Sys (scheduler_init sched_bss) demo_pmm.1 demo_pmm.2)) as [i [s' pm' m']] eqn:E.
  pose proof (s_create demo_uart [65; 0] 0x1234 i demo_cpu (z_mach demo_system) demo_pmm.1 (z_stk demo_system) s' pm' m'
    ltac:(lia) E) as S1.
  destruct (step_simulates _ _ _ _ _ S1 demo_has_vcpus) as (v1 & _ & H1).
  destruct (interrupt_enabled demo_uart 32 _ _ H1 ltac:(lia)) as [z' S2].
  pose proof (steps_cons _ _ _ _ _ _ S1 (steps_cons _ _ _ _ _ _ S2 (steps_nil _ _))) as Hs.
  destruct (kernel_refines_vcpus demo_uart _ _ _ _ demo_has_vcpus Hs) as (v' & Hv' & H' & _).
  exists z', v'. split; [exact Hs|]. split; [exact Hv'|exact H'].
Defined.
