(* ===== verification/Boot.v ===== *)
(** The boot sequence [kmain] of [src/kernel/kmain.c]: every initialiser, in the
    order of the code, on one state of the kernel; the two test threads; and the
    report of the main loop. The theorem puts the components together: from what
    the boot loader hands over, the sequence ends with page tables, frame
    allocator, heap and scheduler all in their invariants. *)

From Stdlib Require Import String.
From S2P Require Import Prelude Mem CString Pmm Vmm PortIO Format Serial Panic Heap HeapInit Sched.
From S2P Require Import Context Timer Keyboard Gdt Idt Fb Apic ApicTables.

(** ** The responses of the boot loader ([src/kernel/include/limine.h]) *)

Record limine_hhdm_response := LimineHhdmResponse { hhdm_offset : Z }.

(** The fields of [struct limine_framebuffer] the kernel reads. *)
Record limine_framebuffer := LimineFramebuffer {
  lf_address : Z;
  lf_width : Z;
  lf_height : Z;
  lf_pitch : Z;
  lf_bpp : Z;
}.

Record limine_framebuffer_response := LimineFramebufferResponse {
  framebuffer_count : Z;
  framebuffers : list limine_framebuffer;
}.

Record limine_memmap_response := LimineMemmapResponse { memmap_entries : list memmap_entry }.

(** The three requests; [None]: a null response. *)
Record boot_info := BootInfo {
  hhdm_request : option limine_hhdm_response;
  memmap_request : option limine_memmap_response;
  fb_request : option limine_framebuffer_response;
}.

(** ** The state of the kernel *)

Record kernel := Kernel {
  k_vmm : vmm;
  k_pool_idx : Z;
  k_flushes : nat;
  k_mmio : list (Z * Z);
  k_gdt : list gdt_entry;
  k_idt : list idt_entry;
  k_timer : timer;
  k_kbd : kbd;
  k_fb : fb;
  k_heap_head : Z;
  k_sched : sched;
}.

(** apic.c's part of it, and back. *)
Definition apic_part (k : kernel) : apic :=
  Apic (v_mem (k_vmm k)) (v_cr3 (k_vmm k)) (k_pool_idx k) (k_flushes k) (k_mmio k).

(** A computation without port accesses; [None] is a fault. *)
Definition pure {A} (o : option A) : prog trace A := fun tr => option_map (fun a => (a, tr)) o.

Section Kmain.
(** The hardware; the fuel of the serial polls and of the other loops; the stack
    buffers of [serial_put_dec]. *)
Context (dev : trace -> Z -> Z) (n kfuel pfuel ffuel : nat) (dec : list Z).

(** Addresses the linker chooses, and IA32_APIC_BASE. *)
Context (gdt_addr idt_addr pt_pool kernel_start kernel_end thread_a thread_b : Z).
Context (isr irq : Z -> Z) (eax edx : Z).

Definition say (s : list Z) : prog trace unit := serial_puts dev n s.
Definition ok_nl : list Z := chars "OK" ++ nl.

(** GDT, IDT, APIC, PIT and keyboard; from [idt_init] on interrupts are enabled. *)
Definition boot_cpu (hhdm : Z) (k : kernel) : prog trace kernel := (
  say (chars "[BOOT] Initializing GDT... ") ;;
  let* g := gdt_init gdt_addr (k_gdt k) in
  say ok_nl ;;
  say (chars "[BOOT] Initializing IDT & PIC... ") ;;
  let* i := idt_init isr irq idt_addr (k_idt k) in
  say ok_nl ;;
  say (chars "[BOOT] Initializing APIC (LINT0)... ") ;;
  let* a := apic_init pt_pool eax edx dev n hhdm (apic_part k) in
  say ok_nl ;;
  say (chars "[BOOT] Initializing PIT (100 Hz)... ") ;;
  let* t := timer_init 100 (k_timer k) in
  say ok_nl ;;
  say (chars "[BOOT] Initializing PS/2 keyboard... ") ;;
  let* kb := keyboard_init dev kfuel (k_kbd k) in
  say ok_nl ;;
  pret (Kernel (set_mem (k_vmm k) (a_mem a)) (pt_pool_idx a) (a_flushes a) (a_mmio a) g i t kb
          (k_fb k) (k_heap_head k) (k_sched k)))%prog.

(** The console, when there is one. *)
Definition rule : list Z := repeat 61 64 ++ nl.
Definition banner (f : fb) : fb :=
  let f := fb_clear 0x000080 f in
  let f := fb_puts_color rule 0xFFFFFF 0x000080 f in
  let f := fb_puts_color (chars "                          SUIKA OS (64-bit)                    " ++ nl) 0xFFFFFF 0x000080 f in
  let f := fb_puts_color (chars "                    Developer-Friendly OS                       " ++ nl) 0xFFFFFF 0x000080 f in
  fb_puts_color rule 0xFFFFFF 0x000080 f.

Definition boot_fb (hhdm : Z) (r : option limine_framebuffer_response) (f : fb) (s : vmm) : prog trace (fb * vmm) :=
  match r with
  | Some (LimineFramebufferResponse count fbs) =>
      if truthy count then
        match fbs with
        | [] => pdiverge
        | l :: _ => (
            let* (f, s) := pure (fb_init ffuel hhdm (u64 (lf_address l - hhdm)) (lf_width l) (lf_height l)
                                   (lf_pitch l) (lf_bpp l) f s) in
            say ok_nl ;; pret (banner f, s))%prog
        end
      else (say (chars "no framebuffer" ++ nl) ;; pret (f, s))%prog
  | None => (say (chars "no framebuffer" ++ nl) ;; pret (f, s))%prog
  end.

(** PMM, VMM, framebuffer, heap and scheduler. *)
Definition boot_memory (hhdm : Z) (bi : boot_info) (k : kernel) : prog trace kernel := (
  say (chars "[BOOT] Initializing PMM... ") ;;
  let* (pm, m) := pure (pmm_init kernel_start kernel_end pfuel hhdm (option_map memmap_entries (memmap_request bi))
                          (v_pmm (k_vmm k)) (v_mem (k_vmm k))) in
  let s := set_mem (set_pmm (k_vmm k) pm) m in
  say ok_nl ;;
  say (chars "  Free frames: ") ;; serial_put_dec dev n dec (pmm_get_free_count (v_pmm s)) ;; say nl ;;
  say (chars "[BOOT] Initializing VMM... ") ;;
  let s := vmm_init s in
  say ok_nl ;;
  say (chars "[BOOT] Initializing framebuffer... ") ;;
  let* (f, s) := boot_fb hhdm (fb_request bi) (k_fb k) s in
  say (chars "[BOOT] Initializing heap... ") ;;
  let* (h, s) := pure (heap_init hhdm (k_heap_head k) s) in
  say ok_nl ;;
  say (chars "[BOOT] Initializing scheduler... ") ;;
  let sc := scheduler_init (k_sched k) in
  say ok_nl ;;
  say (chars "[BOOT] All subsystems initialized" ++ nl ++ nl) ;;
  pret (Kernel s (k_pool_idx k) (k_flushes k) (k_mmio k) (k_gdt k) (k_idt k) (k_timer k) (k_kbd k) f h sc))%prog.

(** Timer interrupts that find the main task at the given frames. *)
Definition interrupted (frames : list Z) (t : timer) (s : sched) : timer * sched :=
  (Nat.iter (length frames) timer_handler t, ticks s frames).

(** A sleep of the main task: every interrupt finds the same frame, since the loop of
    [timer_sleep] runs at one stack depth. *)
Definition boot_sleep (ms : Z) (wakes : list turn) (frame : Z) (t : timer) (s : sched) : prog trace (timer * sched) := (
  let* t' := timer_sleep ms wakes t in
  pret (t', ticks s (repeat frame (Z.to_nat (timer_ticks t' - timer_ticks t)))))%prog.

(** [early]: the frames of the interrupts that arrive between [timer_init] and the
    first sleep (one that comes before [scheduler_init] only counts a tick,
    [current_task] being -1). *)
Definition boot_threads (early : list Z) (wakes : list turn) (frame : Z) (k : kernel) : prog trace kernel := (
  say (chars "[TEST] Waiting 1 second... ") ;;
  let (t, sc) := interrupted early (k_timer k) (k_sched k) in
  let* (t, sc) := boot_sleep 1000 wakes frame t sc in
  say (chars "done" ++ nl) ;;
  say (chars "[KERNEL] Creating threads..." ++ nl) ;;
  let y := Sys sc (v_pmm (k_vmm k)) (v_mem (k_vmm k)) in
  let '(_, y) := task_create (chars "thread-a") thread_a y in
  let '(_, y) := task_create (chars "thread-b") thread_b y in
  say (chars "[KERNEL] Threads created, running" ++ nl) ;;
  pret (Kernel (set_mem (set_pmm (k_vmm k) (y_pmm y)) (y_mem y)) (k_pool_idx k) (k_flushes k) (k_mmio k)
          (k_gdt k) (k_idt k) t (k_kbd k) (k_fb k) (k_heap_head k) (y_sched y)))%prog.

(** [kmain] up to its loop; the null response of the first request faults. *)
Definition kmain (bi : boot_info) (early : list Z) (wakes : list turn) (frame : Z) (k : kernel) : prog trace kernel := (
  serial_init ;;
  say (nl ++ chars "=== Suika OS (64-bit) booting via Limine ===" ++ nl) ;;
  let* r := pure (hhdm_request bi) in
  let* k := boot_cpu (hhdm_offset r) k in
  let* k := boot_memory (hhdm_offset r) bi k in
  boot_threads early wakes frame k)%prog.

(** The loops of [thread_a] and [thread_b] after [j] turns, on their counter. *)
Definition thread_loop (j : nat) (count : Z) : Z := Nat.iter j (fun c => u64 (c + 1)) count.

(** One turn of the loop after that; [a], [b]: the counters when they are read,
    [dec1], [dec2]: the stack buffers. The other tasks run while this one sleeps. *)
Definition kmain_report (wakes : list turn) (a b : Z) (dec1 dec2 : list Z) (t : timer) : prog trace timer := (
  let* t := timer_sleep 2000 wakes t in
  say (chars "[init] a=") ;; serial_put_dec dev n dec1 a ;;
  say (chars " b=") ;; serial_put_dec dev n dec2 b ;;
  say nl ;;
  pret t)%prog.
End Kmain.

(** ** Total correctness

    [p] ends, whatever the hardware does within its assumptions, with a result that
    satisfies [Q]. *)
Definition total {A} (p : prog trace A) (Q : A -> Prop) : Prop :=
  forall tr, exists a tr', p tr = Some (a, tr') /\ Q a.

Lemma total_ret {A} (a : A) (Q : A -> Prop) : Q a -> total (pret a) Q.
Proof. intros HQ tr. exists a, tr. split; [reflexivity|done]. Qed.

Lemma total_bind {A B} (p : prog trace A) (k : A -> prog trace B) Q R :
  total p Q -> (forall a, Q a -> total (k a) R) -> total (pbind p k) R.
Proof.
  intros Hp Hk tr. destruct (Hp tr) as (a & tr1 & E1 & Ha). destruct (Hk a Ha tr1) as (b & tr2 & E2 & Hb).
  exists b, tr2. by erewrite pbind_step by exact E1.
Qed.

Lemma total_pure {A B} (a : A) (o : option A) (k : A -> prog trace B) R :
  o = Some a -> total (k a) R -> total (pbind (pure o) k) R.
Proof. intros -> Hk. apply (total_bind _ _ (eq a)); [intros tr; exists a, tr; split; reflexivity|by intros ? <-]. Qed.

(** The keyboard controller runs empty within [fuel] reads. *)
Definition kbd_live (dev : trace -> Z -> Z) (fuel : nat) : Prop := forall tr, exists j, (j < fuel)%nat /\
  (forall i, (i < j)%nat -> output_full dev (drained dev i tr) = true) /\ output_full dev (drained dev j tr) = false.

(** What [apic_init] leaves, with or without a message. *)
Definition apic_after (pt_pool eax edx hhdm : Z) (s : apic) : apic :=
  match apic_map pt_pool eax edx hhdm s with inl (_, s) => s | inr s => s end.

Section Total.
Context (dev : trace -> Z -> Z) (n kfuel : nat) (Hlive : uart_live dev n) (Hkbd : kbd_live dev kfuel).

Lemma total_say {A} s (k : prog trace A) R : total k R -> total (say dev n s ;; k)%prog R.
Proof using Hlive.
  intros Hk. apply (total_bind _ _ (fun _ => True)); [|done].
  intros tr. destruct (says_puts dev n Hlive s tr) as (l & E & _). eexists tt, _. by split.
Qed.

Lemma total_dec {A} dec v (k : prog trace A) R :
  length dec = 21%nat -> 0 <= v < 2 ^ 64 -> total k R -> total (serial_put_dec dev n dec v ;; k)%prog R.
Proof using Hlive.
  intros Hd Hv Hk. apply (total_bind _ _ (fun _ => True)); [|done].
  intros tr. destruct (says_put_dec dev n dec v Hlive Hd Hv tr) as (l & E & _). eexists tt, _. by split.
Qed.

Lemma total_apic pt_pool eax edx hhdm s :
  total (apic_init pt_pool eax edx dev n hhdm s) (eq (apic_after pt_pool eax edx hhdm s)).
Proof using Hlive.
  unfold apic_init, apic_after. destruct (apic_map pt_pool eax edx hhdm s) as [[msg s1]|s1]; [|by apply total_ret].
  apply total_say. by apply total_ret.
Qed.

Lemma total_keyboard k : total (keyboard_init dev kfuel k) (eq (Kbd (kb_buffer k) 0 0 (shift_pressed k))).
Proof using Hkbd.
  intros tr. destruct (Hkbd tr) as (j & Hj & Hb & Hn). destruct (drain_spec dev j kfuel tr Hj Hb Hn) as [st E].
  eexists _, _. split; [|reflexivity]. unfold keyboard_init. by erewrite pbind_step by exact E.
Qed.

Lemma total_timer t : total (timer_init 100 t) (eq (Timer 0 100 11931)).
Proof using.
  intros tr. unfold timer_init. rewrite (proj2 (Z.eqb_neq 100 0)) by lia. eexists _, _. split; reflexivity.
Qed.

Lemma total_gdt gdt_addr g : total (gdt_init gdt_addr g) (fun _ => True).
Proof using. intros tr. eexists _, _. split; reflexivity || exact I. Qed.

Lemma total_idt isr irq idt_addr idt : total (idt_init isr irq idt_addr idt) (eq (idt_table isr irq idt)).
Proof using. intros tr. eexists _, _. split; reflexivity || exact I. Qed.

Lemma total_serial_init : total serial_init (fun _ => True).
Proof using. intros tr. eexists _, _. split; reflexivity || exact I. Qed.

Lemma total_sleep ms wakes t :
  wakes <> [] -> 0 <= timer_ticks t -> timer_ticks t + arrived wakes < 2 ^ 64 ->
  sleep_target ms t <= timer_ticks t + seen wakes ->
  total (timer_sleep ms wakes t) (fun t' => sleep_target ms t <= timer_ticks t').
Proof using.
  intros Hw Ht Hb Hl tr.
  destruct (sleep_loop_spec (sleep_target ms t) wakes t (Sti :: tr) Hw Ht Hb) as (j & _ & E & Hr & _); [exact Hl|].
  eexists _, _. split.
  - unfold timer_sleep. erewrite pbind_step by done. by erewrite pbind_step by exact E.
  - cbn [timer_ticks]. pose proof (seen_arrived (take (S j) wakes)). lia.
Qed.

Lemma thread_loop_count j c : 0 <= c < 2 ^ 64 -> thread_loop j c = u64 (c + Z.of_nat j).
Proof using.
  intros Hc. induction j as [|j IH]; [by rewrite Z.add_0_r, u64_id|].
  change (thread_loop (S j) c) with (u64 (thread_loop j c + 1)). rewrite IH, u64_add_idemp_l. f_equal. lia.
Qed.

(** A turn of the loop ends, two seconds later at the earliest, whatever the threads
    have counted. *)
Lemma total_report wakes i j dec1 dec2 t :
  wakes <> [] -> 0 <= timer_ticks t -> timer_ticks t + arrived wakes < 2 ^ 64 ->
  sleep_target 2000 t <= timer_ticks t + seen wakes ->
  length dec1 = 21%nat -> length dec2 = 21%nat ->
  total (kmain_report dev n wakes (thread_loop i 0) (thread_loop j 0) dec1 dec2 t) (fun t' => sleep_target 2000 t <= timer_ticks t').
Proof using Hlive.
  intros Hw Ht Hb Hl H1 H2. rewrite !thread_loop_count by lia. unfold kmain_report.
  eapply total_bind; [by apply total_sleep|]. intros t' Ht'.
  apply total_say, total_dec; [done|apply u64_bound|]. apply total_say, total_dec; [done|apply u64_bound|].
  apply total_say. by apply total_ret.
Qed.
End Total.

(** ** Memory, from the boot loader to the threads *)

(** Page tables that leave room for the heap, and the free frames. *)
Definition booting (hhdm : Z) (s : vmm) (own : gmap Z (Z * Z)) (free : list Z) : Prop :=
  vmm_inv hhdm s own free /\ clear hhdm (v_mem s) own (root s) heap_virt.

Lemma clear_same hhdm rt m m' own va :
  (forall pa y i, own !! pa = Some y -> 0 <= i < 512 -> entry hhdm m' pa i = entry hhdm m pa i) ->
  clear hhdm m own rt va -> clear hhdm m' own rt va.
Proof.
  intros Hs (r3 & r2 & O4 & [P4 _ F4 W4] & O3 & [P3 H3 F3 W3] & O2 & H2). exists r3, r2.
  pose proof (Hs _ _ _ O4 (idx_bound 4 va)) as E4. pose proof (Hs _ _ _ O3 (idx_bound 3 va)) as E3.
  pose proof (Hs _ _ _ O2 (idx_bound 2 va)) as E2.
  split; [done|]. split; [split; rewrite ?E4; done|]. split; [done|].
  split; [split; rewrite ?E3; done|]. split; [done|by rewrite E2].
Qed.

(** Memory away from some frames, and writes to frames that are not tables. *)
Definition off_pages (hhdm : Z) (l : list Z) (a n : Z) : Prop :=
  forall p, p ∈ l -> a + n <= hhdm + p \/ hhdm + p + 4096 <= a.

Lemma entry_off_pages hhdm rt m m' own l :
  pt_wf hhdm rt m own -> Forall (fun p => frame_ok hhdm p /\ own !! p = None) l ->
  (forall a k, off_pages hhdm l a k -> agree m m' a k) ->
  forall pa y i, own !! pa = Some y -> 0 <= i < 512 -> entry hhdm m' pa i = entry hhdm m pa i.
Proof.
  intros Hwf Hl Ha pa [lv x] i Ho Hi. destruct (wf_tbl _ _ _ _ Hwf pa lv x Ho) as [Ht _].
  pose proof (wf_hhdm _ _ _ _ Hwf). unfold entry. apply ld64_agree. rewrite slot_eq by done. apply Ha.
  intros p Hp. rewrite Forall_forall in Hl. destruct (Hl p Hp) as [(_ & Hpa & _) Hn].
  destruct Ht as [(_ & Hta & _) _]. assert (Hne : pa <> p) by congruence.
  destruct (frames_apart pa p); done || lia.
Qed.

(** The usable frames of the memory map, as [pmm_init] pushes them. *)
Definition usable (ks ke : Z) (bi : boot_info) : list Z :=
  match memmap_request bi with
  | Some (LimineMemmapResponse es) => mjoin (entry_frames ks ke <$> es)
  | None => []
  end.

(** Before [pmm_init]: page tables with room for the heap, an allocator that has not
    run, usable frames below 2^52, inside the direct map, apart from each other and
    from the tables. *)
Record before_pmm (hhdm ks ke : Z) (pfuel : nat) (bi : boot_info) (s : vmm) (own : gmap Z (Z * Z)) : Prop := {
  bp_tables : pt_wf hhdm (root s) (v_mem s) own;
  bp_clear : clear hhdm (v_mem s) own (root s) heap_virt;
  bp_pmm : v_pmm s = pmm_bss;
  bp_fuel es : memmap_request bi = Some (LimineMemmapResponse es) ->
    Forall (fun e => length (entry_frames ks ke e) < pfuel)%nat es;
  bp_frames : Forall (fun p => frame_ok hhdm p /\ p < 2 ^ 52 /\ hhdm + p + 4096 < 2 ^ 64 /\ own !! p = None)
                (usable ks ke bi);
  bp_nodup : NoDup (usable ks ke bi);
}.

(** The frames it pushes, and the memory it leaves alone. *)
Lemma pmm_init_run hhdm ks ke pfuel bi s own :
  before_pmm hhdm ks ke pfuel bi s own ->
  exists pm m, pmm_init ks ke pfuel hhdm (option_map memmap_entries (memmap_request bi)) (v_pmm s) (v_mem s) =
      Some (pm, m) /\ pmm_hhdm pm = hhdm /\ pmm_rep pm m (rev (usable ks ke bi)) /\
    forall a k, off_frames hhdm (usable ks ke bi) a k -> agree (v_mem s) m a k.
Proof.
  intros [Hpt Hcl -> Hfu Hfr Hnd]. pose proof (wf_hhdm _ _ _ _ Hpt) as Hh.
  assert (H0 : pmm_rep (Pmm hhdm 0 0) (v_mem s) []) by (split; cbn; done || constructor).
  unfold usable in *. destruct (memmap_request bi) as [[es]|].
  - destruct (entry_loop_spec ks ke pfuel hhdm es (Pmm hhdm 0 0) (v_mem s) []) as (pm & m & E & Eh & Hr & Ha);
      [by apply Hfu|done|done| |by rewrite app_nil_r|].
    { eapply Forall_impl; [exact Hfr|]. by intros p (? & _). }
    rewrite app_nil_r in Hr. by exists pm, m.
  - exists (Pmm hhdm 0 0), (v_mem s). do 3 (split; [done|]). intros. apply agree_refl.
Qed.

Lemma boot_pmm hhdm ks ke pfuel bi s own :
  before_pmm hhdm ks ke pfuel bi s own ->
  exists pm m, pmm_init ks ke pfuel hhdm (option_map memmap_entries (memmap_request bi)) (v_pmm s) (v_mem s) =
      Some (pm, m) /\ booting hhdm (set_mem (set_pmm s pm) m) own (rev (usable ks ke bi)).
Proof.
  intros Hb. destruct (pmm_init_run _ _ _ _ _ _ _ Hb) as (pm & m & E & Eh & Hr & Ha).
  destruct Hb as [Hpt Hcl _ _ Hfr _]. exists pm, m. split; [done|].
  assert (Hs : forall pa y i, own !! pa = Some y -> 0 <= i < 512 -> entry hhdm m pa i = entry hhdm (v_mem s) pa i).
  { apply (entry_off_pages hhdm (root s) _ _ _ (usable ks ke bi) Hpt).
    - eapply Forall_impl; [exact Hfr|]. by intros p (? & _ & _ & ?).
    - intros a k Ho. apply Ha. intros p Hp. specialize (Ho p Hp). lia. }
  split; [split; try done|].
  - by apply (pt_wf_same hhdm _ (v_mem s)).
  - intros p Hp. rewrite elem_of_rev in Hp. rewrite Forall_forall in Hfr. by destruct (Hfr p Hp) as (_ & ? & _ & ?).
  - by apply (clear_same hhdm _ (v_mem s)).
Qed.

(** *** The framebuffer *)

(** [f'] can serve what [f] could but for [k] frames. *)
Definition taken (k : Z) (free free' : list Z) : Prop :=
  Z.of_nat (length free) <= Z.of_nat (length free') + k /\ forall q, q ∈ free' -> q ∈ free.

Lemma taken_trans j k l1 l2 l3 : taken j l1 l2 -> taken k l2 l3 -> taken (j + k) l1 l3.
Proof. intros [H1 S1] [H2 S2]. split; [lia|auto]. Qed.

Lemma map_pages_booting hhdm n (va pa : Z -> Z) s own free :
  0 <= n -> booting hhdm s own free ->
  exists own' free', booting hhdm (for_range 0 n (fun i s => vmm_map_page hhdm (va i) (pa i) 0x23 s) s) own' free' /\
    taken (3 * n) free free'.
Proof.
  intros Hn Hb.
  apply (for_range_ind (fun i s' => exists own' free', booting hhdm s' own' free' /\ taken (3 * i) free free')).
  - done.
  - exists own, free. split; [done|]. split; [lia|done].
  - intros i s1 Hi (own1 & free1 & [Hinv Hc] & Ht).
    destruct (map_page_clear hhdm (va (0 + i)) (pa (0 + i)) 0x23 s1 own1 free1 heap_virt Hinv Hc) as
      (own2 & free2 & Hinv2 & Hc2 & Hl & Hq).
    exists own2, free2. split; [done|]. replace (3 * (i + 1)) with (3 * i + 3) by lia.
    eapply taken_trans; [exact Ht|]. split; [lia|done].
Qed.

(** The pages [boot_fb] maps, and what it needs: a framebuffer when one is
    announced, of a size the loop counter can hold. *)
Definition fb_pages (r : option limine_framebuffer_response) : Z :=
  match r with
  | Some (LimineFramebufferResponse count (l :: _)) =>
      if truthy count then (lf_height l * lf_pitch l + 4095) / 4096 else 0
  | _ => 0
  end.

Definition fb_fits (fuel : nat) (r : option limine_framebuffer_response) : Prop :=
  forall count fbs, r = Some (LimineFramebufferResponse count fbs) -> truthy count = true ->
    exists l rest, fbs = l :: rest /\ 0 <= lf_height l * lf_pitch l <= 2 ^ 64 - 4096 /\
      lf_height l * lf_pitch l <= 4096 * Z.of_nat fuel.

Lemma boot_fb_total dev n fuel hhdm r f s own free :
  uart_live dev n -> fb_fits fuel r -> booting hhdm s own free ->
  total (boot_fb dev n (S fuel) hhdm r f s) (fun fs =>
    exists own' free', booting hhdm fs.2 own' free' /\ taken (3 * fb_pages r) free free').
Proof.
  intros Hlive Hfit Hb.
  assert (Hnone : total (say dev n (chars "no framebuffer" ++ nl) ;; pret (f, s))%prog (fun fs : fb * vmm =>
      exists own' free', booting hhdm fs.2 own' free' /\ taken (3 * 0) free free')).
  { apply total_say; [done|]. apply total_ret. exists own, free. split; [done|]. split; [lia|done]. }
  unfold boot_fb, fb_pages. destruct r as [[count fbs]|]; [|exact Hnone].
  destruct (truthy count) eqn:Ec.
  2: { destruct fbs; exact Hnone. }
  destruct (Hfit count fbs eq_refl Ec) as (l & rest & -> & Hsz & Hfu).
  unfold fb_init. rewrite (u64_id (lf_height l * lf_pitch l)) by lia.
  rewrite (fb_map_loop_terminates _ _ _ _ fuel) by (lia || done).
  rewrite Z.sub_0_r, Z.max_r by mlia. eapply total_pure; [reflexivity|]. cbv beta iota.
  apply total_say; [done|]. apply total_ret. cbn [snd].
  apply (map_pages_booting hhdm _ (fun i => u64 (fb_virt_base + (0 + 4096 * i)))
    (fun i => u64 (u64 (lf_address l - hhdm) + (0 + 4096 * i))) s own free); [mlia|done].
Qed.


(** *** The threads *)

(** Taking frame [p] off the free list and writing to it leaves the heap alone. *)
Lemma window_pop hhdm s own p free base frames pm m :
  window_ok (Vspace hhdm s own (p :: free) base frames) -> pmm_rep pm m free -> pmm_hhdm pm = hhdm ->
  (forall a k, off_pages hhdm [p] a k -> agree (v_mem s) m a k) ->
  let vs := Vspace hhdm s own (p :: free) base frames in
  let vs' := Vspace hhdm (set_mem (set_pmm s pm) m) own free base frames in
  window_ok vs' /\ forall x, in_window vs x -> vld8 vs' x = vld8 vs x.
Proof.
  intros Hw Hrep Hh Ha vs vs'. pose proof Hw as [[Hpt Hpm Hhh Hfr] Hb Hnd Hd Hm]. cbn in *.
  destruct (Hfr p) as [Hpo Hp52]; [by left|].
  pose proof (rep_frames _ _ _ Hpm) as [Hpf _]%Forall_cons. rewrite Hhh in Hpf.
  assert (Hs : forall pa y i, own !! pa = Some y -> 0 <= i < 512 -> entry hhdm m pa i = entry hhdm (v_mem s) pa i).
  { apply (entry_off_pages hhdm (root s) _ _ _ [p] Hpt); [by apply Forall_singleton|done]. }
  assert (Htr : forall va, vmm_virt_to_phys hhdm va (set_mem (set_pmm s pm) m) = vmm_virt_to_phys hhdm va s).
  { intros va. rewrite !virt_to_phys_resolve. f_equal.
    eapply (walk_same hhdm (root s) _ _ own Hpt Hs). apply (root_own _ _ _ _ va (wo_inv _ Hw)). }
  split.
  - split; cbn; try done.
    + split; cbn; [by apply (pt_wf_same hhdm _ (v_mem s))|done|done|]. intros q Hq. apply Hfr. by right.
    + eapply Forall_impl; [exact Hd|]. intros f (? & ? & ? & Hn). do 3 (split; [done|]).
      intros ?. by apply Hn; right.
    + intros i f off Hi Ho. rewrite Htr. by apply Hm.
  - intros x Hx. destruct (window_addr vs x Hw Hx) as (i & f & off & Hf & Ho & Ex & Epa).
    change (vld8 m (vs_pa vs' x) = vld8 (v_mem s) (vs_pa vs x)).
    replace (vs_pa vs' x) with (vs_pa vs x) by (unfold vs_pa; cbn; by rewrite Htr).
    rewrite Epa. cbn. rewrite Forall_forall in Hd.
    destruct (Hd f) as ((_ & Hfa & _) & _ & _ & Hn); [by eapply list_elem_of_lookup_2|].
    apply (Ha (hhdm + f) 4096); [|lia]. intros q ->%list_elem_of_singleton.
    destruct Hpf as (_ & Hpa & _). assert (Hne : f <> p) by (intros ->; apply Hn; by left).
    destruct (frames_apart f p); done || lia.
Qed.

Lemma heap_ready_pop hhdm s own p free frames pm m :
  heap_ready hhdm s own (p :: free) frames -> pmm_rep pm m free -> pmm_hhdm pm = hhdm ->
  (forall a k, off_pages hhdm [p] a k -> agree (v_mem s) m a k) ->
  heap_ready hhdm (set_mem (set_pmm s pm) m) own free frames.
Proof.
  intros (Hl & Hw & [Hh Hb Ht Hv Hseg]) Hr Hhh Ha.
  destruct (window_pop hhdm s own p free heap_virt frames pm m Hw Hr Hhh Ha) as [Hw' Hs].
  split; [done|]. split; [done|]. split; try done.
  - intros x Hx. split; [done|]. apply (Hv x Hx).
  - eapply seg_same; [|exact Hseg]. intros x Hx%in_header_range; [|done].
    apply Hs. by apply (Hv x).
Qed.

(** The table with [init] running and tasks [1 .. k-1] ready. *)
Record tasks_upto (s : sched) (k : Z) : Prop := {
  tu_wf : sched_wf s;
  tu_current : current_task s = 0;
  tu_running : state_of s 0 = TASK_RUNNING;
  tu_names i : 0 <= i < 64 -> length (t_name (tget s i)) = 32%nat;
  tu_ready i : 1 <= i < k -> state_of s i = TASK_READY;
  tu_free i : k <= i < 64 -> state_of s i = TASK_TERMINATED;
}.

(** Task [i] is about to run [entry] on the stack in frame [p]. *)
Definition thread_at (hhdm : Z) (s : sched) (m : mem) (i p : Z) (name : list Z) (entry : Z) : Prop :=
  t_rsp (tget s i) = hhdm + p + 3920 /\ c_chars (t_name (tget s i)) = name /\
  forall k, 0 <= k < 22 -> reg m (hhdm + p + 3920) k = fresh_regs entry (hhdm + p + 4096) k.

Lemma create_thread hhdm v own p free frames s k name entry :
  heap_ready hhdm v own (p :: free) frames -> hhdm + p + 4096 < 2 ^ 64 -> 0 <= entry < 2 ^ 64 ->
  tasks_upto s k -> 1 <= k < 64 ->
  exists s' pm m, task_create name entry (Sys s (v_pmm v) (v_mem v)) = (k, Sys s' pm m) /\
    heap_ready hhdm (set_mem (set_pmm v pm) m) own free frames /\ tasks_upto s' (k + 1) /\
    thread_at hhdm s' m k p (take 31 (c_chars name)) entry /\
    (forall i q nm en, 0 <= i -> i <> k -> q <> p -> q mod 4096 = 0 ->
       thread_at hhdm s (v_mem v) i q nm en -> thread_at hhdm s' m i q nm en).
Proof.
  intros Hr Htop He [W C R N Rd F] Hk.
  pose proof (inv_pmm _ _ _ _ (wo_inv _ (proj1 (proj2 Hr)))) as Hpm. cbn [vs_vmm vs_free] in Hpm.
  pose proof (inv_hhdm _ _ _ _ (wo_inv _ (proj1 (proj2 Hr)))) as Hhh. cbn [vs_vmm vs_hhdm] in Hhh.
  pose proof (rep_frames _ _ _ Hpm) as [(Hp0 & Hpa & _) _]%Forall_cons.
  destruct (task_create_sound name entry s (v_pmm v) (v_mem v) p free W) as
    (idx & s' & pm & m & E & (Hi & Hti & Hlt) & W' & [_ Hnew] & Hrsp & Hnm & Hoth & Hrep & Hh' & C' & Hlen & Hreg & Hag);
    [by rewrite C|done|done|by rewrite Hhh|done|by exists k; split; [lia|apply F; lia]|].
  rewrite Hhh in *.
  assert (idx = k) as ->.
  { destruct (Z.lt_trichotomy idx k) as [Hl|[?|Hg]]; [|done|].
    - destruct (decide (idx = 0)) as [->|]; [congruence|]. rewrite Rd in Hti by lia. done.
    - destruct (Hlt k); [lia|]. apply F. lia. }
  exists s', pm, m. split; [done|]. split.
  { apply (heap_ready_pop hhdm v own p); try done. intros a n Ho. apply Hag.
    specialize (Ho p ltac:(by left)). lia. }
  split; [|split; [by split|]].
  - split; try done; rewrite ?C'; [done|..].
    + unfold state_of. by rewrite Hoth by lia.
    + intros i Hi'. destruct (decide (i = k)) as [->|]; [done|]. rewrite Hoth by lia. by apply N.
    + intros i Hi'. destruct (decide (i = k)) as [->|]; [done|]. unfold state_of. rewrite Hoth by lia. apply Rd. lia.
    + intros i Hi'. unfold state_of. rewrite Hoth by lia. apply F. lia.
  - intros i q nm en Hi0 Hne Hqp Hqa (T1 & T2 & T3). unfold thread_at. rewrite Hoth by done.
    split; [done|]. split; [done|]. intros j Hj. rewrite <-T3 by done. unfold reg. apply ld64_agree, Hag.
    destruct (frames_apart q p); done || lia.
Qed.

(** ** The sequence *)

(** What holds when [kmain] reaches its loop: the heap is a window over 256 frames
    with a single free block, [init] runs, the two threads are ready to start on
    stacks in the frames [p] and [q], [free] frames are left, of those the memory map
    offers ([avail]), and a second has passed. *)
Definition booted_with (thread_a thread_b hhdm : Z) (avail : list Z) (k : kernel) (p q : Z) (free : list Z) : Prop :=
  exists own frames,
    NoDup (p :: q :: free) /\ (forall x, x ∈ p :: q :: free -> x ∈ avail) /\
    heap_ready hhdm (k_vmm k) own free frames /\ k_heap_head k = heap_virt /\
    tasks_upto (k_sched k) 3 /\
    thread_at hhdm (k_sched k) (v_mem (k_vmm k)) 1 p (chars "thread-a") thread_a /\
    thread_at hhdm (k_sched k) (v_mem (k_vmm k)) 2 q (chars "thread-b") thread_b /\
    100 <= timer_ticks (k_timer k).

Definition booted (thread_a thread_b hhdm : Z) (avail : list Z) (k : kernel) : Prop :=
  exists p q free, booted_with thread_a thread_b hhdm avail k p q free.

Lemma init_tasks s :
  length (tasks s) = 64%nat -> (forall i, 0 <= i < 64 -> length (t_name (tget s i)) = 32%nat) ->
  tasks_upto (scheduler_init s) 1.
Proof.
  intros Hl Hn. destruct (scheduler_init_spec s Hl Hn) as (W & C & _ & R & _ & F & N).
  split; try done; [|lia]. intros i Hi. by apply N.
Qed.

(** While [init] is alone, interrupts change nothing that matters. *)
Lemma alone_ticks s rs : tasks_upto s 1 -> tasks_upto (ticks s rs) 1.
Proof.
  intros [W C R N _ F]. destruct (ticks_idle s rs W) as (W' & C' & H).
  - by rewrite C.
  - intros i Hi [_ Hr]. destruct (decide (i = 0)) as [->|]; [congruence|]. rewrite F in Hr by lia. done.
  - split; [done|congruence|by destruct (H 0 ltac:(lia)) as [-> _]| |lia|].
    + intros i Hi. destruct (H i ltac:(lia)) as [_ ->]. by apply N.
    + intros i Hi. destruct (H i ltac:(lia)) as [-> _]. by apply F.
Qed.

(** What the boot loader hands over and the linker has placed: page tables with a
    pool as [apic_init] needs it, and the memory map. *)
Record handoff (hhdm pt_pool ks ke : Z) (fs : Z -> Z) (pfuel : nat) (bi : boot_info) (k : kernel)
    (own : gmap Z (Z * Z)) : Prop := {
  ho_tables : tables hhdm (root (k_vmm k)) fs pt_pool (apic_part k) own;
  ho_before : before_pmm hhdm ks ke pfuel bi (k_vmm k) own;
  ho_pool : Forall (fun p => ~ pool_frame fs p) (usable ks ke bi);
}.

(** What a boot needs: the hand-over, a framebuffer within the fuel, frames for its
    tables, the heap and two stacks, the task table as the linker places it, and
    the hundred ticks of the first sleep, a compare after the last of them. *)
Record bootable (hhdm pt_pool ks ke thread_a thread_b : Z) (fs : Z -> Z) (pfuel ffuel : nat) (bi : boot_info)
    (early : list Z) (wakes : list turn) (k : kernel) (own : gmap Z (Z * Z)) : Prop := {
  bo_hhdm : hhdm_request bi = Some (LimineHhdmResponse hhdm);
  bo_handoff : handoff hhdm pt_pool ks ke fs pfuel bi k own;
  bo_fits : fb_fits ffuel (fb_request bi);
  bo_frames : 3 * fb_pages (fb_request bi) + 1026 <= Z.of_nat (length (usable ks ke bi));
  bo_tasks : length (tasks (k_sched k)) = 64%nat;
  bo_names i : 0 <= i < 64 -> length (t_name (tget (k_sched k) i)) = 32%nat;
  bo_sleep : 100 <= seen wakes;
  bo_ticks : Z.of_nat (length early) + arrived wakes < 2 ^ 64;
  bo_thread_a : 0 <= thread_a < 2 ^ 64;
  bo_thread_b : 0 <= thread_b < 2 ^ 64;
}.

Section Sequence.
Context (dev : trace -> Z -> Z) (n kfuel pfuel ffuel : nat) (dec : list Z).
Context (gdt_addr idt_addr pt_pool kernel_start kernel_end thread_a thread_b : Z).
Context (isr irq : Z -> Z) (eax edx : Z) (hhdm : Z).
Context (Hlive : uart_live dev n) (Hkbd : kbd_live dev kfuel) (Hdec : length dec = 21%nat).

(** The machine when [apic_init] has returned. *)
Definition after_apic (k : kernel) : vmm :=
  set_mem (k_vmm k) (a_mem (apic_after pt_pool eax edx hhdm (apic_part k))).

(** [apic_init] keeps what [pmm_init] needs. *)
Lemma handoff_apic fs bi k own :
  handoff hhdm pt_pool kernel_start kernel_end fs pfuel bi k own ->
  exists own', before_pmm hhdm kernel_start kernel_end pfuel bi (after_apic k) own'.
Proof using.
  intros [Ht [Hpt Hcl Hpm Hfu Hfr Hnd] Hpo].
  destruct (mapped_keeps _ _ _ _ _ _ _ _ (apic_map_mapped _ _ _ pt_pool eax edx _ own Ht)) as (own' & G).
  unfold after_apic, apic_after.
  assert (Hp : forall m, grown hhdm (root (k_vmm k)) fs false (v_mem (k_vmm k)) own m own' ->
    before_pmm hhdm kernel_start kernel_end pfuel bi (set_mem (k_vmm k) m) own').
  { intros m Gm. split; try done; [apply Gm|by eapply grown_clear|].
    rewrite Forall_forall in *. intros p Hin. destruct (Hfr p Hin) as (? & ? & ? & Hn). do 3 (split; [done|]).
    destruct (own' !! p) as [y|] eqn:E; [|done].
    destruct (gr_new _ _ _ _ _ _ _ _ Gm p y E) as [?|Hf]; [congruence|by destruct (Hpo p Hin)]. }
  exists own'. destruct (apic_map _ _ _ _ _) as [[msg s1]|s1]; by apply Hp.
Qed.

Lemma boot_cpu_total k :
  total (boot_cpu dev n kfuel gdt_addr idt_addr pt_pool isr irq eax edx hhdm k) (fun k' =>
    k_vmm k' = after_apic k /\ k_sched k' = k_sched k /\ k_timer k' = Timer 0 100 11931).
Proof using Hlive Hkbd.
  unfold boot_cpu. apply total_say; [done|]. eapply total_bind; [apply total_gdt|]. intros g _.
  do 2 (apply total_say; [done|]). eapply total_bind; [apply total_idt|]. intros i _.
  do 2 (apply total_say; [done|]). eapply total_bind; [by apply total_apic|]. intros a <-.
  do 2 (apply total_say; [done|]). eapply total_bind; [apply total_timer|]. intros t <-.
  do 2 (apply total_say; [done|]). eapply total_bind; [by apply total_keyboard|]. intros kb _.
  apply total_say; [done|]. by apply total_ret.
Qed.

Lemma boot_memory_total bi k own :
  before_pmm hhdm kernel_start kernel_end pfuel bi (k_vmm k) own -> fb_fits ffuel (fb_request bi) ->
  3 * fb_pages (fb_request bi) + 1026 <= Z.of_nat (length (usable kernel_start kernel_end bi)) ->
  total (boot_memory dev n pfuel (S ffuel) dec kernel_start kernel_end hhdm bi k) (fun k' =>
    k_sched k' = scheduler_init (k_sched k) /\ k_timer k' = k_timer k /\ k_heap_head k' = heap_virt /\
    exists own free frames, heap_ready hhdm (k_vmm k') own free frames /\ (2 <= length free)%nat /\
      forall q, q ∈ free -> q ∈ usable kernel_start kernel_end bi).
Proof using Hlive Hdec.
  intros Hho Hfit Hlen. unfold boot_memory. apply total_say; [done|].
  destruct (boot_pmm hhdm kernel_start kernel_end pfuel bi (k_vmm k) own Hho) as (pm & m & E & Hb).
  eapply total_pure; [exact E|]. cbv beta iota zeta. unfold vmm_init.
  do 2 (apply total_say; [done|]).
  pose proof (inv_pmm _ _ _ _ (proj1 Hb)) as Hpm. cbn [v_pmm v_mem set_mem set_pmm] in *.
  apply total_dec; [done|done| |].
  { unfold pmm_get_free_count. rewrite (rep_count _ _ _ Hpm).
    pose proof (frames_length _ _ (rep_hhdm _ _ _ Hpm) (rep_nodup _ _ _ Hpm) (rep_frames _ _ _ Hpm)). lia. }
  do 4 (apply total_say; [done|]).
  eapply total_bind; [by eapply boot_fb_total|]. intros [f s] (own1 & free1 & Hb1 & Hl1 & Hq1). cbn [snd] in Hb1.
  rewrite length_rev in Hl1. cbv beta iota. apply total_say; [done|].
  destruct (heap_init_sound hhdm (k_heap_head k) s own1 free1 (proj1 Hb1)) as
    (s2 & own2 & free2 & frames & E2 & Hr & Hl2 & Hq2); [eapply clear_unblocked, Hb1|lia|].
  eapply total_pure; [exact E2|]. cbv beta iota zeta. do 4 (apply total_say; [done|]).
  apply total_ret. do 3 (split; [done|]). exists own2, free2, frames. split; [done|]. split; [lia|].
  intros q Hq. apply elem_of_rev. auto.
Qed.

Lemma boot_threads_total avail early wakes frame k own free frames :
  heap_ready hhdm (k_vmm k) own free frames -> (2 <= length free)%nat ->
  (forall q, q ∈ free -> q ∈ avail) -> (forall q, q ∈ avail -> hhdm + q + 4096 < 2 ^ 64) ->
  tasks_upto (k_sched k) 1 -> k_timer k = Timer 0 100 11931 -> k_heap_head k = heap_virt ->
  100 <= seen wakes -> Z.of_nat (length early) + arrived wakes < 2 ^ 64 ->
  0 <= thread_a < 2 ^ 64 -> 0 <= thread_b < 2 ^ 64 ->
  total (boot_threads dev n thread_a thread_b early wakes frame k) (booted thread_a thread_b hhdm avail).
Proof using Hlive.
  clear Hkbd Hdec. clear dec isr irq kfuel.
  intros Hr Hf2 Hav Htop Hs Ht Hh Hlw Hsum Hta Htb. unfold boot_threads. apply total_say; [done|].
  unfold interrupted. pose proof (seen_arrived wakes). assert (Hw : wakes <> []) by (intros ->; cbn in Hlw; lia).
  rewrite Ht, iter_ticks by (cbn; lia). cbn [timer_ticks timer_freq pit_divisor].
  unfold boot_sleep. set (t0 := Timer _ _ _).
  assert (Htg : sleep_target 1000 t0 = Z.of_nat (length early) + 100).
  { unfold sleep_target, t0. cbn [timer_ticks timer_freq]. rewrite u32_id by lia.
    change (100 * 1000 / 1000) with 100. rewrite u64_id by lia. lia. }
  eapply (total_bind _ _ (fun ts => Z.of_nat (length early) + 100 <= timer_ticks ts.1 /\ tasks_upto ts.2 1)).
  { eapply total_bind; [apply total_sleep; [done|cbn; lia|cbn; lia|rewrite Htg; cbn; lia]|].
    intros t' Ht'. rewrite Htg in Ht'. apply total_ret. split; [done|]. by do 2 apply alone_ticks. }
  intros [t sc] [Htk Hsc]. cbn [fst snd] in Htk, Hsc. cbv beta iota. do 2 (apply total_say; [done|]). cbv zeta.
  destruct free as [|p [|q free]]; [cbn in Hf2; lia..|].
  destruct (create_thread hhdm (k_vmm k) own p (q :: free) frames sc 1 (chars "thread-a") thread_a Hr) as
    (s1 & pm1 & m1 & E1 & Hr1 & Hs1 & T1 & _); [apply Htop, Hav; set_solver|done|done|lia|].
  rewrite E1. cbv beta iota.
  destruct (create_thread hhdm _ own q free frames s1 2 (chars "thread-b") thread_b Hr1) as
    (s2 & pm2 & m2 & E2 & Hr2 & Hs2 & T2 & Hk2); [apply Htop, Hav; set_solver|done|done|lia|].
  cbn [v_pmm v_mem set_mem set_pmm] in E2. rewrite E2. cbv beta iota.
  pose proof (inv_pmm _ _ _ _ (wo_inv _ (proj1 (proj2 Hr)))) as Hpm. cbn [vs_vmm vs_free] in Hpm.
  pose proof (rep_frames _ _ _ Hpm) as [(_ & Hpa & _) _]%Forall_cons. pose proof (rep_nodup _ _ _ Hpm) as Hnd.
  apply total_say; [done|]. apply total_ret. exists p, q, free, own, frames. split; [done|]. split; [done|].
  split; [exact Hr2|]. split; [done|]. split; [exact Hs2|]. split; [|split; [exact T2|cbn; lia]].
  apply NoDup_cons in Hnd as [Hpq _].
  apply (Hk2 1 p); [lia|lia|set_solver|done|exact T1].
Qed.

(** The whole sequence, from what the boot loader hands over. *)
Lemma boot_total bi early wakes frame k fs own :
  bootable hhdm pt_pool kernel_start kernel_end thread_a thread_b fs pfuel ffuel bi early wakes k own ->
  total (kmain dev n kfuel pfuel (S ffuel) dec gdt_addr idt_addr pt_pool kernel_start kernel_end
      thread_a thread_b isr irq eax edx bi early wakes frame k) (booted thread_a thread_b hhdm (usable kernel_start kernel_end bi)).
Proof using Hlive Hkbd Hdec.
  intros [Hreq Hho Hfit Hlen Hl Hn Hlw Hsum Hta Htb]. destruct (handoff_apic fs bi k own Hho) as (own1 & Hbp).
  apply (total_bind serial_init _ (fun _ => True)); [apply total_serial_init|]. intros _ _.
  apply total_say; [done|]. eapply total_pure; [exact Hreq|]. cbn [hhdm_offset].
  eapply total_bind; [by apply boot_cpu_total|]. intros k1 (Ev & Es & Et). rewrite <-Ev in Hbp.
  eapply total_bind; [by eapply boot_memory_total|].
  intros k2 (Es2 & Et2 & Eh & own2 & free & frames & Hr & Hf2 & Hq). rewrite Et in Et2. rewrite Es in Es2.
  eapply (boot_threads_total (usable kernel_start kernel_end bi) early wakes frame k2 own2 free frames); try done.
  - intros q Hin. pose proof (bp_frames _ _ _ _ _ _ _ Hbp) as Hfr. rewrite Forall_forall in Hfr.
    by destruct (Hfr q Hin) as (_ & _ & ? & _).
  - rewrite Es2. by apply init_tasks.
Qed.
End Sequence.

(** ** A concrete boot

    The tables of ApicTables.v, 1100 usable frames, no framebuffer. *)
Definition demo_kernel : kernel :=
  Kernel (Vmm demo_tables pmm_bss 0x1000 []) 0 0 [] (repeat gdt_zero 5) idt_bss timer_bss kbd_bss
    fb_bss 0 sched_bss.
Definition demo_boot : boot_info :=
  BootInfo (Some (LimineHhdmResponse demo_hhdm))
    (Some (LimineMemmapResponse [MemmapEntry 0x100000 (1100 * 4096) 0])) None.

Lemma demo_kbd_live : kbd_live demo_uart 1.
Proof. intros tr. exists 0%nat. split; [lia|]. split; [lia|].
  unfold output_full, demo_uart. repeat case_match; reflexivity.
Qed.

Lemma NoDup_page_seq base k : NoDup (page_seq base k).
Proof.
  revert base. induction k as [|k IH]; intros base; [constructor|]. cbn [page_seq]. constructor; [|apply IH].
  intros (i & ? & ?)%elem_of_page_seq. lia.
Qed.

Lemma demo_usable : usable 0xFFFFFFFF80000000 0xFFFFFFFF80100000 demo_boot = page_seq 0x100000 1100.
Proof. by vm_compute. Qed.

Lemma demo_handoff :
  handoff demo_hhdm demo_pool 0xFFFFFFFF80000000 0xFFFFFFFF80100000 demo_fs 1101 demo_boot demo_kernel demo_tree.
Proof.
  split; [exact demo_apic_tables|split|].
  - exact demo_tables_wf.
  - exists 0x2000, 0x3000. repeat split; vm_compute; reflexivity.
  - done.
  - intros es [= <-]. constructor; [|constructor]. vm_compute. lia.
  - by apply (bool_decide_unpack _); vm_compute.
  - rewrite demo_usable. apply NoDup_page_seq.
  - rewrite demo_usable, Forall_forall. intros p (i & Hi & ->)%elem_of_page_seq (j & Hj & E). unfold demo_fs in E. lia.
Qed.

Lemma demo_bootable :
  bootable demo_hhdm demo_pool 0xFFFFFFFF80000000 0xFFFFFFFF80100000 0xFFFFFFFF80003000 0xFFFFFFFF80003040 demo_fs 1101 0
    demo_boot [0xFFFFFFFF80090000] (repeat (1, 0)%nat 100) demo_kernel demo_tree.
Proof.
  split.
  - reflexivity.
  - apply demo_handoff.
  - intros count fbs [=].
  - rewrite demo_usable, length_page_seq. cbn. lia.
  - reflexivity.
  - below.
  - vm_compute. congruence.
  - vm_compute. reflexivity.
  - lia.
  - lia.
Qed.
