(* ===== verification/BootLog.v ===== *)
(** What [kmain] reports on the serial line while it boots: the exact bytes, with the
    message of [apic_init] if it gives up, the number of free frames, and whether there
    is a console. *)

From Stdlib Require Import String.
From S2P Require Import Prelude Mem CString Pmm Vmm PortIO Format Serial Panic Heap HeapInit Sched.
From S2P Require Import Context Timer Keyboard Gdt Idt Fb Apic ApicTables Boot.

(** ** The text *)

Section Text.
#[local] Open Scope string_scope.
#[local] Open Scope list_scope.

(** A line of the boot sequence, before and after the step it announces. *)
Definition step_line (name : string) : list Z := chars "[BOOT] Initializing " ++ chars name ++ chars "... ".
Definition ok_line : list Z := chars "OK" ++ crnl.

(** [apic]: the message of [apic_init]; [free]: the frames the allocator has;
    [console]: a framebuffer has been found. *)
Definition cpu_log (apic : list Z) : list Z :=
  step_line "GDT" ++ ok_line ++ step_line "IDT & PIC" ++ ok_line ++
  step_line "APIC (LINT0)" ++ crlf (c_chars apic) ++ ok_line ++
  step_line "PIT (100 Hz)" ++ ok_line ++ step_line "PS/2 keyboard" ++ ok_line.

Definition memory_log (free : Z) (console : bool) : list Z :=
  step_line "PMM" ++ ok_line ++ chars "  Free frames: " ++ dec_str free ++ crnl ++
  step_line "VMM" ++ ok_line ++
  step_line "framebuffer" ++ (if console then ok_line else chars "no framebuffer" ++ crnl) ++
  step_line "heap" ++ ok_line ++ step_line "scheduler" ++ ok_line ++
  chars "[BOOT] All subsystems initialized" ++ crnl ++ crnl.

Definition threads_log : list Z :=
  chars "[TEST] Waiting 1 second... done" ++ crnl ++
  chars "[KERNEL] Creating threads..." ++ crnl ++ chars "[KERNEL] Threads created, running" ++ crnl.

Definition boot_log (apic : list Z) (free : Z) (console : bool) : list Z :=
  crnl ++ chars "=== Suika OS (64-bit) booting via Limine ===" ++ crnl ++
  cpu_log apic ++ memory_log free console ++ threads_log.
End Text.

Definition apic_message (pt_pool eax edx hhdm : Z) (k : kernel) : list Z :=
  match apic_map pt_pool eax edx hhdm (apic_part k) with inl (msg, _) => msg | inr _ => [] end.

Definition has_console (bi : boot_info) : bool :=
  match fb_request bi with Some r => truthy (framebuffer_count r) | None => false end.

(** ** What a computation transmits

    Whenever [p] ends, it has sent some bytes that [Q] allows for its result. *)
Definition emits {A} (p : prog trace A) (Q : A -> list Z -> Prop) : Prop := forall tr,
  match p tr with
  | Some (a, tr') => exists out, sent 0x3F8 tr' = sent 0x3F8 tr ++ out /\ Q a out
  | None => True
  end.

Lemma emits_ret {A} (a : A) (Q : A -> list Z -> Prop) : Q a [] -> emits (pret a) Q.
Proof. intros HQ tr. exists []. by rewrite app_nil_r. Qed.

Lemma emits_bind {A B} (p : prog trace A) (k : A -> prog trace B) P Q :
  emits p P -> (forall a o, P a o -> emits (k a) (fun b o' => Q b (o ++ o'))) -> emits (pbind p k) Q.
Proof.
  intros Hp Hk tr. specialize (Hp tr). unfold pbind. destruct (p tr) as [[a tr1]|]; [|done].
  destruct Hp as (o & E & Ho). specialize (Hk a o Ho tr1). destruct (k a tr1) as [[b tr2]|]; [|done].
  destruct Hk as (o' & E' & HQ). exists (o ++ o'). split; [by rewrite E', E, <-app_assoc|done].
Qed.

Lemma emits_mono {A} (p : prog trace A) (P Q : A -> list Z -> Prop) :
  emits p P -> (forall a o, P a o -> Q a o) -> emits p Q.
Proof.
  intros Hp HPQ tr. specialize (Hp tr). destruct (p tr) as [[a tr']|]; [|done].
  destruct Hp as (o & E & Ho). exists o. auto.
Qed.

(** Steps that send nothing. *)
Definition quiet {A} (p : prog trace A) : Prop := emits p (fun _ o => o = []).

Lemma emits_quiet {A B} (p : prog trace A) (k : A -> prog trace B) Q :
  quiet p -> (forall a, emits (k a) Q) -> emits (pbind p k) Q.
Proof. intros Hp Hk. eapply emits_bind; [exact Hp|]. intros a o ->. apply Hk. Qed.

Lemma quiet_ret {A} (a : A) : quiet (pret a).
Proof. by apply emits_ret. Qed.

Lemma quiet_events {A} (p : prog trace A) :
  (forall tr, match p tr with Some (_, tr') => sent 0x3F8 tr' = sent 0x3F8 tr | None => True end) -> quiet p.
Proof.
  intros H tr. specialize (H tr). destruct (p tr) as [[a tr']|]; [|done]. exists []. by rewrite app_nil_r.
Qed.

Lemma quiet_bind {A B} (p : prog trace A) (k : A -> prog trace B) : quiet p -> (forall a, quiet (k a)) -> quiet (pbind p k).
Proof. intros Hp Hk. by apply emits_quiet. Qed.

Lemma quiet_control e : is_control e = true -> quiet (emit e).
Proof. intros He. apply quiet_events. intros tr. by destruct e. Qed.

Lemma quiet_outb port v : u16 port <> 0x3F8 -> quiet (outb port v).
Proof. intros Hp. apply quiet_events. intros tr. by apply sent_out_ne. Qed.

Lemma quiet_inb dev port : quiet (inb dev port).
Proof. by apply quiet_events. Qed.

Lemma quiet_pure {A} (o : option A) : quiet (pure o).
Proof. apply quiet_events. intros tr. by destruct o. Qed.

#[export] Hint Resolve quiet_ret quiet_bind quiet_inb quiet_pure : kernel.
#[export] Hint Extern 2 (quiet (emit _)) => by apply quiet_control : kernel.
#[export] Hint Extern 2 (quiet (outb _ _)) => by apply quiet_outb : kernel.

(** The drivers that have nothing to say. *)
Lemma quiet_gdt gdt_addr g : quiet (gdt_init gdt_addr g).
Proof. unfold gdt_init. auto with kernel. Qed.

Lemma quiet_idt isr irq idt_addr idt : quiet (idt_init isr irq idt_addr idt).
Proof. apply quiet_events. intros tr. reflexivity. Qed.

Lemma quiet_timer f t : quiet (timer_init f t).
Proof. unfold timer_init. destruct (f =? 0); [by apply quiet_events|]. auto 10 with kernel. Qed.

Lemma quiet_keyboard dev fuel k : quiet (keyboard_init dev fuel k).
Proof.
  apply quiet_bind; [|auto with kernel]. induction fuel as [|fuel IH]; [by apply quiet_events|]. cbn [drain].
  apply quiet_bind; [auto with kernel|]. intros st. destruct (truthy (Z.land st 1)); auto with kernel.
Qed.

Lemma quiet_sleep ms wakes t : quiet (timer_sleep ms wakes t).
Proof.
  unfold timer_sleep. apply quiet_bind; [auto with kernel|]. intros _. apply quiet_bind; [|auto with kernel].
  generalize (sleep_target ms t). intros target. revert t.
  induction wakes as [|[b a] wakes IH]; intros t; cbn [sleep_loop]; [by apply quiet_events|].
  cbv zeta. destruct (_ <? target); auto with kernel.
Qed.

(** ** The sequence *)

Section Sequence.
Context (dev : trace -> Z -> Z) (n kfuel pfuel ffuel : nat) (dec : list Z).
Context (gdt_addr idt_addr pt_pool kernel_start kernel_end thread_a thread_b : Z).
Context (isr irq : Z -> Z) (eax edx : Z) (hhdm : Z).
Context (Hlive : uart_live dev n) (Hdec : length dec = 21%nat).

Lemma emits_say {A} s (k : prog trace A) Q :
  emits k (fun a o => Q a (crlf (c_chars s) ++ o)) -> emits (say dev n s ;; k)%prog Q.
Proof using Hlive.
  intros Hk. apply (emits_bind _ _ (fun _ o => o = crlf (c_chars s))); [|by intros _ o ->].
  intros tr. destruct (says_puts dev n Hlive s tr) as (l & E & _ & Hs & _). unfold say. rewrite E.
  exists (crlf (c_chars s)). by rewrite sent_app, Hs.
Qed.

Lemma emits_dec {A} v (k : prog trace A) Q :
  0 <= v < 2 ^ 64 -> emits k (fun a o => Q a (dec_str v ++ o)) -> emits (serial_put_dec dev n dec v ;; k)%prog Q.
Proof using Hlive Hdec.
  intros Hv Hk. apply (emits_bind _ _ (fun _ o => o = dec_str v)); [|by intros _ o ->].
  intros tr. destruct (says_put_dec dev n dec v Hlive Hdec Hv tr) as (l & E & _ & Hs & _). rewrite E.
  exists (dec_str v). by rewrite sent_app, Hs.
Qed.

Lemma emits_pure {A B} (a : A) (o : option A) (k : A -> prog trace B) Q :
  o = Some a -> emits (k a) Q -> emits (pbind (pure o) k) Q.
Proof using. by intros ->. Qed.

Lemma emits_apic k :
  emits (apic_init pt_pool eax edx dev n hhdm (apic_part k))
    (fun _ o => o = crlf (c_chars (apic_message pt_pool eax edx hhdm k))).
Proof using Hlive.
  unfold apic_init, apic_message. destruct (apic_map _ _ _ _ _) as [[msg s]|s]; [|by apply emits_ret].
  apply emits_say, emits_ret. by rewrite app_nil_r.
Qed.

Lemma boot_cpu_emits k :
  emits (boot_cpu dev n kfuel gdt_addr idt_addr pt_pool isr irq eax edx hhdm k)
    (fun _ o => o = cpu_log (apic_message pt_pool eax edx hhdm k)).
Proof using Hlive.
  unfold boot_cpu. apply emits_say. apply emits_quiet; [apply quiet_gdt|]. intros g.
  do 2 apply emits_say. apply emits_quiet; [apply quiet_idt|]. intros i. do 2 apply emits_say.
  eapply emits_bind; [apply emits_apic|]. intros a o ->. do 2 apply emits_say.
  apply emits_quiet; [apply quiet_timer|]. intros t. do 2 apply emits_say.
  apply emits_quiet; [apply quiet_keyboard|]. intros kb. apply emits_say, emits_ret.
  unfold cpu_log. generalize (crlf (c_chars (apic_message pt_pool eax edx hhdm k))). intros msg. vm_compute. reflexivity.
Qed.

Lemma boot_fb_emits r f s :
  emits (boot_fb dev n ffuel hhdm r f s)
    (fun _ o => o = if match r with Some r => truthy (framebuffer_count r) | None => false end
                    then ok_line else chars "no framebuffer" ++ crnl).
Proof using Hlive.
  unfold boot_fb. destruct r as [[count fbs]|]; [|by apply emits_say, emits_ret].
  cbn [framebuffer_count]. destruct (truthy count); [|by apply emits_say, emits_ret].
  destruct fbs as [|l fbs]; [done|]. apply emits_quiet; [apply quiet_pure|]. intros [f' s'].
  by apply emits_say, emits_ret.
Qed.

Lemma boot_memory_emits bi k own :
  before_pmm hhdm kernel_start kernel_end pfuel bi (k_vmm k) own ->
  emits (boot_memory dev n pfuel ffuel dec kernel_start kernel_end hhdm bi k)
    (fun _ o => o = memory_log (Z.of_nat (length (usable kernel_start kernel_end bi))) (has_console bi)).
Proof using Hlive Hdec.
  intros Hb. destruct (pmm_init_run _ _ _ _ _ _ _ Hb) as (pm & m & E & Eh & Hr & _).
  unfold boot_memory. apply emits_say. eapply emits_pure; [exact E|]. cbv beta iota zeta.
  pose proof (frames_length _ _ (rep_hhdm _ _ _ Hr) (rep_nodup _ _ _ Hr) (rep_frames _ _ _ Hr)) as Hl.
  do 2 apply emits_say. change (pmm_get_free_count _) with (free_count pm).
  rewrite (rep_count _ _ _ Hr), length_rev. rewrite length_rev in Hl. apply emits_dec; [lia|].
  do 4 apply emits_say. eapply emits_bind; [apply boot_fb_emits|]. intros [f s] o Ho. apply emits_say.
  apply emits_quiet; [apply quiet_pure|]. intros [h s']. do 4 apply emits_say. apply emits_ret.
  subst o. unfold has_console, memory_log. generalize (dec_str (Z.of_nat (length (usable kernel_start kernel_end bi)))).
  intros ds. destruct (fb_request bi) as [r|]; [destruct (truthy (framebuffer_count r))|]; vm_compute; reflexivity.
Qed.

Lemma boot_threads_emits early wakes frame k :
  emits (boot_threads dev n thread_a thread_b early wakes frame k) (fun _ o => o = threads_log).
Proof using Hlive.
  unfold boot_threads. apply emits_say. destruct (interrupted early (k_timer k) (k_sched k)) as [t sc].
  apply emits_quiet.
  { unfold boot_sleep. apply quiet_bind; [apply quiet_sleep|]. intros t'. apply quiet_ret. }
  intros [t' sc']. do 2 apply emits_say. destruct (task_create _ _ _) as [r1 y1].
  destruct (task_create _ _ y1) as [r2 y2]. apply emits_say, emits_ret. vm_compute. reflexivity.
Qed.

Lemma serial_init_emits : emits serial_init (fun _ o => o = [3]).
Proof using. intros tr. exists [3]. split; reflexivity. Qed.

Lemma kmain_emits bi early wakes frame k fs own :
  hhdm_request bi = Some (LimineHhdmResponse hhdm) ->
  handoff hhdm pt_pool kernel_start kernel_end fs pfuel bi k own -> kbd_live dev kfuel ->
  emits (kmain dev n kfuel pfuel ffuel dec gdt_addr idt_addr pt_pool kernel_start kernel_end
      thread_a thread_b isr irq eax edx bi early wakes frame k)
    (fun _ o => o = 3 :: boot_log (apic_message pt_pool eax edx hhdm k)
                          (Z.of_nat (length (usable kernel_start kernel_end bi))) (has_console bi)).
Proof using Hlive Hdec.
  intros Hreq Hho Hkbd. destruct (handoff_apic pfuel pt_pool kernel_start kernel_end eax edx hhdm fs bi k own Hho) as (own1 & Hbp).
  unfold kmain. eapply emits_bind; [apply serial_init_emits|]. intros _ o ->. apply emits_say.
  eapply emits_pure; [exact Hreq|]. cbn [hhdm_offset].
  eapply (emits_bind _ _ (fun k1 o => k_vmm k1 = after_apic pt_pool eax edx hhdm k /\ o = cpu_log (apic_message pt_pool eax edx hhdm k))).
  { intros tr. pose proof (boot_cpu_emits k tr) as He.
    destruct (boot_cpu_total dev n kfuel gdt_addr idt_addr pt_pool isr irq eax edx hhdm Hlive Hkbd k tr) as (k1 & tr1 & E & Hv & _).
    rewrite E in He |- *. destruct He as (o & Ho & ->). by eexists. }
  intros k1 o [Hv ->]. rewrite <-Hv in Hbp. eapply emits_bind; [by apply (boot_memory_emits bi k1 own1)|]. intros k2 o ->.
  eapply emits_mono; [apply boot_threads_emits|]. intros k3 o ->. unfold boot_log.
  generalize (cpu_log (apic_message pt_pool eax edx hhdm k)) (memory_log (Z.of_nat (length (usable kernel_start kernel_end bi))) (has_console bi)).
  intros l1 l2. vm_compute. reflexivity.
Qed.
End Sequence.

Section Boots.
Context (dev : trace -> Z -> Z) (n kfuel pfuel ffuel : nat) (dec : list Z).
Context (gdt_addr idt_addr pt_pool kernel_start kernel_end thread_a thread_b : Z).
Context (isr irq : Z -> Z) (eax edx : Z) (hhdm : Z).

(** C3 [kmain] boots. From what the boot loader hands over, on a serial line that
    empties and a keyboard controller that runs dry, the whole sequence terminates and
    leaves a machine whose page tables, frame allocator and heap are in their
    invariants, with the heap free, [init] running and both threads ready to start; and
    after the divisor byte of [serial_init] the serial line has carried exactly the boot
    log: every step in order, the message of [apic_init] if it gave up, the number of
    frames of the memory map, and whether there is a console. *)
Theorem kmain_boots bi early wakes frame k fs own tr :
  uart_live dev n -> kbd_live dev kfuel -> length dec = 21%nat ->
  bootable hhdm pt_pool kernel_start kernel_end thread_a thread_b fs pfuel ffuel bi early wakes k own ->
  exists k' tr', kmain dev n kfuel pfuel (S ffuel) dec gdt_addr idt_addr pt_pool kernel_start kernel_end
      thread_a thread_b isr irq eax edx bi early wakes frame k tr = Some (k', tr') /\
    booted thread_a thread_b hhdm (usable kernel_start kernel_end bi) k' /\
    sent 0x3F8 tr' = sent 0x3F8 tr ++ 3 :: boot_log (apic_message pt_pool eax edx hhdm k)
      (Z.of_nat (length (usable kernel_start kernel_end bi))) (has_console bi).
Proof using.
  intros Hlive Hkbd Hdec Hb.
  destruct (boot_total dev n kfuel pfuel ffuel dec gdt_addr idt_addr pt_pool kernel_start kernel_end thread_a thread_b
    isr irq eax edx hhdm Hlive Hkbd Hdec bi early wakes frame k fs own Hb tr) as (k' & tr' & E & Hbd).
  pose proof (kmain_emits dev n kfuel pfuel (S ffuel) dec gdt_addr idt_addr pt_pool kernel_start kernel_end thread_a thread_b
    isr irq eax edx hhdm Hlive Hdec bi early wakes frame k fs own (bo_hhdm _ _ _ _ _ _ _ _ _ _ _ _ _ _ Hb)
    (bo_handoff _ _ _ _ _ _ _ _ _ _ _ _ _ _ Hb) Hkbd tr) as He.
  rewrite E in He. destruct He as (o & Ho & ->). by exists k', tr'.
Qed.
End Boots.

(** The boot of the machine of Boot.v: 1100 frames, no console, no message. *)
Lemma kmain_boots_witness : exists k tr,
  kmain demo_uart 2 1 1101 1 (repeat 0 21) 0x8000 0x9000 demo_pool 0xFFFFFFFF80000000 0xFFFFFFFF80100000
    0xFFFFFFFF80003000 0xFFFFFFFF80003040 (fun i => 0xFFFFFFFF80001000 + 16 * i) (fun i => 0xFFFFFFFF80002000 + 16 * i)
    0xFEE00900 0 demo_boot [0xFFFFFFFF80090000] (repeat (1, 0)%nat 100) 0xFFFFFFFF80090100 demo_kernel [] = Some (k, tr) /\
  booted 0xFFFFFFFF80003000 0xFFFFFFFF80003040 demo_hhdm (usable 0xFFFFFFFF80000000 0xFFFFFFFF80100000 demo_boot) k /\
  sent 0x3F8 tr = 3 :: boot_log [] 1100 false.
Proof.
  destruct (kmain_boots demo_uart 2 1 1101 0 (repeat 0 21) 0x8000 0x9000 demo_pool 0xFFFFFFFF80000000 0xFFFFFFFF80100000
    0xFFFFFFFF80003000 0xFFFFFFFF80003040 (fun i => 0xFFFFFFFF80001000 + 16 * i) (fun i => 0xFFFFFFFF80002000 + 16 * i)
    0xFEE00900 0 demo_hhdm demo_boot [0xFFFFFFFF80090000] (repeat (1, 0)%nat 100) 0xFFFFFFFF80090100 demo_kernel demo_fs demo_tree []
    demo_uart_live demo_kbd_live eq_refl demo_bootable) as (k & tr & E & Hb & Hs).
  exists k, tr. split; [exact E|]. split; [exact Hb|].
  assert (Em : apic_message demo_pool 0xFEE00900 0 demo_hhdm demo_kernel = []) by (by vm_compute).
  rewrite Em, demo_usable, length_page_seq in Hs. exact Hs.
Defined.
