(* ===== verification/Multitask.v ===== *)
(** The kernel from its entry to its threads: what [kmain] leaves is a machine on which
    [init] and the two threads each have a processor of their own (VirtualCpu.v), and
    the three take turns. *)

From S2P Require Import Prelude Mem CString Pmm Vmm PortIO Format Serial Panic Heap HeapInit Sched Context Timer Keyboard Gdt Idt Fb Apic ApicTables Kmain Boot VirtualCpu.

(** The machine when [kmain] reaches its loop in processor state [c], on the stack [r]
    the boot loader gave it. *)
Definition boot_system (hhdm : Z) (c : cpu) (r : Z * Z) (k : kernel) (p q : Z) : system :=
  System c (Machine (v_mem (k_vmm k)) (k_timer k) (k_sched k) (k_kbd k)) (v_pmm (k_vmm k))
    (<[0 := r]> (<[1 := (hhdm + p, hhdm + p + 4096)]> (<[2 := (hhdm + q, hhdm + q + 4096)]> ∅))).

Definition boot_vcpus (hhdm thread_a thread_b : Z) (c : cpu) (p q : Z) : vcpus :=
  Vcpus 0 (<[0 := c]> (<[1 := fresh_cpu thread_a (hhdm + p + 4096)]> (<[2 := fresh_cpu thread_b (hhdm + q + 4096)]> ∅))).

(** Three tasks in the first three slots. *)
Definition three {A} (ctx : gmap Z A) : Prop := forall i, is_Some (ctx !! i) <-> i = 0 \/ i = 1 \/ i = 2.

Lemma three_insert {A} (a b c : A) : three (<[0 := a]> (<[1 := b]> (<[2 := c]> ∅))).
Proof. intros i. rewrite !lookup_insert_is_Some, lookup_empty. split; [|naive_solver lia].
  intros H. destruct (decide (i = 0)), (decide (i = 1)), (decide (i = 2)); naive_solver.
Qed.

Lemma tasks_upto_live s i : tasks_upto s 3 -> live s i <-> i = 0 \/ i = 1 \/ i = 2.
Proof.
  intros [W C R N Rd F]. unfold live, ready. rewrite C.
  assert (Hc : forall j, 1 <= j < 3 -> j < task_count s).
  { intros j Hj. destruct (Z.lt_ge_cases j (task_count s)); [done|].
    specialize (Rd j Hj). rewrite (sw_free _ W) in Rd by lia. done. }
  pose proof (sw_count _ W). split.
  - intros [Hi [->|[Hl Hr]]]; [lia|]. destruct (Z.lt_ge_cases i 3); [lia|]. rewrite F in Hr by lia. done.
  - intros [->|Hi]; [lia|]. split; [lia|right]. split; [apply Hc; lia|apply Rd; lia].
Qed.

Lemma booted_pmm hhdm thread_a thread_b avail k p q free :
  booted_with thread_a thread_b hhdm avail k p q free ->
  pmm_rep (v_pmm (k_vmm k)) (v_mem (k_vmm k)) free /\ pmm_hhdm (v_pmm (k_vmm k)) = hhdm.
Proof.
  intros (own & frames & _ & _ & (_ & Hw & _) & _).
  split; [exact (inv_pmm _ _ _ _ (wo_inv _ Hw))|exact (inv_hhdm _ _ _ _ (wo_inv _ Hw))].
Qed.

Section Booted.
Context (hhdm thread_a thread_b : Z) (avail : list Z) (k : kernel) (p q : Z) (free : list Z) (c : cpu) (r : Z * Z).
Context (Hb : booted_with thread_a thread_b hhdm avail k p q free).
Context (Ha : 0 <= thread_a < 2 ^ 64) (Hta : 0 <= thread_b < 2 ^ 64).
(** The stack of the boot loader is not in a frame of the allocator. *)
Context (Hon : on_stack r c) (Hlo : 0 < r.1) (Hhi : r.2 < 2 ^ 64).
Context (Hav : forall x, x ∈ avail -> 0 < x /\ x mod 4096 = 0 /\ hhdm + x + 4096 < 2 ^ 64 /\ (r.2 <= hhdm + x \/ hhdm + x + 4096 <= r.1)).

Lemma hhdm_nonneg : 0 <= hhdm.
Proof using Hb. destruct (booted_pmm _ _ _ _ _ _ _ _ Hb) as [Hr E]. rewrite <-E. apply (rep_hhdm _ _ _ Hr). Qed.

(** Two frames of the map are apart. *)
Lemma avail_apart x y : x ∈ avail -> y ∈ avail -> x <> y -> hhdm + x + 4096 <= hhdm + y \/ hhdm + y + 4096 <= hhdm + x.
Proof using Hav.
  intros Hx Hy Hne. destruct (Hav x Hx) as (_ & Hxa & _), (Hav y Hy) as (_ & Hya & _).
  destruct (frames_apart x y Hxa Hya Hne); lia.
Qed.

Lemma booted_stacks :
  p ∈ avail -> q ∈ avail -> p <> q -> stacks_ok (z_stk (boot_system hhdm c r k p q)).
Proof using All.
  intros Hp Hq Hpq. pose proof hhdm_nonneg. cbn [boot_system z_stk].
  destruct (Hav p Hp) as (Hp0 & _ & Hpt & Hpr), (Hav q Hq) as (Hq0 & _ & Hqt & Hqr). pose proof (avail_apart p q Hp Hq Hpq).
  split.
  - intros i ri Hi. rewrite !lookup_insert_Some, lookup_empty in Hi. naive_solver lia.
  - intros i j ri rj Hne Hi Hj. rewrite !lookup_insert_Some, lookup_empty in Hi. rewrite !lookup_insert_Some, lookup_empty in Hj.
    destruct Hi as [[<- <-]|[_ [[<- <-]|[_ [[<- <-]|[_ [=]]]]]]], Hj as [[<- <-]|[_ [[<- <-]|[_ [[<- <-]|[_ [=]]]]]]];
      cbn [fst snd]; try done; lia.
Qed.

(** A thread's frame on its stack. *)
Lemma thread_saved i x nm entry :
  thread_at hhdm (k_sched k) (v_mem (k_vmm k)) i x nm entry ->
  saved (v_mem (k_vmm k)) (hhdm + x, hhdm + x + 4096) (t_rsp (tget (k_sched k) i)) (fresh_cpu entry (hhdm + x + 4096)).
Proof using.
  intros (-> & _ & Hreg). split; cbn [fst snd]; [lia|lia|]. exists 0, 0. by apply fresh_frame.
Qed.

Lemma booted_has_vcpus : has_vcpus (boot_system hhdm c r k p q) (boot_vcpus hhdm thread_a thread_b c p q).
Proof using All.
  destruct Hb as (own & frames & Hnd & Hsub & Hr & _ & Ht & T1 & T2 & _). pose proof hhdm_nonneg as Hh.
  apply NoDup_cons in Hnd as [Hp Hnd]. apply NoDup_cons in Hnd as [Hq Hnd].
  assert (Hpa : p ∈ avail) by (apply Hsub; by left). assert (Hqa : q ∈ avail) by (apply Hsub; right; by left).
  assert (Hpq : p <> q) by (intros ->; apply Hp; by left).
  destruct (Hav p Hpa) as (Hp0 & _ & Hpt & _), (Hav q Hqa) as (Hq0 & _ & Hqt & _).
  pose proof Ht as [W C R N _ _]. pose proof (fun i => tasks_upto_live _ i Ht) as Hl.
  split; cbn [boot_system boot_vcpus z_cpu z_mach z_pmm z_stk v_cur v_ctx m_sched m_mem]; rewrite ?C; try done.
  - intros i. rewrite Hl. apply three_insert.
  - intros i. rewrite Hl. apply three_insert.
  - by apply booted_stacks.
  - intros i ci ri Hi Hri. rewrite !lookup_insert_Some, lookup_empty in Hi. rewrite !lookup_insert_Some, lookup_empty in Hri.
    destruct Hi as [[<- <-]|[? [[<- <-]|[? [[<- <-]|[_ [=]]]]]]], Hri as [[? <-]|[? [[? <-]|[? [[? <-]|[_ [=]]]]]]];
      try done; apply fresh_ok; lia.
  - intros i ci ri Hne Hi Hri. rewrite !lookup_insert_Some, lookup_empty in Hi. rewrite !lookup_insert_Some, lookup_empty in Hri.
    destruct Hi as [[<- <-]|[? [[<- <-]|[? [[<- <-]|[_ [=]]]]]]], Hri as [[? <-]|[? [[? <-]|[? [[? <-]|[_ [=]]]]]]];
      try done; by eapply thread_saved.
  - exists free. destruct (booted_pmm _ _ _ _ _ _ _ _ Hb) as [Hrep Hhh]. split; [done|]. rewrite Hhh. intros x Hx.
    assert (Hxa : x ∈ avail) by (apply Hsub; by do 2 right).
    destruct (Hav x Hxa) as (_ & _ & Hxt & Hxr). split; [done|].
    pose proof (avail_apart x p Hxa Hpa ltac:(intros ->; apply Hp; by right)).
    pose proof (avail_apart x q Hxa Hqa ltac:(intros ->; by apply Hq)).
    intros i ri Hi. rewrite !lookup_insert_Some, lookup_empty in Hi.
    destruct Hi as [[_ <-]|[_ [[_ <-]|[_ [[_ <-]|[_ [=]]]]]]]; cbn [fst snd]; lia.
Qed.
End Booted.

(** ** Turns *)

(** Whatever happens between two ticks, with nobody creating a task. *)
Definition quiet (a : act) : Prop :=
  match a with Compute _ => True | Interrupt vector => vector <> 32 | Create _ => False end.

Lemma quiet_steps l v v' :
  steps vcpu_step l v v' -> Forall quiet l -> is_Some (v_ctx v !! v_cur v) ->
  v_cur v' = v_cur v /\ (forall i, i <> v_cur v -> v_ctx v' !! i = v_ctx v !! i) /\ is_Some (v_ctx v' !! v_cur v).
Proof.
  intros Hs. induction Hs as [v|a l v v1 v' Ha _ IH]; intros Hq Hv; [done|]. apply Forall_cons in Hq as [Hqa Hq].
  destruct Ha as [j ctx c|j j' ctx _|vec ? _|en i top j ctx _|en ?]; cbn [v_cur v_ctx quiet] in *; try done; [|by apply IH].
  destruct IH as (H1 & H2 & H3); [done|rewrite lookup_insert_eq; by eexists|]. split; [done|]. split; [|done].
  intros i Hi. rewrite H2 by done. by apply lookup_insert_ne.
Qed.

Lemma turn_inv v v' : vcpu_step (Interrupt 32) v v' -> v_ctx v' = v_ctx v /\ next_live (v_ctx v) (v_cur v) (v_cur v').
Proof. intros H. inversion H; subst; by cbn. Qed.

Lemma next_of_three ctx j : three ctx -> 0 <= j < 3 -> next_live ctx j ((j + 1) mod 3).
Proof.
  intros H3 Hj. assert (Hno : forall i, 3 <= i -> ctx !! i = None).
  { intros i Hi. apply eq_None_not_Some. rewrite (H3 i). lia. }
  assert (Hj' : j = 0 \/ j = 1 \/ j = 2) by lia. exists (if j =? 2 then 62 else 1).
  destruct Hj' as [->|[->| ->]]; (split; [done|]); (split; [done|]); (split; [apply H3; mlia|]);
    cbn [Z.eqb Pos.eqb]; intros e He; try lia. apply Hno. rewrite Z.mod_small; lia.
Qed.

(** A tick after a quiet spell: the turn goes to the next task, the registers of the
    last one are kept, those of the others stay. *)
Lemma spell dev z v z1 z2 l :
  has_vcpus z v -> three (v_ctx v) -> 0 <= v_cur v < 3 -> steps (sys_step dev) l z z1 -> Forall quiet l ->
  sys_step dev (Interrupt 32) z1 z2 ->
  exists v2, has_vcpus z2 v2 /\ three (v_ctx v2) /\ v_cur v2 = (v_cur v + 1) mod 3 /\
    v_ctx v2 !! v_cur v = Some (z_cpu z1) /\ (forall i, i <> v_cur v -> v_ctx v2 !! i = v_ctx v !! i) /\
    v_ctx v2 !! v_cur v2 = Some (z_cpu z2).
Proof.
  intros H H3 Hc Hs Hq Ht. destruct (steps_simulate dev l z z1 v Hs H) as (v1 & Hv1 & H1).
  destruct (step_simulates dev _ z1 z2 v1 Ht H1) as (v2 & Hv2 & H2). destruct (turn_inv v1 v2 Hv2) as [Ectx Hn].
  destruct (quiet_steps l v v1 Hv1 Hq) as (Ec & Eo & Es); [apply H3; lia|].
  assert (H31 : three (v_ctx v1)).
  { intros i. destruct (decide (i = v_cur v)) as [->|Hne]; [split; [lia|done]|]. rewrite Eo by done. apply H3. }
  rewrite Ec in Hn. pose proof (next_live_fun _ _ _ _ Hn (next_of_three _ _ H31 Hc)) as En.
  exists v2. rewrite Ectx. split; [done|]. split; [done|]. split; [done|].
  split; [by rewrite <-Ec, (hv_cur _ _ H1), (hv_self _ _ H1)|]. split; [done|].
  by rewrite <-Ectx, (hv_cur _ _ H2), (hv_self _ _ H2).
Qed.

(** ** The whole system *)

Section Whole.
Context (dev : trace -> Z -> Z) (n kfuel pfuel ffuel : nat) (dec : list Z).
Context (gdt_addr idt_addr pt_pool kernel_start kernel_end thread_a thread_b : Z).
Context (isr irq : Z -> Z) (eax edx : Z) (hhdm : Z).
Context (Hlive : uart_live dev n) (Hkbd : kbd_live dev kfuel) (Hdec : length dec = 21%nat).

(** C2 From the hand-over of the boot loader to threads that run: [kmain] reaches its
    loop, and from there, whatever the tasks compute and whichever other interrupts
    come between ticks, the first tick starts [thread_a] at its entry on its own
    stack, the second starts [thread_b] on another, and the third resumes [init]
    with exactly the registers it was interrupted with. *)
Theorem threads_take_turns bi early wakes frame k fs own tr :
  bootable hhdm pt_pool kernel_start kernel_end thread_a thread_b fs pfuel ffuel bi early wakes k own ->
  exists k' tr' p q,
    kmain dev n kfuel pfuel (S ffuel) dec gdt_addr idt_addr pt_pool kernel_start kernel_end
      thread_a thread_b isr irq eax edx bi early wakes frame k tr = Some (k', tr') /\
    p ∈ usable kernel_start kernel_end bi /\ q ∈ usable kernel_start kernel_end bi /\ p <> q /\
    forall c r, on_stack r c -> 0 < r.1 -> r.2 < 2 ^ 64 ->
      (forall x, x ∈ usable kernel_start kernel_end bi -> r.2 <= hhdm + x \/ hhdm + x + 4096 <= r.1) ->
      let z0 := boot_system hhdm c r k' p q in
      has_vcpus z0 (boot_vcpus hhdm thread_a thread_b c p q) /\
      forall l1 l2 l3 z1 z2 z3 z4 z5 z6, Forall quiet (l1 ++ l2 ++ l3) ->
        steps (sys_step dev) l1 z0 z1 -> sys_step dev (Interrupt 32) z1 z2 ->
        steps (sys_step dev) l2 z2 z3 -> sys_step dev (Interrupt 32) z3 z4 ->
        steps (sys_step dev) l3 z4 z5 -> sys_step dev (Interrupt 32) z5 z6 ->
        z_cpu z2 = fresh_cpu thread_a (hhdm + p + 4096) /\ z_cpu z4 = fresh_cpu thread_b (hhdm + q + 4096) /\
        z_cpu z6 = z_cpu z1.
Proof using Hlive Hkbd Hdec.
  intros H. destruct (boot_total dev n kfuel pfuel ffuel dec gdt_addr idt_addr pt_pool kernel_start kernel_end thread_a thread_b
    isr irq eax edx hhdm Hlive Hkbd Hdec bi early wakes frame k fs own H tr) as (k' & tr' & E & p & q & free & Hb).
  exists k', tr', p, q. split; [exact E|]. pose proof Hb as (_ & _ & Hnd & Hsub & _). apply NoDup_cons in Hnd as [Hp _].
  split; [apply Hsub; by left|]. split; [apply Hsub; right; by left|]. split; [intros ->; apply Hp; by left|].
  intros c r Hon Hlo Hhi Hst z0.
  assert (H0 : has_vcpus z0 (boot_vcpus hhdm thread_a thread_b c p q)).
  { eapply booted_has_vcpus; [exact Hb|apply H..|done|done|done|]. intros x Hx.
    pose proof (bp_frames _ _ _ _ _ _ _ (ho_before _ _ _ _ _ _ _ _ _ (bo_handoff _ _ _ _ _ _ _ _ _ _ _ _ _ _ H))) as Hfr.
    rewrite Forall_forall in Hfr. destruct (Hfr x Hx) as ((? & ? & _) & _ & ? & _). by auto. }
  split; [exact H0|]. intros l1 l2 l3 z1 z2 z3 z4 z5 z6 Hq S1 T1 S2 T2 S3 T3.
  apply Forall_app in Hq as [Hq1 Hq]. apply Forall_app in Hq as [Hq2 Hq3].
  destruct (spell dev z0 _ z1 z2 l1 H0 (three_insert _ _ _) ltac:(done) S1 Hq1 T1) as (v2 & H2 & D2 & C2 & I2 & O2 & E2).
  cbn [boot_vcpus v_cur v_ctx] in *. change ((0 + 1) mod 3) with 1 in C2.
  destruct (spell dev z2 v2 z3 z4 l2 H2 D2 ltac:(by rewrite C2) S2 Hq2 T2) as (v4 & H4 & D4 & C4 & _ & O4 & E4).
  rewrite C2 in *. change ((1 + 1) mod 3) with 2 in C4.
  destruct (spell dev z4 v4 z5 z6 l3 H4 D4 ltac:(by rewrite C4) S3 Hq3 T3) as (v6 & H6 & D6 & C6 & _ & O6 & E6).
  rewrite C4 in *. change ((2 + 1) mod 3) with 0 in C6. rewrite C6 in *.
  rewrite O2 in E2 by done. rewrite O4, O2 in E4 by done. rewrite O6, O4, I2 in E6 by done.
  rewrite lookup_insert_ne, lookup_insert_eq in E2 by done. rewrite !lookup_insert_ne, lookup_insert_eq in E4 by done.
  injection E2 as <-. injection E4 as <-. by injection E6.
Qed.
End Whole.

(** ** A concrete run: the boot of Boot.v, then three ticks *)

Lemma threads_take_turns_witness : exists k' tr' p q z2 z4 z6,
  kmain demo_uart 2 1 1101 1 (repeat 0 21) 0x8000 0x9000 demo_pool 0xFFFFFFFF80000000 0xFFFFFFFF80100000
    0xFFFFFFFF80003000 0xFFFFFFFF80003040 (fun i => 0xFFFFFFFF80001000 + 16 * i) (fun i => 0xFFFFFFFF80002000 + 16 * i)
    0xFEE00900 0 demo_boot [0xFFFFFFFF80090000] (repeat (1, 0)%nat 100) 0xFFFFFFFF80090100 demo_kernel [] = Some (k', tr') /\
  sys_step demo_uart (Interrupt 32) (boot_system demo_hhdm demo_cpu (0x8000, 0x9008) k' p q) z2 /\
  sys_step demo_uart (Interrupt 32) z2 z4 /\ sys_step demo_uart (Interrupt 32) z4 z6 /\
  z_cpu z2 = fresh_cpu 0xFFFFFFFF80003000 (demo_hhdm + p + 4096) /\
  z_cpu z4 = fresh_cpu 0xFFFFFFFF80003040 (demo_hhdm + q + 4096) /\ z_cpu z6 = demo_cpu.
Proof.
  destruct (threads_take_turns demo_uart 2 1 1101 0 (repeat 0 21) 0x8000 0x9000 demo_pool 0xFFFFFFFF80000000 0xFFFFFFFF80100000
    0xFFFFFFFF80003000 0xFFFFFFFF80003040 (fun i => 0xFFFFFFFF80001000 + 16 * i) (fun i => 0xFFFFFFFF80002000 + 16 * i)
    0xFEE00900 0 demo_hhdm demo_uart_live demo_kbd_live eq_refl demo_boot [0xFFFFFFFF80090000] (repeat (1, 0)%nat 100)
    0xFFFFFFFF80090100 demo_kernel demo_fs demo_tree [] demo_bootable) as (k' & tr' & p & q & E & Hp & Hq & _ & H).
  destruct (H demo_cpu (0x8000, 0x9008)) as [H0 Ht]; [split; [exact demo_cpu_ok|cbn; lia]|reflexivity|reflexivity| |].
  { intros x Hx. left. rewrite demo_usable in Hx. apply elem_of_page_seq in Hx as (i & Hi & ->). unfold demo_hhdm. cbn [snd]. lia. }
  destruct (interrupt_enabled demo_uart 32 _ _ H0 ltac:(lia)) as [z2 T1]. destruct (step_simulates _ _ _ _ _ T1 H0) as (v2 & _ & H2).
  destruct (interrupt_enabled demo_uart 32 _ _ H2 ltac:(lia)) as [z4 T2]. destruct (step_simulates _ _ _ _ _ T2 H2) as (v4 & _ & H4).
  destruct (interrupt_enabled demo_uart 32 _ _ H4 ltac:(lia)) as [z6 T3].
  destruct (Ht [] [] [] _ z2 z2 z4 z4 z6 (Forall_nil_2 _) (steps_nil _ _) T1 (steps_nil _ _) T2 (steps_nil _ _) T3) as (R1 & R2 & R3).
  exists k', tr', p, q, z2, z4, z6. split; [exact E|]. split; [exact T1|]. split; [exact T2|]. split; [exact T3|].
  split; [exact R1|]. split; [exact R2|exact R3].
Defined.
