(* ===== verification/LimineHeader.v ===== *)
(** [src/kernel/include/limine.h], the protocol between the boot loader and the kernel:
    the identifiers and structures of every request, laid out as Layout.v says, and the
    requests [src/kernel/kmain.c] places in the image. The branch of the header for
    x86-64 is modelled; [LIMINE_PTR] is a pointer. *)

From Stdlib Require Import String.
From S2P Require Import Prelude Mem Context Layout.

Section Declarations.
#[local] Open Scope string_scope.
#[local] Open Scope list_scope.
#[local] Open Scope Z_scope.

(** ** Markers and identifiers *)

Definition LIMINE_REQUESTS_START_MARKER : list Z :=
  [0xf6b8f4b39de7d1ae; 0xfab91a6940fcb9cf; 0x785c6ed015d3e316; 0x181e920a7852b9d9].
Definition LIMINE_REQUESTS_END_MARKER : list Z := [0xadc0e0531bb10d03; 0x9572709f31764c62].
Definition LIMINE_BASE_REVISION (n : Z) : list Z := [0xf9562b2d5c95a6c8; 0x6a7b384944536bdc; n].

(** [var]: the array declared with [LIMINE_BASE_REVISION], as the loader leaves it. *)
Definition LIMINE_BASE_REVISION_SUPPORTED (var : list Z) : bool := nth 2 var 0 =? 0.
Definition LIMINE_LOADED_BASE_REVISION_VALID (var : list Z) : bool := negb (nth 1 var 0 =? 0x6a7b384944536bdc).
Definition LIMINE_LOADED_BASE_REVISION (var : list Z) : Z := nth 1 var 0.

Definition LIMINE_COMMON_MAGIC : list Z := [0xc7b1dd30df4c8b88; 0x0a82e883a194f07b].

(** ** Requests and responses *)

Definition struct_limine_uuid : cstruct := CStruct false [
  ("a", uint32_t); ("b", uint16_t); ("c", uint16_t); ("d", array uint8_t 8)].

Definition struct_limine_file : cstruct := CStruct false [
  ("revision", uint64_t); ("address", ptr); ("size", uint64_t); ("path", ptr); ("string", ptr);
  ("media_type", uint32_t); ("unused", uint32_t); ("tftp_ipv4", array uint8_t 4);
  ("tftp_port", uint32_t); ("partition_index", uint32_t); ("mbr_disk_id", uint32_t);
  ("gpt_disk_uuid", struct_type struct_limine_uuid); ("gpt_part_uuid", struct_type struct_limine_uuid);
  ("part_uuid", struct_type struct_limine_uuid)].

Definition LIMINE_BOOTLOADER_INFO_REQUEST_ID : list Z := LIMINE_COMMON_MAGIC ++ [0xf55038d8e2a1202f; 0x279426fcf5f59740].
Definition struct_limine_bootloader_info_response : cstruct := CStruct false [
  ("revision", uint64_t); ("name", ptr); ("version", ptr)].

Definition struct_limine_bootloader_info_request : cstruct := CStruct false [
  ("id", array uint64_t 4); ("revision", uint64_t); ("response", ptr)].

Definition LIMINE_EXECUTABLE_CMDLINE_REQUEST_ID : list Z := LIMINE_COMMON_MAGIC ++ [0x4b161536e598651e; 0xb390ad4a2f1f303a].
Definition struct_limine_executable_cmdline_response : cstruct := CStruct false [
  ("revision", uint64_t); ("cmdline", ptr)].

Definition struct_limine_executable_cmdline_request : cstruct := CStruct false [
  ("id", array uint64_t 4); ("revision", uint64_t); ("response", ptr)].

Definition LIMINE_FIRMWARE_TYPE_REQUEST_ID : list Z := LIMINE_COMMON_MAGIC ++ [0x8c2f75d90bef28a8; 0x7045a4688eac00c3].
Definition struct_limine_firmware_type_response : cstruct := CStruct false [
  ("revision", uint64_t); ("firmware_type", uint64_t)].

Definition struct_limine_firmware_type_request : cstruct := CStruct false [
  ("id", array uint64_t 4); ("revision", uint64_t); ("response", ptr)].

Definition LIMINE_STACK_SIZE_REQUEST_ID : list Z := LIMINE_COMMON_MAGIC ++ [0x224ef0460a8e8926; 0xe1cb0fc25f46ea3d].
Definition struct_limine_stack_size_response : cstruct := CStruct false [
  ("revision", uint64_t)].

Definition struct_limine_stack_size_request : cstruct := CStruct false [
  ("id", array uint64_t 4); ("revision", uint64_t); ("response", ptr); ("stack_size", uint64_t)].

Definition LIMINE_HHDM_REQUEST_ID : list Z := LIMINE_COMMON_MAGIC ++ [0x48dcf1cb8ad2b852; 0x63984e959a98244b].
Definition struct_limine_hhdm_response : cstruct := CStruct false [
  ("revision", uint64_t); ("offset", uint64_t)].

Definition struct_limine_hhdm_request : cstruct := CStruct false [
  ("id", array uint64_t 4); ("revision", uint64_t); ("response", ptr)].

Definition LIMINE_FRAMEBUFFER_REQUEST_ID : list Z := LIMINE_COMMON_MAGIC ++ [0x9d5827dcd881dd75; 0xa3148604f6fab11b].
Definition struct_limine_video_mode : cstruct := CStruct false [
  ("pitch", uint64_t); ("width", uint64_t); ("height", uint64_t); ("bpp", uint16_t);
  ("memory_model", uint8_t); ("red_mask_size", uint8_t); ("red_mask_shift", uint8_t);
  ("green_mask_size", uint8_t); ("green_mask_shift", uint8_t); ("blue_mask_size", uint8_t);
  ("blue_mask_shift", uint8_t)].

Definition struct_limine_framebuffer : cstruct := CStruct false [
  ("address", ptr); ("width", uint64_t); ("height", uint64_t); ("pitch", uint64_t); ("bpp", uint16_t);
  ("memory_model", uint8_t); ("red_mask_size", uint8_t); ("red_mask_shift", uint8_t);
  ("green_mask_size", uint8_t); ("green_mask_shift", uint8_t); ("blue_mask_size", uint8_t);
  ("blue_mask_shift", uint8_t); ("unused", array uint8_t 7); ("edid_size", uint64_t); ("edid", ptr);
  ("mode_count", uint64_t); ("modes", ptr)].

Definition struct_limine_framebuffer_response : cstruct := CStruct false [
  ("revision", uint64_t); ("framebuffer_count", uint64_t); ("framebuffers", ptr)].

Definition struct_limine_framebuffer_request : cstruct := CStruct false [
  ("id", array uint64_t 4); ("revision", uint64_t); ("response", ptr)].

Definition LIMINE_FLANTERM_FB_INIT_PARAMS_REQUEST_ID : list Z := LIMINE_COMMON_MAGIC ++ [0x3259399fe7c5f126; 0xe01c1c8c5db9d1a9].
Definition struct_limine_flanterm_fb_init_params : cstruct := CStruct false [
  ("canvas", ptr); ("canvas_size", uint64_t); ("ansi_colours", array uint32_t 8);
  ("ansi_bright_colours", array uint32_t 8); ("default_bg", uint32_t); ("default_fg", uint32_t);
  ("default_bg_bright", uint32_t); ("default_fg_bright", uint32_t); ("font", ptr);
  ("font_width", uint64_t); ("font_height", uint64_t); ("font_spacing", uint64_t);
  ("font_scale_x", uint64_t); ("font_scale_y", uint64_t); ("margin", uint64_t); ("rotation", uint64_t)].

Definition struct_limine_flanterm_fb_init_params_response : cstruct := CStruct false [
  ("revision", uint64_t); ("entry_count", uint64_t); ("entries", ptr)].

Definition struct_limine_flanterm_fb_init_params_request : cstruct := CStruct false [
  ("id", array uint64_t 4); ("revision", uint64_t); ("response", ptr)].

Definition LIMINE_PAGING_MODE_REQUEST_ID : list Z := LIMINE_COMMON_MAGIC ++ [0x95c1a0edab0944cb; 0xa4e5cb3842f7488a].
Definition struct_limine_paging_mode_response : cstruct := CStruct false [
  ("revision", uint64_t); ("mode", uint64_t)].

Definition struct_limine_paging_mode_request : cstruct := CStruct false [
  ("id", array uint64_t 4); ("revision", uint64_t); ("response", ptr); ("mode", uint64_t);
  ("max_mode", uint64_t); ("min_mode", uint64_t)].

Definition LIMINE_MP_REQUEST_ID : list Z := LIMINE_COMMON_MAGIC ++ [0x95a67b819a1b857e; 0xa0b61b723b6a73e0].
Definition struct_limine_mp_info : cstruct := CStruct false [
  ("processor_id", uint32_t); ("lapic_id", uint32_t); ("reserved", uint64_t); ("goto_address", ptr);
  ("extra_argument", uint64_t)].

Definition struct_limine_mp_response : cstruct := CStruct false [
  ("revision", uint64_t); ("flags", uint32_t); ("bsp_lapic_id", uint32_t); ("cpu_count", uint64_t);
  ("cpus", ptr)].

Definition struct_limine_mp_request : cstruct := CStruct false [
  ("id", array uint64_t 4); ("revision", uint64_t); ("response", ptr); ("flags", uint64_t)].

Definition LIMINE_MEMMAP_REQUEST_ID : list Z := LIMINE_COMMON_MAGIC ++ [0x67cf3d9d378a806f; 0xe304acdfc50c3c62].
Definition struct_limine_memmap_entry : cstruct := CStruct false [
  ("base", uint64_t); ("length", uint64_t); ("type", uint64_t)].

Definition struct_limine_memmap_response : cstruct := CStruct false [
  ("revision", uint64_t); ("entry_count", uint64_t); ("entries", ptr)].

Definition struct_limine_memmap_request : cstruct := CStruct false [
  ("id", array uint64_t 4); ("revision", uint64_t); ("response", ptr)].

Definition LIMINE_ENTRY_POINT_REQUEST_ID : list Z := LIMINE_COMMON_MAGIC ++ [0x13d86c035a1cd3e1; 0x2b0caa89d8f3026a].
Definition struct_limine_entry_point_response : cstruct := CStruct false [
  ("revision", uint64_t)].

Definition struct_limine_entry_point_request : cstruct := CStruct false [
  ("id", array uint64_t 4); ("revision", uint64_t); ("response", ptr); ("entry", ptr)].

Definition LIMINE_EXECUTABLE_FILE_REQUEST_ID : list Z := LIMINE_COMMON_MAGIC ++ [0xad97e90e83f1ed67; 0x31eb5d1c5ff23b69].
Definition struct_limine_executable_file_response : cstruct := CStruct false [
  ("revision", uint64_t); ("executable_file", ptr)].

Definition struct_limine_executable_file_request : cstruct := CStruct false [
  ("id", array uint64_t 4); ("revision", uint64_t); ("response", ptr)].

Definition LIMINE_MODULE_REQUEST_ID : list Z := LIMINE_COMMON_MAGIC ++ [0x3e7e279702be32af; 0xca1c4f3bd1280cee].
Definition struct_limine_internal_module : cstruct := CStruct false [
  ("path", ptr); ("string", ptr); ("flags", uint64_t)].

Definition struct_limine_module_response : cstruct := CStruct false [
  ("revision", uint64_t); ("module_count", uint64_t); ("modules", ptr)].

Definition struct_limine_module_request : cstruct := CStruct false [
  ("id", array uint64_t 4); ("revision", uint64_t); ("response", ptr);
  ("internal_module_count", uint64_t); ("internal_modules", ptr)].

Definition LIMINE_RSDP_REQUEST_ID : list Z := LIMINE_COMMON_MAGIC ++ [0xc5e77b6b397e7b43; 0x27637845accdcf3c].
Definition struct_limine_rsdp_response : cstruct := CStruct false [
  ("revision", uint64_t); ("address", ptr)].

Definition struct_limine_rsdp_request : cstruct := CStruct false [
  ("id", array uint64_t 4); ("revision", uint64_t); ("response", ptr)].

Definition LIMINE_SMBIOS_REQUEST_ID : list Z := LIMINE_COMMON_MAGIC ++ [0x9e9046f11e095391; 0xaa4a520fefbde5ee].
Definition struct_limine_smbios_response : cstruct := CStruct false [
  ("revision", uint64_t); ("entry_32", ptr); ("entry_64", ptr)].

Definition struct_limine_smbios_request : cstruct := CStruct false [
  ("id", array uint64_t 4); ("revision", uint64_t); ("response", ptr)].

Definition LIMINE_EFI_SYSTEM_TABLE_REQUEST_ID : list Z := LIMINE_COMMON_MAGIC ++ [0x5ceba5163eaaf6d6; 0x0a6981610cf65fcc].
Definition struct_limine_efi_system_table_response : cstruct := CStruct false [
  ("revision", uint64_t); ("address", ptr)].

Definition struct_limine_efi_system_table_request : cstruct := CStruct false [
  ("id", array uint64_t 4); ("revision", uint64_t); ("response", ptr)].

Definition LIMINE_TPM_EVENT_LOG_REQUEST_ID : list Z := LIMINE_COMMON_MAGIC ++ [0x98e094fc7e76e979; 0xee8d8775c54e1d1f].
Definition struct_limine_tpm_event_log_response : cstruct := CStruct false [
  ("revision", uint64_t); ("format", uint64_t); ("size", uint64_t); ("address", ptr)].

Definition struct_limine_tpm_event_log_request : cstruct := CStruct false [
  ("id", array uint64_t 4); ("revision", uint64_t); ("response", ptr)].

Definition LIMINE_EFI_MEMMAP_REQUEST_ID : list Z := LIMINE_COMMON_MAGIC ++ [0x7df62a431d6872d5; 0xa4fcdfb3e57306c8].
Definition struct_limine_efi_memmap_response : cstruct := CStruct false [
  ("revision", uint64_t); ("memmap", ptr); ("memmap_size", uint64_t); ("desc_size", uint64_t);
  ("desc_version", uint64_t)].

Definition struct_limine_efi_memmap_request : cstruct := CStruct false [
  ("id", array uint64_t 4); ("revision", uint64_t); ("response", ptr)].

Definition LIMINE_DATE_AT_BOOT_REQUEST_ID : list Z := LIMINE_COMMON_MAGIC ++ [0x502746e184c088aa; 0xfbc5ec83e6327893].
Definition struct_limine_date_at_boot_response : cstruct := CStruct false [
  ("revision", uint64_t); ("timestamp", int64_t)].

Definition struct_limine_date_at_boot_request : cstruct := CStruct false [
  ("id", array uint64_t 4); ("revision", uint64_t); ("response", ptr)].

Definition LIMINE_EXECUTABLE_ADDRESS_REQUEST_ID : list Z := LIMINE_COMMON_MAGIC ++ [0x71ba76863cc55f63; 0xb2644a48c516a487].
Definition struct_limine_executable_address_response : cstruct := CStruct false [
  ("revision", uint64_t); ("physical_base", uint64_t); ("virtual_base", uint64_t)].

Definition struct_limine_executable_address_request : cstruct := CStruct false [
  ("id", array uint64_t 4); ("revision", uint64_t); ("response", ptr)].

Definition LIMINE_DTB_REQUEST_ID : list Z := LIMINE_COMMON_MAGIC ++ [0xb40ddb48fb54bac7; 0x545081493f81ffb7].
Definition struct_limine_dtb_response : cstruct := CStruct false [
  ("revision", uint64_t); ("dtb_ptr", ptr)].

Definition struct_limine_dtb_request : cstruct := CStruct false [
  ("id", array uint64_t 4); ("revision", uint64_t); ("response", ptr)].

Definition LIMINE_RISCV_BSP_HARTID_REQUEST_ID : list Z := LIMINE_COMMON_MAGIC ++ [0x1369359f025525f9; 0x2ff2a56178391bb6].
Definition struct_limine_riscv_bsp_hartid_response : cstruct := CStruct false [
  ("revision", uint64_t); ("bsp_hartid", uint64_t)].

Definition struct_limine_riscv_bsp_hartid_request : cstruct := CStruct false [
  ("id", array uint64_t 4); ("revision", uint64_t); ("response", ptr)].

Definition LIMINE_BOOTLOADER_PERFORMANCE_REQUEST_ID : list Z := LIMINE_COMMON_MAGIC ++ [0x6b50ad9bf36d13ad; 0xdc4c7e88fc759e17].
Definition struct_limine_bootloader_performance_response : cstruct := CStruct false [
  ("revision", uint64_t); ("reset_usec", uint64_t); ("init_usec", uint64_t); ("exec_usec", uint64_t)].

Definition struct_limine_bootloader_performance_request : cstruct := CStruct false [
  ("id", array uint64_t 4); ("revision", uint64_t); ("response", ptr)].

Definition LIMINE_X86_64_KEEP_IOMMU_REQUEST_ID : list Z := LIMINE_COMMON_MAGIC ++ [0x8ebaabe51f490179; 0x2aa86a59ffb4ab0f].
Definition struct_limine_x86_64_keep_iommu_response : cstruct := CStruct false [
  ("revision", uint64_t)].

Definition struct_limine_x86_64_keep_iommu_request : cstruct := CStruct false [
  ("id", array uint64_t 4); ("revision", uint64_t); ("response", ptr)].

Definition LIMINE_TSC_FREQUENCY_REQUEST_ID : list Z := LIMINE_COMMON_MAGIC ++ [0x10f2ee1d87d195e4; 0xf747a2b78f6ddb31].
Definition struct_limine_tsc_frequency_response : cstruct := CStruct false [
  ("revision", uint64_t); ("frequency", uint64_t)].

Definition struct_limine_tsc_frequency_request : cstruct := CStruct false [
  ("id", array uint64_t 4); ("revision", uint64_t); ("response", ptr)].

End Declarations.

(** The requests: identifier and structure. *)
Definition limine_requests : list (list Z * cstruct) := [
  (LIMINE_BOOTLOADER_INFO_REQUEST_ID, struct_limine_bootloader_info_request);
  (LIMINE_EXECUTABLE_CMDLINE_REQUEST_ID, struct_limine_executable_cmdline_request);
  (LIMINE_FIRMWARE_TYPE_REQUEST_ID, struct_limine_firmware_type_request);
  (LIMINE_STACK_SIZE_REQUEST_ID, struct_limine_stack_size_request);
  (LIMINE_HHDM_REQUEST_ID, struct_limine_hhdm_request);
  (LIMINE_FRAMEBUFFER_REQUEST_ID, struct_limine_framebuffer_request);
  (LIMINE_FLANTERM_FB_INIT_PARAMS_REQUEST_ID, struct_limine_flanterm_fb_init_params_request);
  (LIMINE_PAGING_MODE_REQUEST_ID, struct_limine_paging_mode_request);
  (LIMINE_MP_REQUEST_ID, struct_limine_mp_request);
  (LIMINE_MEMMAP_REQUEST_ID, struct_limine_memmap_request);
  (LIMINE_ENTRY_POINT_REQUEST_ID, struct_limine_entry_point_request);
  (LIMINE_EXECUTABLE_FILE_REQUEST_ID, struct_limine_executable_file_request);
  (LIMINE_MODULE_REQUEST_ID, struct_limine_module_request);
  (LIMINE_RSDP_REQUEST_ID, struct_limine_rsdp_request);
  (LIMINE_SMBIOS_REQUEST_ID, struct_limine_smbios_request);
  (LIMINE_EFI_SYSTEM_TABLE_REQUEST_ID, struct_limine_efi_system_table_request);
  (LIMINE_TPM_EVENT_LOG_REQUEST_ID, struct_limine_tpm_event_log_request);
  (LIMINE_EFI_MEMMAP_REQUEST_ID, struct_limine_efi_memmap_request);
  (LIMINE_DATE_AT_BOOT_REQUEST_ID, struct_limine_date_at_boot_request);
  (LIMINE_EXECUTABLE_ADDRESS_REQUEST_ID, struct_limine_executable_address_request);
  (LIMINE_DTB_REQUEST_ID, struct_limine_dtb_request);
  (LIMINE_RISCV_BSP_HARTID_REQUEST_ID, struct_limine_riscv_bsp_hartid_request);
  (LIMINE_BOOTLOADER_PERFORMANCE_REQUEST_ID, struct_limine_bootloader_performance_request);
  (LIMINE_X86_64_KEEP_IOMMU_REQUEST_ID, struct_limine_x86_64_keep_iommu_request);
  (LIMINE_TSC_FREQUENCY_REQUEST_ID, struct_limine_tsc_frequency_request)].

(** ** What kmain.c places in the sections [.limine_requests*] *)

Definition limine_requests_start : list Z := LIMINE_REQUESTS_START_MARKER.
Definition limine_base_revision : list Z := LIMINE_BASE_REVISION 6.
Definition hhdm_request_init : list Z := LIMINE_HHDM_REQUEST_ID ++ [0; 0].
Definition memmap_request_init : list Z := LIMINE_MEMMAP_REQUEST_ID ++ [0; 0].
Definition fb_request_init : list Z := LIMINE_FRAMEBUFFER_REQUEST_ID ++ [0; 0].
(** Four words, two of them given. *)
Definition limine_requests_end : list Z := LIMINE_REQUESTS_END_MARKER ++ [0; 0].

(** ** The common part of the requests *)

(** The identifier of the request at [p]. *)
Definition read_id {S : Type} `{AddrSpace S} (s : S) (p : Z) : list Z := (fun i => ld64 s (p + 8 * i)) <$> seqZ 0 4.

Lemma requests_header : Forall (fun r => struct_ok r.2 /\
  member r.2 "id" = Some (0, array uint64_t 4) /\ member r.2 "revision" = Some (32, uint64_t) /\
  member r.2 "response" = Some (40, ptr)) limine_requests.
Proof.
  repeat (apply Forall_cons; split; [split; [by apply (bool_decide_unpack _); vm_compute|repeat split]|]).
  constructor.
Qed.

Lemma requests_distinct : NoDup limine_requests.*1.
Proof. by apply (bool_decide_unpack _); vm_compute. Qed.

Lemma requests_unique id st st' : (id, st) ∈ limine_requests -> (id, st') ∈ limine_requests -> st = st'.
Proof.
  pose proof requests_distinct as Hnd. induction limine_requests as [|[i u] l IH]; [set_solver|].
  cbn in Hnd. apply NoDup_cons in Hnd as [Hni Hnd].
  assert (Hin : forall u', (id, u') ∈ l -> id ∈ l.*1) by (intros u' ?; apply (list_elem_of_fmap_2 fst l (id, u')); done).
  intros [E|H]%elem_of_cons [E'|H']%elem_of_cons; simplify_eq; [done|..|by apply IH].
  - by destruct Hni; eapply Hin.
  - by destruct Hni; eapply Hin.
Qed.

Section Answer.
Context {S : Type} `{AddrSpaceLaws S}.
Implicit Types s : S.

Lemma read_id_agree s s' p : agree s s' p 32 -> read_id s' p = read_id s p.
Proof.
  intros Ha. unfold read_id. apply list_fmap_ext. intros i z Hz%list_elem_of_lookup_2%elem_of_seqZ.
  apply ld64_agree. eapply agree_sub; [exact Ha|lia|lia].
Qed.

(** C21 Every request of limine.h can be answered knowing nothing of it but the header it
    shares with the simplest one: a pointer stored as if into a [limine_hhdm_request]
    is what the kernel reads from [response]; no other member, known to that header or
    not, changes; and the identifier still tells which of the requests it is. *)
Theorem requests_common id st s p v :
  (id, st) ∈ limine_requests -> vok_range s p (sizeof (struct_type st)) -> read_id s p = id ->
  exists s', st_field struct_limine_hhdm_request "response" s p v = Some s' /\
    ld_field st "response" s' p = Some (u64 v) /\
    (forall f, f <> "response"%string -> ld_field st f s' p = ld_field st f s p) /\
    read_id s' p = id /\ (forall st', (read_id s' p, st') ∈ limine_requests -> st' = st).
Proof.
  intros Hin Hv Hid. pose proof requests_header as Hh. rewrite Forall_forall in Hh.
  destruct (Hh _ Hin) as (Hok & _ & _ & Hr). cbn [snd] in Hok, Hr.
  assert (E : st_field struct_limine_hhdm_request "response" s p v = st_field st "response" s p v).
  { unfold st_field. by rewrite Hr. }
  rewrite E. assert (Es : st_field st "response" s p v = Some (st64 s (p + 40) v)) by (unfold st_field; by rewrite Hr).
  exists (st64 s (p + 40) v). split; [exact Es|].
  split; [by rewrite (ld_st_field_eq _ _ _ _ _ _ _ _ Hok Hr Hv Es)|].
  split; [intros f Hf; by eapply ld_st_field_ne|].
  destruct (member_within _ _ _ _ Hok Hr) as (_ & _ & Hw). cbn [sizeof ptr scalar] in Hw.
  assert (Ei : read_id (st64 s (p + 40) v) p = id).
  { rewrite read_id_agree with (s := s); [done|]. apply (st_le_agree 8); [eapply vok_range_sub; [exact Hv|lia|lia]..|lia]. }
  split; [done|]. rewrite Ei. intros st' Hin'. by eapply requests_unique.
Qed.
End Answer.

(** A request as the linker places it has its identifier and no response yet. *)
Lemma request_init id st (m : mem) p :
  (id, st) ∈ limine_requests -> words_at m p (id ++ [0; 0]) ->
  read_id m p = id /\ ld_field st "revision" m p = Some 0 /\ ld_field st "response" m p = Some 0.
Proof.
  intros Hin Hw. pose proof requests_header as Hh. rewrite Forall_forall in Hh.
  destruct (Hh _ Hin) as (_ & _ & Hv & Hr). cbn [snd] in Hv, Hr.
  assert (Hl : Forall (fun r => length r.1 = 4%nat) limine_requests) by (repeat constructor).
  rewrite Forall_forall in Hl. specialize (Hl _ Hin). cbn [fst] in Hl.
  destruct id as [|a [|b [|c [|d [|]]]]]; try done. clear Hl Hin Hh.
  cbn [app words_at] in Hw. rewrite <-!Z.add_assoc in Hw.
  destruct Hw as (Ha & Hb & Hc & Hd & Hrev & Hresp & _).
  unfold ld_field. rewrite Hv, Hr. cbn [fmap option_fmap option_map fst snd].
  split; [|split; [exact (f_equal Some Hrev)|exact (f_equal Some Hresp)]].
  change (read_id m p) with [ld64 m (p + 0); ld64 m (p + 8); ld64 m (p + 16); ld64 m (p + 24)].
  rewrite Z.add_0_r. f_equal; [exact Ha|]. f_equal; [exact Hb|]. f_equal; [exact Hc|]. f_equal. exact Hd.
Qed.

(** The framebuffer request of the kernel, answered. *)
Fixpoint put_words (m : mem) (a : Z) (ws : list Z) : mem :=
  match ws with
  | [] => m
  | w :: ws => put_words (st64 m a w) (a + 8) ws
  end.

Definition demo_request : mem := put_words ∅ 0xFFFFFFFF80000100 fb_request_init.

Lemma requests_common_witness : exists s',
  ld_field struct_limine_framebuffer_request "response" s' 0xFFFFFFFF80000100 = Some 0xFFFF800000123000 /\
  read_id s' 0xFFFFFFFF80000100 = LIMINE_FRAMEBUFFER_REQUEST_ID.
Proof.
  destruct (requests_common LIMINE_FRAMEBUFFER_REQUEST_ID struct_limine_framebuffer_request demo_request
    0xFFFFFFFF80000100 0xFFFF800000123000) as (s' & _ & E & _ & Ei & _).
  - unfold limine_requests. repeat (apply list_elem_of_here || apply list_elem_of_further).
  - apply mem_vok_range.
  - by vm_compute.
  - exists s'. split; [exact E|exact Ei].
Defined.
