(* ===== verification/Requests.v ===== *)
(** The boot sequence as it reads the responses of the boot loader: through the request
    structures of [src/kernel/kmain.c], laid out as LimineHeader.v says, in the memory
    that the sequence itself changes. The theorem: as long as the loader's structures
    lie apart from the page tables and from the usable frames, the sequence is the one
    of Boot.v on the values that were there at the start. *)

From Stdlib Require Import String.
From S2P Require Import Prelude Mem CString Pmm Vmm PortIO Format Serial Heap HeapInit Sched.
From S2P Require Import Context Panic Timer Keyboard Gdt Idt Fb Apic ApicTables Boot Layout LimineHeader.

Section Reads.
(** Where the linker places the three requests. *)
Context (hhdm_req memmap_req fb_req : Z).

(** [hhdm_request.response->offset]; [None]: the null pointer is dereferenced. *)
Definition read_hhdm (m : mem) : option Z :=
  response ← ld_field struct_limine_hhdm_request "response" m hhdm_req;
  if truthy response then ld_field struct_limine_hhdm_response "offset" m response else None.

(** [*entry] *)
Definition read_entry (m : mem) (p : Z) : option memmap_entry :=
  base ← ld_field struct_limine_memmap_entry "base" m p;
  len ← ld_field struct_limine_memmap_entry "length" m p;
  type ← ld_field struct_limine_memmap_entry "type" m p;
  Some (MemmapEntry base len type).

Section Pmm.
Context (kernel_start kernel_end : Z).

(** The loop over the memory map: count, entry pointer and entry are read again in
    every turn, after the turns before have written to the frames. *)
Fixpoint entries_loop (n fuel : nat) (hhdm mmr i : Z) (s : pmm * mem) : option (pmm * mem) :=
  match n with
  | O => None
  | S n =>
      entry_count ← ld_field struct_limine_memmap_response "entry_count" s.2 mmr;
      if i <? entry_count then
        entries ← ld_field struct_limine_memmap_response "entries" s.2 mmr;
        entry ← read_entry s.2 (ld64 s.2 (entries + 8 * i));
        match entry_range kernel_start kernel_end entry with
        | None => entries_loop n fuel hhdm mmr (u64 (i + 1)) s
        | Some (base, top) =>
            s ← page_loop fuel hhdm base top s;
            entries_loop n fuel hhdm mmr (u64 (i + 1)) s
        end
      else Some s
  end.

Definition pmm_init_mem (n fuel : nat) (hhdm_offset : Z) (st : pmm) (m : mem) : option (pmm * mem) :=
  let st := Pmm hhdm_offset (free_count st) (free_list_head st) in
  mmr ← ld_field struct_limine_memmap_request "response" m memmap_req;
  if negb (truthy mmr) then Some (st, m)
  else entries_loop n fuel hhdm_offset mmr 0 (st, m).
End Pmm.

Section Kmain.
Context (dev : trace -> Z -> Z) (n kfuel efuel pfuel ffuel : nat) (dec : list Z).
Context (gdt_addr idt_addr pt_pool kernel_start kernel_end thread_a thread_b : Z).
Context (isr irq : Z -> Z) (eax edx : Z).

Definition boot_fb_mem (hhdm : Z) (f : fb) (s : vmm) : prog trace (fb * vmm) := (
  let* response := pure (ld_field struct_limine_framebuffer_request "response" (v_mem s) fb_req) in
  let* present :=
    if truthy response then
      let* count := pure (ld_field struct_limine_framebuffer_response "framebuffer_count" (v_mem s) response) in
      pret (truthy count)
    else pret false in
  if present : bool then
    let* fbs := pure (ld_field struct_limine_framebuffer_response "framebuffers" (v_mem s) response) in
    let l := ld64 (v_mem s) fbs in
    let* address := pure (ld_field struct_limine_framebuffer "address" (v_mem s) l) in
    let* width := pure (ld_field struct_limine_framebuffer "width" (v_mem s) l) in
    let* height := pure (ld_field struct_limine_framebuffer "height" (v_mem s) l) in
    let* pitch := pure (ld_field struct_limine_framebuffer "pitch" (v_mem s) l) in
    let* bpp := pure (ld_field struct_limine_framebuffer "bpp" (v_mem s) l) in
    let* (f, s) := pure (fb_init ffuel hhdm (u64 (address - hhdm)) width height pitch bpp f s) in
    say dev n ok_nl ;; pret (banner f, s)
  else say dev n (chars "no framebuffer" ++ nl) ;; pret (f, s))%prog.

Definition boot_memory_mem (hhdm : Z) (k : kernel) : prog trace kernel := (
  say dev n (chars "[BOOT] Initializing PMM... ") ;;
  let* (pm, m) := pure (pmm_init_mem kernel_start kernel_end efuel pfuel hhdm (v_pmm (k_vmm k)) (v_mem (k_vmm k))) in
  let s := set_mem (set_pmm (k_vmm k) pm) m in
  say dev n ok_nl ;;
  say dev n (chars "  Free frames: ") ;; serial_put_dec dev n dec (pmm_get_free_count (v_pmm s)) ;; say dev n nl ;;
  say dev n (chars "[BOOT] Initializing VMM... ") ;;
  let s := vmm_init s in
  say dev n ok_nl ;;
  say dev n (chars "[BOOT] Initializing framebuffer... ") ;;
  let* (f, s) := boot_fb_mem hhdm (k_fb k) s in
  say dev n (chars "[BOOT] Initializing heap... ") ;;
  let* (h, s) := pure (heap_init hhdm (k_heap_head k) s) in
  say dev n ok_nl ;;
  say dev n (chars "[BOOT] Initializing scheduler... ") ;;
  let sc := scheduler_init (k_sched k) in
  say dev n ok_nl ;;
  say dev n (chars "[BOOT] All subsystems initialized" ++ nl ++ nl) ;;
  pret (Kernel s (k_pool_idx k) (k_flushes k) (k_mmio k) (k_gdt k) (k_idt k) (k_timer k) (k_kbd k) f h sc))%prog.

Definition kmain_mem (early : list Z) (wakes : list turn) (frame : Z) (k : kernel) : prog trace kernel := (
  serial_init ;;
  say dev n (nl ++ chars "=== Suika OS (64-bit) booting via Limine ===" ++ nl) ;;
  let* hhdm := pure (read_hhdm (v_mem (k_vmm k))) in
  let* k := boot_cpu dev n kfuel gdt_addr idt_addr pt_pool isr irq eax edx hhdm k in
  let* k := boot_memory_mem hhdm k in
  boot_threads dev n thread_a thread_b early wakes frame k)%prog.
End Kmain.
End Reads.

(** ** The loader's structures

    [R a n]: the range [a, a+n) keeps its contents during the sequence. *)
Section Responses.
Context (R : Z -> Z -> Prop).

Definition reads (st : cstruct) (f : string) (m : mem) (p v : Z) : Prop := ld_field st f m p = Some v.

Record entry_at (m : mem) (p : Z) (e : memmap_entry) : Prop := {
  ea_where : R p 24;
  ea_base : reads struct_limine_memmap_entry "base" m p (e_base e);
  ea_length : reads struct_limine_memmap_entry "length" m p (e_length e);
  ea_type : reads struct_limine_memmap_entry "type" m p (e_type e);
}.

Record memmap_at (m : mem) (q a : Z) (es : list memmap_entry) : Prop := {
  ma_where : R q 24;
  ma_count : reads struct_limine_memmap_response "entry_count" m q (Z.of_nat (length es));
  ma_entries : reads struct_limine_memmap_response "entries" m q a;
  ma_entry i e : es !! i = Some e ->
    R (a + 8 * Z.of_nat i) 8 /\ entry_at m (ld64 m (a + 8 * Z.of_nat i)) e;
}.

Record framebuffer_at (m : mem) (p : Z) (l : limine_framebuffer) : Prop := {
  fa_where : R p (sizeof (struct_type struct_limine_framebuffer));
  fa_address : reads struct_limine_framebuffer "address" m p (lf_address l);
  fa_width : reads struct_limine_framebuffer "width" m p (lf_width l);
  fa_height : reads struct_limine_framebuffer "height" m p (lf_height l);
  fa_pitch : reads struct_limine_framebuffer "pitch" m p (lf_pitch l);
  fa_bpp : reads struct_limine_framebuffer "bpp" m p (lf_bpp l);
}.

(** The response a request points to: [at_ q] describes a non-null one. *)
Definition response_at {A} (st : cstruct) (m : mem) (req : Z) (r : option A) (at_ : Z -> A -> Prop) : Prop :=
  R req 48 /\ exists q, reads st "response" m req q /\
    match r with None => q = 0 | Some x => q <> 0 /\ at_ q x end.

Definition memmap_response_at (m : mem) (q : Z) (r : limine_memmap_response) : Prop :=
  exists a, memmap_at m q a (memmap_entries r).

Definition fb_response_at (m : mem) (q : Z) (r : limine_framebuffer_response) : Prop :=
  R q 24 /\ reads struct_limine_framebuffer_response "framebuffer_count" m q (framebuffer_count r) /\
  (framebuffer_count r <> 0 -> exists a l, reads struct_limine_framebuffer_response "framebuffers" m q a /\
     R a 8 /\ head (framebuffers r) = Some l /\ framebuffer_at m (ld64 m a) l).

(** Memory [m] holds what [bi] says. *)
Record responses_at (hhdm_req memmap_req fb_req : Z) (m : mem) (bi : boot_info) : Prop := {
  ra_hhdm : read_hhdm hhdm_req m = hhdm_offset <$> hhdm_request bi;
  ra_memmap : response_at struct_limine_memmap_request m memmap_req (memmap_request bi) (memmap_response_at m);
  ra_fb : response_at struct_limine_framebuffer_request m fb_req (fb_request bi) (fb_response_at m);
}.

(** *** Other memories *)

Definition keeps (m m' : mem) : Prop := forall a n, R a n -> agree m m' a n.

Lemma keeps_trans m1 m2 m3 : keeps m1 m2 -> keeps m2 m3 -> keeps m1 m3.
Proof using. intros H1 H2 a n Ha. eapply agree_trans; [by apply H1|by apply H2]. Qed.

Section Keeps.
Context (m m' : mem) (Hk : keeps m m').

Lemma reads_keeps st f p v :
  R p (sizeof (struct_type st)) -> struct_ok st -> reads st f m p v -> reads st f m' p v.
Proof using Hk. intros Hp Hok E. unfold reads. rewrite <-E. by apply ld_field_agree, Hk. Qed.

Lemma ld64_keeps a : R a 8 -> ld64 m' a = ld64 m a.
Proof using Hk. intros Ha. by apply ld64_agree, Hk. Qed.
End Keeps.

Ltac by_keeps Hk := eapply (reads_keeps _ _ Hk); [eassumption|by apply (bool_decide_unpack _); vm_compute|done].

Lemma entry_keeps m m' p e : keeps m m' -> entry_at m p e -> entry_at m' p e.
Proof using. intros Hk [H1 H2 H3 H4]. split; [done|by_keeps Hk..]. Qed.

Lemma memmap_keeps m m' q a es : keeps m m' -> memmap_at m q a es -> memmap_at m' q a es.
Proof using.
  intros Hk [H1 H2 H3 H4]. split; [done|by_keeps Hk..|]. intros i e Hi. destruct (H4 i e Hi) as [Hr He].
  split; [done|]. rewrite (ld64_keeps _ _ Hk) by done. by eapply entry_keeps.
Qed.

Lemma framebuffer_keeps m m' p l : keeps m m' -> framebuffer_at m p l -> framebuffer_at m' p l.
Proof using. intros Hk [H1 H2 H3 H4 H5 H6]. split; [done|by_keeps Hk..]. Qed.

Lemma fb_response_keeps m m' q r : keeps m m' -> fb_response_at m q r -> fb_response_at m' q r.
Proof using.
  intros Hk (H1 & H2 & H3). split; [done|]. split; [by_keeps Hk|].
  intros (a & l & Ha & Hr & Hh & Hf)%H3. exists a, l. split; [by_keeps Hk|]. split; [done|]. split; [done|].
  rewrite (ld64_keeps _ _ Hk) by done. by eapply framebuffer_keeps.
Qed.

Lemma response_keeps {A} st m m' req (r : option A) (P P' : Z -> A -> Prop) :
  keeps m m' -> struct_ok st -> sizeof (struct_type st) = 48 -> (forall q x, P q x -> P' q x) ->
  response_at st m req r P -> response_at st m' req r P'.
Proof using.
  intros Hk Hok Hs HP (Hr & q & Hq & H). split; [done|]. exists q.
  split; [eapply (reads_keeps _ _ Hk); [by rewrite Hs|done..]|]. destruct r as [x|]; [|done]. destruct H. auto.
Qed.

Lemma memmap_request_keeps m m' req r :
  keeps m m' -> response_at struct_limine_memmap_request m req r (memmap_response_at m) ->
  response_at struct_limine_memmap_request m' req r (memmap_response_at m').
Proof using.
  intros Hk. apply response_keeps; [done|by apply (bool_decide_unpack _); vm_compute|done|].
  intros q x [a Ha]. exists a. by eapply memmap_keeps.
Qed.

Lemma fb_request_keeps m m' req r :
  keeps m m' -> response_at struct_limine_framebuffer_request m req r (fb_response_at m) ->
  response_at struct_limine_framebuffer_request m' req r (fb_response_at m').
Proof using.
  intros Hk. apply response_keeps; [done|by apply (bool_decide_unpack _); vm_compute|done|].
  intros q x. by apply fb_response_keeps.
Qed.

(** *** What the reads give *)

Lemma read_entry_at m p e : entry_at m p e -> read_entry m p = Some e.
Proof using. intros [_ H1 H2 H3]. unfold read_entry. rewrite H1, H2, H3. by destruct e. Qed.

Lemma entries_loop_read ks ke n fuel hhdm m q a es i st :
  memmap_at m q a es -> Z.of_nat i < 2 ^ 64 ->
  entries_loop ks ke (S n) fuel hhdm q (Z.of_nat i) (st, m) =
    match es !! i with
    | Some e =>
        s ← entry_loop ks ke fuel hhdm [e] (st, m);
        entries_loop ks ke n fuel hhdm q (u64 (Z.of_nat i + 1)) s
    | None => Some (st, m)
    end.
Proof using.
  intros [_ Hc He Hi] Hb. cbn [entries_loop snd]. rewrite Hc, He. cbn [mbind option_bind].
  destruct (es !! i) as [e|] eqn:E.
  - pose proof (lookup_lt_Some _ _ _ E). rewrite (proj2 (Z.ltb_lt _ _)) by lia.
    destruct (Hi i e E) as [_ Ha]. rewrite (read_entry_at _ _ _ Ha). cbn [mbind option_bind entry_loop].
    destruct (entry_range ks ke e) as [[base top]|]; [|done].
    by destruct (page_loop fuel hhdm base top (st, m)) as [s|].
  - apply lookup_ge_None in E. by rewrite (proj2 (Z.ltb_ge _ _)) by lia.
Qed.

Lemma drop_cons_inv {A} i (l : list A) x k : drop i l = x :: k -> l !! i = Some x /\ drop (S i) l = k.
Proof using.
  intros E. split.
  - rewrite <-(Nat.add_0_r i), <-lookup_drop, E. done.
  - replace (S i) with (i + 1)%nat by lia. by rewrite <-drop_drop, E.
Qed.

(** The loop over the map in memory is the loop over its entries: no frame it pushes
    overwrites what it has yet to read. *)
Lemma entries_loop_eq ks ke fuel hhdm q a es todo : forall n i m st l,
  drop i es = todo -> (length todo < n)%nat -> Z.of_nat (length es) < 2 ^ 64 ->
  memmap_at m q a es ->
  Forall (fun e => length (entry_frames ks ke e) < fuel)%nat todo ->
  pmm_hhdm st = hhdm -> pmm_rep st m l ->
  Forall (frame_ok hhdm) (mjoin (entry_frames ks ke <$> todo)) ->
  NoDup (mjoin (entry_frames ks ke <$> todo) ++ l) ->
  (forall b k, R b k -> off_frames hhdm (mjoin (entry_frames ks ke <$> todo)) b k) ->
  entries_loop ks ke n fuel hhdm q (Z.of_nat i) (st, m) = entry_loop ks ke fuel hhdm todo (st, m).
Proof using.
  induction todo as [|e todo IH]; intros [|n] i m st l Hd Hn Hlen Hm Hfu Hh Hr Hf Hnd Hoff; cbn [length] in Hn; try lia.
  - assert (E : es !! i = None).
    { apply lookup_ge_None. pose proof (length_drop es i) as E. rewrite Hd in E. cbn in E. lia. }
    cbn [entries_loop snd entry_loop]. rewrite (ma_count _ _ _ _ Hm). cbn [mbind option_bind].
    apply lookup_ge_None in E. by rewrite (proj2 (Z.ltb_ge _ _)) by lia.
  - pose proof (drop_cons_inv _ _ _ _ Hd) as [E Hd']. pose proof (lookup_lt_Some _ _ _ E) as Hi.
    rewrite (entries_loop_read ks ke n fuel hhdm m q a es i st Hm) by lia. rewrite E.
    cbn [fmap list_fmap mjoin list_join] in Hf, Hnd, Hoff. rewrite <-app_assoc in Hnd.
    apply Forall_cons in Hfu as [Hfe Hfu]. apply Forall_app in Hf as [Hf1 Hf2].
    apply NoDup_app in Hnd as (Hnd1 & Hdj & Hnd2). pose proof Hnd2 as (Hnd3 & Hdj2 & Hnd4)%NoDup_app.
    destruct (entry_loop_spec ks ke fuel hhdm [e] st m l) as (st1 & m1 & E1 & Hh1 & Hr1 & Ha1).
    { by constructor. } { done. } { done. } { cbn. by rewrite app_nil_r. }
    { cbn. rewrite app_nil_r. apply NoDup_app. split; [done|]. split; [|done].
      intros x Hx Hl. apply (Hdj x Hx), elem_of_app. by right. }
    cbn [fmap list_fmap mjoin list_join] in Hr1, Ha1. rewrite app_nil_r in Hr1, Ha1.
    rewrite E1. cbn [mbind option_bind]. rewrite u64_id by lia.
    replace (Z.of_nat i + 1) with (Z.of_nat (S i)) by lia.
    rewrite (IH n (S i) m1 st1 (rev (entry_frames ks ke e) ++ l) Hd' ltac:(lia) Hlen); try done.
    + cbn [entry_loop] in E1 |- *. destruct (entry_range ks ke e) as [[base top]|]; [|by injection E1 as -> ->].
      destruct (page_loop fuel hhdm base top (st, m)) as [s|]; [|done]. by injection E1 as ->.
    + eapply memmap_keeps; [|exact Hm]. intros b k Hb. apply Ha1. intros p Hp. apply (Hoff b k Hb).
      apply elem_of_app. by left.
    + apply NoDup_app. split; [done|]. split.
      * intros x Hx [Hx'|Hx']%elem_of_app; [|by eapply Hdj2]. rewrite elem_of_rev in Hx'.
        apply (Hdj x Hx'), elem_of_app. by left.
      * apply NoDup_app. split; [by apply NoDup_rev_1|]. split; [|done].
        intros x Hx Hl. rewrite elem_of_rev in Hx. apply (Hdj x Hx), elem_of_app. by right.
    + intros b k Hb p Hp. apply (Hoff b k Hb). apply elem_of_app. by right.
Qed.
End Responses.

(** ** The sequence *)

Lemma pbind_ext {S A B} (m : prog S A) (k k' : A -> prog S B) s :
  (forall a s', m s = Some (a, s') -> k a s' = k' a s') -> pbind m k s = pbind m k' s.
Proof. intros Hk. unfold pbind. destruct (m s) as [[a s']|]; [by apply Hk|done]. Qed.

Lemma pbind_eq {S A B} (m m' : prog S A) (k : A -> prog S B) s : m s = m' s -> pbind m k s = pbind m' k s.
Proof. unfold pbind. by intros ->. Qed.

Lemma pbind_pure {A B} (a : A) (o : option A) (k : A -> prog trace B) tr : o = Some a -> pbind (pure o) k tr = k a tr.
Proof. by intros ->. Qed.

(** What the sequence does not write before it reads the framebuffer's response: memory
    apart from the page tables, from the frames of their pool and from the links in the
    usable frames. *)
Definition steady (hhdm : Z) (own : gmap Z (Z * Z)) (fs : Z -> Z) (frames : list Z) (a n : Z) : Prop :=
  off_tables hhdm own a n /\
  (forall j, 0 <= j < 3 -> a + n <= hhdm + fs j \/ hhdm + fs j + 4096 <= a) /\ off_frames hhdm frames a n.

Section Sequence.
Context (R : Z -> Z -> Prop) (hhdm_req memmap_req fb_req : Z).
Context (dev : trace -> Z -> Z) (n kfuel efuel pfuel ffuel : nat) (dec : list Z).
Context (gdt_addr idt_addr pt_pool kernel_start kernel_end thread_a thread_b : Z).
Context (isr irq : Z -> Z) (eax edx : Z) (hhdm : Z).
Context (Hlive : uart_live dev n) (Hkbd : kbd_live dev kfuel) (Hdec : length dec = 21%nat).

Lemma apic_keeps fs bi k own :
  handoff hhdm pt_pool kernel_start kernel_end fs pfuel bi k own ->
  (forall a m, R a m -> steady hhdm own fs (usable kernel_start kernel_end bi) a m) ->
  keeps R (v_mem (k_vmm k)) (v_mem (after_apic pt_pool eax edx hhdm k)).
Proof using.
  intros [Ht _ _] HR a m (Ho & Hp & _)%HR.
  destruct (mapped_keeps _ _ _ _ _ _ _ _ (apic_map_mapped _ _ _ pt_pool eax edx _ own Ht)) as (own' & G).
  apply (gr_agree _ _ _ _ _ _ _ _ G). intros p y [Hy|(j & Hj & ->)]%(gr_new _ _ _ _ _ _ _ _ G); [by eapply Ho|by apply Hp].
Qed.

Lemma pmm_init_mem_eq bi s own :
  before_pmm hhdm kernel_start kernel_end pfuel bi s own ->
  response_at R struct_limine_memmap_request (v_mem s) memmap_req (memmap_request bi) (memmap_response_at R (v_mem s)) ->
  (forall a m, R a m -> off_frames hhdm (usable kernel_start kernel_end bi) a m) ->
  (forall es, memmap_request bi = Some (LimineMemmapResponse es) -> (length es < efuel)%nat) ->
  pmm_init_mem memmap_req kernel_start kernel_end efuel pfuel hhdm (v_pmm s) (v_mem s) =
    pmm_init kernel_start kernel_end pfuel hhdm (option_map memmap_entries (memmap_request bi)) (v_pmm s) (v_mem s).
Proof using.
  intros [Hpt _ Hpm Hfu Hfr Hnd] (_ & q & Hq & Hr) HR He. unfold pmm_init_mem, pmm_init.
  rewrite Hq. cbn [mbind option_bind]. unfold usable in *.
  destruct (memmap_request bi) as [[es]|]; cbn [option_map memmap_entries].
  - destruct Hr as [Hq0 [a Ha]]. rewrite (proj2 (truthy_true q)) by done. cbn [negb].
    assert (Hlen : Z.of_nat (length es) < 2 ^ 64).
    { pose proof (ma_count _ _ _ _ _ Ha) as Hc. unfold reads, ld_field in Hc. cbn in Hc. injection Hc as Hc. rewrite <-Hc.
      apply (ld_le_bound 8). }
    apply (entries_loop_eq R kernel_start kernel_end pfuel hhdm q a es es efuel 0) with (l := []); auto.
    + rewrite Hpm. split; cbn; [apply Hpt|done|constructor|constructor|done].
    + eapply Forall_impl; [exact Hfr|]. by intros p (? & _).
    + by rewrite app_nil_r.
  - by rewrite Hr.
Qed.

Lemma boot_fb_mem_eq r f s tr :
  response_at R struct_limine_framebuffer_request (v_mem s) fb_req r (fb_response_at R (v_mem s)) ->
  boot_fb_mem fb_req dev n ffuel hhdm f s tr = boot_fb dev n ffuel hhdm r f s tr.
Proof using.
  intros (_ & q & Hq & Hr). unfold boot_fb_mem, boot_fb. rewrite (pbind_pure q) by done.
  destruct r as [[count fbs]|].
  - destruct Hr as (Hq0 & _ & Hc & Hf). cbn [framebuffer_count framebuffers] in *.
    rewrite (proj2 (truthy_true q)) by done.
    assert (E : forall B (k : bool -> prog trace B), pbind (let* count := pure
        (ld_field struct_limine_framebuffer_response "framebuffer_count" (v_mem s) q) in pret (truthy count))%prog k tr = k (truthy count) tr).
    { intros B k. unfold pbind at 1. by rewrite (pbind_pure count). }
    rewrite E. destruct (truthy count) eqn:Ec; [|done]. apply truthy_true in Ec.
    destruct (Hf Ec) as (a & l & Ha & _ & Hl & [_ H1 H2 H3 H4 H5]). destruct fbs as [|l' fbs]; [done|]. injection Hl as ->.
    rewrite (pbind_pure a) by done. cbv zeta.
    rewrite (pbind_pure (lf_address l)), (pbind_pure (lf_width l)), (pbind_pure (lf_height l)), (pbind_pure (lf_pitch l)),
      (pbind_pure (lf_bpp l)) by done. done.
  - subst q. done.
Qed.

Lemma boot_memory_mem_eq bi k own tr :
  before_pmm hhdm kernel_start kernel_end pfuel bi (k_vmm k) own ->
  response_at R struct_limine_memmap_request (v_mem (k_vmm k)) memmap_req (memmap_request bi)
    (memmap_response_at R (v_mem (k_vmm k))) ->
  response_at R struct_limine_framebuffer_request (v_mem (k_vmm k)) fb_req (fb_request bi)
    (fb_response_at R (v_mem (k_vmm k))) ->
  (forall a m, R a m -> off_frames hhdm (usable kernel_start kernel_end bi) a m) ->
  (forall es, memmap_request bi = Some (LimineMemmapResponse es) -> (length es < efuel)%nat) ->
  boot_memory_mem memmap_req fb_req dev n efuel pfuel ffuel dec kernel_start kernel_end hhdm k tr =
    boot_memory dev n pfuel ffuel dec kernel_start kernel_end hhdm bi k tr.
Proof using.
  intros Hb Hm Hf HR He. destruct (pmm_init_run _ _ _ _ _ _ _ Hb) as (pm & m & E & _ & _ & Ha).
  unfold boot_memory_mem, boot_memory. apply pbind_ext. intros _ tr1 _.
  rewrite (pbind_pure (pm, m)) by (by rewrite (pmm_init_mem_eq bi _ own)). rewrite (pbind_pure (pm, m)) by exact E.
  cbv beta iota zeta. do 7 (apply pbind_ext; intros _ ? _). unfold vmm_init.
  apply pbind_eq, boot_fb_mem_eq.
  apply (fb_request_keeps R (v_mem (k_vmm k))); [|exact Hf]. by intros a z ?%HR; apply Ha.
Qed.

Lemma boot_cpu_vmm k tr k' tr' :
  boot_cpu dev n kfuel gdt_addr idt_addr pt_pool isr irq eax edx hhdm k tr = Some (k', tr') ->
  k_vmm k' = after_apic pt_pool eax edx hhdm k.
Proof using Hlive Hkbd.
  intros E. destruct (boot_cpu_total dev n kfuel gdt_addr idt_addr pt_pool isr irq eax edx hhdm Hlive Hkbd k tr)
    as (k1 & tr1 & E1 & Hv & _). rewrite E in E1. injection E1 as -> _. exact Hv.
Qed.
End Sequence.

Section Boots.
Context (hhdm_req memmap_req fb_req : Z).
Context (dev : trace -> Z -> Z) (n kfuel efuel pfuel ffuel : nat) (dec : list Z).
Context (gdt_addr idt_addr pt_pool kernel_start kernel_end thread_a thread_b : Z).
Context (isr irq : Z -> Z) (eax edx : Z) (hhdm : Z).

(** C4 The boot sequence on the loader's own structures: if the memory holds the three
    responses apart from the page tables, the pool and the links of the usable frames,
    then [kmain], which follows the request pointers, counts, arrays of pointers and
    members at their C offsets and reads the memory map again in every turn of a loop
    that writes to frames, computes exactly what it computes on the values; and boots. *)
Theorem kmain_from_memory bi early wakes frame k fs own tr :
  uart_live dev n -> kbd_live dev kfuel -> length dec = 21%nat ->
  bootable hhdm pt_pool kernel_start kernel_end thread_a thread_b fs pfuel ffuel bi early wakes k own ->
  responses_at (steady hhdm own fs (usable kernel_start kernel_end bi)) hhdm_req memmap_req fb_req (v_mem (k_vmm k)) bi ->
  (forall es, memmap_request bi = Some (LimineMemmapResponse es) -> (length es < efuel)%nat) ->
  exists k' tr',
    kmain_mem hhdm_req memmap_req fb_req dev n kfuel efuel pfuel (S ffuel) dec gdt_addr idt_addr pt_pool
      kernel_start kernel_end thread_a thread_b isr irq eax edx early wakes frame k tr = Some (k', tr') /\
    kmain dev n kfuel pfuel (S ffuel) dec gdt_addr idt_addr pt_pool kernel_start kernel_end
      thread_a thread_b isr irq eax edx bi early wakes frame k tr = Some (k', tr') /\
    booted thread_a thread_b hhdm (usable kernel_start kernel_end bi) k'.
Proof using.
  intros Hlive Hkbd Hdec Hb [Hh Hm Hf] He. set (R := steady _ _ _ _) in *.
  destruct (boot_total dev n kfuel pfuel ffuel dec gdt_addr idt_addr pt_pool kernel_start kernel_end thread_a thread_b
    isr irq eax edx hhdm Hlive Hkbd Hdec bi early wakes frame k fs own Hb tr) as (k' & tr' & E & Hbd).
  exists k', tr'. split; [|by split]. rewrite <-E. clear E Hbd k' tr'. unfold kmain_mem, kmain.
  do 2 (apply pbind_ext; intros _ ? _). rewrite (bo_hhdm _ _ _ _ _ _ _ _ _ _ _ _ _ _ Hb) in Hh |- *.
  rewrite (pbind_pure hhdm) by exact Hh. rewrite (pbind_pure (LimineHhdmResponse hhdm)) by done. cbn [hhdm_offset].
  apply pbind_ext. intros k1 tr1 E1.
  apply (boot_cpu_vmm dev n kfuel) in E1; [|done..].
  pose proof (bo_handoff _ _ _ _ _ _ _ _ _ _ _ _ _ _ Hb) as Hho.
  destruct (handoff_apic pfuel pt_pool kernel_start kernel_end eax edx hhdm fs bi k own Hho) as (own1 & Hbp).
  pose proof (apic_keeps R pfuel pt_pool kernel_start kernel_end eax edx hhdm fs bi k own Hho ltac:(done)) as Hk.
  rewrite <-E1 in Hk, Hbp. apply pbind_eq.
  apply (boot_memory_mem_eq R) with (own := own1); [done|..].
  - by eapply memmap_request_keeps.
  - by eapply fb_request_keeps.
  - by intros a z (_ & _ & ?).
  - done.
Qed.
End Boots.

(** ** A concrete boot from memory *)

Definition k_with_mem (m : mem) (k : kernel) : kernel :=
  Kernel (set_mem (k_vmm k) m) (k_pool_idx k) (k_flushes k) (k_mmio k) (k_gdt k) (k_idt k) (k_timer k) (k_kbd k)
    (k_fb k) (k_heap_head k) (k_sched k).

(** The hand-over concerns the tables and the memory map only. *)
Lemma handoff_same hhdm pt_pool ks ke fs pfuel bi bi' k m own :
  handoff hhdm pt_pool ks ke fs pfuel bi k own -> memmap_request bi' = memmap_request bi ->
  (forall pa y i, own !! pa = Some y -> 0 <= i < 512 -> entry hhdm m pa i = entry hhdm (v_mem (k_vmm k)) pa i) ->
  handoff hhdm pt_pool ks ke fs pfuel bi' (k_with_mem m k) own.
Proof.
  intros [[Tw Tc Ti Ta Tf Tl] [Bt Bc Bp Bf Bfr Bn] Hp] Em Hs.
  assert (Eu : usable ks ke bi' = usable ks ke bi) by (unfold usable; by rewrite Em).
  cbn [a_mem apic_part] in *. change (root (k_vmm k)) with (root (k_vmm (k_with_mem m k))) in *.
  assert (W : pt_wf hhdm (root (k_vmm (k_with_mem m k))) m own) by (by eapply pt_wf_same).
  assert (Hv : forall va, virt_to_phys hhdm va (apic_part (k_with_mem m k)) = virt_to_phys hhdm va (apic_part k)).
  { intros va. apply walk_translates; [done|]. cbn [apic_part a_mem a_cr3] in Tc |- *. rewrite Tc. f_equal.
    apply (walk_same hhdm _ _ _ own Tw Hs 4 _ 0). apply (wf_root _ _ _ _ Tw). }
  split; [split|split|by rewrite Eu]; rewrite ?Eu, ?Em; try done.
  - intros j Hj. rewrite Hv. by apply Ta.
  - intros pa x i Ho Hi Hh. cbn [apic_part a_mem k_with_mem k_vmm v_mem set_mem] in *.
    rewrite (Hs _ _ _ Ho Hi) in *. by apply (Tl pa x).
  - by eapply clear_same.
Qed.

Lemma put_words_agree m a ws b n :
  b + n <= a \/ a + 8 * Z.of_nat (length ws) <= b -> agree m (put_words m a ws) b n.
Proof.
  revert m a. induction ws as [|w ws IH]; intros m a Hd; [apply agree_refl|]. cbn [put_words length] in *.
  eapply agree_trans; [|apply IH; lia]. apply (st_le_agree 8); auto with kernel. lia.
Qed.

(** The machine of Boot.v with a console of one page, the requests at the start of the
    image and the loader's structures from frame 0x20 on. *)
Definition demo_image : Z := 0xFFFFFFFF80000000.
Definition demo_console : limine_framebuffer := LimineFramebuffer (demo_hhdm + 0xFD000000) 64 16 256 32.
Definition demo_responses : boot_info :=
  BootInfo (Some (LimineHhdmResponse demo_hhdm))
    (Some (LimineMemmapResponse [MemmapEntry 0x100000 (1100 * 4096) 0]))
    (Some (LimineFramebufferResponse 1 [demo_console])).

Definition demo_loader : Z := demo_hhdm + 0x20000.

Definition demo_structures (m : mem) : mem :=
  let m := put_words m demo_loader [0; demo_hhdm] in
  let m := put_words m (demo_loader + 0x100) [0; 1; demo_loader + 0x200] in
  let m := put_words m (demo_loader + 0x200) [demo_loader + 0x300] in
  let m := put_words m (demo_loader + 0x300) [0x100000; 1100 * 4096; 0] in
  let m := put_words m (demo_loader + 0x400) [1; 1; demo_loader + 0x500] in
  let m := put_words m (demo_loader + 0x500) [demo_loader + 0x600] in
  put_words m (demo_loader + 0x600) [demo_hhdm + 0xFD000000; 64; 16; 256; 32; 0; 0; 0; 0; 0].

Definition demo_requests (m : mem) : mem :=
  let m := put_words m (demo_image + 0x40) (LIMINE_HHDM_REQUEST_ID ++ [0; demo_loader]) in
  let m := put_words m (demo_image + 0x80) (LIMINE_MEMMAP_REQUEST_ID ++ [0; demo_loader + 0x100]) in
  put_words m (demo_image + 0xC0) (LIMINE_FRAMEBUFFER_REQUEST_ID ++ [0; demo_loader + 0x400]).

Definition demo_memory : mem := demo_requests (demo_structures demo_tables).
Definition demo_kernel_mem : kernel := k_with_mem demo_memory demo_kernel.

Lemma demo_tree_low p y : demo_tree !! p = Some y -> p <= 0x5000.
Proof.
  assert (H : map_Forall (fun p _ => p <= 0x5000) demo_tree) by (by apply (bool_decide_unpack _); vm_compute).
  apply (H p y).
Qed.

Lemma demo_memory_low b n : b + n <= demo_loader -> agree demo_tables demo_memory b n.
Proof.
  unfold demo_loader, demo_hhdm. intros Hb. unfold demo_memory, demo_requests, demo_structures.
  repeat (eapply agree_trans; [|apply put_words_agree; left; unfold demo_loader, demo_image, demo_hhdm; lia]).
  apply agree_refl.
Qed.

Lemma demo_entries pa y i : demo_tree !! pa = Some y -> 0 <= i < 512 ->
  entry demo_hhdm demo_memory pa i = entry demo_hhdm demo_tables pa i.
Proof.
  intros Ho Hi. pose proof (demo_tree_low pa y Ho). destruct y as [l x].
  destruct (wf_tbl _ _ _ _ demo_tables_wf pa l x Ho) as [Hok _].
  unfold entry. apply ld64_agree. rewrite slot_eq by done. apply demo_memory_low. unfold demo_loader. lia.
Qed.

Lemma demo_steady a n :
  (demo_loader <= a /\ a + n <= demo_hhdm + 0x100000) \/ demo_image <= a ->
  steady demo_hhdm demo_tree demo_fs (usable 0xFFFFFFFF80000000 0xFFFFFFFF80100000 demo_responses) a n.
Proof.
  unfold steady, off_tables, off_frames, demo_loader, demo_image, demo_hhdm. intros Ha. split; [|split].
  - intros p y Ho. pose proof (demo_tree_low p y Ho). lia.
  - intros j Hj. unfold demo_fs. lia.
  - change (usable _ _ demo_responses) with (usable 0xFFFFFFFF80000000 0xFFFFFFFF80100000 demo_boot). rewrite demo_usable.
    intros p (i & Hi & ->)%elem_of_page_seq. lia.
Qed.

Lemma demo_responses_at :
  responses_at (steady demo_hhdm demo_tree demo_fs (usable 0xFFFFFFFF80000000 0xFFFFFFFF80100000 demo_responses))
    (demo_image + 0x40) (demo_image + 0x80) (demo_image + 0xC0) demo_memory demo_responses.
Proof.
  assert (S0 : forall a n, bool_decide ((demo_loader <= a /\ a + n <= demo_hhdm + 0x100000) \/ demo_image <= a) = true ->
    steady demo_hhdm demo_tree demo_fs (usable 0xFFFFFFFF80000000 0xFFFFFFFF80100000 demo_responses) a n).
  { intros a n H. apply demo_steady. by apply bool_decide_eq_true in H. }
  split; [by vm_compute| |].
  - split; [by apply S0|]. exists (demo_loader + 0x100). split; [by vm_compute|]. split; [done|].
    exists (demo_loader + 0x200). split; [by apply S0|by vm_compute..|]. intros [|[|i]] e; intros [= <-].
    split; [by apply S0|]. split; [apply S0|..]; by vm_compute.
  - split; [by apply S0|]. exists (demo_loader + 0x400). split; [by vm_compute|]. split; [done|].
    split; [by apply S0|]. split; [by vm_compute|]. intros _. exists (demo_loader + 0x500), demo_console.
    split; [by vm_compute|]. split; [by apply S0|]. split; [done|]. split; [apply S0|..]; by vm_compute.
Qed.

Lemma demo_bootable_mem :
  bootable demo_hhdm demo_pool 0xFFFFFFFF80000000 0xFFFFFFFF80100000 0xFFFFFFFF80003000 0xFFFFFFFF80003040 demo_fs 1101 1
    demo_responses [0xFFFFFFFF80090000] (repeat (1, 0)%nat 100) demo_kernel_mem demo_tree.
Proof.
  pose proof demo_bootable as [_ _ _ _ H5 H6 H7 H8 H9 H10].
  split; [reflexivity| | | |exact H5|exact H6|exact H7|exact H8|exact H9|exact H10].
  - apply (handoff_same _ _ _ _ _ _ demo_boot); [apply demo_handoff|reflexivity|exact demo_entries].
  - intros count fbs [= <- <-] _. exists demo_console, []. split; [done|]. cbn. lia.
  - change (usable _ _ demo_responses) with (usable 0xFFFFFFFF80000000 0xFFFFFFFF80100000 demo_boot).
    rewrite demo_usable, length_page_seq. vm_compute. discriminate.
Qed.

Lemma kmain_from_memory_witness : exists k tr,
  kmain_mem (demo_image + 0x40) (demo_image + 0x80) (demo_image + 0xC0) demo_uart 2 1 2 1101 2 (repeat 0 21)
    0x8000 0x9000 demo_pool 0xFFFFFFFF80000000 0xFFFFFFFF80100000 0xFFFFFFFF80003000 0xFFFFFFFF80003040
    (fun i => 0xFFFFFFFF80001000 + 16 * i) (fun i => 0xFFFFFFFF80002000 + 16 * i) 0xFEE00900 0
    [0xFFFFFFFF80090000] (repeat (1, 0)%nat 100) 0xFFFFFFFF80090100 demo_kernel_mem [] = Some (k, tr) /\
  booted 0xFFFFFFFF80003000 0xFFFFFFFF80003040 demo_hhdm (usable 0xFFFFFFFF80000000 0xFFFFFFFF80100000 demo_responses) k.
Proof.
  destruct (kmain_from_memory (demo_image + 0x40) (demo_image + 0x80) (demo_image + 0xC0) demo_uart 2 1 2 1101 1
    (repeat 0 21) 0x8000 0x9000 demo_pool 0xFFFFFFFF80000000 0xFFFFFFFF80100000 0xFFFFFFFF80003000 0xFFFFFFFF80003040
    (fun i => 0xFFFFFFFF80001000 + 16 * i) (fun i => 0xFFFFFFFF80002000 + 16 * i) 0xFEE00900 0 demo_hhdm
    demo_responses [0xFFFFFFFF80090000] (repeat (1, 0)%nat 100) 0xFFFFFFFF80090100 demo_kernel_mem demo_fs demo_tree []
    demo_uart_live demo_kbd_live eq_refl demo_bootable_mem demo_responses_at) as (k & tr & E & _ & Hb).
  - intros es [= <-]. cbn. lia.
  - exists k, tr. split; [exact E|exact Hb].
Defined.
