(* ===== verification/LimineFormat.v ===== *)
(** The encodings of [limine/limine.c]: byte swapping, little-endian fields,
    cylinder-head-sector addresses, GPT to MBR partition types, and the checked
    arithmetic on byte offsets. *)

From S2P Require Import Prelude.

(** ** Checked arithmetic: the wrapped result and whether it overflowed *)

Definition UINT64_MAX : Z := 2 ^ 64 - 1.

Definition mul_u64_overflow (a b : Z) : bool * Z :=
  (negb (a =? 0) && (UINT64_MAX / a <? b), u64 (a * b)).

Definition add_u64_overflow (a b : Z) : bool * Z := (UINT64_MAX - b <? a, u64 (a + b)).

(** ** Byte order *)

Definition endswap16 (value : Z) : Z :=
  let ret := 0 in
  let ret := Z.lor ret (Z.land (Z.shiftr value 8) 0x00ff) in
  u16 (Z.lor ret (Z.land (Z.shiftl value 8) 0xff00)).

Definition endswap32 (value : Z) : Z :=
  let ret := 0 in
  let ret := Z.lor ret (Z.land (Z.shiftr value 24) 0x000000ff) in
  let ret := Z.lor ret (Z.land (Z.shiftr value 8) 0x0000ff00) in
  let ret := Z.lor ret (Z.land (u32 (Z.shiftl value 8)) 0x00ff0000) in
  Z.lor ret (Z.land (u32 (Z.shiftl value 24)) 0xff000000).

Definition endswap64 (value : Z) : Z :=
  let ret := 0 in
  let ret := Z.lor ret (Z.land (Z.shiftr value 56) 0x00000000000000ff) in
  let ret := Z.lor ret (Z.land (Z.shiftr value 40) 0x000000000000ff00) in
  let ret := Z.lor ret (Z.land (Z.shiftr value 24) 0x0000000000ff0000) in
  let ret := Z.lor ret (Z.land (Z.shiftr value 8) 0x00000000ff000000) in
  let ret := Z.lor ret (Z.land (u64 (Z.shiftl value 8)) 0x000000ff00000000) in
  let ret := Z.lor ret (Z.land (u64 (Z.shiftl value 24)) 0x0000ff0000000000) in
  let ret := Z.lor ret (Z.land (u64 (Z.shiftl value 40)) 0x00ff000000000000) in
  Z.lor ret (Z.land (u64 (Z.shiftl value 56)) 0xff00000000000000).

(** [ENDSWAP] on a value of [size] bytes; other sizes abort. *)
Definition ENDSWAP (bigendian : bool) (size : nat) (value : Z) : Z :=
  if bigendian then
    match size with
    | 1%nat => value
    | 2%nat => endswap16 value
    | 4%nat => endswap32 value
    | 8%nat => endswap64 value
    | _ => 1
    end
  else value.

(** The bytes of an integer in memory, and back, on a machine of either order. *)
Fixpoint le_bytes (n : nat) (x : Z) : list Z :=
  match n with
  | O => []
  | S n => x mod 2 ^ 8 :: le_bytes n (x / 2 ^ 8)
  end.

Fixpoint le_value (bs : list Z) : Z :=
  match bs with
  | [] => 0
  | b :: bs => b + 2 ^ 8 * le_value bs
  end.

Definition to_bytes (bigendian : bool) (n : nat) (x : Z) : list Z :=
  if bigendian then rev (le_bytes n x) else le_bytes n x.
Definition of_bytes (bigendian : bool) (bs : list Z) : Z :=
  if bigendian then le_value (rev bs) else le_value bs.

(** ** Partition types *)

Definition gpt2mbr_type_conv_table : list (Z * Z * Z) := [
  (0x11d2f81fc12a7328, 0x3bc93ec9a0004bba, 0xef);
  (0x4433b9e5ebd0a0a2, 0xc79926b7b668c087, 0x07);
  (0x11aa000048465300, 0xacec4365300011aa, 0xaf) ].

Fixpoint type_search (table : list (Z * Z * Z)) (gpt_type1 gpt_type2 : Z) : Z :=
  match table with
  | [] => -1
  | (t1, t2, m) :: table =>
      if (t1 =? gpt_type1) && (t2 =? gpt_type2) then m else type_search table gpt_type1 gpt_type2
  end.

Definition gpt2mbr_type (gpt_type1 gpt_type2 : Z) : Z :=
  type_search gpt2mbr_type_conv_table gpt_type1 gpt_type2.

(** ** Cylinder, head, sector *)

Definition chs_too_big : list Z := [0xfe; 0xff; 0xff].

Definition lba2chs (lba : Z) : list Z :=
  if 63 * 255 * 1024 <? lba then chs_too_big
  else
    let cylinder := lba / (255 * 63) in
    if 1024 <=? cylinder then chs_too_big
    else
      let head := (lba / 63) mod 255 in
      let sector := lba mod 63 + 1 in
      [u8 head;
       u8 (Z.lor (u8 (Z.land (Z.shiftr cylinder 2) 0xc0)) (Z.land sector 0x3f));
       u8 cylinder].

(** How a BIOS reads the three bytes. *)
Definition chs_cylinder (chs : list Z) : Z := nth 2 chs 0 + 2 ^ 8 * (nth 1 chs 0 / 2 ^ 6).
Definition chs_head (chs : list Z) : Z := nth 0 chs 0.
Definition chs_sector (chs : list Z) : Z := nth 1 chs 0 mod 2 ^ 6.
Definition chs2lba (chs : list Z) : Z :=
  (chs_cylinder chs * 255 + chs_head chs) * 63 + (chs_sector chs - 1).

(** ** Lemmas *)

Lemma length_le_bytes n x : length (le_bytes n x) = n.
Proof. revert x. induction n as [|n IH]; intros x; cbn; [done|]. by rewrite IH. Qed.

Lemma le_value_bytes n x : le_value (le_bytes n x) = x mod 2 ^ (8 * Z.of_nat n).
Proof.
  revert x. induction n as [|n IH]; intros x; cbn [le_value le_bytes].
  { by rewrite Z.mod_1_r. }
  rewrite IH. replace (8 * Z.of_nat (S n)) with (8 + 8 * Z.of_nat n) by lia.
  rewrite Z.pow_add_r, Z.rem_mul_r by lia. lia.
Qed.

Lemma length_to_bytes be n x : length (to_bytes be n x) = n.
Proof. unfold to_bytes. destruct be; rewrite ?length_rev; apply length_le_bytes. Qed.

Lemma of_to_bytes be n x : of_bytes be (to_bytes be n x) = x mod 2 ^ (8 * Z.of_nat n).
Proof. unfold of_bytes, to_bytes. destruct be; rewrite ?rev_involutive; apply le_value_bytes. Qed.

Lemma mul_u64_overflow_spec a b :
  0 <= a < 2 ^ 64 -> 0 <= b < 2 ^ 64 ->
  mul_u64_overflow a b = (2 ^ 64 <=? a * b, u64 (a * b)).
Proof.
  intros Ha Hb. unfold mul_u64_overflow, UINT64_MAX. f_equal.
  destruct (Z.eqb_spec a 0) as [->|Hne]; cbn [negb andb].
  { symmetry. apply Z.leb_gt. lia. }
  apply eq_true_iff_eq. rewrite Z.ltb_lt, Z.leb_le.
  pose proof (Z.div_mod (2 ^ 64 - 1) a ltac:(lia)). pose proof (Z.mod_pos_bound (2 ^ 64 - 1) a ltac:(lia)).
  split; nia.
Qed.

Lemma add_u64_overflow_spec a b :
  0 <= a < 2 ^ 64 -> 0 <= b < 2 ^ 64 ->
  add_u64_overflow a b = (2 ^ 64 <=? a + b, u64 (a + b)).
Proof.
  intros Ha Hb. unfold add_u64_overflow, UINT64_MAX. f_equal.
  apply eq_true_iff_eq. rewrite Z.ltb_lt, Z.leb_le. lia.
Qed.

(** Byte [k] of a word. *)
Definition byte_at (x k : Z) : Z := (x / 2 ^ (8 * k)) mod 2 ^ 8.

Lemma byte_at_bound x k : 0 <= byte_at x k < 2 ^ 8.
Proof. apply Z.mod_pos_bound. lia. Qed.

(** One line of the swap: the byte picked out by the mask, above what is there. *)
Lemma swap_step ret x k :
  0 <= k -> 0 <= ret < 2 ^ (8 * k) -> 0 <= x ->
  Z.lor ret (Z.land x (2 ^ (8 * k + 8) - 2 ^ (8 * k))) = ret + 2 ^ (8 * k) * byte_at x k /\
  ret + 2 ^ (8 * k) * byte_at x k < 2 ^ (8 * (k + 1)).
Proof.
  intros Hk Hr Hx. pose proof (byte_at_bound x k).
  replace (8 * (k + 1)) with (8 * k + 8) by lia. rewrite Z.pow_add_r by lia. split; [|nia].
  rewrite <-Z.pow_add_r, land_field_mask by lia.
  assert (E : x mod 2 ^ (8 * k + 8) - x mod 2 ^ (8 * k) = 2 ^ (8 * k) * byte_at x k).
  { unfold byte_at. rewrite Z.pow_add_r, Z.rem_mul_r by lia. lia. }
  rewrite E, Z.lor_comm, (lor_low_add _ ret (8 * k)); [lia|lia|done|].
  rewrite Z.mul_comm. apply Z.mod_mul. lia.
Qed.

(** Where the shifts take the bytes from. *)
Lemma byte_at_shiftr x k a : 0 <= k -> 0 <= a -> byte_at (Z.shiftr x (8 * a)) k = byte_at x (k + a).
Proof.
  intros Hk Ha. unfold byte_at. rewrite Z.shiftr_div_pow2, Z.div_div, <-Z.pow_add_r by lia.
  do 2 f_equal. f_equal. lia.
Qed.

Lemma byte_at_shiftl x k a w :
  0 <= a <= k -> k + 1 <= w -> byte_at (Z.shiftl x (8 * a) mod 2 ^ (8 * w)) k = byte_at x (k - a).
Proof.
  intros Ha Hw. unfold byte_at. rewrite <-!Z.land_ones, <-!Z.shiftr_div_pow2 by lia.
  apply Z.bits_inj'. intros i Hi. rewrite !Z.land_spec, !Z.shiftr_spec, !Z.land_spec by lia.
  rewrite !Z.testbit_ones_nonneg by lia. destruct (Z.ltb_spec i 8); [|by rewrite !andb_false_r].
  rewrite (proj2 (Z.ltb_lt (i + 8 * k) (8 * w))), Z.shiftl_spec by lia.
  rewrite !andb_true_r. f_equal. lia.
Qed.

Fixpoint swapped (n : nat) (x : Z) : Z :=
  match n with
  | O => 0
  | S n => byte_at x (Z.of_nat n) + 2 ^ 8 * swapped n x
  end.

Lemma swapped_bytes n x : swapped n x = le_value (rev (le_bytes n x)).
Proof.
  assert (H : forall n x acc, le_value (rev (le_bytes n x) ++ acc) = swapped n x + 2 ^ (8 * Z.of_nat n) * le_value acc).
  { clear. induction n as [|n IH]; intros x acc; cbn [le_bytes rev app].
    { cbn [le_value swapped]. lia. }
    rewrite <-app_assoc. cbn [app]. rewrite IH. cbn [le_value].
    assert (Hs : forall m y, swapped (S m) y = swapped m (y / 2 ^ 8) + 2 ^ (8 * Z.of_nat m) * (y mod 2 ^ 8)).
    { clear. induction m as [|m IHm]; intros y.
      - cbn [swapped]. unfold byte_at. cbn. rewrite Z.div_1_r. lia.
      - change (swapped (S (S m)) y) with (byte_at y (Z.of_nat (S m)) + 2 ^ 8 * swapped (S m) y).
        rewrite IHm. change (swapped (S m) (y / 2 ^ 8)) with (byte_at (y / 2 ^ 8) (Z.of_nat m) + 2 ^ 8 * swapped m (y / 2 ^ 8)).
        replace (byte_at (y / 2 ^ 8) (Z.of_nat m)) with (byte_at y (Z.of_nat (S m))).
        2: { unfold byte_at. rewrite Z.div_div, <-Z.pow_add_r by lia. do 2 f_equal. f_equal. lia. }
        replace (8 * Z.of_nat (S m)) with (8 + 8 * Z.of_nat m) by lia. rewrite Z.pow_add_r by lia. lia. }
    rewrite Hs. replace (8 * Z.of_nat (S n)) with (8 * Z.of_nat n + 8) by lia. rewrite Z.pow_add_r by lia. lia. }
  specialize (H n x []). rewrite app_nil_r in H. rewrite H. cbn [le_value]. lia.
Qed.

(** The lines of a swap, least significant byte first. *)
Fixpoint swap_lines (ret : Z) (xs : list Z) (k : Z) : Z :=
  match xs with
  | [] => ret
  | x :: xs => swap_lines (Z.lor ret (Z.land x (2 ^ (8 * k + 8) - 2 ^ (8 * k)))) xs (k + 1)
  end.

Fixpoint gather (xs : list Z) (k : Z) : Z :=
  match xs with
  | [] => 0
  | x :: xs => byte_at x k + 2 ^ 8 * gather xs (k + 1)
  end.

Lemma swap_lines_gather xs : forall ret k,
  0 <= k -> 0 <= ret < 2 ^ (8 * k) -> Forall (fun x => 0 <= x) xs ->
  swap_lines ret xs k = ret + 2 ^ (8 * k) * gather xs k.
Proof.
  induction xs as [|x xs IH]; intros ret k Hk Hr Hx; cbn [swap_lines gather]; [lia|].
  apply Forall_cons in Hx as [Hx0 Hx]. destruct (swap_step ret x k Hk Hr Hx0) as [-> Hb].
  pose proof (byte_at_bound x k). rewrite IH by (done || lia || (split; [nia|done])).
  replace (8 * (k + 1)) with (8 * k + 8) by lia. rewrite Z.pow_add_r by lia. lia.
Qed.

Lemma shiftr_nonneg x a : 0 <= x -> 0 <= Z.shiftr x a.
Proof. apply Z.shiftr_nonneg. Qed.

Lemma endswap16_bytes v : 0 <= v < 2 ^ 16 -> endswap16 v = le_value (rev (le_bytes 2 v)).
Proof.
  intros Hv. rewrite <-swapped_bytes. unfold endswap16. cbv zeta.
  transitivity (u16 (swap_lines 0 [Z.shiftr v (8 * 1); Z.shiftl v (8 * 1)] 0)); [reflexivity|].
  rewrite swap_lines_gather; [|lia|lia|].
  2: { repeat (apply Forall_cons_2; [(apply shiftr_nonneg || apply Z.shiftl_nonneg); lia|]). apply Forall_nil_2. }
  cbn [gather]. rewrite byte_at_shiftr by lia.
  replace (byte_at (Z.shiftl v (8 * 1)) (0 + 1)) with (byte_at v 0).
  2: { unfold byte_at. rewrite Z.shiftl_mul_pow2 by lia. cbn. by rewrite Z.div_mul, Z.div_1_r by lia. }
  cbn [swapped]. pose proof (byte_at_bound v 0). pose proof (byte_at_bound v 1).
  change (0 + 1) with 1. change (Z.of_nat 1) with 1. change (Z.of_nat 0) with 0. change (2 ^ (8 * 0)) with 1.
  rewrite u16_id; lia.
Qed.

Lemma endswap32_bytes v : 0 <= v -> endswap32 v = le_value (rev (le_bytes 4 v)).
Proof.
  intros Hv. rewrite <-swapped_bytes.
  transitivity (swap_lines 0 [Z.shiftr v (8 * 3); Z.shiftr v (8 * 1);
    u32 (Z.shiftl v (8 * 1)); u32 (Z.shiftl v (8 * 3))] 0); [reflexivity|].
  rewrite swap_lines_gather; [|lia|lia|].
  2: { repeat (apply Forall_cons_2; [by apply shiftr_nonneg || apply u32_bound|]). apply Forall_nil_2. }
  cbn [gather swapped]. unfold u32. change (2 ^ 32) with (2 ^ (8 * 4)).
  rewrite !byte_at_shiftr by lia.
  rewrite (byte_at_shiftl v (0 + 1 + 1) 1 4), (byte_at_shiftl v (0 + 1 + 1 + 1) 3 4) by lia.
  change (2 ^ (8 * 0)) with 1. rewrite Z.mul_1_l, Z.add_0_l. reflexivity.
Qed.

Lemma endswap64_bytes v : 0 <= v -> endswap64 v = le_value (rev (le_bytes 8 v)).
Proof.
  intros Hv. rewrite <-swapped_bytes.
  transitivity (swap_lines 0 [Z.shiftr v (8 * 7); Z.shiftr v (8 * 5); Z.shiftr v (8 * 3); Z.shiftr v (8 * 1);
    u64 (Z.shiftl v (8 * 1)); u64 (Z.shiftl v (8 * 3)); u64 (Z.shiftl v (8 * 5)); u64 (Z.shiftl v (8 * 7))] 0);
    [reflexivity|].
  rewrite swap_lines_gather; [|lia|lia|].
  2: { repeat (apply Forall_cons_2; [by apply shiftr_nonneg || apply u64_bound|]). apply Forall_nil_2. }
  cbn [gather swapped]. unfold u64. change (2 ^ 64) with (2 ^ (8 * 8)).
  rewrite !byte_at_shiftr by lia.
  rewrite (byte_at_shiftl v (0 + 1 + 1 + 1 + 1) 1 8), (byte_at_shiftl v (0 + 1 + 1 + 1 + 1 + 1) 3 8),
    (byte_at_shiftl v (0 + 1 + 1 + 1 + 1 + 1 + 1) 5 8), (byte_at_shiftl v (0 + 1 + 1 + 1 + 1 + 1 + 1 + 1) 7 8) by lia.
  change (2 ^ (8 * 0)) with 1. rewrite Z.mul_1_l, Z.add_0_l. reflexivity.
Qed.

(** ** Properties *)

Lemma ENDSWAP_bytes be n v :
  n = 1%nat \/ n = 2%nat \/ n = 4%nat \/ n = 8%nat -> 0 <= v < 2 ^ (8 * Z.of_nat n) ->
  ENDSWAP be n v = le_value (to_bytes be n v).
Proof.
  intros Hn Hv. unfold ENDSWAP, to_bytes. destruct be.
  - destruct Hn as [->|[->|[-> | ->]]].
    + cbn. rewrite Z.mod_small by lia. lia.
    + by apply endswap16_bytes.
    + apply endswap32_bytes. lia.
    + apply endswap64_bytes. lia.
  - rewrite le_value_bytes. by rewrite Z.mod_small.
Qed.

Lemma le_bytes_value bs : Forall (fun b => 0 <= b < 2 ^ 8) bs -> le_bytes (length bs) (le_value bs) = bs.
Proof.
  induction 1 as [|b bs Hb _ IH]; [done|]. cbn [length le_bytes le_value].
  replace ((b + 2 ^ 8 * le_value bs) / 2 ^ 8) with (le_value bs) by mlia.
  rewrite IH. f_equal. mlia.
Qed.

Lemma le_bytes_range n x : Forall (fun b => 0 <= b < 2 ^ 8) (le_bytes n x).
Proof. revert x. induction n as [|n IH]; intros x; cbn [le_bytes]; constructor; [mlia|done]. Qed.

(** A field loaded natively and swapped has the value its bytes have in
    little-endian order. *)
Lemma ENDSWAP_load be bs :
  let n := length bs in
  n = 1%nat \/ n = 2%nat \/ n = 4%nat \/ n = 8%nat -> Forall (fun b => 0 <= b < 2 ^ 8) bs ->
  ENDSWAP be n (of_bytes be bs) = le_value bs /\ 0 <= le_value bs < 2 ^ (8 * Z.of_nat n).
Proof.
  intros n Hn Hb.
  assert (Hle : forall l, length l = n -> Forall (fun b => 0 <= b < 2 ^ 8) l -> 0 <= le_value l < 2 ^ (8 * Z.of_nat n)).
  { intros l Hl Hl'. rewrite <-(le_bytes_value l Hl'), le_value_bytes, Hl. apply Z.mod_pos_bound. lia. }
  assert (Hrev : Forall (fun b => 0 <= b < 2 ^ 8) (rev bs)) by (apply List.Forall_rev; exact Hb).
  split; [|by apply Hle]. unfold of_bytes. destruct be; [|done].
  rewrite ENDSWAP_bytes; [|done|by apply Hle; rewrite ?length_rev]. unfold to_bytes.
  assert (El : le_bytes n (le_value (rev bs)) = rev bs).
  { unfold n. rewrite <-length_rev. by apply le_bytes_value. }
  by rewrite El, rev_involutive.
Qed.

(** A value swapped and stored natively is laid out in little-endian order. *)
Lemma ENDSWAP_store be n v :
  n = 1%nat \/ n = 2%nat \/ n = 4%nat \/ n = 8%nat -> 0 <= v < 2 ^ (8 * Z.of_nat n) ->
  to_bytes be n (ENDSWAP be n v) = le_bytes n v.
Proof.
  intros Hn Hv. rewrite ENDSWAP_bytes by done. unfold to_bytes. destruct be.
  - rewrite <-(rev_involutive (le_bytes n v)) at 2. f_equal.
    assert (H : forall l, length l = n -> Forall (fun b => 0 <= b < 2 ^ 8) l -> le_bytes n (le_value l) = l).
    { intros l <-. apply le_bytes_value. }
    apply H; [by rewrite length_rev, length_le_bytes|]. apply List.Forall_rev, le_bytes_range.
  - f_equal. rewrite le_value_bytes. by apply Z.mod_small.
Qed.

(** [ENDSWAP] reads a little-endian field on a machine of either byte order:
    the bytes in memory, loaded natively and swapped, give the value the bytes
    have in little-endian order; and swapping twice is the identity. *)
Theorem ENDSWAP_reads_little_endian be bs :
  let n := length bs in
  n = 1%nat \/ n = 2%nat \/ n = 4%nat \/ n = 8%nat -> Forall (fun b => 0 <= b < 2 ^ 8) bs ->
  ENDSWAP be n (of_bytes be bs) = le_value bs /\
  ENDSWAP be n (ENDSWAP be n (of_bytes be bs)) = of_bytes be bs.
Proof.
  intros n Hn Hb. destruct (ENDSWAP_load be bs Hn Hb) as [E1 Hr]. fold n in E1, Hr.
  split; [done|]. rewrite E1, ENDSWAP_bytes; [|done|done].
  unfold to_bytes, of_bytes, n. rewrite le_bytes_value by done. by destruct be.
Qed.

(** The two high bits of the cylinder, at the top of the second byte. *)
Lemma chs_high_bits cyl : 0 <= cyl < 1024 -> (cyl / 2 ^ 2) mod 2 ^ 8 - (cyl / 2 ^ 2) mod 2 ^ 6 = 64 * (cyl / 256).
Proof.
  intros Hc. replace (cyl / 256) with (cyl / 2 ^ 2 / 2 ^ 6) by (rewrite Z.div_div by lia; f_equal; lia).
  assert (0 <= cyl / 2 ^ 2 < 256) by mlia. rewrite Z.mod_small by lia. mlia.
Qed.

(** Cylinder-head-sector addresses: every sector the format can express is
    written so that a BIOS reads it back, and every other one becomes the marker
    of an inexpressible address. *)
Theorem lba2chs_roundtrip lba :
  0 <= lba < 2 ^ 64 ->
  if lba <? 1024 * 255 * 63
  then chs2lba (lba2chs lba) = lba /\ 0 <= chs_head (lba2chs lba) < 255 /\
       1 <= chs_sector (lba2chs lba) <= 63 /\ 0 <= chs_cylinder (lba2chs lba) < 1024
  else lba2chs lba = chs_too_big.
Proof.
  intros Hl. unfold lba2chs. destruct (Z.ltb_spec lba (1024 * 255 * 63)) as [Hlt|Hge].
  - rewrite (proj2 (Z.ltb_ge _ _)) by lia. set (cyl := lba / (255 * 63)).
    assert (Hc : 0 <= cyl < 1024) by (unfold cyl; mlia).
    rewrite (proj2 (Z.leb_gt _ _)) by lia.
    set (head := (lba / 63) mod 255). set (sector := lba mod 63 + 1).
    assert (Hh : 0 <= head < 255) by (unfold head; mlia).
    assert (Hs : 1 <= sector <= 63) by (unfold sector; mlia).
    assert (E1 : u8 (Z.lor (u8 (Z.land (Z.shiftr cyl 2) 0xc0)) (Z.land sector 0x3f)) = 64 * (cyl / 256) + sector).
    { change 0x3f with (Z.ones 6). rewrite Z.land_ones, (Z.mod_small sector) by lia.
      change 0xc0 with (2 ^ 8 - 2 ^ 6). rewrite land_field_mask by (try apply Z.shiftr_nonneg; lia).
      rewrite Z.shiftr_div_pow2 by lia.
      assert (0 <= cyl / 256 < 4) by (clearbody cyl head sector; mlia).
      rewrite chs_high_bits by lia. rewrite (u8_id (64 * _)) by lia.
      rewrite (lor_low_add _ _ 6); [|lia..|].
      - apply u8_id. lia.
      - rewrite Z.mul_comm. by apply Z_mod_mult. }
    unfold chs2lba, chs_cylinder, chs_head, chs_sector. cbn [nth]. rewrite E1.
    rewrite (u8_id head) by lia. unfold u8.
    assert (Hd : lba = cyl * (255 * 63) + head * 63 + (sector - 1)) by (unfold cyl, head, sector; mlia).
    assert (Hq : (64 * (cyl / 256) + sector) / 2 ^ 6 = cyl / 256) by mlia.
    assert (Hr : (64 * (cyl / 256) + sector) mod 2 ^ 6 = sector) by mlia.
    rewrite Hq, Hr. clearbody cyl head sector. split; [|mlia]. mlia.
  - destruct (63 * 255 * 1024 <? lba) eqn:E; [done|]. by rewrite (proj2 (Z.leb_le 1024 _)) by mlia.
Qed.

Lemma ENDSWAP_reads_little_endian_witness :
  ENDSWAP true 4 (of_bytes true [0x78; 0x56; 0x34; 0x12]) = 0x12345678.
Proof.
  apply (ENDSWAP_reads_little_endian true [0x78; 0x56; 0x34; 0x12]).
  - cbn. lia.
  - repeat (apply Forall_cons_2; [lia|]). apply Forall_nil_2.
Defined.

Lemma lba2chs_roundtrip_witness : chs2lba (lba2chs 1000000) = 1000000.
Proof. refine (proj1 (lba2chs_roundtrip 1000000 _)). lia. Defined.
