(* ===== verification/LimineDisk.v ===== *)
(** The block cache of [limine/limine.c], the host tool that installs the boot
    loader: [device_init], [device_flush_cache], [device_cache_block],
    [_device_read], and the copying half of [_device_write], over a model of the
    C stream behind [device]. Every stream operation may fail part-way; the
    theorems say what a reported success means and what a failure can have left. *)

From S2P Require Import Prelude.

(** ** The stream

    A file of fixed size opened for update, unbuffered: its bytes, the file
    position, and how many transfers it has made so far. *)
Record stream := Stream { s_bytes : list Z; s_pos : Z; s_ops : nat }.

Definition s_size (s : stream) : Z := Z.of_nat (length (s_bytes s)).

(** [n] bytes at [pos]; overwriting at [pos]. *)
Definition slice (l : list Z) (pos n : Z) : list Z := take (Z.to_nat n) (drop (Z.to_nat pos) l).
Definition splice (l : list Z) (pos : Z) (bs : list Z) : list Z := list_inserts (Z.to_nat pos) bs l.

#[global] Arguments slice : simpl never.
#[global] Arguments splice : simpl never.

Inductive cache_status := CACHE_CLEAN | CACHE_DIRTY.

#[export] Instance cache_status_eq_dec : EqDecision cache_status.
Proof. solve_decision. Defined.

(** One entry of [uninstall_data]: the bytes and where they were. *)
Record uninstall_data := UninstallData { ud_data : list Z; ud_loc : Z }.
Definition ud_count (u : uninstall_data) : Z := Z.of_nat (length (ud_data u)).

(** The statics of the tool: the stream [device], the cache, and the undo log
    (entries [0 .. uninstall_data_i - 1], oldest first). *)
Record dev := Dev {
  device : stream;
  cache_state : cache_status;
  cached_block : Z;
  cache : list Z;
  block_size : Z;
  uninstalling : bool;
  undo_log : list uninstall_data;
}.

Definition set_device (s : stream) (d : dev) : dev :=
  Dev s (cache_state d) (cached_block d) (cache d) (block_size d) (uninstalling d) (undo_log d).
Definition set_cache (st : cache_status) (b : Z) (c : list Z) (d : dev) : dev :=
  Dev (device d) st b c (block_size d) (uninstalling d) (undo_log d).
Definition set_block_size (n : Z) (d : dev) : dev :=
  Dev (device d) (cache_state d) (cached_block d) (cache d) n (uninstalling d) (undo_log d).
Definition set_log (u : bool) (l : list uninstall_data) (d : dev) : dev :=
  Dev (device d) (cache_state d) (cached_block d) (cache d) (block_size d) u l.

Section Stream.
(** The fate of each transfer, by its number: [None] when the device performs
    it, [Some k] when it fails after [k] bytes. *)
Context (fault : nat -> option nat).

(** [LONG_MAX]. *)
Context (LONG_MAX : Z).

(** [fseek] to an absolute position or forwards: fails on a negative target. *)
Definition fseek_set (pos : Z) (s : stream) : bool * stream :=
  if pos <? 0 then (false, s) else (true, Stream (s_bytes s) pos (s_ops s)).
Definition fseek_cur (off : Z) (s : stream) : bool * stream :=
  if s_pos s + off <? 0 then (false, s) else (true, Stream (s_bytes s) (s_pos s + off) (s_ops s)).
Definition rewind (s : stream) : stream := Stream (s_bytes s) 0 (s_ops s).

(** The jumps of the loop in [set_pos]. *)
Fixpoint jump (n : nat) (off : Z) (s : stream) : bool * stream :=
  match n with
  | O => (true, s)
  | S n =>
      let '(ok, s) := fseek_cur off s in
      if negb ok then (false, s) else jump n off s
  end.

(** [true] for the return value 0. A [long] of 64 bits takes the position as it
    is (two's complement), a shorter one is reached in jumps. *)
Definition set_pos (pos : Z) (s : stream) : bool * stream :=
  if 2 ^ 63 - 1 <=? LONG_MAX then fseek_set ((pos + 2 ^ 63) mod 2 ^ 64 - 2 ^ 63) s
  else
    let jump_size := LONG_MAX / 2 + 1 in
    let last_jump := pos mod jump_size in
    let jumps := pos / jump_size in
    let '(ok, s) := jump (Z.to_nat jumps) jump_size (rewind s) in
    if negb ok then (false, s) else fseek_cur last_jump s.

(** [fread(buf, n, 1, device)]: whether one whole item came, and the bytes that
    did. *)
Definition fread (n : Z) (s : stream) : (bool * list Z) * stream :=
  let got := match fault (s_ops s) with
             | None => slice (s_bytes s) (s_pos s) n
             | Some k => take k (slice (s_bytes s) (s_pos s) (n - 1))
             end in
  let all := Z.of_nat (length got) =? n in
  ((all, got), Stream (s_bytes s) (s_pos s + Z.of_nat (length got)) (S (s_ops s))).

(** [fwrite(bs, length bs, 1, device)] on a device that does not grow. *)
Definition fwrite (bs : list Z) (s : stream) : bool * stream :=
  let n := Z.of_nat (length bs) in
  let room := Z.max 0 (s_size s - s_pos s) in
  let put := match fault (s_ops s) with
             | None => take (Z.to_nat room) bs
             | Some k => take k (take (Z.to_nat (Z.min room (n - 1))) bs)
             end in
  let all := Z.of_nat (length put) =? n in
  (all, Stream (splice (s_bytes s) (s_pos s) put) (s_pos s + Z.of_nat (length put)) (S (s_ops s))).

(** ** The cache *)

(** The bytes that came, over the old contents of the buffer. *)
Definition refill (got old : list Z) : list Z := got ++ drop (length got) old.

(** The loop over [guesses]; [realloc] succeeds, and what it leaves in a grown
    buffer is not read before [fread] fills it. *)
Fixpoint try_guesses (guesses : list Z) (d : dev) : bool * dev :=
  match guesses with
  | [] => (false, d)
  | g :: gs =>
      let '((all, got), s) := fread g (rewind (device d)) in
      let d := set_cache (cache_state d) (cached_block d) (refill got (repeat 0 (Z.to_nat g))) (set_device s d) in
      if negb all then try_guesses gs d
      else
        let d := set_block_size g d in
        (true, set_cache CACHE_CLEAN 0 (cache d) d)
  end.

Definition device_init (d : dev) : bool * dev := try_guesses [512; 2048; 4096] d.

Definition device_flush_cache (d : dev) : bool * dev :=
  if decide (cache_state d = CACHE_CLEAN) then (true, d)
  else
    let '(ok, s) := set_pos (u64 (cached_block d * block_size d)) (device d) in
    let d := set_device s d in
    if negb ok then (false, d)
    else
      let '(all, s) := fwrite (cache d) (device d) in
      let d := set_device s d in
      if negb all then (false, d)
      else (true, set_cache CACHE_CLEAN (cached_block d) (cache d) d).

Definition device_cache_block (block : Z) (d : dev) : bool * dev :=
  if cached_block d =? block then (true, d)
  else
    let '(ok, d) := if decide (cache_state d = CACHE_DIRTY) then device_flush_cache d else (true, d) in
    if negb ok then (false, d)
    else
      let '(ok, s) := set_pos (u64 (block * block_size d)) (device d) in
      let d := set_device s d in
      if negb ok then (false, d)
      else
        let '((all, got), s) := fread (block_size d) (device d) in
        let d := set_cache (cache_state d) (cached_block d) (refill got (cache d)) (set_device s d) in
        if negb all then (false, d)
        else (true, set_cache (cache_state d) block (cache d) d).

(** The block, the offset in it and the length of the chunk at [progress]. *)
Definition chunk_at (loc count progress : Z) (d : dev) : Z * Z * Z :=
  let a := u64 (loc + progress) in
  let block := a / block_size d in
  let offset := a mod block_size d in
  let chunk := count - progress in
  let chunk := if block_size d - offset <? chunk then block_size d - offset else chunk in
  (block, offset, chunk).

(** The loop of [_device_read]; [acc]: the part of the buffer already filled.
    The inner option is the [false] of a failure. *)
Fixpoint read_loop (fuel : nat) (loc count progress : Z) (acc : list Z) : prog dev (option (list Z)) := fun d =>
  match fuel with
  | O => None
  | S fuel =>
      if progress <? count then
        let '(block, offset, chunk) := chunk_at loc count progress d in
        let '(ok, d) := device_cache_block block d in
        if negb ok then Some (None, d)
        else read_loop fuel loc count (progress + chunk) (acc ++ slice (cache d) offset chunk) d
      else Some (Some acc, d)
  end.

Definition device_read (loc count : Z) : prog dev (option (list Z)) :=
  read_loop (S (Z.to_nat count)) loc count 0 [].

(** The loop of [_device_write]. *)
Fixpoint write_loop (fuel : nat) (buf : list Z) (loc progress : Z) : prog dev bool := fun d =>
  match fuel with
  | O => None
  | S fuel =>
      let count := Z.of_nat (length buf) in
      if progress <? count then
        let '(block, offset, chunk) := chunk_at loc count progress d in
        let '(ok, d) := device_cache_block block d in
        if negb ok then Some (false, d)
        else
          let d := set_cache CACHE_DIRTY (cached_block d)
                     (splice (cache d) offset (slice buf progress chunk)) d in
          write_loop fuel buf loc (progress + chunk) d
      else Some (true, d)
  end.

Definition write_through (buf : list Z) (loc : Z) : prog dev bool :=
  write_loop (S (length buf)) buf loc 0.
End Stream.

(** ** Slices *)

Lemma slice_lookup l pos n i :
  slice l pos n !! i = if decide (i < Z.to_nat n)%nat then l !! (Z.to_nat pos + i)%nat else None.
Proof.
  unfold slice. destruct (decide _).
  - by rewrite lookup_take_lt, lookup_drop.
  - apply lookup_take_ge. lia.
Qed.

Lemma length_slice l pos n :
  0 <= pos -> 0 <= n -> pos + n <= Z.of_nat (length l) -> length (slice l pos n) = Z.to_nat n.
Proof. intros. unfold slice. rewrite length_take, length_drop. lia. Qed.

Lemma length_splice l pos bs : length (splice l pos bs) = length l.
Proof. apply length_inserts. Qed.

Lemma splice_lookup l pos bs i :
  0 <= pos -> pos + Z.of_nat (length bs) <= Z.of_nat (length l) ->
  splice l pos bs !! i =
    if decide (pos <= Z.of_nat i < pos + Z.of_nat (length bs))
    then bs !! (i - Z.to_nat pos)%nat else l !! i.
Proof.
  intros Hp Hl. unfold splice. destruct (decide _).
  - rewrite list_lookup_inserts by lia. done.
  - destruct (decide (Z.of_nat i < pos)).
    + by rewrite list_lookup_inserts_lt by lia.
    + by rewrite list_lookup_inserts_ge by lia.
Qed.

Lemma length_refill got old : (length got <= length old)%nat -> length (refill got old) = length old.
Proof. intros. unfold refill. rewrite length_app, length_drop. lia. Qed.

Lemma refill_all got old : length got = length old -> refill got old = got.
Proof. intros E. unfold refill. rewrite E, drop_all. apply app_nil_r. Qed.

(** ** Positions *)

Lemma jump_spec n off s :
  0 <= off -> 0 <= s_pos s ->
  jump n off s = (true, Stream (s_bytes s) (s_pos s + Z.of_nat n * off) (s_ops s)).
Proof.
  intros Ho. revert s. induction n as [|n IH]; intros [b p o] Hp; cbn [jump s_pos s_bytes s_ops] in *.
  - do 2 f_equal. lia.
  - unfold fseek_cur. cbn [s_pos s_bytes s_ops]. rewrite (proj2 (Z.ltb_ge _ _)) by lia. cbn [negb].
    rewrite IH by (cbn; lia). cbn. do 2 f_equal. lia.
Qed.

Lemma set_pos_eq LONG_MAX pos s :
  0 < LONG_MAX -> 0 <= pos < 2 ^ 63 ->
  set_pos LONG_MAX pos s = (true, Stream (s_bytes s) pos (s_ops s)).
Proof.
  intros HL Hp. unfold set_pos. destruct (Z.leb_spec (2 ^ 63 - 1) LONG_MAX).
  - unfold fseek_set. rewrite Z.mod_small by lia. replace (pos + 2 ^ 63 - 2 ^ 63) with pos by lia.
    by rewrite (proj2 (Z.ltb_ge _ _)) by lia.
  - set (j := LONG_MAX / 2 + 1). assert (0 < j) by (unfold j; mlia).
    pose proof (Z.div_mod pos j ltac:(lia)). pose proof (Z.mod_pos_bound pos j ltac:(lia)).
    pose proof (Z.div_pos pos j ltac:(lia) ltac:(lia)).
    rewrite jump_spec by (cbn; lia). cbn [negb]. unfold fseek_cur. cbn [s_pos s_bytes s_ops rewind].
    rewrite Z2Nat.id by done. rewrite (proj2 (Z.ltb_ge _ _)) by nia. do 2 f_equal. nia.
Qed.

(** ** The logical disk

    What a reader of the cache sees: the device, with the cached block over it. *)

Definition holds (d : dev) : Prop :=
  0 <= cached_block d /\ (cached_block d + 1) * block_size d <= s_size (device d).

#[export] Instance holds_dec d : Decision (holds d).
Proof. unfold holds. apply _. Defined.

Definition view (d : dev) : list Z :=
  if decide (holds d) then splice (s_bytes (device d)) (cached_block d * block_size d) (cache d)
  else s_bytes (device d).

(** The invariant between operations that succeed. A cache that holds no block
    has the number -1, as [uninstall] sets it. *)
Record dev_ok (d : dev) : Prop := {
  ok_bs : 1 < block_size d;
  ok_cache : Z.of_nat (length (cache d)) = block_size d;
  ok_size : s_size (device d) < 2 ^ 63;
  ok_block : holds d \/ (cached_block d = 2 ^ 64 - 1 /\ cache_state d = CACHE_CLEAN);
  ok_clean : holds d -> cache_state d = CACHE_CLEAN ->
    slice (s_bytes (device d)) (cached_block d * block_size d) (block_size d) = cache d;
}.

Lemma length_view d : length (view d) = length (s_bytes (device d)).
Proof. unfold view. destruct (decide _); [apply length_splice|done]. Qed.

Lemma splice_slice l pos n :
  0 <= pos -> 0 <= n -> pos + n <= Z.of_nat (length l) -> splice l pos (slice l pos n) = l.
Proof.
  intros Hp Hn Hl. pose proof (length_slice l pos n Hp Hn Hl) as E. apply list_eq. intros i.
  rewrite splice_lookup by lia. destruct (decide _); [|done].
  rewrite slice_lookup. rewrite decide_True by lia. f_equal. lia.
Qed.

(** A clean cache adds nothing. *)
Lemma view_clean d : dev_ok d -> cache_state d = CACHE_CLEAN -> view d = s_bytes (device d).
Proof.
  intros [Hbs Hc Hs Hb Hcl] E. unfold view. destruct (decide (holds d)) as [Hh|]; [|done].
  rewrite <-(Hcl Hh E). destruct Hh as [Hb0 Hb1]. unfold s_size in *.
  apply splice_slice; nia.
Qed.

(** The bytes of the device lie between two versions of the disk: an interrupted
    transfer leaves each byte old or new. *)
Definition mixed (l0 l1 l : list Z) : Prop :=
  length l = length l0 /\ forall i, l !! i = l0 !! i \/ l !! i = l1 !! i.

Lemma mixed_refl l0 l1 : mixed l0 l1 l0.
Proof. split; [done|]. by left. Qed.

Section Spec.
Context (fault : nat -> option nat) (LONG_MAX : Z) (Hlong : 0 < LONG_MAX).

(** From now on the device performs every transfer. *)
Definition no_faults (d : dev) : Prop := forall k, (s_ops (device d) <= k)%nat -> fault k = None.

(** What no operation on the cache changes. *)
Record kept (d d' : dev) : Prop := {
  k_bs : block_size d' = block_size d;
  k_uninst : uninstalling d' = uninstalling d;
  k_log : undo_log d' = undo_log d;
  k_size : length (s_bytes (device d')) = length (s_bytes (device d));
  k_ops : (s_ops (device d) <= s_ops (device d'))%nat;
  k_cache : length (cache d') = length (cache d);
}.

Lemma dev_kept_refl d : kept d d.
Proof using. done. Qed.

Lemma dev_kept_trans d1 d2 d3 : kept d1 d2 -> kept d2 d3 -> kept d1 d3.
Proof using. intros [] []. split; try congruence; lia. Qed.

Lemma kept_no_faults d d' : kept d d' -> no_faults d -> no_faults d'.
Proof using. intros [] Hn k Hk. apply Hn. lia. Qed.

Lemma set_pos_cases pos s :
  0 <= pos < 2 ^ 64 ->
  exists ok p, set_pos LONG_MAX pos s = (ok, Stream (s_bytes s) p (s_ops s)) /\
    (ok = true -> p = pos) /\ (pos < 2 ^ 63 -> ok = true).
Proof using Hlong.
  intros Hp. destruct (decide (pos < 2 ^ 63)).
  { exists true, pos. split; [|done]. apply set_pos_eq; lia. }
  unfold set_pos. destruct (2 ^ 63 - 1 <=? LONG_MAX).
  - unfold fseek_set. replace ((pos + 2 ^ 63) mod 2 ^ 64 - 2 ^ 63) with (pos - 2 ^ 64) by mlia.
    rewrite (proj2 (Z.ltb_lt _ _)) by lia. exists false, (s_pos s). by destruct s.
  - set (j := LONG_MAX / 2 + 1). assert (0 < j) by (unfold j; mlia).
    pose proof (Z.div_mod pos j ltac:(lia)). pose proof (Z.mod_pos_bound pos j ltac:(lia)).
    pose proof (Z.div_pos pos j ltac:(lia) ltac:(lia)).
    rewrite jump_spec by (cbn; lia). cbn [negb]. unfold fseek_cur. cbn [s_pos s_bytes s_ops rewind].
    rewrite Z2Nat.id by done. rewrite (proj2 (Z.ltb_ge _ _)) by nia. exists true. eexists.
    split; [done|]. split; [|lia]. intros _. nia.
Qed.

(** One transfer in: all the bytes of the item, or fewer. *)
Lemma fread_cases n s :
  0 < n -> 0 <= s_pos s ->
  exists all got, fread fault n s = ((all, got), Stream (s_bytes s) (s_pos s + Z.of_nat (length got)) (S (s_ops s))) /\
    (length got <= Z.to_nat n)%nat /\
    (all = true -> got = slice (s_bytes s) (s_pos s) n /\ s_pos s + n <= s_size s) /\
    (fault (s_ops s) = None -> s_pos s + n <= s_size s -> all = true).
Proof using.
  intros Hn Hp. unfold fread. eexists _, _. split; [reflexivity|].
  unfold slice, s_size. destruct (fault (s_ops s)) as [k|]; rewrite !length_take, ?length_drop.
  - split; [lia|]. split; [|done]. rewrite Z.eqb_eq. lia.
  - split; [lia|]. split.
    + rewrite Z.eqb_eq. intros E. split; [done|lia].
    + intros _ Hr. apply Z.eqb_eq. lia.
Qed.

(** One transfer out at [pos], inside the device. *)
Lemma fwrite_cases bs s :
  (0 < length bs)%nat -> 0 <= s_pos s -> s_pos s + Z.of_nat (length bs) <= s_size s ->
  exists all put p, fwrite fault bs s = (all, Stream (splice (s_bytes s) (s_pos s) put) p (S (s_ops s))) /\
    (all = true -> put = bs) /\ (exists rest, bs = put ++ rest) /\
    (fault (s_ops s) = None -> all = true).
Proof using.
  intros Hn Hp Hr. unfold fwrite. eexists _, _, _. split; [reflexivity|].
  destruct (fault (s_ops s)) as [k|].
  - rewrite !length_take. split; [|split; [|done]].
    + rewrite Z.eqb_eq. lia.
    + rewrite take_take. eexists. symmetry. apply take_drop.
  - rewrite take_ge by lia. rewrite Z.eqb_refl. split; [done|]. split; [|done].
    exists []. by rewrite app_nil_r.
Qed.

(** Writing a prefix of a block over the device leaves a mixture. *)
Lemma splice_mixed l pos bs put rest :
  0 <= pos -> pos + Z.of_nat (length bs) <= Z.of_nat (length l) -> bs = put ++ rest ->
  mixed l (splice l pos bs) (splice l pos put).
Proof using.
  intros Hp Hl ->. rewrite length_app in Hl. split; [apply length_splice|]. intros i.
  rewrite !splice_lookup by (rewrite ?length_app; lia).
  destruct (decide (pos <= Z.of_nat i < pos + Z.of_nat (length put))).
  - right. rewrite decide_True by (rewrite length_app; lia). symmetry. apply lookup_app_l. lia.
  - by left.
Qed.

Lemma flush_spec d ok d' :
  dev_ok d -> device_flush_cache fault LONG_MAX d = (ok, d') ->
  kept d d' /\ mixed (s_bytes (device d)) (view d) (s_bytes (device d')) /\
  cache d' = cache d /\ cached_block d' = cached_block d /\
  (ok = true -> dev_ok d' /\ cache_state d' = CACHE_CLEAN /\ view d' = view d /\ s_bytes (device d') = view d) /\
  (no_faults d -> ok = true).
Proof using Hlong.
  intros Hok E. unfold device_flush_cache in E.
  destruct (decide (cache_state d = CACHE_CLEAN)) as [Hcl|Hd].
  { injection E as <- <-. split; [done|]. split; [apply mixed_refl|]. do 2 (split; [done|]).
    split; [|done]. intros _. split; [done|]. split; [done|]. split; [done|]. symmetry. by apply view_clean. }
  pose proof Hok as [Hbs Hc Hs Hb _]. destruct Hb as [Hh|[_ ?]]; [|done]. pose proof Hh as [Hb0 Hb1].
  set (pos := cached_block d * block_size d) in *.
  assert (Hpos : 0 <= pos /\ pos + block_size d <= s_size (device d)) by (unfold pos; nia).
  rewrite u64_id, set_pos_eq in E by lia. cbn [negb] in E.
  set (s := Stream (s_bytes (device d)) pos (s_ops (device d))) in *.
  change (device (set_device s d)) with s in E. change (cache (set_device s d)) with (cache d) in E.
  destruct (fwrite_cases (cache d) s) as (all & put & p & Ew & Hall & [rest Hput] & Hnf);
    [lia|cbn; lia|unfold s_size in *; cbn; lia|].
  rewrite Ew in E. cbn [s_bytes s_ops s_pos s] in E.
  assert (Hv : view d = splice (s_bytes (device d)) pos (cache d)) by (unfold view; by rewrite decide_True).
  assert (Hmix : mixed (s_bytes (device d)) (view d) (splice (s_bytes (device d)) pos put)).
  { rewrite Hv. eapply splice_mixed; [lia|unfold s_size in *; lia|done]. }
  destruct all; cbn [negb] in E; injection E as <- <-; cbn.
  - split; [split; cbn; try done; [apply length_splice|lia]|]. split; [done|]. do 2 (split; [done|]).
    split; [|done]. intros _. rewrite (Hall eq_refl) in *.
    set (d' := set_cache _ _ _ _).
    assert (Hh' : holds d') by (unfold holds; cbn; unfold s_size; cbn; rewrite length_splice; exact Hh).
    assert (Hsl : slice (splice (s_bytes (device d)) pos (cache d)) pos (block_size d) = cache d).
    { apply list_eq. intros i. rewrite slice_lookup. destruct (decide _).
      - rewrite splice_lookup by (unfold s_size in *; lia). rewrite decide_True by lia. f_equal. lia.
      - symmetry. apply lookup_ge_None_2. lia. }
    assert (Hok' : dev_ok d').
    { split; cbn; try done; [unfold s_size in *; cbn; by rewrite length_splice|by left]. }
    split; [done|]. split; [done|]. rewrite Hv.
    rewrite (view_clean d' Hok' eq_refl). done.
  - split; [split; cbn; try done; [apply length_splice|lia]|]. split; [done|]. do 2 (split; [done|]).
    split; [done|]. intros Hn. exfalso. assert (false = true) as [=]. apply Hnf, Hn. cbn. lia.
Qed.

(** The flush before another block is cached. *)
Lemma flush_if_dirty_spec d ok1 d1 :
  dev_ok d -> (if decide (cache_state d = CACHE_DIRTY) then device_flush_cache fault LONG_MAX d else (true, d)) = (ok1, d1) ->
  kept d d1 /\ mixed (s_bytes (device d)) (view d) (s_bytes (device d1)) /\
  (ok1 = true -> dev_ok d1 /\ cache_state d1 = CACHE_CLEAN /\ view d1 = view d /\ s_bytes (device d1) = view d) /\
  (no_faults d -> ok1 = true).
Proof using Hlong.
  intros Hok E1. destruct (decide (cache_state d = CACHE_DIRTY)) as [Hd|Hd].
  - destruct (flush_spec d ok1 d1 Hok E1) as (? & ? & _ & _ & ? & ?). done.
  - injection E1 as <- <-. assert (Hcl : cache_state d = CACHE_CLEAN) by (by destruct (cache_state d)).
    split; [done|]. split; [apply mixed_refl|]. split; [|done]. intros _.
    do 3 (split; [done|]). symmetry. by apply view_clean.
Qed.
(** Over a clean cache, whatever block it holds, the device is the disk. *)
Lemma cache_block_spec block d ok d' :
  dev_ok d -> 0 <= block -> block * block_size d < 2 ^ 64 ->
  device_cache_block fault LONG_MAX block d = (ok, d') ->
  kept d d' /\ mixed (s_bytes (device d)) (view d) (s_bytes (device d')) /\
  (ok = true -> dev_ok d' /\ view d' = view d /\ cached_block d' = block /\ holds d') /\
  (no_faults d -> (block + 1) * block_size d <= s_size (device d) -> ok = true).
Proof using Hlong.
  intros Hok Hb0 Hbb E. pose proof Hok as [Hbs Hc Hs Hblk _]. unfold device_cache_block in E.
  destruct (Z.eqb_spec (cached_block d) block) as [Eb|Hne].
  { injection E as <- <-. split; [done|]. split; [apply mixed_refl|]. split; [|done]. intros _.
    do 3 (split; [done|]). destruct Hblk as [?|[? _]]; [done|]. exfalso. nia. }
  destruct (if decide (cache_state d = CACHE_DIRTY) then device_flush_cache fault LONG_MAX d else (true, d))
    as [ok1 d1] eqn:E1.
  destruct (flush_if_dirty_spec d ok1 d1 Hok E1) as (K1 & M1 & S1 & N1). destruct ok1; cbn [negb] in E.
  2: { injection E as <- <-. do 2 (split; [done|]). split; [done|]. intros Hn _. by apply N1. }
  destruct (S1 eq_refl) as (Hok1 & Hcl1 & Hv1 & Hby1). clear S1 N1. rewrite Hby1 in M1.
  pose proof K1 as [Kbs Ku Kl Ksz Ko Kc]. rewrite Kbs in E.
  destruct (set_pos_cases (u64 (block * block_size d)) (device d1) ltac:(apply u64_bound))
    as (ok2 & p & E2 & Hp & Hin). rewrite u64_id in E2, Hp, Hin by nia. rewrite u64_id, E2 in E by nia.
  destruct ok2; cbn [negb] in E.
  2: { injection E as <- <-. split; [by split; cbn|]. cbn. rewrite Hby1. split; [done|]. split; [done|].
       intros _ Hr. apply Hin. nia. }
  rewrite (Hp eq_refl) in *. cbn [device set_device block_size cache] in E.
  set (s := Stream (s_bytes (device d1)) (block * block_size d) (s_ops (device d1))) in *.
  rewrite ?Kbs in E.
  pose proof (ok_cache d1 Hok1) as Hc1. rewrite Kbs in Hc1.
  destruct (fread_cases (block_size d) s) as (all & got & Er & Hgl & Hall & Hnf); [lia|cbn; nia|].
  rewrite Er in E. cbn [s_bytes s_ops s_pos s] in *.
  assert (Hrl : length (refill got (cache d1)) = length (cache d)) by (rewrite length_refill; lia).
  destruct all; cbn [negb] in E; injection E as <- <-; cbn.
  - split; [split; cbn; try done; lia|]. rewrite Hby1. split; [done|]. split; [|done]. intros _.
    destruct (Hall eq_refl) as [Hgot Hr]. unfold s_size in Hr. cbn in Hr.
    assert (Hlg : Z.of_nat (length got) = block_size d) by (rewrite Hgot, length_slice; lia).
    rewrite (refill_all got) by lia. set (d' := set_cache _ _ _ _).
    assert (Hh : holds d'). { unfold holds, s_size. cbn. rewrite Kbs, <-Hby1. lia. }
    assert (Hok' : dev_ok d').
    { split; [cbn; lia|cbn; lia|unfold s_size in *; cbn; rewrite <-Hby1; lia|by left|].
      intros _ _. cbn. rewrite Kbs, <-Hby1. exact (eq_sym Hgot). }
    split; [done|]. split; [|done]. by rewrite (view_clean d' Hok' Hcl1).
  - split; [split; cbn; try done; lia|]. rewrite Hby1. split; [done|]. split; [done|].
    intros Hn Hr. apply Hnf; [apply Hn; lia|]. unfold s_size in *. cbn. lia.
Qed.
(** *** Reading *)

Lemma mixed_trans l0 l1 l l' : mixed l0 l1 l -> mixed l l1 l' -> mixed l0 l1 l'.
Proof using.
  intros [L1 H1] [L2 H2]. split; [congruence|]. intros i. destruct (H2 i) as [->| ->]; [apply H1|by right].
Qed.

Lemma slice_app l pos n m :
  0 <= pos -> 0 <= n -> 0 <= m -> slice l pos (n + m) = slice l pos n ++ slice l (pos + n) m.
Proof using.
  intros. unfold slice. replace (Z.to_nat (n + m)) with (Z.to_nat n + Z.to_nat m)%nat by lia.
  replace (Z.to_nat (pos + n)) with (Z.to_nat pos + Z.to_nat n)%nat by lia.
  by rewrite <-drop_drop, take_take_drop.
Qed.

(** A chunk: inside one block, not empty. *)
Lemma chunk_spec loc count progress d :
  1 < block_size d -> 0 <= loc -> loc + count < 2 ^ 64 -> 0 <= progress < count ->
  exists block offset chunk, chunk_at loc count progress d = (block, offset, chunk) /\
    block = (loc + progress) / block_size d /\ loc + progress = block * block_size d + offset /\
    0 <= block /\ block * block_size d < 2 ^ 64 /\ 0 <= offset /\ 0 < chunk /\
    offset + chunk <= block_size d /\ progress + chunk <= count.
Proof using.
  intros Hbs Hl Hlc Hp. unfold chunk_at. rewrite u64_id by lia. eexists _, _, _. split; [reflexivity|].
  pose proof (Z.div_mod (loc + progress) (block_size d) ltac:(lia)) as Hdm.
  pose proof (Z.mod_pos_bound (loc + progress) (block_size d) ltac:(lia)).
  pose proof (Z.div_pos (loc + progress) (block_size d) ltac:(lia) ltac:(lia)).
  split; [done|]. destruct (Z.ltb_spec (block_size d - (loc + progress) mod block_size d) (count - progress)); lia.
Qed.

(** The last block of the range lies inside the device. *)
Definition covered (d : dev) (loc count : Z) : Prop :=
  ((loc + count - 1) / block_size d + 1) * block_size d <= s_size (device d).

Lemma covered_block d loc count progress :
  1 < block_size d -> 0 <= progress < count -> covered d loc count ->
  ((loc + progress) / block_size d + 1) * block_size d <= s_size (device d).
Proof using.
  unfold covered. intros Hb Hp Hc.
  pose proof (Z.div_le_mono (loc + progress) (loc + count - 1) (block_size d) ltac:(lia) ltac:(lia)). nia.
Qed.

Lemma kept_covered d d' loc count : kept d d' -> covered d loc count -> covered d' loc count.
Proof using. intros [Hb _ _ Hs _ _]. unfold covered, s_size. by rewrite Hb, Hs. Qed.

(** The cache answers for its block. *)
Lemma cached_slice d offset chunk :
  dev_ok d -> holds d -> 0 <= offset -> 0 <= chunk -> offset + chunk <= block_size d ->
  slice (cache d) offset chunk = slice (view d) (cached_block d * block_size d + offset) chunk.
Proof using.
  intros [Hbs Hc Hs _ _] Hh Ho Hk Hoc. pose proof Hh as [Hb0 Hb1]. unfold s_size in *.
  apply list_eq. intros i. rewrite !slice_lookup. destruct (decide _); [|done].
  unfold view. rewrite decide_True by done. rewrite splice_lookup by nia.
  rewrite decide_True by nia. f_equal. nia.
Qed.

Lemma read_loop_spec loc count fuel : forall progress acc d,
  dev_ok d -> 0 <= loc -> loc + count < 2 ^ 64 -> 0 <= progress <= count ->
  count - progress < Z.of_nat fuel -> acc = slice (view d) loc progress ->
  exists r d', read_loop fault LONG_MAX fuel loc count progress acc d = Some (r, d') /\
    kept d d' /\ mixed (s_bytes (device d)) (view d) (s_bytes (device d')) /\
    (forall data, r = Some data -> dev_ok d' /\ view d' = view d /\ data = slice (view d) loc count) /\
    (no_faults d -> covered d loc count -> r <> None) /\
    (r <> None -> progress < count -> covered d loc count).
Proof using Hlong.
  induction fuel as [|fuel IH]; intros progress acc d Hok Hl Hlc Hp Hf Hacc; [lia|]. cbn [read_loop].
  pose proof (ok_bs d Hok) as Hbs.
  destruct (Z.ltb_spec progress count) as [Hlt|Hge].
  2: { assert (progress = count) as -> by lia. exists (Some acc), d. split; [done|]. split; [done|].
       split; [apply mixed_refl|]. split; [by intros data [= <-]|]. split; [done|lia]. }
  destruct (chunk_spec loc count progress d Hbs Hl Hlc ltac:(lia))
    as (block & offset & chunk & E & Eb & Ea & Hb0 & Hb64 & Ho & Hc & Hoc & Hpc).
  rewrite E. destruct (device_cache_block fault LONG_MAX block d) as [ok d1] eqn:E1.
  destruct (cache_block_spec block d ok d1 Hok Hb0 Hb64 E1) as (K1 & M1 & S1 & N1).
  destruct ok; cbn [negb].
  2: { exists None, d1. split; [done|]. split; [done|]. split; [done|]. split; [done|]. split; [|done].
       intros Hn Hcov _. enough (false = true) by done. apply N1; [done|].
       rewrite Eb. apply (covered_block d loc count); done || lia. }
  destruct (S1 eq_refl) as (Hok1 & Hv1 & Hb1 & Hh1).
  destruct (IH (progress + chunk) (acc ++ slice (cache d1) offset chunk) d1) as (r & d' & Er & K & M & R & N & C);
    try (done || lia).
  { rewrite Hv1, slice_app, <-Hacc by lia. f_equal. rewrite cached_slice by (done || rewrite ?(k_bs _ _ K1); lia).
    rewrite Hv1, Hb1, (k_bs _ _ K1). f_equal. lia. }
  exists r, d'. split; [done|]. split; [by eapply dev_kept_trans|]. rewrite Hv1 in M, R.
  split; [by eapply mixed_trans|]. split; [done|]. split.
  - intros Hn Hcov. apply N; [by eapply kept_no_faults|by eapply kept_covered].
  - intros Hr _. destruct (decide (progress + chunk < count)) as [Hmore|Hlast].
    + specialize (C Hr Hmore). unfold covered, s_size in *. by rewrite (k_bs _ _ K1), (k_size _ _ K1) in C.
    + destruct Hh1 as [_ Hh1]. unfold covered, s_size in *. rewrite Hb1, (k_bs _ _ K1), (k_size _ _ K1) in Hh1.
      replace ((loc + count - 1) / block_size d) with block; [done|].
      apply (Z.div_unique_pos _ _ _ (offset + chunk - 1)); lia.
Qed.

(** [_device_read]: a success returns the bytes of the logical disk and leaves it
    unchanged; it fails only on a fault or on a block beyond the device. *)
Lemma device_read_spec loc count d :
  dev_ok d -> 0 <= loc -> 0 <= count -> loc + count < 2 ^ 64 ->
  exists r d', device_read fault LONG_MAX loc count d = Some (r, d') /\
    kept d d' /\ mixed (s_bytes (device d)) (view d) (s_bytes (device d')) /\
    (forall data, r = Some data -> dev_ok d' /\ view d' = view d /\ data = slice (view d) loc count) /\
    (no_faults d -> covered d loc count -> r <> None) /\
    (r <> None -> 0 < count -> covered d loc count).
Proof using Hlong. intros Hok Hl Hc Hlc. apply read_loop_spec; try done; lia. Qed.

(** *** Writing *)

Definition outside (loc n : Z) (i : nat) : Prop := ~ (loc <= Z.of_nat i < loc + n).

Lemma splice_nil l pos : splice l pos [] = l.
Proof using. done. Qed.

(** Storing a chunk into the cached block stores it on the logical disk. *)
Lemma view_store d offset bs :
  dev_ok d -> holds d -> 0 <= offset -> offset + Z.of_nat (length bs) <= block_size d ->
  let d' := set_cache CACHE_DIRTY (cached_block d) (splice (cache d) offset bs) d in
  dev_ok d' /\ holds d' /\ view d' = splice (view d) (cached_block d * block_size d + offset) bs.
Proof using.
  intros [Hbs Hc Hs Hb Hcl] Hh Ho Hob d'. pose proof Hh as [Hb0 Hb1].
  assert (Hh' : holds d') by exact Hh.
  split; [|split; [done|]].
  - split; cbn; try done; [by rewrite length_splice|by left].
  - unfold view. rewrite !decide_True by done. cbn. unfold s_size in *. apply list_eq. intros i.
    rewrite !splice_lookup by (rewrite ?length_splice; nia).
    rewrite length_splice. repeat case_decide; try lia; try done; f_equal; lia.
Qed.

Lemma splice_splice l pos bs1 bs2 :
  0 <= pos -> pos + Z.of_nat (length (bs1 ++ bs2)) <= Z.of_nat (length l) ->
  splice (splice l pos bs1) (pos + Z.of_nat (length bs1)) bs2 = splice l pos (bs1 ++ bs2).
Proof using.
  intros Hp Hl. rewrite length_app in Hl. apply list_eq. intros i.
  rewrite !splice_lookup by (rewrite ?length_splice, ?length_app; lia). rewrite length_app.
  destruct (decide (pos <= _ < pos + Z.of_nat (_ + _))).
  - destruct (decide (pos + _ <= _ < _)).
    + rewrite lookup_app_r by lia. f_equal. lia.
    + rewrite decide_True by lia. by rewrite lookup_app_l by lia.
  - rewrite decide_False by lia. by rewrite decide_False by lia.
Qed.
Lemma take_slice (l : list Z) n : take (Z.to_nat n) l = slice l 0 n.
Proof using. done. Qed.

Lemma write_loop_spec buf loc V0 fuel : forall progress d,
  let count := Z.of_nat (length buf) in
  dev_ok d -> 0 <= loc -> loc + count <= s_size (device d) -> 0 <= progress <= count ->
  count - progress < Z.of_nat fuel -> length V0 = length (s_bytes (device d)) ->
  view d = splice V0 loc (slice buf 0 progress) ->
  exists ok d', write_loop fault LONG_MAX fuel buf loc progress d = Some (ok, d') /\
    kept d d' /\
    (forall i, outside loc count i ->
       s_bytes (device d') !! i = s_bytes (device d) !! i \/ s_bytes (device d') !! i = V0 !! i) /\
    (ok = true -> dev_ok d' /\ view d' = splice V0 loc buf) /\
    (no_faults d -> covered d loc count -> ok = true).
Proof using Hlong.
  induction fuel as [|fuel IH]; intros progress d count Hok Hl Hlc Hp Hf Hlen Hv; [lia|]. cbn [write_loop].
  fold count. pose proof (ok_bs d Hok) as Hbs. pose proof (ok_size d Hok) as Hsz.
  destruct (Z.ltb_spec progress count) as [Hlt|Hge].
  2: { exists true, d. split; [done|]. split; [done|]. split; [by left|]. split; [|done]. intros _.
       split; [done|]. rewrite Hv. f_equal. unfold slice. rewrite drop_0. apply take_ge. lia. }
  destruct (chunk_spec loc count progress d Hbs Hl ltac:(lia) ltac:(lia))
    as (block & offset & chunk & E & Eb & Ea & Hb0 & Hb64 & Ho & Hc & Hoc & Hpc).
  rewrite E. destruct (device_cache_block fault LONG_MAX block d) as [ok d1] eqn:E1.
  destruct (cache_block_spec block d ok d1 Hok Hb0 Hb64 E1) as (K1 & M1 & S1 & N1).
  assert (Hout : forall i, outside loc count i -> view d !! i = V0 !! i).
  { intros i Hi. unfold outside in Hi. pose proof (length_slice buf 0 progress).
    rewrite Hv, splice_lookup by (unfold s_size in *; lia). by rewrite decide_False by lia. }
  assert (Hmid : forall i, outside loc count i ->
    s_bytes (device d1) !! i = s_bytes (device d) !! i \/ s_bytes (device d1) !! i = V0 !! i).
  { intros i Hi. destruct (proj2 M1 i) as [?|Ei]; [by left|right]. by rewrite Ei, Hout. }
  destruct ok; cbn [negb].
  2: { exists false, d1. split; [done|]. split; [done|]. split; [done|]. split; [done|].
       intros Hn Hcov. apply N1; [done|]. rewrite Eb. apply (covered_block d loc count); done || lia. }
  destruct (S1 eq_refl) as (Hok1 & Hv1 & Hb1 & Hh1).
  assert (Hls : Z.of_nat (length (slice buf progress chunk)) = chunk) by (rewrite length_slice; lia).
  destruct (view_store d1 offset (slice buf progress chunk) Hok1 Hh1) as (Hok2 & _ & Hv2);
    [done|rewrite (k_bs _ _ K1); lia|].
  set (d2 := set_cache CACHE_DIRTY _ _ d1) in *. cbv zeta in *.
  assert (K2 : kept d d2) by (eapply dev_kept_trans; [exact K1|split; cbn; rewrite ?length_splice; done]).
  destruct (IH (progress + chunk) d2) as (ok & d' & Er & K & M & R & N); try (done || lia).
  - fold count. change (device d2) with (device d1). unfold s_size in *. rewrite (k_size _ _ K1). done.
  - rewrite (k_size _ _ K2). done.
  - rewrite Hv2, Hv1, Hb1, (k_bs _ _ K1), <-Ea, Hv.
    rewrite (slice_app buf 0 progress chunk) by lia.
    rewrite <-(splice_splice V0 loc) by (rewrite ?length_app; unfold s_size in *;
      pose proof (length_slice buf 0 progress); pose proof (length_slice buf progress chunk);
      rewrite ?Z.add_0_l; lia).
    pose proof (length_slice buf 0 progress). rewrite Z.add_0_l. f_equal. lia.
  - exists ok, d'. split; [done|]. split; [by eapply dev_kept_trans|]. fold count in M, R, N.
    split; [|split; [done|]].
    + intros i Hi. destruct (M i Hi) as [Ei|Ei]; [|by right]. rewrite Ei. exact (Hmid i Hi).
    + intros Hn Hcov. apply N; [by eapply kept_no_faults|by eapply kept_covered].
Qed.

(** The writing half of [_device_write]: a success stores the buffer on the
    logical disk; a failure can have changed the device only inside the range, or
    by writing back what the logical disk already held. *)
Lemma write_through_spec buf loc d :
  let count := Z.of_nat (length buf) in
  dev_ok d -> 0 <= loc -> loc + count <= s_size (device d) ->
  exists ok d', write_through fault LONG_MAX buf loc d = Some (ok, d') /\ kept d d' /\
    (forall i, outside loc count i ->
       s_bytes (device d') !! i = s_bytes (device d) !! i \/ s_bytes (device d') !! i = view d !! i) /\
    (ok = true -> dev_ok d' /\ view d' = splice (view d) loc buf) /\
    (no_faults d -> covered d loc count -> ok = true).
Proof using Hlong.
  intros count Hok Hl Hlc. unfold write_through.
  apply (write_loop_spec buf loc (view d) (S (length buf)) 0 d); try (done || lia).
  by rewrite length_view.
Qed.

(** A write inside one block that fails has stored nothing. *)
Lemma write_one_block buf loc d d' :
  let count := Z.of_nat (length buf) in
  dev_ok d -> 0 <= loc -> loc + count <= s_size (device d) ->
  loc mod block_size d + count <= block_size d ->
  write_through fault LONG_MAX buf loc d = Some (false, d') ->
  mixed (s_bytes (device d)) (view d) (s_bytes (device d')).
Proof using Hlong.
  intros count Hok Hl Hlc Hone E. pose proof (ok_bs d Hok) as Hbs. pose proof (ok_size d Hok) as Hsz.
  unfold write_through in E. cbn [write_loop] in E. fold count in E.
  destruct (Z.ltb_spec 0 count) as [Hlt|]; [|done].
  destruct (chunk_spec loc count 0 d Hbs Hl ltac:(lia) ltac:(lia))
    as (block & offset & chunk & Ec & Eb & Ea & Hb0 & Hb64 & Ho & Hc & Hoc & Hpc).
  assert (Hchunk : chunk = count).
  { unfold chunk_at in Ec. rewrite Z.add_0_r, u64_id in Ec by lia. injection Ec as _ _ <-.
    rewrite (proj2 (Z.ltb_ge _ _)) by lia. lia. }
  rewrite Ec in E. destruct (device_cache_block fault LONG_MAX block d) as [ok d1] eqn:E1.
  destruct (cache_block_spec block d ok d1 Hok Hb0 Hb64 E1) as (K1 & M1 & _).
  destruct ok; cbn [negb] in E; [|by injection E as <-].
  destruct (length buf) as [|n] eqn:En; [unfold count in Hlt; lia|].
  cbn [write_loop] in E. rewrite En in E. fold count in E. rewrite Hchunk, Z.add_0_l, Z.ltb_irrefl in E. done.
Qed.
End Spec.

(** ** Refinement of a flat disk *)

Inductive disk_op := DRead (loc count : Z) | DWrite (loc : Z) (buf : list Z).

Definition op_in_range (size : Z) (o : disk_op) : Prop :=
  match o with
  | DRead loc count => 0 <= loc /\ 0 <= count /\ loc + count <= size
  | DWrite loc buf => 0 <= loc /\ loc + Z.of_nat (length buf) <= size
  end.

Definition op_covered (d : dev) (o : disk_op) : Prop :=
  match o with
  | DRead loc count => covered d loc count
  | DWrite loc buf => covered d loc (Z.of_nat (length buf))
  end.

(** The flat disk: what each read returns, and the final contents. *)
Fixpoint run_flat (ops : list disk_op) (l : list Z) : list (list Z) * list Z :=
  match ops with
  | [] => ([], l)
  | DRead loc count :: ops => let '(rs, l') := run_flat ops l in (slice l loc count :: rs, l')
  | DWrite loc buf :: ops => run_flat ops (splice l loc buf)
  end.

Section Session.
Context (fault : nat -> option nat) (LONG_MAX : Z).

(** The same through the cache; the inner [None]: an operation failed. *)
Fixpoint run_cached (ops : list disk_op) : prog dev (option (list (list Z))) := fun d =>
  match ops with
  | [] => Some (Some [], d)
  | DRead loc count :: ops =>
      match device_read fault LONG_MAX loc count d with
      | Some (Some data, d) =>
          match run_cached ops d with
          | Some (Some rs, d) => Some (Some (data :: rs), d)
          | r => r
          end
      | Some (None, d) => Some (None, d)
      | None => None
      end
  | DWrite loc buf :: ops =>
      match write_through fault LONG_MAX buf loc d with
      | Some (true, d) => run_cached ops d
      | Some (false, d) => Some (None, d)
      | None => None
      end
  end.

(** C15 The cache is invisible: every session terminates; if all its operations and
    the final flush report success, then the reads returned and the device holds
    exactly what a disk without a cache would; and without faults every session
    on complete blocks succeeds. *)
Theorem cache_refines_flat ops d :
  0 < LONG_MAX -> dev_ok d -> Forall (op_in_range (s_size (device d))) ops ->
  exists r d1, run_cached ops d = Some (r, d1) /\
    (forall rs d2, r = Some rs -> device_flush_cache fault LONG_MAX d1 = (true, d2) ->
       rs = (run_flat ops (view d)).1 /\ s_bytes (device d2) = (run_flat ops (view d)).2) /\
    (no_faults fault d -> Forall (op_covered d) ops ->
       r <> None /\ (device_flush_cache fault LONG_MAX d1).1 = true).
Proof.
  intros HL Hok Hr. revert d Hok Hr. induction ops as [|o ops IH]; intros d Hok Hr.
  - exists (Some []), d. split; [done|]. destruct (device_flush_cache fault LONG_MAX d) as [ok d2] eqn:E.
    destruct (flush_spec fault LONG_MAX HL d ok d2 Hok E) as (_ & _ & _ & _ & S & N). split.
    + intros rs d3 [= <-] [= -> <-]. split; [done|]. by apply S.
    + intros Hn _. split; [done|]. by apply N.
  - apply Forall_cons in Hr as [Ho Hr]. pose proof (ok_size d Hok).
    destruct o as [loc count|loc buf]; cbn [run_cached run_flat op_in_range] in *.
    + destruct (device_read_spec fault LONG_MAX HL loc count d Hok) as (r1 & d1 & E1 & K & _ & S & N & _); [lia..|].
      rewrite E1. destruct r1 as [data|].
      2: { exists None, d1. split; [done|]. split; [done|]. intros Hn Hc. apply Forall_cons in Hc as [Hc _].
           by destruct (N Hn Hc). }
      destruct (S data eq_refl) as (Hok1 & Hv & ->).
      destruct (IH d1 Hok1) as (r & d2 & E & S2 & N2).
      { unfold s_size in *. by rewrite (k_size _ _ K). }
      rewrite E. exists (option_map (cons (slice (view d) loc count)) r), d2. rewrite Hv in S2.
      split; [by destruct r|]. destruct (run_flat ops (view d)) as [rs' l']. split.
      * intros rs d3 Er Ef. destruct r as [rs0|]; [|done]. injection Er as <-.
        destruct (S2 rs0 d3 eq_refl Ef) as [-> ->]. done.
      * intros Hn Hc. apply Forall_cons in Hc as [_ Hc]. destruct N2 as [Hne Hf].
        { by eapply kept_no_faults. }
        { eapply Forall_impl; [exact Hc|]. intros []; by apply kept_covered. }
        split; [by destruct r|done].
    + destruct (write_through_spec fault LONG_MAX HL buf loc d Hok) as (ok & d1 & E1 & K & _ & S & N); [lia..|].
      rewrite E1. destruct ok.
      2: { exists None, d1. split; [done|]. split; [done|]. intros Hn Hc. apply Forall_cons in Hc as [Hc _].
           by specialize (N Hn Hc). }
      destruct (S eq_refl) as (Hok1 & Hv).
      destruct (IH d1 Hok1) as (r & d2 & E & S2 & N2).
      { unfold s_size in *. by rewrite (k_size _ _ K). }
      rewrite E, <-Hv. exists r, d2. split; [done|]. split; [done|].
      intros Hn Hc. apply Forall_cons in Hc as [_ Hc]. apply N2; [by eapply kept_no_faults|].
      eapply Forall_impl; [exact Hc|]. intros []; by apply kept_covered.
Qed.
End Session.

(** ** Initialisation *)

(** [device_init] finds the first of the three block sizes the device can be read
    with; the cache is then a clean copy of block 0. *)
Lemma try_guesses_spec fault gs d d' :
  Forall (fun g => 1 < g) gs -> s_size (device d) < 2 ^ 63 -> try_guesses fault gs d = (true, d') ->
  dev_ok d' /\ view d' = s_bytes (device d) /\ block_size d' ∈ gs /\
  uninstalling d' = uninstalling d /\ undo_log d' = undo_log d /\ s_bytes (device d') = s_bytes (device d).
Proof.
  intros Hg. revert d. induction Hg as [|g gs Hg1 Hg IH]; intros d Hs E; cbn [try_guesses] in E; [done|].
  destruct (fread_cases fault g (rewind (device d))) as (all & got & Er & Hl & Hall & _); [lia|cbn; lia|].
  rewrite Er in E. cbn [s_bytes s_pos s_ops rewind] in *. destruct all; cbn [negb] in E.
  - injection E as <-. destruct (Hall eq_refl) as [Hgot Hr]. unfold s_size in *. cbn in Hr.
    assert (Hlg : Z.of_nat (length got) = g) by (rewrite Hgot, length_slice; lia).
    rewrite refill_all by (rewrite repeat_length; lia).
    set (d' := set_cache _ _ _ _).
    assert (Hok : dev_ok d').
    { split; cbn; [lia|lia|unfold s_size; cbn; lia|left; unfold holds, s_size; cbn; lia|].
      intros _ _. rewrite Z.mul_0_l. by rewrite <-Hgot. }
    split; [done|]. split; [by rewrite view_clean|]. split; [by left|]. done.
  - pose proof (fun H => IH _ H E) as IH'. destruct (IH' Hs) as (? & Hv & Hb & ? & ? & ?). split; [done|]. split; [exact Hv|].
    split; [by right|]. done.
Qed.

Lemma device_init_spec fault d d' :
  s_size (device d) < 2 ^ 63 -> device_init fault d = (true, d') ->
  dev_ok d' /\ view d' = s_bytes (device d) /\ block_size d' ∈ [512; 2048; 4096] /\
  uninstalling d' = uninstalling d /\ undo_log d' = undo_log d /\ s_bytes (device d') = s_bytes (device d).
Proof. intros Hs E. eapply try_guesses_spec; [|done|exact E]. repeat (constructor; [lia|]). constructor. Qed.

(** ** At concrete inputs: a device of four zero blocks and no faults *)

Definition demo_disk : dev :=
  Dev (Stream (repeat 0 2048) 0 0) CACHE_CLEAN 0 (repeat 0 512) 512 false [].

Lemma demo_disk_ok : dev_ok demo_disk.
Proof.
  split; cbn; [lia|lia|unfold s_size; cbn; lia|left; unfold holds, s_size; cbn; lia|].
  intros _ _. reflexivity.
Qed.

Lemma cache_refines_flat_witness : exists r d1,
  run_cached (fun _ => None) (2 ^ 63 - 1) [DWrite 510 [1; 2; 3; 4]; DRead 511 2] demo_disk = Some (r, d1) /\
  r <> None.
Proof.
  destruct (cache_refines_flat (fun _ => None) (2 ^ 63 - 1) [DWrite 510 [1; 2; 3; 4]; DRead 511 2] demo_disk)
    as (r & d1 & E & _ & H).
  - lia.
  - exact demo_disk_ok.
  - change (s_size (device demo_disk)) with 2048.
    constructor; [cbn; lia|]. constructor; [cbn; lia|]. constructor.
  - exists r, d1. split; [exact E|]. destruct H as [H _]; [|  |exact H].
    + intros k _. reflexivity.
    + constructor; [by vm_compute|]. constructor; [by vm_compute|]. constructor.
Defined.
