(* ===== verification/LimineUndo.v ===== *)
(** The undo log of [limine/limine.c]: [_device_write], which saves what it
    overwrites, [reverse_uninstall_data], [uninstall], and the file of uninstall
    data. The theorem of the component: whatever sequence of writes an
    installation has made, replaying the log backwards restores the device. *)

From S2P Require Import Prelude LimineFormat LimineDisk.

Definition UNINSTALL_DATA_MAX : Z := 256.

Definition log_size (d : dev) : Z := Z.of_nat (length (undo_log d)).

(** What [uninstall] starts from, and each retry: an empty cache. *)
Definition reset_cache (d : dev) : dev := set_cache CACHE_CLEAN (2 ^ 64 - 1) (cache d) d.

Section Undo.
Context (fault : nat -> option nat) (LONG_MAX : Z).

(** [_device_write]: a failure of the saving read or of the writing leaves the
    log as it was. [malloc] succeeds. *)
Definition device_write (buf : list Z) (loc : Z) : prog dev bool := fun d =>
  if uninstalling d then write_through fault LONG_MAX buf loc d
  else if UNINSTALL_DATA_MAX <=? log_size d then Some (false, d)
  else
    match device_read fault LONG_MAX loc (Z.of_nat (length buf)) d with
    | None => None
    | Some (None, d) => Some (false, d)
    | Some (Some old, d) =>
        match write_through fault LONG_MAX buf loc d with
        | Some (true, d) => Some (true, set_log (uninstalling d) (undo_log d ++ [UninstallData old loc]) d)
        | r => r
        end
    end.

(** The loop of [reverse_uninstall_data]: entry [i] goes to place [j] of the
    second array, [j] counting down; then the array is copied back. *)
Fixpoint reverse_loop (l : list uninstall_data) (j : nat) (rev : list uninstall_data) : list uninstall_data :=
  match l with
  | [] => rev
  | u :: l => reverse_loop l (pred j) (<[j := u]> rev)
  end.

Definition reverse_uninstall_data (d : dev) : dev :=
  let n := length (undo_log d) in
  let rev := reverse_loop (undo_log d) (pred n) (repeat (UninstallData [] 0) (Z.to_nat UNINSTALL_DATA_MAX)) in
  set_log (uninstalling d) (take n rev) d.

(** The loop of [uninstall]: one retry, after a flush, through an empty cache.
    The result: [print_cache_flush_fail] and [print_write_fail]. *)
Fixpoint uninstall_loop (l : list uninstall_data) (flush_fail write_fail : bool) : prog dev (bool * bool) := fun d =>
  match l with
  | [] => Some ((flush_fail, write_fail), d)
  | u :: l =>
      match device_write (ud_data u) (ud_loc u) d with
      | None => None
      | Some (true, d) => uninstall_loop l flush_fail write_fail d
      | Some (false, d) =>
          let '(ok, d) := device_flush_cache fault LONG_MAX d in
          let flush_fail := flush_fail || negb ok in
          match device_write (ud_data u) (ud_loc u) (reset_cache d) with
          | None => None
          | Some (true, d) => uninstall_loop l flush_fail write_fail d
          | Some (false, d) => uninstall_loop l flush_fail true d
          end
      end
  end.

Definition uninstall : prog dev bool := fun d =>
  let d := reset_cache (set_log true (undo_log d) d) in
  match uninstall_loop (undo_log d) false false d with
  | None => None
  | Some ((flush_fail, write_fail), d) =>
      let '(ok, d) := device_flush_cache fault LONG_MAX d in
      Some (negb write_fail && negb (flush_fail || negb ok), d)
  end.
End Undo.

(** ** The file of uninstall data *)

Definition store_entry (be : bool) (u : uninstall_data) : list Z :=
  to_bytes be 8 (ud_loc u) ++ to_bytes be 8 (ud_count u) ++ ud_data u.

(** [store_uninstall_data] on a file that takes every byte: [fwrite] of an item of
    zero bytes returns 0, which the code takes for an error. The integers are in
    the byte order of the machine. *)
Fixpoint store_loop (be : bool) (l : list uninstall_data) : bool * list Z :=
  match l with
  | [] => (true, [])
  | u :: l =>
      if ud_count u =? 0 then (false, to_bytes be 8 (ud_loc u) ++ to_bytes be 8 (ud_count u))
      else let '(ok, bs) := store_loop be l in (ok, store_entry be u ++ bs)
  end.

Definition store_uninstall_data (be : bool) (d : dev) : bool * list Z :=
  let '(ok, bs) := store_loop be (undo_log d) in
  (ok, to_bytes be 8 (log_size d) ++ bs).

(** [fread] of one item of [n] bytes from what is left of the file. *)
Definition take_item (n : Z) (file : list Z) : option (list Z * list Z) :=
  if (n =? 0) || (Z.of_nat (length file) <? n) then None
  else Some (take (Z.to_nat n) file, drop (Z.to_nat n) file).

(** What [load_uninstall_data] leaves: the entries, or, on an error, the value of
    [uninstall_data_i] and the entries whose [data] it has freed, in order. *)
Inductive load_result :=
| Loaded (l : list uninstall_data)
| LoadFailed (uninstall_data_i : Z) (freed : list nat).

(** The loop from entry [i]; on an error the entries freed: those loaded, and
    before them entry [i] itself when its data could not be read. [SIZE_MAX] is
    that of a 64-bit machine, so the check on the size of an entry never fires,
    and [malloc] succeeds. *)
Fixpoint load_loop (be : bool) (n i : nat) (file : list Z) : list uninstall_data + list nat :=
  match n with
  | O => inl []
  | S n =>
      match take_item 8 file with
      | None => inr (seq 0 i)
      | Some (loc, file) =>
          match take_item 8 file with
          | None => inr (seq 0 i)
          | Some (count, file) =>
              match take_item (of_bytes be count) file with
              | None => inr (i :: seq 0 i)
              | Some (data, file) =>
                  match load_loop be n (S i) file with
                  | inl l => inl (UninstallData data (of_bytes be loc) :: l)
                  | inr freed => inr freed
                  end
              end
          end
      end
  end.

Definition load_uninstall_data (be : bool) (file : list Z) (d : dev) : load_result :=
  match take_item 8 file with
  | None => LoadFailed (of_bytes be (refill file (to_bytes be 8 (log_size d)))) []
  | Some (n, file) =>
      let n := of_bytes be n in
      if UNINSTALL_DATA_MAX <? n then LoadFailed n []
      else
        match load_loop be (Z.to_nat n) 0 file with
        | inr freed => LoadFailed n freed
        | inl l => Loaded l
        end
  end.

(** The entries whose [data] is passed to [free] at the exit of the tool. *)
Definition free_uninstall_data (uninstall_data_i : Z) : list nat := seq 0 (Z.to_nat uninstall_data_i).

(** ** Reversal *)

Lemma reverse_loop_spec l : forall j a b,
  length a = j -> (length l <= j)%nat ->
  reverse_loop l (pred j) (a ++ b) = take (j - length l) a ++ rev l ++ b.
Proof.
  induction l as [|u l IH]; intros j a b Ha Hl; cbn [reverse_loop rev length] in *.
  { by rewrite Nat.sub_0_r, <-Ha, firstn_all. }
  destruct j as [|j]; [lia|]. cbn [pred].
  destruct a as [|x a _] using rev_ind; [done|]. rewrite length_app in Ha. cbn in Ha.
  assert (Hj : length a = j) by lia. rewrite <-Hj.
  rewrite <-app_assoc, insert_app_r_alt, Nat.sub_diag by lia. cbn [app list_insert].
  change (<[0%nat:=u]> (x :: b)) with (u :: b).
  rewrite (IH (length a) a (u :: b)) by lia.
  rewrite take_app_le by lia. rewrite <-app_assoc. done.
Qed.

(** With room for the log, the reversal is a reversal. *)
Lemma reverse_uninstall_data_spec d :
  log_size d <= UNINSTALL_DATA_MAX ->
  reverse_uninstall_data d = set_log (uninstalling d) (rev (undo_log d)) d.
Proof.
  intros Hl. unfold reverse_uninstall_data. f_equal. unfold log_size, UNINSTALL_DATA_MAX in *.
  set (n := length (undo_log d)) in *.
  replace (Z.to_nat 256) with (n + (256 - n))%nat by lia.
  rewrite repeat_app. rewrite reverse_loop_spec by (rewrite ?repeat_length; lia). fold n.
  rewrite Nat.sub_diag, take_0. cbn [app]. rewrite take_app_le by (rewrite length_rev; lia).
  apply take_ge. rewrite length_rev. lia.
Qed.

(** ** Restoring *)

(** Putting back the data of entries, in their order. *)
Definition replay (l : list Z) (entries : list uninstall_data) : list Z :=
  fold_left (fun l u => splice l (ud_loc u) (ud_data u)) entries l.

(** Byte [i] of the disk is in the log. *)
Definition logged (log : list uninstall_data) (i : nat) : Prop :=
  Exists (fun u => ud_loc u <= Z.of_nat i < ud_loc u + ud_count u) log.

(** Two disks agree outside the log. *)
Definition agree_off (log : list uninstall_data) (l l' : list Z) : Prop :=
  forall i, ~ logged log i -> l' !! i = l !! i.

Definition entry_ok (d : dev) (u : uninstall_data) : Prop :=
  0 <= ud_loc u /\
  (0 < ud_count u -> ud_loc u + ud_count u <= s_size (device d) /\ covered d (ud_loc u) (ud_count u)).

(** What [uninstall] relies on: the entries fit the device; replaying them over
    any disk that agrees with the original outside the log gives the original;
    and the device is such a disk. The cache may be in any state. *)
Record undoable (orig : list Z) (d : dev) : Prop := {
  u_bs : 1 < block_size d;
  u_cache : Z.of_nat (length (cache d)) = block_size d;
  u_size : s_size (device d) < 2 ^ 63;
  u_len : length (s_bytes (device d)) = length orig;
  u_max : log_size d <= UNINSTALL_DATA_MAX;
  u_entries : Forall (entry_ok d) (undo_log d);
  u_replay : forall l, length l = length orig -> agree_off (undo_log d) orig l -> replay l (rev (undo_log d)) = orig;
  u_device : agree_off (undo_log d) orig (s_bytes (device d));
}.

(** The state between the operations of an installation that succeed. *)
Record installing (orig : list Z) (d : dev) : Prop := {
  i_ok : dev_ok d;
  i_undo : undoable orig d;
  i_view : agree_off (undo_log d) orig (view d);
  i_save : uninstalling d = false;
}.

Lemma logged_app log1 log2 i : logged (log1 ++ log2) i <-> logged log1 i \/ logged log2 i.
Proof. apply Exists_app. Qed.

Lemma logged_one u i : logged [u] i <-> ud_loc u <= Z.of_nat i < ud_loc u + ud_count u.
Proof. unfold logged. rewrite Exists_cons, Exists_nil. tauto. Qed.

Lemma length_replay entries l : length (replay l entries) = length l.
Proof. revert l. induction entries as [|u es IH]; intros l; [done|].
  etrans; [apply IH|apply length_splice].
Qed.

(** A device between two disks that agree with the original does too. *)
Lemma mixed_agree log orig l0 l1 l : mixed l0 l1 l -> agree_off log orig l0 -> agree_off log orig l1 -> agree_off log orig l.
Proof. intros [_ Hm] H0 H1 i Hi. destruct (Hm i) as [-> | ->]; auto. Qed.

Lemma set_log_kept u l d : let d' := set_log u l d in
  dev_ok d -> dev_ok d' /\ view d' = view d.
Proof. intros d' []. by split. Qed.

Lemma kept_entries d d' log : kept d d' -> Forall (entry_ok d) log -> Forall (entry_ok d') log.
Proof.
  intros K H. eapply Forall_impl; [exact H|]. intros u (? & Hc). split; [done|]. intros Hp.
  destruct (Hc Hp) as [Hs Hcov]. split.
  - unfold s_size in *. by rewrite (k_size _ _ K).
  - by apply (kept_covered d d').
Qed.

(** The log covers whatever an operation on the cache leaves. *)
Lemma undoable_kept orig d d' :
  undoable orig d -> kept d d' -> agree_off (undo_log d) orig (s_bytes (device d')) -> undoable orig d'.
Proof.
  intros [] K Ha. pose proof K as [Kb Ku Kl Ks Ko Kc]. split; try (rewrite Kl in *; done).
  - congruence.
  - rewrite Kc. congruence.
  - unfold s_size in *. congruence.
  - congruence.
  - unfold log_size in *. congruence.
  - rewrite Kl. by eapply kept_entries.
Qed.

Lemma installing_start orig d :
  dev_ok d -> view d = orig -> s_bytes (device d) = orig -> undo_log d = [] -> uninstalling d = false ->
  installing orig d.
Proof.
  intros Hok Hv Hd Hl Hu. pose proof Hok as [Hbs Hc Hs _ _].
  split; [done| |by rewrite Hv|done]. split; try done.
  - by rewrite Hd.
  - unfold log_size, UNINSTALL_DATA_MAX. rewrite Hl. cbn. lia.
  - by rewrite Hl.
  - intros l Hlen Ha. rewrite Hl in *. cbn. apply list_eq. intros i. apply Ha. intros Hx. by apply Exists_nil in Hx.
  - by rewrite Hd.
Qed.

Lemma saved_count d loc count :
  0 <= loc -> 0 <= count -> (0 < count -> loc + count <= s_size (device d)) ->
  ud_count (UninstallData (slice (view d) loc count) loc) = count.
Proof.
  intros Hl Hc Hs. unfold ud_count. cbn. destruct (decide (0 < count)) as [Hp|].
  - rewrite length_slice; [lia|done..|]. rewrite length_view. by apply Hs.
  - replace count with 0 by lia. done.
Qed.

(** Appending what is about to be overwritten keeps the log sufficient. *)
Lemma undoable_save orig d loc count :
  installing orig d -> log_size d < UNINSTALL_DATA_MAX -> 0 <= loc -> 0 <= count ->
  (0 < count -> loc + count <= s_size (device d) /\ covered d loc count) ->
  undoable orig (set_log (uninstalling d) (undo_log d ++ [UninstallData (slice (view d) loc count) loc]) d).
Proof.
  intros [Hok Hu Hv Hs] Hm Hl Hc Hcov. destruct Hu as [Ubs Uc Usz Ulen Um Ue Ur Ud].
  assert (Hcnt := saved_count d loc count Hl Hc (fun H => proj1 (Hcov H))).
  set (u := UninstallData _ _) in *.
  assert (Hlv : length (slice (view d) loc count) = Z.to_nat count) by (unfold ud_count in Hcnt; cbn in Hcnt; lia).
  split; cbn; try done.
  - unfold log_size in *. cbn. rewrite length_app. cbn. lia.
  - apply Forall_app. split; [done|]. constructor; [|constructor]. split; [done|]. by rewrite Hcnt.
  - intros l Hlen Ha. rewrite rev_app_distr. cbn. apply Ur; [by rewrite length_splice|]. intros i Hi.
    assert (Hout : ~ (loc <= Z.of_nat i < loc + count) -> l !! i = orig !! i).
    { intros Hn. apply Ha. rewrite logged_app, logged_one, Hcnt. tauto. }
    destruct (decide (0 < count)) as [Hp|].
    + destruct (Hcov Hp) as [Hsz _]. unfold s_size in Hsz. rewrite splice_lookup by lia.
      rewrite Hlv, Z2Nat.id by done. destruct (decide _) as [Hin|Hno]; [|by apply Hout].
      rewrite slice_lookup, decide_True by lia. rewrite <-(Hv i Hi). f_equal. lia.
    + rewrite (nil_length_inv (slice _ _ _)) by lia. rewrite splice_nil. apply Hout. lia.
  - intros i Hi. apply Ud. rewrite logged_app in Hi. tauto.
Qed.

Section Spec.
Context (fault : nat -> option nat) (LONG_MAX : Z) (Hlong : 0 < LONG_MAX).

(** A read at any 64-bit position, one that wraps around included: such a read
    fails. *)
Lemma device_read_any loc count d :
  dev_ok d -> 0 <= loc < 2 ^ 64 -> 0 <= count < 2 ^ 63 ->
  exists r d', device_read fault LONG_MAX loc count d = Some (r, d') /\
    kept d d' /\ mixed (s_bytes (device d)) (view d) (s_bytes (device d')) /\
    (forall data, r = Some data -> dev_ok d' /\ view d' = view d /\ data = slice (view d) loc count /\
       (0 < count -> loc + count <= s_size (device d) /\ covered d loc count)) /\
    (no_faults fault d -> covered d loc count -> loc + count < 2 ^ 64 -> r <> None).
Proof using Hlong.
  intros Hok Hl Hc. pose proof (ok_bs d Hok) as Hbs. pose proof (ok_size d Hok) as Hsz.
  destruct (decide (loc + count < 2 ^ 64)) as [Hlc|Hlc].
  - destruct (device_read_spec fault LONG_MAX Hlong loc count d) as (r & d' & E & K & M & S & N & C); [done|lia..|].
    exists r, d'. split; [done|]. do 2 (split; [done|]). split; [|by auto].
    intros data Hr. destruct (S data Hr) as (H1 & H2 & H3). do 3 (split; [done|]). intros Hp.
    assert (Hcov : covered d loc count) by (apply C; [by rewrite Hr|done]). split; [|done].
    unfold covered in Hcov. pose proof (Z.div_mod (loc + count - 1) (block_size d) ltac:(lia)).
    pose proof (Z.mod_pos_bound (loc + count - 1) (block_size d) ltac:(lia)). lia.
  - unfold device_read. cbn [read_loop]. rewrite (proj2 (Z.ltb_lt 0 count)) by lia.
    unfold chunk_at. rewrite Z.add_0_r, u64_id by lia.
    pose proof (Z.div_mod loc (block_size d) ltac:(lia)).
    pose proof (Z.mod_pos_bound loc (block_size d) ltac:(lia)).
    pose proof (Z.div_pos loc (block_size d) ltac:(lia) ltac:(lia)).
    destruct (device_cache_block fault LONG_MAX (loc / block_size d) d) as [ok d1] eqn:E1.
    destruct (cache_block_spec fault LONG_MAX Hlong (loc / block_size d) d ok d1 Hok ltac:(lia) ltac:(lia) E1) as (K & M & S & _).
    destruct ok; cbn [negb].
    { destruct (S eq_refl) as (_ & _ & Hb & [_ Hh]). unfold s_size in *.
      rewrite Hb, (k_bs _ _ K), (k_size _ _ K) in Hh. lia. }
    exists None, d1. do 3 (split; [done|]). split; [done|lia].
Qed.

(** Reading during an installation. *)
Lemma installing_read orig loc count d :
  installing orig d -> 0 <= loc < 2 ^ 64 -> 0 <= count < 2 ^ 63 ->
  exists r d', device_read fault LONG_MAX loc count d = Some (r, d') /\
    (s_ops (device d) <= s_ops (device d'))%nat /\ block_size d' = block_size d /\
    undoable orig d' /\ undo_log d' = undo_log d /\
    (forall data, r = Some data -> installing orig d' /\ view d' = view d /\ data = slice (view d) loc count /\
       Z.of_nat (length data) = count).
Proof using Hlong.
  intros [Hok Hu Hv Hs] Hl Hc.
  destruct (device_read_any loc count d Hok Hl Hc) as (r & d' & E & K & M & S & _).
  exists r, d'. split; [done|]. do 2 (split; [by destruct K|]).
  assert (Hu' : undoable orig d').
  { apply (undoable_kept orig d); [done|done|]. eapply mixed_agree; [exact M|by destruct Hu|done]. }
  split; [done|]. split; [by destruct K|]. intros data Hr. destruct (S data Hr) as (Hok' & Hv' & -> & Hcov).
  split; [|split; [done|split; [done|]]].
  2: { apply (saved_count d loc count); [lia..|]. intros Hp. by apply Hcov. }
  split; [done|done| |].
  - by rewrite (k_log _ _ K), Hv'.
  - by rewrite (k_uninst _ _ K).
Qed.

(** The writing half of [_device_write] after its saving read. *)
Lemma write_saved buf loc d :
  let count := Z.of_nat (length buf) in
  dev_ok d -> 0 <= loc -> (0 < count -> loc + count <= s_size (device d) /\ covered d loc count) ->
  exists ok d', write_through fault LONG_MAX buf loc d = Some (ok, d') /\ kept d d' /\
    (forall i, outside loc count i ->
       s_bytes (device d') !! i = s_bytes (device d) !! i \/ s_bytes (device d') !! i = view d !! i) /\
    (ok = true -> dev_ok d' /\ view d' = splice (view d) loc buf) /\
    (ok = false -> no_faults fault d \/ loc mod block_size d + count <= block_size d ->
       mixed (s_bytes (device d)) (view d) (s_bytes (device d'))).
Proof using Hlong.
  intros count Hok Hl Hcov. destruct (decide (0 < count)) as [Hp|Hz].
  - destruct (Hcov Hp) as [Hs Hc].
    destruct (write_through_spec fault LONG_MAX Hlong buf loc d Hok Hl Hs) as (ok & d' & E & K & O & S & N).
    exists ok, d'. split; [done|]. do 3 (split; [done|]). intros -> [Hn|Hone].
    + by specialize (N Hn Hc).
    + exact (write_one_block fault LONG_MAX Hlong buf loc d d' Hok Hl Hs Hone E).
  - assert (buf = []) as -> by (apply nil_length_inv; lia). exists true, d. split; [reflexivity|].
    split; [done|]. split; [by left|]. split; [|done]. intros _. by rewrite splice_nil.
Qed.

(** Reading keeps the log sufficient, and goes on if it succeeds. *)
Lemma installing_kept orig d d1 :
  installing orig d -> kept d d1 -> mixed (s_bytes (device d)) (view d) (s_bytes (device d1)) ->
  undoable orig d1 /\ (dev_ok d1 -> view d1 = view d -> installing orig d1).
Proof.
  intros [Hok Hu Hv Hs] K M. assert (Hu1 : undoable orig d1).
  { apply (undoable_kept orig d); [done|done|]. eapply mixed_agree; [exact M|by destruct Hu|done]. }
  split; [done|]. intros Hok1 Hv1. split; [done|done| |]; [by rewrite (k_log _ _ K), Hv1|by rewrite (k_uninst _ _ K)].
Qed.

(** Writing during an installation. It fails without a fault only by its saving
    read; a fault can spoil the log only if the write spans several blocks. *)
Lemma installing_write orig buf loc d :
  installing orig d -> 0 <= loc < 2 ^ 64 -> Z.of_nat (length buf) < 2 ^ 63 ->
  exists ok d', device_write fault LONG_MAX buf loc d = Some (ok, d') /\
    (s_ops (device d) <= s_ops (device d'))%nat /\ block_size d' = block_size d /\
    (ok = true -> installing orig d' /\ view d' = splice (view d) loc buf /\
       undo_log d' = undo_log d ++ [UninstallData (slice (view d) loc (Z.of_nat (length buf))) loc] /\
       ud_count (UninstallData (slice (view d) loc (Z.of_nat (length buf))) loc) = Z.of_nat (length buf)) /\
    (ok = false -> no_faults fault d \/ loc mod block_size d + Z.of_nat (length buf) <= block_size d ->
       undoable orig d').
Proof using Hlong.
  intros Hi Hl Hc. unfold device_write. rewrite (i_save _ _ Hi).
  destruct (Z.leb_spec UNINSTALL_DATA_MAX (log_size d)) as [Hfull|Hroom].
  { exists false, d. do 3 (split; [done|]). split; [done|]. intros _ _. by destruct Hi. }
  set (count := Z.of_nat (length buf)) in *.
  destruct (device_read_any loc count d (i_ok _ _ Hi) Hl ltac:(lia)) as (r & d1 & E1 & K1 & M1 & S1 & _).
  rewrite E1. destruct (installing_kept orig d d1 Hi K1 M1) as [Hu1 Hi1].
  destruct r as [data|].
  2: { exists false, d1. split; [done|]. do 2 (split; [by destruct K1|]). split; [done|]. by intros _ _. }
  destruct (S1 data eq_refl) as (Hok1 & Hv1 & -> & Hcov). clear S1.
  specialize (Hi1 Hok1 Hv1).
  assert (Hcov1 : 0 < count -> loc + count <= s_size (device d1) /\ covered d1 loc count).
  { intros Hp. unfold covered, s_size in *. rewrite (k_size _ _ K1), (k_bs _ _ K1). by apply Hcov. }
  rewrite <-Hv1. destruct (write_saved buf loc d1 Hok1) as (ok & d2 & E2 & K2 & O2 & S2 & F2); [lia|done|].
  fold count in O2, F2. rewrite E2.
  assert (Hsave : undoable orig (set_log false (undo_log d1 ++ [UninstallData (slice (view d1) loc count) loc]) d1)).
  { rewrite <-(i_save _ _ Hi1). apply undoable_save; [done|unfold log_size in *; by rewrite (k_log _ _ K1)|lia..|done]. }
  assert (Hops : (s_ops (device d) <= s_ops (device d2))%nat) by (destruct K1, K2; lia).
  assert (Hbs : block_size d2 = block_size d) by (destruct K1, K2; congruence).
  destruct ok.
  - exists true. eexists. split; [reflexivity|]. do 2 (split; [done|]). split; [|done]. intros _.
    destruct (S2 eq_refl) as [Hok2 Hv2]. rewrite (k_uninst _ _ K2), (i_save _ _ Hi1), (k_log _ _ K2), (k_log _ _ K1) in *.
    set (log := _ ++ _). destruct (set_log_kept false log d2 Hok2) as [Hok3 Hv3].
    assert (Hoff : forall i, ~ logged log i -> ~ logged (undo_log d) i /\ outside loc count i).
    { intros i. unfold log, outside. rewrite logged_app, logged_one, saved_count; [tauto|lia..|].
      intros Hp. by apply Hcov1. }
    assert (Hcnt : ud_count (UninstallData (slice (view d) loc count) loc) = count).
    { apply saved_count; [lia|lia|]. intros Hp. by apply Hcov. }
    split; [|by rewrite Hv3, <-Hv1 in *]. split; [done| | |done].
    + apply (undoable_kept orig (set_log false log d1)); [done|by destruct K2; split|].
      intros i Hn. destruct (Hoff i Hn) as [Hn' Ho]. cbn.
      destruct (O2 i Ho) as [-> | ->]; rewrite ?Hv1; [|by apply Hi].
      apply Hu1. by rewrite (k_log _ _ K1).
    + rewrite Hv3, Hv2, Hv1. intros i Hn. destruct (Hoff i Hn) as [Hn' Ho]. cbn.
      rewrite <-(i_view _ _ Hi i Hn'). destruct (decide (0 < count)) as [Hp|].
      * destruct (Hcov1 Hp) as [Hsz _]. unfold s_size in Hsz.
        rewrite splice_lookup; [|lia|by rewrite <-Hv1, length_view]. by rewrite decide_False.
      * rewrite (nil_length_inv buf) by lia. by rewrite splice_nil.
  - exists false, d2. do 3 (split; [done|]). split; [done|]. intros _ Hcase.
    apply (undoable_kept orig d1); [done|done|]. eapply mixed_agree; [apply F2; [done|]|by apply Hu1|by apply Hi1].
    rewrite (k_bs _ _ K1). destruct Hcase; [left; by eapply kept_no_faults|by right].
Qed.

(** *** Uninstalling *)

(** Through an empty cache the disk is the device. *)
Lemma reset_ok d :
  1 < block_size d -> Z.of_nat (length (cache d)) = block_size d -> s_size (device d) < 2 ^ 63 ->
  dev_ok (reset_cache d) /\ view (reset_cache d) = s_bytes (device d).
Proof using.
  intros Hb Hc Hs. assert (Hh : ~ holds (reset_cache d)).
  { unfold holds. cbn. intros [_ Hh]. unfold s_size in *. cbn in Hh. nia. }
  split; [|unfold view; by rewrite decide_False]. split; cbn; try done. by right.
Qed.

Lemma uninstall_loop_spec l : forall d,
  dev_ok d -> uninstalling d = true -> no_faults fault d -> Forall (entry_ok d) l ->
  exists d', uninstall_loop fault LONG_MAX l false false d = Some ((false, false), d') /\
    dev_ok d' /\ no_faults fault d' /\ view d' = replay (view d) l.
Proof using Hlong.
  induction l as [|u l IH]; intros d Hok Hu Hn He; cbn [uninstall_loop]; [by exists d|].
  apply Forall_cons in He as [[Hl Hcov] He].
  destruct (write_saved (ud_data u) (ud_loc u) d Hok Hl Hcov) as (ok & d1 & E & K & _ & S & _).
  assert (ok = true) as ->.
  { destruct (decide (0 < ud_count u)) as [Hp|].
    - destruct (Hcov Hp) as [Hs Hc].
      destruct (write_through_spec fault LONG_MAX Hlong (ud_data u) (ud_loc u) d Hok Hl Hs) as (ok' & d1' & E' & _ & _ & _ & N).
      rewrite E in E'. injection E' as <- _. by apply N.
    - unfold ud_count in *. rewrite (nil_length_inv (ud_data u)) in E by lia. by injection E as <- _. }
  destruct (S eq_refl) as [Hok1 Hv1].
  destruct (IH d1) as (d' & E' & Hok' & Hn' & Hv').
  { done. }
  { by rewrite (k_uninst _ _ K). }
  { by eapply kept_no_faults. }
  { by eapply kept_entries. }
  exists d'. unfold device_write. rewrite Hu, E, E'. rewrite Hv1 in Hv'. done.
Qed.

Lemma uninstall_spec d :
  1 < block_size d -> Z.of_nat (length (cache d)) = block_size d -> s_size (device d) < 2 ^ 63 ->
  Forall (entry_ok d) (undo_log d) -> no_faults fault d ->
  exists d', uninstall fault LONG_MAX d = Some (true, d') /\
    s_bytes (device d') = replay (s_bytes (device d)) (undo_log d).
Proof using Hlong.
  intros Hb Hc Hs He Hn. unfold uninstall. set (d0 := set_log true (undo_log d) d).
  destruct (reset_ok d0 Hb Hc Hs) as [Hok Hv].
  destruct (uninstall_loop_spec (undo_log d) (reset_cache d0) Hok eq_refl Hn He) as (d1 & E & Hok1 & Hn1 & Hv1).
  change (undo_log (reset_cache d0)) with (undo_log d). rewrite E.
  destruct (device_flush_cache fault LONG_MAX d1) as [ok d2] eqn:Ef.
  destruct (flush_spec fault LONG_MAX Hlong d1 ok d2 Hok1 Ef) as (_ & _ & _ & _ & S & N).
  rewrite (N Hn1) in *. exists d2. split; [done|]. destruct (S eq_refl) as (_ & _ & _ & ->). by rewrite Hv1, Hv.
Qed.

(** What follows a failed installation. *)
Lemma undo_restores orig d :
  undoable orig d -> no_faults fault d ->
  exists d', uninstall fault LONG_MAX (reverse_uninstall_data d) = Some (true, d') /\ s_bytes (device d') = orig.
Proof using Hlong.
  intros [Hb Hc Hs Hlen Hm He Hr Hd] Hn. rewrite reverse_uninstall_data_spec by done.
  destruct (uninstall_spec (set_log (uninstalling d) (rev (undo_log d)) d) Hb Hc Hs) as (d' & E & Ed); [by apply Forall_rev|done|].
  exists d'. split; [done|]. rewrite Ed. cbn. by apply Hr.
Qed.
End Spec.

(** *** The file of uninstall data *)

Definition entry_stores (u : uninstall_data) : Prop :=
  0 <= ud_loc u < 2 ^ 64 /\ 0 < ud_count u < 2 ^ 64.

Lemma take_item_app n a b : Z.of_nat (length a) = n -> 0 < n -> take_item n (a ++ b) = Some (a, b).
Proof.
  intros Hl Hn. unfold take_item. rewrite length_app.
  destruct (Z.eqb_spec n 0); [lia|]. rewrite (proj2 (Z.ltb_ge _ _)) by lia. cbn [orb].
  by rewrite take_app_length', drop_app_length' by lia.
Qed.

Lemma load_store_loop be l i rest :
  Forall entry_stores l ->
  exists bs, store_loop be l = (true, bs) /\ load_loop be (length l) i (bs ++ rest) = inl l.
Proof.
  intros Hl. revert i. induction Hl as [|u l [Hloc Hcnt] Hl IH]; intros i; [by exists []|].
  destruct (IH (S i)) as (bs & Es & El). exists (store_entry be u ++ bs). cbn [store_loop load_loop length].
  destruct (Z.eqb_spec (ud_count u) 0); [lia|]. rewrite Es. split; [done|].
  unfold store_entry. rewrite <-!app_assoc.
  rewrite take_item_app by (rewrite ?length_to_bytes; lia).
  rewrite take_item_app by (rewrite ?length_to_bytes; lia).
  rewrite !of_to_bytes, !Z.mod_small by lia.
  rewrite take_item_app by (unfold ud_count in *; lia). rewrite El. by destruct u.
Qed.

Lemma load_store be d d' :
  log_size d <= UNINSTALL_DATA_MAX -> Forall entry_stores (undo_log d) ->
  exists bs, store_uninstall_data be d = (true, bs) /\ load_uninstall_data be bs d' = Loaded (undo_log d).
Proof.
  intros Hm Hl. unfold store_uninstall_data, load_uninstall_data.
  destruct (load_store_loop be (undo_log d) 0 [] Hl) as (bs & -> & El). eexists. split; [reflexivity|].
  rewrite take_item_app by (rewrite ?length_to_bytes; lia).
  unfold log_size, UNINSTALL_DATA_MAX in *. rewrite of_to_bytes, Z.mod_small by lia.
  rewrite (proj2 (Z.ltb_ge _ _)) by lia. rewrite Nat2Z.id. rewrite app_nil_r in El. by rewrite El.
Qed.

Lemma load_loop_failed be n : forall i file freed, load_loop be n i file = inr freed ->
  exists k, (freed = seq 0 k \/ freed = k :: seq 0 k) /\ (i <= k < i + n)%nat.
Proof.
  induction n as [|n IH]; intros i file freed E; cbn [load_loop] in E; [done|].
  destruct (take_item 8 file) as [[loc f1]|]; [|injection E as <-; exists i; split; [by left|lia]].
  destruct (take_item 8 f1) as [[count f2]|]; [|injection E as <-; exists i; split; [by left|lia]].
  destruct (take_item (of_bytes be count) f2) as [[data f3]|]; [|injection E as <-; exists i; split; [by right|lia]].
  destruct (load_loop be n (S i) f3) as [|fr] eqn:El; [done|]. injection E as <-.
  destruct (IH _ _ _ El) as (k & Hk & Hr). exists k. split; [done|lia].
Qed.

(** ** Properties *)

(** The file of uninstall data round-trips: on a machine of either byte
    order, what [store_uninstall_data] writes is read back entry by entry. *)
Theorem uninstall_file_roundtrip be d d' :
  log_size d <= UNINSTALL_DATA_MAX -> Forall entry_stores (undo_log d) ->
  let '(ok, file) := store_uninstall_data be d in
  ok = true /\ load_uninstall_data be file d' = Loaded (undo_log d).
Proof. intros Hm Hl. by destruct (load_store be d d' Hm Hl) as (bs & -> & ?). Qed.

(** A broken file of uninstall data makes the tool free memory twice: every
    entry that [load_uninstall_data] frees on its error path is freed again by
    [free_uninstall_data] on the way out, and a count above the maximum makes the
    latter walk past the end of the array. *)
Theorem failed_load_frees_twice be file d n freed :
  load_uninstall_data be file d = LoadFailed n freed ->
  (forall e, e ∈ freed -> e ∈ free_uninstall_data n) /\
  (UNINSTALL_DATA_MAX < n -> Z.to_nat UNINSTALL_DATA_MAX ∈ free_uninstall_data n).
Proof.
  intros E. unfold free_uninstall_data. split.
  - intros e He. unfold load_uninstall_data in E. destruct (take_item 8 file) as [[x f]|].
    2: { injection E as _ <-. by apply not_elem_of_nil in He. }
    destruct (UNINSTALL_DATA_MAX <? of_bytes be x).
    { injection E as _ <-. by apply not_elem_of_nil in He. }
    destruct (load_loop be (Z.to_nat (of_bytes be x)) 0 f) as [|fr] eqn:El; [done|]. injection E as <- <-.
    destruct (load_loop_failed _ _ _ _ _ El) as (k & Hk & Hr). apply elem_of_seq. split; [lia|].
    destruct Hk as [-> | ->]; [|apply elem_of_cons in He as [->|He]; [lia|]]; apply elem_of_seq in He; lia.
  - unfold UNINSTALL_DATA_MAX. intros Hn. apply elem_of_seq. lia.
Qed.

(** A disk of four blocks whose fourth transfer fails. *)
Definition fault_at (n : nat) : nat -> option nat := fun k => if Nat.eqb k n then Some 0%nat else None.

(** The undo log has a hole: an entry is appended only when its whole write
    has succeeded, so a write over several blocks that fails after the cache has
    written some of them back is not undone, though [uninstall] reports success. *)
Theorem partial_write_not_undone :
  exists fault d d1 d2, dev_ok d /\ undo_log d = [] /\ uninstalling d = false /\
    device_write fault (2 ^ 63 - 1) (repeat 0xff 1024) 0 d = Some (false, d1) /\ no_faults fault d1 /\
    uninstall fault (2 ^ 63 - 1) (reverse_uninstall_data d1) = Some (true, d2) /\
    s_bytes (device d2) <> s_bytes (device d).
Proof.
  exists (fault_at 3), demo_disk. eexists _, _. split; [exact demo_disk_ok|]. do 2 (split; [done|]).
  split; [vm_compute; reflexivity|]. split.
  { intros k Hk. unfold fault_at. destruct (Nat.eqb_spec k 3); [|done]. vm_compute in Hk. lia. }
  split; [vm_compute; reflexivity|]. vm_compute. discriminate.
Qed.

Definition demo_log : list uninstall_data := [UninstallData [1; 2; 3] 440; UninstallData [7] 0x1be].

Lemma uninstall_file_roundtrip_witness : load_uninstall_data false
  (store_uninstall_data false (set_log false demo_log demo_disk)).2 demo_disk = Loaded demo_log.
Proof.
  refine (proj2 (uninstall_file_roundtrip false (set_log false demo_log demo_disk) demo_disk _ _)).
  - vm_compute. discriminate.
  - repeat (apply Forall_cons_2; [by vm_compute|]). apply Forall_nil_2.
Defined.

(** A file of two entries cut inside the second one. *)
Definition cut_file : list Z := take 40 (store_uninstall_data false (set_log false demo_log demo_disk)).2.

Lemma failed_load_frees_twice_witness :
  load_uninstall_data false cut_file demo_disk = LoadFailed 2 [0%nat] /\ 0%nat ∈ free_uninstall_data 2.
Proof.
  assert (E : load_uninstall_data false cut_file demo_disk = LoadFailed 2 [0%nat]) by (vm_compute; reflexivity).
  split; [exact E|]. refine (proj1 (failed_load_frees_twice false cut_file demo_disk 2 [0%nat] E) 0%nat _).
  by left.
Defined.
