(* ===== verification/LimineInstall.v ===== *)
(** [bios_install] of [limine/limine.c]: the checks on the partition table, the
    conversion of a GPT on an ISOHYBRID image, the writes of the boot loader, and
    the undo of an installation that fails. The theorems on it are
    those of LimineRollback.v and LimineMbr.v. *)

From stdpp Require Import strings.
From S2P Require Import Prelude LimineFormat LimineDisk LimineUndo.

(** The bytes of a string literal. *)
Fixpoint bytes_of (s : string) : list Z :=
  match s with
  | EmptyString => []
  | String c s => Z.of_nat (Ascii.nat_of_ascii c) :: bytes_of s
  end.

(** ** Operations that may end at the label [cleanup] *)

Definition io (A : Type) : Type := prog dev (option A).

Definition iret {A} (a : A) : io A := fun d => Some (Some a, d).
Definition cleanup {A} : io A := fun d => Some (None, d).
Definition ibind {A B} (m : io A) (k : A -> io B) : io B := fun d =>
  match m d with
  | None => None
  | Some (None, d) => Some (None, d)
  | Some (Some a, d) => k a d
  end.

Declare Scope io_scope.
Delimit Scope io_scope with io.
Notation "'let?' x ':=' m 'in' k" := (ibind m (fun x => k))
  (at level 10, x binder, m at level 100, k at level 200) : io_scope.
Notation "m ';?' k" := (ibind m (fun _ => k)) (at level 199, right associativity) : io_scope.
Open Scope io_scope.

(** A [for] loop. *)
Fixpoint ifor {A} (f : A -> io unit) (l : list A) : io unit :=
  match l with
  | [] => iret tt
  | x :: l => f x ;? ifor f l
  end.

(** ** The structures of a GUID partition table

    Integers as the machine loads them; the code applies [ENDSWAP] at each use. *)

Record gpt_table_header := GptTableHeader {
  signature : list Z;
  alternate_lba : Z;
  partition_entry_lba : Z;
  number_of_partition_entries : Z;
  size_of_partition_entry : Z;
}.
Definition sizeof_gpt_table_header : Z := 96.

Record gpt_entry := GptEntry {
  partition_type_guid : Z * Z;
  unique_partition_guid : Z * Z;
  starting_lba : Z;
  ending_lba : Z;
}.
Definition sizeof_gpt_entry : Z := 128.

Record part_to_conv := PartToConv {
  lba_start : Z;
  lba_end : Z;
  chs_start : list Z;
  chs_end : list Z;
  part_type : Z;
}.

(** ** The command line *)

Inductive exit_code := EXIT_SUCCESS | EXIT_FAILURE.

(** The options of the command line. *)
Record install_opts := InstallOpts {
  quiet : bool;
  force : bool;
  gpt2mbr_allowed : bool;
  uninstall_mode : bool;
  uninstall_file : option string;
  opt_device : option string;
  opt_part_ndx : option string;
}.

Definition no_opts : install_opts := InstallOpts false false true false None None None.

(** One argument; [opens]: whether [fopen] opens a file for update. The right-hand
    side is an early [return]. *)
Definition install_arg (opens : string -> bool) (arg : string) (o : install_opts) : install_opts + exit_code :=
  let '(InstallOpts q f g u file dev ndx) := o in
  if String.eqb arg "--help" || String.eqb arg "-h" then inr EXIT_SUCCESS
  else if String.eqb arg "--quiet" then inl (InstallOpts true f g u file dev ndx)
  else if String.eqb arg "--force" then inl (InstallOpts q true g u file dev ndx)
  else if String.eqb arg "--no-gpt-to-mbr-isohybrid-conversion" then inl (InstallOpts q f false u file dev ndx)
  else if String.eqb arg "--uninstall" then inl (InstallOpts q f g true file dev ndx)
  else if String.prefix "--uninstall-data-file=" arg then
    let name := String.substring 22 (String.length arg - 22) arg in
    if Nat.eqb (String.length name) 0 then inr EXIT_FAILURE
    else inl (InstallOpts q f g u (Some name) dev ndx)
  else
    match dev with
    | Some _ => inl (InstallOpts q f g u file dev (Some arg))
    | None => if opens arg then inl (InstallOpts q f g u file (Some arg) ndx) else inr EXIT_FAILURE
    end.

Fixpoint install_args (opens : string -> bool) (argv : list string) (o : install_opts) : install_opts + exit_code :=
  match argv with
  | [] => match opt_device o with Some _ => inl o | None => inr EXIT_FAILURE end
  | arg :: argv =>
      match install_arg opens arg o with
      | inl o => install_args opens argv o
      | inr code => inr code
      end
  end.

(** [sscanf] with the format [%u]: white space, a sign, digits; the value is
    stored in 32 bits. *)
Definition is_space (c : Z) : bool := (c =? 32) || ((9 <=? c) && (c <=? 13)).
Definition is_digit (c : Z) : bool := (48 <=? c) && (c <=? 57).

Fixpoint skip_space (s : list Z) : list Z :=
  match s with c :: r => if is_space c then skip_space r else s | [] => [] end.

Fixpoint digits (s : list Z) (acc : option Z) : option Z :=
  match s with
  | c :: s => if is_digit c then digits s (Some (10 * default 0 acc + (c - 48))) else acc
  | [] => acc
  end.

Definition sscanf_u32 (s : string) : option Z :=
  match skip_space (bytes_of s) with
  | c :: r =>
      if c =? 45 then option_map (fun v => u32 (- v)) (digits r None)
      else if c =? 43 then option_map u32 (digits r None)
      else option_map u32 (digits (c :: r) None)
  | [] => None
  end.

Section Install.
Context (fault : nat -> option nat) (LONG_MAX : Z).

(** The byte order of the machine, the image of [limine-bios-hdd.h], and the
    results of [rand]. *)
Context (be : bool) (img : list Z) (rand : nat -> Z).

(** The macros [device_read] and [device_write]. *)
Definition rd (loc count : Z) : io (list Z) := device_read fault LONG_MAX loc count.
Definition wr (buf : list Z) (loc : Z) : io unit := fun d =>
  match device_write fault LONG_MAX buf loc d with
  | None => None
  | Some (true, d) => Some (Some tt, d)
  | Some (false, d) => Some (None, d)
  end.

(** An integer field of [n] bytes at [pos], as loaded. *)
Definition field (n : nat) (pos : Z) (bs : list Z) : Z := of_bytes be (slice bs pos (Z.of_nat n)).

Definition load_gpt_table_header (bs : list Z) : gpt_table_header :=
  GptTableHeader (slice bs 0 8) (field 8 32 bs) (field 8 72 bs) (field 4 80 bs) (field 4 84 bs).

Definition load_gpt_entry (bs : list Z) : gpt_entry :=
  GptEntry (field 8 0 bs, field 8 8 bs) (field 8 16 bs, field 8 24 bs) (field 8 32 bs) (field 8 40 bs).

Definition swap4 (x : Z) : Z := ENDSWAP be 4 x.
Definition swap8 (x : Z) : Z := ENDSWAP be 8 x.

(** One of the textual checks of [validate_or_force]: [true] to go on. *)
Definition check_hint (force : bool) (loc : Z) (hint : string) (wipe : Z) : io bool :=
  let? hintc := rd loc (Z.of_nat (String.length hint)) in
  if bool_decide (hintc = bytes_of hint) then
    if negb force then iret false
    else wr (repeat 0 (Z.to_nat wipe)) loc ;? iret true
  else iret true.

(** [*err] is the end at [cleanup]. *)
Definition validate_or_force (offset : Z) (force : bool) : io bool :=
  let? go := check_hint force (u64 (offset + 3)) "NTFS" 4 in
  if negb go then iret false else
  let? go := check_hint force (u64 (offset + 54)) "FAT" 5 in
  if negb go then iret false else
  let? go := check_hint force (u64 (offset + 82)) "FAT" 5 in
  if negb go then iret false else
  let? go := check_hint force (u64 (offset + 3)) "FAT32" 5 in
  if negb go then iret false else
  let? b := rd (u64 (offset + 1080)) 2 in
  if ENDSWAP be 2 (of_bytes be b) =? 0xef53 then
    if negb force then iret false
    else wr (to_bytes be 2 (ENDSWAP be 2 0)) (u64 (offset + 1080)) ;? iret true
  else iret true.

(** *** The partition table *)

(** Probe for GPT and logical block size. *)
Fixpoint probe_gpt (lb_guesses : list Z) : io (option (gpt_table_header * Z)) :=
  match lb_guesses with
  | [] => iret None
  | lb :: guesses =>
      let? bs := rd lb sizeof_gpt_table_header in
      let gpt_header := load_gpt_table_header bs in
      if bool_decide (signature gpt_header = bytes_of "EFI PART") then iret (Some (gpt_header, lb))
      else probe_gpt guesses
  end.

Definition check_secondary (gpt_header : gpt_table_header) (lb_size : Z) : io unit :=
  if swap4 (size_of_partition_entry gpt_header) <? sizeof_gpt_entry then cleanup else
  let '(overflow, secondary_loc) := mul_u64_overflow lb_size (swap8 (alternate_lba gpt_header)) in
  if overflow then cleanup else
  let? bs := rd secondary_loc sizeof_gpt_table_header in
  if bool_decide (signature (load_gpt_table_header bs) = bytes_of "EFI PART") then iret tt else cleanup.

(** The partitions to convert, from entry [i] on; [None] at [goto no_mbr_conv]. *)
Definition convert_entry (e : gpt_entry) : option part_to_conv :=
  let start := swap8 (starting_lba e) in
  let last := swap8 (ending_lba e) in
  if 2 ^ 32 - 1 <? start then None
  else if 2 ^ 32 - 1 <? last then None
  else if 2 ^ 32 - 1 <? u64 (last - start + 1) then None
  else
    let type := gpt2mbr_type (swap8 (partition_type_guid e).1) (swap8 (partition_type_guid e).2) in
    if type =? -1 then None
    else Some (PartToConv start last (lba2chs start) (lba2chs last) (u8 type)).

Definition entry_unused (e : gpt_entry) : bool :=
  ((unique_partition_guid e).1 =? 0) && ((unique_partition_guid e).2 =? 0).

(** The entry with the number [i], when its offset does not overflow. *)
Definition entry_offset (gpt_header : gpt_table_header) (base i : Z) : bool * Z :=
  add_u64_overflow base (u64 (i * swap4 (size_of_partition_entry gpt_header))).

Fixpoint gather_parts (gpt_header : gpt_table_header) (base : Z) (n : nat) (i : Z) (parts : list part_to_conv)
    : io (option (list part_to_conv)) :=
  match n with
  | O => iret (Some parts)
  | S n =>
      let '(overflow, off) := entry_offset gpt_header base i in
      if overflow then iret None else
      let? bs := rd off sizeof_gpt_entry in
      let e := load_gpt_entry bs in
      if entry_unused e then gather_parts gpt_header base n (i + 1) parts
      else if Nat.eqb (length parts) 4 then iret None
      else
        match convert_entry e with
        | None => iret None
        | Some p => gather_parts gpt_header base n (i + 1) (parts ++ [p])
        end
  end.

(** Nuke the GPTs. *)
Definition nuke_gpts (gpt_header : gpt_table_header) (lb_size : Z) : io unit :=
  let empty_lba := repeat 0 (Z.to_nat lb_size) in
  ifor (fun i => wr empty_lba (u64 (i * lb_size))) (seqZ 0 34) ;?
  let alt_lba := swap8 (alternate_lba gpt_header) in
  if 32 <=? alt_lba then
    ifor (fun i =>
      let '(overflow, wipe_loc) := mul_u64_overflow (u64 (alt_lba - 32 + i)) lb_size in
      if overflow then cleanup else wr empty_lba wipe_loc) (seqZ 0 33)
  else iret tt.

Definition write_disk_id : io unit :=
  ifor (fun i => wr [u8 (rand (Z.to_nat i))] (0x1b8 + i)) (seqZ 0 4).

Definition write_part (ip : Z * part_to_conv) : io unit :=
  let '(i, p) := ip in
  wr [part_type p] (u64 (0x1be + i * 16 + 0x04)) ;?
  wr (to_bytes be 4 (swap4 (u32 (lba_start p)))) (u64 (0x1be + i * 16 + 0x08)) ;?
  wr (to_bytes be 4 (swap4 (u32 (lba_end p - lba_start p + 1)))) (u64 (0x1be + i * 16 + 0x0c)) ;?
  wr (chs_start p) (u64 (0x1be + i * 16 + 1)) ;?
  wr (chs_end p) (u64 (0x1be + i * 16 + 5)).

(** [true] when the GPT has become an MBR partition table. *)
Definition convert_isohybrid (gpt_header : gpt_table_header) (lb_size : Z) : io bool :=
  let? iso_signature := rd 32769 5 in
  if negb (bool_decide (iso_signature = bytes_of "CD001")) then iret false else
  let '(overflow, base) := mul_u64_overflow (swap8 (partition_entry_lba gpt_header)) lb_size in
  if overflow then iret false else
  let? parts := gather_parts gpt_header base (Z.to_nat (swap4 (number_of_partition_entries gpt_header))) 0 [] in
  match parts with
  | None => iret false
  | Some parts =>
      nuke_gpts gpt_header lb_size ;?
      write_disk_id ;?
      ifor write_part (zip (seqZ 0 (Z.of_nat (length parts))) parts) ;?
      iret true
  end.

(** The checks on the MBR partition entry at [base]; the accumulator is [mbr] and
    [any_active]. *)
Definition check_mbr_entry (force : bool) (base : Z) (acc : bool * bool) : io (bool * bool) :=
  let '(mbr, any_active) := acc in
  let? b := rd base 1 in
  let hint8 := of_bytes be b in
  let? '(hint8, mbr) :=
    (if negb (hint8 =? 0) && negb (hint8 =? 0x80) then
       if negb force then iret (hint8, false)
       else let hint8 := Z.land hint8 0x80 in wr [hint8] base ;? iret (hint8, mbr)
     else iret (hint8, mbr)) in
  let any_active := any_active || truthy (Z.land hint8 0x80) in
  let? t := rd (base + 4) 1 in
  if negb (of_bytes be t =? 0) then
    let? b := rd (base + 8) 4 in
    if swap4 (of_bytes be b) <? 63 then cleanup else iret (mbr, any_active)
  else iret (mbr, any_active).

Fixpoint check_mbr_entries (force : bool) (bases : list Z) (acc : bool * bool) : io (bool * bool) :=
  match bases with
  | [] => iret acc
  | base :: bases => let? acc := check_mbr_entry force base acc in check_mbr_entries force bases acc
  end.

(** All sanity checks on the MBR. *)
Definition check_mbr (force : bool) : io bool :=
  let? '(mbr, any_active) := check_mbr_entries force [446; 462; 478; 494] (true, false) in
  let? mbr := (if (mbr : bool) then validate_or_force 0 force else iret false) in
  (if mbr && negb any_active then wr [0x80] 446 else iret tt) ;?
  iret mbr.

(** *** Where stage 2 goes *)

(** The automatically detected BIOS boot partition, from number [i] on. *)
Definition bios_boot_type : list Z := bytes_of "Hah!IdontNeedEFI".

Definition type_bytes (e : gpt_entry) : list Z :=
  to_bytes be 8 (partition_type_guid e).1 ++ to_bytes be 8 (partition_type_guid e).2.

Fixpoint find_bios_boot (gpt_header : gpt_table_header) (base : Z) (n : nat) (i : Z) : io gpt_entry :=
  match n with
  | O => cleanup
  | S n =>
      let '(overflow, off) := entry_offset gpt_header base i in
      if overflow then cleanup else
      let? bs := rd off sizeof_gpt_entry in
      let e := load_gpt_entry bs in
      if bool_decide (type_bytes e = bios_boot_type) then iret e
      else find_bios_boot gpt_header base n (i + 1)
  end.

(** The partition the user chose: [part_ndx] as [sscanf] reads it, [None] when it
    reads no number. *)
Definition chosen_partition (force : bool) (gpt_header : gpt_table_header) (base : Z) (part_ndx : option Z) : io gpt_entry :=
  match part_ndx with
  | None => cleanup
  | Some n =>
      let partition_num := u32 (n - 1) in
      if swap4 (number_of_partition_entries gpt_header) <=? partition_num then cleanup else
      let '(overflow, off) := entry_offset gpt_header base partition_num in
      if overflow then cleanup else
      let? bs := rd off sizeof_gpt_entry in
      let e := load_gpt_entry bs in
      if entry_unused e then cleanup
      else if negb force && negb (bool_decide (bios_boot_type = type_bytes e)) then cleanup
      else iret e
  end.

Definition gpt_stage2_loc (force : bool) (gpt_header : gpt_table_header) (lb_size : Z)
    (part_ndx : option (option Z)) : io Z :=
  let '(overflow, base) := mul_u64_overflow (swap8 (partition_entry_lba gpt_header)) lb_size in
  if overflow then cleanup else
  let? e :=
    (match part_ndx with
     | Some n => chosen_partition force gpt_header base n
     | None => find_bios_boot gpt_header base (Z.to_nat (swap4 (number_of_partition_entries gpt_header))) 0
     end) in
  let start := swap8 (starting_lba e) in
  let last := swap8 (ending_lba e) in
  if last <? start then cleanup else
  let '(overflow, part_size) := mul_u64_overflow (u64 (last - start + 1)) lb_size in
  if overflow then cleanup else
  if part_size <? 32768 then cleanup else
  let '(overflow, stage2_loc) := mul_u64_overflow start lb_size in
  if overflow then cleanup else
  let? valid := validate_or_force stage2_loc force in
  if negb (valid : bool) then cleanup else iret stage2_loc.

(** *** The installation proper *)

Definition flush : io unit := fun d =>
  let '(ok, d) := device_flush_cache fault LONG_MAX d in Some (if ok then Some tt else None, d).

Definition write_stages (stage2_loc : Z) : io unit :=
  let? timestamp := rd 218 6 in
  let? orig_mbr := rd 440 70 in
  wr (take 512 img) 0 ;?
  wr (drop 512 img) stage2_loc ;?
  wr (to_bytes be 8 (swap8 stage2_loc)) 0x1a4 ;?
  wr timestamp 218 ;?
  wr orig_mbr 440 ;?
  flush.

(** From the probe for a GPT to [cleanup]. *)
Definition install (force gpt2mbr_allowed : bool) (part_ndx : option (option Z)) : io unit :=
  let? gpt := probe_gpt [512; 4096] in
  (match gpt with Some (h, lb) => check_secondary h lb | None => iret tt end) ;?
  let? gpt :=
    (match gpt with
     | Some (h, lb) =>
         if gpt2mbr_allowed then
           let? converted := convert_isohybrid h lb in iret (if (converted : bool) then None else gpt)
         else iret gpt
     | None => iret None
     end) in
  match gpt with
  | None =>
      let? mbr := check_mbr force in
      if negb mbr then cleanup else write_stages 512
  | Some (h, lb) =>
      let? stage2_loc := gpt_stage2_loc force h lb part_ndx in
      write_stages stage2_loc
  end.

(** *** The tool *)

(** How the tool ends: the exit code, the device, and the file of uninstall data
    it has written. *)
Record outcome := Outcome {
  status : exit_code;
  final : dev;
  stored : option (string * (bool * list Z));
}.

(** The statics when the device is opened. *)
Definition opened (s : stream) : dev := Dev s CACHE_CLEAN 0 [] 0 false [].

(** [bios_install] from [device_init] on; [file]: what [fopen] and [fread] find
    under a name. *)
Definition run_install (file : string -> option (list Z)) (o : install_opts) (d : dev) : option outcome :=
  let '(ok, d) := device_init fault d in
  if negb ok then Some (Outcome EXIT_FAILURE d None)
  else if uninstall_mode o then
    match (name ← uninstall_file o; file name) with
    | None => Some (Outcome EXIT_FAILURE d None)
    | Some bytes =>
        match load_uninstall_data be bytes d with
        | LoadFailed _ _ => Some (Outcome EXIT_FAILURE d None)
        | Loaded l =>
            match uninstall fault LONG_MAX (set_log (uninstalling d) l d) with
            | None => None
            | Some (ok, d) => Some (Outcome (if ok then EXIT_SUCCESS else EXIT_FAILURE) d None)
            end
        end
    end
  else
    match install (force o) (gpt2mbr_allowed o) (option_map sscanf_u32 (opt_part_ndx o)) d with
    | None => None
    | Some (Some _, d) =>
        let d := reverse_uninstall_data d in
        Some (Outcome EXIT_SUCCESS d (option_map (fun name => (name, store_uninstall_data be d)) (uninstall_file o)))
    | Some (None, d) =>
        match uninstall fault LONG_MAX (reverse_uninstall_data d) with
        | None => None
        | Some (_, d) => Some (Outcome EXIT_FAILURE d None)
        end
    end.

(** The whole of it, on the devices the file system has: an exit before the
    device is touched, or an outcome. *)
Definition bios_install (disks : string -> option stream) (file : string -> option (list Z)) (argv : list string)
    : option (exit_code + outcome) :=
  match argv with
  | [] => Some (inl EXIT_FAILURE)
  | _ =>
      match install_args (fun name => match disks name with Some _ => true | None => false end) argv no_opts with
      | inr code => Some (inl code)
      | inl o =>
          match (name ← opt_device o; disks name) with
          | None => Some (inl EXIT_FAILURE)
          | Some s => option_map inr (run_install file o (opened s))
          end
      end
  end.
End Install.
