(* ===== verification/LimineRollback.v ===== *)
(** Rolling back an installation ([bios_install] of [limine/limine.c]): a small
    program logic for operations that keep the undo log sufficient, applied to
    the whole of [install]; a failed installation leaves the device unchanged,
    and an uninstallation from the stored file restores it. *)

From stdpp Require Import strings.
From S2P Require Import Prelude LimineFormat LimineDisk LimineUndo LimineInstall.

Section Rollback.
Context (fault : nat -> option nat) (LONG_MAX : Z) (Hlong : 0 < LONG_MAX).
Context (be : bool) (img : list Z) (rand : nat -> Z).
Context (orig : list Z) (bsz : Z).

(** An installation in progress, or one that has ended at [cleanup]. *)
Definition running (d : dev) : Prop :=
  installing orig d /\ no_faults fault d /\ Forall entry_stores (undo_log d) /\ block_size d = bsz.
Definition failed (d : dev) : Prop := undoable orig d /\ no_faults fault d.

(** [safe m Q]: from a state of an installation, [m] terminates in such a state
    with a result in [Q], or at [cleanup] in a state that can be undone. *)
Definition safe {A} (m : io A) (Q : A -> Prop) : Prop :=
  forall d, running d -> exists r d', m d = Some (r, d') /\
    match r with Some a => Q a /\ running d' | None => failed d' end.

Definition any {A} (_ : A) : Prop := True.

Lemma running_failed d : running d -> failed d.
Proof using. intros ([] & Hn & _). by split. Qed.

Lemma safe_ret {A} (a : A) (Q : A -> Prop) : Q a -> safe (iret a) Q.
Proof using. intros Ha d Hd. by exists (Some a), d. Qed.

Lemma safe_cleanup {A} (Q : A -> Prop) : safe cleanup Q.
Proof using. intros d Hd. exists None, d. split; [done|]. by apply running_failed. Qed.

Lemma safe_bind {A B} (m : io A) (k : A -> io B) Q R :
  safe m Q -> (forall a, Q a -> safe (k a) R) -> safe (ibind m k) R.
Proof using.
  intros Hm Hk d Hd. destruct (Hm d Hd) as (r & d1 & E & H). unfold ibind. rewrite E.
  destruct r as [a|]; [|by exists None, d1]. destruct H as [Ha Hd1]. by apply (Hk a Ha).
Qed.

Lemma safe_weaken {A} (m : io A) (Q R : A -> Prop) : safe m Q -> (forall a, Q a -> R a) -> safe m R.
Proof using.
  intros Hm H d Hd. destruct (Hm d Hd) as (r & d1 & E & Hr). exists r, d1. split; [done|].
  destruct r; [|done]. destruct Hr. auto.
Qed.

Lemma safe_for {A} (f : A -> io unit) l : Forall (fun x => safe (f x) any) l -> safe (ifor f l) any.
Proof using.
  induction 1 as [|x l Hx Hl IH]; cbn [ifor]; [by apply safe_ret|]. eapply safe_bind; [exact Hx|done].
Qed.

Lemma safe_rd loc count :
  0 <= loc < 2 ^ 64 -> 0 <= count < 2 ^ 63 ->
  safe (rd fault LONG_MAX loc count) (fun bs => Z.of_nat (length bs) = count).
Proof using Hlong.
  intros Hl Hc d (Hi & Hn & Hf & Hbz).
  destruct (installing_read fault LONG_MAX Hlong orig loc count d Hi Hl Hc) as (r & d' & E & Ho & Hbs & Hu & Hlog & S).
  assert (Hn' : no_faults fault d') by (intros k Hk; apply Hn; lia).
  exists r, d'. split; [exact E|]. destruct r as [data|]; [|done].
  destruct (S data eq_refl) as (Hi' & _ & _ & Hlen). split; [done|].
  split; [done|]. split; [done|]. by rewrite Hlog, Hbs.
Qed.

Lemma safe_wr buf loc :
  0 <= loc < 2 ^ 64 -> (0 < length buf)%nat -> Z.of_nat (length buf) < 2 ^ 63 ->
  safe (wr fault LONG_MAX buf loc) any.
Proof using Hlong.
  intros Hl Hb Hc d (Hi & Hn & Hf & Hbz).
  destruct (installing_write fault LONG_MAX Hlong orig buf loc d Hi Hl Hc) as (ok & d' & E & Ho & Hbs & S & F).
  assert (Hn' : no_faults fault d') by (intros k Hk; apply Hn; lia).
  unfold wr. rewrite E. destruct ok.
  - exists (Some tt), d'. split; [done|]. destruct (S eq_refl) as (Hi' & Hv & Hlog & Hcnt). split; [done|].
    split; [done|]. split; [done|]. split; [|by rewrite Hbs]. rewrite Hlog. apply Forall_app. split; [done|].
    constructor; [|constructor]. split; [cbn; lia|]. rewrite Hcnt. lia.
  - exists None, d'. split; [done|]. split; [|done]. apply F; [done|by left].
Qed.

(** The steps of a proof of [safe]. *)
Ltac range := first [apply u64_bound | lia | (split; lia) | (rewrite ?length_to_bytes, ?repeat_length; cbn; lia)].
Ltac safe_step :=
  match goal with
  | |- safe (ibind _ _) _ => eapply safe_bind; [|intros ? ?]
  | |- safe (iret _) _ => apply safe_ret
  | |- safe cleanup _ => apply safe_cleanup
  | |- safe (rd _ _ _ _) _ => apply safe_rd; range
  | |- safe (wr _ _ _ _) _ => apply safe_wr; range
  | |- safe (if ?b then _ else _) _ => destruct b
  | |- safe (let '(_, _) := ?p in _) _ => destruct p
  | |- any _ => exact I
  end.
Ltac safe_tac := repeat safe_step.

Lemma check_hint_safe force loc hint wipe :
  0 <= loc < 2 ^ 64 -> Z.of_nat (String.length hint) < 2 ^ 63 -> 0 < wipe < 2 ^ 63 ->
  safe (check_hint fault LONG_MAX force loc hint wipe) any.
Proof using Hlong. intros Hl Hh Hw. unfold check_hint. safe_tac. Qed.

Lemma validate_safe offset force : safe (validate_or_force fault LONG_MAX be offset force) any.
Proof using Hlong.
  unfold validate_or_force.
  repeat first [safe_step | apply check_hint_safe; [apply u64_bound|cbn; lia|lia]].
Qed.

Definition lb_ok (r : option (gpt_table_header * Z)) : Prop :=
  match r with Some (_, lb) => lb = 512 \/ lb = 4096 | None => True end.

Lemma probe_safe guesses :
  Forall (fun lb => lb = 512 \/ lb = 4096) guesses -> safe (probe_gpt fault LONG_MAX be guesses) lb_ok.
Proof using Hlong.
  induction 1 as [|lb gs Hlb Hgs IH]; cbn [probe_gpt]; [by apply safe_ret|].
  eapply safe_bind; [apply safe_rd; unfold sizeof_gpt_table_header; lia|]. intros bs _.
  destruct (bool_decide _); [by apply safe_ret|exact IH].
Qed.

Lemma check_secondary_safe h lb : safe (check_secondary fault LONG_MAX be h lb) any.
Proof using Hlong.
  unfold check_secondary, mul_u64_overflow, sizeof_gpt_table_header. safe_tac.
Qed.

Definition part_ok (p : part_to_conv) : Prop := length (chs_start p) = 3%nat /\ length (chs_end p) = 3%nat.

Lemma length_lba2chs lba : length (lba2chs lba) = 3%nat.
Proof using. unfold lba2chs. by repeat case_match. Qed.

Lemma convert_entry_ok e p : convert_entry be e = Some p -> part_ok p.
Proof using.
  unfold convert_entry. repeat case_match; intros [= <-]. split; apply length_lba2chs.
Qed.

Lemma gather_safe h base n : forall i parts, Forall part_ok parts ->
  safe (gather_parts fault LONG_MAX be h base n i parts) (fun r => forall l, r = Some l -> Forall part_ok l).
Proof using Hlong.
  induction n as [|n IH]; intros i parts Hp; cbn [gather_parts]; [by apply safe_ret; intros l [= <-]|].
  unfold entry_offset, add_u64_overflow. destruct (_ <? _); [by apply safe_ret|].
  eapply safe_bind; [apply safe_rd; [apply u64_bound|unfold sizeof_gpt_entry; lia]|]. intros bs _.
  destruct (entry_unused _); [by apply IH|]. destruct (Nat.eqb _ _); [by apply safe_ret|].
  destruct (convert_entry _ _) as [p|] eqn:E; [|by apply safe_ret].
  apply IH, Forall_app. split; [done|]. constructor; [by eapply convert_entry_ok|constructor].
Qed.

Lemma nuke_safe h lb : lb = 512 \/ lb = 4096 -> safe (nuke_gpts fault LONG_MAX be h lb) any.
Proof using Hlong.
  intros Hlb. assert (Hw : forall loc, 0 <= loc < 2 ^ 64 -> safe (wr fault LONG_MAX (repeat 0 (Z.to_nat lb)) loc) any).
  { intros loc Hl. apply safe_wr; rewrite ?repeat_length; lia. }
  unfold nuke_gpts, mul_u64_overflow. cbv zeta. eapply safe_bind.
  { apply safe_for, Forall_forall. intros i _. apply Hw, u64_bound. }
  intros _ _. destruct (_ <=? _); [|by apply safe_ret].
  apply safe_for, Forall_forall. intros i _. destruct (_ && _); [apply safe_cleanup|apply Hw, u64_bound].
Qed.

Lemma write_part_safe ip : part_ok ip.2 -> safe (write_part fault LONG_MAX be ip) any.
Proof using Hlong.
  destruct ip as [i p]. cbn. intros [H1 H2]. unfold write_part.
  repeat first [safe_step | apply safe_wr; [apply u64_bound|lia..]].
Qed.

Lemma convert_safe h lb : lb = 512 \/ lb = 4096 -> safe (convert_isohybrid fault LONG_MAX be rand h lb) any.
Proof using Hlong.
  intros Hlb. unfold convert_isohybrid, mul_u64_overflow.
  eapply safe_bind; [apply safe_rd; lia|]. intros sig _. destruct (negb _); [by apply safe_ret|].
  destruct (_ && _); [by apply safe_ret|].
  eapply safe_bind; [by apply gather_safe|]. intros [parts|] Hp; [|by apply safe_ret].
  eapply safe_bind; [by apply nuke_safe|]. intros _ _.
  eapply safe_bind.
  { apply safe_for, Forall_forall. intros i Hi. apply elem_of_seqZ in Hi. apply safe_wr; cbn; lia. }
  intros _ _. eapply safe_bind; [|intros; by apply safe_ret].
  apply safe_for, Forall_forall. intros [i p] Hi. apply write_part_safe. cbn.
  apply elem_of_zip_r in Hi. by eapply Forall_forall; [apply Hp|].
Qed.

Lemma check_mbr_entry_safe force base acc :
  0 <= base < 2 ^ 63 -> safe (check_mbr_entry fault LONG_MAX be force base acc) any.
Proof using Hlong.
  intros Hb. destruct acc as [mbr act]. unfold check_mbr_entry.
  eapply safe_bind; [safe_tac|]. intros b _. eapply (safe_bind _ _ any).
  { repeat first [safe_step | exact I]. }
  intros [h m] _. repeat first [safe_step | exact I].
Qed.

Lemma check_mbr_safe force : safe (check_mbr fault LONG_MAX be force) any.
Proof using Hlong.
  unfold check_mbr. cbn [check_mbr_entries].
  eapply (safe_bind _ _ any).
  { repeat (eapply safe_bind; [by apply check_mbr_entry_safe|intros ? _]). by apply safe_ret. }
  intros [mbr act] _. eapply (safe_bind _ _ any).
  { destruct mbr; [apply validate_safe|by apply safe_ret]. }
  intros m _. eapply (safe_bind _ _ any); [safe_tac; exact I|]. intros _ _. by apply safe_ret.
Qed.

Lemma read_entry_safe {A} h base i (k : list Z -> io A) Q :
  (forall bs, safe (k bs) Q) ->
  safe (let '(overflow, off) := entry_offset be h base i in
        if overflow then cleanup else let? bs := rd fault LONG_MAX off sizeof_gpt_entry in k bs) Q.
Proof using Hlong.
  intros Hk. unfold entry_offset, add_u64_overflow. destruct (_ <? _); [apply safe_cleanup|].
  eapply safe_bind; [apply safe_rd; [apply u64_bound|unfold sizeof_gpt_entry; lia]|auto].
Qed.

Lemma find_safe h base n : forall i, safe (find_bios_boot fault LONG_MAX be h base n i) any.
Proof using Hlong.
  induction n as [|n IH]; intros i; cbn [find_bios_boot]; [apply safe_cleanup|].
  apply read_entry_safe. intros bs. destruct (bool_decide _); [by apply safe_ret|apply IH].
Qed.

Lemma chosen_safe force h base ndx : safe (chosen_partition fault LONG_MAX be force h base ndx) any.
Proof using Hlong.
  destruct ndx as [n|]; cbn; [|apply safe_cleanup]. destruct (_ <=? _); [apply safe_cleanup|].
  apply read_entry_safe. intros bs. safe_tac.
Qed.

Lemma stage2_loc_safe force h lb ndx :
  safe (gpt_stage2_loc fault LONG_MAX be force h lb ndx) (fun loc => 0 <= loc < 2 ^ 64).
Proof using Hlong.
  unfold gpt_stage2_loc, mul_u64_overflow. destruct (_ && _); [apply safe_cleanup|].
  eapply (safe_bind _ _ any); [destruct ndx; [apply chosen_safe|apply find_safe]|]. intros e _.
  repeat (case_match; [apply safe_cleanup|]). simplify_eq.
  eapply (safe_bind _ _ any); [apply validate_safe|]. intros v _.
  destruct (negb v); [apply safe_cleanup|]. apply safe_ret, u64_bound.
Qed.

Lemma flush_safe : safe (flush fault LONG_MAX) any.
Proof using Hlong.
  intros d (Hi & Hn & Hf & Hbz). unfold flush. destruct (device_flush_cache fault LONG_MAX d) as [ok d'] eqn:E.
  destruct (flush_spec fault LONG_MAX Hlong d ok d' (i_ok _ _ Hi) E) as (K & M & _ & _ & S & N).
  rewrite (N Hn) in *. destruct (S eq_refl) as (Hok & _ & Hv & _). exists (Some tt), d'. split; [done|].
  split; [done|]. split; [|split; [by eapply kept_no_faults|by rewrite (k_log _ _ K), (k_bs _ _ K)]].
  split; [done| | |].
  - apply (undoable_kept orig d); [by apply Hi|done|]. eapply mixed_agree; [exact M|by apply Hi|by apply Hi].
  - rewrite Hv, (k_log _ _ K). by apply Hi.
  - rewrite (k_uninst _ _ K). by apply Hi.
Qed.

Context (Himg : 512 < Z.of_nat (length img) < 2 ^ 63).

Lemma write_stages_safe loc : 0 <= loc < 2 ^ 64 -> safe (write_stages fault LONG_MAX be img loc) any.
Proof using Hlong Himg.
  intros Hl. unfold write_stages. eapply safe_bind; [apply safe_rd; lia|]. intros ts Hts.
  eapply safe_bind; [apply safe_rd; lia|]. intros mbr Hmbr. cbn beta in *.
  repeat first [eapply safe_bind; [apply safe_wr; rewrite ?length_take, ?length_drop, ?length_to_bytes; lia|intros _ _]].
  apply flush_safe.
Qed.

Lemma install_safe force allowed ndx : safe (install fault LONG_MAX be img rand force allowed ndx) any.
Proof using Hlong Himg.
  unfold install. eapply safe_bind; [apply probe_safe; repeat constructor; lia|]. intros gpt Hlb.
  eapply (safe_bind _ _ any).
  { destruct gpt as [[h lb]|]; [apply check_secondary_safe|by apply safe_ret]. }
  intros _ _. eapply (safe_bind _ _ any).
  { destruct gpt as [[h lb]|]; [|by apply safe_ret]. destruct allowed; [|by apply safe_ret].
    eapply safe_bind; [by apply convert_safe|]. intros c _. by apply safe_ret. }
  intros [[h lb]|] _.
  - eapply safe_bind; [apply stage2_loc_safe|]. intros loc Hl. by apply write_stages_safe.
  - eapply safe_bind; [apply check_mbr_safe|]. intros m _. destruct (negb m); [apply safe_cleanup|].
    apply write_stages_safe. lia.
Qed.
End Rollback.

(** ** Properties *)

(** The tool on a freshly opened device, when [device_init] succeeds. *)
Lemma opened_running fault s d :
  s_size s < 2 ^ 63 -> (forall k, fault k = None) -> device_init fault (opened s) = (true, d) ->
  running fault (s_bytes s) (block_size d) d.
Proof.
  intros Hs Hn E. destruct (device_init_spec fault (opened s) d Hs E) as (Hok & Hv & _ & Hu & Hl & Hb).
  split; [apply installing_start; by rewrite ?Hl, ?Hu|]. split; [intros k _; apply Hn|]. by rewrite Hl.
Qed.

Lemma init_bytes fault d ok d' : device_init fault d = (ok, d') -> s_bytes (device d') = s_bytes (device d).
Proof.
  unfold device_init. generalize [512; 2048; 4096]. intros gs. revert d.
  induction gs as [|g gs IH]; intros d E; cbn [try_guesses] in E; [by injection E as _ <-|].
  destruct (fread fault g (rewind (device d))) as [[all got] s'] eqn:Er.
  assert (Hs : s_bytes s' = s_bytes (device d)) by (unfold fread in Er; by injection Er as _ _ <-).
  destruct all; cbn [negb] in E; [by injection E as _ <-|]. by rewrite (IH _ E).
Qed.

(** No transfer fails. *)
Definition sound : nat -> option nat := fun _ => None.

(** On a device that works [device_init] accepts the first block size, when there
    is a block at all. *)
Lemma init_sound s :
  if 512 <=? s_size s then exists d, device_init sound (opened s) = (true, d) /\ block_size d = 512
  else exists d, device_init sound (opened s) = (false, d).
Proof.
  assert (H : forall g s', 0 < g -> (fread sound g (rewind s')).1.1 = (g <=? s_size s')).
  { intros g s' Hg. unfold fread, s_size. cbn [fst sound s_pos s_bytes rewind]. unfold slice.
    rewrite drop_0, length_take. destruct (Z.leb_spec g (Z.of_nat (length (s_bytes s')))); [apply Z.eqb_eq|apply Z.eqb_neq]; lia. }
  unfold device_init. cbn [try_guesses].
  pose proof (H 512 s eq_refl) as H1.
  destruct (fread sound 512 (rewind (device (opened s)))) as [[a1 g1] s1] eqn:E1.
  assert (Hs1 : s_bytes s1 = s_bytes s) by (unfold fread in E1; by injection E1 as _ _ <-).
  change (device (opened s)) with s in E1. rewrite E1 in H1. cbn [fst] in H1. subst a1.
  destruct (Z.leb_spec 512 (s_size s)) as [Hle|Hlt]; cbn [negb]; [by eexists|]. cbn [device set_cache set_device].
  pose proof (H 2048 s1 eq_refl) as H2.
  destruct (fread sound 2048 (rewind s1)) as [[a2 g2] s2] eqn:E2. cbn [fst] in H2. subst a2.
  assert (Hs2 : s_bytes s2 = s_bytes s) by (unfold fread in E2; by injection E2 as _ _ <-).
  unfold s_size in *. rewrite (proj2 (Z.leb_gt _ _)) by (rewrite Hs1; lia). cbn [negb device set_cache set_device].
  pose proof (H 4096 s2 eq_refl) as H3.
  destruct (fread sound 4096 (rewind s2)) as [[a3 g3] s3] eqn:E3. cbn [fst] in H3. subst a3.
  unfold s_size. rewrite (proj2 (Z.leb_gt _ _)) by (rewrite Hs2; lia). cbn [negb]. by eexists.
Qed.

Section Tool.
Context (LONG_MAX : Z) (be : bool) (img : list Z) (rand : nat -> Z).
Context (file : string -> option (list Z)).

(** C9 An installation on a device that works either succeeds or changes
    nothing: whatever the device holds, the tool ends, and when it ends with
    [EXIT_FAILURE] (no valid partition table, a file system in the way, a
    partition too low or too small, a structure that points outside the device)
    every byte of the device is what it was. *)
Theorem failed_install_changes_nothing o s :
  0 < LONG_MAX -> 512 < Z.of_nat (length img) < 2 ^ 63 -> s_size s < 2 ^ 63 -> uninstall_mode o = false ->
  exists out, run_install sound LONG_MAX be img rand file o (opened s) = Some out /\
    (status out = EXIT_FAILURE -> s_bytes (device (final out)) = s_bytes s).
Proof.
  intros HL Hi Hs Hm. unfold run_install. destruct (device_init sound (opened s)) as [ok d] eqn:E.
  destruct ok; cbn [negb]; [|].
  2: { eexists. split; [done|]. intros _. exact (init_bytes sound (opened s) false d E). }
  pose proof (opened_running sound s d Hs (fun _ => eq_refl) E) as Hr. rewrite Hm.
  destruct (install_safe sound LONG_MAX HL be img rand (s_bytes s) (block_size d) Hi (force o) (gpt2mbr_allowed o)
    (option_map sscanf_u32 (opt_part_ndx o)) d Hr) as (r & d1 & -> & H).
  destruct r as [u|]; [by eexists|]. destruct H as [Hu Hn].
  destruct (undo_restores sound LONG_MAX HL (s_bytes s) d1 Hu Hn) as (d2 & -> & Hd). by eexists.
Qed.

(** C10 An installation can be taken back: when it has succeeded with
    [--uninstall-data-file], the file was written in full, and running the tool
    with [--uninstall] on that file ends with [EXIT_SUCCESS] and every byte of the
    device as it was before the installation. *)
Theorem uninstall_restores_device o o' s out name ok bytes :
  0 < LONG_MAX -> 512 < Z.of_nat (length img) < 2 ^ 63 -> s_size s < 2 ^ 63 -> uninstall_mode o = false ->
  run_install sound LONG_MAX be img rand file o (opened s) = Some out -> status out = EXIT_SUCCESS ->
  stored out = Some (name, (ok, bytes)) ->
  uninstall_mode o' = true -> uninstall_file o' = Some name -> file name = Some bytes ->
  ok = true /\
  exists out', run_install sound LONG_MAX be img rand file o'
      (opened (Stream (s_bytes (device (final out))) 0 0)) = Some out' /\
    status out' = EXIT_SUCCESS /\ s_bytes (device (final out')) = s_bytes s.
Proof.
  intros HL Hi Hs Hm Erun Hst Hsto Hm' Hf' Hfile. unfold run_install in Erun.
  pose proof (init_sound s) as Hinit. destruct (Z.leb_spec 512 (s_size s)) as [Hsz|_].
  2: { destruct Hinit as [d Ed]. rewrite Ed in Erun. by injection Erun as <-. }
  destruct Hinit as (d & Ed & Hbs). rewrite Ed, Hm in Erun. cbn [negb] in Erun.
  pose proof (opened_running sound s d Hs (fun _ => eq_refl) Ed) as Hr. rewrite Hbs in Hr.
  destruct (install_safe sound LONG_MAX HL be img rand (s_bytes s) 512 Hi (force o) (gpt2mbr_allowed o)
    (option_map sscanf_u32 (opt_part_ndx o)) d Hr) as (r & d1 & E1 & H).
  rewrite E1 in Erun. destruct r as [u|].
  2: { destruct H as [Hu Hn]. destruct (undo_restores sound LONG_MAX HL (s_bytes s) d1 Hu Hn) as (d2 & E2 & _).
       rewrite E2 in Erun. by injection Erun as <-. }
  destruct H as (_ & [Hok Hu Hv Hsv] & Hn & Hst1 & Hb1).
  rewrite (reverse_uninstall_data_spec d1) in Erun by apply Hu.
  set (d2 := set_log (uninstalling d1) (rev (undo_log d1)) d1) in *. injection Erun as <-.
  cbn [stored final status] in *. destruct (uninstall_file o) as [nm|]; [|done]. cbn [option_map] in Hsto.
  injection Hsto as -> Hstore.
  destruct Hu as [Ub Uc Us Ul Um Ue Ur Ud].
  assert (Hm2 : log_size d2 <= UNINSTALL_DATA_MAX) by (unfold log_size in *; cbn; by rewrite length_rev).
  set (s3 := Stream (s_bytes (device d2)) 0 0).
  assert (Hs3 : s_size s3 = s_size s) by (unfold s_size; cbn; by rewrite Ul).
  pose proof (init_sound s3) as Hinit3. rewrite Hs3, (proj2 (Z.leb_le _ _)) in Hinit3 by done.
  destruct Hinit3 as (d3 & Ed3 & Hbs3).
  destruct (device_init_spec sound (opened s3) d3 ltac:(cbn; lia) Ed3) as (Hok3 & _ & _ & _ & _ & Hby3).
  destruct (load_store be d2 d3 Hm2 ltac:(by apply Forall_rev)) as (bs & Hstore' & Hload).
  rewrite Hstore' in Hstore. injection Hstore as <- <-. split; [done|].
  set (d4 := set_log (uninstalling d3) (undo_log d2) d3).
  assert (He4 : Forall (entry_ok d4) (undo_log d4)).
  { cbn. apply Forall_rev. eapply Forall_impl; [exact Ue|]. intros e (He & Hc). split; [done|].
    unfold covered, s_size in *. cbn. by rewrite Hby3, Hbs3, <-Hb1. }
  destruct (uninstall_spec sound LONG_MAX HL d4) as (d5 & E5 & H5).
  { by destruct Hok3. } { by destruct Hok3. } { by destruct Hok3. } { done. } { by intros k _. }
  exists (Outcome EXIT_SUCCESS d5 None). unfold run_install. rewrite Ed3, Hm', Hf'. cbn [negb].
  cbn [mbind option_bind]. rewrite Hfile, Hload. fold d4. rewrite E5. split; [done|]. split; [done|].
  cbn [final]. rewrite H5. cbn [d4 set_log device undo_log]. rewrite Hby3. cbn. by apply Ur.
Qed.
End Tool.

(** ** At concrete inputs: an image of 600 bytes, a blank device of ten blocks,
    and one with the mark of a FAT file system *)

Definition demo_img : list Z := repeat 0x90 600.
Definition demo_rand : nat -> Z := fun _ => 4.
Definition blank : stream := Stream (repeat 0 (10 * 512)) 0 0.
Definition fat_disk : stream := Stream (splice (repeat 0 (10 * 512)) 54 [70; 65; 84]) 0 0.

Definition demo_opts : install_opts := InstallOpts true false true false (Some "undo"%string) (Some "disk"%string) None.
Definition demo_undo : install_opts := InstallOpts true false true true (Some "undo"%string) (Some "disk"%string) None.

Notation demo_run file o s := (run_install sound (2 ^ 63 - 1) false demo_img demo_rand file o (opened s)) (only parsing).

Lemma failed_install_changes_nothing_witness :
  exists out, demo_run (fun _ => None) demo_opts fat_disk = Some out /\ status out = EXIT_FAILURE /\
    s_bytes (device (final out)) = s_bytes fat_disk.
Proof.
  destruct (failed_install_changes_nothing (2 ^ 63 - 1) false demo_img demo_rand (fun _ => None) demo_opts fat_disk)
    as (out & E & H); [lia|split; vm_compute; reflexivity|vm_compute; reflexivity|reflexivity|].
  assert (Es : option_map status (demo_run (fun _ => None) demo_opts fat_disk) = Some EXIT_FAILURE)
    by (vm_compute; reflexivity).
  rewrite E in Es. injection Es as Es. exists out. auto.
Defined.

(** The file of uninstall data of the installation on the blank device. *)
Definition demo_file : list Z :=
  match demo_run (fun _ => None) demo_opts blank with
  | Some out => match stored out with Some (_, (_, bytes)) => bytes | None => [] end
  | None => []
  end.

Lemma uninstall_restores_device_witness :
  exists out, demo_run (fun _ => Some demo_file) demo_opts blank = Some out /\ status out = EXIT_SUCCESS /\
    exists out', demo_run (fun _ => Some demo_file) demo_undo (Stream (s_bytes (device (final out))) 0 0) = Some out' /\
      s_bytes (device (final out')) = s_bytes blank.
Proof.
  assert (E : option_map (fun out => (status out, stored out)) (demo_run (fun _ => Some demo_file) demo_opts blank)
    = Some (EXIT_SUCCESS, Some ("undo"%string, (true, demo_file)))) by (vm_compute; reflexivity).
  destruct (demo_run (fun _ => Some demo_file) demo_opts blank) as [out|] eqn:Er; [|discriminate E].
  injection E as Es Ef. exists out. split; [reflexivity|]. split; [exact Es|].
  destruct (uninstall_restores_device (2 ^ 63 - 1) false demo_img demo_rand (fun _ => Some demo_file)
    demo_opts demo_undo blank out "undo"%string true demo_file) as (_ & out' & E' & _ & H);
    [lia|split; vm_compute; reflexivity|vm_compute; reflexivity|reflexivity|exact Er|exact Es|exact Ef|reflexivity..|].
  exists out'. auto.
Defined.
