(* ===== verification/LimineMbr.v ===== *)
(** What [bios_install] of [limine/limine.c] does to an MBR device: the program
    logic of successful runs, and the theorem that an installation changes only
    the boot loader's own bytes. *)

From stdpp Require Import strings.
From S2P Require Import Prelude LimineFormat LimineDisk LimineUndo LimineInstall LimineRollback.

(** Byte [p] of the disk; the type and the first sector of the partition whose
    entry is at [base]. *)
Definition disk_byte (V : list Z) (p : Z) : Z := default 0 (V !! Z.to_nat p).
Definition mbr_type (V : list Z) (base : Z) : Z := disk_byte V (base + 4).
Definition mbr_start (V : list Z) (base : Z) : Z := le_value (slice V (base + 8) 4).
Definition mbr_bases : list Z := [446; 462; 478; 494].

(** The partitions leave the first 63 sectors alone. *)
Definition partition_high (V : list Z) (base : Z) : Prop := mbr_type V base <> 0 -> 63 <= mbr_start V base.

(** The disk with an active partition: the first one when there was none. *)
Definition with_active (V : list Z) : list Z :=
  if existsb (fun base => disk_byte V base =? 0x80) mbr_bases then V else splice V 446 [0x80].

Definition is_bytes (V : list Z) : Prop := Forall (fun b => 0 <= b < 2 ^ 8) V.

Lemma slice_one V p : 0 <= p -> p + 1 <= Z.of_nat (length V) -> slice V p 1 = [disk_byte V p].
Proof.
  intros Hp Hl. apply list_eq. intros i. rewrite slice_lookup. destruct (decide _) as [Hi|Hi].
  - assert (i = 0)%nat as -> by lia. rewrite Nat.add_0_r. unfold disk_byte. cbn.
    destruct (lookup_lt_is_Some_2 V (Z.to_nat p) ltac:(lia)) as [x ->]. done.
  - symmetry. apply lookup_ge_None_2. cbn. lia.
Qed.

Lemma of_bytes_one be b : of_bytes be [b] = b.
Proof. unfold of_bytes. destruct be; cbn; lia. Qed.

Lemma slice_bytes V p n : is_bytes V -> is_bytes (slice V p n).
Proof. intros H. apply Forall_take, Forall_drop, H. Qed.

Lemma swap4_slice be V p :
  is_bytes V -> 0 <= p -> p + 4 <= Z.of_nat (length V) -> swap4 be (of_bytes be (slice V p 4)) = le_value (slice V p 4).
Proof.
  intros Hb Hp Hl. assert (Hn : length (slice V p 4) = 4%nat) by (apply length_slice; lia).
  unfold swap4. rewrite <-Hn at 1. apply ENDSWAP_load; [rewrite Hn; tauto|by apply slice_bytes].
Qed.

Section Mbr.
Context (fault : nat -> option nat) (LONG_MAX : Z) (Hlong : 0 < LONG_MAX).
Context (be : bool) (img : list Z) (rand : nat -> Z).
Context (orig : list Z).

(** [yields m V Q]: when the logical disk is [V] and [m] reaches its end, the
    result and the state satisfy [Q]. *)
Definition yields {A} (m : io A) (V : list Z) (Q : A -> dev -> Prop) : Prop :=
  forall d a d', installing orig d -> view d = V -> m d = Some (Some a, d') -> installing orig d' /\ Q a d'.

Lemma yields_ret {A} (a : A) V (Q : A -> dev -> Prop) : (forall d, view d = V -> Q a d) -> yields (iret a) V Q.
Proof using. intros HQ d a' d' Hi Hv [= <- <-]. auto. Qed.

Lemma yields_cleanup {A} V (Q : A -> dev -> Prop) : yields cleanup V Q.
Proof using. by intros d a d' Hi Hv [=]. Qed.

Lemma yields_bind {A B} (m : io A) (k : A -> io B) V Q R :
  yields m V Q -> (forall a d, Q a d -> yields (k a) (view d) R) -> yields (ibind m k) V R.
Proof using.
  intros Hm Hk d b d' Hi Hv E. unfold ibind in E. destruct (m d) as [[[a|] d1]|] eqn:E1; [|done|done].
  destruct (Hm d a d1 Hi Hv E1) as [Hi1 HQ]. exact (Hk a d1 HQ d1 b d' Hi1 eq_refl E).
Qed.

Lemma yields_weaken {A} (m : io A) V (Q R : A -> dev -> Prop) :
  yields m V Q -> (forall a d, Q a d -> R a d) -> yields m V R.
Proof using. intros Hm HQ d a d' Hi Hv E. destruct (Hm d a d' Hi Hv E). auto. Qed.

(** Reading, with the rest of the program. *)
Lemma yields_rd {B} loc count (k : list Z -> io B) V R :
  0 <= loc < 2 ^ 64 -> 0 < count < 2 ^ 63 ->
  (loc + count <= Z.of_nat (length V) -> yields (k (slice V loc count)) V R) ->
  yields (ibind (rd fault LONG_MAX loc count) k) V R.
Proof using Hlong.
  intros Hl Hc Hk d b d' Hi Hv E. unfold ibind, rd in E.
  destruct (device_read_any fault LONG_MAX Hlong loc count d (i_ok _ _ Hi) Hl ltac:(lia)) as (r0 & d0 & E0 & _ & _ & S0 & _).
  destruct (installing_read fault LONG_MAX Hlong orig loc count d Hi Hl ltac:(lia)) as (r & d1 & E1 & _ & _ & _ & _ & S).
  rewrite E1 in E, E0. injection E0 as <- <-. destruct r as [data|]; [|done].
  destruct (S data eq_refl) as (Hi1 & Hv1 & -> & _). destruct (S0 _ eq_refl) as (_ & _ & _ & Hcov).
  assert (Hr : loc + count <= Z.of_nat (length V)).
  { rewrite <-Hv, length_view. apply Hcov. lia. }
  rewrite Hv in E. exact (Hk Hr d1 b d' Hi1 ltac:(congruence) E).
Qed.

Lemma yields_wr {B} buf loc (k : unit -> io B) V R :
  0 <= loc < 2 ^ 64 -> (0 < length buf)%nat -> Z.of_nat (length buf) < 2 ^ 63 ->
  (loc + Z.of_nat (length buf) <= Z.of_nat (length V) -> yields (k tt) (splice V loc buf) R) ->
  yields (ibind (wr fault LONG_MAX buf loc) k) V R.
Proof using Hlong.
  intros Hl Hb Hc Hk d b d' Hi Hv E. unfold ibind, wr in E.
  destruct (installing_write fault LONG_MAX Hlong orig buf loc d Hi Hl Hc) as (ok & d1 & E1 & _ & _ & S & _).
  rewrite E1 in E. destruct ok; [|done]. destruct (S eq_refl) as (Hi1 & Hv1 & _ & Hcnt).
  assert (Hr : loc + Z.of_nat (length buf) <= Z.of_nat (length V)).
  { rewrite Hv in Hcnt. unfold ud_count, slice in Hcnt. cbn in Hcnt. rewrite length_take, length_drop in Hcnt. lia. }
  exact (Hk Hr d1 b d' Hi1 ltac:(congruence) E).
Qed.

Lemma yields_flush V : yields (flush fault LONG_MAX) V (fun _ d => s_bytes (device d) = V).
Proof using Hlong.
  intros d a d' Hi Hv E. unfold flush in E. destruct (device_flush_cache fault LONG_MAX d) as [ok d1] eqn:Ef.
  destruct (flush_spec fault LONG_MAX Hlong d ok d1 (i_ok _ _ Hi) Ef) as (K & M & _ & _ & S & _).
  destruct ok; [|done]. injection E as <- <-. destruct (S eq_refl) as (Hok & _ & Hv1 & Hb1).
  split; [|congruence]. split; [done| |by rewrite Hv1, (k_log _ _ K); apply Hi|by rewrite (k_uninst _ _ K); apply Hi].
  apply (undoable_kept orig d); [by apply Hi|done|]. eapply mixed_agree; [exact M|by apply Hi|by apply Hi].
Qed.

(** *** The checks, without [--force] *)

Lemma yields_rd_ret {A} loc count (f : list Z -> io A) V :
  0 <= loc < 2 ^ 64 -> 0 < count < 2 ^ 63 -> (forall bs, yields (f bs) V (fun _ d => view d = V)) ->
  yields (ibind (rd fault LONG_MAX loc count) f) V (fun _ d => view d = V).
Proof using Hlong. intros Hl Hc Hf. by apply yields_rd. Qed.

Lemma check_hint_yields loc hint wipe V :
  0 <= loc < 2 ^ 64 -> 0 < Z.of_nat (String.length hint) < 2 ^ 63 ->
  yields (check_hint fault LONG_MAX false loc hint wipe) V (fun _ d => view d = V).
Proof using Hlong.
  intros Hl Hh. unfold check_hint. apply yields_rd_ret; [done..|]. intros bs.
  destruct (bool_decide _); by apply yields_ret.
Qed.

Lemma validate_yields offset V :
  yields (validate_or_force fault LONG_MAX be offset false) V (fun _ d => view d = V).
Proof using Hlong.
  unfold validate_or_force.
  repeat (eapply yields_bind; [apply check_hint_yields; [apply u64_bound|cbn; lia]|cbn beta; intros [] ? <-];
    cbn [negb]; [|by apply yields_ret]).
  apply yields_rd_ret; [apply u64_bound|lia|]. intros bs. destruct (_ =? _); by apply yields_ret.
Qed.

Lemma check_mbr_entry_yields base mbr act V :
  is_bytes V -> 0 <= base < 2 ^ 62 ->
  yields (check_mbr_entry fault LONG_MAX be false base (mbr, act)) V (fun acc d =>
    view d = V /\ partition_high V base /\
    acc = (mbr && ((disk_byte V base =? 0) || (disk_byte V base =? 0x80)), act || truthy (Z.land (disk_byte V base) 0x80))).
Proof using Hlong.
  intros HV Hb. unfold check_mbr_entry. apply yields_rd; [lia..|]. intros Hl1. rewrite slice_one, of_bytes_one by lia.
  set (b := disk_byte V base).
  eapply (yields_bind _ _ V (fun p d => view d = V /\ p = (b, mbr && ((b =? 0) || (b =? 0x80))))).
  { destruct (Z.eqb_spec b 0), (Z.eqb_spec b 0x80); cbn [negb andb orb]; apply yields_ret;
      rewrite ?andb_true_r, ?andb_false_r; done. }
  intros p d [Hv ->]. rewrite Hv. apply yields_rd; [lia..|]. intros Hl2. rewrite slice_one, of_bytes_one by lia.
  unfold partition_high, mbr_type in *.
  destruct (Z.eqb_spec (disk_byte V (base + 4)) 0) as [E|E]; cbn [negb].
  { apply yields_ret. intros d' Hd'. split; [done|]. by split. }
  apply yields_rd; [lia..|]. intros Hl3. rewrite swap4_slice by (done || lia).
  destruct (Z.ltb_spec (le_value (slice V (base + 8) 4)) 63); [apply yields_cleanup|].
  apply yields_ret. intros d' Hd'. split; [done|]. by split.
Qed.

Lemma check_mbr_entries_yields bases : forall mbr act V,
  is_bytes V -> Forall (fun base => 0 <= base < 2 ^ 62) bases ->
  yields (check_mbr_entries fault LONG_MAX be false bases (mbr, act)) V (fun acc d =>
    view d = V /\ Forall (partition_high V) bases /\
    acc = (mbr && forallb (fun base => (disk_byte V base =? 0) || (disk_byte V base =? 0x80)) bases,
           act || existsb (fun base => truthy (Z.land (disk_byte V base) 0x80)) bases)).
Proof using Hlong.
  induction bases as [|base bases IH]; intros mbr act V HV Hb; cbn [check_mbr_entries forallb existsb].
  { apply yields_ret. intros d Hd. by rewrite andb_true_r, orb_false_r. }
  apply Forall_cons in Hb as [Hb Hbs].
  eapply yields_bind; [by apply check_mbr_entry_yields|]. intros acc d (Hv & Hp & ->). rewrite Hv.
  intros d1 acc d2 Hi1 Hv1 E. destruct (IH _ _ V HV Hbs d1 acc d2 Hi1 Hv1 E) as (Hi2 & Hv2 & Hps & ->).
  split; [done|]. split; [done|]. split; [by constructor|]. by rewrite andb_assoc, orb_assoc.
Qed.

(** Where every status byte is 0 or 0x80, the test of the top bit is the test for
    an active partition. *)
Lemma active_top_bit V bases :
  forallb (fun base => (disk_byte V base =? 0) || (disk_byte V base =? 0x80)) bases = true ->
  existsb (fun base => truthy (Z.land (disk_byte V base) 0x80)) bases =
  existsb (fun base => disk_byte V base =? 0x80) bases.
Proof using.
  induction bases as [|base bases IH]; cbn; [done|]. rewrite andb_true_iff. intros [Hb Hbs].
  rewrite (IH Hbs). f_equal. apply orb_true_iff in Hb as [Hb%Z.eqb_eq|Hb%Z.eqb_eq]; by rewrite Hb.
Qed.

Lemma check_mbr_yields V :
  is_bytes V ->
  yields (check_mbr fault LONG_MAX be false) V (fun mbr d =>
    mbr = true -> view d = with_active V /\ Forall (partition_high V) mbr_bases).
Proof using Hlong.
  intros HV. unfold check_mbr. eapply yields_bind.
  { apply check_mbr_entries_yields; [done|repeat constructor; lia]. }
  cbn [andb orb]. intros acc d (Hv & Hp & ->). rewrite Hv. cbn beta iota zeta.
  set (ok := forallb _ _). set (act := existsb _ _).
  eapply (yields_bind _ _ V (fun mbr d => view d = V /\ (mbr = true -> ok = true))).
  { destruct ok; [|by apply yields_ret]. intros d1 m d2 Hi1 Hv1 E.
    destruct (validate_yields 0 V d1 m d2 Hi1 Hv1 E). auto. }
  intros [] d1 [Hv1 Hok]; rewrite Hv1; cbn [andb].
  2: { intros d2 m d3 Hi2 Hv2 E. injection E as <- <-. done. }
  assert (Ha : act = existsb (fun base => disk_byte V base =? 0x80) mbr_bases) by (by apply active_top_bit, Hok).
  unfold with_active. rewrite <-Ha. destruct act; cbn [negb].
  - intros d2 m d3 Hi2 Hv2 E. injection E as <- <-. done.
  - apply yields_wr; [lia|cbn; lia|cbn; lia|]. intros _. by apply yields_ret.
Qed.

Lemma probe_yields guesses V :
  Forall (fun lb => 0 <= lb < 2 ^ 62 /\ slice V lb 8 <> bytes_of "EFI PART") guesses ->
  yields (probe_gpt fault LONG_MAX be guesses) V (fun r d => r = None /\ view d = V).
Proof using Hlong.
  induction 1 as [|lb gs [Hlb Hs] Hgs IH]; cbn [probe_gpt]; [by apply yields_ret|].
  apply yields_rd; [lia|unfold sizeof_gpt_table_header; lia|]. intros _.
  rewrite bool_decide_eq_false_2; [done|]. intros E. apply Hs. rewrite <-E. unfold load_gpt_table_header, signature.
  unfold slice. by rewrite drop_0, take_take.
Qed.

(** *** The writes *)

Definition written (V : list Z) (loc : Z) : list Z :=
  splice (splice (splice (splice (splice V 0 (take 512 img)) loc (drop 512 img))
    0x1a4 (le_bytes 8 loc)) 218 (slice V 218 6)) 440 (slice V 440 70).

Lemma write_stages_yields V loc :
  512 < Z.of_nat (length img) < 2 ^ 63 -> 0 <= loc < 2 ^ 64 ->
  yields (write_stages fault LONG_MAX be img loc) V (fun _ d =>
    s_bytes (device d) = written V loc /\ loc + (Z.of_nat (length img) - 512) <= Z.of_nat (length V) /\
    512 <= Z.of_nat (length V)).
Proof using Hlong.
  intros Hi Hl. unfold write_stages. apply yields_rd; [lia..|]. intros _. apply yields_rd; [lia..|]. intros H440.
  assert (L1 : length (slice V 218 6) = 6%nat) by (apply length_slice; lia).
  assert (L2 : length (slice V 440 70) = 70%nat) by (apply length_slice; lia).
  apply yields_wr; [lia|rewrite length_take; lia..|]. intros Hr1.
  apply yields_wr; [lia|rewrite length_drop; lia..|]. intros Hr2.
  rewrite length_take in Hr1. rewrite length_drop, length_splice in Hr2.
  unfold swap8. rewrite ENDSWAP_store by (tauto || lia).
  apply yields_wr; [lia|rewrite length_le_bytes; lia..|]. intros _.
  apply yields_wr; [lia|lia..|]. intros _. apply yields_wr; [lia|lia..|]. intros _.
  intros d a d' Hid Hv E. destruct (yields_flush _ d a d' Hid Hv E) as [Hid' Hb]. split; [done|].
  split; [exact Hb|]. lia.
Qed.

Lemma install_mbr_yields V allowed ndx :
  512 < Z.of_nat (length img) < 2 ^ 63 -> is_bytes V ->
  slice V 512 8 <> bytes_of "EFI PART" -> slice V 4096 8 <> bytes_of "EFI PART" ->
  yields (install fault LONG_MAX be img rand false allowed ndx) V (fun _ d =>
    s_bytes (device d) = written (with_active V) 512 /\ Forall (partition_high V) mbr_bases /\
    Z.of_nat (length img) <= Z.of_nat (length V) /\ 512 <= Z.of_nat (length V)).
Proof using Hlong.
  intros Himg HV H5 H4. unfold install. eapply yields_bind.
  { apply probe_yields. repeat constructor; done || lia. }
  intros r d [-> Hv]. rewrite Hv. eapply (yields_bind _ _ V (fun _ d => view d = V)); [by apply yields_ret|].
  intros _ d1 Hv1. rewrite Hv1. eapply (yields_bind _ _ V (fun r d => r = None /\ view d = V)); [by apply yields_ret|].
  intros r d2 [-> Hv2]. rewrite Hv2. eapply yields_bind; [by apply check_mbr_yields|].
  intros mbr d3 Hm. destruct mbr; cbn [negb]; [|apply yields_cleanup]. destruct (Hm eq_refl) as [-> Hp].
  intros d4 a d5 Hi4 Hv4 E.
  destruct (write_stages_yields (with_active V) 512 Himg ltac:(lia) d4 a d5 Hi4 Hv4 E) as (Hi5 & Hb & Hl1 & Hl2).
  assert (Hw : length (with_active V) = length V).
  { unfold with_active. destruct (existsb _ _); [done|apply length_splice]. }
  split; [done|]. rewrite Hw in *. split; [done|]. split; [done|lia].
Qed.
End Mbr.

(** The tool, when it reports success: what [install] yields is on the device. *)
Lemma run_install_yields fault LONG_MAX be img rand file o s out (Q : list Z -> Prop) :
  0 < LONG_MAX -> s_size s < 2 ^ 63 -> uninstall_mode o = false ->
  yields (s_bytes s) (install fault LONG_MAX be img rand (force o) (gpt2mbr_allowed o)
    (option_map sscanf_u32 (opt_part_ndx o))) (s_bytes s) (fun _ d => Q (s_bytes (device d))) ->
  run_install fault LONG_MAX be img rand file o (opened s) = Some out -> status out = EXIT_SUCCESS ->
  Q (s_bytes (device (final out))).
Proof.
  intros HL Hs Hm HQ Erun Hst. unfold run_install in Erun.
  destruct (device_init fault (opened s)) as [ok d] eqn:Ed. destruct ok; cbn [negb] in Erun; [|by injection Erun as <-].
  destruct (device_init_spec fault (opened s) d Hs Ed) as (Hok & Hv & _ & Hu & Hl & Hb).
  change (s_bytes (device (opened s))) with (s_bytes s) in *.
  assert (Hrun : installing (s_bytes s) d) by (apply installing_start; rewrite ?Hl, ?Hu; done).
  rewrite Hm in Erun.
  destruct (install _ _ _ _ _ _ _ _ d) as [[[u|] d1]|] eqn:E1; [| |done].
  2: { destruct (uninstall _ _ _) as [[? ?]|]; [|done]. by injection Erun as <-. }
  destruct (HQ d u d1 Hrun Hv E1) as [_ H]. by injection Erun as <-.
Qed.

(** Byte by byte: behind the boot sector, and everywhere when stage 2 is there. *)
Lemma written_high img V loc i :
  0 <= loc -> loc + (Z.of_nat (length img) - 512) <= Z.of_nat (length V) -> 512 <= Z.of_nat (length V) ->
  512 < Z.of_nat (length img) -> 512 <= Z.of_nat i -> ~ (loc <= Z.of_nat i < loc + (Z.of_nat (length img) - 512)) ->
  written img V loc !! i = V !! i.
Proof.
  intros H0 Hl Hv Himg Hi Hn. unfold written.
  assert (L1 : length (slice V 218 6) = 6%nat) by (apply length_slice; lia).
  assert (L2 : length (slice V 440 70) = 70%nat) by (apply length_slice; lia).
  assert (L3 : length (take 512 img) = 512%nat) by (rewrite length_take; lia).
  assert (L4 : length (drop 512 img) = (length img - 512)%nat) by apply length_drop.
  repeat rewrite splice_lookup by (rewrite ?length_splice, ?L1, ?L2, ?L3, ?L4, ?length_le_bytes; lia).
  rewrite L1, L2, L3, L4, length_le_bytes. by rewrite !decide_False by lia.
Qed.

Lemma written_lookup_at img V loc i :
  512 <= loc -> loc + (Z.of_nat (length img) - 512) <= Z.of_nat (length V) -> 512 < Z.of_nat (length img) ->
  written img V loc !! i =
    if decide (440 <= Z.of_nat i < 510 \/ 218 <= Z.of_nat i < 224) then V !! i
    else if decide (420 <= Z.of_nat i < 428) then le_bytes 8 loc !! (i - 420)%nat
    else if decide (Z.of_nat i < 512) then img !! i
    else if decide (loc <= Z.of_nat i < loc + (Z.of_nat (length img) - 512)) then img !! (i - Z.to_nat loc + 512)%nat
    else V !! i.
Proof.
  intros H0 Hl Himg. unfold written.
  assert (L1 : length (slice V 218 6) = 6%nat) by (apply length_slice; lia).
  assert (L2 : length (slice V 440 70) = 70%nat) by (apply length_slice; lia).
  assert (L3 : length (take 512 img) = 512%nat) by (rewrite length_take; lia).
  assert (L4 : length (drop 512 img) = (length img - 512)%nat) by apply length_drop.
  repeat rewrite splice_lookup by (rewrite ?length_splice, ?L1, ?L2, ?L3, ?L4, ?length_le_bytes; lia).
  rewrite L1, L2, L3, L4, length_le_bytes.
  repeat match goal with |- context [decide ?P] => destruct (decide P) end; try lia; try done.
  all: first [rewrite slice_lookup, decide_True by lia | rewrite lookup_take_lt by lia | rewrite lookup_drop]; f_equal; lia.
Qed.

Lemma written_lookup img V i :
  512 < Z.of_nat (length img) <= Z.of_nat (length V) ->
  written img V 512 !! i =
    if decide (440 <= Z.of_nat i < 510 \/ 218 <= Z.of_nat i < 224) then V !! i
    else if decide (420 <= Z.of_nat i < 428) then le_bytes 8 512 !! (i - 420)%nat
    else if decide (Z.of_nat i < Z.of_nat (length img)) then img !! i else V !! i.
Proof.
  intros Hl. rewrite written_lookup_at by lia.
  repeat match goal with |- context [decide ?P] => destruct (decide P) end; try lia; try done. f_equal. lia.
Qed.

(** C11 What an installation without [--force] does to a device with an MBR: if it
    reports success, then whatever faults occurred, every partition starts at
    sector 63 or later; every byte after the image is untouched, so all partitions
    are; the time stamp and the partition table are those of the old sector, with
    the first partition marked active if none was; the boot sector names byte 512
    as the place of stage 2; and all other bytes are those of the image. *)
Theorem mbr_install_keeps_disk fault LONG_MAX be img rand file o s out :
  0 < LONG_MAX -> 512 < Z.of_nat (length img) <= 63 * 512 -> s_size s < 2 ^ 63 -> is_bytes (s_bytes s) ->
  uninstall_mode o = false -> force o = false ->
  slice (s_bytes s) 512 8 <> bytes_of "EFI PART" -> slice (s_bytes s) 4096 8 <> bytes_of "EFI PART" ->
  run_install fault LONG_MAX be img rand file o (opened s) = Some out -> status out = EXIT_SUCCESS ->
  let V := s_bytes s in
  let V' := s_bytes (device (final out)) in
  Forall (partition_high V) mbr_bases /\
  (forall i, 63 * 512 <= Z.of_nat i \/ Z.of_nat (length img) <= Z.of_nat i -> V' !! i = V !! i) /\
  (forall i, 218 <= Z.of_nat i < 224 \/ 440 <= Z.of_nat i < 510 -> V' !! i = with_active V !! i) /\
  slice V' 0x1a4 8 = le_bytes 8 512 /\
  (forall i, Z.of_nat i < Z.of_nat (length img) -> ~ (218 <= Z.of_nat i < 224) -> ~ (420 <= Z.of_nat i < 428) ->
     ~ (440 <= Z.of_nat i < 510) -> V' !! i = img !! i).
Proof.
  intros HL Hi Hs HV Hm Hf H5 H4 Erun Hst V V'.
  destruct (run_install_yields fault LONG_MAX be img rand file o s out (fun V' => V' = written img (with_active V) 512 /\
    Forall (partition_high V) mbr_bases /\ Z.of_nat (length img) <= Z.of_nat (length V)) HL Hs Hm) as (EV & Hp & Hlen); [|done..|].
  { rewrite Hf. eapply yields_weaken; [apply install_mbr_yields; [done|lia|done..]|]. by intros _ d (? & ? & ? & _). }
  fold V' in EV. assert (Hw : length (with_active V) = length V).
  { unfold with_active. destruct (existsb _ _); [done|apply length_splice]. }
  assert (Ha : forall i, 512 <= Z.of_nat i -> with_active V !! i = V !! i).
  { intros i Hi'. unfold with_active. destruct (existsb _ _); [done|]. rewrite splice_lookup by (cbn; lia).
    cbn. by rewrite decide_False by lia. }
  assert (HW : forall i, V' !! i = _) by (intros i; rewrite EV; apply written_lookup; rewrite Hw; lia).
  split; [done|]. split.
  { intros i Hi'. rewrite HW, !decide_False by lia. apply Ha. lia. }
  split. { intros i Hi'. by rewrite HW, decide_True by tauto. }
  split.
  - apply list_eq. intros i. rewrite slice_lookup. destruct (decide _) as [Hlt|Hge].
    + rewrite HW, decide_False, decide_True by lia. f_equal. lia.
    + symmetry. apply lookup_ge_None_2. rewrite length_le_bytes. lia.
  - intros i H1 H2 H3 H6. by rewrite HW, !decide_False, decide_True by lia.
Qed.

(** The installation of the image of 600 bytes on the blank device. *)
Lemma mbr_install_keeps_disk_witness :
  exists out, demo_run (fun _ => None) demo_opts blank = Some out /\
    slice (s_bytes (device (final out))) 0x1a4 8 = le_bytes 8 512 /\
    s_bytes (device (final out)) !! 600%nat = s_bytes blank !! 600%nat.
Proof.
  assert (E : option_map status (demo_run (fun _ => None) demo_opts blank) = Some EXIT_SUCCESS)
    by (vm_compute; reflexivity).
  destruct (demo_run (fun _ => None) demo_opts blank) as [out|] eqn:Er; [|discriminate E].
  injection E as Es. exists out. split; [reflexivity|].
  destruct (mbr_install_keeps_disk sound (2 ^ 63 - 1) false demo_img demo_rand (fun _ => None) demo_opts blank out)
    as (_ & H1 & _ & H2 & _).
  - lia.
  - split; vm_compute; [reflexivity|discriminate].
  - vm_compute. reflexivity.
  - unfold is_bytes, blank. cbn [s_bytes]. apply List.Forall_forall. intros x Hx%List.repeat_spec. subst x. lia.
  - reflexivity.
  - reflexivity.
  - vm_compute. discriminate.
  - vm_compute. discriminate.
  - exact Er.
  - exact Es.
  - split; [exact H2|]. apply H1. right. vm_compute. discriminate.
Defined.
