(* ===== verification/LimineGpt.v ===== *)
(** What [bios_install] of [limine/limine.c] does to a GPT device: where stage 2
    goes, and the conversion of the GPT of an ISOHYBRID image into an MBR partition
    table. The logic [yields] of LimineMbr.v, applied to the rest of [install], and
    the layout of a GUID partition table read from the bytes of the disk. *)

From stdpp Require Import strings.
From S2P Require Import Prelude LimineFormat LimineDisk LimineUndo LimineInstall LimineRollback LimineMbr.

(** ** The table on the disk

    Integers of a GPT are little-endian whatever the machine; [lb] is the size of a
    logical block and the offset of the header, [pos] the offset of an entry. *)

Definition g64 (V : list Z) (p : Z) : Z := le_value (slice V p 8).
Definition g32 (V : list Z) (p : Z) : Z := le_value (slice V p 4).

Definition gpt_alternate (V : list Z) (lb : Z) : Z := g64 V (lb + 32).
Definition gpt_base (V : list Z) (lb : Z) : Z := g64 V (lb + 72) * lb.
Definition gpt_count (V : list Z) (lb : Z) : Z := g32 V (lb + 80).
Definition gpt_entry_size (V : list Z) (lb : Z) : Z := g32 V (lb + 84).
Definition entry_pos (V : list Z) (lb i : Z) : Z := gpt_base V lb + i * gpt_entry_size V lb.

(** The size of a logical block, when there is a GPT. *)
Definition has_gpt (V : list Z) (lb : Z) : bool := bool_decide (slice V lb 8 = bytes_of "EFI PART").
Definition gpt_block (V : list Z) : option Z := List.find (has_gpt V) [512; 4096].

Definition used (V : list Z) (pos : Z) : bool := negb (bool_decide (slice V (pos + 16) 16 = repeat 0 16)).
Definition is_bios_boot (V : list Z) (pos : Z) : bool := bool_decide (slice V pos 16 = bios_boot_type).
Definition first_lba (V : list Z) (pos : Z) : Z := g64 V (pos + 32).
Definition last_lba (V : list Z) (pos : Z) : Z := g64 V (pos + 40).

(** *** The structures of the code hold these fields *)

Lemma slice_slice V p n q k : 0 <= p -> 0 <= q -> 0 <= k -> q + k <= n -> slice (slice V p n) q k = slice V (p + q) k.
Proof.
  intros Hp Hq Hk Hn. apply list_eq. intros i. rewrite !slice_lookup.
  destruct (decide (i < Z.to_nat k)%nat); [|done]. rewrite decide_True by lia. f_equal. lia.
Qed.

Section Layout.
Context (be : bool) (V : list Z) (HV : is_bytes V).

Lemma field8_swap p n q :
  0 <= p -> 0 <= q -> q + 8 <= n -> p + n <= Z.of_nat (length V) ->
  swap8 be (field be 8 q (slice V p n)) = g64 V (p + q) /\ 0 <= g64 V (p + q) < 2 ^ 64.
Proof using HV.
  intros Hp Hq Hn Hl. unfold field, swap8, g64. change (Z.of_nat 8) with 8. rewrite slice_slice by lia.
  assert (L : length (slice V (p + q) 8) = 8%nat) by (apply length_slice; lia).
  destruct (ENDSWAP_load be (slice V (p + q) 8)) as [E B]; [rewrite L; tauto|by apply slice_bytes|].
  rewrite L in E, B. by split.
Qed.

Lemma field4_swap p n q :
  0 <= p -> 0 <= q -> q + 4 <= n -> p + n <= Z.of_nat (length V) ->
  swap4 be (field be 4 q (slice V p n)) = g32 V (p + q) /\ 0 <= g32 V (p + q) < 2 ^ 32.
Proof using HV.
  intros Hp Hq Hn Hl. unfold field, swap4, g32. change (Z.of_nat 4) with 4. rewrite slice_slice by lia.
  assert (L : length (slice V (p + q) 4) = 4%nat) by (apply length_slice; lia).
  destruct (ENDSWAP_load be (slice V (p + q) 4)) as [E B]; [rewrite L; tauto|by apply slice_bytes|].
  rewrite L in E, B. by split.
Qed.

(** The header at [lb], and the entry at [pos]. *)
Record header_at (lb : Z) (h : gpt_table_header) : Prop := {
  ha_sig : signature h = slice V lb 8;
  ha_alt : swap8 be (alternate_lba h) = gpt_alternate V lb /\ 0 <= gpt_alternate V lb < 2 ^ 64;
  ha_lba : swap8 be (partition_entry_lba h) = g64 V (lb + 72) /\ 0 <= g64 V (lb + 72) < 2 ^ 64;
  ha_count : swap4 be (number_of_partition_entries h) = gpt_count V lb /\ 0 <= gpt_count V lb < 2 ^ 32;
  ha_size : swap4 be (size_of_partition_entry h) = gpt_entry_size V lb /\ 0 <= gpt_entry_size V lb < 2 ^ 32;
}.

Lemma header_load lb :
  0 <= lb -> lb + 96 <= Z.of_nat (length V) -> header_at lb (load_gpt_table_header be (slice V lb 96)).
Proof using HV.
  intros Hl Hn. split.
  - unfold load_gpt_table_header, signature. rewrite slice_slice by lia. f_equal. lia.
  - apply field8_swap; lia.
  - apply field8_swap; lia.
  - apply field4_swap; lia.
  - apply field4_swap; lia.
Qed.

Record entry_at (pos : Z) (e : gpt_entry) : Prop := {
  ea_type1 : swap8 be (partition_type_guid e).1 = g64 V pos;
  ea_type2 : swap8 be (partition_type_guid e).2 = g64 V (pos + 8);
  ea_bytes : type_bytes be e = slice V pos 16;
  ea_unused : entry_unused e = negb (used V pos);
  ea_first : swap8 be (starting_lba e) = first_lba V pos /\ 0 <= first_lba V pos < 2 ^ 64;
  ea_last : swap8 be (ending_lba e) = last_lba V pos /\ 0 <= last_lba V pos < 2 ^ 64;
}.

Lemma to_of_bytes (n : nat) bs : length bs = n -> is_bytes bs -> to_bytes be n (of_bytes be bs) = bs.
Proof using.
  intros <- Hb. unfold to_bytes, of_bytes. destruct be.
  - rewrite <-length_rev, le_bytes_value by (apply List.Forall_rev; exact Hb). apply rev_involutive.
  - apply le_bytes_value, Hb.
Qed.

Lemma of_bytes_zero bs : length bs = 8%nat -> is_bytes bs -> of_bytes be bs = 0 <-> bs = repeat 0 8.
Proof using.
  intros Hl Hb. split; [|by intros ->; destruct be]. intros E. rewrite <-(to_of_bytes 8 bs Hl Hb), E. by destruct be.
Qed.

(** Bytes [q] to [q + 8] of the entry. *)
Lemma entry_field pos q :
  0 <= pos -> 0 <= q <= 120 -> pos + 128 <= Z.of_nat (length V) ->
  field be 8 q (slice V pos 128) = of_bytes be (slice V (pos + q) 8) /\ length (slice V (pos + q) 8) = 8%nat.
Proof using.
  intros Hp Hq Hn. unfold field. change (Z.of_nat 8) with 8. rewrite slice_slice by lia.
  split; [done|apply length_slice; lia].
Qed.

Lemma slice_split pos n m :
  0 <= pos -> 0 <= n -> 0 <= m -> slice V pos (n + m) = slice V pos n ++ slice V (pos + n) m.
Proof using. apply slice_app. Qed.

Lemma entry_load pos :
  0 <= pos -> pos + 128 <= Z.of_nat (length V) -> entry_at pos (load_gpt_entry be (slice V pos 128)).
Proof using HV.
  intros Hp Hn. destruct (entry_field pos 0) as [E0 L0]; [lia..|]. destruct (entry_field pos 8) as [E8 L8]; [lia..|].
  destruct (entry_field pos 16) as [E16 L16]; [lia..|]. destruct (entry_field pos 24) as [E24 L24]; [lia..|].
  rewrite Z.add_0_r in E0, L0. split.
  - unfold load_gpt_entry, partition_type_guid, fst.
    rewrite <-(Z.add_0_r pos) at 2. apply (field8_swap pos 128 0); lia.
  - apply field8_swap; lia.
  - unfold type_bytes, load_gpt_entry, partition_type_guid, fst, snd. rewrite E0, E8.
    rewrite !to_of_bytes by (done || by apply slice_bytes). symmetry. apply (slice_split pos 8 8); lia.
  - unfold entry_unused, used, load_gpt_entry, unique_partition_guid, fst, snd. rewrite E16, E24, negb_involutive.
    replace (slice V (pos + 16) 16) with (slice V (pos + 16) 8 ++ slice V (pos + 24) 8).
    2: { replace (pos + 24) with (pos + 16 + 8) by lia. symmetry. apply (slice_split (pos + 16) 8 8); lia. }
    apply eq_true_iff_eq. rewrite andb_true_iff, !Z.eqb_eq, bool_decide_eq_true.
    rewrite !of_bytes_zero by (done || by apply slice_bytes). change (repeat 0 16) with (repeat 0 8 ++ repeat 0 8).
    split; [by intros [-> ->]|]. intros E. apply app_inj_1 in E; [done|by rewrite L16].
  - apply field8_swap; lia.
  - apply field8_swap; lia.
Qed.
End Layout.

(** ** The runs of [install], step by step *)

(** The partition that entry [pos] becomes, when it can be converted; the used
    entries among [n] from number [i] on; and all of the conversion. *)
Definition mbr_part (V : list Z) (pos : Z) : option part_to_conv :=
  let start := first_lba V pos in
  let last := last_lba V pos in
  let type := gpt2mbr_type (g64 V pos) (g64 V (pos + 8)) in
  if (start <? 2 ^ 32) && (last <? 2 ^ 32) && (u64 (last - start + 1) <? 2 ^ 32) && negb (type =? -1)
  then Some (PartToConv start last (lba2chs start) (lba2chs last) type)
  else None.

Definition used_from (V : list Z) (lb i : Z) (n : nat) : list Z :=
  List.filter (fun j => used V (entry_pos V lb j)) (seqZ i (Z.of_nat n)).

Definition mbr_parts_from (V : list Z) (lb i : Z) (n : nat) (parts : list part_to_conv) : option (list part_to_conv) :=
  ps ← mapM (fun j => mbr_part V (entry_pos V lb j)) (used_from V lb i n);
  if Nat.leb (length parts + length ps) 4 && ((n =? 0)%nat || (entry_pos V lb (i + Z.of_nat n - 1) <? 2 ^ 64))
  then Some (parts ++ ps) else None.

Definition is_iso (V : list Z) : bool := bool_decide (slice V 32769 5 = bytes_of "CD001").

Definition mbr_conversion (V : list Z) (lb : Z) : option (list part_to_conv) :=
  if is_iso V && (gpt_base V lb <? 2 ^ 64) then mbr_parts_from V lb 0 (Z.to_nat (gpt_count V lb)) [] else None.

(** The entry of the partition of stage 2: the one of the number the user gave, or
    else the first BIOS boot partition; and the place where the partition starts. *)
Definition stage2_entry (V : list Z) (lb : Z) (part_ndx : option (option Z)) (j : Z) : Prop :=
  0 <= j < gpt_count V lb /\ is_bios_boot V (entry_pos V lb j) = true /\
  match part_ndx with
  | Some n => (exists m, n = Some m /\ j = u32 (m - 1)) /\ used V (entry_pos V lb j) = true
  | None => forall k, 0 <= k < j -> is_bios_boot V (entry_pos V lb k) = false
  end.

(** The size of a partition in bytes. *)
Definition part_bytes (V : list Z) (lb pos : Z) : Z := (last_lba V pos - first_lba V pos + 1) * lb.

(** *** The disk after the conversion *)

(** The entry of the MBR for a partition. *)
Definition mbr_entry (p : part_to_conv) : list Z :=
  0 :: chs_start p ++ part_type p :: chs_end p ++
    le_bytes 4 (lba_start p) ++ le_bytes 4 (lba_end p - lba_start p + 1).

Definition zeros (n : Z) : list Z := repeat 0 (Z.to_nat n).

(** Without its partition tables. *)
Definition nuked (V : list Z) (lb : Z) : list Z :=
  let V1 := splice V 0 (zeros (34 * lb)) in
  if 32 <=? gpt_alternate V lb then splice V1 ((gpt_alternate V lb - 32) * lb) (zeros (33 * lb)) else V1.

Definition disk_id (rand : nat -> Z) : list Z := map (fun i => u8 (rand (Z.to_nat i))) (seqZ 0 4).

Definition converted (rand : nat -> Z) (V : list Z) (lb : Z) (ps : list part_to_conv) : list Z :=
  splice (splice (nuked V lb) 0x1b8 (disk_id rand)) 446 (concat (map mbr_entry ps)).

Lemma length_disk_id rand : length (disk_id rand) = 4%nat.
Proof. done. Qed.

(** A partition the conversion can make. *)
Record part_sound (p : part_to_conv) : Prop := {
  po_start : 0 <= lba_start p < 2 ^ 32;
  po_count : 0 <= lba_end p - lba_start p + 1 < 2 ^ 32;
  po_chs_start : chs_start p = lba2chs (lba_start p);
  po_chs_end : chs_end p = lba2chs (lba_end p);
  po_type : part_type p = 0xef \/ part_type p = 0x07 \/ part_type p = 0xaf;
}.

Lemma le_value_range bs : is_bytes bs -> 0 <= le_value bs.
Proof. induction 1; cbn [le_value]; lia. Qed.

Lemma gpt2mbr_type_range t1 t2 :
  gpt2mbr_type t1 t2 <> -1 -> gpt2mbr_type t1 t2 = 0xef \/ gpt2mbr_type t1 t2 = 0x07 \/ gpt2mbr_type t1 t2 = 0xaf.
Proof.
  unfold gpt2mbr_type, gpt2mbr_type_conv_table. cbn [type_search].
  destruct (_ && _); [auto|]. destruct (_ && _); [auto|]. destruct (_ && _); [auto|congruence].
Qed.

Lemma mbr_part_sound V pos p : is_bytes V -> mbr_part V pos = Some p -> part_sound p.
Proof.
  intros HV E. unfold mbr_part in E. destruct (_ && _) eqn:Ec; [|done]. injection E as <-.
  rewrite !andb_true_iff, !Z.ltb_lt, negb_true_iff, Z.eqb_neq in Ec. destruct Ec as [[[H1 H2] H3] H4].
  assert (0 <= first_lba V pos) by (apply le_value_range, slice_bytes, HV).
  assert (0 <= last_lba V pos) by (apply le_value_range, slice_bytes, HV).
  split; cbn [lba_start lba_end chs_start chs_end part_type]; [lia| |done|done|by apply gpt2mbr_type_range].
  unfold u64 in H3. destruct (decide (0 <= last_lba V pos - first_lba V pos + 1)).
  - rewrite Z.mod_small in H3; lia.
  - exfalso. rewrite <-(Z_mod_plus_full _ 1), Z.mod_small in H3; lia.
Qed.

Lemma length_mbr_entry p : part_sound p -> length (mbr_entry p) = 16%nat.
Proof.
  intros [_ _ Es Ee _]. unfold mbr_entry. rewrite Es, Ee. cbn [length].
  rewrite !length_app. cbn [length]. by rewrite !length_app, !length_lba2chs, !length_le_bytes.
Qed.

(** Which bytes are zeroed. *)
Definition wiped (V : list Z) (lb : Z) (i : nat) : Prop :=
  Z.of_nat i < 34 * lb \/
  32 <= gpt_alternate V lb /\ (gpt_alternate V lb - 32) * lb <= Z.of_nat i < (gpt_alternate V lb + 1) * lb.

#[global] Instance wiped_dec V lb i : Decision (wiped V lb i).
Proof. unfold wiped. apply _. Defined.

Lemma length_zeros n : 0 <= n -> Z.of_nat (length (zeros n)) = n.
Proof. intros. unfold zeros. rewrite repeat_length. lia. Qed.

Lemma zeros_add n m : 0 <= n -> 0 <= m -> zeros n ++ zeros m = zeros (n + m).
Proof. intros. unfold zeros. rewrite <-repeat_app. f_equal. lia. Qed.

Lemma zeros_lookup n i : (i < Z.to_nat n)%nat -> zeros n !! i = Some 0.
Proof.
  unfold zeros. generalize (Z.to_nat n). intros m. revert i.
  induction m as [|m IH]; intros [|i] Hi; cbn [repeat]; [lia|lia|done|]. apply IH. lia.
Qed.

Lemma nuked_lookup V lb i :
  0 < lb -> 34 * lb <= Z.of_nat (length V) ->
  (32 <= gpt_alternate V lb -> (gpt_alternate V lb + 1) * lb <= Z.of_nat (length V)) ->
  nuked V lb !! i = if decide (wiped V lb i) then Some 0 else V !! i.
Proof.
  intros Hlb H1 H2. unfold nuked.
  assert (E1 : splice V 0 (zeros (34 * lb)) !! i = if decide (Z.of_nat i < 34 * lb) then Some 0 else V !! i).
  { rewrite splice_lookup by (rewrite ?length_zeros by lia; lia). rewrite length_zeros by lia.
    destruct (decide (Z.of_nat i < 34 * lb)); [|by rewrite decide_False by lia]. rewrite decide_True by lia.
    apply zeros_lookup. lia. }
  destruct (Z.leb_spec 32 (gpt_alternate V lb)) as [H32|H32].
  - specialize (H2 H32). rewrite splice_lookup by (rewrite ?length_splice, ?length_zeros by lia; nia). rewrite length_zeros, E1 by lia.
    replace ((gpt_alternate V lb - 32) * lb + 33 * lb) with ((gpt_alternate V lb + 1) * lb) by lia.
    destruct (decide ((gpt_alternate V lb - 32) * lb <= Z.of_nat i < (gpt_alternate V lb + 1) * lb)) as [Hi|Hi].
    + rewrite decide_True by (right; done). apply zeros_lookup. nia.
    + apply decide_ext. unfold wiped. tauto.
  - rewrite E1. apply decide_ext. unfold wiped. lia.
Qed.

Lemma length_entries ps : Forall part_sound ps -> Z.of_nat (length (concat (map mbr_entry ps))) = 16 * Z.of_nat (length ps).
Proof.
  induction 1 as [|p ps Hp _ IH]; cbn [map concat length]; [done|]. rewrite length_app, length_mbr_entry by done. lia.
Qed.

Lemma length_nuked V lb : length (nuked V lb) = length V.
Proof. unfold nuked. destruct (_ <=? _); by rewrite ?length_splice. Qed.

(** The converted disk is a disk. *)
Lemma splice_bytes V pos bs : is_bytes V -> is_bytes bs -> is_bytes (splice V pos bs).
Proof.
  unfold is_bytes. rewrite !Forall_lookup. intros HV Hb i x Hx. unfold splice in Hx.
  apply list_lookup_inserts_Some in Hx as [[_ Hx]|(_ & _ & Hx)]; eauto.
Qed.

Lemma zeros_bytes n : is_bytes (zeros n).
Proof. unfold zeros, is_bytes. apply List.Forall_forall. intros x Hx%List.repeat_spec. subst x. lia. Qed.

Lemma u8_byte x : 0 <= u8 x < 2 ^ 8.
Proof. apply u8_bound. Qed.

Lemma lba2chs_bytes x : is_bytes (lba2chs x).
Proof.
  unfold lba2chs. destruct (_ <? _); [|destruct (_ <=? _)].
  - repeat (apply Forall_cons_2; [lia|]). apply Forall_nil_2.
  - repeat (apply Forall_cons_2; [lia|]). apply Forall_nil_2.
  - repeat (apply Forall_cons_2; [apply u8_byte|]). apply Forall_nil_2.
Qed.

Lemma mbr_entry_bytes p : part_sound p -> is_bytes (mbr_entry p).
Proof.
  intros [_ _ Es Ee Ht]. unfold mbr_entry, is_bytes. rewrite Es, Ee. apply Forall_cons_2; [lia|].
  apply Forall_app_2; [apply lba2chs_bytes|]. apply Forall_cons_2; [lia|].
  repeat apply Forall_app_2; [apply lba2chs_bytes|apply le_bytes_range..].
Qed.

Lemma converted_bytes rand V lb ps : is_bytes V -> Forall part_sound ps -> is_bytes (converted rand V lb ps).
Proof.
  intros HV Hps. unfold converted. apply splice_bytes; [apply splice_bytes|].
  - unfold nuked. destruct (_ <=? _); repeat apply splice_bytes; try apply zeros_bytes; exact HV.
  - unfold disk_id. repeat (apply Forall_cons_2; [apply u8_byte|]). apply Forall_nil_2.
  - induction Hps as [|p ps Hp _ IH]; [apply Forall_nil_2|]. apply Forall_app_2; [by apply mbr_entry_bytes|exact IH].
Qed.

Lemma length_converted rand V lb ps : length (converted rand V lb ps) = length V.
Proof. unfold converted. by rewrite !length_splice, length_nuked. Qed.

Lemma length_with_active V : length (with_active V) = length V.
Proof. unfold with_active. destruct (existsb _ _); [done|apply length_splice]. Qed.

(** The five fields of an entry, written one after the other. *)
Lemma splice_entry V base (t : Z) (cs ce s c : list Z) :
  0 <= base -> base + 16 <= Z.of_nat (length V) -> length cs = 3%nat -> length ce = 3%nat ->
  length s = 4%nat -> length c = 4%nat -> V !! Z.to_nat base = Some 0 ->
  splice (splice (splice (splice (splice V (base + 4) [t]) (base + 8) s) (base + 12) c) (base + 1) cs) (base + 5) ce =
  splice V base (0 :: cs ++ t :: ce ++ s ++ c).
Proof.
  intros Hb Hl Lcs Lce Ls Lc H0. apply list_eq. intros i.
  assert (Le : length (0 :: cs ++ t :: ce ++ s ++ c) = 16%nat).
  { cbn [length]. rewrite length_app. cbn [length]. rewrite !length_app. lia. }
  rewrite !splice_lookup by (rewrite ?length_splice, ?Lcs, ?Lce, ?Ls, ?Lc, ?Le; cbn [length]; lia).
  rewrite Lcs, Lce, Ls, Lc, Le. cbn [length].
  destruct (decide (base <= Z.of_nat i < base + Z.of_nat 16)) as [Hi|Hi]; [|by rewrite !decide_False by lia].
  rewrite !(Z2Nat.inj_add base) by lia. remember (Z.to_nat base) as B eqn:EB. assert (EZ : base = Z.of_nat B) by lia.
  assert (Hd : forall a b, (B + a - (B + b) = a - b)%nat) by lia.
  assert (Hd0 : forall a, (B + a - B = a)%nat) by lia.
  assert (Ei : exists j, i = (B + j)%nat /\ (j < 16)%nat) by (exists (i - B)%nat; lia). destruct Ei as (j & -> & Hj).
  destruct cs as [|? [|? [|? []]]]; try discriminate Lcs. destruct ce as [|? [|? [|? []]]]; try discriminate Lce.
  destruct s as [|? [|? [|? [|? []]]]]; try discriminate Ls. destruct c as [|? [|? [|? [|? []]]]]; try discriminate Lc.
  rewrite !Hd, !Hd0. cbn [app]. clear Le Lcs Lce Ls Lc EB.
  do 16 (destruct j as [|j]; [repeat first [rewrite decide_False by lia | rewrite decide_True by lia];
    first [reflexivity | by rewrite Nat.add_0_r, H0]|]). lia.
Qed.

Lemma mbr_parts_ok V lb i n ps :
  is_bytes V -> mbr_parts_from V lb i n [] = Some ps -> (length ps <= 4)%nat /\ Forall part_sound ps.
Proof.
  intros HV E. unfold mbr_parts_from in E. destruct (mapM _ _) as [ps'|] eqn:Em; [|done]. cbn [mbind option_bind app] in E.
  destruct (Nat.leb_spec (length (@nil part_to_conv) + length ps') 4) as [Hl|]; [|done]. cbn [andb] in E.
  destruct (_ || _); [|done]. injection E as <-. cbn [length Nat.add] in Hl. split; [done|].
  apply mapM_Some_1 in Em. apply Forall_lookup. intros k p Hp.
  destruct (Forall2_lookup_r _ _ _ _ _ Em Hp) as (j & _ & Ej). by eapply mbr_part_sound.
Qed.

Lemma mbr_conversion_ok V lb ps :
  is_bytes V -> mbr_conversion V lb = Some ps -> (length ps <= 4)%nat /\ Forall part_sound ps.
Proof. intros HV E. unfold mbr_conversion in E. destruct (_ && _); [|done]. by eapply mbr_parts_ok. Qed.

Section Gpt.
Context (fault : nat -> option nat) (LONG_MAX : Z) (Hlong : 0 < LONG_MAX).
Context (be : bool) (img : list Z) (rand : nat -> Z).
Context (orig : list Z).

#[local] Abbreviation yields := (yields orig).

Lemma probe_gpt_yields gs V :
  is_bytes V -> Forall (fun lb => 0 <= lb < 2 ^ 62) gs ->
  yields (probe_gpt fault LONG_MAX be gs) V (fun r d => view d = V /\
    match r with
    | None => List.find (has_gpt V) gs = None
    | Some (h, lb) => List.find (has_gpt V) gs = Some lb /\ header_at be V lb h
    end).
Proof using Hlong.
  intros HV. induction 1 as [|lb gs Hlb Hgs IH]; cbn [probe_gpt List.find]; [by apply yields_ret|].
  apply yields_rd; [exact Hlong|lia|unfold sizeof_gpt_table_header; lia|]. intros Hn. unfold sizeof_gpt_table_header in *.
  pose proof (header_load be V HV lb ltac:(lia) Hn) as Hh. unfold has_gpt at 1 3. rewrite (ha_sig _ _ _ _ Hh).
  destruct (bool_decide _); [|exact IH]. by apply yields_ret.
Qed.

Lemma check_secondary_yields V lb h :
  is_bytes V -> 0 < lb < 2 ^ 62 -> header_at be V lb h ->
  yields (check_secondary fault LONG_MAX be h lb) V (fun _ d => view d = V /\
    128 <= gpt_entry_size V lb /\ lb * gpt_alternate V lb < 2 ^ 64).
Proof using Hlong.
  intros HV Hlb [_ [Ea Ba] _ _ [Es _]]. unfold check_secondary, sizeof_gpt_entry. rewrite Es, Ea.
  destruct (Z.ltb_spec (gpt_entry_size V lb) 128); [apply yields_cleanup|].
  rewrite mul_u64_overflow_spec by lia. destruct (Z.leb_spec (2 ^ 64) (lb * gpt_alternate V lb)); [apply yields_cleanup|].
  apply yields_rd; [exact Hlong|apply u64_bound|unfold sizeof_gpt_table_header; lia|]. intros _.
  destruct (bool_decide _); [|apply yields_cleanup]. by apply yields_ret.
Qed.

(** *** The partition of stage 2 *)

Section Table.
Context (V : list Z) (HV : is_bytes V) (lb : Z) (Hlb : 0 < lb < 2 ^ 62).
Context (h : gpt_table_header) (Hh : header_at be V lb h) (Hbase : gpt_base V lb < 2 ^ 64).

Lemma base_spec : mul_u64_overflow (swap8 be (partition_entry_lba h)) lb = (2 ^ 64 <=? gpt_base V lb, u64 (gpt_base V lb)).
Proof using Hlb Hh. destruct (ha_lba _ _ _ _ Hh) as [E B]. rewrite E. apply mul_u64_overflow_spec; lia. Qed.

Lemma base_nonneg : 0 <= gpt_base V lb.
Proof using Hlb Hh. destruct (ha_lba _ _ _ _ Hh) as [E B]. unfold gpt_base. nia. Qed.

Lemma entry_offset_spec i :
  0 <= i < 2 ^ 32 ->
  entry_offset be h (gpt_base V lb) i = (2 ^ 64 <=? entry_pos V lb i, u64 (entry_pos V lb i)) /\ 0 <= entry_pos V lb i.
Proof using Hlb Hh Hbase.
  intros Hi. pose proof base_nonneg. destruct (ha_size _ _ _ _ Hh) as [E B].
  unfold entry_offset, entry_pos. rewrite E.
  assert (Hm : 0 <= i * gpt_entry_size V lb < 2 ^ 64) by nia.
  rewrite u64_id by lia. split; [apply add_u64_overflow_spec; lia|lia].
Qed.

Lemma read_entry_yields {A} i (skip : io A) (k : gpt_entry -> io A) R :
  0 <= i < 2 ^ 32 -> (2 ^ 64 <= entry_pos V lb i -> yields skip V R) ->
  (forall e, entry_at be V (entry_pos V lb i) e -> entry_pos V lb i < 2 ^ 64 -> yields (k e) V R) ->
  yields (let '(overflow, off) := entry_offset be h (gpt_base V lb) i in
          if overflow then skip else
          let? bs := rd fault LONG_MAX off sizeof_gpt_entry in k (load_gpt_entry be bs)) V R.
Proof using HV Hlong Hlb Hh Hbase.
  intros Hi Hs Hk. destruct (entry_offset_spec i Hi) as [-> Hp].
  destruct (Z.leb_spec (2 ^ 64) (entry_pos V lb i)); [auto|]. rewrite u64_id by lia.
  apply yields_rd; [exact Hlong|lia|unfold sizeof_gpt_entry; lia|]. unfold sizeof_gpt_entry. intros Hn.
  apply Hk; [by apply entry_load|done].
Qed.

Lemma find_bios_boot_yields n : forall i,
  0 <= i -> i + Z.of_nat n <= gpt_count V lb -> gpt_count V lb < 2 ^ 32 ->
  yields (find_bios_boot fault LONG_MAX be h (gpt_base V lb) n i) V (fun e d => view d = V /\
    exists j, i <= j < gpt_count V lb /\ is_bios_boot V (entry_pos V lb j) = true /\ entry_at be V (entry_pos V lb j) e /\
      forall k, i <= k < j -> is_bios_boot V (entry_pos V lb k) = false).
Proof using HV Hlong Hlb Hh Hbase.
  induction n as [|n IH]; intros i Hi Hn Hc; cbn [find_bios_boot]; [apply yields_cleanup|].
  pose (cont e := if bool_decide (type_bytes be e = bios_boot_type) then iret e
    else find_bios_boot fault LONG_MAX be h (gpt_base V lb) n (i + 1)).
  apply (read_entry_yields i cleanup cont); [lia|intros _; apply yields_cleanup|]. unfold cont.
  intros e He Hp. rewrite (ea_bytes _ _ _ _ He). change (bool_decide _) with (is_bios_boot V (entry_pos V lb i)).
  destruct (is_bios_boot V (entry_pos V lb i)) eqn:Eb.
  - apply yields_ret. intros d Hd. split; [done|]. exists i. split; [lia|].
    do 2 (split; [done|]). intros j Hj. exfalso. lia.
  - eapply yields_weaken; [apply IH; lia|]. intros e' d (Hd & j & Hj & Hbj & Hej & Hk). split; [done|].
    exists j. split; [lia|]. do 2 (split; [done|]). intros k Hk'. destruct (decide (k = i)) as [->|]; [done|]. apply Hk. lia.
Qed.

Lemma chosen_partition_yields n :
  gpt_count V lb < 2 ^ 32 ->
  yields (chosen_partition fault LONG_MAX be false h (gpt_base V lb) (Some n)) V (fun e d => view d = V /\
    let j := u32 (n - 1) in
    j < gpt_count V lb /\ is_bios_boot V (entry_pos V lb j) = true /\ entry_at be V (entry_pos V lb j) e /\
    used V (entry_pos V lb j) = true).
Proof using HV Hlong Hlb Hh Hbase.
  intros Hc. cbn [chosen_partition]. cbv zeta. destruct (ha_count _ _ _ _ Hh) as [-> _].
  pose proof (u32_bound (n - 1)). set (j := u32 (n - 1)) in *. clearbody j.
  destruct (Z.leb_spec (gpt_count V lb) j); [apply yields_cleanup|].
  pose (cont e := if entry_unused e then cleanup
    else if negb false && negb (bool_decide (bios_boot_type = type_bytes be e)) then cleanup else iret e).
  apply (read_entry_yields j cleanup cont); [lia|intros _; apply yields_cleanup|]. unfold cont.
  intros e He _. rewrite (ea_unused _ _ _ _ He). destruct (used V (entry_pos V lb j)) eqn:Eu; [|apply yields_cleanup].
  cbn [negb andb]. rewrite (ea_bytes _ _ _ _ He).
  unfold is_bios_boot. destruct (bool_decide_reflect (bios_boot_type = slice V (entry_pos V lb j) 16)) as [E|]; [|apply yields_cleanup].
  apply yields_ret. intros d Hd. split; [done|]. split; [done|]. split; [|done]. by rewrite bool_decide_eq_true.
Qed.

Lemma gpt_stage2_loc_yields ndx :
  yields (gpt_stage2_loc fault LONG_MAX be false h lb ndx) V (fun loc d => view d = V /\
    exists j, stage2_entry V lb ndx j /\
      let pos := entry_pos V lb j in
      first_lba V pos <= last_lba V pos /\ 32768 <= part_bytes V lb pos /\
      loc = first_lba V pos * lb /\ 0 <= loc < 2 ^ 64).
Proof using HV Hlong Hlb Hh Hbase.
  unfold gpt_stage2_loc. pose proof base_nonneg. rewrite base_spec, u64_id by lia.
  rewrite (proj2 (Z.leb_gt _ _)) by lia. destruct (ha_count _ _ _ _ Hh) as [Ec Bc]. rewrite Ec.
  eapply (yields_bind _ _ _ _ (fun e d => view d = V /\ exists j, stage2_entry V lb ndx j /\ entry_at be V (entry_pos V lb j) e)).
  { destruct ndx as [[n|]|]; [| |].
    - eapply yields_weaken; [apply chosen_partition_yields; lia|]. intros e d (Hd & Hj & Hb & He & Hu). split; [done|].
      pose proof (u32_bound (n - 1)). exists (u32 (n - 1)). split; [|done]. split; [lia|]. split; [done|]. split; [by exists n|done].
    - apply yields_cleanup.
    - eapply yields_weaken; [apply find_bios_boot_yields; lia|]. intros e d (Hd & j & Hj & Hb & He & Hk). split; [done|].
      by exists j. }
  intros e d (Hd & j & Hj & He). rewrite Hd. destruct (ea_first _ _ _ _ He) as [-> B1], (ea_last _ _ _ _ He) as [-> B2].
  remember (first_lba V (entry_pos V lb j)) as first eqn:Ef. remember (last_lba V (entry_pos V lb j)) as last eqn:El.
  destruct (Z.ltb_spec last first); [apply yields_cleanup|].
  pose proof (u64_bound (last - first + 1)). rewrite mul_u64_overflow_spec by lia.
  destruct (Z.leb_spec (2 ^ 64) (u64 (last - first + 1) * lb)); [apply yields_cleanup|].
  destruct (Z.ltb_spec (u64 (u64 (last - first + 1) * lb)) 32768) as [|Hs]; [apply yields_cleanup|].
  rewrite (u64_id (_ * _)) in Hs by nia.
  assert (E : u64 (last - first + 1) = last - first + 1).
  { destruct (decide (last - first + 1 = 2 ^ 64)) as [E'|]; [|apply u64_id; lia]. rewrite E' in Hs.
    change (u64 (2 ^ 64)) with 0 in Hs. lia. }
  rewrite E in Hs. rewrite mul_u64_overflow_spec by lia.
  destruct (Z.leb_spec (2 ^ 64) (first * lb)); [apply yields_cleanup|]. rewrite u64_id by nia.
  eapply yields_bind; [apply validate_yields, Hlong|]. intros v d1 Hd1. rewrite Hd1.
  destruct v; [|apply yields_cleanup]. apply yields_ret. intros d2 Hd2. split; [done|]. exists j. split; [exact Hj|].
  unfold part_bytes. cbv zeta. rewrite <-Ef, <-El. split; [lia|]. split; [lia|]. split; [reflexivity|]. nia.
Qed.

(** *** The partitions to convert *)

Lemma convert_entry_spec pos e : entry_at be V pos e -> convert_entry be e = mbr_part V pos.
Proof using.
  intros He. unfold convert_entry, mbr_part. rewrite (ea_type1 _ _ _ _ He), (ea_type2 _ _ _ _ He).
  destruct (ea_first _ _ _ _ He) as [-> _], (ea_last _ _ _ _ He) as [-> _].
  assert (E : forall x, (x <? 2 ^ 32) = negb (2 ^ 32 - 1 <? x)).
  { intros x. apply eq_true_iff_eq. rewrite negb_true_iff, Z.ltb_lt, Z.ltb_ge. lia. }
  rewrite !E. destruct (2 ^ 32 - 1 <? first_lba V pos); [done|]. destruct (2 ^ 32 - 1 <? last_lba V pos); [done|].
  destruct (2 ^ 32 - 1 <? u64 _); [done|]. cbn [negb andb].
  unfold gpt2mbr_type, gpt2mbr_type_conv_table. cbn [type_search].
  destruct (_ && _); [done|]. destruct (_ && _); [done|]. by destruct (_ && _).
Qed.

Lemma mbr_parts_overflow i n parts :
  (0 < n)%nat -> 2 ^ 64 <= entry_pos V lb i -> mbr_parts_from V lb i n parts = None.
Proof using Hlb Hh.
  intros Hn Hp. destruct (ha_size _ _ _ _ Hh) as [_ B].
  assert (2 ^ 64 <= entry_pos V lb (i + Z.of_nat n - 1)) by (unfold entry_pos in *; nia).
  unfold mbr_parts_from. destruct (mapM _ _); [|done]. cbn.
  rewrite (proj2 (Nat.eqb_neq n 0)), (proj2 (Z.ltb_ge _ _)), andb_false_r by lia. done.
Qed.

Lemma mbr_parts_step i n parts :
  entry_pos V lb i < 2 ^ 64 -> (length parts <= 4)%nat ->
  mbr_parts_from V lb i (S n) parts =
    if used V (entry_pos V lb i) then
      if (length parts =? 4)%nat then None
      else match mbr_part V (entry_pos V lb i) with
           | Some p => mbr_parts_from V lb (i + 1) n (parts ++ [p])
           | None => None
           end
    else mbr_parts_from V lb (i + 1) n parts.
Proof using.
  intros Hp Hl. unfold mbr_parts_from, used_from. rewrite Nat2Z.inj_succ, seqZ_cons, Z.pred_succ by lia.
  cbn [List.filter]. replace (i + Z.succ (Z.of_nat n) - 1) with (i + 1 + Z.of_nat n - 1) by lia.
  assert (Ec : (n =? 0)%nat || (entry_pos V lb (i + 1 + Z.of_nat n - 1) <? 2 ^ 64) =
    (S n =? 0)%nat || (entry_pos V lb (i + 1 + Z.of_nat n - 1) <? 2 ^ 64)).
  { destruct n; [|done]. cbn [Nat.eqb orb]. symmetry. apply Z.ltb_lt. replace (i + 1 + Z.of_nat 0 - 1) with i by lia. done. }
  rewrite <-Ec. replace (Z.succ i) with (i + 1) by lia.
  destruct (used V (entry_pos V lb i)); [|done]. cbn [mapM].
  destruct (mbr_part V (entry_pos V lb i)) as [q|]; [|by destruct (_ =? 4)%nat]. cbn [mbind option_bind].
  destruct (mapM _ _) as [ps|]; [|by destruct (_ =? 4)%nat]. cbn [mbind option_bind mret option_ret].
  cbn [length]. rewrite length_app. cbn [length]. rewrite <-app_assoc. cbn [app].
  replace (length parts + S (length ps))%nat with (length parts + 1 + length ps)%nat by lia.
  destruct (Nat.eqb_spec (length parts) 4) as [E|]; [|done]. rewrite (proj2 (Nat.leb_gt _ _)) by lia. done.
Qed.

Lemma gather_parts_yields n : forall i parts,
  0 <= i -> i + Z.of_nat n <= gpt_count V lb -> gpt_count V lb < 2 ^ 32 -> (length parts <= 4)%nat ->
  yields (gather_parts fault LONG_MAX be h (gpt_base V lb) n i parts) V
    (fun r d => view d = V /\ r = mbr_parts_from V lb i n parts).
Proof using HV Hlong Hlb Hh Hbase.
  induction n as [|n IH]; intros i parts Hi Hn Hc Hl; cbn [gather_parts].
  { apply yields_ret. intros d Hd. split; [done|]. unfold mbr_parts_from, used_from.
    change (seqZ i (Z.of_nat 0)) with (@nil Z). cbn [List.filter mapM mbind option_bind mret option_ret length Nat.eqb orb].
    rewrite (proj2 (Nat.leb_le _ _)) by lia. by rewrite app_nil_r. }
  pose (cont e := if entry_unused e then gather_parts fault LONG_MAX be h (gpt_base V lb) n (i + 1) parts
    else if (length parts =? 4)%nat then iret None
    else match convert_entry be e with
         | None => iret None
         | Some p => gather_parts fault LONG_MAX be h (gpt_base V lb) n (i + 1) (parts ++ [p])
         end).
  apply (read_entry_yields i (iret None) cont); [lia| |].
  { intros Ho. apply yields_ret. intros d Hd. split; [done|]. symmetry. apply mbr_parts_overflow; lia. }
  intros e He Hp. unfold cont. rewrite (ea_unused _ _ _ _ He), (convert_entry_spec _ e He), mbr_parts_step by done.
  destruct (used V (entry_pos V lb i)); cbn [negb]; [|by apply IH; lia].
  destruct (Nat.eqb_spec (length parts) 4); [by apply yields_ret|].
  destruct (mbr_part _ _) as [p|]; [|by apply yields_ret]. apply IH; rewrite ?length_app; cbn; lia.
Qed.
End Table.

(** *** The writes of the conversion *)

Lemma yields_wr1 buf loc V :
  0 <= loc < 2 ^ 64 -> (0 < length buf)%nat -> Z.of_nat (length buf) < 2 ^ 63 ->
  yields (wr fault LONG_MAX buf loc) V (fun _ d =>
    view d = splice V loc buf /\ loc + Z.of_nat (length buf) <= Z.of_nat (length V)).
Proof using Hlong.
  intros Hl Hb Hc d a d' Hi Hv E.
  refine (yields_wr fault LONG_MAX Hlong orig buf loc iret V (fun _ d => view d = splice V loc buf /\
    loc + Z.of_nat (length buf) <= Z.of_nat (length V)) Hl Hb Hc _ d a d' Hi Hv _).
  - intros Hr. apply yields_ret. intros d1 Hd1. by split.
  - unfold ibind. by rewrite E.
Qed.

Lemma ifor_yields {A} (f : A -> io unit) (l : list A) (Inv : list A -> list Z -> Prop) V :
  Inv [] V ->
  (forall l1 x l2 V1, l = l1 ++ x :: l2 -> Inv l1 V1 -> yields (f x) V1 (fun _ d => Inv (l1 ++ [x]) (view d))) ->
  yields (ifor f l) V (fun _ d => Inv l (view d)).
Proof using.
  intros H0 Hstep. enough (H : forall l2 l1 V1, l = l1 ++ l2 -> Inv l1 V1 ->
    yields (ifor f l2) V1 (fun _ d => Inv l (view d))) by by apply (H l []).
  induction l2 as [|x l2 IH]; intros l1 V1 El H1; cbn [ifor].
  { rewrite app_nil_r in El. subst l1. apply yields_ret. intros d Hd. by rewrite Hd. }
  eapply yields_bind; [exact (Hstep l1 x l2 V1 El H1)|]. intros [] d Hd. apply (IH (l1 ++ [x])); [|done].
  by rewrite <-app_assoc.
Qed.

(** The loop over the numbers from 0 to [n - 1]. *)
Lemma seqZ_split n l1 x l2 : seqZ 0 n = l1 ++ x :: l2 -> x = Z.of_nat (length l1) /\ 0 <= x < n.
Proof using.
  intros E. assert (El : seqZ 0 n !! length l1 = Some x) by (rewrite E; by apply list_lookup_middle).
  apply lookup_seqZ in El. lia.
Qed.

Lemma ifor_seqZ_yields (f : Z -> io unit) n (Inv : Z -> list Z -> Prop) V :
  0 <= n -> Inv 0 V ->
  (forall i V1, 0 <= i < n -> Inv i V1 -> yields (f i) V1 (fun _ d => Inv (i + 1) (view d))) ->
  yields (ifor f (seqZ 0 n)) V (fun _ d => Inv n (view d)).
Proof using.
  intros Hn H0 Hstep. eapply yields_weaken.
  - apply (ifor_yields f (seqZ 0 n) (fun l => Inv (Z.of_nat (length l)))); [done|].
    intros l1 x l2 V1 E H1. destruct (seqZ_split n l1 x l2 E) as [-> Hx]. rewrite length_app. cbn [length].
    rewrite Nat2Z.inj_add. by apply Hstep.
  - cbn beta. intros _ d. rewrite length_seqZ. by rewrite Z2Nat.id by lia.
Qed.

(** Zeroing block after block. *)
Lemma zero_blocks_yields (f : Z -> io unit) start n lb V :
  0 <= start -> 0 <= n -> 0 < lb ->
  (forall i V1, 0 <= i < n -> length V1 = length V -> yields (f i) V1 (fun _ d =>
     view d = splice V1 (start + i * lb) (zeros lb) /\ start + (i + 1) * lb <= Z.of_nat (length V1))) ->
  yields (ifor f (seqZ 0 n)) V (fun _ d =>
    view d = splice V start (zeros (n * lb)) /\ (0 < n -> start + n * lb <= Z.of_nat (length V))).
Proof using.
  intros Hs Hn Hlb Hf. apply (ifor_seqZ_yields f n (fun i V1 => V1 = splice V start (zeros (i * lb)) /\
    (0 < i -> start + i * lb <= Z.of_nat (length V)))); [done|by split|].
  intros i V1 Hi [-> Hb]. eapply yields_weaken; [apply Hf; [done|apply length_splice]|].
  cbn beta. intros _ d [-> Hl]. rewrite length_splice in Hl. split; [|done].
  rewrite <-(length_zeros (i * lb)) at 2 by nia. rewrite splice_splice.
  - rewrite zeros_add by nia. do 2 f_equal. lia.
  - lia.
  - rewrite zeros_add, length_zeros by nia. lia.
Qed.

Lemma nuke_gpts_yields V lb h :
  0 < lb <= 4096 -> header_at be V lb h -> lb * gpt_alternate V lb < 2 ^ 64 ->
  yields (nuke_gpts fault LONG_MAX be h lb) V (fun _ d => view d = nuked V lb /\ 34 * lb <= Z.of_nat (length V) /\
    (32 <= gpt_alternate V lb -> (gpt_alternate V lb + 1) * lb <= Z.of_nat (length V))).
Proof using Hlong.
  intros Hlb Hh Ha. destruct (ha_alt _ _ _ _ Hh) as [Ea Ba]. unfold nuke_gpts. rewrite Ea. unfold nuked.
  set (alt := gpt_alternate V lb) in *. clearbody alt.
  assert (Hz : length (repeat 0 (Z.to_nat lb)) = Z.to_nat lb) by apply repeat_length.
  eapply yields_bind.
  { apply (zero_blocks_yields _ 0 34 lb V); [lia..|]. intros i V1 Hi _. rewrite u64_id by nia.
    eapply yields_weaken; [apply yields_wr1; rewrite ?Hz; nia|]. cbn beta. intros _ d [-> Hl]. rewrite Hz in Hl.
    split; [done|lia]. }
  cbn beta. intros [] d [-> Hl]. specialize (Hl eq_refl).
  destruct (Z.leb_spec 32 alt) as [H32|H32].
  - eapply yields_weaken.
    { apply (zero_blocks_yields _ ((alt - 32) * lb) 33 lb); [nia|lia..|]. intros i V1 Hi _.
      rewrite u64_id, mul_u64_overflow_spec by nia. rewrite (proj2 (Z.leb_gt _ _)) by nia. rewrite u64_id by nia.
      eapply yields_weaken; [apply yields_wr1; rewrite ?Hz; nia|]. cbn beta. intros _ d' [-> Hl']. rewrite Hz in Hl'.
      replace ((alt - 32) * lb + i * lb) with ((alt - 32 + i) * lb) by lia. split; [done|lia]. }
    cbn beta. intros [] d' [-> Hl']. rewrite length_splice in Hl'. split; [done|]. split; [lia|]. lia.
  - apply yields_ret. intros d' ->. split; [done|]. split; [lia|]. lia.
Qed.

Lemma write_disk_id_yields V :
  yields (write_disk_id fault LONG_MAX rand) V (fun _ d =>
    view d = splice V 0x1b8 (disk_id rand) /\ 0x1b8 + 4 <= Z.of_nat (length V)).
Proof using Hlong.
  eapply yields_weaken.
  - apply (ifor_seqZ_yields _ 4 (fun n V1 => V1 = splice V 0x1b8 (map (fun i => u8 (rand (Z.to_nat i))) (seqZ 0 n)) /\
      (0 < n -> 0x1b8 + n <= Z.of_nat (length V)))); [lia|by split|].
    intros i V1 Hi [-> Hb]. eapply yields_weaken; [apply yields_wr1; cbn; lia|]. cbn beta.
    intros _ d [-> Hl]. rewrite length_splice in Hl. cbn [length] in Hl. split; [|lia].
    assert (Hn : Z.of_nat (length (map (fun i => u8 (rand (Z.to_nat i))) (seqZ 0 i))) = i)
      by (rewrite length_map, length_seqZ; lia).
    rewrite <-Hn at 2. rewrite splice_splice.
    + rewrite seqZ_app by lia. rewrite map_app. by rewrite Z.add_0_l.
    + lia.
    + rewrite length_app. cbn [length]. lia.
  - cbn beta. intros _ d [-> Hl]. split; [done|]. lia.
Qed.

Lemma write_part_yields V p k :
  0 <= k < 4 -> part_sound p -> V !! Z.to_nat (446 + k * 16) = Some 0 ->
  yields (write_part fault LONG_MAX be (k, p)) V (fun _ d =>
    view d = splice V (446 + k * 16) (mbr_entry p) /\ 446 + k * 16 + 16 <= Z.of_nat (length V)).
Proof using Hlong.
  intros Hk Hp H0. pose proof (length_mbr_entry p Hp) as Le. destruct Hp as [Hs Hc Es Ee Ht].
  assert (Ls : length (chs_start p) = 3%nat) by (rewrite Es; apply length_lba2chs).
  assert (Ll : length (chs_end p) = 3%nat) by (rewrite Ee; apply length_lba2chs).
  unfold write_part. set (base := 446 + k * 16) in *.
  assert (Hbase : 446 <= base < 510) by (unfold base; lia). clearbody base.
  rewrite !u64_id by lia. unfold swap4. rewrite !u32_id by lia. rewrite !ENDSWAP_store by (tauto || lia).
  apply yields_wr; [exact Hlong|lia|cbn; lia|cbn; lia|]. intros _.
  apply yields_wr; [exact Hlong|lia|rewrite length_le_bytes; lia..|]. intros _.
  apply yields_wr; [exact Hlong|lia|rewrite length_le_bytes; lia..|]. rewrite !length_splice, length_le_bytes. intros Hl.
  apply yields_wr; [exact Hlong|lia|rewrite Ls; lia..|]. intros _.
  eapply yields_weaken; [apply yields_wr1; [lia|rewrite Ll; lia..]|]. cbn beta. intros _ d [-> _]. split; [|lia].
  apply splice_entry; rewrite ?length_le_bytes; [lia|lia|done..].
Qed.

Lemma write_parts_yields V ps :
  (length ps <= 4)%nat -> Forall part_sound ps -> 512 <= Z.of_nat (length V) ->
  (forall i, 446 <= Z.of_nat i < 510 -> V !! i = Some 0) ->
  yields (ifor (write_part fault LONG_MAX be) (zip (seqZ 0 (Z.of_nat (length ps))) ps)) V (fun _ d =>
    view d = splice V 446 (concat (map mbr_entry ps))).
Proof using Hlong.
  intros Hn Hps Hl Hz.
  set (l := zip _ _). assert (El : l.*2 = ps).
  { unfold l. rewrite snd_zip; [done|]. rewrite length_seqZ. lia. }
  eapply yields_weaken; [apply (ifor_yields _ l (fun l V1 => V1 = splice V 446 (concat (map mbr_entry (l.*2)))))|];
    [done| |cbn beta; intros _ d; by rewrite El].
  intros l1 [k p] l2 V1 E ->.
  assert (Hlk : l !! length l1 = Some (k, p)) by (rewrite E; by apply list_lookup_middle).
  unfold l in Hlk. apply lookup_zip_Some in Hlk as [Hk Hp]. apply lookup_seqZ in Hk as [-> Hk]. rewrite Z.add_0_l.
  assert (Hps1 : Forall part_sound (l1.*2)).
  { rewrite <-El, E, fmap_app in Hps. by apply Forall_app in Hps as [? _]. }
  assert (Hpp : part_sound p) by (rewrite Forall_lookup in Hps; exact (Hps _ _ Hp)).
  pose proof (length_entries _ Hps1) as L1. rewrite length_fmap in L1.
  eapply yields_weaken; [apply write_part_yields; [lia|exact Hpp|]|].
  - rewrite splice_lookup by lia. rewrite decide_False by lia. apply Hz. lia.
  - cbn beta. intros _ d [-> _]. replace (446 + Z.of_nat (length l1) * 16) with (446 + Z.of_nat (length (concat (map mbr_entry l1.*2)))) by lia.
    rewrite splice_splice.
    + rewrite fmap_app, map_app, concat_app. cbn. by rewrite app_nil_r.
    + lia.
    + rewrite length_app, length_mbr_entry by exact Hpp. lia.
Qed.

Lemma convert_isohybrid_yields V lb h :
  is_bytes V -> 512 <= lb <= 4096 -> header_at be V lb h -> lb * gpt_alternate V lb < 2 ^ 64 ->
  yields (convert_isohybrid fault LONG_MAX be rand h lb) V (fun b d =>
    match mbr_conversion V lb with
    | Some ps => b = true /\ view d = converted rand V lb ps /\ 34 * lb <= Z.of_nat (length V) /\
        (32 <= gpt_alternate V lb -> (gpt_alternate V lb + 1) * lb <= Z.of_nat (length V))
    | None => b = false /\ view d = V
    end).
Proof using Hlong.
  intros HV Hlb Hh Ha. unfold convert_isohybrid, mbr_conversion.
  apply yields_rd; [exact Hlong|lia..|]. intros _. change (bool_decide _) with (is_iso V).
  destruct (is_iso V); cbn [negb andb]; [|by apply yields_ret].
  pose proof (base_nonneg V lb ltac:(lia) h Hh). rewrite (base_spec V lb) by (done || lia).
  rewrite Z.ltb_antisym. destruct (Z.leb_spec (2 ^ 64) (gpt_base V lb)); cbn [negb]; [by apply yields_ret|].
  rewrite u64_id by lia. destruct (ha_count _ _ _ _ Hh) as [-> Bc].
  eapply yields_bind; [apply (gather_parts_yields V HV lb); [lia|done|done|lia|lia|lia|cbn; lia]|].
  cbn beta. intros r d [Hd Er]. rewrite Hd, <-Er. destruct r as [ps|]; [|by apply yields_ret].
  destruct (mbr_parts_ok V lb 0 _ ps HV (eq_sym Er)) as [Hn Hps].
  eapply yields_bind; [apply (nuke_gpts_yields V); [lia|done|done]|]. cbn beta. intros [] d1 (-> & H34 & Halt).
  eapply yields_bind; [apply write_disk_id_yields|]. cbn beta. intros [] d2 [-> _].
  eapply yields_bind.
  { apply write_parts_yields; [done|done|rewrite length_splice, length_nuked; lia|]. intros i Hi.
    rewrite splice_lookup by (rewrite ?length_nuked, ?length_disk_id; lia). rewrite decide_False by (rewrite length_disk_id; lia).
    rewrite nuked_lookup by (done || lia). apply decide_True. left. lia. }
  cbn beta. intros [] d3 Hd3. rewrite Hd3. apply yields_ret. intros d4 Hd4. done.
Qed.

(** *** The installation *)

(** Which partition stage 2 goes to, when the table is kept. *)
Definition stage2_in (V : list Z) (lb : Z) (ndx : option (option Z)) (j loc : Z) : Prop :=
  let pos := entry_pos V lb j in
  stage2_entry V lb ndx j /\ first_lba V pos <= last_lba V pos /\ 32768 <= part_bytes V lb pos /\
  loc = first_lba V pos * lb /\ 0 <= loc < 2 ^ 64.

Lemma gpt_block_range V lb : gpt_block V = Some lb -> lb = 512 \/ lb = 4096.
Proof using.
  unfold gpt_block. cbn [List.find]. destruct (has_gpt V 512); [intros [= <-]; auto|].
  destruct (has_gpt V 4096); [intros [= <-]; auto|done].
Qed.

Lemma install_gpt_yields V lb allowed ndx :
  512 < Z.of_nat (length img) < 2 ^ 63 -> is_bytes V -> gpt_block V = Some lb ->
  yields (install fault LONG_MAX be img rand false allowed ndx) V (fun _ d =>
    match (if (allowed : bool) then mbr_conversion V lb else None) with
    | Some ps =>
        let V1 := converted rand V lb ps in
        s_bytes (device d) = written img (with_active V1) 512 /\ Forall (partition_high V1) mbr_bases /\
        Z.of_nat (length img) <= Z.of_nat (length V) /\ 34 * lb <= Z.of_nat (length V) /\
        (32 <= gpt_alternate V lb -> (gpt_alternate V lb + 1) * lb <= Z.of_nat (length V))
    | None => exists j loc, stage2_in V lb ndx j loc /\ s_bytes (device d) = written img V loc /\
        loc + (Z.of_nat (length img) - 512) <= Z.of_nat (length V) /\ 512 <= Z.of_nat (length V)
    end).
Proof using Hlong.
  intros Himg HV Hg. pose proof (gpt_block_range V lb Hg) as Hlb. unfold install.
  eapply yields_bind; [apply probe_gpt_yields; [done|repeat constructor; lia]|].
  cbn beta. intros r d [Hd Hr]. rewrite Hd. fold (gpt_block V) in Hr. rewrite Hg in Hr.
  destruct r as [[h lb']|]; [|done]. destruct Hr as [[= <-] Hh].
  eapply yields_bind; [by apply check_secondary_yields; [|lia|]|]. cbn beta. intros [] d1 (Hd1 & _ & Ha). rewrite Hd1.
  assert (Hkeep : yields (let? stage2_loc := gpt_stage2_loc fault LONG_MAX be false h lb ndx in
      write_stages fault LONG_MAX be img stage2_loc) V (fun _ d => exists j loc, stage2_in V lb ndx j loc /\
        s_bytes (device d) = written img V loc /\ loc + (Z.of_nat (length img) - 512) <= Z.of_nat (length V) /\
        512 <= Z.of_nat (length V))).
  { destruct (decide (gpt_base V lb < 2 ^ 64)) as [Hb|Hb].
    - eapply yields_bind; [by apply (gpt_stage2_loc_yields V HV lb); [lia|..]|].
      cbn beta. intros loc d2 (Hd2 & j & Hj & H1 & H2 & H3 & Hl64). rewrite Hd2.
      eapply yields_weaken; [apply write_stages_yields; [exact Hlong|done|exact Hl64]|].
      cbn beta. intros _ d3 Hs. by exists j, loc.
    - unfold gpt_stage2_loc. rewrite (base_spec V lb) by (done || lia). rewrite (proj2 (Z.leb_le _ _)) by lia.
      intros d2 a d3 _ _ E. discriminate E. }
  destruct allowed; cycle 1.
  { eapply (yields_bind _ _ _ _ (fun r d => r = Some (h, lb) /\ view d = V)); [by apply yields_ret|].
    intros ? d2 [-> Hd2]. rewrite Hd2. exact Hkeep. }
  eapply (yields_bind _ _ _ _ (fun r d => match mbr_conversion V lb with
    | Some ps => r = None /\ view d = converted rand V lb ps /\ 34 * lb <= Z.of_nat (length V) /\
        (32 <= gpt_alternate V lb -> (gpt_alternate V lb + 1) * lb <= Z.of_nat (length V))
    | None => r = Some (h, lb) /\ view d = V
    end)).
  { eapply yields_bind; [by apply (convert_isohybrid_yields V lb); [|lia|..]|]. cbn beta. intros b d2 Hc.
    apply yields_ret. intros d3 Hd3. rewrite Hd3. destruct (mbr_conversion V lb); destruct Hc as [-> Hc]; by split. }
  cbn beta. intros r d2 Hc. destruct (mbr_conversion V lb) as [ps|] eqn:Ec.
  - destruct Hc as (-> & Hd2 & H34 & Halt). rewrite Hd2. set (V1 := converted rand V lb ps).
    destruct (mbr_conversion_ok V lb ps HV Ec) as [_ Hps].
    assert (HV1 : is_bytes V1) by (by apply converted_bytes). assert (L1 : length V1 = length V) by apply length_converted.
    eapply yields_bind; [by apply check_mbr_yields|]. cbn beta. intros m d3 Hm. destruct m; cbn [negb]; [|apply yields_cleanup].
    destruct (Hm eq_refl) as [Hd3 Hp]. rewrite Hd3.
    eapply yields_weaken; [apply write_stages_yields; [exact Hlong|done|lia]|]. cbn beta. intros _ d4 (Hs & Hl & _).
    rewrite length_with_active, L1 in Hl. split; [done|]. split; [done|]. split; [lia|]. by split.
  - destruct Hc as [-> Hd2]. rewrite Hd2. exact Hkeep.
Qed.
End Gpt.

(** *** The partition table of a converted disk *)

Lemma slice_splice_in V pos bs q n :
  0 <= pos -> 0 <= q -> 0 <= n -> q + n <= Z.of_nat (length bs) -> pos + Z.of_nat (length bs) <= Z.of_nat (length V) ->
  slice (splice V pos bs) (pos + q) n = slice bs q n.
Proof.
  intros Hp Hq Hn Hb Hl. apply list_eq. intros i. rewrite !slice_lookup. destruct (decide _); [|done].
  rewrite splice_lookup, decide_True by lia. f_equal. lia.
Qed.

Lemma slice_splice_out V pos bs q n :
  0 <= pos -> 0 <= q -> 0 <= n -> q + n <= pos \/ pos + Z.of_nat (length bs) <= q ->
  pos + Z.of_nat (length bs) <= Z.of_nat (length V) ->
  slice (splice V pos bs) q n = slice V q n.
Proof.
  intros Hp Hq Hn Hb Hl. apply list_eq. intros i. rewrite !slice_lookup. destruct (decide _); [|done].
  by rewrite splice_lookup, decide_False by lia.
Qed.

Lemma slice_zero V pos n :
  0 <= pos -> 0 <= n -> (forall i, pos <= Z.of_nat i < pos + n -> V !! i = Some 0) -> slice V pos n = zeros n.
Proof.
  intros Hp Hn H. apply list_eq. intros i. rewrite slice_lookup. destruct (decide _).
  - rewrite H, zeros_lookup by lia. done.
  - symmetry. apply lookup_ge_None_2. unfold zeros. rewrite repeat_length. lia.
Qed.

(** Entry [k] of the table. *)
Definition mbr_slot (ps : list part_to_conv) (k : nat) : list Z :=
  match ps !! k with Some p => mbr_entry p | None => zeros 16 end.

Lemma entries_slot ps k p :
  Forall part_sound ps -> ps !! k = Some p -> slice (concat (map mbr_entry ps)) (16 * Z.of_nat k) 16 = mbr_entry p.
Proof.
  intros Hps Hp. apply list_elem_of_split_length in Hp as (l1 & l2 & -> & Hk).
  rewrite Forall_app, Forall_cons in Hps. destruct Hps as (H1 & Hp & _).
  rewrite map_app, concat_app. cbn [map concat]. pose proof (length_entries _ H1) as L1. unfold slice.
  rewrite drop_app_length' by lia. rewrite take_app_length'; [done|]. by rewrite length_mbr_entry.
Qed.

Lemma in_mbr_bases base : In base mbr_bases <-> exists k, (k < 4)%nat /\ base = 446 + 16 * Z.of_nat k.
Proof.
  split.
  - intros [<-|[<-|[<-|[<-|[]]]]]; [exists 0%nat|exists 1%nat|exists 2%nat|exists 3%nat]; lia.
  - intros (k & Hk & ->). destruct k as [|[|[|[|k]]]]; cbn; [tauto..|lia].
Qed.

Section Converted.
Context (rand : nat -> Z) (V : list Z) (HV : is_bytes V) (lb : Z) (Hlb : 512 <= lb <= 4096) (ps : list part_to_conv).
Context (Hn : (length ps <= 4)%nat) (Hps : Forall part_sound ps).
Context (H34 : 34 * lb <= Z.of_nat (length V)).
Context (Halt : 32 <= gpt_alternate V lb -> (gpt_alternate V lb + 1) * lb <= Z.of_nat (length V)).
#[local] Abbreviation V1 := (converted rand V lb ps).

Lemma converted_slot k : (k < 4)%nat -> slice V1 (446 + 16 * Z.of_nat k) 16 = mbr_slot ps k.
Proof using Hlb Hn Hps H34 Halt.
  intros Hk. pose proof (length_entries ps Hps) as Le. unfold mbr_slot, converted.
  destruct (ps !! k) as [p|] eqn:Ep.
  - rewrite slice_splice_in; [by apply entries_slot|lia|lia|lia| |].
    + apply lookup_lt_Some in Ep. lia.
    + rewrite length_splice, length_nuked. lia.
  - apply lookup_ge_None in Ep.
    rewrite slice_splice_out by (rewrite ?length_splice, ?length_nuked; lia).
    rewrite slice_splice_out by (rewrite ?length_disk_id, ?length_nuked; lia).
    apply slice_zero; [lia..|]. intros i Hi. rewrite nuked_lookup by (done || lia). apply decide_True. left. lia.
Qed.

Lemma converted_high i :
  510 <= Z.of_nat i -> V1 !! i = if decide (wiped V lb i) then Some 0 else V !! i.
Proof using Hlb Hn Hps H34 Halt.
  intros Hi. pose proof (length_entries ps Hps) as Le. unfold converted.
  rewrite splice_lookup by (rewrite ?length_splice, ?length_nuked; lia). rewrite decide_False by lia.
  rewrite splice_lookup by (rewrite ?length_disk_id, ?length_nuked; lia).
  rewrite decide_False by (rewrite length_disk_id; lia). apply nuked_lookup; lia.
Qed.

Lemma converted_disk_id : slice V1 440 4 = disk_id rand.
Proof using Hlb Hn Hps H34 Halt.
  pose proof (length_entries ps Hps) as Le. unfold converted.
  rewrite slice_splice_out by (rewrite ?length_splice, ?length_nuked; lia).
  rewrite <-(Z.add_0_r 440). rewrite slice_splice_in by (rewrite ?length_disk_id, ?length_nuked; lia). done.
Qed.

Lemma slot_byte base : In base mbr_bases -> disk_byte V1 base = 0.
Proof using Hlb Hn Hps H34 Halt.
  intros Hb. apply in_mbr_bases in Hb as (k & Hk & ->). assert (E : slice V1 (446 + 16 * Z.of_nat k) 16 !! 0%nat = Some 0).
  { rewrite converted_slot by done. unfold mbr_slot. by destruct (ps !! k). }
  rewrite slice_lookup, decide_True, Nat.add_0_r in E by lia. unfold disk_byte. by rewrite E.
Qed.

Lemma with_active_converted : with_active V1 = splice V1 446 [0x80].
Proof using Hlb Hn Hps H34 Halt.
  unfold with_active. destruct (existsb _ _) eqn:E; [|done]. apply existsb_exists in E as (base & Hb & E).
  by rewrite (slot_byte base Hb) in E.
Qed.

(** The fields of an entry that the checks read. *)
Lemma slot_type k : (k < 4)%nat -> mbr_type V1 (446 + 16 * Z.of_nat k) = default 0 (mbr_slot ps k !! 4%nat).
Proof using Hlb Hn Hps H34 Halt.
  intros Hk. rewrite <-(converted_slot k Hk), slice_lookup, decide_True by lia. unfold mbr_type, disk_byte.
  do 2 f_equal. lia.
Qed.

Lemma slot_start k : (k < 4)%nat -> mbr_start V1 (446 + 16 * Z.of_nat k) = le_value (slice (mbr_slot ps k) 8 4).
Proof using Hlb Hn Hps H34 Halt. intros Hk. by rewrite <-(converted_slot k Hk), slice_slice by lia. Qed.

Lemma slot_fields k p :
  ps !! k = Some p ->
  mbr_type V1 (446 + 16 * Z.of_nat k) = part_type p /\ mbr_start V1 (446 + 16 * Z.of_nat k) = lba_start p.
Proof using Hlb Hn Hps H34 Halt.
  intros Hp. pose proof (lookup_lt_Some _ _ _ Hp) as Hk. rewrite slot_type, slot_start by lia. unfold mbr_slot. rewrite Hp.
  pose proof Hps as Hpp. rewrite Forall_lookup in Hpp. destruct (Hpp k p Hp) as [Hs _ Ecs Ece Ht].
  assert (Lcs : length (chs_start p) = 3%nat) by (rewrite Ecs; apply length_lba2chs).
  assert (Lce : length (chs_end p) = 3%nat) by (rewrite Ece; apply length_lba2chs). unfold mbr_entry.
  destruct (chs_start p) as [|? [|? [|? []]]]; try discriminate Lcs.
  destruct (chs_end p) as [|? [|? [|? []]]]; try discriminate Lce. split; [done|].
  unfold slice. cbn [app]. change (Z.to_nat 8) with 8%nat. change (Z.to_nat 4) with 4%nat. cbn [drop].
  rewrite drop_0, take_app_length' by (by rewrite length_le_bytes). rewrite le_value_bytes. apply Z.mod_small. lia.
Qed.

(** The check on the new table is a check on the partitions. *)
Lemma partition_high_converted : Forall (partition_high V1) mbr_bases <-> Forall (fun p => 63 <= lba_start p) ps.
Proof using Hlb Hn Hps H34 Halt.
  split.
  - intros Hh. apply Forall_lookup. intros k p Hp. pose proof (lookup_lt_Some _ _ _ Hp) as Hk.
    assert (Hb : partition_high V1 (446 + 16 * Z.of_nat k)).
    { rewrite List.Forall_forall in Hh. apply Hh, in_mbr_bases. exists k. lia. }
    destruct (slot_fields k p Hp) as [Em Ev]. unfold partition_high in Hb. rewrite Em, Ev in Hb. apply Hb.
    pose proof Hps as Hpp. rewrite Forall_lookup in Hpp. destruct (Hpp k p Hp). lia.
  - intros Hp. apply List.Forall_forall. intros base (k & Hk & ->)%in_mbr_bases. unfold partition_high.
    destruct (ps !! k) as [p|] eqn:Ep.
    + destruct (slot_fields k p Ep) as [-> ->]. intros _. rewrite Forall_lookup in Hp. exact (Hp k p Ep).
    + rewrite slot_type by done. unfold mbr_slot. rewrite Ep. by intros [].
Qed.

(** The boot sector in front of the table is blank. *)
Lemma converted_low i : Z.of_nat i < 440 -> V1 !! i = Some 0.
Proof using Hlb Hn Hps H34 Halt.
  intros Hi. pose proof (length_entries ps Hps) as Le. unfold converted.
  rewrite splice_lookup by (rewrite ?length_splice, ?length_nuked; lia). rewrite decide_False by lia.
  rewrite splice_lookup by (rewrite ?length_disk_id, ?length_nuked; lia).
  rewrite decide_False by (rewrite length_disk_id; lia). rewrite nuked_lookup by lia. apply decide_True. left. lia.
Qed.
End Converted.
