(* ===== verification/LimineProgress.v ===== *)
(** Installations on a device that works: a program logic of total correctness for
    the operations of [bios_install] ([limine/limine.c]), and the conditions under
    which none of its checks fails. *)

From stdpp Require Import strings.
From S2P Require Import Prelude LimineFormat LimineDisk LimineUndo LimineInstall LimineRollback LimineMbr LimineGpt.

(** The device is made of whole blocks. *)
Definition whole (V : list Z) : Prop := Z.of_nat (length V) mod 512 = 0.

Lemma whole_covered d loc count :
  block_size d = 512 -> whole (view d) -> 0 <= loc -> 0 < count -> loc + count <= Z.of_nat (length (view d)) ->
  covered d loc count.
Proof.
  intros Hb Hw Hl Hc Hr. unfold covered, whole, s_size in *. rewrite Hb, <-length_view.
  pose proof (Z.div_mod (Z.of_nat (length (view d))) 512 ltac:(lia)).
  assert ((loc + count - 1) / 512 < Z.of_nat (length (view d)) / 512); [|lia].
  apply Z.div_lt_upper_bound; lia.
Qed.

Lemma in_seqZ_bound i n m : In i (seqZ n m) -> n <= i < n + m.
Proof. rewrite <-list_elem_of_In, elem_of_seqZ. lia. Qed.

Lemma whole_splice V pos bs : whole V -> whole (splice V pos bs).
Proof. unfold whole. by rewrite length_splice. Qed.

(** No trace of a file system at [offset]. *)
Record no_fs (V : list Z) (offset : Z) : Prop := {
  nf_ntfs : slice V (offset + 3) 4 <> bytes_of "NTFS";
  nf_fat16 : slice V (offset + 54) 3 <> bytes_of "FAT";
  nf_fat : slice V (offset + 82) 3 <> bytes_of "FAT";
  nf_fat32 : slice V (offset + 3) 5 <> bytes_of "FAT32";
  nf_ext : le_value (slice V (offset + 1080) 2) <> 0xef53;
  nf_range : 0 <= offset /\ offset + 1082 <= Z.of_nat (length V);
}.

(** An entry of an MBR that passes the checks. *)
Definition mbr_entry_fine (V : list Z) (base : Z) : Prop :=
  (disk_byte V base = 0 \/ disk_byte V base = 0x80) /\ partition_high V base.

(** A GPT whose secondary header and entries are where the header says. *)
Record sound_gpt (V : list Z) (lb : Z) : Prop := {
  sg_size : 128 <= gpt_entry_size V lb;
  sg_alt : gpt_alternate V lb * lb + 96 <= Z.of_nat (length V);
  sg_secondary : has_gpt V (gpt_alternate V lb * lb) = true;
  sg_base : gpt_base V lb < 2 ^ 63;
  sg_entries : forall i, 0 <= i < gpt_count V lb -> entry_pos V lb i + 128 <= Z.of_nat (length V);
}.

(** When an installation of the image [img] goes through: an MBR that passes the
    checks; a GPT whose partitions can be converted, from sector 63 on, with room
    for both tables; or a GPT with a partition for stage 2 that has no file system. *)
Definition ready (img : list Z) (allowed : bool) (ndx : option (option Z)) (V : list Z) : Prop :=
  Z.of_nat (length img) <= Z.of_nat (length V) /\
  match gpt_block V with
  | None => no_fs V 0 /\ Forall (mbr_entry_fine V) mbr_bases
  | Some lb =>
      sound_gpt V lb /\
      match (if allowed then mbr_conversion V lb else None) with
      | Some ps =>
          Forall (fun p => 63 <= lba_start p) ps /\
          34 * lb <= Z.of_nat (length V) /\ (gpt_alternate V lb + 1) * lb <= Z.of_nat (length V)
      | None => exists j loc,
          stage2_in V lb ndx j loc /\ part_bytes V lb (entry_pos V lb j) < 2 ^ 64 /\ no_fs V loc /\
          loc + (Z.of_nat (length img) - 512) <= Z.of_nat (length V)
      end
  end.

Section Progress.
Context (fault : nat -> option nat) (LONG_MAX : Z) (Hlong : 0 < LONG_MAX).
Context (be : bool) (img : list Z) (rand : nat -> Z).
Context (orig : list Z).

#[local] Abbreviation running := (running fault orig 512).
#[local] Abbreviation yields := (yields orig).

(** [works m V n Q]: on a device that works and holds [V], [m] reaches its end with
    at most [n] more entries in the undo log, if it has room for them, and the
    result and the new disk satisfy [Q]. *)
Definition works {A} (m : io A) (V : list Z) (n : Z) (Q : A -> list Z -> Prop) : Prop :=
  forall d, running d -> view d = V -> log_size d + n <= UNINSTALL_DATA_MAX ->
    exists a d', m d = Some (Some a, d') /\ running d' /\ log_size d' <= log_size d + n /\ Q a (view d').

Lemma works_ret {A} (a : A) V n (Q : A -> list Z -> Prop) : 0 <= n -> Q a V -> works (iret a) V n Q.
Proof using. intros Hn HQ d Hd <- Hl. exists a, d. split; [done|]. split; [done|]. split; [lia|done]. Qed.

Lemma works_weaken {A} (m : io A) V n n' (Q R : A -> list Z -> Prop) :
  works m V n Q -> n <= n' -> (forall a V', Q a V' -> R a V') -> works m V n' R.
Proof using.
  intros Hm Hn HQ d Hd Hv Hl. destruct (Hm d Hd Hv ltac:(lia)) as (a & d' & E & Hd' & Hl' & Ha).
  exists a, d'. split; [done|]. split; [done|]. split; [lia|auto].
Qed.

Lemma works_bind {A B} (m : io A) (k : A -> io B) V n1 n Q R :
  works m V n1 Q -> n1 <= n -> (forall a V', Q a V' -> works (k a) V' (n - n1) R) -> works (ibind m k) V n R.
Proof using.
  intros Hm Hn Hk d Hd Hv Hl. destruct (Hm d Hd Hv ltac:(lia)) as (a & d1 & E & Hd1 & Hl1 & Ha).
  destruct (Hk a (view d1) Ha d1 Hd1 eq_refl ltac:(lia)) as (b & d2 & E2 & Hd2 & Hl2 & Hb).
  exists b, d2. unfold ibind. rewrite E. split; [done|]. split; [done|]. split; [lia|done].
Qed.

(** With what the logic of successful runs says of the result. *)
Lemma works_yields {A} (m : io A) V n (Q : A -> list Z -> Prop) :
  works m V n (fun _ _ => True) -> yields m V (fun a d => Q a (view d)) -> works m V n Q.
Proof using.
  intros Hm Hy d Hd Hv Hl. destruct (Hm d Hd Hv Hl) as (a & d' & E & Hd' & Hl' & _).
  exists a, d'. do 3 (split; [done|]). by apply (Hy d a d' (proj1 Hd) Hv E).
Qed.

Lemma works_rd {B} loc count (k : list Z -> io B) V n R :
  whole V -> 0 <= loc -> 0 < count -> loc + count <= Z.of_nat (length V) ->
  works (k (slice V loc count)) V n R -> works (ibind (rd fault LONG_MAX loc count) k) V n R.
Proof using Hlong.
  intros Hw Hl Hc Hr Hk d Hd Hv Hlog. pose proof Hd as (Hi & Hn & Hf & Hbz).
  pose proof (ok_size _ (i_ok _ _ Hi)) as Hsz. unfold s_size in Hsz. rewrite <-length_view, Hv in Hsz.
  destruct (device_read_any fault LONG_MAX Hlong loc count d (i_ok _ _ Hi) ltac:(lia) ltac:(lia))
    as (r & d1 & E & K & _ & S & C).
  destruct r as [data|]; [|exfalso; apply C; [done| |lia|done]; apply whole_covered; rewrite ?Hv; done || lia].
  destruct (safe_rd fault LONG_MAX Hlong orig 512 loc count ltac:(lia) ltac:(lia) d Hd) as (r1 & d1' & E1 & H1).
  unfold rd in E1. rewrite E in E1. injection E1 as <- <-. destruct H1 as [_ Hd1].
  destruct (S data eq_refl) as (_ & Hv1 & -> & _). rewrite Hv in *.
  destruct (Hk d1 Hd1 Hv1) as (b & d2 & E2 & Hd2 & Hl2 & HR); [unfold log_size in *; by rewrite (k_log _ _ K)|].
  exists b, d2. unfold ibind, rd. rewrite E. split; [done|]. split; [done|]. split; [|done].
  unfold log_size in *. by rewrite (k_log _ _ K) in Hl2.
Qed.

Lemma works_wr buf loc V :
  whole V -> 0 <= loc -> (0 < length buf)%nat -> loc + Z.of_nat (length buf) <= Z.of_nat (length V) ->
  works (wr fault LONG_MAX buf loc) V 1 (fun _ V' => V' = splice V loc buf).
Proof using Hlong.
  intros Hw Hl Hb Hr d Hd Hv Hlog. pose proof Hd as (Hi & Hn & Hf & Hbz).
  pose proof (ok_size _ (i_ok _ _ Hi)) as Hsz. unfold s_size in Hsz. rewrite <-length_view, Hv in Hsz.
  assert (Hcov : covered d loc (Z.of_nat (length buf))) by (apply whole_covered; rewrite ?Hv; done || lia).
  destruct (installing_write fault LONG_MAX Hlong orig buf loc d Hi ltac:(lia) ltac:(lia)) as (ok & d' & E & _ & _ & S & _).
  destruct (safe_wr fault LONG_MAX Hlong orig 512 buf loc ltac:(lia) Hb ltac:(lia) d Hd) as (r1 & d1 & E1 & H1).
  assert (ok = true) as ->.
  { revert E. unfold device_write. rewrite (i_save _ _ Hi), (proj2 (Z.leb_gt _ _)) by lia.
    destruct (device_read_any fault LONG_MAX Hlong loc (Z.of_nat (length buf)) d (i_ok _ _ Hi) ltac:(lia) ltac:(lia))
      as (r & d2 & -> & K & _ & S2 & C).
    destruct r as [old|]; [|exfalso; apply C; done || lia].
    destruct (S2 old eq_refl) as (Hok2 & _ & _ & _).
    destruct (write_through_spec fault LONG_MAX Hlong buf loc d2 Hok2 Hl) as (ok2 & d3 & -> & _ & _ & _ & N).
    { unfold s_size. rewrite (k_size _ _ K), <-length_view, Hv. lia. }
    rewrite N; [by intros [= <- _]|by eapply kept_no_faults|].
    unfold covered, s_size in *. by rewrite (k_bs _ _ K), (k_size _ _ K). }
  unfold wr in *. rewrite E in *. injection E1 as <- <-. destruct H1 as [_ Hd1].
  destruct (S eq_refl) as (_ & Hv' & Hlog' & _). exists tt, d'. split; [done|]. split; [done|].
  unfold log_size in *. rewrite Hlog', length_app, Hv', Hv. cbn [length]. split; [lia|done].
Qed.

(** *** The steps of [install] *)

Lemma check_hint_works V loc hint n :
  whole V -> 0 <= loc -> (0 < String.length hint)%nat -> loc + Z.of_nat (String.length hint) <= Z.of_nat (length V) ->
  slice V loc (Z.of_nat (String.length hint)) <> bytes_of hint ->
  works (check_hint fault LONG_MAX false loc hint n) V 0 (fun r V' => r = true /\ V' = V).
Proof using Hlong.
  intros Hw Hl Hh Hr Hs. unfold check_hint. apply works_rd; [done|lia..|].
  rewrite bool_decide_eq_false_2 by done. by apply works_ret.
Qed.

Lemma validate_works V offset :
  whole V -> Z.of_nat (length V) < 2 ^ 63 -> is_bytes V -> no_fs V offset ->
  works (validate_or_force fault LONG_MAX be offset false) V 0 (fun r V' => r = true /\ V' = V).
Proof using Hlong.
  intros Hw Hsz HV [H1 H2 H3 H4 H5 [H6 H7]]. unfold validate_or_force. rewrite !u64_id by lia.
  do 4 (eapply works_bind; [apply check_hint_works; [done|lia|cbn; lia|cbn; lia|assumption]|lia|];
    cbn beta; intros ? ? [-> ->]; cbn [negb]; rewrite Z.sub_0_r).
  apply works_rd; [done|lia..|].
  assert (Ln : length (slice V (offset + 1080) 2) = 2%nat) by (apply length_slice; lia).
  destruct (ENDSWAP_load be (slice V (offset + 1080) 2)) as [E _]; [rewrite Ln; tauto|by apply slice_bytes|].
  rewrite Ln in E. rewrite E, (proj2 (Z.eqb_neq _ _)) by done. by apply works_ret.
Qed.

Lemma check_mbr_entry_works V base act :
  whole V -> is_bytes V -> 0 <= base -> base + 16 <= Z.of_nat (length V) -> mbr_entry_fine V base ->
  works (check_mbr_entry fault LONG_MAX be false base (true, act)) V 0 (fun acc V' => acc.1 = true /\ V' = V).
Proof using Hlong.
  intros Hw HV Hb Hr [Hs Hp]. unfold check_mbr_entry. apply works_rd; [done|lia..|]. rewrite slice_one, of_bytes_one by lia.
  eapply (works_bind _ _ _ 0 _ (fun p V' => p = (disk_byte V base, true) /\ V' = V)).
  { destruct Hs as [-> | ->]; cbn [Z.eqb negb andb]; by apply works_ret. }
  { lia. }
  intros ? ? [-> ->]. rewrite Z.sub_0_r. apply works_rd; [done|lia..|]. rewrite slice_one, of_bytes_one by lia.
  unfold partition_high, mbr_type, mbr_start in Hp. destruct (Z.eqb_spec (disk_byte V (base + 4)) 0) as [E|E]; cbn [negb].
  { by apply works_ret. }
  apply works_rd; [done|lia..|]. rewrite swap4_slice by (done || lia).
  rewrite (proj2 (Z.ltb_ge _ _)) by (by apply Hp). by apply works_ret.
Qed.

Lemma check_mbr_entries_works V bases :
  whole V -> is_bytes V -> Forall (fun base => 0 <= base /\ base + 16 <= Z.of_nat (length V)) bases ->
  Forall (mbr_entry_fine V) bases -> forall act,
  works (check_mbr_entries fault LONG_MAX be false bases (true, act)) V 0 (fun acc V' => acc.1 = true /\ V' = V).
Proof using Hlong.
  intros Hw HV. induction bases as [|base bases IH]; intros Hb Hm act; cbn [check_mbr_entries]; [by apply works_ret|].
  apply Forall_cons in Hm as [Hm0 Hm], Hb as [[Hb0 Hb1] Hb].
  eapply works_bind; [by apply check_mbr_entry_works|lia|]. cbn beta. intros [m act'] ? [E ->].
  cbn [fst] in E. subst m. rewrite Z.sub_0_r. by apply IH.
Qed.

Lemma check_mbr_works V :
  whole V -> Z.of_nat (length V) < 2 ^ 63 -> is_bytes V -> no_fs V 0 -> Forall (mbr_entry_fine V) mbr_bases ->
  works (check_mbr fault LONG_MAX be false) V 1 (fun r V' => r = true /\ length V' = length V).
Proof using Hlong.
  intros Hw Hsz HV Hfs Hm. destruct (nf_range _ _ Hfs) as [_ Hr]. unfold check_mbr. fold mbr_bases.
  eapply (works_bind _ _ _ 0 _ (fun acc V' => acc.1 = true /\ V' = V)); [|lia|].
  { apply check_mbr_entries_works; [done..| |done]. repeat constructor; lia. }
  cbn beta. intros [m act] ? [E ->]. cbn [fst] in E. subst m.
  eapply works_bind; [by apply validate_works|lia|]. cbn beta. intros ? ? [-> ->]. cbn [andb].
  eapply (works_bind _ _ _ 1 _ (fun _ V' => length V' = length V)); [|lia|].
  - destruct act; cbn [negb]; [by apply works_ret|].
    eapply works_weaken; [apply works_wr; [done|lia|cbn; lia|cbn; lia]|lia|]. intros _ ? ->. apply length_splice.
  - intros _ V' E. by apply works_ret.
Qed.
(** A loop of writes: only the ranges matter. *)
Lemma ifor_works {A} (f : A -> io unit) l V c :
  0 <= c ->
  (forall x V', In x l -> length V' = length V -> works (f x) V' c (fun _ V'' => length V'' = length V)) ->
  works (ifor f l) V (c * Z.of_nat (length l)) (fun _ V' => length V' = length V).
Proof using.
  intros Hc Hf. enough (H : forall V1, length V1 = length V ->
    works (ifor f l) V1 (c * Z.of_nat (length l)) (fun _ V' => length V' = length V)) by by apply H.
  induction l as [|x l IH]; intros V1 H1; cbn [ifor length]; [apply works_ret; [lia|done]|].
  eapply works_bind; [apply Hf; [by left|done]|nia|]. cbn beta. intros _ V2 H2.
  eapply works_weaken; [apply IH; [|done]|lia|done]. intros y V' Hy. apply Hf. by right.
Qed.

Lemma wr_works buf loc V (N : nat) :
  whole V -> 0 <= loc -> (0 < length buf)%nat -> loc + Z.of_nat (length buf) <= Z.of_nat (length V) -> length V = N ->
  works (wr fault LONG_MAX buf loc) V 1 (fun _ V' => length V' = N).
Proof using Hlong.
  intros Hw Hl Hb Hr <-. eapply works_weaken; [by apply works_wr|lia|]. intros _ ? ->. apply length_splice.
Qed.

Lemma whole_length V V' : length V' = length V -> whole V -> whole V'.
Proof using. unfold whole. by intros ->. Qed.

Lemma nuke_gpts_works V lb h :
  whole V -> Z.of_nat (length V) < 2 ^ 63 -> 0 < lb <= 4096 -> header_at be V lb h ->
  34 * lb <= Z.of_nat (length V) -> (gpt_alternate V lb + 1) * lb <= Z.of_nat (length V) ->
  works (nuke_gpts fault LONG_MAX be h lb) V 67 (fun _ V' => length V' = length V).
Proof using Hlong.
  intros Hw Hsz Hlb Hh H34 Ha. destruct (ha_alt _ _ _ _ Hh) as [Ea Ba]. unfold nuke_gpts. rewrite Ea.
  set (alt := gpt_alternate V lb) in *. clearbody alt.
  assert (Hz : length (repeat 0 (Z.to_nat lb)) = Z.to_nat lb) by apply repeat_length.
  assert (Hblk : forall loc V', length V' = length V -> 0 <= loc -> loc + lb <= Z.of_nat (length V) ->
    works (wr fault LONG_MAX (repeat 0 (Z.to_nat lb)) loc) V' 1 (fun _ V'' => length V'' = length V)).
  { intros loc V' HV' H0 H1. apply wr_works; rewrite ?Hz, ?HV'; [by eapply whole_length|lia..]. }
  eapply works_bind.
  { apply (ifor_works _ (seqZ 0 34) V 1); [lia|]. intros i V' Hi HV'.
    apply in_seqZ_bound in Hi. rewrite u64_id by nia. apply Hblk; [done|nia|nia]. }
  { rewrite length_seqZ. lia. }
  cbn beta. intros _ V1 H1. rewrite length_seqZ. destruct (Z.leb_spec 32 alt); [|apply works_ret; [lia|done]].
  eapply works_weaken; [apply (ifor_works _ (seqZ 0 33) V1 1); [lia|]|rewrite length_seqZ; lia|by intros _ V2 ->].
  intros i V' Hi HV'. apply in_seqZ_bound in Hi. rewrite H1 in *.
  rewrite u64_id, mul_u64_overflow_spec by nia. rewrite (proj2 (Z.leb_gt _ _)) by nia. rewrite u64_id by nia.
  apply Hblk; [done|nia|nia].
Qed.

Lemma write_disk_id_works V :
  whole V -> 512 <= Z.of_nat (length V) ->
  works (write_disk_id fault LONG_MAX rand) V 4 (fun _ V' => length V' = length V).
Proof using Hlong.
  intros Hw Hl. eapply works_weaken; [apply (ifor_works _ (seqZ 0 4) V 1); [lia|]|done|done].
  intros i V' Hi HV'. apply in_seqZ_bound in Hi.
  apply wr_works; rewrite ?HV'; cbn [length]; [by eapply whole_length|lia..].
Qed.

Lemma write_parts_works V ps :
  whole V -> 512 <= Z.of_nat (length V) -> (length ps <= 4)%nat -> Forall part_sound ps ->
  works (ifor (write_part fault LONG_MAX be) (zip (seqZ 0 (Z.of_nat (length ps))) ps)) V 20
    (fun _ V' => length V' = length V).
Proof using Hlong.
  intros Hw Hl Hn Hps.
  assert (Hz : (length (zip (seqZ 0 (Z.of_nat (length ps))) ps) <= 4)%nat) by (rewrite length_zip_with, length_seqZ; lia).
  eapply works_weaken; [apply (ifor_works _ _ V 5); [lia|]|lia|done].
  intros [i p] V' Hi HV'. apply list_elem_of_In in Hi.
  pose proof (elem_of_zip_l _ _ _ _ Hi) as H1. pose proof (elem_of_zip_r _ _ _ _ Hi) as H2.
  apply list_elem_of_In, in_seqZ_bound in H1. pose proof (proj1 (Forall_forall _ _) Hps p H2) as [_ _ Es Ee _].
  assert (Ls : length (chs_start p) = 3%nat) by (rewrite Es; apply length_lba2chs).
  assert (Le : length (chs_end p) = 3%nat) by (rewrite Ee; apply length_lba2chs).
  unfold write_part. rewrite !u64_id by lia.
  do 4 (eapply works_bind; [apply (wr_works _ _ _ (length V)); rewrite ?length_to_bytes, ?Ls, ?Le;
      [by eapply whole_length|lia|cbn; lia|cbn [length]; lia|done]|lia|];
    cbn beta; clear dependent V'; intros _ V' HV').
  eapply works_weaken; [apply (wr_works _ _ _ (length V)); rewrite ?Le; [by eapply whole_length|lia..|done]|lia|done].
Qed.

(** *** The guarded reads of the table *)

Section Sound.
Context (V : list Z) (Hw : whole V) (Hsz : Z.of_nat (length V) < 2 ^ 63) (HV : is_bytes V).
Context (lb : Z) (Hlb : 512 <= lb <= 4096) (h : gpt_table_header) (Hh : header_at be V lb h) (Hg : sound_gpt V lb).

Lemma sound_base : 0 <= gpt_base V lb < 2 ^ 63.
Proof using Hlb Hh Hg. split; [apply (base_nonneg be V lb ltac:(lia) h Hh)|apply Hg]. Qed.

Lemma read_entry_works {A} i (skip : io A) (k : gpt_entry -> io A) n R :
  0 <= i < gpt_count V lb ->
  (forall e, entry_at be V (entry_pos V lb i) e -> works (k e) V n R) ->
  works (let '(overflow, off) := entry_offset be h (gpt_base V lb) i in
         if overflow then skip else
         let? bs := rd fault LONG_MAX off sizeof_gpt_entry in k (load_gpt_entry be bs)) V n R.
Proof using Hlong Hw Hsz HV Hlb Hh Hg.
  intros Hi Hk. pose proof sound_base. destruct (ha_count _ _ _ _ Hh) as [_ Bc].
  destruct (entry_offset_spec be V lb ltac:(lia) h Hh ltac:(lia) i ltac:(lia)) as [-> Hp].
  pose proof (sg_entries _ _ Hg i Hi). rewrite (proj2 (Z.leb_gt _ _)), u64_id by lia.
  apply works_rd; unfold sizeof_gpt_entry; [done|lia..|]. by apply Hk, entry_load.
Qed.

Lemma gather_parts_works n : forall i parts,
  0 <= i -> i + Z.of_nat n <= gpt_count V lb ->
  works (gather_parts fault LONG_MAX be h (gpt_base V lb) n i parts) V 0 (fun _ _ => True).
Proof using Hlong Hw Hsz HV Hlb Hh Hg.
  induction n as [|n IH]; intros i parts Hi Hn; cbn [gather_parts]; [by apply works_ret|].
  pose (cont e := if entry_unused e then gather_parts fault LONG_MAX be h (gpt_base V lb) n (i + 1) parts
    else if (length parts =? 4)%nat then iret None
    else match convert_entry be e with
         | None => iret None
         | Some p => gather_parts fault LONG_MAX be h (gpt_base V lb) n (i + 1) (parts ++ [p])
         end).
  apply (read_entry_works i (iret None) cont); [lia|]. intros e He. unfold cont.
  destruct (entry_unused e); [apply IH; lia|]. destruct (_ =? _)%nat; [by apply works_ret|].
  destruct (convert_entry be e); [apply IH; lia|by apply works_ret].
Qed.

Lemma find_bios_boot_works n : forall i j,
  0 <= i <= j -> j < i + Z.of_nat n <= gpt_count V lb -> is_bios_boot V (entry_pos V lb j) = true ->
  works (find_bios_boot fault LONG_MAX be h (gpt_base V lb) n i) V 0 (fun _ _ => True).
Proof using Hlong Hw Hsz HV Hlb Hh Hg.
  induction n as [|n IH]; intros i j Hi Hj Hb; cbn [find_bios_boot]; [lia|].
  pose (cont e := if bool_decide (type_bytes be e = bios_boot_type) then iret e
    else find_bios_boot fault LONG_MAX be h (gpt_base V lb) n (i + 1)).
  apply (read_entry_works i cleanup cont); [lia|]. intros e He. unfold cont. rewrite (ea_bytes _ _ _ _ He).
  change (bool_decide _) with (is_bios_boot V (entry_pos V lb i)).
  destruct (is_bios_boot V (entry_pos V lb i)) eqn:E; [by apply works_ret|].
  apply (IH (i + 1) j); [|lia|done]. destruct (decide (i = j)) as [->|]; [congruence|lia].
Qed.

Lemma chosen_partition_works n :
  let j := u32 (n - 1) in
  j < gpt_count V lb -> is_bios_boot V (entry_pos V lb j) = true -> used V (entry_pos V lb j) = true ->
  works (chosen_partition fault LONG_MAX be false h (gpt_base V lb) (Some n)) V 0 (fun _ _ => True).
Proof using Hlong Hw Hsz HV Hlb Hh Hg.
  intros j Hj Hb Hu. cbn [chosen_partition]. cbv zeta. fold j. destruct (ha_count _ _ _ _ Hh) as [-> _].
  rewrite (proj2 (Z.leb_gt _ _)) by done. pose proof (u32_bound (n - 1)).
  pose (cont e := if entry_unused e then cleanup
    else if negb false && negb (bool_decide (bios_boot_type = type_bytes be e)) then cleanup else iret e).
  apply (read_entry_works j cleanup cont); [unfold j in *; lia|]. intros e He. unfold cont.
  rewrite (ea_unused _ _ _ _ He), Hu, (ea_bytes _ _ _ _ He). unfold is_bios_boot in Hb. apply bool_decide_eq_true in Hb.
  rewrite Hb, bool_decide_eq_true_2 by done. by apply works_ret.
Qed.

(** The entry is determined by the table and the command line. *)
Lemma stage2_entry_unique ndx j j' : stage2_entry V lb ndx j -> stage2_entry V lb ndx j' -> j = j'.
Proof using.
  intros (Hj & Hb & H) (Hj' & Hb' & H'). destruct ndx as [n|].
  - destruct H as [(m & -> & ->) _], H' as [(m' & [= <-] & ->) _]. done.
  - destruct (Z.lt_trichotomy j j') as [Hlt|[Heq|Hgt]]; [|done|].
    + rewrite (H' j) in Hb by lia. done.
    + rewrite (H j') in Hb' by lia. done.
Qed.

Lemma gpt_stage2_loc_works ndx j loc :
  stage2_in V lb ndx j loc -> no_fs V loc -> part_bytes V lb (entry_pos V lb j) < 2 ^ 64 ->
  works (gpt_stage2_loc fault LONG_MAX be false h lb ndx) V 0 (fun r V' => r = loc /\ V' = V).
Proof using Hlong Hw Hsz HV Hlb Hh Hg.
  intros (Hj & Hle & Hpb & El & Hl64) Hfs Hpb64. pose proof sound_base as Hbase. unfold gpt_stage2_loc.
  rewrite (base_spec be V lb ltac:(lia) h Hh). rewrite (proj2 (Z.leb_gt _ _)), u64_id by lia.
  destruct (ha_count _ _ _ _ Hh) as [Ec Bc]. rewrite Ec.
  set (find := match ndx with Some n => _ | None => _ end).
  eapply (works_bind _ _ _ 0 _ (fun e V' => V' = V /\ entry_at be V (entry_pos V lb j) e)); [|lia|].
  { apply works_yields.
    - unfold find. destruct Hj as (Hjr & Hb & Hn). destruct ndx as [n|].
      + destruct Hn as [(m & -> & ->) Hu]. apply chosen_partition_works; [lia|done|done].
      + apply (find_bios_boot_works _ 0 j); [lia|lia|done].
    - unfold find. destruct ndx as [n|].
      + pose proof Hj as (Hjr & Hb & (m & -> & ->) & Hu).
        eapply yields_weaken; [apply (chosen_partition_yields _ _ Hlong); done || lia|].
        cbn beta zeta. intros e d (Hd & _ & _ & He & _). by split.
      + eapply yields_weaken; [apply (find_bios_boot_yields _ _ Hlong be orig V HV lb ltac:(lia) h Hh ltac:(lia)); lia|].
        cbn beta. intros e d (Hd & j' & Hj' & Hb' & He & Hk). split; [done|].
        assert (j' = j) as -> by (apply (stage2_entry_unique None); [by split|done]). done. }
  cbn beta. intros e ? [-> He]. rewrite Z.sub_0_r.
  destruct (ea_first _ _ _ _ He) as [-> B1], (ea_last _ _ _ _ He) as [-> B2]. unfold part_bytes in *.
  remember (first_lba V (entry_pos V lb j)) as first eqn:Ef. remember (last_lba V (entry_pos V lb j)) as last eqn:Ela.
  rewrite (proj2 (Z.ltb_ge _ _)) by done. rewrite (u64_id (last - first + 1)) by nia.
  rewrite mul_u64_overflow_spec by nia. rewrite (proj2 (Z.leb_gt _ _)), u64_id by nia.
  rewrite (proj2 (Z.ltb_ge _ _)) by lia. rewrite mul_u64_overflow_spec by lia. rewrite <-El.
  rewrite (proj2 (Z.leb_gt _ _)), u64_id by lia.
  eapply works_bind; [by apply validate_works|lia|]. cbn beta. intros ? ? [-> ->]. by apply works_ret.
Qed.
End Sound.

(** *** The whole of it *)

Lemma probe_gpt_works gs V :
  whole V -> Forall (fun lb => 0 <= lb /\ lb + 96 <= Z.of_nat (length V)) gs ->
  works (probe_gpt fault LONG_MAX be gs) V 0 (fun _ _ => True).
Proof using Hlong.
  intros Hw. induction 1 as [|lb gs [H1 H2] _ IH]; cbn [probe_gpt]; [by apply works_ret|].
  apply works_rd; unfold sizeof_gpt_table_header; [done|lia..|]. destruct (bool_decide _); [by apply works_ret|done].
Qed.

Lemma check_secondary_works V lb h :
  whole V -> Z.of_nat (length V) < 2 ^ 63 -> 512 <= lb <= 4096 -> header_at be V lb h -> sound_gpt V lb ->
  works (check_secondary fault LONG_MAX be h lb) V 0 (fun _ V' => V' = V).
Proof using Hlong.
  intros Hw Hsz Hlb [_ [Ea Ba] _ _ [Es _]] [Hg1 Hg2 Hg3 _ _]. unfold check_secondary, sizeof_gpt_entry. rewrite Es, Ea.
  rewrite (proj2 (Z.ltb_ge _ _)) by lia. rewrite mul_u64_overflow_spec by lia.
  rewrite (proj2 (Z.leb_gt _ _)), u64_id by lia. rewrite (Z.mul_comm lb).
  apply works_rd; unfold sizeof_gpt_table_header; [done|lia..|].
  unfold load_gpt_table_header, signature. rewrite slice_slice, Z.add_0_r by lia.
  unfold has_gpt in Hg3. rewrite Hg3. by apply works_ret.
Qed.

Lemma convert_isohybrid_works V lb h :
  whole V -> 33280 <= Z.of_nat (length V) < 2 ^ 63 -> is_bytes V -> 512 <= lb <= 4096 -> header_at be V lb h ->
  sound_gpt V lb ->
  (forall ps, mbr_conversion V lb = Some ps ->
     34 * lb <= Z.of_nat (length V) /\ (gpt_alternate V lb + 1) * lb <= Z.of_nat (length V)) ->
  works (convert_isohybrid fault LONG_MAX be rand h lb) V 91 (fun _ _ => True).
Proof using Hlong.
  intros Hw Hsz HV Hlb Hh Hg Hr. unfold convert_isohybrid. unfold mbr_conversion in Hr.
  apply works_rd; [done|lia..|]. change (bool_decide _) with (is_iso V).
  destruct (is_iso V); cbn [negb andb] in *; [|apply works_ret; [lia|done]].
  pose proof (sound_base V lb Hlb h Hh Hg). rewrite (base_spec be V lb ltac:(lia) h Hh).
  rewrite (proj2 (Z.leb_gt _ _)), u64_id by lia. rewrite (proj2 (Z.ltb_lt _ _)) in Hr by lia.
  destruct (ha_count _ _ _ _ Hh) as [-> Bc].
  eapply (works_bind _ _ _ 0 _ (fun r V' => V' = V /\ r = mbr_parts_from V lb 0 (Z.to_nat (gpt_count V lb)) [])); [|lia|].
  { apply works_yields; [apply (gather_parts_works V Hw ltac:(lia) HV lb Hlb h Hh Hg); lia|].
    apply (gather_parts_yields _ _ Hlong be orig V HV lb ltac:(lia) h Hh ltac:(lia)); [lia..|cbn; lia]. }
  cbn beta. intros r ? [-> Er]. destruct r as [ps|]; [|apply works_ret; [lia|done]].
  destruct (Hr ps (eq_sym Er)) as [H34 Halt]. destruct (mbr_parts_ok V lb 0 _ ps HV (eq_sym Er)) as [Hn Hps].
  eapply works_bind; [apply (nuke_gpts_works V); done || lia|lia|]. cbn beta. intros _ V1 H1.
  eapply works_bind; [apply write_disk_id_works; [by eapply whole_length|lia]|lia|]. cbn beta. intros _ V2 H2.
  eapply works_bind; [apply write_parts_works; [eapply whole_length; [|exact Hw]; congruence|lia|done|done]|lia|].
  cbn beta. intros _ V3 H3. apply works_ret; [lia|done].
Qed.

Lemma flush_works V : works (flush fault LONG_MAX) V 0 (fun _ _ => True).
Proof using Hlong.
  intros d Hd Hv Hl. destruct (flush_safe fault LONG_MAX Hlong orig 512 d Hd) as (r & d' & E & H).
  pose proof Hd as (Hi & Hn & _). unfold flush in *. destruct (device_flush_cache fault LONG_MAX d) as [ok d1] eqn:Ef.
  destruct (flush_spec fault LONG_MAX Hlong d ok d1 (i_ok _ _ Hi) Ef) as (K & _ & _ & _ & _ & N).
  rewrite (N Hn) in *. injection E as <- <-. destruct H as [_ Hd1]. exists tt, d1. split; [done|]. split; [done|].
  unfold log_size. rewrite (k_log _ _ K). split; [lia|done].
Qed.

Lemma write_stages_works V loc :
  whole V -> 1024 <= Z.of_nat (length V) < 2 ^ 63 -> 512 < Z.of_nat (length img) -> 0 <= loc ->
  loc + (Z.of_nat (length img) - 512) <= Z.of_nat (length V) ->
  works (write_stages fault LONG_MAX be img loc) V 5 (fun _ _ => True).
Proof using Hlong.
  intros Hw Hsz Himg Hl Hr. unfold write_stages. apply works_rd; [done|lia..|]. apply works_rd; [done|lia..|].
  assert (L1 : length (slice V 218 6) = 6%nat) by (apply length_slice; lia).
  assert (L2 : length (slice V 440 70) = 70%nat) by (apply length_slice; lia).
  generalize dependent (slice V 218 6). generalize dependent (slice V 440 70). intros mbr L2 ts L1.
  remember (length V) as N eqn:EN. symmetry in EN.
  do 5 (eapply works_bind; [apply (wr_works _ _ _ N);
      rewrite ?EN, ?length_to_bytes, ?length_take, ?length_drop, ?L1, ?L2; done || lia|lia|];
    cbn beta; intros _ V' EV'; pose proof (whole_length V V' ltac:(congruence) Hw) as Hw'; clear EN Hw;
    rename V into V0, V' into V, EV' into EN, Hw' into Hw; clear V0).
  eapply works_weaken; [apply flush_works|lia|done].
Qed.

(** The converted disk passes the checks on an MBR. *)
Lemma converted_checks V lb ps :
  is_bytes V -> 512 <= lb <= 4096 -> (length ps <= 4)%nat -> Forall part_sound ps -> 34 * lb <= Z.of_nat (length V) ->
  (32 <= gpt_alternate V lb -> (gpt_alternate V lb + 1) * lb <= Z.of_nat (length V)) ->
  Forall (fun p => 63 <= lba_start p) ps ->
  no_fs (converted rand V lb ps) 0 /\ Forall (mbr_entry_fine (converted rand V lb ps)) mbr_bases.
Proof using.
  intros HV Hlb Hn Hps H34 Halt H63. pose proof (length_converted rand V lb ps) as L1. split.
  - assert (Hz : forall q n, 0 <= q -> 0 < n -> q + n <= 440 \/ 510 <= q /\ q + n <= 34 * lb ->
      slice (converted rand V lb ps) q n = zeros n).
    { intros q n Hq Hn0 Hr. apply slice_zero; [lia..|]. intros i Hi. destruct Hr as [Hr|[Hr1 Hr2]].
      - apply converted_low; done || lia.
      - rewrite converted_high by (done || lia). apply decide_True. left. lia. }
    split; [rewrite Hz by lia; discriminate..| |lia]. rewrite Hz by lia. discriminate.
  - apply List.Forall_forall. intros base Hb. split; [left; by apply slot_byte|].
    assert (Hh : Forall (partition_high (converted rand V lb ps)) mbr_bases) by by apply partition_high_converted.
    rewrite List.Forall_forall in Hh. by apply Hh.
Qed.

(** With the table kept. *)
Lemma keep_works V lb h ndx j loc :
  whole V -> 33280 <= Z.of_nat (length V) < 2 ^ 63 -> is_bytes V -> 512 < Z.of_nat (length img) < 2 ^ 63 ->
  512 <= lb <= 4096 -> header_at be V lb h -> sound_gpt V lb ->
  stage2_in V lb ndx j loc -> part_bytes V lb (entry_pos V lb j) < 2 ^ 64 -> no_fs V loc ->
  loc + (Z.of_nat (length img) - 512) <= Z.of_nat (length V) ->
  works (let? stage2_loc := gpt_stage2_loc fault LONG_MAX be false h lb ndx in
    write_stages fault LONG_MAX be img stage2_loc) V 5 (fun _ _ => True).
Proof using Hlong.
  intros Hw Hsz HV Himg Hlb Hh Hs Hj Hp Hfs Hl.
  eapply works_bind; [apply (gpt_stage2_loc_works V Hw ltac:(lia) HV lb Hlb h Hh Hs ndx j loc); done|lia|].
  cbn beta. intros ? ? [-> ->]. destruct Hj as (_ & _ & _ & _ & Hl0).
  apply write_stages_works; [done|lia..].
Qed.

(** With the table converted. *)
Lemma convert_works V lb h (gpt : option (gpt_table_header * Z)) :
  whole V -> 33280 <= Z.of_nat (length V) < 2 ^ 63 -> is_bytes V -> 512 <= lb <= 4096 -> header_at be V lb h ->
  sound_gpt V lb ->
  (forall ps, mbr_conversion V lb = Some ps ->
     34 * lb <= Z.of_nat (length V) /\ (gpt_alternate V lb + 1) * lb <= Z.of_nat (length V)) ->
  works (let? converted := convert_isohybrid fault LONG_MAX be rand h lb in iret (if (converted : bool) then None else gpt))
    V 91 (fun r V' => match mbr_conversion V lb with
      | Some ps => r = None /\ V' = converted rand V lb ps
      | None => r = gpt /\ V' = V end).
Proof using Hlong.
  intros Hw Hsz HV Hlb Hh Hs Hr. apply works_yields.
  - eapply works_bind; [by apply (convert_isohybrid_works V lb h)|lia|].
    intros b V' _. apply works_ret; [lia|done].
  - eapply yields_bind; [apply (convert_isohybrid_yields _ _ Hlong be rand orig V lb h HV Hlb Hh)|].
    + pose proof (sg_alt _ _ Hs). lia.
    + cbn beta. intros b d Hc. apply yields_ret. intros d' Hd'. rewrite Hd'.
      destruct (mbr_conversion V lb); destruct Hc as [-> Hc]; [|by split]. by destruct Hc as [-> _].
Qed.

(** With an MBR, the old one or a new one. *)
Lemma mbr_works V :
  whole V -> 1024 <= Z.of_nat (length V) < 2 ^ 63 -> is_bytes V -> 512 < Z.of_nat (length img) <= Z.of_nat (length V) ->
  no_fs V 0 -> Forall (mbr_entry_fine V) mbr_bases ->
  works (let? mbr := check_mbr fault LONG_MAX be false in
    if negb mbr then cleanup else write_stages fault LONG_MAX be img 512) V 6 (fun _ _ => True).
Proof using Hlong.
  intros Hw Hsz HV Hil Hfs Hm. eapply works_bind; [apply check_mbr_works; done || lia|lia|].
  cbn beta. intros m V' [-> HV']. cbn [negb].
  eapply works_weaken; [apply write_stages_works; [by eapply whole_length|lia..]|lia|done].
Qed.

Lemma install_works V allowed ndx :
  whole V -> 33280 <= Z.of_nat (length V) < 2 ^ 63 -> is_bytes V -> 512 < Z.of_nat (length img) < 2 ^ 63 ->
  ready img allowed ndx V ->
  works (install fault LONG_MAX be img rand false allowed ndx) V 97 (fun _ _ => True).
Proof using Hlong.
  intros Hw Hsz HV Himg [Hil Hr]. unfold install.
  eapply (works_bind _ _ _ 0 _ (fun r V' => V' = V /\ match r with
    | None => gpt_block V = None | Some (h, lb) => gpt_block V = Some lb /\ header_at be V lb h end)); [|lia|].
  { apply works_yields; [apply probe_gpt_works; [done|]; repeat constructor; lia|].
    apply probe_gpt_yields; [done|done|repeat constructor; lia]. }
  cbn beta. intros r ? [-> Hg]. destruct r as [[h lb]|]; cycle 1.
  { rewrite Hg in Hr. destruct Hr as [Hfs Hm].
    eapply (works_bind _ _ _ 0 _ (fun _ V' => V' = V)); [by apply works_ret|lia|]. intros _ ? ->.
    eapply (works_bind _ _ _ 0 _ (fun r V' => r = None /\ V' = V)); [by apply works_ret|lia|]. intros ? ? [-> ->].
    eapply works_weaken; [apply mbr_works; done || lia|lia|done]. }
  destruct Hg as [Hg Hh]. rewrite Hg in Hr. destruct Hr as [Hs Hr].
  assert (Hlb : 512 <= lb <= 4096) by (destruct (gpt_block_range V lb Hg); lia).
  eapply works_bind; [apply (check_secondary_works V lb h); done || lia|lia|]. cbn beta. intros _ ? ->.
  destruct allowed; cycle 1.
  { eapply (works_bind _ _ _ 0 _ (fun r V' => r = Some (h, lb) /\ V' = V)); [by apply works_ret|lia|].
    intros ? ? [-> ->]. destruct Hr as (j & loc & Hj & Hp & Hfs & Hl).
    eapply works_weaken; [by eapply keep_works|lia|done]. }
  eapply works_bind; [apply (convert_works V lb h (Some (h, lb))); try done|lia|].
  { intros ps Eps. rewrite Eps in Hr. tauto. }
  cbn beta. intros r V' Hc. destruct (mbr_conversion V lb) as [ps|] eqn:Ec; destruct Hc as [-> ->].
  - destruct (mbr_conversion_ok V lb ps HV Ec) as [Hn Hps]. destruct Hr as (H63 & H34 & Ha).
    pose proof (length_converted rand V lb ps) as L1.
    destruct (converted_checks V lb ps HV Hlb Hn Hps H34 (fun _ => Ha) H63) as [Hfs Hm].
    eapply works_weaken; [apply mbr_works; [by eapply whole_length|lia|by apply converted_bytes|lia|done|done]|lia|done].
  - destruct Hr as (j & loc & Hj & Hp & Hfs & Hl). eapply works_weaken; [by eapply keep_works|lia|done].
Qed.
End Progress.

(** The tool, on a device that works. *)
Lemma run_install_succeeds LONG_MAX be img rand file o s :
  0 < LONG_MAX -> 512 < Z.of_nat (length img) < 2 ^ 63 -> 33280 <= s_size s < 2 ^ 63 -> is_bytes (s_bytes s) ->
  whole (s_bytes s) -> uninstall_mode o = false -> force o = false ->
  ready img (gpt2mbr_allowed o) (option_map sscanf_u32 (opt_part_ndx o)) (s_bytes s) ->
  exists out, run_install sound LONG_MAX be img rand file o (opened s) = Some out /\ status out = EXIT_SUCCESS.
Proof.
  intros HL Himg Hs HV Hw Hm Hf Hr. unfold run_install.
  pose proof (init_sound s) as Hinit. rewrite (proj2 (Z.leb_le _ _)) in Hinit by lia. destruct Hinit as (d & Ed & Hb).
  pose proof (opened_running sound s d ltac:(lia) (fun _ => eq_refl) Ed) as Hd. rewrite Hb in Hd.
  destruct (device_init_spec sound (opened s) d (proj2 Hs) Ed) as (_ & Hv & _ & _ & Hl & _).
  rewrite Ed, Hm, Hf. cbn [negb].
  destruct (install_works sound LONG_MAX HL be img rand (s_bytes s) (s_bytes s) _ _ Hw Hs HV Himg Hr d Hd Hv)
    as ([] & d' & -> & _); [|by eexists].
  unfold log_size. rewrite Hl. unfold UNINSTALL_DATA_MAX. cbn. lia.
Qed.
