(* ===== verification/LimineGptInstall.v ===== *)
(** The installation of [limine/limine.c] on devices with a GUID partition table:
    what a successful run leaves on the device, with the table kept or converted,
    and that on a device that works the run does succeed. *)

From stdpp Require Import strings.
From S2P Require Import Prelude LimineFormat LimineDisk LimineUndo LimineInstall LimineRollback LimineMbr LimineGpt LimineProgress.

(** ** Properties *)

(** The partition the user names on the command line. *)
Definition chosen_ndx (o : install_opts) : option (option Z) := option_map sscanf_u32 (opt_part_ndx o).

(** The partitions that become an MBR table, when the options allow it. *)
Definition conversion (o : install_opts) (V : list Z) (lb : Z) : option (list part_to_conv) :=
  if gpt2mbr_allowed o then mbr_conversion V lb else None.

(** C13 What an installation without [--force] does to a device with a GPT it does not
    convert: if it reports success, then, whatever faults occurred, stage 2 went to
    a BIOS boot partition of the table (the first one, or the one the user chose)
    that is not empty and holds at least 32 KiB; behind the boot sector only that
    partition changes, so the tables and all other partitions are untouched; and,
    as the partition starts behind the boot sector, stage 2 is at its start, the
    boot sector names the place, keeps the time stamp and the protective partition
    table of the old sector, and is otherwise that of the image. *)
Theorem gpt_install_keeps_disk fault LONG_MAX be img rand file o s out lb :
  0 < LONG_MAX -> 512 < Z.of_nat (length img) <= 512 + 32768 -> s_size s < 2 ^ 63 -> is_bytes (s_bytes s) ->
  uninstall_mode o = false -> force o = false ->
  gpt_block (s_bytes s) = Some lb -> conversion o (s_bytes s) lb = None ->
  run_install fault LONG_MAX be img rand file o (opened s) = Some out -> status out = EXIT_SUCCESS ->
  let V := s_bytes s in
  let V' := s_bytes (device (final out)) in
  exists j loc, stage2_in V lb (chosen_ndx o) j loc /\
    (forall i, 512 <= Z.of_nat i -> ~ (loc <= Z.of_nat i < loc + part_bytes V lb (entry_pos V lb j)) -> V' !! i = V !! i) /\
    (0 < first_lba V (entry_pos V lb j) ->
      slice V' loc (Z.of_nat (length img) - 512) = drop 512 img /\
      slice V' 0x1a4 8 = le_bytes 8 loc /\
      (forall i, 218 <= Z.of_nat i < 224 \/ 440 <= Z.of_nat i < 510 -> V' !! i = V !! i) /\
      (forall i, Z.of_nat i < 512 -> ~ (218 <= Z.of_nat i < 224) -> ~ (420 <= Z.of_nat i < 428) ->
         ~ (440 <= Z.of_nat i < 510) -> V' !! i = img !! i)).
Proof.
  intros HL Hi Hs HV Hm Hf Hg Hc Erun Hst V V'. pose proof (gpt_block_range V lb Hg) as Hlb.
  destruct (run_install_yields fault LONG_MAX be img rand file o s out (fun V' => exists j loc,
    stage2_in V lb (chosen_ndx o) j loc /\ V' = written img V loc /\
    loc + (Z.of_nat (length img) - 512) <= Z.of_nat (length V) /\ 512 <= Z.of_nat (length V)) HL Hs Hm)
    as (j & loc & Hj & EV & Hl & H512); [|done..|].
  { rewrite Hf. eapply yields_weaken; [apply (install_gpt_yields _ _ HL be img rand V V lb); [lia|done|done]|].
    cbn beta. unfold conversion in Hc. fold V in Hc. rewrite Hc. auto. }
  fold V' in EV. exists j, loc. split; [exact Hj|]. destruct Hj as (_ & _ & Hsz & Eloc & Hr).
  rewrite EV. split.
  { intros i H1 H2. apply written_high; lia. }
  intros H0. assert (Hloc : 512 <= loc) by nia. clear Eloc.
  assert (HW : forall i, written img V loc !! i = _) by (intros i; apply written_lookup_at; lia).
  split; [|split; [|split]].
  - apply list_eq. intros i. rewrite slice_lookup, lookup_drop. destruct (decide _).
    + rewrite HW, !decide_False, decide_True by lia. f_equal. lia.
    + symmetry. apply lookup_ge_None_2. lia.
  - apply list_eq. intros i. rewrite slice_lookup. destruct (decide _).
    + rewrite HW, decide_False, decide_True by lia. f_equal. lia.
    + symmetry. apply lookup_ge_None_2. rewrite length_le_bytes. lia.
  - intros i H1. by rewrite HW, decide_True by tauto.
  - intros i H1 H2 H3 H4. by rewrite HW, !decide_False, decide_True by lia.
Qed.

(** The device after a conversion, by its bytes. *)
Lemma isohybrid_disk fault LONG_MAX be img rand file o s out lb ps :
  0 < LONG_MAX -> 512 < Z.of_nat (length img) < 2 ^ 63 -> s_size s < 2 ^ 63 -> is_bytes (s_bytes s) ->
  uninstall_mode o = false -> force o = false ->
  gpt_block (s_bytes s) = Some lb -> conversion o (s_bytes s) lb = Some ps ->
  run_install fault LONG_MAX be img rand file o (opened s) = Some out -> status out = EXIT_SUCCESS ->
  let V := s_bytes s in
  let V1 := converted rand V lb ps in
  let V' := s_bytes (device (final out)) in
  (length ps <= 4)%nat /\ Forall part_sound ps /\ 512 <= lb <= 4096 /\
  34 * lb <= Z.of_nat (length V) /\
  (32 <= gpt_alternate V lb -> (gpt_alternate V lb + 1) * lb <= Z.of_nat (length V)) /\
  Z.of_nat (length img) <= Z.of_nat (length V) /\ Forall (partition_high V1) mbr_bases /\
  forall i, V' !! i =
    if decide (440 <= Z.of_nat i < 510 \/ 218 <= Z.of_nat i < 224) then splice V1 446 [0x80] !! i
    else if decide (420 <= Z.of_nat i < 428) then le_bytes 8 512 !! (i - 420)%nat
    else if decide (Z.of_nat i < Z.of_nat (length img)) then img !! i
    else if decide (wiped V lb i) then Some 0 else V !! i.
Proof.
  intros HL Hi Hs HV Hm Hf Hg Hc Erun Hst V V1 V'. pose proof (gpt_block_range V lb Hg) as Hlb.
  assert (Hps : mbr_conversion V lb = Some ps) by (unfold conversion in Hc; by destruct (gpt2mbr_allowed o)).
  destruct (mbr_conversion_ok V lb ps HV Hps) as [Hn Hok].
  destruct (run_install_yields fault LONG_MAX be img rand file o s out (fun V' =>
    V' = written img (with_active V1) 512 /\ Forall (partition_high V1) mbr_bases /\
    Z.of_nat (length img) <= Z.of_nat (length V) /\ 34 * lb <= Z.of_nat (length V) /\
    (32 <= gpt_alternate V lb -> (gpt_alternate V lb + 1) * lb <= Z.of_nat (length V))) HL Hs Hm)
    as (EV & Hp & Himg & H34 & Halt); [|done..|].
  { rewrite Hf. eapply yields_weaken; [apply (install_gpt_yields _ _ HL be img rand V V lb); [lia|done|done]|].
    cbn beta. unfold conversion in Hc. fold V in Hc. rewrite Hc. auto. }
  fold V' in EV. do 2 (split; [done|]). split; [lia|]. do 4 (split; [done|]). intros i.
  assert (L1 : length V1 = length V) by apply length_converted.
  assert (HA : with_active V1 = splice V1 446 [0x80]) by (apply with_active_converted; done || lia).
  rewrite EV, written_lookup, HA by (rewrite length_with_active; lia).
  destruct (decide (440 <= _ < 510 \/ _)); [done|]. destruct (decide (420 <= _ < _)); [done|].
  destruct (decide (_ < Z.of_nat (length img))); [done|].
  rewrite splice_lookup by (cbn; lia). rewrite decide_False by (cbn; lia). apply converted_high; done || lia.
Qed.

(** The entries with the first one marked active. *)
Lemma active_slot V k :
  (k < 4)%nat -> 512 <= Z.of_nat (length V) ->
  slice (splice V 446 [0x80]) (446 + 16 * Z.of_nat k) 16 =
    if (k =? 0)%nat then splice (slice V (446 + 16 * Z.of_nat k) 16) 0 [0x80] else slice V (446 + 16 * Z.of_nat k) 16.
Proof.
  intros Hk Hl. destruct (Nat.eqb_spec k 0) as [->|Hk0]; [|apply slice_splice_out; cbn; lia].
  change (446 + 16 * Z.of_nat 0) with 446. apply list_eq. intros i.
  assert (Ls : length (slice V 446 16) = 16%nat) by (apply length_slice; lia).
  rewrite (splice_lookup (slice _ _ _)) by (rewrite ?Ls; cbn; lia). rewrite !slice_lookup. cbn [length].
  destruct (decide (i < Z.to_nat 16)%nat); [|by rewrite decide_False by lia].
  rewrite splice_lookup by (cbn; lia). cbn [length]. destruct (decide (0 <= Z.of_nat i < 0 + Z.of_nat 1)).
  - rewrite decide_True by lia. f_equal; lia.
  - by rewrite decide_False by lia.
Qed.

(** C12 What an installation without [--force] does to an ISOHYBRID image whose GPT it
    converts: if it reports success, then, whatever faults occurred, the four
    entries of the new MBR are those of the partitions in use, in their order, with
    type, first sector, length and both cylinder-head-sector addresses, the first
    one marked active; they all start at sector 63 or later; the disk number is the
    random one; the boot sector names byte 512 as the place of stage 2; behind the
    image a byte is zero in the first 34 blocks and in the blocks of the secondary
    table, and untouched everywhere else; and the other bytes are those of the
    image. *)
Theorem isohybrid_conversion fault LONG_MAX be img rand file o s out lb ps :
  0 < LONG_MAX -> 512 < Z.of_nat (length img) < 2 ^ 63 -> s_size s < 2 ^ 63 -> is_bytes (s_bytes s) ->
  uninstall_mode o = false -> force o = false ->
  gpt_block (s_bytes s) = Some lb -> conversion o (s_bytes s) lb = Some ps ->
  run_install fault LONG_MAX be img rand file o (opened s) = Some out -> status out = EXIT_SUCCESS ->
  let V := s_bytes s in
  let V' := s_bytes (device (final out)) in
  Forall (fun p => 63 <= lba_start p) ps /\
  (forall k, (k < 4)%nat -> slice V' (446 + 16 * Z.of_nat k) 16 =
     if (k =? 0)%nat then splice (mbr_slot ps k) 0 [0x80] else mbr_slot ps k) /\
  slice V' 0x1b8 4 = disk_id rand /\
  slice V' 0x1a4 8 = le_bytes 8 512 /\
  (forall i, Z.of_nat (length img) <= Z.of_nat i -> V' !! i = if decide (wiped V lb i) then Some 0 else V !! i) /\
  (forall i, Z.of_nat i < Z.of_nat (length img) -> ~ (218 <= Z.of_nat i < 224) -> ~ (420 <= Z.of_nat i < 428) ->
     ~ (440 <= Z.of_nat i < 510) -> V' !! i = img !! i).
Proof.
  intros HL Hi Hs HV Hm Hf Hg Hc Erun Hst V V'.
  destruct (isohybrid_disk fault LONG_MAX be img rand file o s out lb ps) as (Hn & Hok & Hlb & H34 & Halt & Himg & Hp & HW);
    [done..|]. fold V V' in HW. set (V1 := converted rand V lb ps) in *. fold V in H34, Halt.
  assert (L1 : length V1 = length V) by apply length_converted.
  assert (Hmid : forall q n, 440 <= q -> 0 <= n -> q + n <= 510 -> slice V' q n = slice (splice V1 446 [0x80]) q n).
  { intros q n Hq Hn0 Hqn. apply list_eq. intros i. rewrite !slice_lookup. destruct (decide _); [|done].
    by rewrite HW, decide_True by lia. }
  split; [exact (proj1 (partition_high_converted rand V lb Hlb ps Hn Hok H34 Halt) Hp)|]. split; [|split; [|split; [|split]]].
  - intros k Hk. rewrite Hmid, active_slot by lia. unfold V1.
    by rewrite (converted_slot rand V lb Hlb ps Hn Hok H34 Halt k Hk).
  - rewrite Hmid by lia. rewrite slice_splice_out by (cbn; lia). by apply converted_disk_id.
  - apply list_eq. intros i. rewrite slice_lookup. destruct (decide _).
    + rewrite HW, decide_False, decide_True by lia. f_equal. lia.
    + symmetry. apply lookup_ge_None_2. rewrite length_le_bytes. lia.
  - intros i H1. by rewrite HW, decide_False, decide_False, decide_False by lia.
  - intros i H1 H2 H3 H4. by rewrite HW, !decide_False, decide_True by lia.
Qed.

(** With logical blocks of 4096 bytes the blocks zeroed for the primary table reach
    over the volume descriptor of the ISO 9660 file system: an image that still had
    its signature before the installation has lost it. *)
Theorem isohybrid_4k_loses_iso fault LONG_MAX be img rand file o s out ps :
  0 < LONG_MAX -> 512 < Z.of_nat (length img) <= 32768 -> s_size s < 2 ^ 63 -> is_bytes (s_bytes s) ->
  uninstall_mode o = false -> force o = false ->
  gpt_block (s_bytes s) = Some 4096 -> conversion o (s_bytes s) 4096 = Some ps ->
  run_install fault LONG_MAX be img rand file o (opened s) = Some out -> status out = EXIT_SUCCESS ->
  slice (s_bytes s) 32769 5 = bytes_of "CD001" /\
  slice (s_bytes (device (final out))) 32769 5 = zeros 5.
Proof.
  intros HL Hi Hs HV Hm Hf Hg Hc Erun Hst.
  destruct (isohybrid_disk fault LONG_MAX be img rand file o s out 4096 ps) as (_ & _ & _ & H34 & _ & _ & _ & HW);
    [done|lia|done..|]. split.
  - unfold conversion, mbr_conversion, is_iso in Hc. destruct (gpt2mbr_allowed o); [|done].
    by destruct (bool_decide_reflect (slice (s_bytes s) 32769 5 = bytes_of "CD001")).
  - apply slice_zero; [lia..|]. intros i Hi'. rewrite HW, decide_False, decide_False, decide_False by lia.
    apply decide_True. left. lia.
Qed.

(** C14 An installation without [--force] on a device that works succeeds: on an MBR
    that passes the checks, on a GPT whose partitions can all be converted and lie
    at sector 63 or later, and on a GPT that has a BIOS boot partition of 32 KiB
    without a file system in it. The undo log, with room for 256 writes, never fills
    up: there are at most 97. *)
Theorem install_succeeds LONG_MAX be img rand file o s :
  0 < LONG_MAX -> 512 < Z.of_nat (length img) < 2 ^ 63 -> 33280 <= s_size s < 2 ^ 63 -> is_bytes (s_bytes s) ->
  whole (s_bytes s) -> uninstall_mode o = false -> force o = false ->
  ready img (gpt2mbr_allowed o) (chosen_ndx o) (s_bytes s) ->
  exists out, run_install sound LONG_MAX be img rand file o (opened s) = Some out /\ status out = EXIT_SUCCESS.
Proof. apply run_install_succeeds. Qed.

(** ** At concrete inputs: a device of 102 blocks with a GPT of two entries, the
    second one in use; the same with the mark of an ISO 9660 file system; and one of
    280 blocks with such a mark and logical blocks of 4096 bytes *)

Definition demo_header (lb alt : Z) : list Z :=
  bytes_of "EFI PART" ++ zeros 24 ++ le_bytes 8 alt ++ zeros 32 ++ le_bytes 8 2 ++ le_bytes 4 2 ++ le_bytes 4 128.
Definition demo_entry (type : list Z) (first last : Z) : list Z :=
  type ++ repeat 1 16 ++ le_bytes 8 first ++ le_bytes 8 last.
Definition esp_type : list Z := le_bytes 8 0x11d2f81fc12a7328 ++ le_bytes 8 0x3bc93ec9a0004bba.

Definition demo_gpt (blocks lb alt : Z) (entry : list Z) : list Z :=
  splice (splice (splice (zeros (blocks * 512)) lb (demo_header lb alt)) (alt * lb) (bytes_of "EFI PART"))
    (2 * lb + 128) entry.

Definition gpt_disk : stream := Stream (demo_gpt 102 512 101 (demo_entry bios_boot_type 34 97)) 0 0.
Definition iso_disk : stream := Stream (splice (demo_gpt 102 512 101 (demo_entry esp_type 64 70)) 32769 (bytes_of "CD001")) 0 0.
Definition iso_disk_4k : stream := Stream (splice (demo_gpt 280 4096 34 (demo_entry esp_type 64 70)) 32769 (bytes_of "CD001")) 0 0.

Lemma bytes_of_bytes t : is_bytes (bytes_of t).
Proof.
  induction t as [|c t IH]; [apply Forall_nil_2|]. apply Forall_cons_2; [|exact IH].
  pose proof (Ascii.nat_ascii_bounded c). lia.
Qed.

Lemma demo_bytes blocks lb alt entry : is_bytes entry -> is_bytes (demo_gpt blocks lb alt entry).
Proof.
  intros He. repeat apply splice_bytes; [apply zeros_bytes| |apply bytes_of_bytes|exact He].
  repeat apply Forall_app_2; first [apply le_bytes_range|apply zeros_bytes|apply bytes_of_bytes].
Qed.

Lemma demo_entry_bytes type first last : is_bytes type -> is_bytes (demo_entry type first last).
Proof.
  intros Ht. repeat apply Forall_app_2; [exact Ht| |apply le_bytes_range..].
  repeat (apply Forall_cons_2; [lia|]). apply Forall_nil_2.
Qed.

Lemma length_demo blocks lb alt entry : 0 <= blocks -> Z.of_nat (length (demo_gpt blocks lb alt entry)) = blocks * 512.
Proof. intros Hb. unfold demo_gpt. rewrite !length_splice. apply length_zeros. lia. Qed.

Lemma gpt_disk_bytes : is_bytes (s_bytes gpt_disk).
Proof.
  apply demo_bytes, demo_entry_bytes, bytes_of_bytes.
Qed.

Lemma iso_disk_bytes : is_bytes (s_bytes iso_disk).
Proof.
  apply splice_bytes; [|apply bytes_of_bytes]. apply demo_bytes, demo_entry_bytes, Forall_app_2; apply le_bytes_range.
Qed.

(** The answers of the table, by evaluation. *)
Record table (V : list Z) (lb alt base count : Z) : Prop := {
  t_block : gpt_block V = Some lb;
  t_alt : gpt_alternate V lb = alt;
  t_base : gpt_base V lb = base;
  t_count : gpt_count V lb = count;
  t_size : gpt_entry_size V lb = 128;
  t_secondary : has_gpt V (alt * lb) = true;
}.

Lemma table_sound V lb alt base count :
  table V lb alt base count -> alt * lb + 96 <= Z.of_nat (length V) < 2 ^ 63 ->
  0 <= base -> base + count * 128 <= Z.of_nat (length V) -> 0 <= count ->
  sound_gpt V lb.
Proof.
  intros [_ Ea Eb Ec Es Eh] Hl H0 Hb Hc. split; [lia|rewrite Ea; lia|by rewrite Ea|lia|].
  intros i Hi. unfold entry_pos. rewrite Eb, Es. lia.
Qed.

Lemma gpt_disk_table : table (s_bytes gpt_disk) 512 101 1024 2.
Proof. split; vm_compute; reflexivity. Qed.

Lemma gpt_disk_keeps : conversion demo_opts (s_bytes gpt_disk) 512 = None.
Proof. vm_compute. reflexivity. Qed.

(** Its BIOS boot partition, entry 1: sectors 34 to 97. *)
Lemma gpt_disk_part :
  first_lba (s_bytes gpt_disk) (entry_pos (s_bytes gpt_disk) 512 1) = 34 /\
  last_lba (s_bytes gpt_disk) (entry_pos (s_bytes gpt_disk) 512 1) = 97.
Proof. split; vm_compute; reflexivity. Qed.

Lemma gpt_disk_stage2 : stage2_in (s_bytes gpt_disk) 512 None 1 (34 * 512).
Proof.
  destruct gpt_disk_part as [P1 P2]. unfold stage2_in, stage2_entry, part_bytes.
  rewrite (t_count _ _ _ _ _ gpt_disk_table), P1, P2. split; [|lia]. split; [lia|].
  split; [vm_compute; reflexivity|]. intros k Hk. assert (k = 0) as -> by lia. vm_compute. reflexivity.
Qed.

Lemma length_gpt_disk : Z.of_nat (length (s_bytes gpt_disk)) = 102 * 512.
Proof. apply length_demo. lia. Qed.

Lemma length_iso_disk : Z.of_nat (length (s_bytes iso_disk)) = 102 * 512.
Proof. cbn [iso_disk s_bytes]. rewrite length_splice. apply length_demo. lia. Qed.

Lemma gpt_disk_ready : ready demo_img true None (s_bytes gpt_disk).
Proof.
  pose proof length_gpt_disk as L. pose proof gpt_disk_table as T. pose proof gpt_disk_keeps as K.
  split; [rewrite L; cbn; lia|]. rewrite (t_block _ _ _ _ _ T). split; [apply (table_sound _ _ _ _ _ T); rewrite ?L; lia|].
  unfold conversion in K. cbn [demo_opts gpt2mbr_allowed] in K. rewrite K. exists 1, (34 * 512).
  split; [exact gpt_disk_stage2|]. destruct gpt_disk_part as [P1 P2]. unfold part_bytes. rewrite P1, P2.
  split; [lia|]. split; [|rewrite L; cbn; lia]. split; [vm_compute; discriminate..|rewrite L; lia].
Qed.

Lemma iso_disk_table : table (s_bytes iso_disk) 512 101 1024 2.
Proof. split; vm_compute; reflexivity. Qed.

(** Its EFI system partition, sectors 64 to 70. *)
Definition iso_part : part_to_conv := PartToConv 64 70 [1; 2; 0] [1; 8; 0] 0xef.

Lemma iso_disk_converts : conversion demo_opts (s_bytes iso_disk) 512 = Some [iso_part].
Proof. vm_compute. reflexivity. Qed.

Lemma iso_disk_ready : ready demo_img true None (s_bytes iso_disk).
Proof.
  pose proof length_iso_disk as L.
  pose proof iso_disk_table as T. pose proof iso_disk_converts as K. split; [rewrite L; cbn; lia|].
  rewrite (t_block _ _ _ _ _ T). split; [apply (table_sound _ _ _ _ _ T); rewrite ?L; lia|].
  unfold conversion in K. cbn [demo_opts gpt2mbr_allowed] in K. rewrite K, (t_alt _ _ _ _ _ T), L.
  split; [|lia]. by repeat constructor.
Qed.

(** The runs on these devices. *)
Lemma demo_succeeds s blocks :
  Z.of_nat (length (s_bytes s)) = blocks * 512 -> 65 <= blocks < 2 ^ 50 -> is_bytes (s_bytes s) ->
  ready demo_img true None (s_bytes s) ->
  exists out, demo_run (fun _ => None) demo_opts s = Some out /\ status out = EXIT_SUCCESS.
Proof.
  intros L Hb HV Hr. apply run_install_succeeds; [lia|cbn; lia|unfold s_size; rewrite L; lia|exact HV| |done|done|exact Hr].
  unfold whole. rewrite L. by apply Z_mod_mult.
Qed.

Lemma install_succeeds_witness :
  exists out, demo_run (fun _ => None) demo_opts iso_disk = Some out /\ status out = EXIT_SUCCESS.
Proof.
  apply (install_succeeds (2 ^ 63 - 1) false demo_img demo_rand (fun _ => None) demo_opts iso_disk).
  - lia.
  - cbn. lia.
  - unfold s_size. rewrite length_iso_disk. lia.
  - exact iso_disk_bytes.
  - unfold whole. by rewrite length_iso_disk.
  - reflexivity.
  - reflexivity.
  - exact iso_disk_ready.
Defined.

Lemma gpt_install_keeps_disk_witness :
  exists out, demo_run (fun _ => None) demo_opts gpt_disk = Some out /\
    slice (s_bytes (device (final out))) (34 * 512) 88 = drop 512 demo_img /\
    slice (s_bytes (device (final out))) 0x1a4 8 = le_bytes 8 (34 * 512).
Proof.
  destruct (demo_succeeds gpt_disk 102 length_gpt_disk ltac:(lia) gpt_disk_bytes gpt_disk_ready) as (out & E & Es). exists out.
  split; [exact E|].
  destruct (gpt_install_keeps_disk sound (2 ^ 63 - 1) false demo_img demo_rand (fun _ => None) demo_opts gpt_disk out 512)
    as (j & loc & (Hj & _ & _ & El & _) & _ & H).
  - lia.
  - cbn. lia.
  - unfold s_size. rewrite length_gpt_disk. lia.
  - exact gpt_disk_bytes.
  - reflexivity.
  - reflexivity.
  - exact (t_block _ _ _ _ _ gpt_disk_table).
  - exact gpt_disk_keeps.
  - exact E.
  - exact Es.
  - assert (j = 1) as -> by exact (stage2_entry_unique _ _ _ _ _ Hj (proj1 gpt_disk_stage2)).
    destruct gpt_disk_part as [P1 _]. rewrite P1 in El, H. subst loc. destruct (H ltac:(lia)) as (H1 & H2 & _).
    split; [exact H1|exact H2].
Defined.

Lemma isohybrid_conversion_witness :
  exists out, demo_run (fun _ => None) demo_opts iso_disk = Some out /\
    slice (s_bytes (device (final out))) 446 16 = [0x80; 1; 2; 0; 0xef; 1; 8; 0; 64; 0; 0; 0; 7; 0; 0; 0] /\
    slice (s_bytes (device (final out))) 462 16 = zeros 16.
Proof.
  destruct (demo_succeeds iso_disk 102 length_iso_disk ltac:(lia) iso_disk_bytes iso_disk_ready) as (out & E & Es). exists out.
  split; [exact E|].
  destruct (isohybrid_conversion sound (2 ^ 63 - 1) false demo_img demo_rand (fun _ => None) demo_opts iso_disk out 512 [iso_part])
    as (_ & H & _).
  - lia.
  - cbn. lia.
  - unfold s_size. rewrite length_iso_disk. lia.
  - exact iso_disk_bytes.
  - reflexivity.
  - reflexivity.
  - exact (t_block _ _ _ _ _ iso_disk_table).
  - exact iso_disk_converts.
  - exact E.
  - exact Es.
  - split; [exact (H 0%nat ltac:(lia))|exact (H 1%nat ltac:(lia))].
Defined.

Lemma iso_disk_4k_table : table (s_bytes iso_disk_4k) 4096 34 8192 2.
Proof. split; vm_compute; reflexivity. Qed.

Lemma iso_disk_4k_converts : conversion demo_opts (s_bytes iso_disk_4k) 4096 = Some [iso_part].
Proof. vm_compute. reflexivity. Qed.

Lemma iso_disk_4k_bytes : is_bytes (s_bytes iso_disk_4k).
Proof.
  apply splice_bytes; [|apply bytes_of_bytes]. apply demo_bytes, demo_entry_bytes, Forall_app_2; apply le_bytes_range.
Qed.

Lemma length_iso_disk_4k : Z.of_nat (length (s_bytes iso_disk_4k)) = 280 * 512.
Proof. cbn [iso_disk_4k s_bytes]. rewrite length_splice. apply length_demo. lia. Qed.

Lemma iso_disk_4k_ready : ready demo_img true None (s_bytes iso_disk_4k).
Proof.
  pose proof length_iso_disk_4k as L. pose proof iso_disk_4k_table as T. pose proof iso_disk_4k_converts as K.
  split; [rewrite L; cbn; lia|]. rewrite (t_block _ _ _ _ _ T). split; [apply (table_sound _ _ _ _ _ T); rewrite ?L; lia|].
  unfold conversion in K. cbn [demo_opts gpt2mbr_allowed] in K. rewrite K, (t_alt _ _ _ _ _ T), L.
  split; [|lia]. by repeat constructor.
Qed.

Lemma isohybrid_4k_loses_iso_witness :
  exists out, demo_run (fun _ => None) demo_opts iso_disk_4k = Some out /\
    slice (s_bytes iso_disk_4k) 32769 5 = bytes_of "CD001" /\
    slice (s_bytes (device (final out))) 32769 5 = zeros 5.
Proof.
  destruct (demo_succeeds iso_disk_4k 280 length_iso_disk_4k ltac:(lia) iso_disk_4k_bytes iso_disk_4k_ready) as (out & E & Es).
  exists out. split; [exact E|].
  apply (isohybrid_4k_loses_iso sound (2 ^ 63 - 1) false demo_img demo_rand (fun _ => None) demo_opts iso_disk_4k out [iso_part]).
  - lia.
  - cbn. lia.
  - unfold s_size. rewrite length_iso_disk_4k. lia.
  - exact iso_disk_4k_bytes.
  - reflexivity.
  - reflexivity.
  - exact (t_block _ _ _ _ _ iso_disk_4k_table).
  - exact iso_disk_4k_converts.
  - exact E.
  - exact Es.
Defined.
