(* ===== verification/LimineImage.v ===== *)
(** The boot loader that [limine/limine.c] installs: the bytes of
    [limine/limine-bios-hdd.h], the facts about them that the installer relies on,
    and the installation of this image on a device with an MBR. *)

From stdpp Require Import strings.
From S2P Require Import Prelude LimineFormat LimineDisk LimineUndo LimineInstall LimineRollback LimineMbr LimineGpt LimineProgress.

(** ** The image

    The array in pieces of 142 lines, each line a string with its bytes as pairs of
    hexadecimal digits. *)

Definition hex_digit (c : Ascii.ascii) : Z :=
  let n := Z.of_nat (Ascii.nat_of_ascii c) in if n <? 58 then n - 48 else n - 87.

Fixpoint hex (t : string) : list Z :=
  match t with
  | String a (String b t) => 16 * hex_digit a + hex_digit b :: hex t
  | _ => []
  end.

Definition hdd_bin_0 : list Z := flat_map hex [
  "eb3c904c494d494e4520200002000000";
  "00000000000000001200020000000000";
  "00000000000000000000004c494d494e";
  "4520202020200000000000000000fafc";
  "ea457c000031f68ede8ec68ed6bc007c";
  "fb80fa800f821a0180fa8f0f871201b4";
  "41bbaa55cd130f82060181fb55aa0f85";
  "fd0068007007bfa47d668b05668b6d04";
  "31db66b9007e0000e855000f82df000f";
  "0116587dfa666a0066bd100000000f20";
  "c00fbae8000f22c0ea837d0800000000";
  "00000000000000000000000000000000";
  "00000000000000000000000000000000";
  "00000000000000000000000000000000";
  "60be008066c70410000100895c048c44";
  "06525666506655b448be1080c7041e00";
  "cd13724e660fb76c189166c1e91089ca";
  "31c9f7f585d20f95c101c1665a66585e";
  "665066926631d266f7f56693665866f7";
  "f56689440866895c0c5ab442f8cd1372";
  "15016c0466834408016683540c00e2ea";
  "eb0483c40cf961c31700567d0000ffff";
  "0000009bcf00ffff00000093cf004646";
  "464681c6304f6800b8072689360000fb";
  "f4ebfd8edd8ec58ee58eed8ed581e2ff";
  "00000052688755000068f0000700e85d";
  "82060000000000000000000000000000";
  "00000000000000000000000000000000";
  "00000000000000000000000000000000";
  "00000000000000000000000000000000";
  "00000000000000000000000000000000";
  "000000000000000000000000000055aa";
  "fc8b5c24048b2b8d5304035c2408bf00";
  "f000000fb60a8d720189c8c1e90383e1";
  "0f83f90f750a0fb64a018d720283c10f";
  "f3a439de733584c079088d56020fb736";
  "eb068d56010fb63624073c0774050fb6";
  "c0eb070fb6024283c00789f929f189ce";
  "8d4804f3a439da7302eba8ba00f00000";
  "89d631c04839fa74228d4a010fb61231";
  "d06a085a89c383e001d1ebf7d8252083";
  "b8ed31d84a75ed89caebdaf7d039e875";
  "120fb644240c8b4c241089f431ed5150";
  "5556c3bad4000700b800800b000fb60a";
  "83c0024280cd4f668948fe3d2c800b00";
  "75ebfaf46c696d696e6520696e746567";
  "72697479206572726f72909090909090";
  "420f27de7800fc30c0bf586d0500b9d8";
  "08060081e90b7c16f3aa0f0115abf000";
  "00ea23f000001800b8200000008ed88e";
  "c08ee08ee88ed0e9fc0c0000cc017814";
  "5589e55683ec0689d666c745f6ff03c7";
  "45f8000000008d45f689cafafcbc007c";
  "0000bf057e05b900020000f3a40f0118";
  "6a086879f00000cbb810547e06d00f20";
  "c024fe0f22c066b898f000006a0050cb";
  "31c01e68fb6a0068007ccb4700586101";
  "005f2aff00bc070684200f011dfaab37";
  "cef0000008005505670fbaf0000f22c0";
  "eaeaf00000520228f4ebfdff03aa7a00";
  "8a442404a283f100008b442408a3f409";
  "510ca3f8f100000f0105fc07180d04f2";
  "0e601d0cf2000053565755ea3bf16d07";
  "c20a19ea55f16b7814d036668926f0f1";
  "36668b26f8f10fa90fa1071f669d665d";
  "665f665e665a6659665b66581c36f0f1";
  "fbcd00fa2c780ff4f167668d64242866";
  "50665366516652665666576655669c1e";
  "060fa00fa8320028210f0116fc07401e";
  "04f20f20c00c0179becef1180066b820";
  "01013fd05d5f5e5bc39001030f000110";
  "8012010615f8009c2e66ff0612f29d2e";
  "ff2e16f28b15050240891516f20000c7";
  "050c601af200008b542404c70512f244";
  "8130019138f330010940079b1d48f330";
  "01976bf230010f9785f29b010440c606";
  "4ef300c6065205d056f30066391612f2";
  "742e0d01b0b40130c0cd163f01780774";
  "e931c0cd16a252f3882656f3b80002cd";
  "16a804740a3ab904800652f360fa2401";
  "9138f32401f80f40f30f20c380cb010f";
  "22c3eaf3f2180066bb20008edb8ec38e";
  "e38eeb8ed32501098bd80989e4790380";
  "3d56f3000000741bff354ef30000ff35";
  "52060015e7e88f5c010083c40cc331c0";
  "c33c010d0406842303f9008b442404a3";
  "00f40000c30f010504f44f02090c079a";
  "1d14f44f02bf8d6c2414ea8ef353020f";
  "92a8f3530284db027804fbff7604ff76";
  "08ff7600ff1e00f483c406fa2eef1004";
  "f4071e1e0cf4ef17e2f3ef05ae25ffff";
  "000019028f9008020ff8035589e55357";
  "5683ec0c8b75140fbd4510b93fe40179";
  "1f44c183f01f83c0200fbdd683f21f85";
  "f60f44d089d08b550889d30fbdd20f44";
  "d183f21f83c2208b750c0fbdce83f121";
  "f1ca89c2894dec29ca31c983fa3fbf2a";
  "02d8879e000000750789d9e9935702f9";
  "07d1fec189df0fadf78955f089f2d3ea";
  "f6c1200f45fab95402f80845d1b13f2a";
  "4df00fa5ded3e3f6c12089d90f45f3c7";
  "45f0bb030abb21783fcbf7d00345ec89";
  "45e831db0fa4fa010fa4f7010fa4ce01";
  "0b75f08d0c4b894dec89d1f7d189fbf7";
  "d38b451001c38b451411c189cbc1eb1f";
  "c1f91f89c8234514234d1029cf8b4dec";
  "19c2ff45e875bd3b0038ecf789c889fa";
  "83c40c5e5f5b5dc30b01ca108b55140f";
  "bd4d10b80b017c07c883f11f83c1200f";
  "bdda83f31f85d20f44d90fbd4d081882";
  "050199fe83f70501f803f989d929f983";
  "f93f760a8b450889f2e9a6002704a183";
  "f93fba3b039084965f03fe015df089cb";
  "fec1897de88b7d0889f80fad0e018ec2";
  "0e01fe0428d90fa5fed3e7f6c1208b4d";
  "f00f45f7c745e40e01fa0b45fb897dec";
  "f7d1034de831db894df00fa4c2010fa4";
  "f0018b4dec14018ee41401f589c3f7d3";
  "8b7d1001fb8b7d1411f9140199cf237d";
  "1401e7c88b4df019fa4175b983c41005";
  "0102f810388b7d188b45088b40140faf";
  "c73d018000000f83b80000008b55148b";
  "5d10a14d06a085c07518b40578018000";
  "0089d6e82d3d000089f283c408a31cf8";
  "1f8d75e466c706100066897e0289c1c1";
  "e90466894e0683e00f66894604895e08";
  "89560c8d5dbc6a246a0053e8a122006f";
  "0338c743240042000074782e00894318";
  "89f083e00c894314c1ee046689730653";
  "536a13e836faffff83c40cbe02000000";
  "f643080175208b450c31f685c074178b";
  "4d080faf791457ff359a1a50e82955a9";
  "89f083c438dd01d468595901006a00e8";
  "e925f402782381ec00010000b8750400";
  "008a008d8d1effffff89cfc1ef0483e1";
  "0e894da48d4dcc89ca83e20c8955b0c1";
  "e904894dac8d8d3c220214099c14e0a0";
  "0fb6c08945c031c040bb8038054845c4";
  "8945c8c745e0000d20fe897da8e1528d";
  "bdf6feffff57e8ba21e7b8851affffff";
  "004808027805dc899d0effffff6689b5";
  "fcfeffff8b45a489850a1010c7858d49" ]%string.

Definition hdd_bin_1 : list Z := flat_map hex [
  "1e0057576a13e841f9f5f808f685fefe";
  "ffff010f85490500000fb78520ffffff";
  "83e0045c01b802894df0c745ec490319";
  "6683bd3b81350368726c0fb78d3affff";
  "ff0fb79538bcf800ce6609d674570fb7";
  "d289ce21d681fe2404f91974486685c0";
  "0f9545e8c1e1048d34110fb64c1103c1";
  "e10881f900a000000f94c18b45f00fb6";
  "c0ba018403f935c20a4de88975ec7511";
  "0fb7460aa8207507c0e8062401eb02b0";
  "018945f0536884000000e84844000083";
  "c40889c68b45dc8906895e10895e3489";
  "5e30c7461cffffffff8b3d39029bff75";
  "1639021ae8f63a3089c73702f903c745";
  "cc1000010089f8c1e804668945d289f8";
  "3402fa0645d0895dd8895dd46a24538d";
  "9d64ffffff53e86b2036029145883602";
  "200689857c602945b089857809e8ac66";
  "89856affffff6a28538d85bb011a50e8";
  "1434f9098b45d88945988b45d4894594";
  "8b45cc8b4dd0894d9089458cca023231";
  "c05057e80e2981750293c1f78001916c";
  "ff800128b6030000bb2a02cc73807c1f";
  "ff0075054b75f631db6a286a198d8564";
  "7113a31f71108c8b627901cc894dd08b";
  "45948945d48b45988945d8714268ff00";
  "000057e89b2b033a2f506a13e8487904";
  "2f3d030000b87901f81007ffff750f48";
  "75f6895e1485db750de91c03000039c3";
  "0f47c38946148b852e6f01909d32b402";
  "f902c183c10189da83d20083f90283da";
  "00b9ffc902f929722b8b56148d8aff01";
  "000085d20f49ca89cac1fa098955e4c1";
  "f91f0fafc8f765e401ca0faf5de401d3";
  "89c289d9895638894e3c8b4dec85c991";
  "05f8128b55f07408b001f6410a40750d";
  "817e14000800000fb6c20f45c388460c";
  "817ddc9f2b04234de0750f1c79287506";
  "c6460c01eb0e84d2740684c07506eb22";
  "84c0740b8b4dc489c841894dc4eb1c8b";
  "45c039c175088945e0e9540200004189";
  "4de08b4dc81ec4c889460885ff751433";
  "02a4c33800006804f90b31d231c94131";
  "c0488945f08945ec8975e88b3c95604f";
  "01008b46b80480d201f10f870e010000";
  "8955b4894de466c7a101809804a9bd3e";
  "ffffffc80483a004908d425303806f02";
  "d08540ffffff31db899d483e01909d44";
  "4303c1318945b8f7da8955b504908db5";
  "a601a756e8e61d850202a445e88b0088";
  "028c9c88028ba08802bf56566a13e874";
  "f5d4010120755a01bd5d10839569fa2f";
  "0001fb83fb40729f0f318b75b8f7de8b";
  "5dbc83db0001c611d38b4df039ce89d8";
  "8b55ec19d00f42d38955ec0f42ce894d";
  "f08b4de40f42cf8b55b44283fa099601";
  "f90d75e80f85fafeffffeb1e0fb64589";
  "8b75e8ff365068ad510100e8de2f1105";
  "90b9089206f1db894e0489f083c04456";
  "50e8a524b103f81584c07404c6464001";
  "a1dc9d05008d0c8504000000c1e00253";
  "515350ff35d89d0500e8fa3f53051014";
  "a30d118b0d272051018915309b893488";
  "ff03934940cf03b2535650e8d526d402";
  "7f00480383f902727e31db4383f8ff74";
  "3f63042c31d2525152650f956510c93c";
  "88ff461ceb106a006a04a157e8ed3ea6";
  "03031010e8cea0047b0a5a7b80fb024b";
  "034383f901778589fe391a56e8b439c8";
  "8b75a88b5ddc4381fb6808c00f854ffa";
  "ffff81c41406870e0802d814e8a84c00";
  "0084c00f84c7e004fb05dd4d00000f31";
  "89c68b0dacef05008b1da8ef0500aa08";
  "a189d809c8f908f80374735153528975";
  "e856894df08955e4e898f6b806780210";
  "89c689d1ba40420f00f7e28945ec69c1";
  "0b781301d08945e089f70faf7df089f0";
  "f7e301fa0fafcb01d18b55e829c28b45";
  "e419c869c8261389d0385301caff75f0";
  "535250e8455389d71509f807f0137de0";
  "e8784e0000e86a3b0000e82b4f0000e8";
  "17f98702f8010ca9fdffffff75190fb6";
  "450850e8ae2dec01fa1604eb19683051";
  "0100e9b600000083f8017511e8044600";
  "00e8e7450000a3686d0500eb05a168e0";
  "07c00a6884530100e98d160cd87dec80";
  "780d00740989c1e847017912eb3b89c6";
  "8b401885c075f7837e1cff7c2c31db4b";
  "31ff0fb6460c57ff760850e8026cd00c";
  "85c0740c89c1e8520044017a0a750743";
  "473b5e1c7ed9803d6c6d050000750d68";
  "5a550100e8419818803d6516f8018b75";
  "f08b7dec7416e8962c0200893dcc6102";
  "9035c81e02b9250b010068c252c90794";
  "201ec9075089cf8a1d6d6d0500c60506";
  "d101680957010051e8e50dd8026585c0";
  "753a68da52010057e8d3122028686556";
  "120dc11219166804120caf12980f8486";
  "0b0d13c6885b00b0f81d018b401c8b4e";
  "20ba547d040031c209ca75478d15a071";
  "000029d083d900bfa061010051506a00";
  "525756e8580ef905211856e80109fc01";
  "046a1468543c050068585b0100e8101a";
  "1a0179011b6826570100eb0568f05201";
  "00e83b2c2c9131c0800218c60565ce22";
  "b001ebf084f801ebe65589e583ec348b";
  "55088d4dcce810aa0decc131c085c975";
  "038b45d483c434c20af80881ec580200";
  "0089cf891131c08d8d9cfdffff31f646";
  "50689c0f3950505152e8d11d9d80d302";
  "fc06450200008d85d2fdffff6a03680b";
  "55010050e8c217b80127388d85ee1a01";
  "0da81a201e8d859f1a20056895521a0c";
  "8e1ac00f85f30100008a8d760278110f";
  "b6d1b8f8ffffff3a88105a0100740940";
  "0f84d6010000ebef8955f00fb79da723";
  "11b7d32320663b980824380b83c0020f";
  "84b026f902ec8aadacfdffff88e804fb";
  "3cfc0f829c01f608b8aafdffff8945e0";
  "9f010a8a1209ad12790accc1e0058945";
  "d88d4402ff8955e899f77de88945c00f";
  "b785af1e42e485c075098b85bc0d610f";
  "b785b2fdffff85c08b95c03de8ec8955";
  "d40f44c20fb6d58955d09c03f817c889";
  "55c40fb745e08945dc31c08b55c00355";
  "dc0f92c00355c81345c43b55e483d800";
  "0f830b01ac0afb09e429d031d2f775f0";
  "3df40f00007715c747040c000000b001";
  "1204418b55e0eb303df4ff0a377712c7";
  "4704101f01a8eb14c74704660f814109";
  "8191087805ec31c066895f0c884f0e66";
  "895710886f128b8db8e2e04f148b4dec";
  "894f1885c90f84de0f188b9dc8f9f823";
  "5f2489571c8b4dcc66894f286685c90f";
  "94c184c875738b45ecf765d089c1034d";
  "dc83d20075638b45e84889c2c1fa1f03";
  "45d8060848e201f7da894f2c784abcfb";
  "23e8894730807df0007413894f208d55";
  "9c66895a1ac1eb1066895a14eb0901c1";
  "7225894f2031d231f68d45bc89f95650";
  "e80b022203800e0c88007c02d1bc8947";
  "0889f081c458023b0586870288842401" ]%string.

Definition hdd_bin_2 : list Z := flat_map hex [
  "80ae029898e862860248c985c0740d89";
  "c881c419012af8048b7d0c31f64e807c";
  "37012f8d760174f68b559c400ec92075";
  "148b45bc8d8d781e0bf80b411ac1e810";
  "66894114894dec31c931db89d801f072";
  "b80fb60407a7038988c504f80b2f740b";
  "4381fb0401000075e0eb9c8955f08d04";
  "3753508d8573fef909911b162a0618c6";
  "841d107b01004301de0f823c0100008d";
  "4d988b55ec26bc8d45cc50e82d010004";
  "ca851b010000f645d710940d88840608";
  "106a2025108d9d98a253e8c5156406b8";
  "5dec8b55f0e9622c084055f001f75357";
  "8db5671856e8a4210577036e09566888";
  "c5190e0bc96a90e9fea303b2566a34e8";
  "0a393e0bb2c3566a44e8fde808c8837d";
  "f0208d7598b90d9b11f0c7f3a589c70f";
  "b755e6895034750ca502790cc1e01009";
  "c28957348b75088b45e889473889f883";
  "c040c747400000e1a150e8fc045804f9";
  "1489473c85c0742889d9897b10c74314";
  "f6090100c74318380a01008b47388943";
  "1cc74320c606687304e958feffff837f";
  "380074d297a94457e88237110b32566a";
  "3453e8760cbc31c9e931feffff4c0d80";
  "4f01f90989d689cf0fb6410e0fb7590c";
  "0fafd88d85b8feffff680501ec139ae8";
  "b91425047905f67461895de80fb7561a";
  "837f042075090fb74614c55b8b75e88d";
  "45d489f950e84ab2d0c331c04885db0f";
  "84f2034e0af802d489c8f7e6700d89c6";
  "3d010000100f829940084ae1026a0051";
  "53e8e13695a8c048e9c503210d79174f";
  "28c1e1058d43ff01c8730831c040e9af";
  "03000031d2f7f389c6895de8f7e389c3";
  "0f90c081fb49790c93c108c131c04884";
  "c98975d40f85860300008975f031c050";
  "53e87beb5b088945ec0fb7470cf7672c";
  "58fd0031f6568b75ec51525056ff37e8";
  "82184f05f0c70200008b7df089f2eb4d";
  "31c050ff0715e83843fd0989f98b45f0";
  "89da31ff5731ff565757ff75ec89c750";
  "e8ca048d05886e8d05a104bd00001c15";
  "1a53e80dd4b88b55ec89f989fbdc0940";
  "afdec1eb050f846929db42018945cc8d";
  "420e8945d0730e81070ba8d831ff8955";
  "090bd0897de4c1e7050fb6043acd0688";
  "9e1206f8094df001d7837d0c008a4f0b";
  "741c80f90f0f852a0100003de5c8030b";
  "1a457801e9bc01000080f9080f85b301";
  "0000e90638dac683e61fa8408b45e074";
  "1bce018a20db01a050e8e512e20389ec";
  "6a0f7b0185f68b4df0740939c6750583";
  "fe14761296c08b7de48b75e8e96b6f03";
  "8846bd0578008d04768975c88d048689";
  "45dc8db4054990b8fb1c0e79064dcc8a";
  "54410a885406f84075f531c08b4dd08a";
  "14410ff81083f80675f3ff4ddc31d231";
  "c08a4c571c884c16fea80175120355dc";
  "b00181fa620281a30ec872e2837dc801";
  "0f851cd90f910301110b1180bc63f800";
  "20750883c0ff72f131c048c68405b9fd";
  "0e90803d3008780400b839170100b96f";
  "1701000f45c1ff750c8d8d309b51ffd0";
  "08088880d206f91a4f0b8b55ecf6c108";
  "0f859c000000b8f5ffffffc64405c820";
  "4075f88b450c8a0084c0746131f6c745";
  "dc8901f914db433c2e743483fe080f92";
  "c183fe0a8b55ec77650a4ddcf6c10174";
  "5d0fbec050e85f0feb0728884435bd46";
  "407a0304184384c075caeb1df645dc01";
  "8b4df0752e1688beaf0bfb04b101894d";
  "dc84c075aa6a0b8d45bd5057e81f106f";
  "07b28b4dd40f84a4f90b288b55eceb06";
  "08c24df08b7de44789cb2e0278038345";
  "cc208345d02039df0f82e9fdffffe994";
  "2f012790ebcca502b1ff75ece8a3334a";
  "0b98c1e702ff0ef2e9adfcffff6a0053";
  "56e9a5fcffff5602c9eb606a006a0ce8";
  "6a349304f8038b0f8b57048908895004";
  "8b4f07894807b90b5315907c086601f8";
  "01c64408ff004975f18b4d088901c745";
  "d80807006df8011c6a2057ff750889ce";
  "e88d10000089f1bd0f001e04bdd40faf";
  "ce6a005152e81733a50f9c81c43c2806";
  "00d2bd39df8b55ec732dd502806e0289";
  "cabd025274c301d7807f0b0f74976492";
  "e82b210110eb80798da6d813f0894de8";
  "8b710431c083fe0cb9ef0fd210b8c883";
  "fe10bbefffdd10f90dd809cb83fe20bf";
  "efffff0f0f45fb83fa020f82b4000000";
  "39fa0f87ac5d039889f9497b0d8884d5";
  "1480fc06f8000139c10f42c1f7d88945";
  "f031f646bbce0ce18955e48b4de88d45";
  "ec50e8092707a80485c0756f2103f804";
  "fa02721639fa771283c3048b45f08d44";
  "3001467a0b61d1eb5131ff576a045756";
  "e846f889100908b8e48945ec8b55ec30";
  "041414b85214b70152b00f4739fe75df";
  "6214a0308b45f0120dbb53ff75f0e8dd";
  "31040586cc13b3e557568b751ccb13fb";
  "0748108b513c5657ff7514ff7510ff75";
  "0cff7140e84b000c0ae9740889f889f2";
  "5e5f5dc3685b51610b21bf1200004280";
  "9313a870108b4640ad0d42ff5750ff76";
  "3ce8716c32576a4456e86578003c844e";
  "1688285309d0b6510e894de00fb7410c";
  "5509f805dc31c931d23b4d1889d01b45";
  "1c0f9345f30f83da6d18fa0ace037510";
  "89d7137d146a00ff75dc5756894de489";
  "55d8e864e9340dd1d13b450883da000f";
  "83ad7d14a1d48b14829c01899e6f01f9";
  "0cd08b55182b55e48955ec8b551c1b55";
  "d88955e88b5ddcf7e38945cc490db92b";
  "75cc19cf29f37e15c019fa395dec8b45";
  "e8450f485dec895dec0f4255e831f811";
  "4dd083c1fe8b45e00fb6400ef7e189d1";
  "8b5de003432083d1000fb7530c0fafca";
  "770df90c01f011fa8b4d0c8b75e401f1";
  "8b7de8578b75ec56525051ff33e88303";
  "05ff0ad88b4de483c41801f111fa84c0";
  "0f8514ffffff8a45f383c4285a160278";
  "031889d30fb7710c89f0f7611c8955e4";
  "8945e00b79011889c78b410483f82074";
  "5c83f8100f85dbf90fd8c1e81f01db89";
  "5dec83c3028945f083d00031f64e39df";
  "8b7d0819c2c70789199082e865119845";
  "e0032d02fc01e41355f06a006a025250";
  "57ff31e8ee11e30b9085bcd5050bbe53";
  "211ec1e302540e045437df19c20f829d";
  "4b07300452508b7d084e0ca04ec07479";
  "8067030feb6cc2177a11ded1ee31c089";
  "5dec01de0f92c089f283c2028945dc83";
  "d00039d71945f08b7d08a5780766c745";
  "ea0000723e8b55e001f28b75e41375dc";
  "8d45eaa93d565250ff31e8455ba91b0f";
  "b745ea2b169825ff0f7a09f0ec010f45";
  "c1890731f6eb0331f64eca158c185e0a";
  "a15de9f1f27b089431c0f50cba8b5d0c";
  "53e8b40bea08d3c683c6026a0056e8bb";
  "2f1310fa01803b2f7406c6072f89f840";
  "5350e8040ac604e0450880780d017523" ]%string.

Definition hdd_bin_3 : list Z := flat_map hex [
  "57684f51c70c95c337fb0cca89c36a00";
  "5657e88a2e4904b4365750e8fa002d0e";
  "891065048816cc1180230661740a89c3";
  "89780889700ceb0e360a543680aa0a87";
  "8803017b0808803e017519807e010075";
  "1aff7620ff761cff7610e82763a80756";
  "ff5618ff0d52ff57ff760cff7608e80d";
  "4732576a3456e801538664030850befa";
  "173801754a80780201744e8b75148b4d";
  "108b581c895df08b782029cb89fa19f2";
  "3b4df019fe73390204fa0239fb19f272";
  "2d0348105751ff750ce8080bbd0a88f8";
  "b4178904b70b0308b1ff6014685e5997";
  "0e91a4576b0f96b50e3417902c0ae006";
  "c08d75ca536a055368181888560d0195";
  "7d0f540efd0238030000c645cf006884";
  "4f010056e8ba08520b901e03da08aa6a";
  "14e8232e47069035706710f800f68945";
  "ec741489c78b450839060f84cc08f58b";
  "760c85f675ee6a006a10e8f62d5216a1";
  "088906bfa51598db53687214c853578d";
  "85cbf6ffff50900115fa0e839019048e";
  "14011bb983f80174233dffc30bb00904";
  "000081c7ab14f80081ff0080080075b9";
  "684a570100e9fd5f0af8058571f7ffff";
  "8946088d48ff81f9ffffff030f87ec0b";
  "0aa8c181e1ff07201288de420a2bff57";
  "50e865912846048b8d6935b8cac1e20b";
  "c1e915f8101151528c0e6e8c28ae0300";
  "00a1e82189460c89f1f8058b7dec8b5d";
  "0c89374b807b012f8d5b0174f78b4690";
  "03988b4e084a17f800e031f6460fb603";
  "83f82f750343ebf5830888a3c1147a01";
  "4de484c074210fb6c883f92f741981fe";
  "d47a033c030000888435cafeffff8a04";
  "3346ebdbc60d807809aa85ff8b55f0c1";
  "08f8050fb60285c074403c210f827101";
  "000039c70f82699209888d3f01807005";
  "900e03e51293745115099375485a0199";
  "8d85cb430dc8f3060000eb4681ff01e9";
  "1510822d91d8f9b800f8ffff21c189f8";
  "2522011839cfbf10b98d3c390f45f9b9";
  "11162744c1eb22480491e106611181b4";
  "19f90455d80fb60229c701c285ff0f85";
  "5affffffe9d5d204d8d88b480a807c33";
  "ff000f84682038f64019020f84ba1bb0";
  "7802f645e0013e18e0ff75e4ff75f089";
  "4ddce8e62a1d0c88dc69149a41ff3dba";
  "0188a3c71e09c897900f85751bda01f3";
  "31c0505189cee8a82bd30bbcf9c1e10b";
  "c1ef153b0bc1d2525657518945f0be01";
  "90b00ccb1a814c02b189f18b7decbeff";
  "18908567a70d98db53526c0792712a22";
  "182a6a1457e8650c11eb429c200e6a00";
  "51220a4f2280f0021957eb1d1b0c10b7";
  "16e8321d80800995232a3104a381c42c";
  "0a470fa8894ddc8b45e615aa01c88945";
  "d0ab01a98b55d8e863d90ae8d831db43";
  "807e190089d8c745d4e00613797309f8";
  "1331c0408945e889f18b55d0e8790200";
  "0085c0744e89c68dbdcbf5ffff89f989";
  "c2e822e30b88bd97019c00743443039b";
  "e81105e00480571ba0dc03460ad00590";
  "55d4d716893d2b1a100e4070f90b78a3";
  "eb0a8b45e8eb05b80000010031c9516a";
  "08515089c6e8862a08079883c410aa10";
  "a8411089710c6319904108091ad04104";
  "8975e8f7de8b4202fd024a4f108944d9";
  "f88b420a0a40fc3b5de8731089d1b088";
  "c9ea0288c25405a88d441e01439e148f";
  "ca3c010494f6285901a334e8da29300f";
  "0074f80d4810c7401412150100c74018";
  "881601008b41048b490889431c894b20";
  "3c04a04304e99c910ec9d6540100eb0c";
  "68aa58e4048aa8181cfd03d109000068";
  "c5510100ebf2689b520100ebeb1a1ff8";
  "05894df08a1a0fb6cb0fb642208d7021";
  "8975e839ce85179087ab0423f8037402";
  "2189cf29c783c7dfa801750a85ff0f84";
  "620bc1464f83ff040f8289e70ffc1d31";
  "c0807e030175610fb6560285d2745939";
  "d77255803e4e754180fa05723c807e01";
  "4d75368d5c02fb81fb0001681df183c2";
  "fb0345f08d4e05525150e85b9b01aa0c";
  "f6460401441e004a7802b101eb0289c3";
  "29d701d683ff0389d8779b0fd0b001f6";
  "c1018b75f075670d1efa18b641208a19";
  "0fb6cb8d50218955e889da31db80fa22";
  "8d51df0f42d3394de80f46d085d27435";
  "31db7115fc2b0fb6441f2183f82e7407";
  "83f83b7510eb238d4b0139d17307807c";
  "1f223b741588041e4339da75d931c089";
  "d3eb0931c08b75f0eb0231c0c6041e00";
  "411fb9b001ebe9681d589f1592810868";
  "1df801560fb60185c0742a01c131c039";
  "d10f83291dc98a1984db744b80fb2143";
  "12f90672700fb6f329ca31c039f20f43";
  "c1eb624131db81c1ba03c092c389def7";
  "de81e16704f80831c031de0f95c30f45";
  "c839d10f93c208da753931c08039b40d";
  "17eb2f331928c708df75067a9e75865e";
  "ed1facec308b4d18e10a890c2b14b00f";
  "94c00b4d1c141dc10f94c108c10f8520";
  "eb138914b71bb9108945dc8b450c680f";
  "b031c9418b4518ab0b90451c050c88db";
  "9f0ee08975e0895dcc8b7610894dd08f";
  "1af80174cefc01f283d0008b5ddc8955";
  "c439d3c710c8ca8945c819c20f838b6d";
  "23d1f831ff89da29c21b4dccea208213";
  "01d80489cb89d0895de429c619f60cf9";
  "0039f28b5df089d919f9895df00f42fb";
  "021afc1bf28b4dd08b55e88b54caf889";
  "d1c1e915c1e20b01c2134de48b45e08b";
  "00575651528b5dd853ff30e8e307e20b";
  "78116f01f3895dd88b5ddc01f3117dd4";
  "8b4dec29f18b55f019fa8b75e08b7e0c";
  "eb0c08884dcc12c88b7de489c809d089";
  "c80501801f1dd17de439f9731c895ddc";
  "412e15fa13f009d08b55c489d78b45c8";
  "89c30f850cffffff807de800751a8b45";
  "188b551c83c430731f8a780b02b87606";
  "00006811535b0387500c02a20cc1e003";
  "500ca310e82125ec08201456e8150c85";
  "ec08648b450883c0e083f85f0f92c011";
  "b08d48f783f9055d0f3ef8200f94c008";
  "c82a25d083f80a2a744d088d519f8d41";
  "e083fa1a0f43c1143289c8f7d80f480f";
  "8853d50bfa0945088a1931d284db740a";
  "881c108a5c110142ebf2c6041000cb14";
  "085623f81855088a028a2138e0751231";
  "f64684c074188a04328a24314638e074";
  "f131c938e00f93c18d4409ff12038c5e";
  "930a025b79200fb61089d004bf89d683";
  "ce203c1a0fb6010f43f289c180c1bf89";
  "c383cb2080f91a0f43d839de753a31ff";
  "4784d27440325814388b450c0fb60438";
  "89d129003b00290739077a004739de74";
  "c931c039de0f93c08d440080165f5b82";
  "791f1085c974208b550c8b75084931ff";
  "8a1c3e3a1c3a751331c084db741739f9";
  "8d7f0175ebeb0e31c0eb0a0f93c00fb6";
  "4486c31512565041a04a4931ff701c00" ]%string.

Definition hdd_bin_4 : list Z := flat_map hex [
  "cd0d0c9b30ca80c2bf89cbc4805e0152";
  "d989c289c680c2bf83c810d8c639c375";
  "1631c084c9741ac01c016b0fbe6b0584";
  "7a0a81ca0bf6488b4d08807c0101008d";
  "400175f68f23f905088b4d08bffcffff";
  "ff8d75f089cb6a0a5651e8520b0f880c";
  "191df808cb743683ffff8a19740880fb";
  "2e752a41eb0484db7523bbf1099139c3";
  "3c247d0e19d3721388443df04775c18b";
  "45ec8b4d0c890131c0eb0331c04883c4";
  "08ed802c01fb088b450885c974108b55";
  "0c31f68a1c32881c304639f175f52f04";
  "06226c0b8b550c89c68816464975fa5e";
  "3f925510f0014039c1761385d2742a43";
  "093143e0f275f5eb1b0f93c385d20f94";
  "86047d020f89d64e8a5c11ff885c10ff";
  "89f275f35e83b2451085c07415700201";
  "40d7381c3275094639f075f3a4010303";
  "33888acd027c00c0e8040fb6c001c08d";
  "0440f7d800c819980fbec1a301d99f80";
  "fa05770583c0a9eb1eb201030ffe03c9";
  "eb0f80c1d083c0d031d24a80f90a0f43";
  "c2f21c8c14be18907d10c5117802f8c1";
  "f81f8945e431f60fbe1189d0049f3c50";
  "08c2501ad004bf0d10c9eb1ab8d083c2";
  "d03c0ab85e20f8070f43d083faff747a";
  "39fa7d768955e0894de885f60f95d31c";
  "806e22b0c120d1f765f08315780345ef";
  "89f0f7e70f90c50a6def08cd01c389f8";
  "1988d6540ea8c108e980f95922f90a74";
  "4a8b4de089c8c1f81f014df011c689c1";
  "83d10083d00089cac818f90631d031d1";
  "09c18b4de8753585d27831418b7d10e9";
  "53821f807b1c980289084511a1f283c4";
  "1469021931f64e19188975f03319e1eb";
  "e12889be1221b475f075d0ebd05f0dc0";
  "7d1485ff746f8b5dc403a28d5438ff93";
  "0bc08955f074248b7510451ca056e844";
  "fd030eb90439f873464050080d09b112";
  "7d020ceb328b7d08c6072f8d7701eb54";
  "56e81c28c01e89c64050ff75105a0f12";
  "e8842dc801fe8b55f0eb2eb0013e0484";
  "1303e8438b55f08a033c2f74150fb6c8";
  "f6198813b70be0d673dd88064346ebe5";
  "43b02fd40e61df6a0268185a010053e8";
  "0bfc4c80b11488e941161903681f1815";
  "f3fb180ad118091b300edb1888a07116";
  "19046823480ec3180a8830107d56600c";
  "ab183874476a02680f55740e972c284d";
  "ffffff39c8980f8646ab03b846ff39f8";
  "0f843b1a0628382f0f84321f98d60f83";
  "052429c6062fe93a2f791a76118b55f0";
  "803e2f740c4e39fe77f689feeb038b55";
  "f031c039fe0f94c0c604060001c683c3";
  "02e9f5fe2d080c2a0b072a03251001c6";
  "46fb078d46ff807eff2f89c10f45ce39";
  "f80f45f1c60600e9ad9d189856508db6";
  "07d8f4c605d19d050000a100aeda1ef8";
  "0c74128b0dfcad05008b11c642040183";
  "c1044875f48b750c8a5d08a0841e188b";
  "0d04276ec90f94c284d07410e80c0e02";
  "0019fa0a0083f903b932530100baa353";
  "01000f44ca84c00f44ca51e87aed1db1";
  "ff75f456e887f91d98086812e01e8b61";
  "061e9900e865341aab0484db743cee1e";
  "f9027433b804550100b92b500100803d";
  "1c5c059814425168ae530100e82846c8";
  "e8cc310100e8070d02f91e5a405e0300";
  "6815560100e80a57aee8ded2ffffd008";
  "c85d08807b0d010f84b98d18907b0492";
  "0a08a40b9843143d031eb80f9cc18945";
  "e0a9f723400f95c208ca0f85861e7808";
  "53388b4b3c89d621ce83feff7445f7c1";
  "000080ff0f856b317810a4d109c1e209";
  "89d68b451029c68975ec89ce8b451419";
  "c639551019c80f83485ca04d18394d07";
  "099a19c6b89b12903402d61ca88b7518";
  "89f14d0910842482b845e00fafc789c7";
  "091480fb12f90a4dcc034d108955d013";
  "55146a00578955c852894dc451e86ad5";
  "2e21f903837b20018945ec75168b4328";
  "3345ec8b4b2ce903a945ec0f8464d023";
  "8bd4b11af8108b73148b432485c07405";
  "8945dceb388b4b0489f0c1f81ff7e189";
  "c70f9045e4351afb0701fa0f92c10a4d";
  "e480f9010f84ad0100005250e89f1ddc";
  "1921dc89432444c9308945e88b7b348d";
  "9e1325fb04f60f49de89dec1fe09c1fb";
  "1f53565750e8d2d49214fb010fafd889";
  "45d8f7e601da894de40fafceb021c219";
  "cf09d70f853901c428f81478048b45d4";
  "f7e789c10f9045f38b45ec897de8f7e7";
  "89c389d701cf0f92c00a45f30f859724";
  "48035dd8137de40f820237e04d088b41";
  "388b493c89c221ca3f05644989f2c1fa";
  "1f52565150e8557dd28b55d801c28b75";
  "e411ce6905f91442f00f42d089d029d8";
  "89f119f93b45e883d9008b4de80f42c8";
  "39d389f819f07208e9a78b25f0e85157";
  "53ff75dc8b750856e818d648298814e5";
  "1cb08a000000c746e20a0800a5d94628";
  "8b55d489562c8b7de0bc01f8062b4dcc";
  "8b751c1b75d089d3f7e70fafdf01d38b";
  "55c49b22b9c819d889fb29d3e82bf80d";
  "19c739d989f019f80f42fe0f42d98b45";
  "0c8b75cc01f08b4d08035124ac22909d";
  "f8b80eb0d089f18b7518ef04dad98b5d";
  "0811fa8b7de039f10d16aa82f1fdffff";
  "ff04853c0a918a4fe621b03afcffff68";
  "8325218cf21008e15c8d7d986a5c6a00";
  "57e867f84005d031c9b30131f6468b04";
  "8d6920e089c1c1f91f6a006a5c515057";
  "e91288e3190581e216b0146a0868ea51";
  "e62194def6cd04b11031c0f6c301642c";
  "c889f175bceb29817da0d80ea8751e8b";
  "45dcf12c89422f28a842088b45d0821c";
  "a44a048902a9058f5c362c02d1448b75";
  "088d7df266c707a012a06a0153683810";
  "245756e86182a00f8479011e1ac00fb6";
  "45f2a87f0f85141b01290ace290e3829";
  "0f5029020c42290ade290e0f290f2729";
  "020c19520aee2915e6fb2917fe002901";
  "89f0bf315eb2536a04536a035056e8bd";
  "298ad50f0618145501229a50e8618828";
  "9031dbe80510b800b32003536a361c1e";
  "56e885388a9d5f060c0b380f2938010c";
  "80380a52380c4d38177469340115f5f6";
  "349074506214126a03300d1d30893976";
  "2203640ec530c97420536a0253683804";
  "220194edfaf601fe000966817df253ef";
  "0f95c389d883c444911580de16b131f6";
  "57e83bfe9d07a084c0741fe62075f456";
  "6a045668b80100005057e8a647b1038b";
  "75f489f09e0786682388149319b87d10";
  "000f88fd054923a0e0feffff9b029a50";
  "e8cce9279231c09b02903c859b02804b";
  "09819b021250572c88508a150d42648b";
  "1aa102031d9ce837f4a7028d0ea502c0";
  "f075b2eb6b81bde8be2b80a802995fbb";
  "fdee08a0103b8530a8289083764225b0";
  "8534ffffff3d7501c8723e89f9f7d90f";
  "48cf2229a9c8f7a52cfff322180f90c3" ]%string.

Definition hdd_bin_5 : list Z := flat_map hex [
  "0e89281f2af80f89d60375ec0f92c008";
  "d88b45f0750df7651001c111d60f8392";
  "020000bbfeb72baa750c56e813c50880";
  "60159112051e0ad983ff04726e31db43";
  "bfbe01392be46a1050578d45d45056e8";
  "6ef93801f810380fb645d883f80f7405";
  "83f805752a8b55e085d274238b75dc31";
  "c089f101d13c18d855f08b550c394a38";
  "8b4a3c900e7904c10f83120100004383";
  "c71083fb058b750c75a4e498e99c042f";
  "0f21c1e004057021c98d55d4fdd5516a";
  "1051505256e8f9f816039071041603c8";
  "4b807dd8000f84640427198135240859";
  "0bf80875dc31d28975f001c60f92c28b";
  "4d0c3971388b713c19d6ce301082382c";
  "8816ab04f81a0889168b51048956048b";
  "51088956088a510c88560c47897e108b";
  "511489cf8956148b4df0894e3031dbe1";
  "2cc24638895e3c897e18002cba5650e8";
  "60e7ffff562999268b85472a2946508b";
  "854409914c8b852a908b8d672a71894e";
  "48894644b301885e4056e821368a0433";
  "03809215998986801f2490e903bf2098";
  "c0b91eb70388bd2e2a90f3ab5f0e0a01";
  "0df80b8947f48b41048947f88b410889";
  "47fc8a410c8807895f048b41149b23fc";
  "01772431c089472889473089572c894f";
  "0c3202883d221f180f87455bd8db83c0";
  "fc8945f00f84a802e616c031f689f00f";
  "a4f8092715980981c9a004808c179350";
  "519b0284522d9586f78904803422a00f";
  "b685e43b22d0f80f740983f8050f8543";
  "d82e8895ad022885d20f843508c8db0f";
  "94c039d783de00e30b88c19207d9851d";
  "feffff3b9574ffffff3e08891b3a2b99";
  "0f83061723f90443395df089d70f8411";
  "020000e966ffffffba80ca04826b2d98";
  "5253506621915df24a0b1053b81c8950";
  "1602a056ff75f08f2d83660395dcf633";
  "0580602c78078d45c031c989480c8948";
  "0889480489088d8d4cffffffe212e871";
  "4c9831db4b860188273b09919568b001";
  "809b2d988b855cc82e92b5604803e139";
  "c189d08975f019f00f82fd662cb1d089";
  "4de48d8f552dc8ff0f49cf89cfc1ff09";
  "522d80fd0c88f06b2f7912c320d3f7e7";
  "8945e80f90c789c88b75ecf7e60f90c1";
  "08f908d98b55e88d1c0289f01e9001da";
  "9003a1c80f85a41908f904e429f18b5d";
  "d01b5df089c821d883f8ff0f848cd42c";
  "f910e489ce89f9c1f91f83c60183d300";
  "0f95c085c90f95c220c28855f089d8f7";
  "e7630d88ec0209d18d0c030f90c70a7d";
  "ec0a692a98e701ca7f01e9f989c609d6";
  "0f94c508cd0f853b820898e801c15d08";
  "91d6bb5d08908229ce08f8057d0c8b7f";
  "3c897df08b7d0c394f381975f00f8211";
  "e608880f2503f8200e8b4f04894e048b";
  "4f08894e088a4f0c884e0c8b4d104189";
  "4e108b4f14894e148b4de4894e348b4d";
  "e8894e3089563c2a03d37e188d45d456";
  "50e83ce42403990f8497360989e07107";
  "88503a30f903424c8b45d48b4dd8894a";
  "48894244b001e9776304d988467c885e";
  "54885e68e98fb617c989d0c1e81789d6";
  "89d1a70280a817908d95e12d87ad0202";
  "a352e8dff430078130049074561b0488";
  "bdaa02b000744a8b85ec9f02b8c07440";
  "31c903b55805e90f92c189f201c289cb";
  "83d300399702908b959202b019da7219";
  "03b58e2f61138d70ffffff720b89f201";
  "c627a8731031db4bbd178c143f2c8093";
  "1e909554f330887a3c01c98955e83972";
  "38195df05901a072d48bb50304800134";
  "99378bb508042977048bb5440991088a";
  "792e69885f0c8b7510468977108bb550";
  "22a114894f340728b830894738c7473c";
  "5b2181f425cc188d45c05750e8ebe275";
  "04881fd830834d0189c84d0188c06c2f";
  "814d0182680e498b750888464056e8ae";
  "348804c61c846d0491eb026901a031db";
  "e990f21855c08b4d0888414051e8832b";
  "880ddd210f812e02b8b0018846548dbd";
  "4603821e22a94e5889565c1702d7608b";
  "4f0c894e64884668f90402ac466c894e";
  "7014058c742605a87831dbe9b37f2688";
  "3d592e99007461331481ab07918b0d7b";
  "2efb0304b180784001751c83c0446a10";
  "5750e8c1ee860e052059743280785401";
  "751983c058220f9f2203287410463b35";
  "5ee072b331c0eb0631c0c38b04b15a1d";
  "81992e800a02077406d814b1807a7c01";
  "751e57ffb27e0499e8e5ebfc1d055209";
  "113b2f4639c672d4530382292fa385c9";
  "74331414925510670e118b3dadfb0707";
  "397008750a38580c7505395010740883";
  "c7044975e9c51300470440891e8a1421";
  "55088b35e51006392da9c6044975f472";
  "149031c0451380151ed18d4d0c894dfc";
  "5150e805b01e8e0ceb1688300814ba7d";
  "088d75f0c706a724b883c7020fb647fe";
  "6e0690d7030c2ed025743a3c0a751a81";
  "fbfed02a620bc683e09d05000d43895d";
  "f00b0b001a110a880f0619f8090047eb";
  "b50fb647ff83f8627f3883f8527e5783";
  "f8530f8437210929f8550f840f09a058";
  "0f857dcb1cf805f38d720889d08b1289";
  "d9ff7004e8df050000e9012026d84890";
  "83f9087742ff248d28ca0b90d38b3023";
  "3089f16a00e8bb2409bc4e4f23744c83";
  "f8440f85334a07b145040000e9b7d62e";
  "8a6355044583f8640f850901004d88d0";
  "ce1220f150e81a2b80810bd18b3283c2";
  "0485f60f84a92632abec56e86eeb1303";
  "980f8e263727c8c148807c0eff2375ee";
  "960791a702611bcb8a5406ff80fa0a75";
  "1711018c082b01872801039907889328";
  "019b8b55ec2801574039c175c2895df0";
  "eb6fbc048b40a629a8f289dee93ab00f";
  "a00a8d7208f911885b6c054f520485d2";
  "743a8a013c7317829b010416a0414a75";
  "c972383cf28d75f0e9e20127320f87ae";
  "00000094883fc70188e9ac39208b0283";
  "c2f8918473331eb00883f90a740a7d12";
  "88a6932d077916098b7904e997ebbec1";
  "010188615729b0da83c404e95d50278f";
  "026702259b83c204420189e9de273fd7";
  "5901008d75f0a5010f01a52a08b94a28";
  "0fb61183fa47a0d20f84ce403387d801";
  "1a86650190ebbec22620b60683f88c20";
  "c00f841a4587aa01231946ebbed603d3";
  "af0685c97432740126805b02b18b5df0";
  "e922fc301780152899f0803dfa129275";
  "337212a8017533833d0613b000742131";
  "f6a106139053687601b8ff34b0e823d7";
  "02482b18463b3522b172e185db753f6c";
  "0780872b88875d1ea0f68d7dc4b939a1";
  "57e8e8e8bf14990fbe86bf0190000e03";
  "39c1e857576a10e88cc0da14644639f3";
  "75d331f6bf002400087d0c408fa13780";
  "3dd2e3050b2e42a150e80de6000b980f";
  "b68e4503f90384c0750a83f91b770e0f" ]%string.

Definition hdd_bin_6 : list Z := flat_map hex [
  "a3cf730951e827c22031005588b2641a";
  "85ca0d980fb6027901d90685c07442eb";
  "1f8b3181fe0a033a0e8d7e018939c69e";
  "128b31090d001f090d1f098816051e9f";
  "42ebb2c82601982089d78b1790c08993";
  "2780103088893c38d8d4c645e80089f8";
  "09d07455e233805304d131c231c729c7";
  "19c2be139826d2ec6a006a0a5257e89e";
  "c2fa33f805c101c18d0c8989fb29cb80";
  "cb30885c35d44eb909a21889f9f13b7b";
  "041b4dec89c772c9837d0800782346eb";
  "258b013dc1b050018911c680ab021a30";
  "8b0109f90200eb11c64435d42d8d5435";
  "d48b4df0e8fabf0e8820c23c06b7178b";
  "75b50ce0d009f0744c89d7894df08d5d";
  "cc3900a82a5657e8f6c1a809d6aa6f14";
  "8989f929d180c930884bff4ba9078034";
  "3ca189dae881683607ac13069989e55a";
  "18803b14980831c91835f8264dec894d";
  "e8894de4c645f40089d109c1743b8d7d";
  "f489c10fa4d11c83e20f8a923d580100";
  "8857ff4fc1e80489ca09c175e489f1ba";
  "ab1415d109feffff89f189fae800b90f";
  "881414253a89f1ba205401000e9ce9e7";
  "fd982ef902508b750885f6750289ee68";
  "24540100e8d83212c004bf683c05008b";
  "46f6089b678b36891598b96c5b032cb8";
  "cf8b1139c2733e032e791bdb89d689df";
  "83c70489fb803c19008d5b0175f78b14";
  "1939c272e701f989c229f2525150689a";
  "580100e8815721108b75f05a28eb0e50";
  "68316f09696f0082429268c8570100e8";
  "581187631b01da803d48610100010f84";
  "f3006c0ba05d0881c30227a883d7000f";
  "92f119f81689c1f7d909c10f85d90000";
  "0081e300f0ffffa1546101008b355061";
  "010089f101d989c211fa640ac1dfbb00";
  "00100039cb463ef81519d1726031c951";
  "51516a0168001000008b5df053575056";
  "681cbe05006830be0500e8ab0c7a2609";
  "2c48809d35093d571081c62e80611908";
  "f1e61711da550309892e08a32aa273a0";
  "68d721269094e8a11fb2575056e8d4e4";
  "d318083d5410111d271e31c050759be8";
  "5700993d84e918c86881560100ebba68";
  "cb211e88b3bc1afe0945208a4d240fb6";
  "55280fb6c90fb6c0525150ff751cff75";
  "18b92a1675085219e8e40bc786311c88";
  "5083148818b1048903ef0ff804088d46";
  "088945c431c98d0449837cc610010f85";
  "6722988d04c61903f9054dcc894dbc89";
  "5de889de8b5dc4836dbc010f82ebbd3a";
  "b0d88b398b5104520fe27ddc01f88b49";
  "0c11d10f82672508f8108975c08b73f8";
  "8b53fc8b3b8975c801f78b75c0897de0";
  "8b7b048955d411d789d21580fb3f8839";
  "d30c7d06e419ca0f9245d38b7dc8397d";
  "dc8b55ec1b55d4720e1a88831f31d83b";
  "7ddc8b7dd489fa1b55ec1a2b79073945";
  "c819cf0f92c22255f38b7ddc397de08b";
  "7de41b7d1bf80d8a75d32275f320d680";
  "fe010f8440030000f6c2010f454dd40f";
  "4545c852150bc770d0c28455f38b55dc";
  "0f45d7da21e8457de4897dec8b7dd889";
  "1729d0ad2af8057dec897a0419f98942";
  "08894a0c83c3184e0f8501351b807b25";
  "f803088b400c89ca09c2747e807d1000";
  "745d81f91102f80489c283da00726b8b";
  "75d88b168b760489d781c7a502f80989";
  "75ec83d6008975e40f92c30fb6f389f3";
  "f7db09f37544bea602c821f701ca8b4d";
  "ec11c14215983829fa5720f804780419";
  "f921f289500809ca89480c741b8b5de8";
  "b932f8024dcceb398b55d88902894a04";
  "31c089420c7215d85de84b395dcc731a";
  "8d045b4634a134c2b9062303fa07d8f3";
  "a589d631c949eb0631c9498b75084139";
  "d90f82205c10918410a009f90c8a0d20";
  "be0500884dec8d0c408d3cce837f1001";
  "756b807dec007565bc2e88be61039939";
  "cebebf16e1d672508b77088975e48b77";
  "0cbf21f903e889cb035de48b75e011f2";
  "0f9245dc81fb01400388e8882c4892c2";
  "0a55dc752781c9e2f0034de483d6ff89";
  "4f0889770cc747022e9900c7076d0372";
  "4f080b4f0c75164b39d873108d0cc009";
  "cac0e0f3a5488b75084039d80f825ffc";
  "3ba1fb020f82d118905de82a24984089";
  "f31831b804498d04c68b307422e07804";
  "895de089c88945e48b13e92cf8124304";
  "39f289c219fa0f42f88b45e40f4275ec";
  "0f42c14183c318394de875d98d04402d";
  "018a1c2d01c98d45a489c789def3a53b";
  "012e89df8b5dd40e98df89c64a017804";
  "8b4ddc8d41018b5de083c3183b45e875";
  "808d4678e031db31c9418d145b8b44d6";
  "104529c8123d03100000740b3d1f0418";
  "0f85935ea93cd68b57083601f80cec8b";
  "378955e401d6897ddc8b7f04137dec73";
  "058b7508eb708d14490930f81b55e039";
  "44d11089c8755d8b4de08d04c8333033";
  "780409f775db8b4de40348088b55ec13";
  "500c8955ec72ca3740914808cf25c80c";
  "8d43023b45e873235f197901da83c2fe";
  "8b45d48d0c5b8d04c88d78e8c300c1f8";
  "0e83c0184a75eeff4de84beb8d89c68d";
  "430183c3023b5de889d989c30f82ed3d";
  "a9eb0cc745e86f37a003895de81c04ba";
  "4de8890883c4501842924a53002689e3";
  "512c80a72b966a01b00492e8a7e41c88";
  "a1c204a18906c605ad0588b8cb048e5e";
  "3244a810833db0efb91b81450ca031c9";
  "b8b41c3c093d34a14dec81ff781b0884";
  "06b1897df08d0cfd3d491094494602c8";
  "08d7caf80a8b7a048b0a8b720801ce8b";
  "5a0c11fb895de473088b7df0e9406616";
  "887ab704882c082af80b75e8ba0e0400";
  "00668b120fbfd20fb7f2c1e60481fa00";
  "a0ffffba1c49520f4df239f183df0072";
  "6080118d146e188b8c52b4a4beffff0f";
  "f802790d1bb45234be05007237817de8";
  "010010008b75e483de008b75ec0f82d1";
  "a00132fa0081c90000f0ff014a088352";
  "0cffc742e402880268060ab9864f090f";
  "bfd10fb7cac1e1860319caba0054a3e8";
  "39f2ba0734b219fa726539f19d061ff9";
  "735a4014908b15730180ca379114d598";
  "367909fb89f78bb45238be050029fe8b";
  "bc523cbe050019df01ce8914802e070a";
  "8915a1eb098b0d7a0180093398f04789";
  "870100d7b04683c0183b35a801a889f1";
  "0f8264ab178e00990692e8be684388b8";
  "224b9831c9052104800912c1caf7da31";
  "ca7554b9d104b0c801c831f6b9010388";
  "bfd20688bb0702f156566a0156515650";
  "56515753e8584429a32c56575303178a";
  "0c32028c005f4599683050be3ca262e1";
  "fffff3068af2ba24118b0d9a89083b02";
  "815a02926a00eb0687c90f03813f2508";
  "a99e92755174229181c12e0893d20083";
  "05bbf7f7df09f7753c5808b1743a81e1";
  "00f0033c817736af5756525157910701" ]%string.

Definition hdd_bin_7 : list Z := flat_map hex [
  "11a504b381711098506802f92d8a0c8d";
  "0788059b0781002e8ce05009328b5d18";
  "8b7d1478e189f809d88b45087441b800";
  "10b236a9505357e800a532981489c6cd";
  "0a9074375f17d8cf8b451019c30f43f9";
  "89cb0134a056e88ddc9f21b0088b5510";
  "89d9fa2e8906c345880be928801c4581";
  "1e08841724055c830c0111a000608333";
  "24818b0199505151742d0a851b862701";
  "80d3488177228574228810131ef804c3";
  "89f0f765088d34070f90c508dd08cd8b";
  "4508f2188cf273221a7418b9d1325151";
  "5250e82f7182bd018a212c2a91a5df7d";
  "30946a00920886a701068080aa3da04d";
  "148b7d962c98034508ce091982a30158";
  "8857302b908eb7e71e81521fb1e419d7";
  "897dd8090a808940a187010000700498";
  "8d48fffe42c845cc8d04408d04c52883";
  "049145d0df2b88d4f437833a3cb9dc83";
  "7dc8000f88e81dd87dd08b5dcc833f01";
  "0f858cd00ff80247f08b4ff48b77f801";
  "c68b57fc11ca727a2843c875ec3975e0";
  "8b75d4899614f019d073138b55e03955";
  "f089c819f03838a8ce7207eb527538a0";
  "ce89d02b802cd8e819f13b45e41b4dd8";
  "723b80069845ec2b590c88c40409a975";
  "e81b75d80801aa5650e8bcb6060bc84d";
  "c429c119d689ca3ba342f903ec8975f0";
  "1b75c073364b83c7e885db0f8f5f9d23";
  "a3dc8445182e3781c81e81a90cd1d40f";
  "8531ffffff683954e23fd03edeffff89";
  "d789cb29d3e828fe0575f019f231c031";
  "c94150505151ff751052535657580a91";
  "e8de1e35a02c807d18ca3c893d2c0130";
  "352cbe0500bf0ba8eb0eff75e4331e91";
  "34daa00a87fa03028ac4ac1baa89f883";
  "c434e8013046500100e97a8b80020388";
  "e9ed1585da34814106d01083c110894d";
  "d431d2b9720b80301980b21991ca0011";
  "09806b2b954de4dd36c8d4897ddc833e";
  "010f855023f8088b56f08b5ef48b4ef8";
  "01d18b7efc11df72768955d03955180a";
  "f0895dcc19da8b5ddc0f9345e039cbee";
  "4389fa040a59e08855f389fa894de075";
  "062688e00508a05de43b5dff29f81d1b";
  "55cc0f93c2895de439cb8b5de819fb0f";
  "92c620d68a5df308f384f675068b7de8";
  "8b4de48b55d808da8955d85a350011d9";
  "e0894ddc83c618480f8565841628dcf6";
  "45d8012891450c690191ec0f3d4689b8";
  "4d0cc8c70f43f885f60f45f87e31a078";
  "0481c10f06938908da3491c204aa0281";
  "632e83d00c90be406f05e07ef08b4ef4";
  "8b5ef801fb8b5679028923b044780f08";
  "39f98b7d0c1b7df00f93c1395d088b7d";
  "0c19d70f92c220ca80fa01741394c875";
  "c531d24a89d0eb0acd3ab3c2c38b0631";
  "d22528869f26c88b7d1c8b75188a4d2c";
  "8727fa06f009f80f94c0224d3008c18b";
  "0a894de0b2010f85f3a84a800b4cfa00";
  "f08945e811fa8955ec7314807d2800de";
  "1e9068b1e00188dfd610b0c9747a8b7d";
  "24532ae0701031d285ff7404393e7561";
  "931c2156f08b46c2d9d38b7efc8945e4";
  "11c773081c2bf80424eb418b451039d0";
  "8b55141b55e40f92c0395d324cc019fa";
  "0f93c23b5de8a90bf82492c308d308c3";
  "807d2c007505f6c301742b80f3018b55";
  "f008daf6c3018b7d24755583c6184975";
  "918a4d3089c834018a552820c20201b0";
  "4b84c974388d7b218808e10e9fff7520";
  "f90c0192e835fc04886a02209110f361";
  "11918b07d02888b23b26b5d280e20189";
  "d0ac04911955274396f9dabc02883801";
  "39e84d108b5d0889de01ce8b450c13d6";
  "2ca0d00f82e1cf19806736a085c08955";
  "cb1f816808c8dc31db895dc48d3c5b67";
  "2cf80f1cfa8b44fa048b4cfa0889de89";
  "4dc801ce897dd88b54fa0c89c111d173";
  "0b1901a15dc4e9416947b0cc3975dc89";
  "ca5749a0cf8955e0e2019845ef89b102";
  "480889c71b7d0c8b7ddc51f8075dd88d";
  "14da0f9245d889c3722c39f789c81b45";
  "e072237011e0f04a8b5dc439d373108d";
  "04524f399334c1390b994be9e06203f8";
  "01d48b75e439fe895dbc89d819c80f92";
  "c0e71df80c8b5dc48a65ef752120e074";
  "1d29fe8b45bc19c80375c81345cc893a";
  "b5218872ca218ae93538c0e48a4dd888";
  "c834014e17b875d439f28b7d0c7b0d88";
  "e0572ee0e208c2f6c201745f20e180f9";
  "b301b075718b75c8035b3fb0cc11f82b";
  "75d4cf1ae071088b75e019f089410c81";
  "fada09c0736a8d3c528b5110580af054";
  "f9108b55f0428b45d08944f904044be0";
  "04f98b45d42b45dc8944f90849235274";
  "f90ceb1c8b55c8035555a829f21b45e0";
  "261bf802510889410c8b55f0438955f0";
  "39d30f8280144ca975f081feff474180";
  "b70191760b4008e0eb3931f689ca8b45";
  "188d3c76cd0a3044f9108b450c719889";
  "1cf9aa2eed44f90c8954f908468b45c0";
  "8930024d8aa9532391e7d8be06843747";
  "8a979310a1c6400d01ef2c80be39988d";
  "75d49c4d9956e8058c25b80cc7462450";
  "5600eb08a11ae8b1ace20ff80b66817e";
  "244e5675720fb745d8c1e0040fb775f4";
  "01c66a06687350f5350a2d38781085c0";
  "755866817e06000276578b46280fb7f0";
  "c1e80c83e0f001c66a046834552a0d03";
  "2a883c082e91b3ae0214a0803dd09daa";
  "14980d68111a4583181f807504a05dc3";
  "68f3a6319a13685ec73191cd50ab088a";
  "d06c2e0a0add867f4288757140ac3056";
  "e899d3e81a91238d2a21205056e89a14";
  "82ed41807240908bb5422191e9834333";
  "908d8d4f217810890189410889410466";
  "c74102030089c8c1e80483e10c0fb7c0";
  "51506a71e810ad82f744816a10988536";
  "ff4a1c990f84f53936f0c1e90c83e1f0";
  "0fb7f001ce803da0200ca175270fb79b";
  "2190b9288535f3c80f42c851566878ee";
  "0500e878d32f0a0029b0018b76148dbd";
  "f14d906a32b6060a7e1d81174dea83e7";
  "0e0fb7c057506a0ce890ad6522007492";
  "85d022458804504ab8f82f7713506882";
  "831291e6e5721290e9b143369045e448";
  "04918ed26615821f22411268f0500100";
  "e8bf271804e98a2798c38dbd4c229168";
  "8e8a401957e8ff31b00c8977028d8550";
  "4e58895df04353ff751050e8c21a0599";
  "0a0f992625e8f7ac998985041a9845e4";
  "d0e93c9934e828b2238808650f7a19c3";
  "8b45ba897b2089431cb001880388432c";
  "89732d66c7433245008b45f083c00289";
  "45ec5750e8f7f531d04308c6002f8b43";
  "0840ffbc2b2b105150e84597905df0bb";
  "2698430cb8cd26988d9d70f41d235753";
  "e8491f9873028b8d5008831ea8004566";
  "89b31a09988d857ad9221175e8c712fb";
  "d14a88d8e00188e360013253506a20e8";
  "30c7806050190fb7855890689f79298a" ]%string.

Definition hdd_bin_8 : list Z := flat_map hex [
  "91ba1ea8eb410fb785bb4ff06639f089";
  "f7765e0fb7cf515068cf9b298a6f0813";
  "a08d45d466374a81d83aeb83e00e0fb7";
  "c950516a21e8d6ab2101a3578b75f0ef";
  "39881eee2383ef390a120c9689f82c45";
  "a8c30fb7c76a000a9950e8c27e1c802c";
  "4d0480188945de4981553a10e8c54980";
  "a038d2108b461c0b46200f842a5f1fc0";
  "89c183e10f894dc053159045c46c4303";
  "9783210ff30fb7c08945c80fb7c18945";
  "cc31db5350ab897de489de5a368966d0";
  "3ffd0a8b45c0668945da8b45c4668945";
  "dcff75c8ff75cc6a22e802ab0e038917";
  "8c02c245d86639f80f87fc0140f9078b";
  "791c8b592089fa29f289d91b4de839c2";
  "83d9000f828507d9c0750b39fe195de8";
  "0f82d7041588f02236daf301f150ff75";
  "e051e85ed06718f803b755d801d3663b";
  "55de0f93c10a4dec8b471ceb34cb4f20";
  "74058b75e4eb320251a239c389def72f";
  "d8cb89f38b75e4731952683044048add";
  "1d1f588b471c8b4f20b2018955ecf601";
  "3281b42ab819c889f70f8211bd2c87b5";
  "010c9421aaab0488469c0db2d0ff75e0";
  "e8692d2280a70f884fed4488f2390da0";
  "205668de2a0cc901e87bd3ffff684e58";
  "703691db4f540d8ae9a90408611a8cde";
  "1533a056b8fe7d0d0f7b090866c70034";
  "12668b10b8fe7d1000668b30b0016639";
  "f2751e1f5210f7d2668910668b00ba1f";
  "41126639d00f95c0ba3d93890a8c3080";
  "803fb8b301e8a5ffffff8c3e80ee379a";
  "8d75d0d1059434cfd105910124d105a1";
  "15e8e0a6222e13e8753080e857f80bb9";
  "4fc30000e46483e9010f92c2a8027404";
  "84d274f0a8020f85c2740c1fade66421";
  "0e88a1950c0fd02105120175218a010a";
  "2809ba1d596089c1e46483ea010f92c4";
  "4208e442317563b0d1e66421071d0847";
  "4680c90289c8e6607f0c277526b0ae9c";
  "0ea87509e892fe1301f8017513e492a8";
  "02750624fc0c02e692e87d5018811d28";
  "8f28193601f11031ff31c00fa283f815";
  "7226b815c837a10fa289c6203680c524";
  "98c208c27149c0c008d03c010f85ce38";
  "59883d134e90893d134ed3e46189c188";
  "45f380e1fc5c03819f0281c322904df2";
  "9919f81ec8e661b0b0e643b09ce642b0";
  "2ee642e4610c01e6610f3189d389c7e4";
  "61a82074fa0f3139c789de19d6732729";
  "f8180cb0e889de83c6ff5c39f905cf83";
  "d7ff39c619d70f43ca894dec8a4df20f";
  "43d8da12e0e44083f80375a18a45f3e6";
  "61e512805f24780009f0742d89c8b9de";
  "341200f7e169ce08f201d16a00689c2e";
  "00005150e8fda7a11a0815bb88a3cd4e";
  "830956801f2899e389d7083f275250e8";
  "d52806c039f383df000f821362138ccb";
  "ac33a0408d45ccd655a150e8cbcc0129";
  "80fd1bd8e8ffff8d5db4c745f020e808";
  "0191e8180f01c0e450414d53895ddc52";
  "49b2506a15e859a4ef52f245d4017532";
  "89f089fa8dbfb40706201380b414fa03";
  "837dec00741689c64683c21889d775b0";
  "6819a7425118d0ffff89c6468935b0bd";
  "8c405134a1568b4514b241f80108ba51";
  "59010083fe1e77078b14b54c5aa64d9a";
  "52687a8811b0dacfffffb880b522780c";
  "88485b010066898c00bc080600c78400";
  "be0806001800008ec1e91016fd06c208";
  "060083c00475d75589e50f011db5f000";
  "005dc3205d98fc31c07f214c6a00e882";
  "ffffff9090101f01e87210021f02e862";
  "20021f03e85230021f04e84240021f05";
  "e83250021f06e82260021a07e8127009";
  "587f1808e8037f06802609e8f2fe2020";
  "6a0ae8e30f05301f0be8d310021f0ce8";
  "c320021f0de8b33002180ee8a34006e0";
  "890f530306f01f10e88270011f11e873";
  "30031f12e86230021f13e85240021f14";
  "e84250021f15e83260021f16e8227002";
  "1f17e81280021f18e8029002a719e8f2";
  "fd9001011f1ae8e210021f1be8d22002";
  "1f1ce8c23002901de82b4e856001181e";
  "e8a34f86e001a21fe892fd892b8800e4";
  "1588001f15806253809d4f80e7028052";
  "4ba0300000008d4b7b90434430303100";
  "417474656d7074656420766f6c756d65";
  "5f726561642829206f6e207078650070";
  "6d6d3a20496e7465676572206f766572";
  "666c6f7720696e206d656d6f72792072";
  "616e67652063616c63756c6174696f6e";
  "00746674703a20536572766572207265";
  "7475726e6564207a65726f2062797465";
  "73206265666f7265207472616e736665";
  "7220636f6d706c657465004e4d490053";
  "65637572697479004f6c3a006d656e75";
  "004d6e7d146d61702065786861757374";
  "65642e006578745f6d656d5f616c6c6f";
  "633a20636f756e74a578107320776865";
  "6e20616c69676e696e67005058454e56";
  "2b002573206578636570ac6020617420";
  "25782e204572726f887c0b64653a2025";
  "78005365676d656e74206e6f74207072";
  "6573656e7481016a01e8850d01502e00";
  "7078652076657273527803746f6f206f";
  "6c6400496e76616c6964206f70578315";
  "014146696c656e616d652679236c6f6e";
  "6720286d617820313237206368617273";
  "290a00546f6f206d616e792045383230";
  "20656e74726965732100436f756c6491";
  "f81b656e61626c6520413230206c696e";
  "650053494d440000427265616b706f69";
  "6e740066617433323a20636c25010872";
  "5998696e20d501f1206661696c656420";
  "28636f727275f301f90c66696c657379";
  "7374656d3f290047656e6572616c2070";
  "726f7465632001e06661756c74004469";
  "736b20652401812e01a8447269766528";
  "014c49534f393636303a20edd8726f6f";
  "74206469726563742d01e873697a6500";
  "45464920504152548001ba20696e7374";
  "616c29023320636865636b95804401ff";
  "0c3a205375636365737366756c6c7920";
  "696e697469616c697a65640a55020371";
  "69732073656e64696e6720746865c580";
  "92027804736d616c6c6572207061636b";
  "6574732028697428a2742025647a02f9";
  "07292c20646f776e6c6f6164206d6967";
  "68742074616b6589015565722e0a0046";
  "41543332d6842f0190746f3e0107dd05";
  "1500461e01507f10737461676520332e";
  "002f626f6f742f6c696d696e652d6269";
  "6f732e737973001004801b0100b41863";
  "6f7250b12e0a0069736f4c0182aa0169";
  "6265796f6e6420656e64206f66e1f912";
  "001b5b33316d50414e49431b5b33373b";
  "316d1b5b306d3a200041206e6f6e2d75";
  "7316028d6d2703813b0288792b014b69";
  "6e73696465206120248a73dc018c2e54";
  "0200d62065746572b1112062e580e101";
  "09006cf8023a20003078005072657373" ]%string.

Definition hdd_bin_9 : list Z := flat_map hex [
  "2061206b65790f0182d50300fba82573";
  "2e00416103803003851f0483ee02a943";
  "6c6f7365e0019475720203863601f80a";
  "67657420444843502063616368656420";
  "696e666f00446976694703790f003078";
  "3000537461636b74726163653a0a0020";
  "205b25705d0a0048696768e7868d03b8";
  "6f723a204f75742a01021982eb037901";
  "20737472756374757265207369676e61";
  "0a85fb0201a486ba02c84d5455202825";
  "75292c9b03824a02fa0920666f722054";
  "46545020686561646572730a00426f75";
  "6e64f304814504b0656465640050f901";
  "812903873b020c845a05780420646573";
  "63726970746f72003f3f3f006564690b";
  "ef464154002e2f000a004e5446536804";
  "07844101e92e00215058450044657669";
  "6365b601a8617661696c0d04856d04ca";
  "545353000a212120538d02801a03022b";
  "0866b908211bff014861766520796f75";
  "20636f706965642099020590746f5403";
  "81ed02212c202f620783ce02222c206f";
  "72130311005083110380a60480ab0298";
  "6f6e65b202809703a870617274691206";
  "88734c069474685d0201c1a73f0a0a00";
  "250305836702e24354524c2b414c542b";
  "44454c7d0300388a2e0f02922d739c05";
  "829a04867c02824d04a8004d616368c7";
  "02010e04610768069f2e2e2f68010302";
  "a69864697349068d771d0286ad02a26f";
  "70656e680490257806019b6261646704";
  "81e50487f4060598717565a106072301";
  "9b2025753302a973206f757271029f25";
  "750a2f040287360416fd046275696c64";
  "204944206d69736d617463682e0a8505";
  "859102c7206d6178696d756d760207b9";
  "20736561726368f4019174007803415f";
  "626c6f636b3a200701a986c60388668b";
  "049d3a206121088a6f65038862060389";
  "73a904920045a20481a603c82e200043";
  "6f6e76656e070894616ca60386cb0284";
  "ec05ac446f75626c3403e97838370056";
  "69727475616c69734208840c05863007";
  "814201867203ff013031323334353637";
  "38396162636465661e060282f305886d";
  "6208f80064617461207468616e206578";
  "706563f603005b87dd05078109070230";
  "836904c6203c25732b25703e6001df20";
  "6e6f207072696d617279d003089f2170";
  "7867041188527f07840a05a844656275";
  "675909c85f667265653a20556ea40880";
  "250980c10780b407972570db0803895f";
  "da0888658d01854d0187ad0104e3556e";
  "6b6e6f776e0058464552ba01800e0581";
  "b4029072650206f0732061626f766520";
  "34204769423bb309802d07c16d757374";
  "20757365c606c35f616464725f3634d6";
  "03966c798b01a150617468aa09906f6e";
  "530783cb02856c02ef6c656e67746800";
  "286e756c6c295c05042849507634205a";
  "c96573733a20222573229d0ae8040008";
  "00100102040810204080ad0a80a50a20";
  "2e00002e04082f084a2f0000b52c0100";
  "0b2e040b270815762e1401207a2b1754";
  "0100fc58010015500100505101002250";
  "0100b6540100e150010039550100fd57";
  "0100005501004e5501009d5001003356";
  "010094510100cb5418a80a580100476d";
  "5b485601004a5101000e5818070417f9";
  "7419500100604d0100704d0100804d01";
  "00904d0100a04d0100b04d0100c04d01";
  "00d04d0100e04d0100f04d0100004e01";
  "00104e0100204e0100304e0100404e01";
  "00504e0100604e0100704e0100804e01";
  "00904e0100a04e0100b04e0100c04e01";
  "00d04e0100e04e0100f04e0100004f01";
  "00104f0100204f0100304f0100404f01";
  "00504f01e00ba0140000000768792447";
  "4e5500616f338bd6f349af925f5b0256";
  "ffe1dc8b06c5ef40f000007370696e75";
  "70001af400005f5f7564697664693300";
  "25f50e186d6f640ec12af60000646973";
  "6b010c915f73d6052373000ef716f902";
  "6372656174655f696e6465780033fd00";
  "006108a900d7fe0000fc0890335fb109";
  "a200c6ff00820a645f6765745f6c6162";
  "656c00e7140123635f636f6e74657874";
  "006e02012b805f051f005a040f01bb5f";
  "696e00fd0801a60483cd0a895fcd0a1c";
  "00f6093981840414380a488863720828";
  "00680a0100c4073604177f0b17047e00";
  "66726f6d5f6d617000cc0c01006673b1";
  "1600d511306775696400dc1001a52a7e";
  "0d0100666708cc0b01819c420e01b404";
  "02cba134130100500380bd041e007614";
  "1f886eb30c823a011512151702c81588";
  "162803ca09b812907072d70b09c91e39";
  "737061636500e22a7b17646967697400";
  "f3160100746f75707065720007170100";
  "61627300161701007374726370790039";
  "0b236d70006f0b186173650f0af10f08";
  "6e1b1231180c041c0a9f10780a6c656e";
  "00b4180100696e65745f70746f6e001e";
  "1901006d656d5a0a410b2a736574005d";
  "16326d6f766500a1220056d8d4190100";
  "6263645f746f5f990c21ed190100b404";
  "1111251a91c8746f7569002b1b010070";
  "01fe0d6162736f6c7574655f70617468";
  "00f71c010070616e696300e21d0100a1";
  "0ece6400c4200100677074a401905b21";
  "1401895f7304615f6d6272000f230100";
  "6d627222286964004f234b0972321c00";
  "b22a4e01411262794417262b17059266";
  "7312020f791a063f636f6f726400b918";
  "068066088a5f420ba2e42b0100bd0108";
  "fd2782c80110d93015426e5f73747200";
  "30310c1b6900e70a2a75690080321523";
  "7800f23240955f730b0bce0094330100";
  "636f6e76f90e9a00a9347f019361702f";
  "0681950fa100e5340166069073614a0d";
  "9b73655f4e0e9a0026396c0102349800";
  "5739e2010d6910929c3b8b011c726177";
  "239db13b01b106885fd70d265f7400c6";
  "14226500423c0d1272659399b63c019e";
  "0f06a50fd21205044808ed1987ee0609";
  "1f00523d1a05ab747970655f2e071700";
  "6d1f12905f6d780fa0423f0100190181";
  "060281630c125b40b781230a01519f00";
  "c44040010980820412fe412d9b6e6577";
  "b60398104401f00fb25f62696e645f08";
  "081200281482010599ed4401000d820a";
  "043a9d4901006132306e1300e90e82c4";
  "0f98002b4be004a06c6962725a05b374";
  "736300604c8b01ca6538323000f04c01";
  "00ac101b001d4d19a069647400684183";
  "336f8c014b6f8f10186e0301210b9b08";
  "0c93100bcf108acf2f6e889b605d0120";
  "023a8e89a66f00" ]%string.

Definition binary_limine_hdd_bin_data : list Z :=
  hdd_bin_0 ++ hdd_bin_1 ++ hdd_bin_2 ++ hdd_bin_3 ++ hdd_bin_4 ++
  hdd_bin_5 ++ hdd_bin_6 ++ hdd_bin_7 ++ hdd_bin_8 ++ hdd_bin_9.

#[global] Arguments binary_limine_hdd_bin_data : simpl never.

(** ** What the installer relies on *)

(** Stage 1 is a sector; with it the image fits in front of sector 63, where the
    installer lets partitions start, and stage 2 in the 32 KiB it asks of a BIOS
    boot partition. *)
Lemma length_image : Z.of_nat (length binary_limine_hdd_bin_data) = 22647.
Proof. vm_compute. reflexivity. Qed.

Lemma image_bytes : is_bytes binary_limine_hdd_bin_data.
Proof.
  assert (H : forallb (fun b => (0 <=? b) && (b <? 2 ^ 8)) binary_limine_hdd_bin_data = true) by (vm_compute; reflexivity).
  unfold is_bytes. apply List.Forall_forall. intros b Hb. rewrite forallb_forall in H. specialize (H b Hb). lia.
Qed.

(** The fields of the boot sector that the installer fills in or keeps are blank in
    the image, and it ends with the signature a BIOS looks for. *)
Definition patched (i : nat) : bool :=
  ((218 <=? Z.of_nat i) && (Z.of_nat i <? 224)) || ((420 <=? Z.of_nat i) && (Z.of_nat i <? 428)) ||
  ((440 <=? Z.of_nat i) && (Z.of_nat i <? 510)).

Lemma image_fields : forallb (fun i => negb (patched i) || bool_decide (binary_limine_hdd_bin_data !! i = Some 0)) (seq 0 512) = true.
Proof. vm_compute. reflexivity. Qed.

Lemma image_blank i : patched i = true -> binary_limine_hdd_bin_data !! i = Some 0.
Proof.
  intros Hi. pose proof image_fields as H. rewrite forallb_forall in H. specialize (H i).
  rewrite Hi in H. cbn [negb orb] in H. apply (bool_decide_eq_true_1 _), H, in_seq. unfold patched in Hi. lia.
Qed.

Lemma image_signature : slice binary_limine_hdd_bin_data 510 2 = [0x55; 0xaa].
Proof. vm_compute. reflexivity. Qed.

(** ** Properties *)

(** C30 The shipped boot loader on a device with an MBR that works: when no file system
    is on the device as a whole, every status byte is 0 or 0x80 and every partition
    starts at sector 63 or later, the tool succeeds; then the device has the boot
    signature, every byte of the image that is not zero is in its place, and every
    byte of every partition is what it was. *)
Theorem shipped_mbr_install LONG_MAX be rand file o s :
  0 < LONG_MAX -> 33280 <= s_size s < 2 ^ 63 -> is_bytes (s_bytes s) -> whole (s_bytes s) ->
  uninstall_mode o = false -> force o = false ->
  gpt_block (s_bytes s) = None -> no_fs (s_bytes s) 0 -> Forall (mbr_entry_fine (s_bytes s)) mbr_bases ->
  exists out, run_install sound LONG_MAX be binary_limine_hdd_bin_data rand file o (opened s) = Some out /\
    status out = EXIT_SUCCESS /\
    let V := s_bytes s in
    let V' := s_bytes (device (final out)) in
    slice V' 510 2 = [0x55; 0xaa] /\
    (forall i b, binary_limine_hdd_bin_data !! i = Some b -> b <> 0 -> V' !! i = Some b) /\
    (forall base i, In base mbr_bases -> mbr_type V base <> 0 -> mbr_start V base * 512 <= Z.of_nat i -> V' !! i = V !! i).
Proof.
  intros HL Hs HV Hw Hm Hf Hg Hfs Hmb. pose proof length_image as Li. set (img := binary_limine_hdd_bin_data) in *.
  destruct (run_install_succeeds LONG_MAX be img rand file o s) as (out & E & Es); [done|lia|done..| |].
  { split; [unfold s_size in Hs; lia|]. by rewrite Hg. }
  exists out. split; [exact E|]. split; [exact Es|].
  assert (Hno : slice (s_bytes s) 512 8 <> bytes_of "EFI PART" /\ slice (s_bytes s) 4096 8 <> bytes_of "EFI PART").
  { revert Hg. unfold gpt_block. cbn [List.find]. unfold has_gpt.
    destruct (bool_decide_reflect (slice (s_bytes s) 512 8 = bytes_of "EFI PART")); [done|].
    by destruct (bool_decide_reflect (slice (s_bytes s) 4096 8 = bytes_of "EFI PART")). }
  assert (EV : s_bytes (device (final out)) = written img (with_active (s_bytes s)) 512).
  { apply (run_install_yields sound LONG_MAX be img rand file o s out (fun V' => V' = written img (with_active (s_bytes s)) 512)
      HL (proj2 Hs) Hm); [|done..].
    rewrite Hf. eapply yields_weaken; [apply install_mbr_yields; [done|lia|done|apply Hno..]|]. by intros _ d (? & _). }
  intros V V'. fold V V' in EV.
  assert (Lv : 33280 <= Z.of_nat (length V)) by apply Hs.
  assert (HW : forall i, V' !! i = _) by (intros i; rewrite EV; apply written_lookup; rewrite length_with_active; lia).
  split; [|split].
  - rewrite <-image_signature. apply list_eq. intros i. rewrite !slice_lookup. destruct (decide _); [|done].
    by rewrite HW, !decide_False, decide_True by lia.
  - intros i b Hb Hb0. rewrite HW. pose proof (lookup_lt_Some _ _ _ Hb) as Hi.
    assert (Hp : patched i = false).
    { destruct (patched i) eqn:Ep; [|done]. apply image_blank in Ep. fold img in Ep. congruence. }
    unfold patched in Hp. rewrite !decide_False, decide_True by lia. exact Hb.
  - intros base i Hbase Ht Hi. rewrite Forall_forall in Hmb.
    destruct (Hmb base) as [_ Hh]; [by apply list_elem_of_In|]. specialize (Hh Ht). fold V in Hh.
    rewrite HW, !decide_False by lia. unfold with_active. destruct (existsb _ _); [done|].
    rewrite splice_lookup by (cbn; lia). by rewrite decide_False by (cbn; lia).
Qed.

(** On a blank device of 102 blocks. *)
Definition blank_disk : stream := Stream (zeros (102 * 512)) 0 0.

Lemma blank_slice q n : 0 <= q -> 0 <= n -> q + n <= 102 * 512 -> slice (s_bytes blank_disk) q n = zeros n.
Proof. intros. apply slice_zero; [lia..|]. intros i Hi. apply zeros_lookup. lia. Qed.

Lemma shipped_mbr_install_witness :
  exists out, run_install sound (2 ^ 63 - 1) false binary_limine_hdd_bin_data demo_rand (fun _ => None) demo_opts (opened blank_disk)
      = Some out /\ slice (s_bytes (device (final out))) 510 2 = [0x55; 0xaa].
Proof.
  assert (L : Z.of_nat (length (s_bytes blank_disk)) = 102 * 512) by (apply length_zeros; lia).
  assert (H0 : forall i, 0 <= i < 102 * 512 -> disk_byte (s_bytes blank_disk) i = 0).
  { intros i Hi. unfold disk_byte, blank_disk. cbn [s_bytes].
    by rewrite zeros_lookup by lia. }
  destruct (shipped_mbr_install (2 ^ 63 - 1) false demo_rand (fun _ => None) demo_opts blank_disk) as (out & E & _ & H & _).
  - lia.
  - unfold s_size. rewrite L. lia.
  - apply zeros_bytes.
  - unfold whole. rewrite L. reflexivity.
  - reflexivity.
  - reflexivity.
  - unfold gpt_block, has_gpt. cbn [List.find]. by rewrite !blank_slice by lia.
  - split; [rewrite blank_slice by lia; discriminate..|rewrite L; lia].
  - apply List.Forall_forall. intros base (k & Hk & ->)%in_mbr_bases. split; [left; apply H0; lia|].
    intros Ht. exfalso. apply Ht, H0. lia.
  - exists out. split; [exact E|exact H].
Defined.
