(* ===== verification/LimineEnroll.v ===== *)
(** [enroll_config], [version], [print_datadir] and [main] of [limine/limine.c]:
    the search for the signature in the boot loader, the patch of the checksum
    after it, and the dispatch of the commands. *)

From stdpp Require Import strings.
From S2P Require Import Prelude LimineFormat LimineDisk LimineInstall.

Definition CONFIG_B2SUM_SIGNATURE : list Z := bytes_of "++CONFIG_B2SUM_SIGNATURE++".
Definition min_size : Z := Z.of_nat (length CONFIG_B2SUM_SIGNATURE) + 128.

(** ** The command line *)

(** [remove_arg]: the arguments after [index] move down by one. *)
Definition remove_arg (argv : list string) (index : nat) : list string := take index argv ++ drop (S index) argv.

(** The loop over the arguments from index [i]; [None] is the return after
    [--help]. The fuel is the number of arguments left. *)
Fixpoint enroll_args (fuel i : nat) (argv : list string) (quiet reset : bool) : option (list string * bool * bool) :=
  match fuel with
  | O => Some (argv, quiet, reset)
  | S fuel =>
      match argv !! i with
      | None => Some (argv, quiet, reset)
      | Some arg =>
          if String.eqb arg "--help" || String.eqb arg "-h" then None
          else if String.eqb arg "--quiet" then enroll_args fuel i (remove_arg argv i) true reset
          else if String.eqb arg "--reset" then enroll_args fuel i (remove_arg argv i) quiet true
          else enroll_args fuel (S i) argv quiet reset
      end
  end.

Definition is_hex (c : Z) : bool :=
  ((48 <=? c) && (c <=? 57)) || ((97 <=? c) && (c <=? 102)) || ((65 <=? c) && (c <=? 70)).

Definition b2sum_ok (s : string) : bool := Nat.eqb (String.length s) 128 && forallb is_hex (bytes_of s).

(** ** The search *)

(** The loop over the boot loader up to [bound]: [i] and [checked_count]; the
    result is the index after the signature. *)
Fixpoint search_loop (fuel : nat) (bootloader : list Z) (bound i checked_count : nat) : option (option nat) :=
  match fuel with
  | O => None
  | S fuel =>
      if Nat.ltb i bound then
        if negb (default 0 (bootloader !! i) =? default 0 (CONFIG_B2SUM_SIGNATURE !! checked_count)) then
          let i := if Nat.ltb 0 checked_count then (i - checked_count)%nat else i in
          search_loop fuel bootloader bound (S i) 0
        else
          let checked_count := S checked_count in
          if Nat.eqb checked_count (length CONFIG_B2SUM_SIGNATURE) then Some (Some (S i))
          else search_loop fuel bootloader bound (S i) checked_count
      else Some None
  end.

Definition search_bound (bootloader : list Z) : nat :=
  Z.to_nat (Z.of_nat (length bootloader) - min_size + 1).

Definition find_checksum (bootloader : list Z) : option (option nat) :=
  let bound := search_bound bootloader in
  search_loop (27 * S bound) bootloader bound 0 0.

(** ** The command *)

Section Enroll.
Context (fault : nat -> option nat).

(** From the opened file on: [fseek] and [ftell] give its size, [malloc]
    succeeds. *)
Definition enroll_file (b2sum : string) (reset : bool) (s : stream) : option (exit_code * stream) :=
  let bootloader_size := s_size s in
  let s := rewind s in
  if bootloader_size <? min_size then Some (EXIT_FAILURE, s)
  else
    let '((all, bootloader), s) := fread fault bootloader_size s in
    if negb all then Some (EXIT_FAILURE, s)
    else
      match find_checksum bootloader with
      | None => None
      | Some None => Some (EXIT_FAILURE, s)
      | Some (Some checksum_loc) =>
          let bootloader := splice bootloader (Z.of_nat checksum_loc)
                              (if reset then repeat 48 128 else take 128 (bytes_of b2sum)) in
          let '(_, s) := fseek_set 0 s in
          let '(all, s) := fwrite fault bootloader s in
          Some (if negb all then EXIT_FAILURE else EXIT_SUCCESS, s)
      end.

(** The exit code and, when a file was opened, its name and what has become of
    it. [argv] starts with the name of the command. *)
Definition enroll_config (files : string -> option stream) (argv : list string) : option (exit_code * option (string * stream)) :=
  match enroll_args (length argv) 1 argv false false with
  | None => Some (EXIT_SUCCESS, None)
  | Some (argv, _, reset) =>
      if Nat.leb (length argv) (if (reset : bool) then 1 else 2) then Some (EXIT_FAILURE, None)
      else
        let b2sum := default EmptyString (argv !! 2%nat) in
        let name := default EmptyString (argv !! 1%nat) in
        if negb reset && negb (b2sum_ok b2sum) then Some (EXIT_FAILURE, None)
        else
          match files name with
          | None => Some (EXIT_FAILURE, None)
          | Some s =>
              match enroll_file b2sum reset s with
              | None => None
              | Some (code, s) => Some (code, Some (name, s))
              end
          end
  end.
End Enroll.

(** ** The other commands *)

(** What [version] prints. *)
Definition LIMINE_VERSION : string := "12.4.1".
Inductive version_output := version_usage | version_only | version_full.

Definition version (argv : list string) : version_output * exit_code :=
  match argv with
  | _ :: arg :: _ =>
      if String.eqb arg "--help" then (version_usage, EXIT_SUCCESS)
      else if String.eqb arg "--version-only" then (version_only, EXIT_SUCCESS)
      else (version_full, EXIT_SUCCESS)
  | _ => (version_full, EXIT_SUCCESS)
  end.

(** [LIMINE_DATADIR], when the tool is built with one. *)
Definition print_datadir (LIMINE_DATADIR : option string) : option string * exit_code :=
  match LIMINE_DATADIR with
  | Some dir => (Some dir, EXIT_SUCCESS)
  | None => (None, EXIT_FAILURE)
  end.

(** The command [main] runs, with the arguments it passes on. *)
Inductive command :=
| general_usage (code : exit_code)
| run_bios_install (argv : list string)
| run_enroll_config (argv : list string)
| run_print_datadir
| run_version (argv : list string).

Definition main (argv : list string) : command :=
  match argv with
  | _ :: ((arg :: _) as argv) =>
      if String.eqb arg "help" || String.eqb arg "--help" || String.eqb arg "-h" then general_usage EXIT_SUCCESS
      else if String.eqb arg "bios-install" then run_bios_install argv
      else if String.eqb arg "enroll-config" then run_enroll_config argv
      else if String.eqb arg "--print-datadir" then run_print_datadir
      else if String.eqb arg "version" || String.eqb arg "--version" then run_version argv
      else general_usage EXIT_FAILURE
  | _ => general_usage EXIT_FAILURE
  end.

(** ** Lemmas *)

Definition sig_len : nat := 26.

Lemma length_signature : length CONFIG_B2SUM_SIGNATURE = sig_len.
Proof. reflexivity. Qed.

(** The first [n] bytes of the signature are at [p]. *)
Definition match_at (boot : list Z) (p n : nat) : Prop :=
  forall k, (k < n)%nat -> boot !! (p + k)%nat = CONFIG_B2SUM_SIGNATURE !! k.

Lemma match_at_S boot p n :
  (p + n < length boot)%nat -> (n < sig_len)%nat ->
  match_at boot p (S n) <->
  match_at boot p n /\ default 0 (boot !! (p + n)%nat) = default 0 (CONFIG_B2SUM_SIGNATURE !! n).
Proof.
  intros Hp Hn. destruct (lookup_lt_is_Some_2 boot (p + n) Hp) as [x Hx].
  rewrite <-length_signature in Hn. destruct (lookup_lt_is_Some_2 _ n Hn) as [y Hy]. split.
  - intros H. split; [intros k Hk; apply H; lia|]. by rewrite H by lia.
  - intros [H E] k Hk. destruct (decide (k = n)) as [->|]; [|apply H; lia].
    rewrite Hx, Hy in *. cbn in E. by subst.
Qed.

(** The loop finds the first signature that ends before [bound], or none. *)
Definition found (boot : list Z) (bound from : nat) (r : option nat) : Prop :=
  match r with
  | Some q => exists p, q = (p + sig_len)%nat /\ (from <= p)%nat /\ (q <= bound)%nat /\ match_at boot p sig_len /\
      forall p', (from <= p' < p)%nat -> ~ match_at boot p' sig_len
  | None => forall p, (from <= p)%nat -> (p + sig_len <= bound)%nat -> ~ match_at boot p sig_len
  end.

Lemma found_later boot bound from r : ~ match_at boot from sig_len -> found boot bound (S from) r -> found boot bound from r.
Proof.
  intros Hn. destruct r as [q|]; cbn.
  - intros (p & -> & Hp & Hq & Hm & Hf). exists p. repeat split; [lia|done|done|]. intros p' Hp'.
    destruct (decide (p' = from)) as [->|]; [done|]. apply Hf. lia.
  - intros H p Hp Hb. destruct (decide (p = from)) as [->|]; [done|]. apply H; lia.
Qed.

Lemma search_loop_spec boot bound fuel : forall p cc,
  (bound <= length boot)%nat -> (cc < sig_len)%nat -> (p <= bound)%nat -> match_at boot p cc ->
  (27 * (bound - p) + 26 < fuel + cc)%nat ->
  exists r, search_loop fuel boot bound (p + cc) cc = Some r /\ found boot bound p r.
Proof.
  unfold sig_len. induction fuel as [|fuel IH]; intros p cc Hb Hcc Hp Hm Hf; cbn [search_loop].
  { lia. }
  destruct (Nat.ltb_spec (p + cc) bound) as [Hlt|Hge].
  2: { exists None. split; [done|]. intros p' Hp' Hb'. unfold sig_len in *. lia. }
  pose proof (match_at_S boot p cc ltac:(lia) Hcc) as HS.
  destruct (Z.eqb_spec (default 0 (boot !! (p + cc)%nat)) (default 0 (CONFIG_B2SUM_SIGNATURE !! cc))) as [E|E]; cbn [negb].
  - assert (Hm' : match_at boot p (S cc)) by (by apply HS).
    rewrite length_signature. destruct (Nat.eqb_spec (S cc) sig_len) as [E26|]; unfold sig_len in *.
    + exists (Some (S (p + cc))). split; [done|]. exists p. rewrite E26 in Hm'. unfold sig_len.
      repeat split; [lia|lia|lia|done|lia].
    + destruct (IH p (S cc)) as (r & Er & Hr); [lia|lia|lia|done|lia|]. exists r.
      replace (S (p + cc))%nat with (p + S cc)%nat by lia. done.
  - assert (Hno : ~ match_at boot p sig_len).
    { intros H. apply E. apply HS. intros k Hk. apply H. unfold sig_len. lia. }
    destruct (IH (S p) 0%nat) as (r & Er & Hr); [lia|lia|lia|by intros k Hk; lia|lia|]. exists r.
    split; [|by apply found_later]. rewrite Nat.add_0_r in Er.
    destruct (Nat.ltb_spec 0 cc); [by replace (p + cc - cc)%nat with p by lia|].
    by replace (p + cc)%nat with p by lia.
Qed.

Lemma find_checksum_spec boot : exists r, find_checksum boot = Some r /\ found boot (search_bound boot) 0 r.
Proof.
  unfold find_checksum. apply (search_loop_spec boot (search_bound boot) _ 0 0); try (unfold sig_len; lia).
  - unfold search_bound, min_size. rewrite length_signature. unfold sig_len. lia.
  - intros k Hk. lia.
Qed.

(** A signature found lies in the file together with the 128 bytes after it. *)
Lemma found_fits boot q : found boot (search_bound boot) 0 (Some q) -> Z.of_nat q + 128 <= Z.of_nat (length boot).
Proof.
  intros (p & -> & _ & Hq & _). unfold search_bound, min_size in Hq. rewrite length_signature in Hq.
  unfold sig_len in *. lia.
Qed.

Lemma length_bytes_of s : length (bytes_of s) = String.length s.
Proof. induction s as [|c s IH]; cbn; [done|]. by rewrite IH. Qed.

(** What goes into the file: 128 bytes in both modes. *)
Definition checksum_bytes (b2sum : string) (reset : bool) : list Z :=
  if reset then repeat 48 128 else take 128 (bytes_of b2sum).

Lemma length_checksum b2sum reset : reset = true \/ b2sum_ok b2sum = true -> length (checksum_bytes b2sum reset) = 128%nat.
Proof.
  unfold checksum_bytes. destruct reset; [done|]. intros [|H]; [done|]. unfold b2sum_ok in H.
  apply andb_true_iff in H as [H%Nat.eqb_eq _]. rewrite length_take, length_bytes_of. lia.
Qed.

(** Reading the whole file: all of it, or a failure. *)
Lemma read_whole fault s :
  0 < s_size s -> exists all got s', fread fault (s_size s) (rewind s) = ((all, got), s') /\ s_bytes s' = s_bytes s /\
    (all = true -> got = s_bytes s) /\ (fault (s_ops s) = None -> all = true) /\ s_ops s' = S (s_ops s).
Proof.
  intros Hs. destruct (fread_cases fault (s_size s) (rewind s) Hs) as (all & got & E & _ & Ha & Hn); [cbn; lia|].
  exists all, got. eexists. split; [exact E|]. split; [done|]. split; [|split; [|done]].
  - intros Hall. destruct (Ha Hall) as [-> _]. unfold slice, s_size. cbn. rewrite drop_0. apply take_ge. lia.
  - intros Hf. apply Hn; [done|]. unfold s_size. cbn. lia.
Qed.

(** ** Properties *)

(** C32 [enroll-config] changes the 128 bytes after the first signature and
    nothing else: the command ends; when it succeeds, the file holds the checksum
    there and every other byte is as before; when it fails, each byte is the old
    one or the one a success would have written; and on a device without faults a
    failure leaves the file unchanged. *)
Theorem enroll_patches_checksum fault b2sum reset s :
  reset = true \/ b2sum_ok b2sum = true ->
  exists code s', enroll_file fault b2sum reset s = Some (code, s') /\
    (code = EXIT_SUCCESS -> exists p, match_at (s_bytes s) p sig_len /\
       (forall p', (p' < p)%nat -> ~ match_at (s_bytes s) p' sig_len) /\
       (p + sig_len + 128 <= length (s_bytes s))%nat /\
       s_bytes s' = splice (s_bytes s) (Z.of_nat (p + sig_len)) (checksum_bytes b2sum reset)) /\
    (code = EXIT_FAILURE -> (exists q, mixed (s_bytes s) (splice (s_bytes s) q (checksum_bytes b2sum reset)) (s_bytes s')) /\
       ((forall k, fault k = None) -> s_bytes s' = s_bytes s)).
Proof.
  intros Hb. pose proof (length_checksum b2sum reset Hb) as Hlc. unfold enroll_file.
  set (fail_ok := fun s' : stream => (exists q, mixed (s_bytes s) (splice (s_bytes s) q (checksum_bytes b2sum reset)) (s_bytes s')) /\
       ((forall k, fault k = None) -> s_bytes s' = s_bytes s)).
  assert (Hfail : forall s', s_bytes s' = s_bytes s -> fail_ok s').
  { intros s' E. split; [exists 0; rewrite E; apply mixed_refl|done]. }
  destruct (Z.ltb_spec (s_size s) min_size) as [Hlt|Hge].
  { exists EXIT_FAILURE. eexists. split; [reflexivity|]. split; [done|]. intros _. by apply Hfail. }
  assert (Hlen : 154 <= s_size s) by exact Hge. unfold s_size in Hlen.
  destruct (read_whole fault s) as (all & got & s1 & -> & Hs1 & Hgot & _); [unfold s_size; lia|].
  destruct all; cbn [negb].
  2: { exists EXIT_FAILURE. eexists. split; [reflexivity|]. split; [done|]. intros _. by apply Hfail. }
  rewrite (Hgot eq_refl). destruct (find_checksum_spec (s_bytes s)) as (r & -> & Hr). destruct r as [q|].
  2: { exists EXIT_FAILURE. eexists. split; [reflexivity|]. split; [done|]. intros _. by apply Hfail. }
  pose proof (found_fits _ _ Hr) as Hfit. destruct Hr as (p & -> & _ & _ & Hm & Hfirst).
  fold (checksum_bytes b2sum reset). cbn [fseek_set Z.ltb].
  set (new := splice (s_bytes s) (Z.of_nat (p + sig_len)) (checksum_bytes b2sum reset)).
  assert (Hnew : length new = length (s_bytes s)) by apply length_splice.
  set (s2 := Stream (s_bytes s1) 0 (s_ops s1)).
  destruct (fwrite_cases fault new s2) as (all & put & p2 & Ew & Hall & [rest Hput] & Hnf);
    [lia|cbn; lia|unfold s_size; cbn; rewrite Hs1; lia|].
  change (fseek_set 0 s1) with (true, s2). cbv beta iota. rewrite Ew. cbn [s_bytes s2] in *.
  assert (Hover : splice (s_bytes s1) 0 new = new).
  { rewrite Hs1. apply list_eq. intros i. rewrite splice_lookup by lia. destruct (decide _) as [|Hi].
    - f_equal. lia.
    - rewrite !lookup_ge_None_2 by lia. done. }
  destruct all; cbn [negb].
  - exists EXIT_SUCCESS. eexists. split; [reflexivity|]. split; [|done]. intros _. exists p. rewrite (Hall eq_refl).
    split; [done|]. split; [|split; [unfold sig_len in *; lia|exact Hover]]. intros p' Hp'. apply Hfirst. lia.
  - exists EXIT_FAILURE. eexists. split; [reflexivity|]. split; [done|]. intros _. split.
    + exists (Z.of_nat (p + sig_len)). rewrite <-Hs1 at 1. fold new. rewrite <-Hover.
      eapply splice_mixed; [done|rewrite Hs1; change (s_pos s2) with 0; lia|exact Hput].
    + intros Hn. by specialize (Hnf (Hn _)).
Qed.

(** The search stops too early: its bound is for the first byte of a signature
    but is applied to the last, so a signature in the last 25 places where it fits
    together with its checksum is never found. A file of the smallest size that
    is accepted can never be enrolled. *)
Theorem near_end_signature_missed :
  exists boot p, match_at boot p sig_len /\ (p + sig_len + 128 <= length boot)%nat /\ min_size <= Z.of_nat (length boot) /\
    forall fault b2sum reset pos ops, exists s',
      enroll_file fault b2sum reset (Stream boot pos ops) = Some (EXIT_FAILURE, s') /\ s_bytes s' = boot.
Proof.
  exists (CONFIG_B2SUM_SIGNATURE ++ repeat 48 128), 0%nat.
  split. { intros k Hk. apply lookup_app_l. exact Hk. }
  split; [by vm_compute|]. split; [by vm_compute|]. intros fault b2sum reset pos ops.
  set (boot := CONFIG_B2SUM_SIGNATURE ++ repeat 48 128). unfold enroll_file.
  rewrite (proj2 (Z.ltb_ge _ _)) by (vm_compute; discriminate).
  destruct (read_whole fault (Stream boot pos ops)) as (all & got & s1 & -> & Hs1 & Hgot & _); [by vm_compute|].
  destruct all; cbn [negb]; [|by exists s1].
  rewrite (Hgot eq_refl). cbn [s_bytes].
  assert (E : find_checksum boot = Some None) by (vm_compute; reflexivity). rewrite E. by exists s1.
Qed.

(** A boot loader of 300 bytes with the signature at byte 100, reset. *)
Definition demo_loader : list Z := repeat 1 100 ++ CONFIG_B2SUM_SIGNATURE ++ repeat 2 174.

Lemma enroll_patches_checksum_witness : exists code s',
  enroll_file (fun _ => None) "" true (Stream demo_loader 0 0) = Some (code, s') /\
  (code = EXIT_FAILURE -> s_bytes s' = demo_loader).
Proof.
  destruct (enroll_patches_checksum (fun _ => None) "" true (Stream demo_loader 0 0)) as (code & s' & E & _ & H).
  - left. reflexivity.
  - exists code, s'. split; [exact E|]. intros Hc. exact (proj2 (H Hc) (fun _ => eq_refl)).
Defined.
