(* ===== verification/Structs.v ===== *)
(** The structures of the kernel and of the tool, laid out as Layout.v says, against the
    offsets by which the rest of the development, the assembly stubs, the processor and
    the disk formats address them. *)

From Stdlib Require Import String.
From S2P Require Import Prelude Mem CString Pmm Heap Sched Context Gdt Idt Kmain Layout.
From S2P Require Import LimineFormat LimineDisk LimineInstall.

(** ** Declarations *)

Section Declarations.
#[local] Open Scope string_scope.
#[local] Open Scope list_scope.
#[local] Open Scope Z_scope.

Definition struct_registers_t : cstruct := CStruct true [
  ("r15", uint64_t); ("r14", uint64_t); ("r13", uint64_t); ("r12", uint64_t); ("r11", uint64_t);
  ("r10", uint64_t); ("r9", uint64_t); ("r8", uint64_t);
  ("rbp", uint64_t); ("rdi", uint64_t); ("rsi", uint64_t); ("rdx", uint64_t); ("rcx", uint64_t);
  ("rbx", uint64_t); ("rax", uint64_t);
  ("int_no", uint64_t); ("error_code", uint64_t);
  ("rip", uint64_t); ("cs", uint64_t); ("rflags", uint64_t); ("rsp", uint64_t); ("ss", uint64_t)].

Definition struct_task_regs_t : cstruct := CStruct true [
  ("r15", uint64_t); ("r14", uint64_t); ("r13", uint64_t); ("r12", uint64_t); ("r11", uint64_t);
  ("r10", uint64_t); ("r9", uint64_t); ("r8", uint64_t);
  ("rbp", uint64_t); ("rdi", uint64_t); ("rsi", uint64_t); ("rdx", uint64_t); ("rcx", uint64_t);
  ("rbx", uint64_t); ("rax", uint64_t);
  ("int_no", uint64_t); ("error_code", uint64_t);
  ("rip", uint64_t); ("cs", uint64_t); ("rflags", uint64_t); ("rsp", uint64_t); ("ss", uint64_t)].

Definition struct_heap_block : cstruct := CStruct false [("size", uint64_t); ("next", ptr); ("free", uint32_t)].

Definition struct_gdt_ptr_t : cstruct := CStruct true [("limit", uint16_t); ("base", uint64_t)].

Definition struct_idt_entry_t : cstruct := CStruct true [
  ("base_low", uint16_t); ("selector", uint16_t); ("ist", uint8_t); ("flags", uint8_t);
  ("base_mid", uint16_t); ("base_high", uint32_t); ("reserved", uint32_t)].

Definition struct_idt_ptr_t : cstruct := CStruct true [("limit", uint16_t); ("base", uint64_t)].

Definition struct_gpt_table_header : cstruct := CStruct false [
  ("signature", array uint8_t 8); ("revision", uint32_t); ("header_size", uint32_t); ("crc32", uint32_t);
  ("_reserved0", uint32_t); ("my_lba", uint64_t); ("alternate_lba", uint64_t); ("first_usable_lba", uint64_t);
  ("last_usable_lba", uint64_t); ("disk_guid", array uint64_t 2); ("partition_entry_lba", uint64_t);
  ("number_of_partition_entries", uint32_t); ("size_of_partition_entry", uint32_t);
  ("partition_entry_array_crc32", uint32_t)].

Definition struct_gpt_entry : cstruct := CStruct false [
  ("partition_type_guid", array uint64_t 2); ("unique_partition_guid", array uint64_t 2);
  ("starting_lba", uint64_t); ("ending_lba", uint64_t); ("attributes", uint64_t);
  ("partition_name", array uint16_t 36)].

(** The members of [registers_t], by name, for an interrupt that pushes [err] and
    [vector] over the registers [c]. *)
Definition register_values (err vector : Z) (c : cpu) : list (string * Z) := [
  ("rax", c_rax c); ("rbx", c_rbx c); ("rcx", c_rcx c); ("rdx", c_rdx c); ("rsi", c_rsi c); ("rdi", c_rdi c);
  ("rbp", c_rbp c); ("r8", c_r8 c); ("r9", c_r9 c); ("r10", c_r10 c); ("r11", c_r11 c); ("r12", c_r12 c);
  ("r13", c_r13 c); ("r14", c_r14 c); ("r15", c_r15 c); ("int_no", vector); ("error_code", err);
  ("rip", c_rip c); ("cs", c_cs c); ("rflags", c_rflags c); ("rsp", c_rsp c); ("ss", c_ss c)].
End Declarations.

(** ** Offsets used elsewhere *)

Lemma struct_oks : Forall struct_ok [struct_registers_t; struct_task_regs_t; struct_heap_block; struct_gdt_ptr_t;
  struct_idt_entry_t; struct_idt_ptr_t; struct_gpt_table_header; struct_gpt_entry].
Proof. by apply (bool_decide_unpack _); vm_compute. Qed.

Lemma register_offsets :
  (offsetof struct_registers_t "int_no", offsetof struct_registers_t "error_code") = (Some off_int_no, Some off_error_code) /\
  (offsetof struct_task_regs_t "rip", offsetof struct_task_regs_t "cs", offsetof struct_task_regs_t "rflags",
   offsetof struct_task_regs_t "rsp", offsetof struct_task_regs_t "ss") =
    (Some off_rip, Some off_cs, Some off_rflags, Some off_rsp, Some off_ss) /\
  sizeof (struct_type struct_task_regs_t) = sizeof_regs.
Proof. by repeat split. Qed.

Section Heap.
Context {S : Type} `{AddrSpace S}.

(** [int free] is read as the 32-bit word at 16; the structure is padded to 24 bytes. *)
Lemma heap_block_fields (s : S) b :
  ld_field struct_heap_block "next" s b = Some (b_next s b) /\
  ld_field struct_heap_block "free" s b = Some (b_free s b) /\
  sizeof (struct_type struct_heap_block) = sizeof_block.
Proof. by repeat split. Qed.
End Heap.

(** A packed structure of integers as the little-endian word of its bytes. *)
Definition struct_word (st : cstruct) (vs : list Z) : Z :=
  foldr (fun ov w => 2 ^ (8 * ov.1) * ov.2 + w) 0 (zip (member_offsets st) vs).

Lemma idt_entry_layout e :
  idt_word e = struct_word struct_idt_entry_t
    [ib_low e; i_selector e; i_ist e; i_flags e; ib_mid e; ib_high e; i_reserved e] /\
  sizeof (struct_type struct_idt_entry_t) = 16.
Proof.
  split; [|done]. unfold idt_word, struct_word. change (member_offsets struct_idt_entry_t) with [0; 2; 4; 5; 6; 8; 12].
  cbn [zip zip_with foldr fst snd]. change (8 * 0) with 0. change (8 * 2) with 16. change (8 * 4) with 32.
  change (8 * 5) with 40. change (8 * 6) with 48. change (8 * 8) with 64. change (8 * 12) with 96. lia.
Qed.

Lemma descriptor_pointers :
  member_offsets struct_gdt_ptr_t = [0; 2] /\ member_offsets struct_idt_ptr_t = [0; 2] /\
  sizeof (struct_type struct_gdt_ptr_t) = 10 /\ sizeof (struct_type struct_idt_ptr_t) = 10.
Proof. done. Qed.

Section Gpt.
Context (be : bool).

(** An integer member of a structure read from the disk. *)
Definition load_member (st : cstruct) (f : string) (bs : list Z) : option Z :=
  (fun ot => field be (Z.to_nat (sizeof ot.2)) ot.1 bs) <$> member st f.

Lemma gpt_header_layout bs :
  let h := load_gpt_table_header be bs in
  load_member struct_gpt_table_header "alternate_lba" bs = Some (alternate_lba h) /\
  load_member struct_gpt_table_header "partition_entry_lba" bs = Some (partition_entry_lba h) /\
  load_member struct_gpt_table_header "number_of_partition_entries" bs = Some (number_of_partition_entries h) /\
  load_member struct_gpt_table_header "size_of_partition_entry" bs = Some (size_of_partition_entry h) /\
  sizeof (struct_type struct_gpt_table_header) = sizeof_gpt_table_header.
Proof. by repeat split. Qed.

Lemma gpt_entry_layout bs :
  let e := load_gpt_entry be bs in
  load_member struct_gpt_entry "starting_lba" bs = Some (starting_lba e) /\
  load_member struct_gpt_entry "ending_lba" bs = Some (ending_lba e) /\
  sizeof (struct_type struct_gpt_entry) = sizeof_gpt_entry.
Proof. by repeat split. Qed.
End Gpt.

(** ** The frame of an interrupt *)

(** C20 What the assembly pushes is the [registers_t] that the handlers are given: after
    the processor and the stub have pushed, every member of the structure at the stack
    pointer reads, by its name in C, the register of that name, the vector or the error
    code; and [scheduler.h] declares the same layout for the frames it builds itself. *)
Theorem frame_members err vector c m f v :
  cpu_ok c -> 192 <= c_rsp c -> 0 <= err < 2 ^ 64 -> 0 <= vector < 2 ^ 64 ->
  (f, v) ∈ register_values err vector c ->
  exists frame m', irq_entry err vector c m = (frame, m') /\
    ld_field struct_registers_t f m' frame = Some v /\ ld_field struct_task_regs_t f m' frame = Some v.
Proof.
  intros Hc Hr He Hv Hin. destruct (irq_entry_frame err vector c m Hc Hr He Hv) as (m' & E & Hw & _).
  exists (frame_base c), m'. split; [exact E|]. enough (H : ld_field struct_registers_t f m' (frame_base c) = Some v) by done.
  unfold frame_words, cpu_words in Hw. cbn [app words_at] in Hw. rewrite <-!Z.add_assoc in Hw.
  repeat match goal with H : _ /\ _ |- _ => destruct H as [? H] end.
  unfold register_values in Hin.
  repeat (apply elem_of_cons in Hin as [[= -> ->]|Hin]; [|]); [..|by apply elem_of_nil in Hin];
    unfold ld_field; cbn -[ld_le Z.add]; f_equal; rewrite ?Z.add_0_r; assumption.
Qed.

Lemma frame_members_witness : exists frame m', irq_entry 14 33 demo_cpu ∅ = (frame, m') /\
  ld_field struct_registers_t "rip" m' frame = Some 0x401000 /\ ld_field struct_task_regs_t "rip" m' frame = Some 0x401000.
Proof.
  apply (frame_members 14 33 demo_cpu ∅ "rip" 0x401000); [exact demo_cpu_ok|vm_compute; discriminate|lia|lia|].
  unfold register_values. repeat (apply list_elem_of_here || apply list_elem_of_further).
Defined.
